(* ===== verification/_CoqProject ===== *)
-Q . S2P
Prelude.v
Regions.v
FrameAllocator.v
FrameSpec.v
FrameStats.v
FrameInit.v
PhysMem.v
FrameTheorems.v
Block.v
ByteStr.v
Bpb.v
Fat32.v
Volume.v
Files.v
FatTheorems.v
Dir.v
DirSpec.v
DirTheorems.v
Vfs.v
VfsSpec.v
VfsFiles.v
VfsTheorems.v
VfsFds.v
Ports.v
Ata.v
AtaSpec.v
AtaTheorems.v
Mbr.v
Elf.v
Pci.v
Vga.v
Text.v
CpuInfo.v
SysInfo.v
Boot.v
Paging.v
Gdt.v
Machine.v
Context.v
UserMode.v
Scancodes.v
Time.v
Terminal.v
TerminalTheorems.v
Vmm.v
VmmSpec.v
VmmTheorems.v
VmmInstance.v
Process.v
ProcessTheorems.v
ProcessSlots.v
UserMemory.v
ProcessInstance.v
Shell.v
Commands.v
Console.v
Interrupts.v
Serial.v
Answers.v
AtaInit.v
KernelMain.v
BootTheorems.v
BootDisk.v
BootStub.v
StubTheorems.v
PowerOn.v
BootLoader.v
Userland.v
