(* ===== verification/Prelude.v ===== *)
(** * Arcadia OS: verification library

    This library models the Arcadia OS kernel (src/kernel), its UEFI boot loader
    (src/boot) and the small crates beside it in Rocq, and proves what makes the parts
    correct, alone and composed. It follows the Rust code definition by definition and
    keeps its names; each file names the source file it models. This file is the prelude
    of all others: outcomes, the monad of effects, machine integers, lists and ranges,
    and their tactics.

    ** How the code is modelled

    - A piece of code with effects on a state [S] is a function [M S A], from [S] to an
      [outcome] of a value and a new state. [Panic] is a Rust panic (index out of range,
      division by zero, [unwrap] of nothing, a constructor of the x86_64 crate that
      rejects its argument), [UB] the undefined behaviour of an [unsafe] block (a write
      outside the VGA memory, a read past a slice), [OutOfFuel] a loop that the fuel did
      not suffice for. The [?] operator is [x ←? m; k].
    - Machine integers are [Z] with their wrap-around written out ([wrap w z], [+₆₄]); the
      kernel is built with the release profile, where arithmetic wraps.
    - Strings are lists of UTF-8 bytes (ByteStr.v), except for the input line of the
      terminal, which is a list of characters; numbers are formatted by Text.v. A method
      that fills a [&mut] buffer answers the new buffer.
    - Static variables are fields of the state of the component, its [unsafe] global
      instances records with an initialisation flag ([Global], [VmmGlobal], [SysGlobals]).
    - What belongs to other crates or to the hardware is a class, with its documented
      behaviour as laws and a concrete instance that satisfies them, on which the
      witnesses run: [PhysAddrApi] / [phys52], [VirtAddrApi] / [virt48],
      [PageMapper] and [PageMapperLaws] / [small_mapper], [MemoryMapper] / [reader]
      (OffsetPageTable), [TableApi] and
      [TableLaws] (page tables in memory), [GdtApi], [GdtLaws] and [GdtEntries] / [counting_gdt] and
      [listed_gdt],
      [PortIO] with [PortsAnswer], [SerialOut], [SerialPort], [PciSpace] and [AtaHardware]
      (port instructions and what is behind them), [Pics] (pic8259), [Keyboard]
      (pc_keyboard), [Uart] and [UartLaws] / [com_uart] (uart_16550), [Uefi] and [UefiLaws] /
      [firmware]. The instruction [cpuid] is a
      function from leaves to registers, physical memory one from addresses to bytes.
    - Interfaces between components are classes too: [BlockDevice] with [BlockDeviceLaws],
      against which the file system is proved and which a RAM disk and the ATA driver
      discharge; and [frame_source], what the page mapper asks of a frame allocator, which
      the physical memory manager discharges ([pmm_source_frames]).

    ** The parts

    Physical memory (kernel/src/memory/physmem.rs). Regions.v: regions and the parser of the
    PVH start info. FrameAllocator.v: [PhysicalFrameAllocator] on its bitmap. PhysMem.v:
    [PhysicalMemoryManager] and the global [PMM]. FrameSpec.v, FrameStats.v and FrameInit.v
    prove each operation against the set of reserved frames and the invariant [frames_wf];
    FrameTheorems.v has the contract: every sequence of calls refines an abstract allocator
    of sets, first fit, lowest free frame, the effect of a memory map, and where the code
    falls short.

    Virtual memory (memory/vmm.rs). Paging.v: page tables, entry by entry, and the laws of
    the mapper. Vmm.v: [VirtualMemoryManager] and its globals. VmmSpec.v: the walks and the
    invariant [vmm_ok] (tracked regions and statistics are those of the tables, table frames
    are reserved in the allocator). VmmTheorems.v: the invariant over every sequence of
    operations with the TLB invalidations, translation after mapping, round trips, outcomes
    of remapping, discovery of the boot tables. VmmInstance.v: a mapper and the witnesses.

    Block devices, file system, disk (block/, fs/, drivers/ata). Block.v: the interface.
    Bpb.v: packed structures and short names. Fat32.v: table, clusters, files; Dir.v:
    directories; Vfs.v: [VfsManager]. Volume.v abstracts sectors to a volume (table entries
    and cluster contents) and shows that the four primitives implement its maps; Files.v,
    FatTheorems.v, DirSpec.v, DirTheorems.v, VfsSpec.v, VfsFiles.v, VfsTheorems.v and
    VfsFds.v prove chains, files, directories, paths, creation and open descriptors on it,
    and [init_vfs]. Ports.v, Ata.v, AtaSpec.v and AtaTheorems.v: the driver on a drive
    modelled as an automaton, up to the laws of the block device. The drive is busy for a
    time after a command and after a reset, counted in reads of its status, and takes
    nothing meanwhile. Mbr.v, Pci.v: the partition table and the PCI scan.

    Processes (process/, elf/, arch/gdt.rs). Gdt.v: segments. Machine.v: memory, page table
    walks, registers and the instructions of the [asm!] blocks. Context.v: the syscall entry
    and the context switch, instruction by instruction. UserMode.v: the jump to user mode,
    where instructions, stack and descriptors are read through the tables of the process and
    [iretq] checks its selectors. Elf.v: the parser. Process.v: process table, address
    spaces, loading, entry, exit, user pointers and system calls, on the bytes of physical
    memory. ProcessTheorems.v, ProcessSlots.v and UserMemory.v prove
    what becomes of the initial context of a process, the freeing of an address space,
    the table over time, and that the check of user pointers accepts exactly the ranges
    that the raw tables map for the user. ProcessInstance.v: a table walker, witnesses.

    Terminal and shell (terminal/mod.rs, vga_buffer.rs, time/). Scancodes.v: the ring
    between the keyboard interrupt and the terminal, with the interrupt between any two
    steps of the reader. Terminal.v, TerminalTheorems.v: [read_line]. Vga.v: the 25 by 80
    cells. Shell.v, Commands.v: every command. Console.v: the dispatch, on the state of all
    components ([Console], [Session]); a component's code runs on its part with [zoom].
    Time.v: the timer, [sleep_ms] and the hardware interrupt handlers.
    CpuInfo.v, SysInfo.v: the reports.

    Boot (boot/src/lib.rs, arch/boot_entry.rs, arch/idt.rs, interrupts/). BootLoader.v:
    [efi_main]. Boot.v: the early output before any module works. Interrupts.v: the
    interrupt table, exceptions, panics and the controllers. Serial.v: the serial port
    behind [serial_print!], initialised by its first use. KernelMain.v:
    [arcadia_kernel_main] as one function over the init functions of the components,
    in the code's order (output, memory, reports, segments, interrupts, PCI, disk, file
    system, screen, terminal), and [Terminal::run]. Answers.v: the devices' initialisation
    completes whatever their ports answer. BootTheorems.v: the boot as a whole. AtaInit.v: the
    driver's initialisation on a machine with a drive, which it finds when the reset is over in
    time, and misses otherwise. BootDisk.v: the boot that mounts it.

    Before the kernel (arch/boot64.asm). BootStub.v: the stub from the PVH entry point to
    the call of [arcadia_kernel_main], instruction by instruction, on a processor with
    control registers, segment descriptors and the page tables that it walks once paging is
    on. StubTheorems.v: its run, in parts and as a whole. PowerOn.v: its tables as the kernel
    reads them, the start info it moved, and the boot from the entry point to the prompt.

    Userland.v: the stubs of flux, editor and libs/shared.

    ** The theorems

    The properties carry the numbers C1 to C40 in their comments, in the order of their
    importance.
    - Refinement: the frame allocator and its abstract specification; the ATA driver and the
      block device; path resolution and a walk over listings.
    - Invariants: of the virtual memory manager, the process table, the terminal, the table
      of open files; the keyboard ring as a bounded queue under interrupts.
    - Round trips: files, table entries, sectors, mappings, the partition table.
    - Composition: a file written by a command is printed by another; a line typed at the
      serial port is edited, dispatched and served; the boot, from the loader's entry point on,
      establishes the invariants that the other theorems start from and reaches the prompt,
      with the volume of the disk mounted when there is one.
    - Functional behaviour with error branches: directories, mapping, loading, launching,
      system calls, the interrupt wiring, the boot loader.
    Theorems without a number are part of the same development; many of them say where the
    code does not do what it means to.

    ** Bounds and fuel

    Loops over ranges are recursion on the list of indices. Loops that the source does not
    bound by a range take fuel, always with a theorem that it is enough: the search for a free
    frame or a block (the tracked frames), following a FAT chain (100002 steps, one more than
    the source's own limit), extending a file (the clusters it lacks), resolving a path and
    decoding text (its length), the check of a user pointer (the pages of the range), digits of
    a number (64). The polling loops of the drivers have the source's own limits. [read_line] and
    [Terminal_run] take the keyboard input that arrives, [sleep_ms] the interrupts
    that wake it; their theorems say how much is enough.

    ** Not modelled

    - The memory of the heap beyond where it lies: the allocator is the crate
      linked_list_allocator. Allocation failure is not modelled.
    - Floating point: the two ratios of [MemoryStatistics] and the text of
      [PartitionEntry::size_human], which is a parameter of the commands that print it.
    - Address translation of the kernel's own accesses: except in the boot stub and on the way
      to user mode, the kernel's reads and writes at physical addresses (page tables, frames,
      stacks) take the identity mapping of the boot tables for granted, also where the code
      runs on the tables of a process, as in [validate_user_ptr] and [exit_process]. User
      addresses go through the tables.
    - The memory of the firmware: [UefiLaws] describes services that do not depend on the
      memory at 1 MiB, which the loader overwrites with or without the pages, and a buffer
      that does not overlap it.
    - The encoding of the serial output: [k_serial] is the text handed to the port; Serial.v
      says what the driver sends for it, three bytes for each backspace or delete.
    - The serial messages of the memory managers and of the file system during
      the boot, and the contents of the embedded program (a parameter, [INIT_ELF]).
    - Interrupts during the boot: the phases run as one sequence. Where an interrupt can
      come between two steps of code that shares state with its handler, in the keyboard
      ring, it is modelled.
    - The TLB itself: the invalidations issued are logged and proved to cover every changed
      page. *)

From stdpp Require Import base numbers list gmap strings.

#[local] Open Scope Z_scope.

(** ** Outcomes, effects and errors *)

(** What running a piece of kernel code can lead to: a value, a Rust panic
    (index out of range, [unwrap] of nothing, division by zero ...), undefined
    behaviour of an [unsafe] block, or (a model artefact, excluded by the
    termination theorems) a loop that did not end within the fuel given. *)
Inductive outcome (A : Type) : Type :=
  | Ret (a : A)
  | Panic
  | UB
  | OutOfFuel.
Arguments Ret {A} a.
Arguments Panic {A}.
Arguments UB {A}.
Arguments OutOfFuel {A}.

(** Rust's [Result]. *)
Inductive result (A E : Type) : Type :=
  | Ok (a : A)
  | Err (e : E).
Arguments Ok {A E} a.
Arguments Err {A E} e.

#[export] Instance result_eq_dec {A E} `{EqDecision A, EqDecision E} : EqDecision (result A E).
Proof. solve_decision. Defined.

(** Code with effects on a state [S]. *)
Definition M (S A : Type) : Type := S → outcome (A * S).

#[export] Instance M_ret S : MRet (M S) := λ A a s, Ret (a, s).
#[export] Instance M_bind S : MBind (M S) := λ A B k m s,
  match m s with
  | Ret (a, s') => k a s'
  | Panic => Panic
  | UB => UB
  | OutOfFuel => OutOfFuel
  end.

Definition get {S} : M S S := λ s, Ret (s, s).
Definition put {S} (s : S) : M S unit := λ _, Ret (tt, s).
Definition modify {S} (f : S → S) : M S unit := λ s, Ret (tt, f s).
Definition gets {S A} (f : S → A) : M S A := λ s, Ret (f s, s).
Definition liftO {S A} (o : outcome A) : M S A := λ s,
  match o with
  | Ret a => Ret (a, s)
  | Panic => Panic
  | UB => UB
  | OutOfFuel => OutOfFuel
  end.

#[export] Instance outcome_ret : MRet outcome := λ A a, Ret a.
#[export] Instance outcome_bind : MBind outcome := λ A B k m,
  match m with
  | Ret a => k a
  | Panic => Panic
  | UB => UB
  | OutOfFuel => OutOfFuel
  end.

(** [m.map_err(f)] *)
Definition map_err {S A E F} (f : E → F) (m : M S (result A E)) : M S (result A F) :=
  r ← m; mret (match r with Ok a => Ok a | Err e => Err (f e) end).

(** [opt.ok_or(e)] *)
Definition ok_or {A E} (o : option A) (e : E) : result A E :=
  match o with Some a => Ok a | None => Err e end.

Declare Scope rust_scope.
Delimit Scope rust_scope with rust.

(** The [?] operator: [x ←? m; k] returns early with the error of [m]. *)
Notation "x ←? m ; k" :=
  (mbind (λ r_, match r_ with Ok x => k | Err e_ => mret (Err e_) end) m)
  (at level 20, m at level 100, k at level 200, only parsing) : rust_scope.
Notation "' x ←? m ; k" :=
  (mbind (λ r_, match r_ with Ok x => k | Err e_ => mret (Err e_) end) m)
  (at level 20, x pattern, m at level 100, k at level 200, only parsing) : rust_scope.

(** Evaluation of [m] from [s] ends normally. *)
Definition returns {S A} (m : M S A) (s : S) (a : A) (s' : S) : Prop := m s = Ret (a, s').

Lemma bind_Ret {S A B} (m : M S A) (k : A → M S B) s a s' :
  m s = Ret (a, s') → (m ≫= k) s = k a s'.
Proof. intros H. unfold mbind, M_bind. by rewrite H. Qed.

Lemma bind_Panic {S A B} (m : M S A) (k : A → M S B) s :
  m s = Panic → (m ≫= k) s = Panic.
Proof. intros H. unfold mbind, M_bind. by rewrite H. Qed.

Lemma bind_get {S A} (k : S → M S A) s : (get ≫= k) s = k s s.
Proof. done. Qed.

Lemma bind_gets {S A B} (f : S → A) (k : A → M S B) s : (gets f ≫= k) s = k (f s) s.
Proof. done. Qed.

Lemma bind_modify {S A} (f : S → S) (k : unit → M S A) s : (modify f ≫= k) s = k tt (f s).
Proof. done. Qed.

Lemma bind_mret {S A B} (a : A) (k : A → M S B) s : (mret a ≫= k) s = k a s.
Proof. done. Qed.

Lemma bind_assoc {S A B C} (m : M S A) (f : A → M S B) (g : B → M S C) s :
  ((m ≫= f) ≫= g) s = (m ≫= λ a, f a ≫= g) s.
Proof. unfold mbind, M_bind. by destruct (m s) as [[a s']| | |]. Qed.

Lemma bind_Ret_cont {S A B} (m : M S A) (k : A → M S B) s :
  (m ≫= k) s = match m s with
    | Ret (a, s') => k a s'
    | Panic => Panic
    | UB => UB
    | OutOfFuel => OutOfFuel
    end.
Proof. done. Qed.

Lemma liftO_Ret {S A} (o : outcome A) (s : S) a : o = Ret a → liftO o s = Ret (a, s).
Proof. by intros ->. Qed.

(** Symbolic execution: [msteps] runs the administrative steps of a computation,
    [mrun H] runs a first step whose result [H] gives. *)
Ltac msteps :=
  repeat first
    [ rewrite bind_get | rewrite bind_gets | rewrite bind_modify | rewrite bind_mret ];
  cbn beta; cbn [compose].
Ltac mrun H := first [rewrite (bind_Ret _ _ _ _ _ H) | rewrite H]; cbn beta.

(** ** Machine integers

    [u8], [u16], [u32], [u64] and [usize] (64 bits on x86_64) are [Z] in range;
    the kernel is built with the release profile, where [+], [-] and [*] wrap. *)

Definition wrap (w z : Z) : Z := z mod 2 ^ w.

Notation "a +₆₄ b" := (wrap 64 (a + b)) (at level 50, left associativity) : rust_scope.
Notation "a -₆₄ b" := (wrap 64 (a - b)) (at level 50, left associativity) : rust_scope.
Notation "a *₆₄ b" := (wrap 64 (a * b)) (at level 40, left associativity) : rust_scope.
Notation "a +₃₂ b" := (wrap 32 (a + b)) (at level 50, left associativity) : rust_scope.
Notation "a -₃₂ b" := (wrap 32 (a - b)) (at level 50, left associativity) : rust_scope.
Notation "a *₃₂ b" := (wrap 32 (a * b)) (at level 40, left associativity) : rust_scope.

(** [a.saturating_sub(b)] *)
Definition sat_sub (a b : Z) : Z := Z.max 0 (a - b).

(** Integer division and remainder panic on a zero divisor. *)
Definition div_rust (a b : Z) : outcome Z := if b =? 0 then Panic else Ret (a / b).
Definition rem_rust (a b : Z) : outcome Z := if b =? 0 then Panic else Ret (a mod b).

(** [!x] on a [u8]. *)
Definition u8_not (x : Z) : Z := Z.lxor x 255.

(** [x & (1 << i) != 0]. *)
Definition bit_set (x i : Z) : bool := negb (Z.land x (Z.shiftl 1 i) =? 0).

Lemma wrap_small w z : 0 ≤ z < 2 ^ w → wrap w z = z.
Proof. apply Z.mod_small. Qed.

Lemma wrap_range w z : 0 ≤ w → 0 ≤ wrap w z < 2 ^ w.
Proof. intros. apply Z.mod_pos_bound. lia. Qed.

Lemma wrap_add w a b : wrap w (wrap w a + b) = wrap w (a + b).
Proof. unfold wrap. apply Zplus_mod_idemp_l. Qed.

Lemma wrap_add_r w a b : wrap w (a + wrap w b) = wrap w (a + b).
Proof. unfold wrap. apply Zplus_mod_idemp_r. Qed.

Lemma wrap64_small z : 0 ≤ z < 18446744073709551616 → wrap 64 z = z.
Proof. exact (wrap_small 64 z). Qed.

Lemma wrap32_small z : 0 ≤ z < 4294967296 → wrap 32 z = z.
Proof. exact (wrap_small 32 z). Qed.

(** [lia] for goals with [/] and [mod]. *)
Ltac dlia := Z.div_mod_to_equations; lia.

(** Drop the wrap-around of every machine operation that cannot overflow. *)
Ltac nowrap :=
  repeat match goal with
    | |- context [wrap 64 ?z] => rewrite (wrap64_small z) by (lia || dlia)
    | |- context [wrap 32 ?z] => rewrite (wrap32_small z) by (lia || dlia)
    end.

Lemma bit_set_testbit x i : 0 ≤ i → bit_set x i = Z.testbit x i.
Proof.
  intros Hi. unfold bit_set.
  assert (Z.land x (Z.shiftl 1 i) = if Z.testbit x i then 2 ^ i else 0) as ->.
  { apply Z.bits_inj'. intros n Hn.
    rewrite Z.land_spec, Z.shiftl_1_l, (Z.pow2_bits_eqb i n) by done.
    destruct (Z.eqb_spec i n) as [->|Hne].
    - destruct (Z.testbit x n); by rewrite ?Z.pow2_bits_true, ?Z.bits_0.
    - rewrite andb_false_r. destruct (Z.testbit x i); [|by rewrite Z.bits_0].
      by rewrite Z.pow2_bits_false. }
  destruct (Z.testbit x i); [|done].
  assert (2 ^ i ≠ 0) by lia. by destruct (Z.eqb_spec (2 ^ i) 0).
Qed.

Lemma land_low_high a b n : 0 ≤ n → 0 ≤ a < 2 ^ n → Z.land a (b * 2 ^ n) = 0.
Proof.
  intros Hn Ha. apply Z.bits_inj'. intros i Hi. rewrite Z.land_spec, Z.bits_0.
  destruct (Z.lt_ge_cases i n).
  - rewrite Z.mul_pow2_bits_low by lia. apply andb_false_r.
  - rewrite <- (Z.mod_small a (2 ^ n)), Z.mod_pow2_bits_high by lia. done.
Qed.

Lemma lor_low_high a b n : 0 ≤ n → 0 ≤ a < 2 ^ n → Z.lor a (b * 2 ^ n) = a + b * 2 ^ n.
Proof.
  intros Hn Ha. rewrite Z.add_nocarry_lxor by (by apply land_low_high).
  symmetry. by apply Z.lxor_lor, land_low_high.
Qed.

(** ** Bytes *)

Definition is_byte (b : Z) : Prop := 0 ≤ b < 256.
#[export] Instance is_byte_dec b : Decision (is_byte b).
Proof. unfold is_byte. apply _. Defined.

Definition bytes (l : list Z) : Prop := Forall is_byte l.

Lemma byte_bits_high b i : is_byte b → 8 ≤ i → Z.testbit b i = false.
Proof.
  intros [Hlo Hhi] Hi. destruct (decide (b = 0)) as [->|Hb]; [apply Z.bits_0|].
  apply Z.bits_above_log2; [lia|].
  assert (Z.log2 b < 8) by (apply Z.log2_lt_pow2; lia). lia.
Qed.

Lemma is_byte_bits b : 0 ≤ b → (∀ i, 8 ≤ i → Z.testbit b i = false) → is_byte b.
Proof.
  intros Hlo Hb. split; [done|]. change 256 with (2 ^ 8).
  destruct (decide (b = 0)) as [->|Hne]; [lia|].
  apply Z.log2_lt_pow2; [lia|].
  destruct (Z.lt_ge_cases (Z.log2 b) 8) as [|Hge]; [done|].
  pose proof (Z.bit_log2 b ltac:(lia)) as Ht. rewrite Hb in Ht by done. done.
Qed.

(** [u16::from_le_bytes], [u32::from_le_bytes], [u64::from_le_bytes]. *)
Fixpoint le_val (l : list Z) : Z :=
  match l with
  | [] => 0
  | b :: l => b + 256 * le_val l
  end.

(** [x.to_le_bytes()] for an [n]-byte integer. *)
Fixpoint le_bytes (n : nat) (z : Z) : list Z :=
  match n with
  | O => []
  | S n => z mod 256 :: le_bytes n (z / 256)
  end.

Lemma length_le_bytes n z : length (le_bytes n z) = n.
Proof. revert z. induction n; intros; simpl; auto. Qed.

Lemma le_bytes_bytes n z : bytes (le_bytes n z).
Proof.
  revert z. induction n as [|n IH]; intros z; constructor; [|apply IH].
  unfold is_byte. dlia.
Qed.

Lemma pow256_S n : 256 ^ Z.of_nat (S n) = 256 * 256 ^ Z.of_nat n.
Proof. rewrite Nat2Z.inj_succ, Z.pow_succ_r; lia. Qed.

Lemma le_val_bytes n z : 0 ≤ z < 256 ^ Z.of_nat n → le_val (le_bytes n z) = z.
Proof.
  revert z. induction n as [|n IH]; intros z Hz; simpl; [simpl in Hz; lia|].
  rewrite pow256_S in Hz. rewrite IH by dlia. dlia.
Qed.

Lemma le_val_range l : bytes l → 0 ≤ le_val l < 256 ^ Z.of_nat (length l).
Proof.
  induction 1 as [|b l Hb _ IH]; cbn [le_val length]; [simpl; lia|].
  unfold is_byte in Hb. rewrite pow256_S. lia.
Qed.

Lemma le_bytes_val l : bytes l → le_bytes (length l) (le_val l) = l.
Proof.
  induction 1 as [|b l Hb _ IH]; simpl; [done|]. unfold is_byte in Hb.
  f_equal; [dlia|]. replace ((b + 256 * le_val l) / 256) with (le_val l) by dlia. done.
Qed.

(** ** Slices and vectors: lists indexed by [usize] *)

Definition zlen {A} (l : list A) : Z := Z.of_nat (length l).

(** [l[i]]: panics out of range. *)
Fixpoint zget {A} (l : list A) (i : Z) : outcome A :=
  match l with
  | [] => Panic
  | x :: l => if i =? 0 then Ret x else zget l (i - 1)
  end.

(** [l[i] = x]: panics out of range. *)
Fixpoint zset {A} (l : list A) (i : Z) (x : A) : outcome (list A) :=
  match l with
  | [] => Panic
  | y :: l =>
      if i =? 0 then Ret (x :: l)
      else match zset l (i - 1) x with
           | Ret l' => Ret (y :: l')
           | _ => Panic
           end
  end.

(** [&l[a..b]]: panics when [a > b] or [b > l.len()]. *)
Definition zslice {A} (l : list A) (a b : Z) : outcome (list A) :=
  if (0 <=? a) && (a <=? b) && (b <=? zlen l)
  then Ret (take (Z.to_nat (b - a)) (drop (Z.to_nat a) l))
  else Panic.

(** [l[a..a + src.len()].copy_from_slice(src)] *)
Definition zcopy {A} (l : list A) (a : Z) (src : list A) : outcome (list A) :=
  if (0 <=? a) && (a + zlen src <=? zlen l)
  then Ret (take (Z.to_nat a) l ++ src ++ drop (Z.to_nat (a + zlen src)) l)
  else Panic.

(** [vec![x; n]] *)
Definition zrepeat {A} (n : Z) (x : A) : list A := replicate (Z.to_nat n) x.

Lemma zlen_le_bytes n z : zlen (le_bytes n z) = Z.of_nat n.
Proof. unfold zlen. by rewrite length_le_bytes. Qed.

Lemma zlen_nonneg {A} (l : list A) : 0 ≤ zlen l.
Proof. unfold zlen. lia. Qed.

Lemma zlen_app {A} (l k : list A) : zlen (l ++ k) = zlen l + zlen k.
Proof. unfold zlen. rewrite length_app. lia. Qed.

Lemma zlen_cons {A} (x : A) (l : list A) : zlen (x :: l) = 1 + zlen l.
Proof. unfold zlen. simpl. lia. Qed.

Lemma zlen_nil {A} : zlen (@nil A) = 0.
Proof. done. Qed.

Lemma zlen_take {A} (l : list A) n : zlen (take n l) = Z.min (Z.of_nat n) (zlen l).
Proof. unfold zlen. rewrite length_take. lia. Qed.

Lemma zlen_drop {A} (l : list A) n : zlen (drop n l) = Z.max 0 (zlen l - Z.of_nat n).
Proof. unfold zlen. rewrite length_drop. lia. Qed.

Lemma zlen_repeat {A} n (x : A) : 0 ≤ n → zlen (zrepeat n x) = n.
Proof. unfold zlen, zrepeat. rewrite length_replicate. lia. Qed.

Lemma zlen_insert {A} (l : list A) i x : zlen (<[i := x]> l) = zlen l.
Proof. unfold zlen. by rewrite length_insert. Qed.

Lemma zget_nat {A} (l : list A) (n : nat) :
  zget l (Z.of_nat n) = match l !! n with Some x => Ret x | None => Panic end.
Proof.
  revert n. induction l as [|y l IH]; intros [|n]; cbn [zget lookup list_lookup]; [done..|].
  destruct (Z.eqb_spec (Z.of_nat (S n)) 0); [lia|].
  replace (Z.of_nat (S n) - 1) with (Z.of_nat n) by lia. apply IH.
Qed.

Lemma zset_nat {A} (l : list A) (n : nat) x :
  zset l (Z.of_nat n) x = if decide (n < length l)%nat then Ret (<[n := x]> l) else Panic.
Proof.
  revert n. induction l as [|y l IH]; intros [|n]; cbn [zset insert list_insert length];
    [by case_decide; try lia..|by case_decide; try lia|].
  destruct (Z.eqb_spec (Z.of_nat (S n)) 0); [lia|].
  replace (Z.of_nat (S n) - 1) with (Z.of_nat n) by lia. rewrite IH.
  repeat case_decide; (done || lia).
Qed.

Lemma zget_lookup {A} (l : list A) i x : l !! Z.to_nat i = Some x → 0 ≤ i → zget l i = Ret x.
Proof.
  intros Hx Hi. replace i with (Z.of_nat (Z.to_nat i)) by lia. by rewrite zget_nat, Hx.
Qed.

Lemma zget_total `{Inhabited A} (l : list A) i :
  0 ≤ i < zlen l → zget l i = Ret (l !!! Z.to_nat i).
Proof.
  intros Hi. apply zget_lookup; [|lia]. apply list_lookup_lookup_total_lt.
  unfold zlen in Hi. lia.
Qed.

Lemma zget_panic {A} (l : list A) i : zlen l ≤ i → zget l i = Panic.
Proof.
  intros Hi. pose proof (zlen_nonneg l). replace i with (Z.of_nat (Z.to_nat i)) by lia.
  rewrite zget_nat, lookup_ge_None_2; [done|]. unfold zlen in *. lia.
Qed.

Lemma zset_ok {A} (l : list A) i x :
  0 ≤ i < zlen l → zset l i x = Ret (<[Z.to_nat i := x]> l).
Proof.
  intros Hi. replace i with (Z.of_nat (Z.to_nat i)) at 1 by lia. rewrite zset_nat.
  case_decide; [done|]. unfold zlen in Hi. lia.
Qed.

Lemma zset_middle {A} (l : list A) y r x : zset (l ++ y :: r) (zlen l) x = Ret (l ++ x :: r).
Proof.
  rewrite zset_ok by (rewrite zlen_app, zlen_cons; pose proof (zlen_nonneg l); pose proof (zlen_nonneg r); lia).
  unfold zlen. by rewrite Nat2Z.id, insert_app_r_alt, Nat.sub_diag by lia.
Qed.

Lemma zslice_ok {A} (l : list A) a b :
  0 ≤ a ≤ b → b ≤ zlen l →
  zslice l a b = Ret (take (Z.to_nat (b - a)) (drop (Z.to_nat a) l)).
Proof.
  intros Hab Hb. unfold zslice. destruct (Z.leb_spec 0 a); [|lia].
  destruct (Z.leb_spec a b); [|lia]. destruct (Z.leb_spec b (zlen l)); [done|lia].
Qed.

Lemma zcopy_ok {A} (l : list A) a src :
  0 ≤ a → a + zlen src ≤ zlen l →
  zcopy l a src = Ret (take (Z.to_nat a) l ++ src ++ drop (Z.to_nat (a + zlen src)) l).
Proof.
  intros Ha Hl. unfold zcopy. destruct (Z.leb_spec 0 a); [|lia].
  destruct (Z.leb_spec (a + zlen src) (zlen l)); [done|lia].
Qed.

Lemma zlen_copied {A} (l : list A) a src :
  0 ≤ a → a + zlen src ≤ zlen l →
  zlen (take (Z.to_nat a) l ++ src ++ drop (Z.to_nat (a + zlen src)) l) = zlen l.
Proof.
  intros Ha Hl. pose proof (zlen_nonneg src).
  rewrite !zlen_app, zlen_take, zlen_drop. lia.
Qed.

(** ** Loops *)

(** [for x in l { body(x) }] *)
Fixpoint mfor {S A} (l : list A) (body : A → M S unit) : M S unit :=
  match l with
  | [] => mret tt
  | x :: l => _ ← body x; mfor l body
  end.

(** [for x in l { body(x)?; }] *)
Fixpoint mfor_res {S A E} (l : list A) (body : A → M S (result unit E)) : M S (result unit E) :=
  match l with
  | [] => mret (Ok tt)
  | x :: l =>
      r ← body x;
      match r with
      | Ok _ => mfor_res l body
      | Err e => mret (Err e)
      end
  end.

(** A loop invariant indexed by the prefix of the iteration already done. *)
Lemma mfor_inv {S A} (P : list A → S → Prop) (l : list A) (body : A → M S unit) s :
  P [] s →
  (∀ pre x post s1, l = pre ++ x :: post → P pre s1 →
     ∃ s2, body x s1 = Ret (tt, s2) ∧ P (pre ++ [x]) s2) →
  ∃ s', mfor l body s = Ret (tt, s') ∧ P l s'.
Proof.
  intros H0 Hstep.
  cut (∀ k pre s1, l = pre ++ k → P pre s1 → ∃ s', mfor k body s1 = Ret (tt, s') ∧ P l s').
  { intros H. apply (H l []); [done|done]. }
  induction k as [|x k IH]; intros pre s1 Hl HP.
  - exists s1. rewrite app_nil_r in Hl. by subst.
  - destruct (Hstep pre x k s1 Hl HP) as (s2 & Hb & HP2).
    destruct (IH (pre ++ [x]) s2) as (s' & Hs' & HP'); [by rewrite <- app_assoc|done|].
    exists s'. split; [|done]. simpl. by rewrite (bind_Ret _ _ _ _ _ Hb).
Qed.

Lemma mfor_app {S A} (l l' : list A) (body : A → M S unit) s :
  mfor (l ++ l') body s = (_ ← mfor l body; mfor l' body) s.
Proof.
  revert s. induction l as [|x l IH]; intros s; [done|]. cbn [mfor app]. rewrite bind_assoc, !bind_Ret_cont.
  destruct (body x s) as [[[] s1]| | |]; [|done..]. apply IH.
Qed.

(** Integer ranges [a..b]. *)
Definition range (a b : Z) : list Z := seqZ a (b - a).

Lemma elem_of_range a b x : x ∈ range a b ↔ a ≤ x < b.
Proof. unfold range. rewrite elem_of_seqZ. lia. Qed.

Lemma range_nil a b : b ≤ a → range a b = [].
Proof. intros. unfold range. apply seqZ_nil. lia. Qed.

Lemma range_cons a b : a < b → range a b = a :: range (a + 1) b.
Proof.
  intros. unfold range. rewrite seqZ_cons by lia.
  f_equal. unfold Z.succ. f_equal. lia.
Qed.

Lemma range_snoc a b : a ≤ b → range a (b + 1) = range a b ++ [b].
Proof.
  intros. unfold range. replace (b + 1 - a) with ((b - a) + 1) by lia.
  rewrite seqZ_app by lia. f_equal. replace (a + (b - a)) with b by lia. done.
Qed.

Lemma range_split a b c : a ≤ b ≤ c → range a c = range a b ++ range b c.
Proof.
  intros. unfold range. replace (c - a) with ((b - a) + (c - b)) by lia.
  rewrite seqZ_app by lia. do 2 f_equal; lia.
Qed.

Lemma length_range a b : length (range a b) = Z.to_nat (b - a).
Proof. apply length_seqZ. Qed.

Lemma range_prefix a b pre x post :
  range a b = pre ++ x :: post → pre = range a x ∧ a ≤ x < b ∧ post = range (x + 1) b.
Proof.
  intros Hr. assert (a ≤ b) as Hab.
  { destruct (Z.le_gt_cases a b); [done|]. rewrite range_nil in Hr by lia. by destruct pre. }
  assert (x = a + Z.of_nat (length pre)) as Hx.
  { assert (range a b !! length pre = Some x) as Hl by (rewrite Hr; by apply list_lookup_middle).
    apply lookup_seqZ in Hl. lia. }
  assert (a ≤ x < b) as Hxb.
  { apply elem_of_range. rewrite Hr. rewrite elem_of_app, elem_of_cons. auto. }
  rewrite (range_split a x b), (range_cons x b) in Hr by lia.
  apply app_inj_1 in Hr as [-> Heq]; [|rewrite length_range; lia].
  by simplify_eq.
Qed.

(** A filter that keeps everything. *)
Lemma filter_true {A} (P : A → Prop) `{∀ x, Decision (P x)} (l : list A) : Forall P l → filter P l = l.
Proof. induction 1; [done|]. rewrite filter_cons, decide_True by done. by f_equal. Qed.

Create Rewrite HintDb zlen.
#[export] Hint Rewrite @zlen_app @zlen_cons @zlen_nil @zlen_take @zlen_drop @zlen_insert : zlen.

#[global] Arguments wrap : simpl never.
#[global] Arguments zslice : simpl never.
#[global] Arguments zcopy : simpl never.
#[global] Arguments zrepeat : simpl never.
#[global] Arguments range : simpl never.
#[global] Arguments bit_set : simpl never.
#[global] Arguments sat_sub : simpl never.
