(* ===== verification/Regions.v ===== *)
(** * Memory regions (kernel/src/memory/physmem.rs, lines 52-282 and 1147-1195)

    The data model of the physical memory map: frame constants, region types,
    regions and reserved regions, and [parse_hvm_start_info], which reads the
    PVH memory map out of physical memory.

    [PhysAddr] belongs to the [x86_64] crate: its constructor is the operation
    of the class [PhysAddrApi], its documented contract (an address with a bit
    in 52..64 set is refused with a panic) is [PhysAddrLaws]. *)

From stdpp Require Import base numbers list gmap strings.
From S2P Require Import Prelude.

#[local] Open Scope Z_scope.
#[local] Open Scope rust_scope.

(** ** The [PhysAddr] interface *)

Class PhysAddrApi := { PhysAddr_new : Z → outcome Z }.

Class PhysAddrLaws (P : PhysAddrApi) : Prop := {
  PhysAddr_new_ok : ∀ a, 0 ≤ a < 2 ^ 52 → PhysAddr_new a = Ret a;
  PhysAddr_new_bad : ∀ a, 2 ^ 52 ≤ a < 2 ^ 64 → PhysAddr_new a = Panic;
}.

(** A concrete instance, used by the witnesses. *)
Definition phys52 : PhysAddrApi :=
  {| PhysAddr_new := λ a, if a <? 2 ^ 52 then Ret a else Panic |}.

Lemma phys52_laws : PhysAddrLaws phys52.
Proof.
  split; intros a Ha; unfold PhysAddr_new, phys52; destruct (Z.ltb_spec a (2 ^ 52)); done || lia.
Qed.

(** ** Constants *)

Definition FRAME_SIZE : Z := 4096.
Definition MAX_TRACKED_FRAMES : Z := 4 * 1024 * 1024 * 1024 / FRAME_SIZE.
Definition BITMAP_SIZE : Z := (MAX_TRACKED_FRAMES + 7) / 8.

Definition HVM_MEMMAP_RAM : Z := 1.
Definition HVM_MEMMAP_RESERVED : Z := 2.
Definition HVM_MEMMAP_ACPI : Z := 3.
Definition HVM_MEMMAP_ACPI_NVS : Z := 4.
Definition HVM_MEMMAP_BAD : Z := 5.

(** ** Region types *)

Inductive MemoryRegionType :=
  | Unavailable
  | Usable
  | Reserved
  | Acpi
  | AcpiNvs
  | Bad
  | BootloaderReclaimable
  | Kernel
  | Mmio.

#[export] Instance MemoryRegionType_eq_dec : EqDecision MemoryRegionType.
Proof. solve_decision. Defined.

Definition type_is_usable (t : MemoryRegionType) : bool :=
  match t with
  | Usable | BootloaderReclaimable => true
  | _ => false
  end.

Definition type_as_str (t : MemoryRegionType) : string :=
  match t with
  | Unavailable => "Unavailable"
  | Usable => "Usable RAM"
  | Reserved => "Reserved"
  | Acpi => "ACPI Tables"
  | AcpiNvs => "ACPI NVS"
  | Bad => "Bad Memory"
  | BootloaderReclaimable => "Bootloader Reclaimable"
  | Kernel => "Kernel"
  | Mmio => "MMIO"
  end.

Definition from_hvm (hvm_type : Z) : MemoryRegionType :=
  if hvm_type =? HVM_MEMMAP_RAM then Usable
  else if hvm_type =? HVM_MEMMAP_RESERVED then Reserved
  else if hvm_type =? HVM_MEMMAP_ACPI then Acpi
  else if hvm_type =? HVM_MEMMAP_ACPI_NVS then AcpiNvs
  else if hvm_type =? HVM_MEMMAP_BAD then Bad
  else Reserved.

(** ** Regions *)

Record MemoryRegion := mkRegion {
  mr_base : Z;
  mr_size : Z;
  mr_type : MemoryRegionType;
  mr_name : string;
}.

Record ReservedRegion := mkReserved {
  rr_region : MemoryRegion;
  rr_purpose : string;
}.

#[export] Instance MemoryRegion_eq_dec : EqDecision MemoryRegion.
Proof. solve_decision. Defined.
#[export] Instance ReservedRegion_eq_dec : EqDecision ReservedRegion.
Proof. solve_decision. Defined.

Section Regions.
Context `{PhysAddrApi}.

(** [MemoryRegion::end] *)
Definition region_end (r : MemoryRegion) : outcome Z :=
  PhysAddr_new (mr_base r +₆₄ mr_size r).

Definition region_contains (r : MemoryRegion) (addr : Z) : bool :=
  let a := addr in
  let b := mr_base r in
  let e := b +₆₄ mr_size r in
  (b <=? a) && (a <? e).

Definition region_overlaps (r other : MemoryRegion) : outcome bool :=
  other_end ← region_end other;
  if mr_base r <? other_end
  then self_end ← region_end r; mret (mr_base other <? self_end)
  else mret false.

Definition region_is_usable (r : MemoryRegion) : bool := type_is_usable (mr_type r).

Definition region_frame_count (r : MemoryRegion) : Z := mr_size r / FRAME_SIZE.

Definition ReservedRegion_base (r : ReservedRegion) : Z := mr_base (rr_region r).
Definition ReservedRegion_end (r : ReservedRegion) : outcome Z := region_end (rr_region r).
Definition ReservedRegion_size (r : ReservedRegion) : Z := mr_size (rr_region r).

Definition ReservedRegion_new (b s : Z) (t : MemoryRegionType) (n p : string) : ReservedRegion :=
  {| rr_region := mkRegion b s t n; rr_purpose := p |}.

(** ** The PVH memory map

    [mem] is physical memory, byte by byte. *)

Record HvmStartInfo := mkHvm {
  hvm_magic : Z;
  hvm_version : Z;
  hvm_flags : Z;
  hvm_rsdp_paddr : Z;
  hvm_memmap_paddr : Z;
  hvm_memmap_entries : Z;
  hvm_cmdline_paddr : Z;
}.

Record HvmMemmapEntry := mkEntry {
  ent_addr : Z;
  ent_size : Z;
  ent_mem_type : Z;
  ent_reserved : Z;
}.

(** Reading an [n]-byte little-endian integer at [a]. *)
Definition read_le (mem : Z → Z) (n : nat) (a : Z) : Z := le_val (mem <$> seqZ a (Z.of_nat n)).

(** [&*(p as *const HvmStartInfo)], with its [repr(C)] offsets. *)
Definition read_HvmStartInfo (mem : Z → Z) (p : Z) : HvmStartInfo :=
  {| hvm_magic := read_le mem 4 p;
     hvm_version := read_le mem 4 (p + 4);
     hvm_flags := read_le mem 8 (p + 8);
     hvm_rsdp_paddr := read_le mem 8 (p + 16);
     hvm_memmap_paddr := read_le mem 8 (p + 24);
     hvm_memmap_entries := read_le mem 4 (p + 32);
     hvm_cmdline_paddr := read_le mem 4 (p + 36) |}.

(** [&*entry_ptr.add(i)]: entries are 24 bytes apart. *)
Definition read_HvmMemmapEntry (mem : Z → Z) (p i : Z) : HvmMemmapEntry :=
  {| ent_addr := read_le mem 8 (p + 24 * i);
     ent_size := read_le mem 8 (p + 24 * i + 8);
     ent_mem_type := read_le mem 4 (p + 24 * i + 16);
     ent_reserved := read_le mem 4 (p + 24 * i + 20) |}.

Definition hvm_entry_name (t : Z) : string :=
  if t =? HVM_MEMMAP_RAM then "Boot RAM"
  else if t =? HVM_MEMMAP_RESERVED then "Boot Reserved"
  else if t =? HVM_MEMMAP_ACPI then "Boot ACPI"
  else if t =? HVM_MEMMAP_ACPI_NVS then "Boot ACPI NVS"
  else if t =? HVM_MEMMAP_BAD then "Boot Bad Memory"
  else "Boot Unknown".

(** The body of the loop of [parse_hvm_start_info]. *)
Definition parse_hvm_entry (entry : HvmMemmapEntry) : outcome MemoryRegion :=
  b ← PhysAddr_new (ent_addr entry);
  mret (mkRegion b (ent_size entry) (from_hvm (ent_mem_type entry))
          (hvm_entry_name (ent_mem_type entry))).

Fixpoint parse_hvm_entries (mem : Z → Z) (p : Z) (l : list Z) : outcome (list MemoryRegion) :=
  match l with
  | [] => mret []
  | i :: l =>
      r ← parse_hvm_entry (read_HvmMemmapEntry mem p i);
      rs ← parse_hvm_entries mem p l;
      mret (r :: rs)
  end.

Definition parse_hvm_start_info (mem : Z → Z) (hvm_ptr : Z) : outcome (list MemoryRegion) :=
  if hvm_ptr =? 0 then mret [] else
  let hvm := read_HvmStartInfo mem hvm_ptr in
  if (hvm_memmap_paddr hvm =? 0) || (hvm_memmap_entries hvm =? 0) then mret [] else
  parse_hvm_entries mem (hvm_memmap_paddr hvm) (range 0 (hvm_memmap_entries hvm)).

(** ** Facts *)

Context `{!PhysAddrLaws _}.

(** The region described by entry [i] of the map. *)
Definition hvm_region (mem : Z → Z) (p i : Z) : MemoryRegion :=
  let e := read_HvmMemmapEntry mem p i in
  mkRegion (ent_addr e) (ent_size e) (from_hvm (ent_mem_type e)) (hvm_entry_name (ent_mem_type e)).

Lemma read_le_range mem n a :
  (∀ x, is_byte (mem x)) → 0 ≤ read_le mem n a < 256 ^ Z.of_nat n.
Proof.
  intros Hmem. unfold read_le.
  replace n with (length (mem <$> seqZ a (Z.of_nat n))) at 3
    by (rewrite length_fmap, length_seqZ; lia).
  apply le_val_range, Forall_fmap, Forall_true. done.
Qed.

Lemma parse_hvm_entries_spec mem p l :
  (∀ i, i ∈ l → 0 ≤ ent_addr (read_HvmMemmapEntry mem p i) < 2 ^ 52) →
  parse_hvm_entries mem p l = Ret (hvm_region mem p <$> l).
Proof.
  induction l as [|i l IH]; intros Hl; [done|]. cbn [parse_hvm_entries].
  unfold parse_hvm_entry. rewrite PhysAddr_new_ok by (apply Hl; left).
  cbn [mbind outcome_bind mret outcome_ret].
  rewrite IH by (intros j Hj; apply Hl; by right). done.
Qed.

Lemma region_end_ok r :
  0 ≤ mr_base r → 0 ≤ mr_size r → mr_base r + mr_size r < 2 ^ 52 → region_end r = Ret (mr_base r + mr_size r).
Proof.
  intros. unfold region_end. rewrite wrap64_small by lia. apply PhysAddr_new_ok. lia.
Qed.

End Regions.
