(* ===== verification/FrameAllocator.v ===== *)
(** * The physical frame allocator (kernel/src/memory/physmem.rs, lines 284-886)

    [PhysicalFrameAllocator] and the static [BITMAP] it works on form one
    state, [FrameState]. Every operation is a computation on that state; an
    index outside the bitmap and an invalid [PhysAddr] are panics. *)

From stdpp Require Import base numbers list gmap strings.
From S2P Require Import Prelude Regions.

#[local] Open Scope Z_scope.
#[local] Open Scope rust_scope.

(** ** Data *)

Record MemoryStatistics := mkStats {
  st_total_bytes : Z;
  st_usable_bytes : Z;
  st_reserved_bytes : Z;
  st_allocated_frames : Z;
  st_free_frames : Z;
  st_total_frames : Z;
  st_allocation_failures : Z;
  st_double_free_attempts : Z;
  st_invalid_free_attempts : Z;
  st_largest_free_block : Z;
  st_free_block_count : Z;
}.

Inductive PmmError :=
  | OutOfMemory
  | AllocationTooLarge
  | InvalidFree
  | DoubleFree
  | NotInitialized.

#[export] Instance PmmError_eq_dec : EqDecision PmmError.
Proof. solve_decision. Defined.

Definition PmmError_display (e : PmmError) : string :=
  match e with
  | OutOfMemory => "Out of physical memory"
  | AllocationTooLarge => "Allocation too large"
  | InvalidFree => "Invalid free: frame not allocated"
  | DoubleFree => "Double free: frame already freed"
  | NotInitialized => "PMM not initialized"
  end.

Record PhysicalFrameAllocator := mkPFA {
  total_frames : Z;
  allocated_frames : Z;
  next_free : Z;
  stats : MemoryStatistics;
  validation_enabled : bool;
}.

(** The allocator together with the static bitmap. *)
Record FrameState := mkFS {
  BITMAP : list Z;
  pfa : PhysicalFrameAllocator;
}.

(** *** Field updates *)

Definition set_BITMAP (bm : list Z) (s : FrameState) : FrameState :=
  {| BITMAP := bm; pfa := pfa s |}.
Definition upd_pfa (f : PhysicalFrameAllocator → PhysicalFrameAllocator) (s : FrameState) :
    FrameState :=
  {| BITMAP := BITMAP s; pfa := f (pfa s) |}.
Definition set_allocated_frames (v : Z) (a : PhysicalFrameAllocator) : PhysicalFrameAllocator :=
  mkPFA (total_frames a) v (next_free a) (stats a) (validation_enabled a).
Definition set_next_free (v : Z) (a : PhysicalFrameAllocator) : PhysicalFrameAllocator :=
  mkPFA (total_frames a) (allocated_frames a) v (stats a) (validation_enabled a).
Definition set_stats (v : MemoryStatistics) (a : PhysicalFrameAllocator) :
    PhysicalFrameAllocator :=
  mkPFA (total_frames a) (allocated_frames a) (next_free a) v (validation_enabled a).
Definition set_validation_enabled (v : bool) (a : PhysicalFrameAllocator) :
    PhysicalFrameAllocator :=
  mkPFA (total_frames a) (allocated_frames a) (next_free a) (stats a) v.

Definition bump_allocation_failures (t : MemoryStatistics) : MemoryStatistics :=
  mkStats (st_total_bytes t) (st_usable_bytes t) (st_reserved_bytes t) (st_allocated_frames t)
    (st_free_frames t) (st_total_frames t) (st_allocation_failures t +₆₄ 1)
    (st_double_free_attempts t) (st_invalid_free_attempts t) (st_largest_free_block t)
    (st_free_block_count t).
Definition bump_double_free_attempts (t : MemoryStatistics) : MemoryStatistics :=
  mkStats (st_total_bytes t) (st_usable_bytes t) (st_reserved_bytes t) (st_allocated_frames t)
    (st_free_frames t) (st_total_frames t) (st_allocation_failures t)
    (st_double_free_attempts t +₆₄ 1) (st_invalid_free_attempts t) (st_largest_free_block t)
    (st_free_block_count t).
Definition bump_invalid_free_attempts (t : MemoryStatistics) : MemoryStatistics :=
  mkStats (st_total_bytes t) (st_usable_bytes t) (st_reserved_bytes t) (st_allocated_frames t)
    (st_free_frames t) (st_total_frames t) (st_allocation_failures t)
    (st_double_free_attempts t) (st_invalid_free_attempts t +₆₄ 1) (st_largest_free_block t)
    (st_free_block_count t).
Definition set_blocks (largest count : Z) (t : MemoryStatistics) : MemoryStatistics :=
  mkStats (st_total_bytes t) (st_usable_bytes t) (st_reserved_bytes t) (st_allocated_frames t)
    (st_free_frames t) (st_total_frames t) (st_allocation_failures t)
    (st_double_free_attempts t) (st_invalid_free_attempts t) largest count.
Definition set_aggregate (usable reserved free allocated : Z) (t : MemoryStatistics) :
    MemoryStatistics :=
  mkStats (st_total_bytes t) usable reserved allocated free (st_total_frames t)
    (st_allocation_failures t) (st_double_free_attempts t) (st_invalid_free_attempts t)
    (st_largest_free_block t) (st_free_block_count t).

(** [if self.validation_enabled { self.stats.<counter> += 1; }] *)
Definition count_if_validating (bump : MemoryStatistics → MemoryStatistics) :
    M FrameState unit :=
  v ← gets (validation_enabled ∘ pfa);
  if (v : bool) then modify (upd_pfa (λ a, set_stats (bump (stats a)) a)) else mret tt.

(** ** Construction *)

(** [PhysicalFrameAllocator::new]: clears the part of the bitmap it will use. *)
Definition PFA_new (total_memory_bytes : Z) (bm : list Z) : outcome FrameState :=
  let total := Z.min (total_memory_bytes / FRAME_SIZE) MAX_TRACKED_FRAMES in
  let bitmap_bytes := (total + 7) / 8 in
  bm' ← zcopy bm 0 (zrepeat bitmap_bytes 0);
  mret {| BITMAP := bm';
          pfa := mkPFA total 0 0
            (mkStats total_memory_bytes 0 0 0 total total 0 0 0 total (if 0 <? total then 1 else 0))
            true |}.

(** ** Bitmap access *)

Definition is_frame_reserved (frame : Z) : M FrameState bool :=
  total ← gets (total_frames ∘ pfa);
  if total <=? frame then mret true else
  bm ← gets BITMAP;
  let byte_idx := frame / 8 in
  let bit_idx := frame mod 8 in
  byte ← liftO (zget bm byte_idx);
  mret (bit_set byte bit_idx).

Definition mark_frame_reserved (frame : Z) : M FrameState unit :=
  total ← gets (total_frames ∘ pfa);
  if frame <? total then
    bm ← gets BITMAP;
    let byte_idx := frame / 8 in
    let bit_idx := frame mod 8 in
    byte ← liftO (zget bm byte_idx);
    bm' ← liftO (zset bm byte_idx (Z.lor byte (Z.shiftl 1 bit_idx)));
    modify (set_BITMAP bm')
  else mret tt.

Definition mark_frame_free (frame : Z) : M FrameState unit :=
  total ← gets (total_frames ∘ pfa);
  if frame <? total then
    bm ← gets BITMAP;
    let byte_idx := frame / 8 in
    let bit_idx := frame mod 8 in
    byte ← liftO (zget bm byte_idx);
    bm' ← liftO (zset bm byte_idx (Z.land byte (u8_not (Z.shiftl 1 bit_idx))));
    _ ← modify (set_BITMAP bm');
    nf ← gets (next_free ∘ pfa);
    if frame <? nf then modify (upd_pfa (set_next_free frame)) else mret tt
  else mret tt.

(** [while self.next_free < self.total_frames && self.is_frame_reserved(self.next_free)
    { self.next_free += 1; }], with [fuel] iterations at most. *)
Fixpoint advance_next_free (fuel : nat) : M FrameState unit :=
  nf ← gets (next_free ∘ pfa);
  total ← gets (total_frames ∘ pfa);
  if nf <? total then
    r ← is_frame_reserved nf;
    if (r : bool) then
      match fuel with
      | O => liftO OutOfFuel
      | S fuel =>
          _ ← modify (upd_pfa (set_next_free (nf +₆₄ 1)));
          advance_next_free fuel
      end
    else mret tt
  else mret tt.

(** Enough iterations for the loop from any [next_free]. *)
Definition advance : M FrameState unit :=
  total ← gets (total_frames ∘ pfa);
  advance_next_free (Z.to_nat total).

Definition recalculate_next_free : M FrameState unit :=
  _ ← modify (upd_pfa (set_next_free 0));
  advance.

(** ** Reservation *)

(** The body of the loop of [reserve_range]. *)
Definition reserve_frame (frame : Z) : M FrameState unit :=
  r ← is_frame_reserved frame;
  if (r : bool) then mret tt else
  _ ← mark_frame_reserved frame;
  modify (upd_pfa (λ a, set_allocated_frames (allocated_frames a +₆₄ 1) a)).

Definition reserve_range (start end_ : Z) : M FrameState (result unit PmmError) :=
  let start_frame := start / FRAME_SIZE in
  let end_frame := (end_ +₆₄ FRAME_SIZE -₆₄ 1) / FRAME_SIZE in
  total ← gets (total_frames ∘ pfa);
  let capped_end := Z.min end_frame total in
  _ ← mfor (range start_frame capped_end) reserve_frame;
  _ ← recalculate_next_free;
  mret (Ok tt).

Section Allocator.
Context `{PhysAddrApi}.

(** [self.reserve_range(PhysAddr::new(a), PhysAddr::new(b), _).expect(_)] *)
Definition reserve_standard (a b : Z) : M FrameState unit :=
  start ← liftO (PhysAddr_new a);
  end_ ← liftO (PhysAddr_new b);
  r ← reserve_range start end_;
  match r with Ok _ => mret tt | Err _ => liftO Panic end.

Definition init_standard_reservations : M FrameState unit :=
  _ ← reserve_standard 0x00000000 0x00100000;
  _ ← reserve_standard 0x00001000 0x00005000;
  _ ← reserve_standard 0x00000500 0x00000600;
  _ ← reserve_standard 0x00100000 0x00200000;
  _ ← reserve_standard 0x00070000 0x00090000;
  _ ← reserve_standard 0x00060000 0x00065000;
  _ ← reserve_standard 0x00065000 0x0006A000;
  _ ← reserve_standard 0x00400000 0x00420000;
  reserve_standard 0x000A0000 0x000C0000.

(** ** Allocation *)

Definition allocate_frame : M FrameState (option Z) :=
  nf ← gets (next_free ∘ pfa);
  total ← gets (total_frames ∘ pfa);
  if total <=? nf then
    _ ← count_if_validating bump_allocation_failures;
    mret None
  else
    let frame := nf in
    _ ← mark_frame_reserved frame;
    _ ← modify (upd_pfa (λ a, set_allocated_frames (allocated_frames a +₆₄ 1) a));
    _ ← advance;
    p ← liftO (PhysAddr_new (frame *₆₄ FRAME_SIZE));
    mret (Some p).

(** [for offset in 0..count]: the offset of the first reserved frame, if any. *)
Fixpoint scan_block (start : Z) (offsets : list Z) : M FrameState (option Z) :=
  match offsets with
  | [] => mret None
  | offset :: offsets =>
      r ← is_frame_reserved (start +₆₄ offset);
      if (r : bool) then mret (Some offset) else scan_block start offsets
  end.

(** The outer [while] of [allocate_frames], with [fuel] iterations at most. *)
Fixpoint find_block (fuel : nat) (count start : Z) : M FrameState (option Z) :=
  total ← gets (total_frames ∘ pfa);
  if start +₆₄ count <=? total then
    o ← scan_block start (range 0 count);
    match o with
    | None => mret (Some start)
    | Some offset =>
        match fuel with
        | O => liftO OutOfFuel
        | S fuel => find_block fuel count (start +₆₄ (offset +₆₄ 1))
        end
    end
  else mret None.

Definition allocate_frames (count : Z) : M FrameState (option Z) :=
  if count =? 0 then mret None else
  total ← gets (total_frames ∘ pfa);
  if total <? count then
    _ ← count_if_validating bump_allocation_failures;
    mret None
  else
    nf ← gets (next_free ∘ pfa);
    o ← find_block (Z.to_nat total) count nf;
    match o with
    | Some start =>
        _ ← mfor (range 0 count) (λ offset, mark_frame_reserved (start +₆₄ offset));
        _ ← modify (upd_pfa (λ a, set_allocated_frames (allocated_frames a +₆₄ count) a));
        _ ← modify (upd_pfa (set_next_free (start +₆₄ count)));
        _ ← advance;
        p ← liftO (PhysAddr_new (start *₆₄ FRAME_SIZE));
        mret (Some p)
    | None =>
        _ ← count_if_validating bump_allocation_failures;
        mret None
    end.

(** ** Deallocation *)

Definition free_frame (addr : Z) : M FrameState (result unit PmmError) :=
  let frame := addr / FRAME_SIZE in
  total ← gets (total_frames ∘ pfa);
  if total <=? frame then
    _ ← count_if_validating bump_invalid_free_attempts;
    mret (Err InvalidFree)
  else
    r ← is_frame_reserved frame;
    if negb r then
      _ ← count_if_validating bump_double_free_attempts;
      mret (Err DoubleFree)
    else
      _ ← mark_frame_free frame;
      _ ← modify (upd_pfa (λ a, set_allocated_frames (allocated_frames a -₆₄ 1) a));
      mret (Ok tt).

(** The validation loop of [free_frames]. *)
Definition check_reserved (frame : Z) : M FrameState (result unit PmmError) :=
  r ← is_frame_reserved frame;
  if negb r then
    _ ← modify (upd_pfa (λ a, set_stats (bump_double_free_attempts (stats a)) a));
    mret (Err DoubleFree)
  else mret (Ok tt).

Definition free_frames (addr count : Z) : M FrameState (result unit PmmError) :=
  let start_frame := addr / FRAME_SIZE in
  let end_frame := start_frame +₆₄ count in
  total ← gets (total_frames ∘ pfa);
  if total <? end_frame then
    _ ← count_if_validating bump_invalid_free_attempts;
    mret (Err InvalidFree)
  else
    v ← gets (validation_enabled ∘ pfa);
    _ ←? (if (v : bool) then mfor_res (range start_frame end_frame) check_reserved
          else mret (Ok tt));
    _ ← mfor (range start_frame end_frame) mark_frame_free;
    _ ← modify (upd_pfa (λ a, set_allocated_frames (allocated_frames a -₆₄ count) a));
    mret (Ok tt).

(** ** Statistics *)

(** The scan of [update_fragmentation_stats]: (free_blocks, largest, current). *)
Fixpoint fragmentation_scan (frames : list Z) (free_blocks largest current : Z) :
    M FrameState (Z * Z * Z) :=
  match frames with
  | [] => mret (free_blocks, largest, current)
  | frame :: frames =>
      r ← is_frame_reserved frame;
      if negb r then fragmentation_scan frames free_blocks largest (current +₆₄ 1)
      else if 0 <? current
      then fragmentation_scan frames (free_blocks +₆₄ 1)
             (if largest <? current then current else largest) 0
      else fragmentation_scan frames free_blocks largest current
  end.

Definition update_fragmentation_stats : M FrameState unit :=
  total ← gets (total_frames ∘ pfa);
  r ← fragmentation_scan (range 0 total) 0 0 0;
  let '(free_blocks, largest_block, current_block) := r in
  let '(free_blocks, largest_block) :=
    if 0 <? current_block
    then (free_blocks +₆₄ 1,
          if largest_block <? current_block then current_block else largest_block)
    else (free_blocks, largest_block) in
  modify (upd_pfa (λ a, set_stats (set_blocks largest_block free_blocks (stats a)) a)).

Definition update_statistics (usable_bytes reserved_bytes : Z) : M FrameState unit :=
  _ ← modify (upd_pfa (λ a, set_stats
        (set_aggregate usable_bytes reserved_bytes (total_frames a -₆₄ allocated_frames a)
           (allocated_frames a) (stats a)) a));
  update_fragmentation_stats.

Definition statistics (s : FrameState) : MemoryStatistics := stats (pfa s).

Definition free_frame_count (s : FrameState) : Z :=
  total_frames (pfa s) -₆₄ allocated_frames (pfa s).

(** ** Validation *)

Definition set_validation (enabled : bool) : M FrameState unit :=
  modify (upd_pfa (set_validation_enabled enabled)).

(** [u8::count_ones] *)
Definition count_ones (b : Z) : Z :=
  foldr (λ i n, (if Z.testbit b i then 1 else 0) + n) 0 (seqZ 0 8).

Definition validate_bitmap : M FrameState bool :=
  s ← get;
  let bitmap_bytes := (total_frames (pfa s) + 7) / 8 in
  l ← liftO (zslice (BITMAP s) 0 bitmap_bytes);
  let counted := foldl (λ n b, n +₆₄ count_ones b) 0 l in
  mret (counted =? allocated_frames (pfa s)).

Definition self_test : M FrameState bool :=
  ok ← validate_bitmap;
  if negb ok then mret false else
  test_frame ← allocate_frame;
  match test_frame with
  | None => mret false
  | Some addr =>
      ok ← validate_bitmap;
      if negb ok then (_ ← free_frame addr; mret false) else
      r ← free_frame addr;
      match r with
      | Err _ => mret false
      | Ok _ =>
          ok ← validate_bitmap;
          if negb ok then mret false else
          r ← free_frame addr;
          if negb (bool_decide (r = Err DoubleFree)) then mret false else
          invalid_addr ← liftO (PhysAddr_new (MAX_TRACKED_FRAMES *₆₄ FRAME_SIZE +₆₄ 0x1000));
          r ← free_frame invalid_addr;
          if negb (bool_decide (r = Err InvalidFree)) then mret false else
          block ← allocate_frames 4;
          _ ← (match block with
               | Some b => _ ← free_frames b 4; mret tt
               | None => mret tt
               end);
          validate_bitmap
      end
  end.

(** ** Conversions *)

Definition frame_to_address (frame : Z) : outcome Z := PhysAddr_new (frame *₆₄ FRAME_SIZE).
Definition address_to_frame (addr : Z) : Z := addr / FRAME_SIZE.

End Allocator.
