(* ===== verification/FrameSpec.v ===== *)
(** * The frame allocator: abstraction, invariant and functional behaviour

    The bitmap is abstracted to the set [rset] of reserved frames. [frames_wf]
    is the invariant; each operation of [FrameAllocator] gets one lemma that
    says what it returns and what it does to the set, on every branch, and in
    particular that it neither panics nor runs forever. *)

From stdpp Require Import base numbers list gmap strings.
From S2P Require Import Prelude Regions FrameAllocator.

#[local] Open Scope Z_scope.
#[local] Open Scope rust_scope.

(** ** Abstraction *)

(** Bit [f] of the bitmap. *)
Definition frame_bit (bm : list Z) (f : Z) : bool :=
  Z.testbit (bm !!! Z.to_nat (f / 8)) (f mod 8).

(** The reserved frames among the first [n]. *)
Definition rset (bm : list Z) (n : Z) : gset Z :=
  list_to_set (filter (λ f, frame_bit bm f = true) (range 0 n)).

(** The bitmap has its static size, holds bytes, and the bits between the last
    tracked frame and the end of its byte are clear. *)
Record bitmap_ok (bm : list Z) (n : Z) : Prop := {
  bm_length : zlen bm = BITMAP_SIZE;
  bm_bytes : bytes bm;
  bm_total : 0 ≤ n ≤ MAX_TRACKED_FRAMES;
  bm_tail : ∀ f, n ≤ f < 8 * ((n + 7) / 8) → frame_bit bm f = false;
}.

(** The allocator invariant: [allocated_frames] counts the reserved frames and
    [next_free] is a free frame, or the end. *)
Record frames_wf (s : FrameState) : Prop := {
  wf_bitmap : bitmap_ok (BITMAP s) (total_frames (pfa s));
  wf_count : allocated_frames (pfa s) = Z.of_nat (size (rset (BITMAP s) (total_frames (pfa s))));
  wf_next : 0 ≤ next_free (pfa s) ≤ total_frames (pfa s);
  wf_next_free : next_free (pfa s) ∉ rset (BITMAP s) (total_frames (pfa s));
}.

(** The reserved frames of a state. *)
Definition reserved_frames (s : FrameState) : gset Z := rset (BITMAP s) (total_frames (pfa s)).

(** Every free frame is at or above [next_free]. *)
Definition tight (s : FrameState) : Prop :=
  ∀ f, 0 ≤ f < next_free (pfa s) → f ∈ reserved_frames s.

(** The frames [start .. start + count). *)
Definition block (start count : Z) : gset Z := list_to_set (range start (start + count)).

(** ** Bits and sets *)

Lemma elem_of_rset bm n f : f ∈ rset bm n ↔ 0 ≤ f < n ∧ frame_bit bm f = true.
Proof.
  unfold rset. rewrite elem_of_list_to_set, list_elem_of_filter, elem_of_range. tauto.
Qed.

Lemma elem_of_block a k f : f ∈ block a k ↔ a ≤ f < a + k.
Proof. unfold block. by rewrite elem_of_list_to_set, elem_of_range. Qed.

Lemma size_block a k : 0 ≤ k → Z.of_nat (size (block a k)) = k.
Proof.
  intros. unfold block. rewrite size_list_to_set by apply NoDup_seqZ.
  rewrite length_range. lia.
Qed.

Lemma rset_ext bm bm' n (P : Z → Prop) :
  (∀ f, 0 ≤ f < n → frame_bit bm' f = true ↔ P f ∨ frame_bit bm f = true) →
  ∀ X : gset Z, (∀ f, f ∈ X ↔ 0 ≤ f < n ∧ P f) → rset bm' n = X ∪ rset bm n.
Proof.
  intros Hbit X HX. apply set_eq. intros f. rewrite elem_of_union, HX, !elem_of_rset.
  split; [intros [Hf ?%Hbit]; [tauto|done]|].
  intros [[Hf ?]|[Hf ?]]; (split; [exact Hf|]); apply Hbit; auto.
Qed.

Lemma frame_split f g : 0 ≤ f → 0 ≤ g → g / 8 = f / 8 → g mod 8 = f mod 8 → g = f.
Proof. dlia. Qed.

Lemma frame_bit_insert bm f g b :
  0 ≤ f → 0 ≤ g → f / 8 < zlen bm →
  frame_bit (<[Z.to_nat (f / 8) := b]> bm) g =
    if decide (g / 8 = f / 8) then Z.testbit b (g mod 8) else frame_bit bm g.
Proof.
  intros Hf Hg Hlen. unfold frame_bit, zlen in *. case_decide as Hq.
  - rewrite Hq, list_lookup_total_insert_eq; [done|]. dlia.
  - rewrite list_lookup_total_insert_ne; [done|]. dlia.
Qed.

Lemma frame_bit_set bm f g :
  0 ≤ f → 0 ≤ g → f / 8 < zlen bm →
  frame_bit (<[Z.to_nat (f / 8) :=
      Z.lor (bm !!! Z.to_nat (f / 8)) (Z.shiftl 1 (f mod 8))]> bm) g =
    (g =? f) || frame_bit bm g.
Proof.
  intros Hf Hg Hlen. rewrite frame_bit_insert by done. case_decide as Hq.
  - rewrite Z.lor_spec, Z.shiftl_1_l, Z.pow2_bits_eqb by dlia. unfold frame_bit. rewrite Hq.
    destruct (Z.eqb_spec (f mod 8) (g mod 8)) as [He|He], (Z.eqb_spec g f) as [->|Hne];
      rewrite ?orb_true_r, ?orb_false_r; try done.
    by pose proof (frame_split f g Hf Hg Hq (eq_sym He)).
  - destruct (Z.eqb_spec g f); [congruence|done].
Qed.

Lemma frame_bit_clear bm f g :
  0 ≤ f → 0 ≤ g → f / 8 < zlen bm →
  frame_bit (<[Z.to_nat (f / 8) :=
      Z.land (bm !!! Z.to_nat (f / 8)) (u8_not (Z.shiftl 1 (f mod 8)))]> bm) g =
    negb (g =? f) && frame_bit bm g.
Proof.
  intros Hf Hg Hlen. rewrite frame_bit_insert by done. case_decide as Hq.
  - unfold u8_not. change 255 with (Z.ones 8).
    rewrite Z.land_spec, Z.lxor_spec, Z.shiftl_1_l, Z.pow2_bits_eqb, Z.ones_spec_low by dlia.
    unfold frame_bit. rewrite Hq, andb_comm. f_equal.
    destruct (Z.eqb_spec (f mod 8) (g mod 8)) as [He|He], (Z.eqb_spec g f) as [->|Hne];
      try done.
    by pose proof (frame_split f g Hf Hg Hq (eq_sym He)).
  - destruct (Z.eqb_spec g f); [congruence|done].
Qed.

(** ** The primitive bitmap operations *)

Lemma total_byte_bound n f : 0 ≤ f < n → n ≤ MAX_TRACKED_FRAMES → 0 ≤ f / 8 < BITMAP_SIZE.
Proof. unfold BITMAP_SIZE, MAX_TRACKED_FRAMES, FRAME_SIZE. dlia. Qed.

Lemma bitmap_byte bm n f :
  bitmap_ok bm n → 0 ≤ f < n → zget bm (f / 8) = Ret (bm !!! Z.to_nat (f / 8)).
Proof.
  intros Hok Hf. apply zget_total. rewrite (bm_length _ _ Hok).
  eapply total_byte_bound; [done|apply (bm_total _ _ Hok)].
Qed.

Lemma bitmap_is_byte bm n f :
  bitmap_ok bm n → 0 ≤ f < n → is_byte (bm !!! Z.to_nat (f / 8)).
Proof.
  intros Hok Hf. eapply Forall_lookup_total_1; [apply (bm_bytes _ _ Hok)|].
  pose proof (total_byte_bound n f Hf (proj2 (bm_total _ _ Hok))).
  pose proof (bm_length _ _ Hok). unfold zlen in *. lia.
Qed.

Lemma is_frame_reserved_spec s f :
  bitmap_ok (BITMAP s) (total_frames (pfa s)) → 0 ≤ f →
  is_frame_reserved f s =
    Ret (bool_decide (total_frames (pfa s) ≤ f ∨ f ∈ reserved_frames s), s).
Proof.
  intros Hok Hf. unfold is_frame_reserved. msteps.
  destruct (Z.leb_spec (total_frames (pfa s)) f).
  - unfold mret, M_ret. by rewrite bool_decide_eq_true_2 by auto.
  - assert (Hb : zget (BITMAP s) (f / 8) = Ret (BITMAP s !!! Z.to_nat (f / 8)))
      by (eapply bitmap_byte; [done|lia]).
    msteps. mrun (liftO_Ret _ s _ Hb). unfold mret, M_ret. rewrite bit_set_testbit by dlia. repeat f_equal.
    fold (frame_bit (BITMAP s) f). unfold reserved_frames.
    destruct (frame_bit (BITMAP s) f) eqn:Hfb; symmetry.
    + rewrite bool_decide_eq_true, elem_of_rset. auto with lia.
    + rewrite bool_decide_eq_false, elem_of_rset, Hfb. intros [?|[??]]; [lia|done].
Qed.

Lemma bitmap_update_ok bm n f b :
  bitmap_ok bm n → 0 ≤ f < n → is_byte b →
  bitmap_ok (<[Z.to_nat (f / 8) := b]> bm) n ↔
  (∀ g, n ≤ g < 8 * ((n + 7) / 8) → frame_bit (<[Z.to_nat (f / 8) := b]> bm) g = false).
Proof.
  intros Hok Hf Hb. split; [by intros []|]. intros Htail. split; try done.
  - rewrite zlen_insert. apply (bm_length _ _ Hok).
  - apply Forall_insert; [apply (bm_bytes _ _ Hok)|done].
  - apply (bm_total _ _ Hok).
Qed.

(** What setting bit [f] does to the bitmap. *)
Definition bit_marked (bm bm' : list Z) (n f : Z) : Prop :=
  bitmap_ok bm' n ∧ rset bm' n = {[f]} ∪ rset bm n.

Definition bit_cleared (bm bm' : list Z) (n f : Z) : Prop :=
  bitmap_ok bm' n ∧ rset bm' n = rset bm n ∖ {[f]}.

(** Field updates of a spelt-out state, as rewrite rules. *)
Lemma modify_eq (f : FrameState → FrameState) s : modify f s = Ret (tt, f s).
Proof. done. Qed.
Lemma upd_pfa_eq f bm p : upd_pfa f (mkFS bm p) = mkFS bm (f p).
Proof. done. Qed.
Lemma set_BITMAP_eq bm' bm p : set_BITMAP bm' (mkFS bm p) = mkFS bm' p.
Proof. done. Qed.
Lemma set_allocated_frames_eq x n a nf st v :
  set_allocated_frames x (mkPFA n a nf st v) = mkPFA n x nf st v.
Proof. done. Qed.
Lemma set_next_free_eq x n a nf st v :
  set_next_free x (mkPFA n a nf st v) = mkPFA n a x st v.
Proof. done. Qed.
Lemma set_stats_eq x n a nf st v : set_stats x (mkPFA n a nf st v) = mkPFA n a nf x v.
Proof. done. Qed.

Create Rewrite HintDb fields.
#[export] Hint Rewrite modify_eq upd_pfa_eq set_BITMAP_eq set_allocated_frames_eq
  set_next_free_eq set_stats_eq : fields.

(** Run the administrative steps and the field accesses of a spelt-out state. *)
Ltac fields :=
  repeat progress (msteps; autorewrite with fields;
    cbn [total_frames allocated_frames next_free stats validation_enabled BITMAP pfa]).

(** A state spelt out: bitmap, tracked frames, allocated, next_free, stats, validation. *)
Abbreviation St bm n a nf st v := (mkFS bm (mkPFA n a nf st v)).

Lemma mark_frame_reserved_spec bm n a nf st v f :
  bitmap_ok bm n → 0 ≤ f < n →
  ∃ bm', mark_frame_reserved f (St bm n a nf st v) = Ret (tt, St bm' n a nf st v) ∧
    bit_marked bm bm' n f.
Proof.
  intros Hok Hf.
  pose proof (total_byte_bound n f Hf (proj2 (bm_total _ _ Hok))) as Hq.
  pose proof (bitmap_is_byte _ _ _ Hok Hf) as Hbyte.
  set (b := Z.lor (bm !!! Z.to_nat (f / 8)) (Z.shiftl 1 (f mod 8))).
  exists (<[Z.to_nat (f / 8) := b]> bm). split.
  - assert (Hset : zset bm (f / 8) b = Ret (<[Z.to_nat (f / 8) := b]> bm))
      by (apply zset_ok; by rewrite (bm_length _ _ Hok)).
    unfold mark_frame_reserved. fields. destruct (Z.ltb_spec f n); [|lia]. msteps.
    mrun (liftO_Ret _ (St bm n a nf st v) _ (bitmap_byte _ _ _ Hok Hf)). fold b.
    by mrun (liftO_Ret _ (St bm n a nf st v) _ Hset).
  - assert (Hbits : ∀ g, 0 ≤ g → frame_bit (<[Z.to_nat (f / 8) := b]> bm) g
                      = (g =? f) || frame_bit bm g).
    { intros g Hg. apply frame_bit_set; [lia|done|]. rewrite (bm_length _ _ Hok). lia. }
    split.
    + apply bitmap_update_ok; [done|done| |].
      * unfold b. apply is_byte_bits.
        { apply Z.lor_nonneg. split; [apply Hbyte|]. apply Z.shiftl_nonneg. lia. }
        intros i Hi. rewrite Z.lor_spec, byte_bits_high, Z.shiftl_1_l, Z.pow2_bits_false
          by (done || dlia). done.
      * intros g Hg. rewrite Hbits by lia. rewrite (bm_tail _ _ Hok g Hg).
        destruct (Z.eqb_spec g f); [lia|done].
    + apply (rset_ext _ _ _ (λ g, g = f)).
      * intros g Hg. rewrite Hbits by lia. rewrite orb_true_iff, Z.eqb_eq. done.
      * intros g. rewrite elem_of_singleton. naive_solver.
Qed.

Lemma mark_frame_free_spec bm n a nf st v f :
  bitmap_ok bm n → 0 ≤ f < n →
  ∃ bm', mark_frame_free f (St bm n a nf st v) = Ret (tt, St bm' n a (Z.min f nf) st v) ∧
    bit_cleared bm bm' n f.
Proof.
  intros Hok Hf.
  pose proof (total_byte_bound n f Hf (proj2 (bm_total _ _ Hok))) as Hq.
  pose proof (bitmap_is_byte _ _ _ Hok Hf) as Hbyte.
  set (b := Z.land (bm !!! Z.to_nat (f / 8)) (u8_not (Z.shiftl 1 (f mod 8)))).
  exists (<[Z.to_nat (f / 8) := b]> bm). split.
  - assert (Hset : zset bm (f / 8) b = Ret (<[Z.to_nat (f / 8) := b]> bm))
      by (apply zset_ok; by rewrite (bm_length _ _ Hok)).
    unfold mark_frame_free. fields. destruct (Z.ltb_spec f n); [|lia]. msteps.
    mrun (liftO_Ret _ (St bm n a nf st v) _ (bitmap_byte _ _ _ Hok Hf)). fold b.
    mrun (liftO_Ret _ (St bm n a nf st v) _ Hset). fields. destruct (Z.ltb_spec f nf).
    + by rewrite Z.min_l by lia.
    + by rewrite Z.min_r by lia.
  - assert (Hbits : ∀ g, 0 ≤ g → frame_bit (<[Z.to_nat (f / 8) := b]> bm) g
                      = negb (g =? f) && frame_bit bm g).
    { intros g Hg. apply frame_bit_clear; [lia|done|]. rewrite (bm_length _ _ Hok). lia. }
    split.
    + apply bitmap_update_ok; [done|done| |].
      * unfold b. apply is_byte_bits; [apply Z.land_nonneg; left; apply Hbyte|].
        intros i Hi. by rewrite Z.land_spec, byte_bits_high.
      * intros g Hg. rewrite Hbits by lia. by rewrite (bm_tail _ _ Hok g Hg), andb_false_r.
    + apply set_eq. intros g. rewrite elem_of_difference, elem_of_singleton, !elem_of_rset.
      split; [intros [Hg Hb]|intros [[Hg Hb] Hne]]; rewrite Hbits in * by lia.
      * apply andb_true_iff in Hb as [Hne%negb_true_iff%Z.eqb_neq Hb]. auto.
      * split; [done|]. apply andb_true_iff. by rewrite negb_true_iff, Z.eqb_neq.
Qed.

(** ** The search loop *)

Lemma reserved_test bm n a nf st v f :
  bitmap_ok bm n → 0 ≤ f < n →
  is_frame_reserved f (St bm n a nf st v) =
    Ret (bool_decide (f ∈ rset bm n), St bm n a nf st v).
Proof.
  intros Hok Hf. rewrite is_frame_reserved_spec by (done || lia). cbn.
  do 2 f_equal. apply bool_decide_ext. unfold reserved_frames. cbn. lia || naive_solver lia.
Qed.

Lemma advance_next_free_spec bm n a st v fuel nf :
  bitmap_ok bm n → 0 ≤ nf ≤ n → n - nf ≤ Z.of_nat fuel →
  ∃ nf', advance_next_free fuel (St bm n a nf st v) = Ret (tt, St bm n a nf' st v) ∧
    nf ≤ nf' ≤ n ∧ nf' ∉ rset bm n ∧ (∀ f, nf ≤ f < nf' → f ∈ rset bm n).
Proof.
  intros Hok. revert nf. induction fuel as [|fuel IH]; intros nf Hnf Hfuel;
    cbn [advance_next_free]; fields.
  - assert (nf = n) as -> by lia. rewrite Z.ltb_irrefl.
    exists n. split; [done|]. rewrite elem_of_rset. split_and!; intros; lia.
  - destruct (Z.ltb_spec nf n) as [Hlt|Hge].
    + mrun (reserved_test bm n a nf st v nf Hok ltac:(lia)).
      case_bool_decide as Hr.
      * fields. rewrite wrap64_small
          by (pose proof (bm_total _ _ Hok); unfold MAX_TRACKED_FRAMES, FRAME_SIZE in *; dlia).
        destruct (IH (nf + 1)) as (nf' & Hrun & Hb & Hfree & Hall); [lia..|].
        exists nf'. split; [exact Hrun|]. split_and!; [lia..|done|].
        intros f Hf. destruct (decide (f = nf)) as [->|]; [done|]. apply Hall. lia.
      * exists nf. split; [done|]. split_and!; [lia..|done|intros; lia].
    + exists nf. split; [done|]. rewrite elem_of_rset. split_and!; [lia..| |]; intros; lia.
Qed.

Lemma advance_spec bm n a nf st v :
  bitmap_ok bm n → 0 ≤ nf ≤ n →
  ∃ nf', advance (St bm n a nf st v) = Ret (tt, St bm n a nf' st v) ∧
    nf ≤ nf' ≤ n ∧ nf' ∉ rset bm n ∧ (∀ f, nf ≤ f < nf' → f ∈ rset bm n).
Proof.
  intros Hok Hnf. unfold advance. fields. apply advance_next_free_spec; [done..|].
  pose proof (bm_total _ _ Hok). lia.
Qed.

Lemma recalculate_next_free_spec bm n a nf st v :
  bitmap_ok bm n →
  ∃ nf', recalculate_next_free (St bm n a nf st v) = Ret (tt, St bm n a nf' st v) ∧
    0 ≤ nf' ≤ n ∧ nf' ∉ rset bm n ∧ (∀ f, 0 ≤ f < nf' → f ∈ rset bm n).
Proof.
  intros Hok. unfold recalculate_next_free. msteps. apply advance_spec; [done|].
  pose proof (bm_total _ _ Hok). lia.
Qed.

(** ** Reservation *)

(** The tracked frames that the byte range [start, end_) touches. *)
Definition span (start end_ n : Z) : gset Z :=
  list_to_set (range (start / FRAME_SIZE) (Z.min ((end_ + FRAME_SIZE - 1) / FRAME_SIZE) n)).

Lemma elem_of_span start end_ n f :
  f ∈ span start end_ n ↔
    start / FRAME_SIZE ≤ f < Z.min ((end_ + FRAME_SIZE - 1) / FRAME_SIZE) n.
Proof. unfold span. by rewrite elem_of_list_to_set, elem_of_range. Qed.

(** Number of reserved frames, as an integer. *)
Definition nres (bm : list Z) (n : Z) : Z := Z.of_nat (size (rset bm n)).

Lemma rset_subset_block bm n : rset bm n ⊆ block 0 n.
Proof. intros f. rewrite elem_of_rset, elem_of_block. intros [? _]. lia. Qed.

Lemma nres_bound bm n : 0 ≤ n → 0 ≤ nres bm n ≤ n.
Proof.
  intros Hn. unfold nres. pose proof (subseteq_size _ _ (rset_subset_block bm n)).
  pose proof (size_block 0 n Hn). lia.
Qed.

Lemma nres_marked bm bm' n f :
  rset bm' n = {[f]} ∪ rset bm n → f ∉ rset bm n → nres bm' n = nres bm n + 1.
Proof.
  intros Heq Hf. unfold nres. rewrite Heq, size_union by set_solver.
  rewrite size_singleton. lia.
Qed.

Lemma reserve_frame_spec bm n a nf st v f :
  bitmap_ok bm n → 0 ≤ f < n → 0 ≤ a → a + 1 < 2 ^ 64 →
  ∃ bm', reserve_frame f (St bm n a nf st v) =
      Ret (tt, St bm' n (a + (nres bm' n - nres bm n)) nf st v) ∧ bit_marked bm bm' n f.
Proof.
  intros Hok Hf Ha Hlt. unfold reserve_frame.
  mrun (reserved_test bm n a nf st v f Hok Hf). case_bool_decide as Hin.
  - exists bm. split; [|split; [done|set_solver]]. unfold mret, M_ret.
    by replace (a + (nres bm n - nres bm n)) with a by lia.
  - destruct (mark_frame_reserved_spec bm n a nf st v f Hok Hf) as (bm' & Hrun & Hok' & Hset).
    exists bm'. split; [|done]. mrun Hrun. fields.
    rewrite (nres_marked _ _ _ _ Hset Hin), wrap_small by lia.
    by replace (nres bm n + 1 - nres bm n) with 1 by lia.
Qed.

Lemma reserve_loop_spec bm n a nf st v l :
  bitmap_ok bm n → (∀ f, f ∈ l → 0 ≤ f < n) → 0 ≤ a → a + n < 2 ^ 64 →
  ∃ bm', mfor l reserve_frame (St bm n a nf st v) =
      Ret (tt, St bm' n (a + (nres bm' n - nres bm n)) nf st v) ∧
    bitmap_ok bm' n ∧ rset bm' n = list_to_set l ∪ rset bm n.
Proof.
  intros Hok Hl Ha Hlt.
  destruct (mfor_inv (λ pre s, ∃ bm', s = St bm' n (a + (nres bm' n - nres bm n)) nf st v ∧
    bitmap_ok bm' n ∧ rset bm' n = list_to_set pre ∪ rset bm n) l reserve_frame
    (St bm n a nf st v)) as (s' & Hrun & bm' & -> & Hok' & Hset).
  - exists bm. split_and!; [|done|set_solver].
    by replace (a + (nres bm n - nres bm n)) with a by lia.
  - intros pre f post s1 Heq (bm1 & -> & Hok1 & Hset1).
    assert (0 ≤ f < n) as Hf by (apply Hl; rewrite Heq; set_solver).
    assert (nres bm n ≤ nres bm1 n) as Hmono
      by (unfold nres; apply inj_le, subseteq_size; set_solver).
    assert (nres bm1 n < n ∨ f ∈ rset bm1 n) as Hroom.
    { destruct (decide (f ∈ rset bm1 n)); [by right|left]. unfold nres.
      pose proof (size_block 0 n ltac:(lia)) as Hb.
      enough (size (rset bm1 n) < size (block 0 n))%nat by lia.
      apply subset_size. split; [apply rset_subset_block|].
      intros Hsub. pose proof (Hsub f). rewrite elem_of_block in *. set_solver. }
    pose proof (nres_bound bm n ltac:(lia)). pose proof (nres_bound bm1 n ltac:(lia)).
    set (a1 := a + (nres bm1 n - nres bm n)) in *.
    assert (∃ bm2, reserve_frame f (St bm1 n a1 nf st v) =
      Ret (tt, St bm2 n (a1 + (nres bm2 n - nres bm1 n)) nf st v) ∧ bit_marked bm1 bm2 n f)
      as (bm2 & Hrun & Hok2 & Hset2).
    { destruct Hroom as [?|Hin]; [apply reserve_frame_spec; first [done | unfold a1; lia]|].
      exists bm1. split; [|split; [done|set_solver]]. unfold reserve_frame.
      mrun (reserved_test bm1 n a1 nf st v f Hok1 Hf). rewrite bool_decide_eq_true_2 by done.
      by replace (a1 + (nres bm1 n - nres bm1 n)) with a1 by lia. }
    eexists. split; [exact Hrun|]. exists bm2. split_and!; [|done|].
    + f_equal. f_equal. unfold a1. lia.
    + rewrite Hset2, Hset1, list_to_set_app_L. set_solver.
  - by exists bm'.
Qed.

Lemma reserve_range_spec bm n a nf st v start end_ :
  bitmap_ok bm n → 0 ≤ start → 0 ≤ end_ < 2 ^ 52 → 0 ≤ a → a + n < 2 ^ 64 →
  ∃ bm' nf', reserve_range start end_ (St bm n a nf st v) =
      Ret (Ok tt, St bm' n (a + (nres bm' n - nres bm n)) nf' st v) ∧
    bitmap_ok bm' n ∧ rset bm' n = span start end_ n ∪ rset bm n ∧
    0 ≤ nf' ≤ n ∧ nf' ∉ rset bm' n ∧ (∀ f, 0 ≤ f < nf' → f ∈ rset bm' n).
Proof.
  intros Hok Hs He Ha Hlt. unfold reserve_range. fields.
  rewrite (wrap_small 64 (end_ + FRAME_SIZE)) by (unfold FRAME_SIZE; lia).
  rewrite wrap_small by (unfold FRAME_SIZE; lia).
  set (l := range _ _).
  destruct (reserve_loop_spec bm n a nf st v l) as (bm' & Hrun & Hok' & Hset); [done| |done..|].
  { intros f [Hlo Hhi]%elem_of_range. unfold FRAME_SIZE in *. split; [dlia|lia]. }
  mrun Hrun.
  destruct (recalculate_next_free_spec bm' n (a + (nres bm' n - nres bm n)) nf st v Hok')
    as (nf' & Hrec & Hb & Hfree & Hall).
  mrun Hrec. exists bm', nf'. done.
Qed.

(** ** Allocation *)

Lemma MAX_TRACKED_FRAMES_eq : MAX_TRACKED_FRAMES = 1048576.
Proof. reflexivity. Qed.

Lemma count_if_validating_spec bump bm n a nf st v :
  ∃ st', count_if_validating bump (St bm n a nf st v) = Ret (tt, St bm n a nf st' v).
Proof. unfold count_if_validating. fields. destruct v; eexists; reflexivity. Qed.

Section Alloc.
Context `{!PhysAddrApi, !PhysAddrLaws _}.

Lemma frame_address n f : n ≤ MAX_TRACKED_FRAMES → 0 ≤ f < n →
  PhysAddr_new (f *₆₄ FRAME_SIZE) = Ret (f * FRAME_SIZE).
Proof.
  rewrite MAX_TRACKED_FRAMES_eq. unfold FRAME_SIZE. intros.
  rewrite wrap_small by lia. apply PhysAddr_new_ok. lia.
Qed.

Lemma allocate_frame_full bm n a nf st v :
  n ≤ nf →
  allocate_frame (St bm n a nf st v) =
    Ret (None, St bm n a nf (if v then bump_allocation_failures st else st) v).
Proof.
  intros Hn. unfold allocate_frame. fields. destruct (Z.leb_spec n nf); [|lia].
  unfold count_if_validating. rewrite bind_assoc. fields. by destruct v.
Qed.

Lemma allocate_frame_some bm n a nf st v :
  bitmap_ok bm n → 0 ≤ nf < n → nf ∉ rset bm n → 0 ≤ a → a + 1 < 2 ^ 64 →
  ∃ bm' nf', allocate_frame (St bm n a nf st v) =
      Ret (Some (nf * FRAME_SIZE), St bm' n (a + 1) nf' st v) ∧
    bit_marked bm bm' n nf ∧
    nf < nf' ≤ n ∧ nf' ∉ rset bm' n ∧ (∀ f, nf < f < nf' → f ∈ rset bm n).
Proof.
  intros Hok Hnf Hfree Ha Hlt. unfold allocate_frame. fields.
  destruct (Z.leb_spec n nf); [lia|].
  destruct (mark_frame_reserved_spec bm n a nf st v nf Hok Hnf) as (bm' & Hrun & Hok' & Hset).
  mrun Hrun. fields. rewrite (wrap_small 64 (a + 1)) by lia.
  destruct (advance_spec bm' n (a + 1) nf st v Hok' ltac:(lia)) as (nf' & Hadv & Hb & Hnf' & Hall).
  mrun Hadv.
  mrun (liftO_Ret _ (St bm' n (a + 1) nf' st v) _
    (frame_address n nf (proj2 (bm_total _ _ Hok)) Hnf)).
  exists bm', nf'. split; [done|]. split; [done|].
  assert (nf ≠ nf') by (intros <-; apply Hnf'; rewrite Hset; set_solver).
  split_and!; [lia..|done|]. intros f Hf. specialize (Hall f ltac:(lia)).
  rewrite Hset in Hall. set_solver by lia.
Qed.

(** *** Contiguous blocks *)

Definition free_block (bm : list Z) (n b count : Z) : Prop :=
  ∀ f, b ≤ f < b + count → f ∉ rset bm n.

Lemma scan_block_spec bm n a nf st v start count m k :
  bitmap_ok bm n → 0 ≤ start → start + count ≤ n → 0 ≤ k → count - k = Z.of_nat m →
  ∃ o, scan_block start (range k count) (St bm n a nf st v) = Ret (o, St bm n a nf st v) ∧
    match o with
    | None => ∀ j, k ≤ j < count → start + j ∉ rset bm n
    | Some j => k ≤ j < count ∧ start + j ∈ rset bm n
    end.
Proof.
  intros Hok Hs Hn. revert k. induction m as [|m IH]; intros k Hk Hm.
  - rewrite range_nil by lia. exists None. split; [done|]. intros; lia.
  - rewrite range_cons by lia. cbn [scan_block].
    pose proof (bm_total _ _ Hok). rewrite MAX_TRACKED_FRAMES_eq in *. nowrap.
    mrun (reserved_test bm n a nf st v (start + k) Hok ltac:(lia)). case_bool_decide as Hin.
    + exists (Some k). split; [done|]. split; [lia|done].
    + destruct (IH (k + 1)) as (o & Hrun & Ho); [lia..|]. exists o. split; [done|].
      destruct o as [j|]; [split; [lia|apply Ho]|].
      intros j Hj. destruct (decide (j = k)) as [->|]; [done|]. apply Ho. lia.
Qed.

Lemma find_block_spec bm n a nf st v count fuel start :
  bitmap_ok bm n → 0 < count ≤ n → 0 ≤ start ≤ n → n - start ≤ Z.of_nat fuel →
  ∃ o, find_block fuel count start (St bm n a nf st v) = Ret (o, St bm n a nf st v) ∧
    match o with
    | None => ∀ b, start ≤ b → b + count ≤ n → ¬ free_block bm n b count
    | Some b => start ≤ b ∧ b + count ≤ n ∧ free_block bm n b count ∧
                ∀ b', start ≤ b' < b → ¬ free_block bm n b' count
    end.
Proof.
  intros Hok Hc. pose proof (bm_total _ _ Hok) as Hmax. rewrite MAX_TRACKED_FRAMES_eq in Hmax.
  revert start. induction fuel as [|fuel IH]; intros start Hs Hfuel; cbn [find_block]; fields; nowrap.
  - destruct (Z.leb_spec (start + count) n); [lia|]. exists None. split; [done|]. intros; lia.
  - destruct (Z.leb_spec (start + count) n) as [Hle|].
    2:{ exists None. split; [done|]. intros; lia. }
    destruct (scan_block_spec bm n a nf st v start count (Z.to_nat count) 0)
      as (o & Hrun & Ho); [done|lia..|].
    mrun Hrun. destruct o as [j|].
    + destruct Ho as [Hj Hin]. nowrap.
      destruct (IH (start + (j + 1))) as (o & Hrun' & Ho); [lia..|].
      assert (Hskip : ∀ b, start ≤ b < start + (j + 1) → ¬ free_block bm n b count).
      { intros b Hb Hfree. apply (Hfree (start + j)); [lia|done]. }
      exists o. split; [exact Hrun'|]. destruct o as [b|].
      * destruct Ho as (? & ? & ? & Hmin). split_and!; [lia|done..|]. intros b' Hb'.
        destruct (Z.lt_ge_cases b' (start + (j + 1))); [apply Hskip|apply Hmin]; lia.
      * intros b Hb Hbn. destruct (Z.lt_ge_cases b (start + (j + 1)));
          [apply Hskip|apply Ho]; lia.
    + exists (Some start). split; [done|]. split_and!; [lia|done| |intros; lia].
      intros f Hf. replace f with (start + (f - start)) by lia. apply Ho. lia.
Qed.

Lemma mark_block_spec bm n a nf st v start count :
  bitmap_ok bm n → 0 ≤ start → 0 ≤ count → start + count ≤ n →
  ∃ bm', mfor (range 0 count) (λ offset, mark_frame_reserved (start +₆₄ offset))
      (St bm n a nf st v) = Ret (tt, St bm' n a nf st v) ∧
    bitmap_ok bm' n ∧ rset bm' n = block start count ∪ rset bm n.
Proof.
  intros Hok Hs Hc Hn.
  destruct (mfor_inv (λ pre s, ∃ bm', s = St bm' n a nf st v ∧ bitmap_ok bm' n ∧
      rset bm' n = block start (zlen pre) ∪ rset bm n) (range 0 count)
    (λ offset, mark_frame_reserved (start +₆₄ offset)) (St bm n a nf st v))
    as (s' & Hrun & bm' & -> & Hok' & Hset).
  - exists bm. split_and!; [done..|]. apply set_eq. intros f.
    rewrite elem_of_union, elem_of_block, zlen_nil. intuition lia.
  - intros pre x post s1 (-> & Hx & ->)%range_prefix (bm1 & -> & Hok1 & Hset1).
    pose proof (bm_total _ _ Hok). rewrite MAX_TRACKED_FRAMES_eq in *. nowrap.
    destruct (mark_frame_reserved_spec bm1 n a nf st v (start + x) Hok1 ltac:(lia))
      as (bm2 & Hrun & Hok2 & Hset2).
    exists (St bm2 n a nf st v). split; [exact Hrun|]. exists bm2. split_and!; [done..|].
    rewrite Hset2, Hset1. apply set_eq. intros f.
    assert (zlen (range 0 x) = x) as Hl by (unfold zlen; rewrite length_range; lia).
    rewrite !elem_of_union, elem_of_singleton, (elem_of_block start (zlen (range 0 x))),
      (elem_of_block start (zlen (range 0 x ++ [x]))), zlen_app, Hl, zlen_cons, zlen_nil.
    intuition lia.
  - exists bm'. split_and!; [done..|]. rewrite Hset. f_equal. unfold zlen.
    rewrite length_range. f_equal. lia.
Qed.

Lemma nres_block bm bm' n b count :
  0 ≤ count → rset bm' n = block b count ∪ rset bm n → free_block bm n b count →
  nres bm' n = nres bm n + count.
Proof.
  intros Hc Heq Hfree.
  assert (block b count ## rset bm n) by (intros f Hf%elem_of_block; by apply Hfree).
  unfold nres. rewrite Heq, size_union by done. pose proof (size_block b count Hc). lia.
Qed.

(** The three outcomes of [allocate_frames] for a request that fits. *)
Lemma allocate_frames_spec bm n a nf st v count :
  bitmap_ok bm n → 0 ≤ nf ≤ n → 0 < count ≤ n → 0 ≤ a → a + count < 2 ^ 64 →
  (∃ bm' nf' b, allocate_frames count (St bm n a nf st v) =
      Ret (Some (b * FRAME_SIZE), St bm' n (a + count) nf' st v) ∧
    nf ≤ b ∧ b + count ≤ n ∧ free_block bm n b count ∧
    (∀ b', nf ≤ b' < b → ¬ free_block bm n b' count) ∧
    bitmap_ok bm' n ∧ rset bm' n = block b count ∪ rset bm n ∧
    b + count ≤ nf' ≤ n ∧ nf' ∉ rset bm' n ∧
    (∀ f, b + count ≤ f < nf' → f ∈ rset bm n)) ∨
  (allocate_frames count (St bm n a nf st v) =
      Ret (None, St bm n a nf (if v then bump_allocation_failures st else st) v) ∧
    ∀ b, nf ≤ b → b + count ≤ n → ¬ free_block bm n b count).
Proof.
  intros Hok Hnf Hc Ha Hlt. pose proof (bm_total _ _ Hok) as Hmax.
  pose proof MAX_TRACKED_FRAMES_eq as Hm. unfold allocate_frames.
  destruct (Z.eqb_spec count 0); [lia|]. fields.
  destruct (Z.ltb_spec n count); [lia|]. fields.
  destruct (find_block_spec bm n a nf st v count (Z.to_nat n) nf) as (o & Hrun & Ho);
    [done|lia..|].
  mrun Hrun. destruct o as [b|].
  - left. destruct Ho as (Hb & Hbn & Hfree & Hmin).
    destruct (mark_block_spec bm n a nf st v b count Hok ltac:(lia) ltac:(lia) Hbn)
      as (bm' & Hmark & Hok' & Hset).
    mrun Hmark. fields. rewrite (wrap_small 64 (a + count)) by lia.
    rewrite (wrap64_small (b + count)) by lia.
    destruct (advance_spec bm' n (a + count) (b + count) st v Hok' ltac:(lia))
      as (nf' & Hadv & Hnf' & Hnfree & Hall).
    mrun Hadv.
    mrun (liftO_Ret _ (St bm' n (a + count) nf' st v) _
      (frame_address n b ltac:(lia) ltac:(lia))).
    exists bm', nf', b. split_and!; try done; [lia..|].
    intros f Hf. specialize (Hall f ltac:(lia)). rewrite Hset in Hall.
    apply elem_of_union in Hall as [Hin%elem_of_block|]; [lia|done].
  - right. split; [|done]. unfold count_if_validating. rewrite bind_assoc. fields.
    by destruct v.
Qed.

End Alloc.

(** ** Deallocation *)

Lemma nres_cleared bm bm' n f :
  rset bm' n = rset bm n ∖ {[f]} → f ∈ rset bm n → nres bm' n = nres bm n - 1.
Proof.
  intros Heq Hf. unfold nres. rewrite Heq, size_difference by set_solver.
  rewrite size_singleton. pose proof (subseteq_size {[f]} (rset bm n) ltac:(set_solver)) as Hs.
  rewrite size_singleton in Hs. lia.
Qed.

Lemma free_frame_invalid bm n a nf st v addr :
  n ≤ addr / FRAME_SIZE →
  free_frame addr (St bm n a nf st v) =
    Ret (Err InvalidFree, St bm n a nf (if v then bump_invalid_free_attempts st else st) v).
Proof.
  intros Hn. unfold free_frame. fields. destruct (Z.leb_spec n (addr / FRAME_SIZE)); [|lia].
  unfold count_if_validating. rewrite bind_assoc. fields. by destruct v.
Qed.

Lemma free_frame_double bm n a nf st v addr :
  bitmap_ok bm n → 0 ≤ addr / FRAME_SIZE < n → addr / FRAME_SIZE ∉ rset bm n →
  free_frame addr (St bm n a nf st v) =
    Ret (Err DoubleFree, St bm n a nf (if v then bump_double_free_attempts st else st) v).
Proof.
  intros Hok Hf Hin. unfold free_frame. fields. destruct (Z.leb_spec n (addr / FRAME_SIZE)); [lia|].
  mrun (reserved_test bm n a nf st v _ Hok Hf). rewrite bool_decide_eq_false_2 by done. cbn [negb].
  unfold count_if_validating. rewrite bind_assoc. fields. by destruct v.
Qed.

Lemma free_frame_ok bm n a nf st v addr :
  bitmap_ok bm n → 0 ≤ addr / FRAME_SIZE < n → addr / FRAME_SIZE ∈ rset bm n →
  0 < a < 2 ^ 64 →
  ∃ bm', free_frame addr (St bm n a nf st v) =
      Ret (Ok tt, St bm' n (a - 1) (Z.min (addr / FRAME_SIZE) nf) st v) ∧
    bit_cleared bm bm' n (addr / FRAME_SIZE).
Proof.
  intros Hok Hf Hin Ha. unfold free_frame. fields.
  destruct (Z.leb_spec n (addr / FRAME_SIZE)); [lia|].
  mrun (reserved_test bm n a nf st v _ Hok Hf). rewrite bool_decide_eq_true_2 by done. cbn [negb].
  destruct (mark_frame_free_spec bm n a nf st v _ Hok Hf) as (bm' & Hrun & Hclr).
  exists bm'. split; [|done]. mrun Hrun. fields. by rewrite wrap_small by lia.
Qed.

Lemma check_loop_ok bm n a nf st v l :
  bitmap_ok bm n → (∀ f, f ∈ l → 0 ≤ f < n ∧ f ∈ rset bm n) →
  mfor_res l check_reserved (St bm n a nf st v) = Ret (Ok tt, St bm n a nf st v).
Proof.
  intros Hok. induction l as [|f l IH]; intros Hl; [done|]. cbn [mfor_res].
  destruct (Hl f ltac:(left)) as [Hf Hin].
  assert (check_reserved f (St bm n a nf st v) = Ret (Ok tt, St bm n a nf st v)) as Hrun.
  { unfold check_reserved. mrun (reserved_test bm n a nf st v f Hok Hf).
    by rewrite bool_decide_eq_true_2 by done. }
  mrun Hrun. apply IH. intros g Hg. apply Hl. by right.
Qed.

Lemma check_loop_err bm n a nf st v l :
  bitmap_ok bm n → (∀ f, f ∈ l → 0 ≤ f < n) → (∃ f, f ∈ l ∧ f ∉ rset bm n) →
  mfor_res l check_reserved (St bm n a nf st v) =
    Ret (Err DoubleFree, St bm n a nf (bump_double_free_attempts st) v).
Proof.
  intros Hok. induction l as [|f l IH]; intros Hl (g & Hg & Hgn); [by apply elem_of_nil in Hg|].
  cbn [mfor_res]. assert (0 ≤ f < n) as Hf by (apply Hl; left).
  destruct (decide (f ∈ rset bm n)) as [Hin|Hin].
  - assert (check_reserved f (St bm n a nf st v) = Ret (Ok tt, St bm n a nf st v)) as Hrun.
    { unfold check_reserved. mrun (reserved_test bm n a nf st v f Hok Hf).
      by rewrite bool_decide_eq_true_2 by done. }
    mrun Hrun. apply IH; [intros h Hh; apply Hl; by right|].
    exists g. split; [|done]. apply elem_of_cons in Hg as [->|]; [done|done].
  - assert (check_reserved f (St bm n a nf st v) =
      Ret (Err DoubleFree, St bm n a nf (bump_double_free_attempts st) v)) as Hrun.
    { unfold check_reserved. mrun (reserved_test bm n a nf st v f Hok Hf).
      rewrite bool_decide_eq_false_2 by done. cbn [negb]. by fields. }
    by mrun Hrun.
Qed.

Lemma free_loop_spec bm n a nf st v b e :
  bitmap_ok bm n → 0 ≤ b ≤ e → e ≤ n →
  ∃ bm', mfor (range b e) mark_frame_free (St bm n a nf st v) =
      Ret (tt, St bm' n a (if b <? e then Z.min b nf else nf) st v) ∧
    bitmap_ok bm' n ∧ rset bm' n = rset bm n ∖ block b (e - b).
Proof.
  intros Hok Hb He.
  destruct (mfor_inv (λ pre s, ∃ bm',
      s = St bm' n a (if 0 <? zlen pre then Z.min b nf else nf) st v ∧
      bitmap_ok bm' n ∧ rset bm' n = rset bm n ∖ block b (zlen pre)) (range b e)
    mark_frame_free (St bm n a nf st v)) as (s' & Hrun & bm' & -> & Hok' & Hset).
  - exists bm. split_and!; [done..|]. apply set_eq. intros f.
    rewrite elem_of_difference, elem_of_block, zlen_nil. intuition lia.
  - intros pre x post s1 (-> & Hx & ->)%range_prefix (bm1 & -> & Hok1 & Hset1).
    assert (zlen (range b x) = x - b) as Hl by (unfold zlen; rewrite length_range; lia).
    rewrite Hl in *. set (nf1 := if 0 <? x - b then _ else _) in *.
    destruct (mark_frame_free_spec bm1 n a nf1 st v x Hok1 ltac:(lia)) as (bm2 & Hrun & Hok2 & Hset2).
    assert (zlen (range b x ++ [x]) = x - b + 1) as Hl'
      by (rewrite zlen_app, Hl, zlen_cons, zlen_nil; lia).
    eexists. split; [exact Hrun|]. exists bm2. rewrite Hl'.
    split_and!; [|done|].
    + unfold nf1. do 2 f_equal. destruct (Z.ltb_spec 0 (x - b)), (Z.ltb_spec 0 (x - b + 1)); lia.
    + rewrite Hset2, Hset1. apply set_eq. intros f.
      rewrite !elem_of_difference, elem_of_singleton, (elem_of_block b (x - b)),
        (elem_of_block b (x - b + 1)). intuition lia.
  - exists bm'. assert (zlen (range b e) = e - b) as Hl by (unfold zlen; rewrite length_range; lia).
    rewrite Hl in *. split_and!; [|done..]. rewrite Hrun. do 4 f_equal.
    destruct (Z.ltb_spec 0 (e - b)), (Z.ltb_spec b e); lia.
Qed.

Lemma free_frames_invalid bm n a nf st v addr count :
  n < addr / FRAME_SIZE +₆₄ count →
  free_frames addr count (St bm n a nf st v) =
    Ret (Err InvalidFree, St bm n a nf (if v then bump_invalid_free_attempts st else st) v).
Proof.
  intros Hn. unfold free_frames. fields. destruct (Z.ltb_spec n (addr / FRAME_SIZE +₆₄ count)); [|lia].
  unfold count_if_validating. rewrite bind_assoc. fields. by destruct v.
Qed.

Lemma free_frames_double bm n a nf st addr count :
  bitmap_ok bm n → 0 ≤ addr → 0 ≤ count → addr / FRAME_SIZE + count ≤ n →
  ¬ block (addr / FRAME_SIZE) count ⊆ rset bm n →
  free_frames addr count (St bm n a nf st true) =
    Ret (Err DoubleFree, St bm n a nf (bump_double_free_attempts st) true).
Proof.
  intros Hok Ha Hc Hn Hsub. pose proof (bm_total _ _ Hok). rewrite MAX_TRACKED_FRAMES_eq in *.
  unfold free_frames. fields. assert (0 ≤ addr / FRAME_SIZE) by (unfold FRAME_SIZE; dlia).
  rewrite wrap_small by lia. destruct (Z.ltb_spec n (addr / FRAME_SIZE + count)); [lia|]. fields.
  set (l := range _ _).
  assert (mfor_res l check_reserved (St bm n a nf st true) =
    Ret (Err DoubleFree, St bm n a nf (bump_double_free_attempts st) true)) as Hrun.
  { apply check_loop_err; [done|intros f ?%elem_of_range; lia|].
    destruct (decide (Exists (λ f, f ∉ rset bm n) l)) as [(f & ? & ?)%Exists_exists|Hall];
      [by exists f|]. destruct Hsub. intros f Hf%elem_of_block.
    destruct (decide (f ∈ rset bm n)); [done|]. destruct Hall.
    apply Exists_exists. exists f. split; [apply elem_of_range; lia|done]. }
  by mrun Hrun.
Qed.

Lemma free_frames_ok bm n a nf st v addr count :
  bitmap_ok bm n → 0 ≤ addr → 0 ≤ count → addr / FRAME_SIZE + count ≤ n →
  (v = true → block (addr / FRAME_SIZE) count ⊆ rset bm n) →
  ∃ bm', free_frames addr count (St bm n a nf st v) =
      Ret (Ok tt, St bm' n (a -₆₄ count)
             (if 0 <? count then Z.min (addr / FRAME_SIZE) nf else nf) st v) ∧
    bitmap_ok bm' n ∧ rset bm' n = rset bm n ∖ block (addr / FRAME_SIZE) count.
Proof.
  intros Hok Ha Hc Hn Hsub. pose proof (bm_total _ _ Hok). rewrite MAX_TRACKED_FRAMES_eq in *.
  unfold free_frames. fields. assert (0 ≤ addr / FRAME_SIZE) by (unfold FRAME_SIZE; dlia).
  set (b := addr / FRAME_SIZE) in *.
  rewrite (wrap_small 64 (b + count)) by lia. destruct (Z.ltb_spec n (b + count)); [lia|]. fields.
  assert ((if v then mfor_res (range b (b + count)) check_reserved else mret (Ok tt))
    (St bm n a nf st v) = Ret (Ok tt, St bm n a nf st v)) as Hchk.
  { destruct v; [|done]. apply check_loop_ok; [done|]. intros f Hf%elem_of_range.
    split; [lia|]. apply Hsub; [done|]. apply elem_of_block. lia. }
  mrun Hchk.
  destruct (free_loop_spec bm n a nf st v b (b + count) Hok) as (bm' & Hrun & Hok' & Hset); [lia..|].
  exists bm'. mrun Hrun. fields. replace (b + count - b) with count in Hset by lia.
  split_and!; [|done..]. unfold mret, M_ret. do 4 f_equal.
  destruct (Z.ltb_spec 0 count), (Z.ltb_spec b (b + count)); lia.
Qed.
