(* ===== verification/FrameStats.v ===== *)
(** * The frame allocator: bitmap validation and statistics

    [validate_bitmap] counts the bits of the bitmap byte by byte; the count is
    the number of reserved frames. [update_fragmentation_stats] scans the frames
    once; its two results are the number of maximal free runs and the length of
    the longest one. *)

From stdpp Require Import base numbers list gmap strings.
From S2P Require Import Prelude Regions FrameAllocator FrameSpec.

#[local] Open Scope Z_scope.
#[local] Open Scope rust_scope.

(** ** Counting bits *)

Lemma rset_snoc bm k :
  0 ≤ k → rset bm (k + 1) = if frame_bit bm k then {[k]} ∪ rset bm k else rset bm k.
Proof.
  intros Hk. apply set_eq. intros f. destruct (frame_bit bm k) eqn:Hb.
  - rewrite elem_of_union, elem_of_singleton, (elem_of_rset bm k), (elem_of_rset bm (k + 1)).
    destruct (decide (f = k)) as [->|]; intuition lia.
  - rewrite (elem_of_rset bm k), (elem_of_rset bm (k + 1)).
    destruct (decide (f = k)) as [->|]; [rewrite Hb|]; intuition (lia || done).
Qed.

Lemma nres_snoc bm k : 0 ≤ k → nres bm (k + 1) = nres bm k + Z.b2z (frame_bit bm k).
Proof.
  intros Hk. unfold nres. rewrite rset_snoc by done. destruct (frame_bit bm k); simpl; [|lia].
  rewrite size_union, size_singleton; [lia|]. intros f ->%elem_of_singleton.
  rewrite elem_of_rset. lia.
Qed.

Lemma nres_0 bm : nres bm 0 = 0.
Proof. reflexivity. Qed.

Lemma frame_bit_byte bm q i :
  0 ≤ q → 0 ≤ i < 8 → frame_bit bm (8 * q + i) = Z.testbit (bm !!! Z.to_nat q) i.
Proof.
  intros Hq Hi. unfold frame_bit. replace ((8 * q + i) / 8) with q by dlia.
  by replace ((8 * q + i) mod 8) with i by dlia.
Qed.

Lemma count_ones_eq b :
  count_ones b = Z.b2z (Z.testbit b 0) + Z.b2z (Z.testbit b 1) + Z.b2z (Z.testbit b 2) +
    Z.b2z (Z.testbit b 3) + Z.b2z (Z.testbit b 4) + Z.b2z (Z.testbit b 5) +
    Z.b2z (Z.testbit b 6) + Z.b2z (Z.testbit b 7).
Proof.
  unfold count_ones. change (seqZ 0 8) with [0; 1; 2; 3; 4; 5; 6; 7]. cbn [foldr].
  assert (∀ x : bool, (if x then 1 else 0) = Z.b2z x) as Hb by done.
  rewrite !Hb. lia.
Qed.

Lemma nres_byte bm q :
  0 ≤ q → nres bm (8 * (q + 1)) = nres bm (8 * q) + count_ones (bm !!! Z.to_nat q).
Proof.
  intros Hq. rewrite count_ones_eq, <- !frame_bit_byte by lia.
  assert (∀ i j, 0 ≤ i → j = i + 1 →
    nres bm (8 * q + j) = nres bm (8 * q + i) + Z.b2z (frame_bit bm (8 * q + i))) as Hs.
  { intros i j Hi ->. rewrite <- nres_snoc by lia. f_equal. lia. }
  pose proof (Hs 0 1 ltac:(lia) eq_refl). pose proof (Hs 1 2 ltac:(lia) eq_refl). pose proof (Hs 2 3 ltac:(lia) eq_refl).
  pose proof (Hs 3 4 ltac:(lia) eq_refl). pose proof (Hs 4 5 ltac:(lia) eq_refl). pose proof (Hs 5 6 ltac:(lia) eq_refl).
  pose proof (Hs 6 7 ltac:(lia) eq_refl). pose proof (Hs 7 8 ltac:(lia) eq_refl). clear Hs.
  replace (8 * (q + 1)) with (8 * q + 8) by lia.
  rewrite Z.add_0_r in *. lia.
Qed.

Lemma validate_count bm (m : nat) :
  (m ≤ length bm)%nat → zlen bm ≤ BITMAP_SIZE →
  foldl (λ n b, n +₆₄ count_ones b) 0 (take m bm) = nres bm (8 * Z.of_nat m).
Proof.
  intros Hm Hlen. induction m as [|m IH]; [done|].
  destruct (lookup_lt_is_Some_2 bm m ltac:(lia)) as [b Hb].
  rewrite (take_S_r _ _ _ Hb), foldl_app, IH by lia. cbn [foldl].
  replace (Z.of_nat (S m)) with (Z.of_nat m + 1) by lia.
  pose proof (nres_byte bm (Z.of_nat m) ltac:(lia)) as Hstep.
  rewrite Nat2Z.id, (list_lookup_total_correct _ _ _ Hb) in Hstep. rewrite <- Hstep.
  apply wrap64_small. pose proof (nres_bound bm (8 * (Z.of_nat m + 1)) ltac:(lia)).
  unfold zlen, BITMAP_SIZE, MAX_TRACKED_FRAMES, FRAME_SIZE in Hlen.
  change ((4 * 1024 * 1024 * 1024 / 4096 + 7) / 8) with 131072 in Hlen. lia.
Qed.

Lemma nres_tail bm n : bitmap_ok bm n → nres bm (8 * ((n + 7) / 8)) = nres bm n.
Proof.
  intros Hok. unfold nres. f_equal. f_equal. apply set_eq. intros f.
  rewrite (elem_of_rset bm n), (elem_of_rset bm (8 * _)). pose proof (bm_total _ _ Hok).
  split; [|intros [??]; split; [dlia|done]].
  intros [Hf Hb]. destruct (Z.lt_ge_cases f n); [split; [lia|done]|].
  by rewrite (bm_tail _ _ Hok f) in Hb by lia.
Qed.

(** [validate_bitmap] compares the number of reserved frames with the counter. *)
Lemma validate_bitmap_spec bm n a nf st v :
  bitmap_ok bm n →
  validate_bitmap (St bm n a nf st v) = Ret (nres bm n =? a, St bm n a nf st v).
Proof.
  intros Hok. pose proof (bm_total _ _ Hok) as Hn. pose proof (bm_length _ _ Hok) as Hl.
  assert ((n + 7) / 8 ≤ zlen bm) as Hle.
  { rewrite Hl. unfold BITMAP_SIZE, MAX_TRACKED_FRAMES, FRAME_SIZE in *. dlia. }
  unfold validate_bitmap. fields.
  mrun (liftO_Ret _ (St bm n a nf st v) _ (zslice_ok bm 0 ((n + 7) / 8) ltac:(dlia) Hle)).
  rewrite skipn_O, Z.sub_0_r, validate_count, <- (nres_tail bm n Hok).
  - by rewrite Z2Nat.id by dlia.
  - unfold zlen in Hle. lia.
  - lia.
Qed.

(** ** Free runs *)

(** A free run starts at frame [f]. *)
Definition run_start (bm : list Z) (n f : Z) : Prop :=
  f ∉ rset bm n ∧ (f = 0 ∨ f - 1 ∈ rset bm n).
#[export] Instance run_start_dec bm n f : Decision (run_start bm n f).
Proof. unfold run_start. apply _. Defined.

(** The number of runs that start below [k]. *)
Definition run_count (bm : list Z) (n k : Z) : Z :=
  zlen (filter (run_start bm n) (range 0 k)).

(** [l] is the length of the longest free block below [k]. *)
Definition longest_run (bm : list Z) (n k l : Z) : Prop :=
  0 ≤ l ∧ (∃ b, 0 ≤ b ∧ b + l ≤ k ∧ free_block bm n b l) ∧
  ∀ b c, 0 ≤ b → b + c ≤ k → free_block bm n b c → c ≤ l.

Lemma run_count_snoc bm n k :
  0 ≤ k → run_count bm n (k + 1) =
    run_count bm n k + (if decide (run_start bm n k) then 1 else 0).
Proof.
  intros Hk. unfold run_count. rewrite range_snoc, filter_app, zlen_app by done.
  f_equal. rewrite filter_cons, filter_nil. by case_decide.
Qed.

Lemma run_count_bound bm n k : 0 ≤ k → 0 ≤ run_count bm n k ≤ k.
Proof.
  intros Hk. unfold run_count, zlen.
  pose proof (length_filter (run_start bm n) (range 0 k)). rewrite length_range in *. lia.
Qed.

(** What the scan knows after the frames below [k]: the open run has length
    [cur], the closed ones are counted in [fb] and none is longer than [lg]. *)
Record scan_inv (bm : list Z) (n k fb lg cur : Z) : Prop := {
  si_cur : 0 ≤ cur ≤ k;
  si_open : free_block bm n (k - cur) cur;
  si_start : k - cur = 0 ∨ k - cur - 1 ∈ rset bm n;
  si_runs : fb = run_count bm n (k - cur);
  si_long : longest_run bm n (k - cur) lg;
}.

(** The count of the runs, and the longest one, when the open run is closed. *)
Definition close_run (fb lg cur : Z) : Z * Z :=
  if 0 <? cur then (fb +₆₄ 1, if lg <? cur then cur else lg) else (fb, lg).

Lemma run_count_open bm n k cur (m : nat) :
  free_block bm n (k - cur) cur → (k - cur = 0 ∨ k - cur - 1 ∈ rset bm n) →
  0 ≤ k - cur → Z.of_nat m < cur →
  run_count bm n (k - cur + 1 + Z.of_nat m) = run_count bm n (k - cur) + 1.
Proof.
  intros Hfree Hstart Hk Hm. induction m as [|m IH].
  - rewrite Z.add_0_r, run_count_snoc by done. rewrite decide_True; [done|].
    split; [apply Hfree; lia|done].
  - replace (k - cur + 1 + Z.of_nat (S m)) with (k - cur + 1 + Z.of_nat m + 1) by lia.
    rewrite run_count_snoc, IH by lia. rewrite decide_False; [lia|].
    intros [_ [?|Hin]]; [lia|]. revert Hin. apply Hfree. lia.
Qed.

Lemma close_run_spec bm n k fb lg cur :
  0 ≤ k ≤ MAX_TRACKED_FRAMES → scan_inv bm n k fb lg cur →
  (close_run fb lg cur).1 = run_count bm n k ∧ longest_run bm n k (close_run fb lg cur).2.
Proof.
  rewrite MAX_TRACKED_FRAMES_eq. intros Hk [Hcur Hopen Hst -> (Hlg & (b0 & Hb0 & Hb0k & Hfree0) & Hmax)].
  unfold close_run. destruct (Z.ltb_spec 0 cur) as [Hpos|]; simpl.
  - split.
    + pose proof (run_count_bound bm n (k - cur) ltac:(lia)). nowrap.
      rewrite <- (run_count_open bm n k cur (Z.to_nat (cur - 1))) by (done || lia).
      f_equal. lia.
    + assert (∀ b c, 0 ≤ b → b + c ≤ k → free_block bm n b c → c ≤ Z.max lg cur) as Hall.
      { intros b c Hb Hbc Hfree. destruct (Z.le_gt_cases (b + c) (k - cur)).
        - specialize (Hmax b c Hb ltac:(lia) Hfree). lia.
        - destruct (Z.le_gt_cases (k - cur) b); [lia|]. destruct Hst as [?|Hin]; [lia|].
          destruct (Hfree (k - cur - 1)); [lia|done]. }
      destruct (Z.ltb_spec lg cur).
      * split_and!; [lia| |intros b c Hb Hbc Hf; specialize (Hall b c Hb Hbc Hf); lia].
        exists (k - cur). split_and!; [lia..|done].
      * split_and!; [lia| |intros b c Hb Hbc Hf; specialize (Hall b c Hb Hbc Hf); lia].
        exists b0. split_and!; [lia..|done].
  - replace (k - cur) with k in * by lia. split; [done|]. split_and!; [done| |done]. eauto.
Qed.

Lemma fragmentation_scan_spec bm n a nf st v (m : nat) k fb lg cur :
  bitmap_ok bm n → 0 ≤ k → n - k = Z.of_nat m → scan_inv bm n k fb lg cur →
  ∃ fb' lg' cur', fragmentation_scan (range k n) fb lg cur (St bm n a nf st v) =
      Ret ((fb', lg', cur'), St bm n a nf st v) ∧ scan_inv bm n n fb' lg' cur'.
Proof.
  intros Hok. revert k fb lg cur. induction m as [|m IH]; intros k fb lg cur Hk Hm Hinv.
  - rewrite range_nil by lia. replace n with k in * by lia. by exists fb, lg, cur.
  - rewrite range_cons by lia. cbn [fragmentation_scan].
    mrun (reserved_test bm n a nf st v k Hok ltac:(lia)).
    pose proof (bm_total _ _ Hok) as Hn. rewrite MAX_TRACKED_FRAMES_eq in Hn.
    case_bool_decide as Hin; cbn [negb].
    + destruct (close_run_spec bm n k fb lg cur) as [Hfst Hsnd];
        [rewrite MAX_TRACKED_FRAMES_eq; lia|done|].
      assert (scan_inv bm n (k + 1) (close_run fb lg cur).1 (close_run fb lg cur).2 0) as Hinv'.
      { destruct Hsnd as (Hl0 & (b0 & ? & ? & ?) & Hmax). split; [lia| | | |].
        - intros f Hf. lia.
        - right. by replace (k + 1 - 0 - 1) with k by lia.
        - rewrite Z.sub_0_r, run_count_snoc, decide_False by (lia || by intros []). lia.
        - rewrite Z.sub_0_r. split_and!; [done|exists b0; split_and!; [lia..|done]|].
          intros b c Hb Hbc Hfree. destruct (Z.le_gt_cases (b + c) k); [by apply (Hmax b)|].
          destruct (decide (c ≤ 0)); [lia|]. destruct (Hfree k); [lia|done]. }
      unfold close_run in Hinv'. destruct (Z.ltb_spec 0 cur) as [Hpos|Hpos];
        (destruct (IH (k + 1) _ _ _ ltac:(lia) ltac:(lia) Hinv') as (fb' & lg' & cur' & Hrun & ?)).
      * exists fb', lg', cur'. split; [exact Hrun|done].
      * replace cur with 0 by (destruct Hinv; lia). exists fb', lg', cur'. split; [exact Hrun|done].
    + destruct Hinv as [Hcur Hopen Hst Hruns Hlong]. nowrap.
      destruct (IH (k + 1) fb lg (cur + 1)) as (fb' & lg' & cur' & Hrun & ?); [lia..| |].
      { replace (k + 1 - (cur + 1)) with (k - cur) in * by lia.
        split; replace (k + 1 - (cur + 1)) with (k - cur) by lia; [lia| |done..].
        intros f Hf. destruct (decide (f = k)) as [->|]; [done|]. apply Hopen. lia. }
      exists fb', lg', cur'. split; [exact Hrun|done].
Qed.

(** The fragmentation statistics are the number of maximal free runs and the
    length of the longest. *)
Lemma update_fragmentation_stats_spec bm n a nf st v :
  bitmap_ok bm n →
  ∃ lg, update_fragmentation_stats (St bm n a nf st v) =
      Ret (tt, St bm n a nf (set_blocks lg (run_count bm n n) st) v) ∧ longest_run bm n n lg.
Proof.
  intros Hok. unfold update_fragmentation_stats. fields. pose proof (bm_total _ _ Hok).
  destruct (fragmentation_scan_spec bm n a nf st v (Z.to_nat n) 0 0 0 0)
    as (fb & lg & cur & Hrun & Hinv); [done|lia..| |].
  { split; [lia|intros f ?; lia|by left|done|]. split_and!; [lia| |intros; lia].
    exists 0. split_and!; [lia..|]. intros f ?. lia. }
  mrun Hrun. destruct (close_run_spec bm n n fb lg cur) as [Hfst Hsnd]; [done..|].
  unfold close_run in *. exists (if 0 <? cur then (if lg <? cur then cur else lg) else lg).
  destruct (Z.ltb_spec 0 cur); simpl in *; fields; rewrite <- Hfst; done.
Qed.
