(* ===== verification/FrameInit.v ===== *)
(** * The frame allocator: construction, standard reservations, self test

    The operations in terms of [frames_wf], the invariant of the allocator, and
    the boot sequence [PFA_new], [init_standard_reservations], [self_test]. *)

From stdpp Require Import base numbers list gmap strings.
From S2P Require Import Prelude Regions FrameAllocator FrameSpec FrameStats.

#[local] Open Scope Z_scope.
#[local] Open Scope rust_scope.

(** ** The invariant on a spelt-out state *)

Lemma frames_wf_intro bm n a nf st v :
  bitmap_ok bm n → a = nres bm n → 0 ≤ nf ≤ n → nf ∉ rset bm n →
  frames_wf (St bm n a nf st v).
Proof. intros ? -> ? ?. by split. Qed.

Lemma frames_wf_elim bm n a nf st v :
  frames_wf (St bm n a nf st v) →
  bitmap_ok bm n ∧ a = nres bm n ∧ 0 ≤ nf ≤ n ∧ nf ∉ rset bm n ∧ 0 ≤ n ≤ 1048576 ∧ 0 ≤ a ≤ n.
Proof.
  intros [Hok Ha Hnf Hin]. cbn in *. pose proof (bm_total _ _ Hok) as Hn.
  pose proof (nres_bound bm n ltac:(lia)). rewrite MAX_TRACKED_FRAMES_eq in Hn.
  split_and!; (done || (unfold nres in *; lia)).
Qed.

(** The invariant with a counter that is [d] too high; [frames_off 0] is
    [frames_wf]. *)
Record frames_off (d : Z) (s : FrameState) : Prop := {
  off_bitmap : bitmap_ok (BITMAP s) (total_frames (pfa s));
  off_count : allocated_frames (pfa s) = nres (BITMAP s) (total_frames (pfa s)) + d;
  off_drift : 0 ≤ d < 2 ^ 63;
  off_next : 0 ≤ next_free (pfa s) ≤ total_frames (pfa s);
  off_next_free : next_free (pfa s) ∉ rset (BITMAP s) (total_frames (pfa s));
}.

Lemma frames_off_0 s : frames_off 0 s ↔ frames_wf s.
Proof. split; intros []; split; (done || unfold nres in *; lia). Qed.

(** Destruct a state whose invariant [H] is known. *)
Ltac wf_state s H :=
  let bm := fresh "bm" in let n := fresh "n" in let a := fresh "a" in
  let nf := fresh "nf" in let st := fresh "st" in let v := fresh "v" in
  destruct s as [bm [n a nf st v]];
  destruct (frames_wf_elim _ _ _ _ _ _ H) as (Hok & Ha & Hnf & Hfree & Hn & Hbound);
  unfold reserved_frames, tight in *;
  cbn [total_frames allocated_frames next_free stats validation_enabled BITMAP pfa] in *.

(** ** Construction *)

Lemma rset_clear bm n :
  (∀ f, 0 ≤ f < n → frame_bit bm f = false) → rset bm n = ∅.
Proof.
  intros Hb. apply set_eq. intros f. rewrite elem_of_rset. split; [|set_solver].
  intros [Hf Ht]. by rewrite Hb in Ht.
Qed.

Lemma PFA_new_spec total bm :
  0 ≤ total → zlen bm = BITMAP_SIZE → bytes bm →
  ∃ s, PFA_new total bm = Ret s ∧ frames_wf s ∧ reserved_frames s = ∅ ∧
    total_frames (pfa s) = Z.min (total / FRAME_SIZE) MAX_TRACKED_FRAMES.
Proof.
  intros Ht Hl Hb. unfold PFA_new. set (n := Z.min _ _).
  assert (0 ≤ n ≤ 1048576) as Hn.
  { unfold n. rewrite MAX_TRACKED_FRAMES_eq. unfold FRAME_SIZE. dlia. }
  assert (0 ≤ (n + 7) / 8 ≤ 131072) as Hq by dlia.
  assert (BITMAP_SIZE = 131072) as HB by reflexivity. rewrite HB in Hl.
  rewrite zcopy_ok by (rewrite ?zlen_repeat; lia). rewrite zlen_repeat by lia.
  cbn [mbind outcome_bind]. eexists. split; [reflexivity|].
  rewrite Z.add_0_l. change (take (Z.to_nat 0) bm) with (@nil Z). rewrite app_nil_l.
  set (bm' := zrepeat _ 0 ++ _).
  assert (∀ f, 0 ≤ f < 8 * ((n + 7) / 8) → frame_bit bm' f = false) as Hclr.
  { intros f Hf. unfold frame_bit, bm', zrepeat. rewrite lookup_total_app_l.
    - rewrite list_lookup_total_alt, lookup_replicate_2 by dlia. apply Z.bits_0.
    - rewrite length_replicate. dlia. }
  assert (rset bm' n = ∅) as Hempty by (apply rset_clear; intros; apply Hclr; dlia).
  split_and!; [|exact Hempty|reflexivity]. apply frames_wf_intro.
  - split.
    + unfold bm'. autorewrite with zlen. rewrite zlen_repeat by lia. rewrite Hl, HB. lia.
    + unfold bytes, bm', zrepeat. apply Forall_app. split; [apply Forall_replicate|by apply Forall_drop].
      unfold is_byte. lia.
    + rewrite MAX_TRACKED_FRAMES_eq. lia.
    + intros f Hf. apply Hclr. lia.
  - unfold nres. by rewrite Hempty.
  - lia.
  - rewrite Hempty. set_solver.
Qed.

Section Init.
Context `{!PhysAddrApi, !PhysAddrLaws _}.

(** ** Standard reservations *)

Lemma reserve_range_off d s start end_ :
  frames_off d s → 0 ≤ start → 0 ≤ end_ < 2 ^ 52 →
  ∃ s', reserve_range start end_ s = Ret (Ok tt, s') ∧ frames_off d s' ∧ tight s' ∧
    total_frames (pfa s') = total_frames (pfa s) ∧
    reserved_frames s' = span start end_ (total_frames (pfa s)) ∪ reserved_frames s ∧
    validation_enabled (pfa s') = validation_enabled (pfa s).
Proof.
  intros [Hok Ha Hd Hnf Hfree] Hs He. destruct s as [bm [n a nf st v]]. cbn in *.
  pose proof (bm_total _ _ Hok) as Hn. rewrite MAX_TRACKED_FRAMES_eq in Hn.
  pose proof (nres_bound bm n ltac:(lia)).
  destruct (reserve_range_spec bm n a nf st v start end_)
    as (bm' & nf' & Hrun & Hok' & Hset & Hnf' & Hfree' & Htight); [done|lia..|].
  eexists. split; [exact Hrun|]. split_and!; [|done..]. split; (done || cbn; lia).
Qed.

Lemma reserve_standard_off d s start end_ :
  frames_off d s → 0 ≤ start < 2 ^ 52 → 0 ≤ end_ < 2 ^ 52 →
  ∃ s', reserve_standard start end_ s = Ret (tt, s') ∧ frames_off d s' ∧ tight s' ∧
    total_frames (pfa s') = total_frames (pfa s) ∧
    reserved_frames s' = span start end_ (total_frames (pfa s)) ∪ reserved_frames s.
Proof.
  intros Hwf Hs He. destruct (reserve_range_off d s start end_) as (s' & Hrun & ? & ? & ? & ? & _);
    [done|lia..|]. exists s'. split_and!; try done. unfold reserve_standard.
  mrun (liftO_Ret _ s _ (PhysAddr_new_ok start Hs)).
  mrun (liftO_Ret _ s _ (PhysAddr_new_ok end_ He)). by mrun Hrun.
Qed.

(** The frames below [n] that the standard reservations cover: the first 2 MiB
    and 128 KiB from 4 MiB on. *)
Definition standard_frames (n : Z) : gset Z :=
  filter (λ f, f < n) (block 0 0x200 ∪ block 0x400 0x20).

(** Run one [reserve_standard]. *)
Ltac reserve_step :=
  match goal with
  | Hwf : frames_off ?d ?s |- context [(reserve_standard ?a ?b ≫= _) ?s] =>
      let s' := fresh "s" in let Hrun := fresh "Hrun" in let Hwf' := fresh "Hwf" in
      let Hn := fresh "Hn" in let Hset := fresh "Hset" in let Ht := fresh "Ht" in
      destruct (reserve_standard_off d s a b Hwf ltac:(lia) ltac:(lia))
        as (s' & Hrun & Hwf' & Ht & Hn & Hset); mrun Hrun; clear Hrun
  end.

Lemma init_standard_reservations_off d s :
  frames_off d s →
  ∃ s', init_standard_reservations s = Ret (tt, s') ∧ frames_off d s' ∧ tight s' ∧
    total_frames (pfa s') = total_frames (pfa s) ∧
    reserved_frames s' = standard_frames (total_frames (pfa s)) ∪ reserved_frames s.
Proof.
  intros Hwf. unfold init_standard_reservations.
  do 8 reserve_step.
  match goal with
  | Hwf : frames_off ?d ?s |- context [reserve_standard ?a ?b ?s] =>
      destruct (reserve_standard_off d s a b Hwf ltac:(lia) ltac:(lia))
        as (s9 & Hrun & Hwf9 & Ht9 & Hn9 & Hset9)
  end.
  exists s9. split; [exact Hrun|]. split_and!; [done|done|congruence|].
  repeat match goal with H : reserved_frames _ = _ |- _ => rewrite H; clear H end.
  repeat match goal with H : total_frames _ = _ |- _ => rewrite H; clear H end.
  apply set_eq. intros f. unfold standard_frames.
  rewrite !elem_of_union, elem_of_filter, elem_of_union, !elem_of_span,
    (elem_of_block 0 0x200), (elem_of_block 0x400 0x20).
  change ((0x100000 + FRAME_SIZE - 1) / FRAME_SIZE) with 0x100.
  unfold FRAME_SIZE. set (n := total_frames _).
  repeat match goal with |- context [?a / 4096] =>
    let q := eval vm_compute in (a / 4096) in change (a / 4096) with q end.
  destruct (decide (f ∈ reserved_frames s)); intuition lia.
Qed.

Lemma init_standard_reservations_wf s :
  frames_wf s →
  ∃ s', init_standard_reservations s = Ret (tt, s') ∧ frames_wf s' ∧ tight s' ∧
    total_frames (pfa s') = total_frames (pfa s) ∧
    reserved_frames s' = standard_frames (total_frames (pfa s)) ∪ reserved_frames s.
Proof.
  intros Hwf. destruct (init_standard_reservations_off 0 s) as (s' & ? & ?%frames_off_0 & ?);
    [by apply frames_off_0|by exists s'].
Qed.

Lemma reserve_range_wf s start end_ :
  frames_wf s → 0 ≤ start → 0 ≤ end_ < 2 ^ 52 →
  ∃ s', reserve_range start end_ s = Ret (Ok tt, s') ∧ frames_wf s' ∧ tight s' ∧
    total_frames (pfa s') = total_frames (pfa s) ∧
    reserved_frames s' = span start end_ (total_frames (pfa s)) ∪ reserved_frames s ∧
    validation_enabled (pfa s') = validation_enabled (pfa s).
Proof.
  intros Hwf ? ?. destruct (reserve_range_off 0 s start end_) as (s' & ? & ?%frames_off_0 & ?);
    [by apply frames_off_0|done..|by exists s'].
Qed.

(** ** The operations on well-formed states *)

(** [s'] differs from [s] in the statistics only. *)
Definition same_frames (s s' : FrameState) : Prop :=
  BITMAP s' = BITMAP s ∧ total_frames (pfa s') = total_frames (pfa s) ∧
  allocated_frames (pfa s') = allocated_frames (pfa s) ∧
  next_free (pfa s') = next_free (pfa s) ∧
  validation_enabled (pfa s') = validation_enabled (pfa s).

Lemma same_frames_wf s s' :
  same_frames s s' → frames_wf s →
  frames_wf s' ∧ reserved_frames s' = reserved_frames s ∧ (tight s → tight s').
Proof.
  intros (Hb & Hn & Ha & Hnf & _) [H1 H2 H3 H4]. unfold tight, reserved_frames.
  rewrite Hb, Hn, Hnf. split_and!; [|done..]. by split; rewrite ?Hb, ?Hn, ?Ha, ?Hnf.
Qed.

(** [s'] is well formed, has the same size and mode, and reserves the frames [X]. *)
Definition frames_to (s s' : FrameState) (X : gset Z) : Prop :=
  frames_wf s' ∧ total_frames (pfa s') = total_frames (pfa s) ∧ reserved_frames s' = X ∧
  validation_enabled (pfa s') = validation_enabled (pfa s).

Lemma same_frames_to s s' :
  same_frames s s' → frames_wf s → frames_to s s' (reserved_frames s).
Proof.
  intros Hs Hwf. destruct (same_frames_wf s s' Hs Hwf) as (? & ? & _).
  split_and!; [done|apply Hs|done|apply Hs].
Qed.

Lemma validate_bitmap_wf s : frames_wf s → validate_bitmap s = Ret (true, s).
Proof.
  intros Hwf. wf_state s Hwf. rewrite validate_bitmap_spec by done.
  by rewrite Ha, Z.eqb_refl.
Qed.

Lemma allocate_frame_wf s :
  frames_wf s → next_free (pfa s) < total_frames (pfa s) →
  ∃ s', allocate_frame s = Ret (Some (next_free (pfa s) * FRAME_SIZE), s') ∧
    frames_to s s' ({[next_free (pfa s)]} ∪ reserved_frames s) ∧ (tight s → tight s').
Proof.
  intros Hwf Hlt. wf_state s Hwf.
  destruct (allocate_frame_some bm n a nf st v Hok ltac:(lia) Hfree)
    as (bm' & nf' & Hrun & [Hok' Hset] & Hnf' & Hfree' & Hall); [lia..|].
  eexists. split; [exact Hrun|]. split; [split_and!; [|done..]|].
  - apply frames_wf_intro; [done| |lia|done]. rewrite (nres_marked _ _ _ _ Hset Hfree). lia.
  - intros Ht f Hf. cbn in Hf. change (f ∈ rset bm' n). rewrite Hset. destruct (Z.lt_trichotomy f nf) as [?|[->|?]].
    + apply elem_of_union_r, Ht. lia.
    + set_solver.
    + apply elem_of_union_r, Hall. lia.
Qed.

Lemma allocate_frame_none s :
  frames_wf s → next_free (pfa s) = total_frames (pfa s) →
  ∃ s', allocate_frame s = Ret (None, s') ∧ same_frames s s'.
Proof.
  intros Hwf Heq. wf_state s Hwf. eexists. split; [apply allocate_frame_full; lia|].
  by split_and!.
Qed.

Lemma free_frame_wf s addr :
  frames_wf s → addr / FRAME_SIZE ∈ reserved_frames s →
  ∃ s', free_frame addr s = Ret (Ok tt, s') ∧
    frames_to s s' (reserved_frames s ∖ {[addr / FRAME_SIZE]}) ∧ (tight s → tight s').
Proof.
  intros Hwf Hin. wf_state s Hwf. set (f := addr / FRAME_SIZE) in *.
  assert (0 ≤ f < n) as Hf by (by apply elem_of_rset in Hin as [? _]).
  assert (0 < nres bm n).
  { unfold nres. enough (size (rset bm n) ≠ 0)%nat by lia. rewrite size_non_empty_iff. set_solver. }
  destruct (free_frame_ok bm n a nf st v addr Hok Hf Hin ltac:(lia)) as (bm' & Hrun & Hok' & Hset).
  eexists. split; [exact Hrun|]. split; [split_and!; [|done..]|].
  - apply frames_wf_intro; [done| |lia|].
    + rewrite (nres_cleared _ _ _ _ Hset Hin). lia.
    + rewrite Hset. fold f. destruct (Z.min_spec f nf) as [[_ ->]|[_ ->]]; set_solver.
  - fold f. intros Ht g Hg. cbn in Hg. change (g ∈ rset bm' n). rewrite Hset. fold f.
    apply elem_of_difference. split; [apply Ht; lia|]. rewrite elem_of_singleton. lia.
Qed.

Lemma free_frame_wf_double s addr :
  frames_wf s → 0 ≤ addr / FRAME_SIZE < total_frames (pfa s) →
  addr / FRAME_SIZE ∉ reserved_frames s →
  ∃ s', free_frame addr s = Ret (Err DoubleFree, s') ∧ same_frames s s'.
Proof.
  intros Hwf Hf Hin. wf_state s Hwf. eexists. split; [by apply free_frame_double|].
  by split_and!.
Qed.

Lemma free_frame_wf_invalid s addr :
  total_frames (pfa s) ≤ addr / FRAME_SIZE →
  ∃ s', free_frame addr s = Ret (Err InvalidFree, s') ∧ same_frames s s'.
Proof.
  intros Hf. destruct s as [bm [n a nf st v]]. cbn in *. eexists.
  split; [by apply free_frame_invalid|]. by split_and!.
Qed.

Lemma allocate_frames_wf s count :
  frames_wf s → 0 < count < 2 ^ 63 →
  (∃ s' b, allocate_frames count s = Ret (Some (b * FRAME_SIZE), s') ∧
     next_free (pfa s) ≤ b ∧ b + count ≤ total_frames (pfa s) ∧
     block b count ## reserved_frames s ∧
     (∀ b', next_free (pfa s) ≤ b' < b → ¬ block b' count ## reserved_frames s) ∧
     frames_to s s' (block b count ∪ reserved_frames s)) ∨
  (∃ s', allocate_frames count s = Ret (None, s') ∧ same_frames s s' ∧
     ∀ b, next_free (pfa s) ≤ b → b + count ≤ total_frames (pfa s) →
       ¬ block b count ## reserved_frames s).
Proof.
  intros Hwf Hc. wf_state s Hwf.
  assert (∀ b, block b count ## rset bm n ↔ free_block bm n b count) as Hdisj.
  { intros b. unfold free_block. split; [|intros Hf f ?%elem_of_block; by apply Hf].
    intros Hd f Hf Hin. apply (Hd f); [by apply elem_of_block|done]. }
  destruct (Z.le_gt_cases count n) as [Hle|Hgt].
  - destruct (allocate_frames_spec bm n a nf st v count Hok)
      as [(bm' & nf' & b & Hrun & ? & ? & Hfb & Hmin & Hok' & Hset & ? & ? & ?)|[Hrun Hno]];
      [lia..| |].
    + left. eexists _, b. split; [exact Hrun|]. split_and!; [done..|by apply Hdisj| |].
      { intros b' Hb' Hd%Hdisj. by apply (Hmin b'). }
      split_and!; [|done..]. apply frames_wf_intro; [done| |lia|done].
      rewrite (nres_block bm bm' n b count); [lia|lia|done|done].
    + right. eexists. split; [exact Hrun|]. split; [by split_and!|].
      intros b Hb Hbn Hd%Hdisj. by apply (Hno b).
  - right. exists (St bm n a nf (if v then bump_allocation_failures st else st) v).
    split_and!; [|done..|intros; lia]. unfold allocate_frames.
    destruct (Z.eqb_spec count 0); [lia|]. fields. destruct (Z.ltb_spec n count); [|lia].
    unfold count_if_validating. rewrite bind_assoc. fields. by destruct v.
Qed.

Lemma free_frames_wf s addr count :
  frames_wf s → 0 ≤ addr → 0 ≤ count → addr / FRAME_SIZE + count ≤ total_frames (pfa s) →
  block (addr / FRAME_SIZE) count ⊆ reserved_frames s →
  ∃ s', free_frames addr count s = Ret (Ok tt, s') ∧
    frames_to s s' (reserved_frames s ∖ block (addr / FRAME_SIZE) count).
Proof.
  intros Hwf Ha0 Hc Hn' Hsub. wf_state s Hwf. set (b := addr / FRAME_SIZE) in *.
  destruct (free_frames_ok bm n a nf st v addr count Hok Ha0 Hc Hn') as (bm' & Hrun & Hok' & Hset).
  { done. }
  eexists. split; [exact Hrun|]. fold b in Hset |- *. split_and!; [|done..].
  assert (nres bm' n = nres bm n - count).
  { unfold nres. rewrite Hset, size_difference by done.
    pose proof (size_block b count Hc). pose proof (subseteq_size _ _ Hsub). lia. }
  pose proof (nres_bound bm' n ltac:(lia)).
  assert (0 ≤ b) by (unfold b, FRAME_SIZE; dlia).
  apply frames_wf_intro; [done|rewrite wrap64_small; lia|destruct (Z.ltb_spec 0 count); lia|].
  rewrite Hset, elem_of_difference. destruct (Z.ltb_spec 0 count); [|tauto].
  destruct (Z.min_spec b nf) as [[_ ->]|[_ ->]]; [|tauto]. rewrite elem_of_block. lia.
Qed.

(** ** The self test *)

Lemma invalid_test_address :
  PhysAddr_new (MAX_TRACKED_FRAMES *₆₄ FRAME_SIZE +₆₄ 0x1000) = Ret 4294971392.
Proof. apply PhysAddr_new_ok. lia. Qed.

Lemma self_test_spec s :
  frames_wf s →
  ∃ s', self_test s = Ret (bool_decide (next_free (pfa s) < total_frames (pfa s)), s') ∧
    frames_to s s' (reserved_frames s).
Proof.
  intros Hwf. unfold self_test. mrun (validate_bitmap_wf s Hwf). cbn [negb].
  assert (next_free (pfa s) ≤ total_frames (pfa s) ∧ total_frames (pfa s) ≤ 1048576 ∧
    0 ≤ next_free (pfa s) ∧ next_free (pfa s) ∉ reserved_frames s) as (Hnf & Hn & Hnf0 & Hfree).
  { wf_state s Hwf. split_and!; (done || lia). }
  case_bool_decide as Hlt.
  2:{ destruct (allocate_frame_none s Hwf) as (s' & Hrun & Hs'); [lia|].
      mrun Hrun. exists s'. split; [done|]. by apply same_frames_to. }
  destruct (allocate_frame_wf s Hwf Hlt) as (s1 & Hrun1 & (Hwf1 & Hn1 & Hset1 & Hv1) & _).
  mrun Hrun1. mrun (validate_bitmap_wf s1 Hwf1). cbn [negb].
  set (nf := next_free (pfa s)) in *.
  assert (nf * FRAME_SIZE / FRAME_SIZE = nf) as Hdiv by (unfold FRAME_SIZE; dlia).
  destruct (free_frame_wf s1 (nf * FRAME_SIZE) Hwf1) as (s2 & Hrun2 & (Hwf2 & Hn2 & Hset2 & Hv2) & _).
  { rewrite Hdiv, Hset1. set_solver. }
  assert (reserved_frames s2 = reserved_frames s) as Hback.
  { rewrite Hset2, Hset1, Hdiv. set_solver. }
  mrun Hrun2. mrun (validate_bitmap_wf s2 Hwf2). cbn [negb].
  destruct (free_frame_wf_double s2 (nf * FRAME_SIZE) Hwf2) as (s3 & Hrun3 & Hs3).
  { rewrite Hdiv. lia. }
  { by rewrite Hdiv, Hback. }
  mrun Hrun3. rewrite bool_decide_eq_true_2 by done. cbn [negb].
  destruct (same_frames_to _ _ Hs3 Hwf2) as (Hwf3 & Hn3 & Hset3 & Hv3).
  mrun (liftO_Ret _ s3 _ invalid_test_address).
  destruct (free_frame_wf_invalid s3 4294971392) as (s4 & Hrun4 & Hs4).
  { rewrite Hn3, Hn2, Hn1. change (4294971392 / FRAME_SIZE) with 1048577. lia. }
  mrun Hrun4. rewrite bool_decide_eq_true_2 by done. cbn [negb].
  destruct (same_frames_to _ _ Hs4 Hwf3) as (Hwf4 & Hn4 & Hset4 & Hv4).
  destruct (allocate_frames_wf s4 4 Hwf4 ltac:(lia))
    as [(s5 & b & Hrun5 & Hb & Hbn & Hdisj & _ & (Hwf5 & Hn5 & Hset5 & Hv5))|(s5 & Hrun5 & Hs5 & _)].
  - mrun Hrun5. assert (0 ≤ b) by (destruct Hwf4; lia).
    assert (b * FRAME_SIZE / FRAME_SIZE = b) as Hdivb by (unfold FRAME_SIZE; dlia).
    destruct (free_frames_wf s5 (b * FRAME_SIZE) 4 Hwf5) as (s6 & Hrun6 & (Hwf6 & Hn6 & Hset6 & Hv6)).
    { unfold FRAME_SIZE. lia. } { lia. } { rewrite Hdivb. lia. }
    { rewrite Hdivb, Hset5. set_solver. }
    exists s6. rewrite bind_assoc. mrun Hrun6. msteps. split; [by apply validate_bitmap_wf|].
    split_and!; [done|congruence| |congruence]. rewrite Hset6, Hset5, Hdivb, <- Hback, <- Hset3, <- Hset4.
    apply set_eq. intros f. specialize (Hdisj f). set_solver.
  - mrun Hrun5. msteps. destruct (same_frames_to _ _ Hs5 Hwf4) as (Hwf5 & Hn5 & Hset5 & Hv5).
    exists s5. split; [by apply validate_bitmap_wf|]. by split_and!; [|congruence..].
Qed.
End Init.
