(* ===== verification/PhysMem.v ===== *)
(** * The physical memory manager (kernel/src/memory/physmem.rs, lines 888-1145)

    [PhysicalMemoryManager] wraps the frame allocator and keeps the memory map
    and the list of reserved regions; [PMM], [PMM_INIT] are the kernel's global
    instance. Serial output is not modelled. *)

From stdpp Require Import base numbers list gmap strings sorting.
From S2P Require Import Prelude Regions FrameAllocator FrameSpec FrameStats FrameInit.

#[local] Open Scope Z_scope.
#[local] Open Scope rust_scope.

(** ** [slice::sort_by_key]: a stable sort *)

Fixpoint insert_by {A} (key : A → Z) (x : A) (l : list A) : list A :=
  match l with
  | [] => [x]
  | y :: l' => if key x <=? key y then x :: l else y :: insert_by key x l'
  end.
Definition sort_by_key {A} (key : A → Z) (l : list A) : list A := foldr (insert_by key) [] l.

Lemma insert_by_perm {A} (key : A → Z) x l : insert_by key x l ≡ₚ x :: l.
Proof.
  induction l as [|y l IH]; simpl; [done|]. case_match; [done|]. by rewrite IH, Permutation_swap.
Qed.

Lemma sort_by_key_perm {A} (key : A → Z) l : sort_by_key key l ≡ₚ l.
Proof. induction l as [|x l IH]; simpl; [done|]. by rewrite insert_by_perm, IH. Qed.

Definition key_le {A} (key : A → Z) (x y : A) : Prop := key x ≤ key y.

Lemma insert_by_sorted {A} (key : A → Z) x l :
  StronglySorted (key_le key) l → StronglySorted (key_le key) (insert_by key x l).
Proof.
  induction 1 as [|y l Hs IH Hall]; simpl; [repeat constructor|].
  destruct (Z.leb_spec (key x) (key y)).
  - constructor; [by constructor|]. constructor; [done|].
    eapply Forall_impl; [exact Hall|]. unfold key_le. intros; lia.
  - constructor; [done|]. rewrite insert_by_perm. constructor; [unfold key_le; lia|done].
Qed.

Lemma sort_by_key_sorted {A} (key : A → Z) l : StronglySorted (key_le key) (sort_by_key key l).
Proof. induction l; simpl; [constructor|]. by apply insert_by_sorted. Qed.

(** ** State *)

Record PhysicalMemoryManager := mkPMM {
  frame_allocator : PhysicalFrameAllocator;
  memory_map : list MemoryRegion;
  reserved_regions : list ReservedRegion;
}.

(** A manager together with the static bitmap. *)
Record PmmState := mkPS {
  ps_BITMAP : list Z;
  ps_pmm : PhysicalMemoryManager;
}.

(** The part of the state that [self.frame_allocator]'s methods work on. *)
Definition ps_frames (s : PmmState) : FrameState :=
  mkFS (ps_BITMAP s) (frame_allocator (ps_pmm s)).
Definition set_frames (fs : FrameState) (s : PmmState) : PmmState :=
  mkPS (BITMAP fs) (mkPMM (pfa fs) (memory_map (ps_pmm s)) (reserved_regions (ps_pmm s))).
Definition set_memory_map (l : list MemoryRegion) (s : PmmState) : PmmState :=
  mkPS (ps_BITMAP s) (mkPMM (frame_allocator (ps_pmm s)) l (reserved_regions (ps_pmm s))).
Definition set_reserved_regions (l : list ReservedRegion) (s : PmmState) : PmmState :=
  mkPS (ps_BITMAP s) (mkPMM (frame_allocator (ps_pmm s)) (memory_map (ps_pmm s)) l).

(** [self.frame_allocator.m()] *)
Definition with_fa {A} (m : M FrameState A) : M PmmState A := λ s,
  match m (ps_frames s) with
  | Ret (a, fs) => Ret (a, set_frames fs s)
  | Panic => Panic
  | UB => UB
  | OutOfFuel => OutOfFuel
  end.

Lemma with_fa_Ret {A} (m : M FrameState A) s a fs :
  m (ps_frames s) = Ret (a, fs) → with_fa m s = Ret (a, set_frames fs s).
Proof. intros H. unfold with_fa. by rewrite H. Qed.

(** ** Operations *)

Section Manager.
Context `{PhysAddrApi}.

(** [PhysicalMemoryManager::new]; [bm] is the static bitmap before the call. *)
Definition PMM_new (total_memory_bytes : Z) (bm : list Z) : outcome PmmState :=
  fs ← PFA_new total_memory_bytes bm;
  mret (mkPS (BITMAP fs) (mkPMM (pfa fs) [] [])).

Definition build_memory_map : M PmmState unit :=
  s ← get;
  modify (set_memory_map (sort_by_key mr_base
    (memory_map (ps_pmm s) ++ (rr_region <$> reserved_regions (ps_pmm s))))).

(** The two sums of [compute_statistics]: (usable, reserved). *)
Definition region_totals (l : list MemoryRegion) : Z * Z :=
  foldl (λ '(usable, reserved) region,
    if type_is_usable (mr_type region) then (usable +₆₄ mr_size region, reserved)
    else (usable, reserved +₆₄ mr_size region)) (0, 0) l.

Definition compute_statistics : M PmmState unit :=
  s ← get;
  let '(usable, reserved) := region_totals (memory_map (ps_pmm s)) in
  with_fa (update_statistics usable reserved).

(** The result of the boot self test only decides a serial message. *)
Definition PMM_init : M PmmState unit :=
  _ ← with_fa init_standard_reservations;
  _ ← build_memory_map;
  _ ← compute_statistics;
  _ ← with_fa self_test;
  mret tt.

Definition reserve_region (region : ReservedRegion) : M PmmState unit :=
  let start := ReservedRegion_base region in
  end_ ← liftO (ReservedRegion_end region);
  s ← get;
  _ ← modify (set_reserved_regions (reserved_regions (ps_pmm s) ++ [region]));
  _ ← with_fa (reserve_range start end_);
  mret tt.

(** The body of the inner loop of [init_from_memmap]. *)
Definition release_frame (frame : Z) : M FrameState unit :=
  r ← is_frame_reserved frame;
  if (r : bool) then mark_frame_free frame else mret tt.

(** The body of its outer loop. *)
Definition add_memmap_entry (entry : MemoryRegion) : M PmmState unit :=
  s ← get;
  _ ← modify (set_memory_map (memory_map (ps_pmm s) ++ [entry]));
  if region_is_usable entry then
    let start_frame := mr_base entry / FRAME_SIZE in
    e ← liftO (region_end entry);
    let end_frame := (e +₆₄ FRAME_SIZE -₆₄ 1) / FRAME_SIZE in
    total ← gets (total_frames ∘ pfa ∘ ps_frames);
    let capped_end := Z.min end_frame total in
    with_fa (mfor (range start_frame capped_end) release_frame)
  else
    reserve_region (ReservedRegion_new (mr_base entry) (mr_size entry) (mr_type entry)
      (mr_name entry) (type_as_str (mr_type entry))).

Definition init_from_memmap (entries : list MemoryRegion) : M PmmState unit :=
  _ ← mfor entries add_memmap_entry;
  _ ← with_fa init_standard_reservations;
  _ ← with_fa recalculate_next_free;
  _ ← compute_statistics;
  s ← get;
  modify (set_memory_map (sort_by_key mr_base (memory_map (ps_pmm s)))).

Definition validate : M PmmState bool := with_fa validate_bitmap.

(** The methods that pass a call on to the frame allocator. *)
Definition PMM_allocate_frame : M PmmState (option Z) := with_fa allocate_frame.
Definition PMM_allocate_frames (count : Z) : M PmmState (option Z) := with_fa (allocate_frames count).
Definition PMM_free_frame (addr : Z) : M PmmState (result unit PmmError) := with_fa (free_frame addr).
Definition PMM_free_frames (addr count : Z) : M PmmState (result unit PmmError) :=
  with_fa (free_frames addr count).
Definition PMM_statistics : M PmmState MemoryStatistics := with_fa (gets statistics).

(** ** The global instance *)

Record Global := mkGlobal {
  g_BITMAP : list Z;
  g_PMM : option PhysicalMemoryManager;
  g_PMM_INIT : bool;
}.

(** [let mut pmm = new(total); m(pmm); PMM = Some(pmm); PMM_INIT.store(true)] *)
Definition init_global (total_memory : Z) (m : M PmmState unit) : M Global unit := λ g,
  match (s ← PMM_new total_memory (g_BITMAP g); m s) with
  | Ret (_, s) => Ret (tt, mkGlobal (ps_BITMAP s) (Some (ps_pmm s)) true)
  | Panic => Panic
  | UB => UB
  | OutOfFuel => OutOfFuel
  end.

Definition init (total_memory : Z) : M Global unit := init_global total_memory PMM_init.

Definition init_with_memmap (total_memory : Z) (entries : list MemoryRegion) : M Global unit :=
  init_global total_memory (init_from_memmap entries).

(** [pmm().m()]: panics before initialisation; [unwrap_unchecked] of [None]
    would be undefined behaviour. *)
Definition pmm {A} (m : M PmmState A) : M Global A := λ g,
  if negb (g_PMM_INIT g) then Panic else
  match g_PMM g with
  | None => UB
  | Some p =>
      match m (mkPS (g_BITMAP g) p) with
      | Ret (a, s) => Ret (a, mkGlobal (ps_BITMAP s) (Some (ps_pmm s)) (g_PMM_INIT g))
      | Panic => Panic
      | UB => UB
      | OutOfFuel => OutOfFuel
      end
  end.

Definition is_initialized (g : Global) : bool := g_PMM_INIT g.

Definition g_allocate_frame : M Global (option Z) := pmm PMM_allocate_frame.
Definition g_free_frame (addr : Z) : M Global (result unit PmmError) := pmm (PMM_free_frame addr).
Definition g_statistics : M Global MemoryStatistics := pmm PMM_statistics.

(** ** Specification *)

Context `{!PhysAddrLaws _}.

(** The tracked frames an entry touches. *)
Definition entry_frames (n : Z) (e : MemoryRegion) : gset Z :=
  span (mr_base e) (mr_base e + mr_size e) n.

Definition entry_ok (e : MemoryRegion) : Prop :=
  0 ≤ mr_base e ∧ 0 ≤ mr_size e ∧ mr_base e + mr_size e < 2 ^ 52.

(** The effect of one entry on (the reserved frames, the error of the counter). *)
Definition memmap_step (n : Z) (X : gset Z * Z) (e : MemoryRegion) : gset Z * Z :=
  if region_is_usable e
  then (X.1 ∖ entry_frames n e, X.2 + Z.of_nat (size (X.1 ∩ entry_frames n e)))
  else (entry_frames n e ∪ X.1, X.2).

Lemma size_cleared bm bm' n f :
  rset bm' n = rset bm n ∖ {[f]} → f ∈ rset bm n → nres bm' n + 1 = nres bm n.
Proof. intros. rewrite (nres_cleared bm bm' n f) by done. lia. Qed.

Lemma release_frame_spec bm n a nf st v f :
  bitmap_ok bm n → 0 ≤ f < n → 0 ≤ nf ≤ n → nf ∉ rset bm n →
  ∃ bm' nf', release_frame f (St bm n a nf st v) = Ret (tt, St bm' n a nf' st v) ∧
    bitmap_ok bm' n ∧ rset bm' n = rset bm n ∖ {[f]} ∧ 0 ≤ nf' ≤ n ∧ nf' ∉ rset bm' n.
Proof.
  intros Hok Hf Hnf Hfree. unfold release_frame.
  mrun (reserved_test bm n a nf st v f Hok Hf). case_bool_decide as Hin.
  - destruct (mark_frame_free_spec bm n a nf st v f Hok Hf) as (bm' & Hrun & Hok' & Hset).
    exists bm', (Z.min f nf). split; [exact Hrun|]. split_and!; [done..|lia|lia|].
    rewrite Hset. destruct (Z.min_spec f nf) as [[_ ->]|[_ ->]]; set_solver.
  - exists bm, nf. split; [done|]. split_and!; [done|set_solver|lia|lia|done].
Qed.

Lemma release_loop_spec n a st v l bm nf :
  bitmap_ok bm n → (∀ f, f ∈ l → 0 ≤ f < n) → 0 ≤ nf ≤ n → nf ∉ rset bm n →
  ∃ bm' nf', mfor l release_frame (St bm n a nf st v) = Ret (tt, St bm' n a nf' st v) ∧
    bitmap_ok bm' n ∧ rset bm' n = rset bm n ∖ list_to_set l ∧
    0 ≤ nf' ≤ n ∧ nf' ∉ rset bm' n.
Proof.
  revert bm nf. induction l as [|f l IH]; intros bm nf Hok Hl Hnf Hfree.
  - exists bm, nf. split_and!; [done..|set_solver|lia|lia|done].
  - destruct (release_frame_spec bm n a nf st v f) as (bm1 & nf1 & Hrun & Hok1 & Hset1 & ? & ?);
      [done|apply Hl; left|done..|].
    destruct (IH bm1 nf1) as (bm2 & nf2 & Hrun2 & Hok2 & Hset2 & ? & ?);
      [done|intros g ?; apply Hl; by right|done..|].
    exists bm2, nf2. split; [cbn [mfor]; by mrun Hrun|]. split_and!; [done| |lia|lia|done].
    rewrite Hset2, Hset1. set_solver.
Qed.

Lemma list_to_set_span start end_ n :
  list_to_set (range (start / FRAME_SIZE) (Z.min ((end_ + FRAME_SIZE - 1) / FRAME_SIZE) n))
  = span start end_ n.
Proof. done. Qed.

(** The allocator state reached is off by [d] and reserves [X]. *)
Definition memmap_state (n : Z) (X : gset Z * Z) (fs : FrameState) : Prop :=
  frames_off X.2 fs ∧ total_frames (pfa fs) = n ∧ reserved_frames fs = X.1.

Lemma add_memmap_entry_spec n X e s :
  entry_ok e → memmap_state n X (ps_frames s) → X.2 < 2 ^ 62 →
  ∃ s', add_memmap_entry e s = Ret (tt, s') ∧
    memmap_state n (memmap_step n X e) (ps_frames s') ∧
    memory_map (ps_pmm s') = memory_map (ps_pmm s) ++ [e] ∧
    (memmap_step n X e).2 ≤ X.2 + 1048576.
Proof.
  intros (Hb & Hsz & He) (Hoff & Hn & HX) Hd. unfold add_memmap_entry. msteps.
  set (s1 := set_memory_map _ s).
  assert (ps_frames s1 = ps_frames s) as Hfs by done.
  unfold memmap_step. destruct (region_is_usable e).
  - mrun (liftO_Ret _ s1 _ (region_end_ok e Hb Hsz He)). msteps. cbn [compose].
    rewrite (wrap64_small (mr_base e + mr_size e + FRAME_SIZE)) by (unfold FRAME_SIZE; lia).
    rewrite wrap64_small by (unfold FRAME_SIZE; lia).
    destruct s as [bm [[n0 a nf st v] mm rr]]. cbn in Hoff, Hn, HX. subst n0.
    destruct Hoff as [Hok Ha Hdr Hnf Hfree]. cbn in *.
    pose proof (bm_total _ _ Hok) as Hmax. rewrite MAX_TRACKED_FRAMES_eq in Hmax.
    destruct (release_loop_spec n a st v
      (range (mr_base e / FRAME_SIZE) (Z.min ((mr_base e + mr_size e + FRAME_SIZE - 1) / FRAME_SIZE) n))
      bm nf) as (bm' & nf' & Hrun & Hok' & Hset & Hnf' & Hfree'); [done| |done..|].
    { intros f Hf%elem_of_range. unfold FRAME_SIZE in *. split; [dlia|lia]. }
    eexists. split; [apply (with_fa_Ret _ s1 _ _ Hrun)|].
    rewrite list_to_set_span in Hset. fold (entry_frames n e) in Hset.
    assert (nres bm' n + Z.of_nat (size (X.1 ∩ entry_frames n e)) = nres bm n) as Hcount.
    { unfold nres. rewrite Hset. unfold reserved_frames in HX. cbn in HX. rewrite <- HX.
      rewrite <- Nat2Z.inj_add, <- size_union by set_solver. f_equal. f_equal.
      apply set_eq. intros f. destruct (decide (f ∈ entry_frames n e)); set_solver. }
    pose proof (nres_bound bm n ltac:(lia)). pose proof (nres_bound bm' n ltac:(lia)).
    split; [split; [|split]|split; [done|cbn; lia]].
    + split; (done || (cbn; lia)).
    + done.
    + unfold reserved_frames in *. cbn in *. by rewrite Hset, HX.
  - unfold reserve_region. cbn [ReservedRegion_new ReservedRegion_base rr_region mr_base].
    assert (ReservedRegion_end (ReservedRegion_new (mr_base e) (mr_size e) (mr_type e) (mr_name e)
      (type_as_str (mr_type e))) = Ret (mr_base e + mr_size e)) as Hend
      by (exact (region_end_ok (mkRegion (mr_base e) (mr_size e) (mr_type e) (mr_name e)) Hb Hsz He)).
    mrun (liftO_Ret _ s1 _ Hend). msteps. set (s2 := set_reserved_regions _ s1).
    assert (ps_frames s2 = ps_frames s) as Hfs2 by done.
    destruct (reserve_range_off X.2 (ps_frames s2) (mr_base e) (mr_base e + mr_size e))
      as (fs & Hrun & Hoff' & _ & Hn' & Hset & _); [by rewrite Hfs2|lia..|].
    mrun (with_fa_Ret _ s2 _ _ Hrun). eexists. split; [reflexivity|].
    split; [split; [|split]|split; [done|cbn; lia]].
    + destruct fs. exact Hoff'.
    + rewrite <- Hn, <- Hfs2. exact Hn'.
    + rewrite Hfs2, Hn, HX in Hset. exact Hset.
Qed.

(** The entries' effect, in order. *)
Definition memmap_effect (n : Z) (X : gset Z) (entries : list MemoryRegion) : gset Z * Z :=
  foldl (memmap_step n) (X, 0) entries.

Lemma memmap_loop_spec n X entries s :
  Forall entry_ok entries → memmap_state n X (ps_frames s) →
  X.2 + 1048576 * zlen entries < 2 ^ 62 →
  ∃ s', mfor entries add_memmap_entry s = Ret (tt, s') ∧
    memmap_state n (foldl (memmap_step n) X entries) (ps_frames s') ∧
    memory_map (ps_pmm s') = memory_map (ps_pmm s) ++ entries.
Proof.
  intros Hall. revert X s. induction Hall as [|e entries He _ IH]; intros X s Hs Hd.
  - exists s. by rewrite app_nil_r.
  - rewrite zlen_cons in Hd. pose proof (zlen_nonneg entries).
    destruct (add_memmap_entry_spec n X e s) as (s1 & Hrun1 & Hs1 & Hm1 & Hd1); [done..|lia|].
    destruct (IH (memmap_step n X e) s1) as (s2 & Hrun2 & Hs2 & Hm2); [done|lia|].
    exists s2. split; [cbn [mfor]; by mrun Hrun1|]. split; [done|].
    by rewrite Hm2, Hm1, <- app_assoc.
Qed.

Lemma recalculate_off d s :
  frames_off d s →
  ∃ s', recalculate_next_free s = Ret (tt, s') ∧ frames_off d s' ∧ tight s' ∧
    total_frames (pfa s') = total_frames (pfa s) ∧ reserved_frames s' = reserved_frames s.
Proof.
  intros [Hok Ha Hd Hnf Hfree]. destruct s as [bm [n a nf st v]]. cbn in *.
  destruct (recalculate_next_free_spec bm n a nf st v Hok) as (nf' & Hrun & ? & ? & ?).
  eexists. split; [exact Hrun|]. split; [by split|]. by split_and!.
Qed.

Lemma update_statistics_spec d u r s :
  frames_off d s →
  ∃ s', update_statistics u r s = Ret (tt, s') ∧ same_frames s s' ∧
    st_usable_bytes (stats (pfa s')) = u ∧ st_reserved_bytes (stats (pfa s')) = r ∧
    st_allocated_frames (stats (pfa s')) = allocated_frames (pfa s) ∧
    st_free_frames (stats (pfa s')) = free_frame_count s ∧
    st_free_block_count (stats (pfa s')) = run_count (BITMAP s) (total_frames (pfa s)) (total_frames (pfa s)) ∧
    longest_run (BITMAP s) (total_frames (pfa s)) (total_frames (pfa s))
      (st_largest_free_block (stats (pfa s'))).
Proof.
  intros [Hok _ _ _ _]. destruct s as [bm [n a nf st v]]. cbn in Hok.
  unfold update_statistics. fields.
  edestruct (update_fragmentation_stats_spec bm n a nf) as (lg & Hrun & Hlong); [done|].
  eexists. split; [exact Hrun|]. split; [by split_and!|]. by split_and!.
Qed.

Lemma same_frames_off d s s' :
  same_frames s s' → frames_off d s →
  frames_off d s' ∧ reserved_frames s' = reserved_frames s ∧ (tight s → tight s').
Proof.
  intros (Hb & Hn & Ha & Hnf & _) [H1 H2 H3 H4 H5]. unfold tight, reserved_frames.
  rewrite Hb, Hn, Hnf. split_and!; [|done..]. by split; rewrite ?Hb, ?Hn, ?Ha, ?Hnf.
Qed.

(** [compute_statistics] refreshes every aggregate and touches nothing else. *)
Lemma compute_statistics_spec d s :
  frames_off d (ps_frames s) →
  ∃ s', compute_statistics s = Ret (tt, s') ∧ same_frames (ps_frames s) (ps_frames s') ∧
    memory_map (ps_pmm s') = memory_map (ps_pmm s) ∧
    reserved_regions (ps_pmm s') = reserved_regions (ps_pmm s).
Proof.
  intros Hoff. unfold compute_statistics. msteps. destruct (region_totals _) as [u r].
  destruct (update_statistics_spec d u r _ Hoff) as (fs & Hrun & Hsame & _).
  eexists. split; [apply (with_fa_Ret _ s _ _ Hrun)|]. destruct fs. by split.
Qed.

Lemma ps_set_frames fs s : ps_frames (set_frames fs s) = fs.
Proof. by destruct fs. Qed.

Lemma init_from_memmap_spec s entries :
  frames_wf (ps_frames s) → Forall entry_ok entries → zlen entries < 2 ^ 32 →
  let n := total_frames (pfa (ps_frames s)) in
  let X := memmap_effect n (reserved_frames (ps_frames s)) entries in
  ∃ s', init_from_memmap entries s = Ret (tt, s') ∧
    frames_off X.2 (ps_frames s') ∧ tight (ps_frames s') ∧
    total_frames (pfa (ps_frames s')) = n ∧
    reserved_frames (ps_frames s') = standard_frames n ∪ X.1 ∧
    memory_map (ps_pmm s') = sort_by_key mr_base (memory_map (ps_pmm s) ++ entries).
Proof.
  intros Hwf Hall Hlen n X. unfold init_from_memmap.
  destruct (memmap_loop_spec n (reserved_frames (ps_frames s), 0) entries s)
    as (s1 & Hrun1 & (Hoff1 & Hn1 & HX1) & Hm1); [done| |cbn; lia|].
  { split; [by apply frames_off_0|]. done. }
  mrun Hrun1. change (foldl (memmap_step n) (reserved_frames (ps_frames s), 0) entries) with X in Hoff1, HX1.
  destruct (init_standard_reservations_off _ _ Hoff1) as (f2 & Hrun2 & Hoff2 & _ & Hn2 & HX2).
  mrun (with_fa_Ret _ s1 _ _ Hrun2). set (s2 := set_frames f2 s1).
  assert (ps_frames s2 = f2) as Hf2 by apply ps_set_frames.
  destruct (recalculate_off X.2 (ps_frames s2)) as (f3 & Hrun3 & Hoff3 & Ht3 & Hn3 & HX3);
    [by rewrite Hf2|].
  mrun (with_fa_Ret _ s2 _ _ Hrun3). set (s3 := set_frames f3 s2).
  assert (ps_frames s3 = f3) as Hf3 by apply ps_set_frames.
  destruct (compute_statistics_spec X.2 s3) as (s4 & Hrun4 & Hsame & Hm4 & _); [by rewrite Hf3|].
  mrun Hrun4. destruct (same_frames_off X.2 _ _ Hsame) as (Hoff4 & HX4 & Ht4); [by rewrite Hf3|].
  eexists. split; [reflexivity|]. change (ps_frames (set_memory_map _ s4)) with (ps_frames s4).
  rewrite Hf3 in *. split; [done|]. split; [by apply Ht4|]. split; [|split].
  - destruct Hsame as (_ & -> & _). rewrite ?Hf3, Hn3, Hf2, Hn2. done.
  - rewrite HX4, HX3, Hf2, HX2, Hn1, HX1. reflexivity.
  - cbn. rewrite Hm4. cbn. by rewrite Hm1.
Qed.

(** The boot path without a memory map. *)
Lemma PMM_init_spec s :
  frames_wf (ps_frames s) →
  ∃ s', PMM_init s = Ret (tt, s') ∧
    frames_wf (ps_frames s') ∧
    total_frames (pfa (ps_frames s')) = total_frames (pfa (ps_frames s)) ∧
    reserved_frames (ps_frames s') =
      standard_frames (total_frames (pfa (ps_frames s))) ∪ reserved_frames (ps_frames s) ∧
    memory_map (ps_pmm s') = sort_by_key mr_base
      (memory_map (ps_pmm s) ++ (rr_region <$> reserved_regions (ps_pmm s))).
Proof.
  intros Hwf. unfold PMM_init.
  destruct (init_standard_reservations_wf _ Hwf) as (f1 & Hrun1 & Hwf1 & _ & Hn1 & HX1).
  mrun (with_fa_Ret _ s _ _ Hrun1). set (s1 := set_frames f1 s).
  unfold build_memory_map. rewrite bind_assoc. msteps.
  set (s2 := set_memory_map _ s1).
  assert (ps_frames s2 = f1) as Hf2 by (unfold s2, s1; by destruct f1).
  destruct (compute_statistics_spec 0 s2) as (s3 & Hrun3 & Hsame & Hm3 & _);
    [rewrite Hf2; by apply frames_off_0|].
  mrun Hrun3. rewrite Hf2 in Hsame. destruct (same_frames_to _ _ Hsame Hwf1) as (Hwf3 & Hn3 & HX3 & _).
  destruct (self_test_spec _ Hwf3) as (f4 & Hrun4 & Hwf4 & Hn4 & HX4 & _).
  mrun (with_fa_Ret _ s3 _ _ Hrun4). eexists. split; [reflexivity|].
  rewrite ps_set_frames. split_and!; [done|congruence..|]. cbn. by rewrite Hm3.
Qed.
End Manager.
