(* ===== verification/FrameTheorems.v ===== *)
(** * The physical memory manager: its contract

    An abstract allocator over sets of frames ([alloc_spec]) is what a client of
    the frame allocator relies on; the theorems show that the bitmap allocator
    implements it from every state the kernel can reach, what it adds to it
    (lowest free frame, first fit, error counters), and where it falls short. *)

From stdpp Require Import base numbers list gmap strings sorting.
From S2P Require Import Prelude Regions FrameAllocator FrameSpec FrameStats FrameInit PhysMem.

#[local] Open Scope Z_scope.
#[local] Open Scope rust_scope.

Section Contract.
Context `{!PhysAddrApi, !PhysAddrLaws _}.

(** ** The interface *)

(** The calls clients make. *)
Inductive frame_call :=
  | CallAllocate
  | CallAllocateMany (count : Z)
  | CallFree (addr : Z)
  | CallFreeMany (addr count : Z)
  | CallReserve (start end_ : Z)
  | CallSelfTest
  | CallValidate
  | CallStatistics (usable reserved : Z).

Inductive frame_answer :=
  | AnsAddr (p : option Z)
  | AnsResult (r : result unit PmmError)
  | AnsBool (b : bool)
  | AnsUnit.

Definition frame_exec (c : frame_call) : M FrameState frame_answer :=
  match c with
  | CallAllocate => p ← allocate_frame; mret (AnsAddr p)
  | CallAllocateMany count => p ← allocate_frames count; mret (AnsAddr p)
  | CallFree addr => r ← free_frame addr; mret (AnsResult r)
  | CallFreeMany addr count => r ← free_frames addr count; mret (AnsResult r)
  | CallReserve start end_ => r ← reserve_range start end_; mret (AnsResult r)
  | CallSelfTest => b ← self_test; mret (AnsBool b)
  | CallValidate => b ← validate_bitmap; mret (AnsBool b)
  | CallStatistics u r => _ ← update_statistics u r; mret AnsUnit
  end.

(** Arguments a client may pass: physical addresses, and counts that do not
    overflow. *)
Definition call_ok (c : frame_call) : Prop :=
  match c with
  | CallAllocateMany count => 0 ≤ count < 2 ^ 63
  | CallFree addr => 0 ≤ addr
  | CallFreeMany addr count => 0 ≤ addr < 2 ^ 52 ∧ 0 ≤ count < 2 ^ 63
  | CallReserve start end_ => 0 ≤ start ∧ 0 ≤ end_ < 2 ^ 52
  | _ => True
  end.

(** The frame number of an address. *)
Abbreviation frame_of addr := (addr / FRAME_SIZE).

(** The abstract allocator: [X] is the set of reserved frames among the first
    [n], [X'] the set after the call. *)
Inductive alloc_spec (n : Z) (X : gset Z) : frame_call → frame_answer → gset Z → Prop :=
  | spec_allocate f :
      0 ≤ f < n → f ∉ X →
      alloc_spec n X CallAllocate (AnsAddr (Some (f * FRAME_SIZE))) ({[f]} ∪ X)
  | spec_allocate_none :
      alloc_spec n X CallAllocate (AnsAddr None) X
  | spec_many b count :
      0 < count → 0 ≤ b → b + count ≤ n → block b count ## X →
      alloc_spec n X (CallAllocateMany count) (AnsAddr (Some (b * FRAME_SIZE))) (block b count ∪ X)
  | spec_many_none count :
      alloc_spec n X (CallAllocateMany count) (AnsAddr None) X
  | spec_free addr :
      frame_of addr ∈ X →
      alloc_spec n X (CallFree addr) (AnsResult (Ok tt)) (X ∖ {[frame_of addr]})
  | spec_free_double addr :
      frame_of addr < n → frame_of addr ∉ X →
      alloc_spec n X (CallFree addr) (AnsResult (Err DoubleFree)) X
  | spec_free_invalid addr :
      n ≤ frame_of addr →
      alloc_spec n X (CallFree addr) (AnsResult (Err InvalidFree)) X
  | spec_free_many addr count :
      block (frame_of addr) count ⊆ X → frame_of addr + count ≤ n →
      alloc_spec n X (CallFreeMany addr count) (AnsResult (Ok tt)) (X ∖ block (frame_of addr) count)
  | spec_free_many_double addr count :
      ¬ block (frame_of addr) count ⊆ X → frame_of addr + count ≤ n →
      alloc_spec n X (CallFreeMany addr count) (AnsResult (Err DoubleFree)) X
  | spec_free_many_invalid addr count :
      n < frame_of addr + count →
      alloc_spec n X (CallFreeMany addr count) (AnsResult (Err InvalidFree)) X
  | spec_reserve start end_ :
      alloc_spec n X (CallReserve start end_) (AnsResult (Ok tt)) (span start end_ n ∪ X)
  | spec_self_test b : alloc_spec n X CallSelfTest (AnsBool b) X
  | spec_validate : alloc_spec n X CallValidate (AnsBool true) X
  | spec_statistics u r : alloc_spec n X (CallStatistics u r) AnsUnit X.

(** ** One call *)

Definition refines (s : FrameState) (c : frame_call) : Prop :=
  ∃ r s' X', frame_exec c s = Ret (r, s') ∧ frames_to s s' X' ∧
    alloc_spec (total_frames (pfa s)) (reserved_frames s) c r X'.

Lemma refines_intro {A} (m : M FrameState A) (f : A → frame_answer) c s r s' X' :
  (frame_exec c s = (x ← m; mret (f x)) s) → m s = Ret (r, s') → frames_to s s' X' →
  alloc_spec (total_frames (pfa s)) (reserved_frames s) c (f r) X' → refines s c.
Proof.
  intros He Hrun Hto Hspec. exists (f r), s', X'. split; [|done]. rewrite He. by mrun Hrun.
Qed.

Lemma wf_bounds s :
  frames_wf s →
  0 ≤ total_frames (pfa s) ≤ 1048576 ∧ 0 ≤ next_free (pfa s) ≤ total_frames (pfa s) ∧
  next_free (pfa s) ∉ reserved_frames s.
Proof. intros Hwf. wf_state s Hwf. split_and!; (done || lia). Qed.

Lemma reserved_bounds s f : f ∈ reserved_frames s → 0 ≤ f < total_frames (pfa s).
Proof. unfold reserved_frames. by intros [? _]%elem_of_rset. Qed.

Lemma refines_allocate s : frames_wf s → refines s CallAllocate.
Proof.
  intros Hwf. destruct (wf_bounds s Hwf) as (Hn & Hnf & Hfree).
  destruct (Z.lt_ge_cases (next_free (pfa s)) (total_frames (pfa s))).
  - destruct (allocate_frame_wf s Hwf) as (s' & Hrun & Hto & _); [done|].
    eapply (refines_intro _ AnsAddr); [done|done|done|]. constructor; [lia|done].
  - destruct (allocate_frame_none s Hwf) as (s' & Hrun & Hs); [lia|].
    eapply (refines_intro _ AnsAddr); [done|done|by apply same_frames_to|]. constructor.
Qed.

Lemma refines_allocate_many s count :
  frames_wf s → 0 ≤ count < 2 ^ 63 → refines s (CallAllocateMany count).
Proof.
  intros Hwf Hc. destruct (wf_bounds s Hwf) as (Hn & Hnf & _).
  destruct (decide (count = 0)) as [->|].
  { eapply (refines_intro _ AnsAddr _ _ None s); [done|done|by split_and!|constructor]. }
  destruct (allocate_frames_wf s count Hwf)
    as [(s' & b & Hrun & ? & ? & ? & _ & Hto)|(s' & Hrun & Hs & _)]; [lia| |].
  - eapply (refines_intro _ AnsAddr); [done..|]. constructor; (lia || done).
  - eapply (refines_intro _ AnsAddr); [done|done|by apply same_frames_to|]. constructor.
Qed.

Lemma refines_free s addr : frames_wf s → 0 ≤ addr → refines s (CallFree addr).
Proof.
  intros Hwf Ha. assert (0 ≤ frame_of addr) by (unfold FRAME_SIZE; dlia).
  destruct (Z.le_gt_cases (total_frames (pfa s)) (frame_of addr)).
  - destruct (free_frame_wf_invalid s addr) as (s' & Hrun & Hs); [done|].
    eapply (refines_intro _ AnsResult); [done|done|by apply same_frames_to|]. by constructor.
  - destruct (decide (frame_of addr ∈ reserved_frames s)).
    + destruct (free_frame_wf s addr Hwf) as (s' & Hrun & Hto & _); [done|].
      eapply (refines_intro _ AnsResult); [done..|]. by constructor.
    + destruct (free_frame_wf_double s addr Hwf) as (s' & Hrun & Hs); [done..|].
      eapply (refines_intro _ AnsResult); [done|done|by apply same_frames_to|]. by constructor.
Qed.

Lemma refines_free_many s addr count :
  frames_wf s → 0 ≤ addr < 2 ^ 52 → 0 ≤ count < 2 ^ 63 → validation_enabled (pfa s) = true →
  refines s (CallFreeMany addr count).
Proof.
  intros Hwf Hadr Hc Hval. assert (0 ≤ frame_of addr < 2 ^ 52) by (unfold FRAME_SIZE; dlia).
  destruct (Z.lt_ge_cases (total_frames (pfa s)) (frame_of addr + count)) as [Hlt|Hge].
  - wf_state s Hwf. cbn in Hlt.
    eapply (refines_intro _ AnsResult); [done|apply free_frames_invalid; rewrite wrap_small; lia| |].
    + apply same_frames_to; [by split_and!|done].
    + by constructor.
  - destruct (decide (block (frame_of addr) count ⊆ reserved_frames s)) as [Hsub|Hsub].
    + destruct (free_frames_wf s addr count Hwf) as (s' & Hrun & Hto); [lia..|done|].
      eapply (refines_intro _ AnsResult); [done..|]. by constructor.
    + pose proof Hwf as Hwf'. wf_state s Hwf. cbn in *. subst v.
      eapply (refines_intro _ AnsResult); [done|apply free_frames_double; (done || lia)| |].
      * apply same_frames_to; [by split_and!|done].
      * by constructor.
Qed.

Lemma refines_call s c :
  frames_wf s → validation_enabled (pfa s) = true → call_ok c → refines s c.
Proof.
  intros Hwf Hv Hok. destruct c; cbn [call_ok] in Hok.
  - by apply refines_allocate.
  - by apply refines_allocate_many.
  - by apply refines_free.
  - destruct Hok as [? ?]. by apply refines_free_many.
  - destruct Hok as (? & ?).
    destruct (reserve_range_wf s start end_ Hwf) as (s' & Hrun & Hwf' & _ & Hn & HX & Hv'); [done..|].
    eapply (refines_intro _ AnsResult); [done|done|by split_and!|constructor].
  - destruct (self_test_spec s Hwf) as (s' & Hrun & Hto).
    eapply (refines_intro _ AnsBool); [done..|constructor].
  - eapply (refines_intro _ AnsBool); [done|by apply validate_bitmap_wf|by split_and!|constructor].
  - destruct (update_statistics_spec 0 usable reserved s) as (s' & Hrun & Hs & _);
      [by apply frames_off_0|].
    eapply (refines_intro _ (λ _, AnsUnit)); [done|done|by apply same_frames_to|constructor].
Qed.

(** ** Sequences of calls *)

(** Running calls one after the other, with their answers. *)
Fixpoint frame_run (cs : list frame_call) : M FrameState (list frame_answer) :=
  match cs with
  | [] => mret []
  | c :: cs => r ← frame_exec c; rs ← frame_run cs; mret (r :: rs)
  end.

(** The abstract allocator run on a sequence of calls. *)
Inductive alloc_trace (n : Z) : gset Z → list frame_call → list frame_answer → gset Z → Prop :=
  | trace_nil X : alloc_trace n X [] [] X
  | trace_cons X X' X'' c r cs rs :
      alloc_spec n X c r X' → alloc_trace n X' cs rs X'' →
      alloc_trace n X (c :: cs) (r :: rs) X''.

Lemma frame_run_ok cs s :
  frames_wf s → validation_enabled (pfa s) = true → Forall call_ok cs →
  ∃ rs s' X', frame_run cs s = Ret (rs, s') ∧ frames_to s s' X' ∧
    alloc_trace (total_frames (pfa s)) (reserved_frames s) cs rs X'.
Proof.
  intros Hwf Hv Hcs. revert s Hwf Hv. induction Hcs as [|c cs Hc _ IH]; intros s Hwf Hv.
  - exists [], s, (reserved_frames s). split; [done|]. split; [by split_and!|constructor].
  - destruct (refines_call s c Hwf Hv Hc) as (r & s1 & X1 & Hrun & (Hwf1 & Hn1 & HX1 & Hv1) & Hspec).
    destruct (IH s1 Hwf1) as (rs & s2 & X2 & Hrun2 & (Hwf2 & Hn2 & HX2 & Hv2) & Htr); [congruence|].
    exists (r :: rs), s2, X2. split; [cbn [frame_run]; mrun Hrun; by mrun Hrun2|].
    split; [split_and!; [done|congruence..]|]. rewrite Hn1, HX1 in Htr. by econstructor.
Qed.

(** Allocating [k] single frames. *)
Fixpoint allocate_n (k : nat) : M FrameState (list (option Z)) :=
  match k with
  | O => mret []
  | S k => p ← allocate_frame; ps ← allocate_n k; mret (p :: ps)
  end.

Lemma free_below s :
  frames_wf s → next_free (pfa s) = total_frames (pfa s) → tight s →
  reserved_frames s = block 0 (total_frames (pfa s)).
Proof.
  intros Hwf Heq Ht. apply set_eq. intros f. rewrite elem_of_block.
  split; [intros ?%reserved_bounds; lia|]. intros ?. apply Ht. lia.
Qed.

Lemma some_frame_free s :
  frames_wf s → tight s → Z.of_nat (size (reserved_frames s)) < total_frames (pfa s) →
  next_free (pfa s) < total_frames (pfa s).
Proof.
  intros Hwf Ht Hsz. destruct (wf_bounds s Hwf) as (Hn & Hnf & _).
  destruct (decide (next_free (pfa s) = total_frames (pfa s))) as [He|]; [|lia].
  rewrite (free_below s Hwf He Ht), size_block in Hsz by lia. lia.
Qed.

Lemma allocate_n_ok k s :
  frames_wf s → tight s →
  Z.of_nat (size (reserved_frames s)) + Z.of_nat k ≤ total_frames (pfa s) →
  ∃ fs s', allocate_n k s = Ret ((λ f, Some (f * FRAME_SIZE)) <$> fs, s') ∧
    length fs = k ∧ NoDup fs ∧
    frames_to s s' (list_to_set fs ∪ reserved_frames s) ∧ tight s' ∧
    ∀ f, f ∈ fs → 0 ≤ f < total_frames (pfa s) ∧ f ∉ reserved_frames s.
Proof.
  revert s. induction k as [|k IH]; intros s Hwf Ht Hk.
  - exists [], s. split; [done|]. split; [done|]. split; [constructor|].
    split; [split_and!; [done..|set_solver|done]|]. split; [done|].
    intros f []%elem_of_nil.
  - destruct (wf_bounds s Hwf) as (Hn & Hnf & Hfree).
    assert (next_free (pfa s) < total_frames (pfa s)) as Hlt by (apply some_frame_free; (done || lia)).
    destruct (allocate_frame_wf s Hwf Hlt) as (s1 & Hrun & (Hwf1 & Hn1 & HX1 & Hv1) & Ht1).
    destruct (IH s1 Hwf1 (Ht1 Ht)) as (fs & s2 & Hrun2 & Hl & Hnd & (Hwf2 & Hn2 & HX2 & Hv2) & Ht2 & Hall).
    { rewrite HX1, Hn1, size_union, size_singleton; [lia|]. set_solver. }
    exists (next_free (pfa s) :: fs), s2.
    split; [cbn [allocate_n]; mrun Hrun; by mrun Hrun2|]. split; [by simpl; rewrite Hl|].
    split. { constructor; [|done]. intros Hin. apply Hall in Hin as [_ Hin]. set_solver. }
    split. { split_and!; [done|congruence| |congruence]. rewrite HX2, HX1. set_solver. }
    split; [done|]. intros f [->|Hin]%elem_of_cons; [split; [lia|done]|].
    apply Hall in Hin as [Hf Hin]. rewrite HX1 in Hin. split; [lia|set_solver].
Qed.

(** ** Theorems *)

(** C1. Refinement: every sequence of allocator calls a client makes on a well-formed
    allocator runs without a panic and without running out of fuel, its answers and
    reserved set are those of the abstract allocator, and it ends well formed. *)
Theorem frame_run_refines cs s :
  frames_wf s → validation_enabled (pfa s) = true → Forall call_ok cs →
  ∃ rs s' X', frame_run cs s = Ret (rs, s') ∧ frames_wf s' ∧ reserved_frames s' = X' ∧
    alloc_trace (total_frames (pfa s)) (reserved_frames s) cs rs X'.
Proof.
  intros Hwf Hv Hcs. destruct (frame_run_ok cs s Hwf Hv Hcs)
    as (rs & s' & X' & Hrun & (Hwf' & _ & HX & _) & Htr). eauto 10.
Qed.

(** When no free frame lies below the search hint, [allocate_frame] returns the
    lowest free frame, and fails exactly when every tracked frame is reserved. *)
Theorem allocate_frame_lowest s :
  frames_wf s → tight s →
  (reserved_frames s = block 0 (total_frames (pfa s)) ∧
    ∃ s', allocate_frame s = Ret (None, s') ∧ same_frames s s') ∨
  (∃ f s', allocate_frame s = Ret (Some (f * FRAME_SIZE), s') ∧
    0 ≤ f < total_frames (pfa s) ∧ f ∉ reserved_frames s ∧
    (∀ g, 0 ≤ g < f → g ∈ reserved_frames s) ∧
    reserved_frames s' = {[f]} ∪ reserved_frames s ∧ tight s').
Proof.
  intros Hwf Ht. destruct (wf_bounds s Hwf) as (Hn & Hnf & Hfree).
  destruct (decide (next_free (pfa s) = total_frames (pfa s))) as [He|Hne].
  - left. split; [by apply free_below|by apply allocate_frame_none].
  - right. destruct (allocate_frame_wf s Hwf) as (s' & Hrun & (_ & _ & HX & _) & Ht'); [lia|].
    exists (next_free (pfa s)), s'. split_and!; [done|lia|lia|done|done|done|by apply Ht'].
Qed.

(** Liveness and exclusivity: as many frames as are free can be allocated one by
    one; all the answers are addresses of distinct frames that were free, and when
    none is left the next allocation fails. *)
Theorem allocate_all_free k s :
  frames_wf s → tight s →
  Z.of_nat (size (reserved_frames s)) + Z.of_nat k = total_frames (pfa s) →
  ∃ fs s' s'', allocate_n k s = Ret ((λ f, Some (f * FRAME_SIZE)) <$> fs, s') ∧
    length fs = k ∧ NoDup fs ∧
    (∀ f, f ∈ fs → 0 ≤ f < total_frames (pfa s) ∧ f ∉ reserved_frames s) ∧
    allocate_frame s' = Ret (None, s'').
Proof.
  intros Hwf Ht Hk.
  destruct (allocate_n_ok k s Hwf Ht) as (fs & s' & Hrun & Hl & Hnd & (Hwf' & Hn' & HX & _) & Ht' & Hall);
    [lia|].
  destruct (decide (next_free (pfa s') = total_frames (pfa s'))) as [He|Hne].
  - destruct (allocate_frame_none s' Hwf' He) as (s'' & Hrun' & _). by exists fs, s', s''.
  - destruct (wf_bounds s' Hwf') as (Hn & Hnf & Hfree).
    assert (size (reserved_frames s') < size (block 0 (total_frames (pfa s'))))%nat.
    { apply subset_size. split; [intros f ?%reserved_bounds; apply elem_of_block; lia|].
      intros Hsub. apply Hfree, Hsub, elem_of_block. lia. }
    pose proof (size_block 0 (total_frames (pfa s')) ltac:(lia)).
    rewrite HX, size_union, size_list_to_set in * by
      (done || (intros f; rewrite elem_of_list_to_set; intros [_ ?]%Hall; done)). lia.
Qed.

(** Round trip: freeing the frame just allocated succeeds and restores the
    reserved set, the counter and the search hint. *)
Theorem allocate_free_round_trip s p s1 :
  frames_wf s → allocate_frame s = Ret (Some p, s1) →
  ∃ s2, free_frame p s1 = Ret (Ok tt, s2) ∧ frames_wf s2 ∧
    reserved_frames s2 = reserved_frames s ∧
    allocated_frames (pfa s2) = allocated_frames (pfa s) ∧
    next_free (pfa s2) = next_free (pfa s).
Proof.
  intros Hwf Hrun. wf_state s Hwf.
  destruct (decide (nf = n)) as [->|].
  { by rewrite allocate_frame_full in Hrun by lia. }
  destruct (allocate_frame_some bm n a nf st v Hok ltac:(lia) Hfree)
    as (bm' & nf' & Hrun' & [Hok' Hset] & Hnf' & Hfree' & _); [lia..|].
  rewrite Hrun' in Hrun. injection Hrun as <- <-.
  assert (nf * FRAME_SIZE / FRAME_SIZE = nf) as Hdiv by (unfold FRAME_SIZE; dlia).
  destruct (free_frame_ok bm' n (a + 1) nf' st v (nf * FRAME_SIZE) Hok')
    as (bm2 & Hrun2 & Hok2 & Hset2); rewrite ?Hdiv; [lia|rewrite Hset; set_solver|lia|].
  rewrite Hdiv in Hrun2, Hset2. rewrite Z.min_l in Hrun2 by lia.
  replace (a + 1 - 1) with a in Hrun2 by lia.
  assert (rset bm2 n = rset bm n) as Hback by (rewrite Hset2, Hset; set_solver).
  eexists. split; [exact Hrun2|]. split_and!; [|done..].
  apply frames_wf_intro; [done| |lia|by rewrite Hback]. unfold nres. rewrite Hback. done.
Qed.

(** C14. First fit: [allocate_frames] returns the first run of [count] free frames at
    or above the search hint and reserves exactly that run; it fails, changing only
    a counter, exactly when there is no such run. *)
Theorem allocate_frames_first_fit s count :
  frames_wf s → 0 < count < 2 ^ 63 →
  (∃ s' b, allocate_frames count s = Ret (Some (b * FRAME_SIZE), s') ∧
     next_free (pfa s) ≤ b ∧ b + count ≤ total_frames (pfa s) ∧
     block b count ## reserved_frames s ∧
     (∀ b', next_free (pfa s) ≤ b' < b → ¬ block b' count ## reserved_frames s) ∧
     frames_wf s' ∧ reserved_frames s' = block b count ∪ reserved_frames s) ∨
  (∃ s', allocate_frames count s = Ret (None, s') ∧ same_frames s s' ∧
     ∀ b, next_free (pfa s) ≤ b → b + count ≤ total_frames (pfa s) →
       ¬ block b count ## reserved_frames s).
Proof.
  intros Hwf Hc. destruct (allocate_frames_wf s count Hwf Hc)
    as [(s' & b & ? & ? & ? & ? & ? & (? & _ & ? & _))|?]; [left|by right].
  by exists s', b.
Qed.

(** A successful multi-frame allocation moves the search hint past the block: free
    frames below the block are never returned by the next [allocate_frame], which
    even fails when the block ends at the last tracked frame. *)
Theorem allocate_frames_abandons_lower s count b s1 :
  frames_wf s → 0 < count < 2 ^ 63 →
  allocate_frames count s = Ret (Some (b * FRAME_SIZE), s1) →
  (∀ f, 0 ≤ f < b → f ∉ reserved_frames s → f ∉ reserved_frames s1) ∧
  ∃ o s2, allocate_frame s1 = Ret (o, s2) ∧
    match o with
    | Some p => (b + count) * FRAME_SIZE ≤ p
    | None => True
    end ∧
    (b + count = total_frames (pfa s) → o = None).
Proof.
  intros Hwf Hc Hrun. wf_state s Hwf.
  destruct (Z.le_gt_cases count n) as [Hle|Hgt].
  2:{ unfold allocate_frames in Hrun. destruct (Z.eqb_spec count 0); [lia|].
      revert Hrun. fields. destruct (Z.ltb_spec n count); [|lia].
      unfold count_if_validating. rewrite bind_assoc. fields. by destruct v. }
  destruct (allocate_frames_spec bm n a nf st v count Hok)
    as [(bm' & nf' & b' & Hrun' & ? & ? & ? & _ & Hok' & Hset & ? & Hfree' & _)|[Hrun' _]];
    [lia..| |by rewrite Hrun' in Hrun].
  rewrite Hrun' in Hrun. injection Hrun as Hb <-.
  assert (b' = b) as -> by (unfold FRAME_SIZE in Hb; lia). split.
  - intros f Hf Hin. change (f ∉ rset bm' n). rewrite Hset, elem_of_union, elem_of_block.
    intros [?|?]; [lia|done].
  - destruct (decide (nf' = n)) as [->|].
    + eexists None, _. split; [apply allocate_frame_full; lia|]. done.
    + destruct (allocate_frame_some bm' n (a + count) nf' st v Hok' ltac:(lia) Hfree')
        as (bm2 & nf2 & Hrun2 & _); [lia..|].
      eexists _, _. split; [exact Hrun2|]. cbn. unfold FRAME_SIZE. split; lia.
Qed.

(** The range check of [free_frames] wraps: a count that carries the last frame
    past 2^64 is accepted, frees nothing, and leaves a counter that
    [validate_bitmap] rejects. *)
Theorem free_frames_wraps s addr :
  frames_wf s → 0 < addr / FRAME_SIZE < 2 ^ 52 →
  ∃ s', free_frames addr (2 ^ 64 - addr / FRAME_SIZE) s = Ret (Ok tt, s') ∧
    reserved_frames s' = reserved_frames s ∧ validate_bitmap s' = Ret (false, s').
Proof.
  intros Hwf Haddr. wf_state s Hwf. set (f := addr / FRAME_SIZE) in *.
  exists (St bm n (a + f) nf st v). split; [|split; [done|]].
  - unfold free_frames. fields. fold f.
    replace (f + (2 ^ 64 - f)) with (2 ^ 64) by lia. change (wrap 64 (2 ^ 64)) with 0.
    destruct (Z.ltb_spec n 0); [lia|]. rewrite (range_nil f 0) by lia. fields.
    assert ((if v then mfor_res [] check_reserved else mret (Ok tt)) (St bm n a nf st v)
      = Ret (Ok tt, St bm n a nf st v)) as Hrun by (by destruct v).
    mrun Hrun. cbn [mfor]. fields. unfold mret, M_ret. do 4 f_equal.
    unfold wrap. replace (a - (2 ^ 64 - f)) with (a + f + -1 * 2 ^ 64) by lia.
    rewrite Z_mod_plus_full. apply Z.mod_small. lia.
  - rewrite validate_bitmap_spec by done. destruct (Z.eqb_spec (nres bm n) (a + f)); [lia|done].
Qed.

(** [validate_bitmap] counts the set bits of the tracked part of the bitmap byte by
    byte and answers whether the counter equals the number of reserved frames. *)
Theorem validate_bitmap_counts s :
  bitmap_ok (BITMAP s) (total_frames (pfa s)) →
  validate_bitmap s =
    Ret (bool_decide (allocated_frames (pfa s) = Z.of_nat (size (reserved_frames s))), s).
Proof.
  destruct s as [bm [n a nf st v]]. cbn. intros Hok. rewrite validate_bitmap_spec by done.
  unfold reserved_frames. cbn. fold (nres bm n).
  destruct (Z.eqb_spec (nres bm n) a); case_bool_decide; congruence.
Qed.

(** The boot self test passes on every well-formed allocator with a frame at the
    search hint, fails otherwise, and gives back every frame it took. *)
Theorem self_test_passes s :
  frames_wf s →
  ∃ s', self_test s = Ret (bool_decide (next_free (pfa s) < total_frames (pfa s)), s') ∧
    frames_wf s' ∧ reserved_frames s' = reserved_frames s.
Proof.
  intros Hwf. destruct (self_test_spec s Hwf) as (s' & ? & ? & _ & ? & _). by exists s'.
Qed.

(** [update_statistics] publishes the counters and a correct fragmentation
    report: the number of maximal free runs and the length of the longest. *)
Theorem statistics_fragmentation s usable reserved :
  frames_wf s →
  ∃ s', update_statistics usable reserved s = Ret (tt, s') ∧ same_frames s s' ∧
    let t := statistics s' in let n := total_frames (pfa s) in
    st_usable_bytes t = usable ∧ st_reserved_bytes t = reserved ∧
    st_allocated_frames t = Z.of_nat (size (reserved_frames s)) ∧
    st_free_frames t = n - Z.of_nat (size (reserved_frames s)) ∧
    st_free_block_count t = run_count (BITMAP s) n n ∧
    longest_run (BITMAP s) n n (st_largest_free_block t).
Proof.
  intros Hwf. destruct (update_statistics_spec 0 usable reserved s)
    as (s' & Hrun & Hs & ? & ? & Hal & Hfr & ? & ?); [by apply frames_off_0|].
  exists s'. split; [done|]. split; [done|]. unfold statistics.
  wf_state s Hwf. cbn in *. split_and!; [done..| | |done|done].
  - by rewrite Hal, Ha.
  - rewrite Hfr. unfold free_frame_count. cbn. rewrite wrap64_small by lia. fold (nres bm n). lia.
Qed.

(** ** Boot *)

(** The static bitmap, as the linker leaves it or an earlier run used it. *)
Definition bitmap_static (bm : list Z) : Prop := zlen bm = BITMAP_SIZE ∧ bytes bm.

Lemma PMM_new_spec total bm :
  0 ≤ total → bitmap_static bm →
  ∃ s, PMM_new total bm = Ret s ∧ frames_wf (ps_frames s) ∧ reserved_frames (ps_frames s) = ∅ ∧
    total_frames (pfa (ps_frames s)) = Z.min (total / FRAME_SIZE) MAX_TRACKED_FRAMES ∧
    memory_map (ps_pmm s) = [] ∧ reserved_regions (ps_pmm s) = [].
Proof.
  intros Ht [Hl Hb]. destruct (PFA_new_spec total bm Ht Hl Hb) as (fs & Hrun & Hwf & Hset & Hn).
  unfold PMM_new. rewrite Hrun. cbn [mbind outcome_bind]. eexists. split; [reflexivity|].
  by destruct fs.
Qed.

(** The allocator state of the global manager. *)
Definition global_frames (g : Global) : option FrameState :=
  mkFS (g_BITMAP g) ∘ frame_allocator <$> g_PMM g.

(** [init] succeeds for every memory size, marks the manager initialised, tracks at
    most 4 GiB, and leaves reserved exactly the first 2 MiB and the 128 KiB heap at
    4 MiB, with the allocator invariant established. *)
Theorem init_reserves_standard total g :
  0 ≤ total → bitmap_static (g_BITMAP g) →
  ∃ g' fs, init total g = Ret (tt, g') ∧ is_initialized g' = true ∧
    global_frames g' = Some fs ∧ frames_wf fs ∧
    total_frames (pfa fs) = Z.min (total / FRAME_SIZE) MAX_TRACKED_FRAMES ∧
    reserved_frames fs = standard_frames (total_frames (pfa fs)).
Proof.
  intros Ht Hbm. destruct (PMM_new_spec total _ Ht Hbm) as (s & Hnew & Hwf & Hempty & Hn & _).
  destruct (PMM_init_spec s Hwf) as (s' & Hrun & Hwf' & Hn' & HX & _).
  unfold init, init_global. rewrite Hnew. cbn [mbind outcome_bind]. rewrite Hrun.
  eexists _, (ps_frames s'). do 3 (split; [reflexivity|]). split; [exact Hwf'|]. split; [by rewrite Hn', Hn|].
  rewrite HX, Hempty, Hn'. apply union_empty_r_L.
Qed.

(** After the standard reservations the first frame handed out of a machine with
    more than 2 MiB is the one at 2 MiB, inside the region that the memory-layout
    table of the module documents as reserved for the boot stack. *)
Theorem first_frame_is_2MiB s s1 :
  frames_wf s → reserved_frames s = ∅ → 512 < total_frames (pfa s) →
  init_standard_reservations s = Ret (tt, s1) →
  ∃ s2, allocate_frame s1 = Ret (Some 0x200000, s2).
Proof.
  intros Hwf Hempty Hn Hrun.
  destruct (init_standard_reservations_wf s Hwf) as (s' & Hrun' & Hwf' & Ht & Hn' & HX).
  rewrite Hrun' in Hrun. injection Hrun as <-. rewrite Hempty in HX.
  destruct (wf_bounds s' Hwf') as (Hb & Hnf & Hfree).
  assert (∀ f, f ∈ reserved_frames s' ↔
    f < total_frames (pfa s) ∧ (0 ≤ f < 512 ∨ 1024 ≤ f < 1056)) as Hin.
  { intros f. rewrite HX. unfold standard_frames.
    rewrite elem_of_union, elem_of_filter, elem_of_union, (elem_of_block 0),
      (elem_of_block 0x400), elem_of_empty. clear. lia. }
  assert (next_free (pfa s') = 512) as Hnext.
  { destruct (Z.lt_trichotomy (next_free (pfa s')) 512) as [Hlt|[?|Hgt]]; [|done|].
    - destruct Hfree. apply Hin. lia.
    - specialize (Ht 512 ltac:(lia)). apply Hin in Ht. lia. }
  destruct (allocate_frame_wf s' Hwf') as (s2 & Hrun & _); [lia|]. exists s2.
  by rewrite Hnext in Hrun.
Qed.

(** C34. [init_from_memmap] processes the entries in order, the last entry that covers a
    frame decides, and the standard reservations come on top; the counter exceeds the
    number of reserved frames by the number of frames that usable entries took back
    from earlier entries. The memory map ends sorted by base. *)
Theorem init_from_memmap_effect s entries :
  frames_wf (ps_frames s) → Forall entry_ok entries → zlen entries < 2 ^ 32 →
  let n := total_frames (pfa (ps_frames s)) in
  let X := memmap_effect n (reserved_frames (ps_frames s)) entries in
  ∃ s', init_from_memmap entries s = Ret (tt, s') ∧
    reserved_frames (ps_frames s') = standard_frames n ∪ X.1 ∧
    allocated_frames (pfa (ps_frames s')) = Z.of_nat (size (reserved_frames (ps_frames s'))) + X.2 ∧
    (X.2 = 0 → frames_wf (ps_frames s')) ∧
    memory_map (ps_pmm s') ≡ₚ memory_map (ps_pmm s) ++ entries ∧
    StronglySorted (key_le mr_base) (memory_map (ps_pmm s')).
Proof.
  intros Hwf Hall Hlen n X.
  destruct (init_from_memmap_spec s entries Hwf Hall Hlen)
    as (s' & Hrun & Hoff & Ht & Hn & HX & Hm). fold n in HX, Hn, Hoff. fold X in HX, Hoff.
  exists s'. split; [done|]. split; [exact HX|]. split; [exact (off_count _ _ Hoff)|].
  split; [intros Hz; apply frames_off_0; by rewrite Hz in Hoff|].
  rewrite Hm. split; [apply sort_by_key_perm|apply sort_by_key_sorted].
Qed.

(** A reserved entry followed by a usable entry on the same frame leaves a memory
    manager whose own validation fails. *)
Theorem init_from_memmap_drift s base :
  frames_wf (ps_frames s) → reserved_frames (ps_frames s) = ∅ →
  0 ≤ base < total_frames (pfa (ps_frames s)) →
  ∃ s', init_from_memmap
      [mkRegion (base * FRAME_SIZE) FRAME_SIZE Reserved "Boot Reserved";
       mkRegion (base * FRAME_SIZE) FRAME_SIZE Usable "Boot RAM"] s = Ret (tt, s') ∧
    validate s' = Ret (false, s').
Proof.
  intros Hwf Hempty Hbase. destruct (wf_bounds _ Hwf) as (Hn & _).
  set (entries := [_; _]). set (n := total_frames (pfa (ps_frames s))) in *.
  assert (Forall entry_ok entries) as Hall.
  { repeat constructor; cbn; unfold FRAME_SIZE; lia. }
  destruct (init_from_memmap_spec s entries Hwf Hall) as (s' & Hrun & Hoff & _); [done|].
  exists s'. split; [exact Hrun|]. fold n in Hoff. rewrite Hempty in Hoff.
  assert ((memmap_effect n ∅ entries).2 = 1) as Hone.
  { unfold memmap_effect, memmap_step, entries, entry_frames. cbn [foldl region_is_usable
      type_is_usable mr_type mr_base mr_size fst snd].
    assert (span (base * FRAME_SIZE) (base * FRAME_SIZE + FRAME_SIZE) n = {[base]}) as ->.
    { apply set_eq. intros f. rewrite elem_of_span, elem_of_singleton. unfold FRAME_SIZE.
      split; [intros; dlia|intros ->; split; [dlia|]]. apply Z.min_glb_lt; dlia. }
    rewrite union_empty_r_L, intersection_idemp_L, size_singleton. done. }
  rewrite Hone in Hoff. unfold validate, with_fa. pose proof Hoff as [Hok Ha _ _ _].
  destruct s' as [bm' [[n' a' nf' st' v'] mm rr]]. cbn in Hok, Ha.
  change (ps_frames _) with (St bm' n' a' nf' st' v'). rewrite validate_bitmap_spec by done. destruct (Z.eqb_spec (nres bm' n') a'); [lia|done].
Qed.

(** [parse_hvm_start_info] never reads through a null pointer, returns nothing for a
    null structure or an empty map, and otherwise one region per entry, in order, with
    the entry's base and size and the type its code stands for. *)
Theorem parse_hvm_start_info_regions mem p :
  (∀ x, is_byte (mem x)) →
  (∀ i, 0 ≤ i < hvm_memmap_entries (read_HvmStartInfo mem p) →
     ent_addr (read_HvmMemmapEntry mem (hvm_memmap_paddr (read_HvmStartInfo mem p)) i) < 2 ^ 52) →
  ∃ l, parse_hvm_start_info mem p = Ret l ∧
    (l = [] ∨ zlen l = hvm_memmap_entries (read_HvmStartInfo mem p)) ∧
    ∀ (i : nat) r, l !! i = Some r →
      let e := read_HvmMemmapEntry mem (hvm_memmap_paddr (read_HvmStartInfo mem p)) (Z.of_nat i) in
      mr_base r = ent_addr e ∧ mr_size r = ent_size e ∧
      (region_is_usable r = true ↔ ent_mem_type e = HVM_MEMMAP_RAM).
Proof.
  intros Hmem Hent. unfold parse_hvm_start_info.
  destruct (p =? 0); [by exists []; split_and!; [|left|]|].
  set (si := read_HvmStartInfo mem p) in *.
  destruct ((hvm_memmap_paddr si =? 0) || (hvm_memmap_entries si =? 0));
    [by exists []; split_and!; [|left|]|].
  eexists. split; [apply parse_hvm_entries_spec|].
  { intros i [Hi0 Hi]%elem_of_range. split; [|by apply Hent].
    by destruct (read_le_range mem 8 (hvm_memmap_paddr si + 24 * i) Hmem). }
  split.
  - right. unfold zlen. rewrite length_fmap, length_range, Z.sub_0_r.
    apply Z2Nat.id. by destruct (read_le_range mem 4 (p + 32) Hmem).
  - intros i r Hr. rewrite list_lookup_fmap in Hr.
    apply fmap_Some in Hr as (x & [-> _]%lookup_seqZ & ->). rewrite Z.add_0_l.
    split; [done|]. split; [done|].
    set (t := ent_mem_type _). unfold region_is_usable, hvm_region. cbn [mr_type]. fold t.
    unfold from_hvm. destruct (Z.eqb_spec t HVM_MEMMAP_RAM) as [->|Hne]; [done|].
    split; [|done]. intros Hu. repeat (case_match; [done|]). done.
Qed.
End Contract.

(** ** Witnesses *)

Definition w_stats : MemoryStatistics := mkStats 0 0 0 0 0 0 0 0 0 0 0.

(** [n] tracked frames, none reserved. *)
Definition w_zero (n : Z) : FrameState :=
  St (zrepeat BITMAP_SIZE 0) n 0 0 w_stats true.

(** Four tracked frames, frame 1 reserved. *)
Definition w_hole : FrameState := St (2 :: zrepeat (BITMAP_SIZE - 1) 0) 4 1 0 w_stats true.

Lemma w_static : bitmap_static (zrepeat BITMAP_SIZE 0).
Proof.
  split; [by rewrite zlen_repeat|]. apply Forall_replicate. unfold is_byte. lia.
Qed.

Lemma w_zero_bits f : 0 ≤ f < 1048576 → frame_bit (zrepeat BITMAP_SIZE 0) f = false.
Proof.
  intros Hf. unfold frame_bit, zrepeat. rewrite list_lookup_total_alt, lookup_replicate_2.
  - apply Z.bits_0.
  - change BITMAP_SIZE with 131072. dlia.
Qed.

Lemma w_zero_empty n : n ≤ MAX_TRACKED_FRAMES → reserved_frames (w_zero n) = ∅.
Proof.
  rewrite MAX_TRACKED_FRAMES_eq. intros Hn. apply rset_clear. intros. apply w_zero_bits.
  unfold w_zero in *. cbn in *. lia.
Qed.

Lemma clear_wf bm n st v :
  bitmap_static bm → (∀ f, 0 ≤ f < 1048576 → frame_bit bm f = false) →
  0 ≤ n ≤ MAX_TRACKED_FRAMES → frames_wf (St bm n 0 0 st v).
Proof.
  rewrite MAX_TRACKED_FRAMES_eq. intros [Hl Hb] Hbits Hn.
  assert (rset bm n = ∅) as He by (apply rset_clear; intros; apply Hbits; lia).
  apply frames_wf_intro; [|unfold nres; by rewrite He|lia|rewrite He; apply not_elem_of_empty].
  split; [done|done|by rewrite MAX_TRACKED_FRAMES_eq|intros; apply Hbits; dlia].
Qed.

Lemma w_zero_wf n : 0 ≤ n ≤ MAX_TRACKED_FRAMES → frames_wf (w_zero n).
Proof. apply clear_wf; [exact w_static|exact w_zero_bits]. Qed.

Lemma w_zero_tight n : tight (w_zero n).
Proof. intros f. cbn. lia. Qed.

Lemma w_hole_bits f : 0 ≤ f < 8 → frame_bit (2 :: zrepeat (BITMAP_SIZE - 1) 0) f = (f =? 1).
Proof.
  intros Hf. unfold frame_bit. replace (f / 8) with 0 by dlia. replace (f mod 8) with f by dlia.
  assert (f = 0 ∨ f = 1 ∨ f = 2 ∨ f = 3 ∨ f = 4 ∨ f = 5 ∨ f = 6 ∨ f = 7) as Hc by lia.
  repeat destruct Hc as [->|Hc]; try reflexivity. by subst.
Qed.

Lemma w_hole_reserved : reserved_frames w_hole = {[1]}.
Proof.
  unfold reserved_frames. apply set_eq. intros f. cbn.
  rewrite elem_of_rset, elem_of_singleton. split.
  - intros [Hf Hb]. rewrite w_hole_bits in Hb by lia. by apply Z.eqb_eq.
  - intros ->. split; [lia|]. by rewrite w_hole_bits by lia.
Qed.

Lemma w_hole_wf : frames_wf w_hole.
Proof.
  pose proof w_hole_reserved as He. unfold w_hole, reserved_frames in *. cbn in He.
  apply frames_wf_intro; [|unfold nres; by rewrite He|lia|rewrite He; set_solver].
  split.
  - rewrite zlen_cons, zlen_repeat; [done|]. by apply Z.leb_le.
  - constructor; [unfold is_byte; lia|]. apply Forall_replicate. unfold is_byte. lia.
  - rewrite MAX_TRACKED_FRAMES_eq. lia.
  - change (8 * ((4 + 7) / 8)) with 8. intros f Hf. rewrite w_hole_bits by lia. lia.
Qed.

#[local] Existing Instance phys52.
#[local] Existing Instance phys52_laws.

Lemma frame_run_refines_witness :
  ∃ rs s' X', frame_run [CallAllocate; CallAllocateMany 3; CallFree 0; CallFree 0;
      CallFreeMany 4096 3; CallSelfTest; CallValidate] (w_zero 8) = Ret (rs, s') ∧
    frames_wf s' ∧ reserved_frames s' = X' ∧
    alloc_trace 8 (reserved_frames (w_zero 8)) [CallAllocate; CallAllocateMany 3; CallFree 0;
      CallFree 0; CallFreeMany 4096 3; CallSelfTest; CallValidate] rs X'.
Proof.
  apply (frame_run_refines _ (w_zero 8)); [apply w_zero_wf; by rewrite MAX_TRACKED_FRAMES_eq|done|].
  repeat constructor; cbn; lia.
Defined.

Lemma allocate_frame_lowest_witness :
  frames_wf w_hole ∧ tight w_hole ∧
  ((reserved_frames w_hole = block 0 4 ∧
    ∃ s', allocate_frame w_hole = Ret (None, s') ∧ same_frames w_hole s') ∨
  (∃ f s', allocate_frame w_hole = Ret (Some (f * FRAME_SIZE), s') ∧
    0 ≤ f < 4 ∧ f ∉ reserved_frames w_hole ∧
    (∀ g, 0 ≤ g < f → g ∈ reserved_frames w_hole) ∧
    reserved_frames s' = {[f]} ∪ reserved_frames w_hole ∧ tight s')).
Proof.
  assert (tight w_hole) as Ht by (intros f; cbn; lia).
  split; [exact w_hole_wf|]. split; [exact Ht|]. apply (allocate_frame_lowest w_hole w_hole_wf Ht).
Defined.

Lemma allocate_all_free_witness :
  ∃ fs s' s'', allocate_n 8 (w_zero 8) = Ret ((λ f, Some (f * FRAME_SIZE)) <$> fs, s') ∧
    length fs = 8%nat ∧ NoDup fs ∧
    (∀ f, f ∈ fs → 0 ≤ f < 8 ∧ f ∉ reserved_frames (w_zero 8)) ∧
    allocate_frame s' = Ret (None, s'').
Proof.
  apply (allocate_all_free 8 (w_zero 8));
    [apply w_zero_wf; by rewrite MAX_TRACKED_FRAMES_eq|apply w_zero_tight|].
  by rewrite w_zero_empty by (by rewrite MAX_TRACKED_FRAMES_eq).
Defined.

Lemma allocate_free_round_trip_witness :
  ∃ p s1 s2, allocate_frame w_hole = Ret (Some p, s1) ∧ free_frame p s1 = Ret (Ok tt, s2) ∧
    frames_wf s2 ∧ reserved_frames s2 = reserved_frames w_hole ∧
    allocated_frames (pfa s2) = 1 ∧ next_free (pfa s2) = 0.
Proof.
  destruct (allocate_frame_wf w_hole w_hole_wf) as (s1 & Hrun & _); [cbn; lia|].
  destruct (allocate_free_round_trip w_hole _ s1 w_hole_wf Hrun) as (s2 & H).
  exists (0 * FRAME_SIZE), s1, s2. split; [exact Hrun|exact H].
Defined.

Lemma allocate_frames_first_fit_witness :
  frames_wf w_hole ∧
  ((∃ s' b, allocate_frames 2 w_hole = Ret (Some (b * FRAME_SIZE), s') ∧
     0 ≤ b ∧ b + 2 ≤ 4 ∧ block b 2 ## reserved_frames w_hole ∧
     (∀ b', 0 ≤ b' < b → ¬ block b' 2 ## reserved_frames w_hole) ∧
     frames_wf s' ∧ reserved_frames s' = block b 2 ∪ reserved_frames w_hole) ∨
  (∃ s', allocate_frames 2 w_hole = Ret (None, s') ∧ same_frames w_hole s' ∧
     ∀ b, 0 ≤ b → b + 2 ≤ 4 → ¬ block b 2 ## reserved_frames w_hole)).
Proof.
  split; [exact w_hole_wf|]. apply (allocate_frames_first_fit w_hole 2 w_hole_wf). lia.
Defined.

(** Frame 0 is free, and the next allocation fails. *)
Lemma allocate_frames_abandons_lower_witness :
  ∃ s1 s2, allocate_frames 2 w_hole = Ret (Some (2 * FRAME_SIZE), s1) ∧
    0 ∉ reserved_frames s1 ∧ allocate_frame s1 = Ret (None, s2).
Proof.
  destruct (allocate_frames_wf w_hole 2 w_hole_wf ltac:(lia))
    as [(s1 & b & Hrun & Hb & Hbn & Hdisj & _)|(s1 & _ & _ & Hno)].
  - cbn in Hb, Hbn. assert (b = 2) as ->.
    { assert (∀ f, f ∈ block b 2 → f ≠ 1) as Hne.
      { intros f Hf ->. apply (Hdisj 1); [done|]. rewrite w_hole_reserved. set_solver. }
      destruct (decide (b = 0)) as [->|]; [by destruct (Hne 1); [apply elem_of_block; lia|]|].
      destruct (decide (b = 1)) as [->|]; [by destruct (Hne 1); [apply elem_of_block; lia|]|lia]. }
    destruct (allocate_frames_abandons_lower w_hole 2 2 s1 w_hole_wf ltac:(lia) Hrun)
      as (Hlow & o & s2 & Hrun2 & _ & Hnone).
    exists s1, s2. split; [exact Hrun|]. split.
    + apply Hlow; [lia|]. rewrite w_hole_reserved. set_solver.
    + by rewrite Hnone in Hrun2 by done.
  - destruct (Hno 2); [cbn; lia..|]. rewrite w_hole_reserved.
    intros f Hf%elem_of_block ->%elem_of_singleton. lia.
Defined.

Lemma free_frames_wraps_witness :
  ∃ s', free_frames 8192 (2 ^ 64 - 8192 / FRAME_SIZE) w_hole = Ret (Ok tt, s') ∧
    reserved_frames s' = reserved_frames w_hole ∧ validate_bitmap s' = Ret (false, s').
Proof. apply (free_frames_wraps w_hole 8192 w_hole_wf). unfold FRAME_SIZE. dlia. Defined.

Lemma validate_bitmap_counts_witness :
  validate_bitmap w_hole =
    Ret (bool_decide (1 = Z.of_nat (size (reserved_frames w_hole))), w_hole).
Proof. apply (validate_bitmap_counts w_hole). apply w_hole_wf. Defined.

Lemma self_test_passes_witness :
  ∃ s', self_test (w_zero 8) = Ret (true, s') ∧ frames_wf s' ∧
    reserved_frames s' = reserved_frames (w_zero 8).
Proof.
  destruct (self_test_passes (w_zero 8)) as (s' & Hrun & ?);
    [apply w_zero_wf; by rewrite MAX_TRACKED_FRAMES_eq|].
  exists s'. split; [exact Hrun|done].
Defined.

Lemma statistics_fragmentation_witness :
  ∃ s', update_statistics 1 2 w_hole = Ret (tt, s') ∧
    st_free_frames (statistics s') = 3 ∧ longest_run (BITMAP w_hole) 4 4 (st_largest_free_block (statistics s')).
Proof.
  destruct (statistics_fragmentation w_hole 1 2 w_hole_wf)
    as (s' & Hrun & _ & _ & _ & _ & Hf & _ & Hl).
  exists s'. split; [exact Hrun|]. split; [|exact Hl]. by rewrite Hf, w_hole_reserved, size_singleton.
Defined.

Definition w_global : Global := mkGlobal (zrepeat BITMAP_SIZE 0) None false.

Lemma init_reserves_standard_witness :
  ∃ g' fs, init 0x8000000 w_global = Ret (tt, g') ∧ is_initialized g' = true ∧
    global_frames g' = Some fs ∧ frames_wf fs ∧
    total_frames (pfa fs) = Z.min (0x8000000 / FRAME_SIZE) MAX_TRACKED_FRAMES ∧
    reserved_frames fs = standard_frames (total_frames (pfa fs)).
Proof. apply (init_reserves_standard 0x8000000 w_global); [lia|exact w_static]. Defined.

Lemma first_frame_is_2MiB_witness :
  ∃ s1 s2, init_standard_reservations (w_zero 0x8000) = Ret (tt, s1) ∧
    allocate_frame s1 = Ret (Some 0x200000, s2).
Proof.
  assert (frames_wf (w_zero 0x8000)) as Hwf by (apply w_zero_wf; by rewrite MAX_TRACKED_FRAMES_eq).
  destruct (init_standard_reservations_wf _ Hwf) as (s1 & Hrun & _).
  destruct (first_frame_is_2MiB (w_zero 0x8000) s1 Hwf) as (s2 & Hs2);
    [by apply w_zero_empty; rewrite MAX_TRACKED_FRAMES_eq|reflexivity|exact Hrun|].
  exists s1, s2. split; [exact Hrun|exact Hs2].
Defined.

Definition w_pmm (n : Z) : PmmState :=
  mkPS (BITMAP (w_zero n)) (mkPMM (pfa (w_zero n)) [] []).

Lemma w_pmm_wf n : 0 ≤ n ≤ MAX_TRACKED_FRAMES → frames_wf (ps_frames (w_pmm n)).
Proof. apply w_zero_wf. Qed.

Lemma init_from_memmap_effect_witness :
  ∃ s', init_from_memmap [mkRegion 0x200000 0x1000 Usable "Boot RAM";
      mkRegion 0xF0000 0x10000 Reserved "Boot Reserved"] (w_pmm 0x8000) = Ret (tt, s') ∧
    StronglySorted (key_le mr_base) (memory_map (ps_pmm s')).
Proof.
  destruct (init_from_memmap_effect (w_pmm 0x8000)
    [mkRegion 0x200000 0x1000 Usable "Boot RAM"; mkRegion 0xF0000 0x10000 Reserved "Boot Reserved"])
    as (s' & Hrun & _ & _ & _ & _ & Hs);
    [apply w_pmm_wf; by rewrite MAX_TRACKED_FRAMES_eq|repeat constructor; cbn; lia|done|].
  exists s'. split; [exact Hrun|exact Hs].
Defined.

Lemma init_from_memmap_drift_witness :
  ∃ s', init_from_memmap
      [mkRegion (768 * FRAME_SIZE) FRAME_SIZE Reserved "Boot Reserved";
       mkRegion (768 * FRAME_SIZE) FRAME_SIZE Usable "Boot RAM"] (w_pmm 0x8000) = Ret (tt, s') ∧
    validate s' = Ret (false, s').
Proof.
  apply (init_from_memmap_drift (w_pmm 0x8000) 768);
    [apply w_pmm_wf; by rewrite MAX_TRACKED_FRAMES_eq|apply w_zero_empty; by rewrite MAX_TRACKED_FRAMES_eq|by split].
Defined.

(** One usable entry of 2 MiB at 1 MiB, whose table is at 128. *)
Definition w_mem (x : Z) : Z :=
  if x =? 32 + 24 then 128 else if x =? 32 + 32 then 1
  else if x =? 128 + 2 then 16 else if x =? 128 + 8 + 2 then 32
  else if x =? 128 + 16 then 1 else 0.

Lemma parse_hvm_start_info_regions_witness :
  ∃ l, parse_hvm_start_info w_mem 32 = Ret l ∧
    ∀ (i : nat) r, l !! i = Some r → mr_base r = ent_addr (read_HvmMemmapEntry w_mem 128 (Z.of_nat i)).
Proof.
  destruct (parse_hvm_start_info_regions w_mem 32) as (l & Hl & _ & Hr).
  - intros x. unfold w_mem, is_byte. repeat case_match; lia.
  - intros i Hi. change (hvm_memmap_entries (read_HvmStartInfo w_mem 32)) with 1 in Hi.
    assert (i = 0) as -> by lia. vm_compute. reflexivity.
  - exists l. split; [exact Hl|]. intros i r Hi. by destruct (Hr i r Hi).
Defined.
