(* ===== verification/Block.v ===== *)
(** * Block devices (kernel/src/block/mod.rs)

    The trait [BlockDevice] is the class [BlockDevice D], [D] the state of the
    device; what a working device promises to the file system is
    [BlockDeviceLaws], stated over the contents of its sectors. A RAM disk
    discharges the laws. *)

From stdpp Require Import base numbers list gmap strings.
From S2P Require Import Prelude.

#[local] Open Scope Z_scope.
#[local] Open Scope rust_scope.

Inductive BlockError :=
  | IoError
  | InvalidSector
  | ReadOnly
  | DeviceNotFound.

#[export] Instance BlockError_eq_dec : EqDecision BlockError.
Proof. solve_decision. Defined.

Definition BlockError_display (e : BlockError) : string :=
  match e with
  | IoError => "I/O error"
  | InvalidSector => "Invalid sector"
  | ReadOnly => "Read-only device"
  | DeviceNotFound => "Device not found"
  end.

(** [read_sector lba len] fills a buffer of [len] bytes; the bytes are its answer. *)
Class BlockDevice (D : Type) := {
  read_sector : Z → Z → M D (result (list Z) BlockError);
  write_sector : Z → list Z → M D (result unit BlockError);
  sector_size : D → Z;
  total_sectors : D → Z;
}.

(** [content d] are the sectors of a working device [d]. *)
Class BlockDeviceLaws (D : Type) `{BlockDevice D} := {
  content : D → gmap Z (list Z);
  working : D → Prop;
  read_sector_ok : ∀ d lba bs,
    working d → content d !! lba = Some bs →
    ∃ d', read_sector lba (zlen bs) d = Ret (Ok bs, d') ∧ working d' ∧ content d' = content d;
  write_sector_ok : ∀ d lba bs bs',
    working d → content d !! lba = Some bs → zlen bs' = zlen bs → bytes bs' →
    ∃ d', write_sector lba bs' d = Ret (Ok tt, d') ∧ working d' ∧
      content d' = <[lba := bs']> (content d);
}.

(** ** Computations on a working device *)

Section Device.
Context `{BlockDeviceLaws D}.

(** From contents [c], [m] answers [r] and leaves contents [c']. *)
Definition druns {A} (m : M D A) (c : gmap Z (list Z)) (r : A) (c' : gmap Z (list Z)) : Prop :=
  ∀ d, working d → content d = c →
    ∃ d', m d = Ret (r, d') ∧ working d' ∧ content d' = c'.

Lemma druns_ret {A} (a : A) c : druns (mret a) c a c.
Proof. intros d Hw Hc. by exists d. Qed.

Lemma druns_bind {A B} (m : M D A) (k : A → M D B) c a c1 b c2 :
  druns m c a c1 → druns (k a) c1 b c2 → druns (m ≫= k) c b c2.
Proof.
  intros Hm Hk d Hw Hc. destruct (Hm d Hw Hc) as (d1 & Hrun & Hw1 & Hc1).
  rewrite (bind_Ret _ _ _ _ _ Hrun). by apply Hk.
Qed.

Lemma druns_liftO {A} (o : outcome A) a c : o = Ret a → druns (liftO o) c a c.
Proof. intros -> d Hw Hc. by exists d. Qed.

Lemma druns_read c lba bs n :
  c !! lba = Some bs → n = zlen bs → druns (read_sector lba n) c (Ok bs) c.
Proof.
  intros Hl -> d Hw <-. destruct (read_sector_ok d lba bs Hw Hl) as (d' & ? & ? & ?). by exists d'.
Qed.

Lemma druns_write c lba bs bs' :
  c !! lba = Some bs → zlen bs' = zlen bs → bytes bs' →
  druns (write_sector lba bs') c (Ok tt) (<[lba := bs']> c).
Proof.
  intros Hl Hz Hb d Hw <-. destruct (write_sector_ok d lba bs bs' Hw Hl Hz Hb) as (d' & ? & ? & ?).
  by exists d'.
Qed.

Lemma druns_map_err {A E F} (f : E → F) (m : M D (result A E)) c a c' :
  druns m c (Ok a) c' → druns (map_err f m) c (Ok a) c'.
Proof. intros Hm. eapply druns_bind; [exact Hm|]. apply druns_ret. Qed.

End Device.

(** ** A RAM disk *)

Definition RamDisk : Type := gmap Z (list Z).

#[export] Instance ramdisk_device : BlockDevice RamDisk := {
  read_sector lba n d :=
    match d !! lba with
    | Some bs => if zlen bs =? n then Ret (Ok bs, d) else Ret (Err IoError, d)
    | None => Ret (Err InvalidSector, d)
    end;
  write_sector lba bs' d :=
    match d !! lba with
    | Some bs => if zlen bs =? zlen bs' then Ret (Ok tt, <[lba := bs']> d) else Ret (Err IoError, d)
    | None => Ret (Err InvalidSector, d)
    end;
  sector_size d := 512;
  total_sectors d := Z.of_nat (size d);
}.

#[local] Obligation Tactic := idtac.

#[export] Program Instance ramdisk_laws : BlockDeviceLaws RamDisk := {
  content d := d;
  working d := True;
}.
Next Obligation.
  intros d lba bs _ Hl. cbv beta in Hl. exists d. unfold read_sector, ramdisk_device. cbn. unfold RamDisk in *. by rewrite Hl, Z.eqb_refl.
Qed.
Next Obligation.
  intros d lba bs bs' _ Hl Hz _. cbv beta in Hl. exists (<[lba := bs']> d). unfold write_sector, ramdisk_device. cbn. unfold RamDisk in *. by rewrite Hl, Hz, Z.eqb_refl.
Qed.
