(* ===== verification/ByteStr.v ===== *)
(** * Byte strings

    [String] and [&str] as lists of UTF-8 bytes: the functions of Rust's
    standard library that the file system uses on them. *)

From stdpp Require Import base numbers list gmap strings.
From S2P Require Import Prelude.

#[local] Open Scope Z_scope.

(** The bytes of a string literal. *)
Fixpoint bytes_of (s : string) : list Z :=
  match s with
  | EmptyString => []
  | String a s => Z.of_N (Ascii.N_of_ascii a) :: bytes_of s
  end.

Definition slash : Z := 47.
Definition dot : Z := 46.
Definition space : Z := 32.

(** ** UTF-8 *)

Definition in_range (lo hi b : Z) : bool := (lo <=? b) && (b <=? hi).
Definition is_cont (b : Z) : bool := in_range 0x80 0xBF b.

(** The range allowed for the second byte of a three- or four-byte sequence. *)
Definition second_ok (b b1 : Z) : bool :=
  if b =? 0xE0 then in_range 0xA0 0xBF b1
  else if b =? 0xED then in_range 0x80 0x9F b1
  else if b =? 0xF0 then in_range 0x90 0xBF b1
  else if b =? 0xF4 then in_range 0x80 0x8F b1
  else is_cont b1.

Definition head_is (p : Z → bool) (l : list Z) : bool :=
  match l with [] => false | b :: _ => p b end.

(** The first chunk of a non-empty string: is it a character, and how long is
    it (for an invalid chunk, the longest prefix of a character). *)
Definition utf8_chunk (b : Z) (l : list Z) : bool * nat :=
  if b <? 0x80 then (true, 1%nat)
  else if in_range 0xC2 0xDF b then
    if head_is is_cont l then (true, 2%nat) else (false, 1%nat)
  else if in_range 0xE0 0xEF b then
    if negb (head_is (second_ok b) l) then (false, 1%nat)
    else if head_is is_cont (drop 1 l) then (true, 3%nat) else (false, 2%nat)
  else if in_range 0xF0 0xF4 b then
    if negb (head_is (second_ok b) l) then (false, 1%nat)
    else if negb (head_is is_cont (drop 1 l)) then (false, 2%nat)
    else if head_is is_cont (drop 2 l) then (true, 4%nat) else (false, 3%nat)
  else (false, 1%nat).

Fixpoint utf8_valid_loop (fuel : nat) (l : list Z) : bool :=
  match l, fuel with
  | [], _ => true
  | _, O => false
  | b :: l', S fuel =>
      let '(ok, n) := utf8_chunk b l' in
      ok && utf8_valid_loop fuel (drop n l)
  end.

(** [str::from_utf8(l).is_ok()] *)
Definition utf8_valid (l : list Z) : bool := utf8_valid_loop (length l) l.

(** U+FFFD *)
Definition replacement : list Z := [0xEF; 0xBF; 0xBD].

Fixpoint lossy_loop (fuel : nat) (l : list Z) : list Z :=
  match l, fuel with
  | [], _ => []
  | _, O => []
  | b :: l', S fuel =>
      let '(ok, n) := utf8_chunk b l' in
      (if ok : bool then take n l else replacement) ++ lossy_loop fuel (drop n l)
  end.

(** [String::from_utf8_lossy] *)
Definition from_utf8_lossy (l : list Z) : list Z := lossy_loop (length l) l.

Lemma utf8_chunk_pos b l : (1 ≤ (utf8_chunk b l).2)%nat.
Proof. unfold utf8_chunk. repeat case_match; simpl; lia. Qed.

Lemma lossy_valid_loop fuel l :
  (length l ≤ fuel)%nat → utf8_valid_loop fuel l = true → lossy_loop fuel l = l.
Proof.
  revert l. induction fuel as [|fuel IH]; intros [|b l] Hl Hv; cbn in *; [done|lia|done|].
  pose proof (utf8_chunk_pos b l) as Hpos. destruct (utf8_chunk b l) as [ok n].
  apply andb_true_iff in Hv as [-> Hv]. cbn in Hpos. rewrite IH; [|rewrite length_drop, length_cons; lia|done].
  apply take_drop.
Qed.

(** A valid string is unchanged. *)
Lemma from_utf8_lossy_valid l : utf8_valid l = true → from_utf8_lossy l = l.
Proof. by apply lossy_valid_loop. Qed.

Lemma utf8_valid_ascii_loop fuel l :
  (length l ≤ fuel)%nat → Forall (λ b, 0 ≤ b < 128) l → utf8_valid_loop fuel l = true.
Proof.
  revert l. induction fuel as [|fuel IH]; intros [|b l] Hl Ha; cbn in *; [done|lia|done|].
  inversion_clear Ha as [|?? Hb Hall]. unfold utf8_chunk.
  destruct (Z.ltb_spec b 0x80); [|lia]. change (utf8_valid_loop fuel l = true).
  apply IH; [lia|done].
Qed.

Lemma utf8_valid_ascii l : Forall (λ b, 0 ≤ b < 128) l → utf8_valid l = true.
Proof. by apply utf8_valid_ascii_loop. Qed.

(** ** Case, searching and trimming *)

Definition is_upper (b : Z) : bool := in_range 65 90 b.
Definition is_lower (b : Z) : bool := in_range 97 122 b.

(** [if b >= b'A' && b <= b'Z' { b + 32 } else { b }] *)
Definition to_lower_byte (b : Z) : Z := if is_upper b then b + 32 else b.
(** [if b >= b'a' && b <= b'z' { b - 32 } else { b }] *)
Definition to_upper_byte (b : Z) : Z := if is_lower b then b - 32 else b.

Lemma to_upper_lower b : is_lower b = false → to_upper_byte (to_lower_byte b) = b.
Proof.
  unfold to_lower_byte, to_upper_byte, is_lower, is_upper, in_range. intros Hb.
  repeat case_match; lia.
Qed.

(** [s.trim_start_matches('/')] *)
Fixpoint trim_start (c : Z) (l : list Z) : list Z :=
  match l with
  | [] => []
  | b :: l' => if b =? c then trim_start c l' else l
  end.

(** [s.find(c)], as the part before and the part after it. *)
Fixpoint split_first (c : Z) (l : list Z) : option (list Z * list Z) :=
  match l with
  | [] => None
  | b :: l' =>
      if b =? c then Some ([], l')
      else match split_first c l' with
           | Some (x, y) => Some (b :: x, y)
           | None => None
           end
  end.

(** [s.rfind(c)], as the part before and the part after it. *)
Fixpoint split_last (c : Z) (l : list Z) : option (list Z * list Z) :=
  match l with
  | [] => None
  | b :: l' =>
      match split_last c l' with
      | Some (x, y) => Some (b :: x, y)
      | None => if b =? c then Some ([], l') else None
      end
  end.

Definition starts_with (p l : list Z) : bool := bool_decide (take (length p) l = p).
Definition ends_with (c : Z) (l : list Z) : bool :=
  match last l with Some b => b =? c | None => false end.

Lemma split_first_Some c l x y :
  split_first c l = Some (x, y) → l = x ++ c :: y ∧ c ∉ x.
Proof.
  revert x. induction l as [|b l IH]; intros x Hs; cbn in Hs; [done|].
  destruct (Z.eqb_spec b c) as [->|Hne].
  - simplify_eq. split; [done|apply not_elem_of_nil].
  - destruct (split_first c l) as [[x' y']|]; [|done]. simplify_eq.
    destruct (IH x' eq_refl) as [-> Hn]. split; [done|].
    rewrite not_elem_of_cons. split; [congruence|done].
Qed.

Lemma split_last_Some c l x y :
  split_last c l = Some (x, y) → l = x ++ c :: y ∧ c ∉ y.
Proof.
  revert x. induction l as [|b l IH]; intros x Hs; cbn in Hs; [done|].
  destruct (split_last c l) as [[x' y']|] eqn:Hl.
  - simplify_eq. destruct (IH x' eq_refl) as [-> Hn]. done.
  - destruct (Z.eqb_spec b c) as [->|]; [|done]. simplify_eq. split; [done|].
    clear IH. induction y as [|b y IHy]; [apply not_elem_of_nil|]. cbn in Hl.
    destruct (split_last c y) as [[? ?]|]; [done|]. destruct (Z.eqb_spec b c); [done|].
    rewrite not_elem_of_cons. split; [congruence|]. by apply IHy.
Qed.
