(* ===== verification/Bpb.v ===== *)
(** * The FAT32 boot sector and directory entries (kernel/src/fs/fat32/bpb.rs)

    The two packed structures, read from and written to bytes at their
    [repr(C, packed)] offsets, and their methods. *)

From stdpp Require Import base numbers list gmap strings.
From S2P Require Import Prelude ByteStr.

#[local] Open Scope Z_scope.
#[local] Open Scope rust_scope.

Definition FAT32_EOC : Z := 0x0FFFFFF8.
Definition FAT32_BAD : Z := 0x0FFFFFF7.
Definition FAT32_FREE : Z := 0x00000000.

Definition ATTR_READ_ONLY : Z := 0x01.
Definition ATTR_HIDDEN : Z := 0x02.
Definition ATTR_SYSTEM : Z := 0x04.
Definition ATTR_VOLUME_ID : Z := 0x08.
Definition ATTR_DIRECTORY : Z := 0x10.
Definition ATTR_ARCHIVE : Z := 0x20.
Definition ATTR_LONG_FILE_NAME : Z := 0x0F.

(** The bytes [off, off + n) of a structure. *)
Definition field (l : list Z) (off n : nat) : list Z := take n (drop off l).
Definition field_le (l : list Z) (off n : nat) : Z := le_val (field l off n).

(** ** The BIOS parameter block *)

Record Fat32Bpb := mkBpb {
  jump_boot : list Z;
  oem_name : list Z;
  bpb_bytes_per_sector : Z;
  sectors_per_cluster : Z;
  reserved_sector_count : Z;
  num_fats : Z;
  root_entry_count : Z;
  total_sectors_16 : Z;
  media_type : Z;
  fat_size_16 : Z;
  sectors_per_track : Z;
  num_heads : Z;
  hidden_sectors : Z;
  total_sectors_32 : Z;
  fat_size_32 : Z;
  ext_flags : Z;
  fs_version : Z;
  root_cluster : Z;
  fs_info_sector : Z;
  backup_boot_sector : Z;
  bpb_reserved : list Z;
  drive_number : Z;
  bpb_reserved_nt : Z;
  boot_signature : Z;
  volume_serial : Z;
  volume_label : list Z;
  fs_type : list Z;
}.

(** [read_unaligned(p as *const Fat32Bpb)] *)
Definition read_bpb (l : list Z) : Fat32Bpb :=
  {| jump_boot := field l 0 3;
     oem_name := field l 3 8;
     bpb_bytes_per_sector := field_le l 11 2;
     sectors_per_cluster := field_le l 13 1;
     reserved_sector_count := field_le l 14 2;
     num_fats := field_le l 16 1;
     root_entry_count := field_le l 17 2;
     total_sectors_16 := field_le l 19 2;
     media_type := field_le l 21 1;
     fat_size_16 := field_le l 22 2;
     sectors_per_track := field_le l 24 2;
     num_heads := field_le l 26 2;
     hidden_sectors := field_le l 28 4;
     total_sectors_32 := field_le l 32 4;
     fat_size_32 := field_le l 36 4;
     ext_flags := field_le l 40 2;
     fs_version := field_le l 42 2;
     root_cluster := field_le l 44 4;
     fs_info_sector := field_le l 48 2;
     backup_boot_sector := field_le l 50 2;
     bpb_reserved := field l 52 12;
     drive_number := field_le l 64 1;
     bpb_reserved_nt := field_le l 65 1;
     boot_signature := field_le l 66 1;
     volume_serial := field_le l 67 4;
     volume_label := field l 71 11;
     fs_type := field l 82 8 |}.

(** [Fat32Bpb::from_bytes] *)
Definition Bpb_from_bytes (sector : list Z) : option Fat32Bpb :=
  if zlen sector <? 90 then None else
  let bpb := read_bpb sector in
  if negb (fat_size_16 bpb =? 0) then None else
  if fat_size_32 bpb =? 0 then None else
  let fs_type_str := if utf8_valid (fs_type bpb) then fs_type bpb else [] in
  if negb (starts_with (bytes_of "FAT32") fs_type_str) then None else
  Some bpb.

Definition bytes_per_sector (b : Fat32Bpb) : Z := bpb_bytes_per_sector b.

Definition cluster_size_bytes (b : Fat32Bpb) : Z := sectors_per_cluster b *₆₄ bytes_per_sector b.

Definition fat_start_sector (b : Fat32Bpb) : Z := reserved_sector_count b.

Definition data_start_sector (b : Fat32Bpb) : Z :=
  reserved_sector_count b +₃₂ (num_fats b *₃₂ fat_size_32 b).

Definition cluster_to_sector (b : Fat32Bpb) (cluster : Z) : Z :=
  data_start_sector b +₃₂ ((cluster -₃₂ 2) *₃₂ sectors_per_cluster b).

Definition total_clusters (b : Fat32Bpb) : outcome Z :=
  let data_sectors := sat_sub (total_sectors_32 b) (data_start_sector b) in
  div_rust data_sectors (sectors_per_cluster b).

(** ** Directory entries *)

Record Fat32DirEntry := mkDirEntry {
  de_name : list Z;
  de_ext : list Z;
  de_attributes : Z;
  de_reserved_nt : Z;
  de_create_time_tenth : Z;
  de_create_time : Z;
  de_create_date : Z;
  de_access_date : Z;
  de_first_cluster_hi : Z;
  de_modify_time : Z;
  de_modify_date : Z;
  de_first_cluster_lo : Z;
  de_file_size : Z;
}.

#[export] Instance Fat32DirEntry_eq_dec : EqDecision Fat32DirEntry.
Proof. solve_decision. Defined.

(** [core::mem::zeroed::<Fat32DirEntry>()] *)
Definition zeroed_entry : Fat32DirEntry :=
  mkDirEntry (replicate 8 0) (replicate 3 0) 0 0 0 0 0 0 0 0 0 0 0.

(** [read_unaligned(p as *const Fat32DirEntry)] of 32 bytes. *)
Definition decode_entry (l : list Z) : Fat32DirEntry :=
  {| de_name := field l 0 8;
     de_ext := field l 8 3;
     de_attributes := field_le l 11 1;
     de_reserved_nt := field_le l 12 1;
     de_create_time_tenth := field_le l 13 1;
     de_create_time := field_le l 14 2;
     de_create_date := field_le l 16 2;
     de_access_date := field_le l 18 2;
     de_first_cluster_hi := field_le l 20 2;
     de_modify_time := field_le l 22 2;
     de_modify_date := field_le l 24 2;
     de_first_cluster_lo := field_le l 26 2;
     de_file_size := field_le l 28 4 |}.

(** [from_raw_parts(entry as *const u8, 32)] *)
Definition encode_entry (e : Fat32DirEntry) : list Z :=
  de_name e ++ de_ext e ++ le_bytes 1 (de_attributes e) ++ le_bytes 1 (de_reserved_nt e) ++
  le_bytes 1 (de_create_time_tenth e) ++ le_bytes 2 (de_create_time e) ++
  le_bytes 2 (de_create_date e) ++ le_bytes 2 (de_access_date e) ++
  le_bytes 2 (de_first_cluster_hi e) ++ le_bytes 2 (de_modify_time e) ++
  le_bytes 2 (de_modify_date e) ++ le_bytes 2 (de_first_cluster_lo e) ++
  le_bytes 4 (de_file_size e).

(** The first byte of the name array, which is never empty. *)
Definition name0 (e : Fat32DirEntry) : Z := nth 0 (de_name e) 0.

Definition is_end (e : Fat32DirEntry) : bool := name0 e =? 0x00.
Definition is_deleted (e : Fat32DirEntry) : bool := name0 e =? 0xE5.
Definition is_long_name (e : Fat32DirEntry) : bool :=
  Z.land (de_attributes e) ATTR_LONG_FILE_NAME =? ATTR_LONG_FILE_NAME.
Definition is_directory (e : Fat32DirEntry) : bool :=
  negb (Z.land (de_attributes e) ATTR_DIRECTORY =? 0).
Definition is_volume_label (e : Fat32DirEntry) : bool :=
  negb (Z.land (de_attributes e) ATTR_VOLUME_ID =? 0).

Definition first_cluster (e : Fat32DirEntry) : Z :=
  Z.lor (Z.shiftl (de_first_cluster_hi e) 16) (de_first_cluster_lo e).

Definition set_first_cluster (cluster : Z) (e : Fat32DirEntry) : Fat32DirEntry :=
  mkDirEntry (de_name e) (de_ext e) (de_attributes e) (de_reserved_nt e)
    (de_create_time_tenth e) (de_create_time e) (de_create_date e) (de_access_date e)
    (Z.land (Z.shiftr cluster 16) 0xFFFF) (de_modify_time e) (de_modify_date e)
    (Z.land cluster 0xFFFF) (de_file_size e).

Definition set_attributes (a : Z) (e : Fat32DirEntry) : Fat32DirEntry :=
  mkDirEntry (de_name e) (de_ext e) a (de_reserved_nt e)
    (de_create_time_tenth e) (de_create_time e) (de_create_date e) (de_access_date e)
    (de_first_cluster_hi e) (de_modify_time e) (de_modify_date e)
    (de_first_cluster_lo e) (de_file_size e).

Definition set_file_size (n : Z) (e : Fat32DirEntry) : Fat32DirEntry :=
  mkDirEntry (de_name e) (de_ext e) (de_attributes e) (de_reserved_nt e)
    (de_create_time_tenth e) (de_create_time e) (de_create_date e) (de_access_date e)
    (de_first_cluster_hi e) (de_modify_time e) (de_modify_date e)
    (de_first_cluster_lo e) n.

Definition set_names (name ext : list Z) (e : Fat32DirEntry) : Fat32DirEntry :=
  mkDirEntry name ext (de_attributes e) (de_reserved_nt e)
    (de_create_time_tenth e) (de_create_time e) (de_create_date e) (de_access_date e)
    (de_first_cluster_hi e) (de_modify_time e) (de_modify_date e)
    (de_first_cluster_lo e) (de_file_size e).

(** [for &b in part { if b == b' ' || b == 0 { break; } result.push(f(b)) }] *)
Fixpoint push_until_pad (f : Z → Z) (part : list Z) : list Z :=
  match part with
  | [] => []
  | b :: part => if (b =? space) || (b =? 0) then [] else f b :: push_until_pad f part
  end.

Definition join_name (f : Z → Z) (e : Fat32DirEntry) : list Z :=
  let ext0 := nth 0 (de_ext e) 0 in
  push_until_pad f (de_name e) ++
  (if negb (ext0 =? space) && negb (ext0 =? 0)
   then dot :: push_until_pad f (de_ext e) else []).

Definition full_name (e : Fat32DirEntry) : list Z := join_name to_lower_byte e.
Definition full_name_upper (e : Fat32DirEntry) : list Z := join_name (λ b, b) e.

(** The position of the first dot, or the length. *)
Fixpoint dot_position (l : list Z) : Z :=
  match l with
  | [] => 0
  | b :: l => if b =? dot then 0 else 1 + dot_position l
  end.

Definition set_name_83 (name_upper : list Z) (e : Fat32DirEntry) : outcome Fat32DirEntry :=
  let name := replicate 8 space in
  let ext := replicate 3 space in
  let dot_pos := dot_position name_upper in
  name_part ← zslice name_upper 0 dot_pos;
  let copy_len := Z.min (zlen name_part) 8 in
  src ← zslice name_part 0 copy_len;
  name ← zcopy name 0 src;
  if dot_pos <? zlen name_upper -₆₄ 1 then
    ext_part ← zslice name_upper (dot_pos + 1) (zlen name_upper);
    let copy_len := Z.min (zlen ext_part) 3 in
    src ← zslice ext_part 0 copy_len;
    ext ← zcopy ext 0 src;
    mret (set_names name ext e)
  else mret (set_names name ext e).

(** ** Facts *)

(** The field ranges of the structure. *)
Record entry_wf (e : Fat32DirEntry) : Prop := {
  ew_name : length (de_name e) = 8%nat;
  ew_name_bytes : bytes (de_name e);
  ew_ext : length (de_ext e) = 3%nat;
  ew_ext_bytes : bytes (de_ext e);
  ew_attributes : 0 ≤ de_attributes e < 2 ^ 8;
  ew_reserved_nt : 0 ≤ de_reserved_nt e < 2 ^ 8;
  ew_tenth : 0 ≤ de_create_time_tenth e < 2 ^ 8;
  ew_ctime : 0 ≤ de_create_time e < 2 ^ 16;
  ew_cdate : 0 ≤ de_create_date e < 2 ^ 16;
  ew_adate : 0 ≤ de_access_date e < 2 ^ 16;
  ew_hi : 0 ≤ de_first_cluster_hi e < 2 ^ 16;
  ew_mtime : 0 ≤ de_modify_time e < 2 ^ 16;
  ew_mdate : 0 ≤ de_modify_date e < 2 ^ 16;
  ew_lo : 0 ≤ de_first_cluster_lo e < 2 ^ 16;
  ew_size : 0 ≤ de_file_size e < 2 ^ 32;
}.

Lemma length_encode_entry e : entry_wf e → length (encode_entry e) = 32%nat.
Proof.
  intros []. unfold encode_entry. rewrite !length_app, !length_le_bytes. lia.
Qed.

Lemma encode_entry_bytes e : entry_wf e → bytes (encode_entry e).
Proof.
  intros []. unfold encode_entry, bytes. rewrite !Forall_app.
  split_and!; (done || apply le_bytes_bytes).
Qed.

(** Name the elements of a list of known length. *)
Ltac explode l H :=
  let x := fresh "b" in
  destruct l as [|x l]; cbn [length] in H;
  [try discriminate H|first [discriminate H | injection H as H; explode l H]].

Lemma decode_encode e : entry_wf e → decode_entry (encode_entry e) = e.
Proof.
  intros [Hn _ He _]. destruct e as [nm ex at_ nt te ct cd ad hi mt md lo sz]. cbn in *.
  explode nm Hn. explode ex He.
  unfold decode_entry, encode_entry, field_le, field. cbn [de_name de_ext de_attributes
    de_reserved_nt de_create_time_tenth de_create_time de_create_date de_access_date
    de_first_cluster_hi de_modify_time de_modify_date de_first_cluster_lo de_file_size
    le_bytes app drop take le_val].
  f_equal; dlia.
Qed.

Lemma decode_wf l : length l = 32%nat → bytes l → entry_wf (decode_entry l).
Proof.
  intros Hl Hb. unfold decode_entry, field_le, field.
  assert (∀ off n, bytes (take n (drop off l))) as Hsub
    by (intros; by apply Forall_take, Forall_drop).
  assert (∀ off n, (off + n ≤ 32)%nat →
    0 ≤ le_val (take n (drop off l)) < 256 ^ Z.of_nat n) as Hr.
  { intros off n Hle. pose proof (le_val_range _ (Hsub off n)) as H.
    rewrite length_take, length_drop, Hl in H. by replace (n `min` (32 - off))%nat with n in H by lia. }
  split; cbn [de_name de_ext de_attributes de_reserved_nt de_create_time_tenth de_create_time
    de_create_date de_access_date de_first_cluster_hi de_modify_time de_modify_date
    de_first_cluster_lo de_file_size]; try apply Hsub; try (apply Hr; lia);
    rewrite length_take, length_drop, Hl; lia.
Qed.

Lemma encode_decode l : length l = 32%nat → bytes l → encode_entry (decode_entry l) = l.
Proof.
  intros Hl Hb. explode l Hl.
  assert (∀ a : Z, is_byte a → le_bytes 1 (le_val [a]) = [a]) as H1.
  { intros a Ha. apply (le_bytes_val [a]). unfold bytes. auto 10 using Forall_cons_2, Forall_nil_2. }
  assert (∀ a c : Z, is_byte a → is_byte c → le_bytes 2 (le_val [a; c]) = [a; c]) as H2.
  { intros a c Ha Hc. apply (le_bytes_val [a; c]). unfold bytes. auto 10 using Forall_cons_2, Forall_nil_2. }
  assert (∀ a c d e : Z, is_byte a → is_byte c → is_byte d → is_byte e →
    le_bytes 4 (le_val [a; c; d; e]) = [a; c; d; e]) as H4.
  { intros a c d e ????. apply (le_bytes_val [a; c; d; e]). unfold bytes. auto 10 using Forall_cons_2, Forall_nil_2. }
  unfold encode_entry, decode_entry, field_le, field.
  cbn [de_name de_ext de_attributes de_reserved_nt de_create_time_tenth de_create_time
    de_create_date de_access_date de_first_cluster_hi de_modify_time de_modify_date
    de_first_cluster_lo de_file_size drop take].
  unfold bytes in Hb. repeat setoid_rewrite Forall_cons in Hb. destruct_and! Hb.
  rewrite !H1, !H2, H4 by done. done.
Qed.

Lemma first_cluster_set c e :
  0 ≤ c < 2 ^ 32 → first_cluster (set_first_cluster c e) = c.
Proof.
  intros Hc. unfold first_cluster, set_first_cluster. cbn [de_first_cluster_hi de_first_cluster_lo].
  change 0xFFFF with (Z.ones 16). rewrite !Z.land_ones, Z.shiftr_div_pow2 by lia.
  rewrite (Z.mod_small (c / 2 ^ 16)) by dlia. apply Z.bits_inj'. intros i Hi.
  rewrite Z.lor_spec, Z.shiftl_spec by done. destruct (Z.lt_ge_cases i 16).
  - rewrite (Z.testbit_neg_r _ (i - 16)), Z.mod_pow2_bits_low by lia. done.
  - rewrite Z.mod_pow2_bits_high, orb_false_r, Z.div_pow2_bits by lia. f_equal. lia.
Qed.

Lemma set_first_cluster_wf c e : entry_wf e → 0 ≤ c < 2 ^ 32 → entry_wf (set_first_cluster c e).
Proof.
  intros [] Hc. split; cbn; try done.
  - change 0xFFFF with (Z.ones 16). rewrite Z.land_ones by lia. by apply Z.mod_pos_bound.
  - change 0xFFFF with (Z.ones 16). rewrite Z.land_ones by lia. by apply Z.mod_pos_bound.
Qed.

(** ** 8.3 names *)

(** A character that may appear in a stored name. *)
Definition name_char (b : Z) : Prop := is_byte b ∧ b ≠ space ∧ b ≠ 0 ∧ b ≠ dot.

(** [base] or [base.ext], with the lengths that fit the fixed arrays. *)
Inductive short_name : list Z → Prop :=
  | short_base base :
      (1 ≤ length base ≤ 8)%nat → Forall name_char base → short_name base
  | short_ext base ext :
      (1 ≤ length base ≤ 8)%nat → Forall name_char base →
      (1 ≤ length ext ≤ 3)%nat → Forall name_char ext → short_name (base ++ dot :: ext).

Lemma push_until_pad_stop l n :
  Forall name_char l → push_until_pad (λ b, b) (l ++ replicate n space) = l.
Proof.
  induction 1 as [|b l (_ & Hs & Hz & _) _ IH]; cbn; [by destruct n|].
  destruct (Z.eqb_spec b space), (Z.eqb_spec b 0); [done..|]. cbn. by rewrite IH.
Qed.

Lemma dot_position_none l : dot ∉ l → dot_position l = zlen l.
Proof.
  induction l as [|b l IH]; cbn; intros Hn; [done|]. apply not_elem_of_cons in Hn as [Hne Hn].
  destruct (Z.eqb_spec b dot); [congruence|]. rewrite IH, zlen_cons by done. lia.
Qed.

Lemma dot_position_some l k : dot ∉ l → dot_position (l ++ dot :: k) = zlen l.
Proof.
  induction l as [|b l IH]; cbn; intros Hn; [done|]. apply not_elem_of_cons in Hn as [Hne Hn].
  destruct (Z.eqb_spec b dot); [congruence|]. rewrite IH, zlen_cons by done. lia.
Qed.

Lemma name_char_no_dot l : Forall name_char l → dot ∉ l.
Proof. rewrite Forall_forall. intros H Hd. by destruct (H _ Hd) as (_ & _ & _ & ?). Qed.

(** Copying a part into an array of padding. *)
Lemma zcopy_pad (l : list Z) (n : nat) (x : Z) :
  (length l ≤ n)%nat → zcopy (replicate n x) 0 l = Ret (l ++ replicate (n - length l) x).
Proof.
  intros Hl. rewrite zcopy_ok; [|lia|unfold zlen; rewrite length_replicate; lia].
  f_equal. rewrite Z.add_0_l. unfold zlen. rewrite Nat2Z.id, drop_replicate. done.
Qed.

Lemma zslice_all {A} (l : list A) : zslice l 0 (zlen l) = Ret l.
Proof.
  rewrite zslice_ok by (pose proof (zlen_nonneg l); lia).
  rewrite Z.sub_0_r. unfold zlen. by rewrite Nat2Z.id, drop_0, firstn_all.
Qed.

Lemma zslice_prefix {A} (l k : list A) : zslice (l ++ k) 0 (zlen l) = Ret l.
Proof.
  pose proof (zlen_nonneg l). pose proof (zlen_nonneg k).
  rewrite zslice_ok by (rewrite ?zlen_app; lia).
  rewrite Z.sub_0_r. unfold zlen. by rewrite Nat2Z.id, drop_0, take_app_length.
Qed.

Lemma zslice_suffix {A} (l k : list A) : zslice (l ++ k) (zlen l) (zlen (l ++ k)) = Ret k.
Proof.
  pose proof (zlen_nonneg l). pose proof (zlen_nonneg k). rewrite zlen_app.
  rewrite zslice_ok by (rewrite ?zlen_app; lia).
  replace (zlen l + zlen k - zlen l) with (zlen k) by lia.
  unfold zlen. by rewrite !Nat2Z.id, drop_app_length, firstn_all.
Qed.

(** Storing a short name: the padded base and extension. *)
Lemma set_name_83_short name e :
  short_name name →
  ∃ base ext, set_name_83 name e =
      Ret (set_names (base ++ replicate (8 - length base) space)
                     (ext ++ replicate (3 - length ext) space) e) ∧
    (1 ≤ length base ≤ 8)%nat ∧ Forall name_char base ∧
    (length ext ≤ 3)%nat ∧ Forall name_char ext ∧
    name = base ++ (if ext is [] then [] else dot :: ext).
Proof.
  destruct 1 as [base Hl Hb|base ext Hl Hb Hle He]; unfold set_name_83.
  - exists base, []. rewrite dot_position_none by (by apply name_char_no_dot).
    rewrite zslice_all. cbn [mbind outcome_bind].
    rewrite Z.min_l by (unfold zlen; lia). rewrite zslice_all. cbn [mbind outcome_bind].
    rewrite zcopy_pad by lia. cbn [mbind outcome_bind].
    rewrite wrap64_small by (unfold zlen; lia).
    destruct (Z.ltb_spec (zlen base) (zlen base - 1)); [lia|].
    split_and!; [done|lia|lia|done|cbn; lia|constructor|by rewrite app_nil_r].
  - exists base, ext. rewrite dot_position_some by (by apply name_char_no_dot).
    rewrite zslice_prefix. cbn [mbind outcome_bind].
    rewrite Z.min_l by (unfold zlen; lia). rewrite zslice_all. cbn [mbind outcome_bind].
    rewrite zcopy_pad by lia. cbn [mbind outcome_bind].
    rewrite zlen_app, zlen_cons, wrap64_small by (unfold zlen; lia).
    destruct (Z.ltb_spec (zlen base) (zlen base + (1 + zlen ext) - 1)); [|unfold zlen in *; lia].
    replace (zlen base + 1) with (zlen (base ++ [dot]))
      by (rewrite zlen_app, zlen_cons, zlen_nil; lia).
    replace (base ++ dot :: ext) with ((base ++ [dot]) ++ ext) by (by rewrite <- app_assoc).
    replace (zlen base + (1 + zlen ext)) with (zlen ((base ++ [dot]) ++ ext))
      by (rewrite !zlen_app, zlen_cons, zlen_nil; lia).
    rewrite zslice_suffix. cbn [mbind outcome_bind].
    rewrite Z.min_l by (unfold zlen; lia). rewrite zslice_all. cbn [mbind outcome_bind].
    rewrite zcopy_pad by lia. cbn [mbind outcome_bind].
    split_and!; [done|lia|lia|done|lia|done|]. rewrite <- app_assoc. destruct ext; [cbn in Hle; lia|done].
Qed.

Lemma full_name_upper_set name e e' :
  short_name name → set_name_83 name e = Ret e' → full_name_upper e' = name.
Proof.
  intros Hs Hset. destruct (set_name_83_short name e Hs) as (base & ext & Hrun & Hl & Hb & Hle & He & ->).
  rewrite Hrun in Hset. injection Hset as <-. unfold full_name_upper, join_name.
  cbn [set_names de_name de_ext]. rewrite push_until_pad_stop by done. f_equal.
  destruct ext as [|x ext]; [done|]. rewrite push_until_pad_stop by done.
  inversion_clear He as [|?? (_ & Hsp & Hz & _) _]. cbn.
  by destruct (Z.eqb_spec x space), (Z.eqb_spec x 0).
Qed.
