(* ===== verification/Fat32.v ===== *)
(** * FAT32: clusters and the allocation table (kernel/src/fs/fat32/{mod,fat}.rs)

    Every operation is a computation on the device [D]; a [Fat32Fs] holds the
    boot sector and the partition offset. Buffers are lists of bytes: an
    operation that fills its [&mut] buffer answers the new buffer. *)

From stdpp Require Import base numbers list gmap strings.
From S2P Require Import Prelude ByteStr Block Bpb.

#[local] Open Scope Z_scope.
#[local] Open Scope rust_scope.

Record Fat32Fs := mkFat32Fs {
  bpb : Fat32Bpb;
  partition_lba : Z;
}.

(** [for x in l { ...; return r; ... }]: the body answers [Some r] to return. *)
Fixpoint mfor_ret {S A R E} (l : list A) (body : A → M S (result (option R) E)) :
    M S (result (option R) E) :=
  match l with
  | [] => mret (Ok None)
  | x :: l =>
      o ←? body x;
      match o with
      | Some r => mret (Ok (Some r))
      | None => mfor_ret l body
      end
  end.

(** [for x in l { acc = body(x, acc)?; }] *)
Fixpoint mfold_res {S A B E} (l : list A) (body : A → B → M S (result B E)) (acc : B) :
    M S (result B E) :=
  match l with
  | [] => mret (Ok acc)
  | x :: l => acc' ←? body x acc; mfold_res l body acc'
  end.

Section Fat32.
Context `{BlockDevice D}.

(** [Fat32Fs::mount] *)
Definition mount (partition_lba : Z) : M D (result Fat32Fs string) :=
  buf ←? map_err (λ _, "Failed to read boot sector") (read_sector partition_lba 512);
  bpb ←? mret (ok_or (Bpb_from_bytes buf) "Not a FAT32 filesystem");
  mret (Ok (mkFat32Fs bpb partition_lba)).

(** ** Sectors and clusters *)

Definition read_sector_buf (fs : Fat32Fs) (lba len : Z) : M D (result (list Z) string) :=
  map_err (λ _, "Sector read failed") (read_sector (partition_lba fs +₃₂ lba) len).

Definition write_sector_buf (fs : Fat32Fs) (lba : Z) (buf : list Z) : M D (result unit string) :=
  map_err (λ _, "Sector write failed") (write_sector (partition_lba fs +₃₂ lba) buf).

Definition read_cluster (fs : Fat32Fs) (cluster : Z) (buf : list Z) :
    M D (result (list Z) string) :=
  let cluster_size := cluster_size_bytes (bpb fs) in
  if zlen buf <? cluster_size then mret (Err "Buffer too small for cluster") else
  let sector := cluster_to_sector (bpb fs) cluster in
  let spc := sectors_per_cluster (bpb fs) in
  mfold_res (range 0 spc) (λ i buf,
    let offset := i *₆₄ bytes_per_sector (bpb fs) in
    s ← liftO (zslice buf offset (offset +₆₄ bytes_per_sector (bpb fs)));
    data ←? read_sector_buf fs (sector +₃₂ i) (zlen s);
    buf' ← liftO (zcopy buf offset data);
    mret (Ok buf')) buf.

Definition write_cluster (fs : Fat32Fs) (cluster : Z) (buf : list Z) :
    M D (result unit string) :=
  let cluster_size := cluster_size_bytes (bpb fs) in
  if zlen buf <? cluster_size then mret (Err "Buffer too small for cluster") else
  let sector := cluster_to_sector (bpb fs) cluster in
  let spc := sectors_per_cluster (bpb fs) in
  mfor_res (range 0 spc) (λ i,
    let offset := i *₆₄ bytes_per_sector (bpb fs) in
    s ← liftO (zslice buf offset (offset +₆₄ bytes_per_sector (bpb fs)));
    write_sector_buf fs (sector +₃₂ i) s).

(** ** The allocation table *)

(** The sector of the table and the offset in it that hold an entry. *)
Definition fat_position (fs : Fat32Fs) (cluster : Z) : outcome (Z * Z) :=
  let eps := bytes_per_sector (bpb fs) / 4 in
  fat_sector ← div_rust cluster eps;
  r ← rem_rust cluster eps;
  mret (fat_sector, r * 4).

(** [u32::from_le_bytes([buf[o], buf[o + 1], buf[o + 2], buf[o + 3]])] *)
Definition get_u32 (buf : list Z) (o : Z) : outcome Z :=
  b0 ← zget buf o;
  b1 ← zget buf (o + 1);
  b2 ← zget buf (o + 2);
  b3 ← zget buf (o + 3);
  mret (le_val [b0; b1; b2; b3]).

Definition read_fat_entry (fs : Fat32Fs) (cluster : Z) : M D (result Z string) :=
  p ← liftO (fat_position fs cluster);
  let '(fat_sector, fat_offset) := p in
  buf ←? read_sector_buf fs (fat_start_sector (bpb fs) +₃₂ fat_sector) (bytes_per_sector (bpb fs));
  value ← liftO (get_u32 buf fat_offset);
  mret (Ok (Z.land value 0x0FFFFFFF)).

Definition write_fat_entry (fs : Fat32Fs) (cluster value : Z) : M D (result unit string) :=
  p ← liftO (fat_position fs cluster);
  let '(fat_sector, fat_offset) := p in
  buf ←? read_sector_buf fs (fat_start_sector (bpb fs) +₃₂ fat_sector) (bytes_per_sector (bpb fs));
  existing ← liftO (get_u32 buf fat_offset);
  let new_val := Z.lor (Z.land existing 0xF0000000) (Z.land value 0x0FFFFFFF) in
  buf ← liftO (zcopy buf fat_offset (le_bytes 4 new_val));
  mfor_res (range 0 (num_fats (bpb fs))) (λ fat_copy,
    let sector := (fat_start_sector (bpb fs) +₃₂ fat_sector)
                    +₃₂ (fat_copy *₃₂ fat_size_32 (bpb fs)) in
    write_sector_buf fs sector buf).

(** [chain.contains(&x)] *)
Definition contains (l : list Z) (x : Z) : bool := bool_decide (x ∈ l).

(** The [loop] of [read_chain]. *)
Fixpoint read_chain_loop (fs : Fat32Fs) (fuel : nat) (chain : list Z) (current : Z) :
    M D (result (list Z) string) :=
  match fuel with
  | O => liftO OutOfFuel
  | S fuel =>
      if current <? 2 then mret (Ok chain) else
      let chain := chain ++ [current] in
      next ←? read_fat_entry fs current;
      if (FAT32_EOC <=? next) || (next =? FAT32_BAD) || (next =? 0) then mret (Ok chain) else
      if (next <? 2) || (next =? current) then mret (Ok chain) else
      if contains chain next then mret (Ok chain) else
      if 100000 <? zlen chain then mret (Ok chain) else
      read_chain_loop fs fuel chain next
  end.

(** The chain stops growing at 100001 clusters. *)
Definition CHAIN_FUEL : nat := Z.to_nat 100002.

Definition read_chain (fs : Fat32Fs) (start_cluster : Z) : M D (result (list Z) string) :=
  read_chain_loop fs CHAIN_FUEL [] start_cluster.

Definition free_chain (fs : Fat32Fs) (start_cluster : Z) : M D (result unit string) :=
  chain ←? read_chain fs start_cluster;
  mfor_res chain (λ cluster, write_fat_entry fs cluster FAT32_FREE).

(** The body of the search loop of [alloc_cluster]. *)
Definition try_cluster (fs : Fat32Fs) (cluster : Z) : M D (result (option Z) string) :=
  val ←? read_fat_entry fs cluster;
  if val =? FAT32_FREE then
    let cluster_buf := zrepeat (cluster_size_bytes (bpb fs)) 0 in
    _ ←? write_cluster fs cluster cluster_buf;
    mret (Ok (Some cluster))
  else mret (Ok None).

Definition alloc_cluster (fs : Fat32Fs) : M D (result Z string) :=
  let data_sectors := sat_sub (total_sectors_32 (bpb fs)) (data_start_sector (bpb fs)) in
  if data_sectors =? 0 then mret (Err "No data sectors") else
  max_cluster ← liftO (div_rust data_sectors (sectors_per_cluster (bpb fs)));
  if max_cluster <? 2 then mret (Err "No clusters available") else
  o ←? mfor_ret (range 2 (max_cluster +₃₂ 2)) (try_cluster fs);
  match o with
  | Some cluster => mret (Ok cluster)
  | None => mret (Err "No free clusters")
  end.

(** ** Files *)

(** The loop of [read_file]: (buffer, offset, remaining). *)
Fixpoint read_file_loop (fs : Fat32Fs) (chain : list Z) (buf : list Z) (offset remaining : Z) :
    M D (result (list Z * Z) string) :=
  match chain with
  | [] => mret (Ok (buf, offset))
  | cluster :: chain =>
      if (remaining =? 0) || (zlen buf <=? offset) then mret (Ok (buf, offset)) else
      let cluster_size := cluster_size_bytes (bpb fs) in
      cluster_buf ←? read_cluster fs cluster (zrepeat cluster_size 0);
      let to_copy := Z.min (Z.min remaining cluster_size) (zlen buf - offset) in
      src ← liftO (zslice cluster_buf 0 to_copy);
      buf' ← liftO (zcopy buf offset src);
      read_file_loop fs chain buf' (offset + to_copy) (remaining - to_copy)
  end.

(** The answer is the buffer and the number of bytes read. *)
Definition read_file (fs : Fat32Fs) (start_cluster size : Z) (buf : list Z) :
    M D (result (list Z * Z) string) :=
  chain ←? read_chain fs start_cluster;
  read_file_loop fs chain buf 0 size.

(** [while clusters.len() < clusters_needed { clusters.push(alloc_cluster()?) }] *)
Fixpoint extend_clusters (fs : Fat32Fs) (fuel : nat) (needed : Z) (clusters : list Z) :
    M D (result (list Z) string) :=
  if zlen clusters <? needed then
    match fuel with
    | O => liftO OutOfFuel
    | S fuel =>
        new_cluster ←? alloc_cluster fs;
        extend_clusters fs fuel needed (clusters ++ [new_cluster])
    end
  else mret (Ok clusters).

(** The buffer written to the [i]-th cluster. *)
Definition data_chunk (cluster_size : Z) (data : list Z) (i : Z) : outcome (list Z) :=
  let cluster_buf := zrepeat cluster_size 0 in
  let byte_offset := i *₆₄ cluster_size in
  if byte_offset <? zlen data then
    let to_copy := Z.min (zlen data - byte_offset) cluster_size in
    src ← zslice data byte_offset (byte_offset + to_copy);
    zcopy cluster_buf 0 src
  else mret cluster_buf.

(** The [i]-th iteration of the data loop, and of the link loop. *)
Definition write_chunk (fs : Fat32Fs) (clusters data : list Z) (i : Z) : M D (result unit string) :=
  cluster ← liftO (zget clusters i);
  chunk ← liftO (data_chunk (cluster_size_bytes (bpb fs)) data i);
  write_cluster fs cluster chunk.

Definition link_cluster (fs : Fat32Fs) (clusters : list Z) (i : Z) : M D (result unit string) :=
  next ← liftO (if i + 1 <? zlen clusters then zget clusters (i + 1) else mret FAT32_EOC);
  cluster ← liftO (zget clusters i);
  write_fat_entry fs cluster next.

Definition write_file_data (fs : Fat32Fs) (start_cluster : Z) (data : list Z) :
    M D (result unit string) :=
  let cluster_size := cluster_size_bytes (bpb fs) in
  clusters_needed ← liftO (if zlen data =? 0 then mret 0
    else div_rust (zlen data +₆₄ cluster_size -₆₄ 1) cluster_size);
  existing ←? read_chain fs start_cluster;
  clusters ←? extend_clusters fs (Z.to_nat clusters_needed) clusters_needed existing;
  _ ←? mfor_res (range 0 (zlen clusters)) (write_chunk fs clusters data);
  _ ←? mfor_res (range 0 (zlen clusters)) (link_cluster fs clusters);
  if zlen clusters <? zlen existing then
    rest ← liftO (zslice existing (zlen clusters) (zlen existing));
    mfor_res rest (λ cluster, write_fat_entry fs cluster FAT32_FREE)
  else mret (Ok tt).

Definition allocate_and_write (fs : Fat32Fs) (data : list Z) : M D (result Z string) :=
  first ←? alloc_cluster fs;
  _ ←? write_fat_entry fs first FAT32_EOC;
  _ ←? (if zlen data =? 0 then mret (Ok tt) else write_file_data fs first data);
  mret (Ok first).

End Fat32.
