(* ===== verification/Volume.v ===== *)
(** * The volume: what the FAT32 primitives implement

    A [volume] is the abstract state of a mounted file system: the 28-bit table
    entry and the bytes of each cluster. [abs fs c v] relates it to the sectors
    [c] of the device; the four primitives ([read_fat_entry],
    [write_fat_entry], [read_cluster], [write_cluster]) are shown to implement
    the lookups and updates of the two maps. Everything built on the primitives
    is proved against the volume ([vruns]). *)

From stdpp Require Import base numbers list gmap strings.
From S2P Require Import Prelude ByteStr Block Bpb Fat32.

#[local] Open Scope Z_scope.
#[local] Open Scope rust_scope.

(** ** Geometry *)

Section Geometry.
Context (fs : Fat32Fs).

Definition bps : Z := bytes_per_sector (bpb fs).
Definition spc : Z := sectors_per_cluster (bpb fs).
Definition csize : Z := spc * bps.
Definition eps : Z := bps / 4.
Definition data_start : Z := reserved_sector_count (bpb fs) + num_fats (bpb fs) * fat_size_32 (bpb fs).
(** The number of clusters; their numbers are 2 .. nclusters + 1. *)
Definition nclusters : Z := (total_sectors_32 (bpb fs) - data_start) / spc.
Definition is_cluster (k : Z) : Prop := 2 ≤ k < nclusters + 2.
#[export] Instance is_cluster_dec k : Decision (is_cluster k).
Proof. unfold is_cluster. apply _. Defined.

(** A well-formed boot sector on a device large enough for it. *)
Record geometry : Prop := {
  g_bps : 32 ≤ bps < 2 ^ 16;
  g_bps_32 : bps mod 32 = 0;
  g_spc : 1 ≤ spc < 2 ^ 8;
  g_reserved : 1 ≤ reserved_sector_count (bpb fs) < 2 ^ 16;
  g_fats : 1 ≤ num_fats (bpb fs) < 2 ^ 8;
  g_fat_size : 1 ≤ fat_size_32 (bpb fs);
  g_clusters : 2 ≤ nclusters;
  g_max : nclusters + 2 ≤ FAT32_BAD;
  g_table : (nclusters + 2) * 4 ≤ fat_size_32 (bpb fs) * bps;
  g_part : 0 ≤ partition_lba fs;
  g_end : partition_lba fs + total_sectors_32 (bpb fs) < 2 ^ 32;
}.

(** Absolute sector of the first copy of the table entry of [k], of copy [i] of
    the same sector, and of the first sector of cluster [k]. *)
Definition fat_addr (k : Z) : Z := partition_lba fs + reserved_sector_count (bpb fs) + k / eps.
Definition fat_copy_addr (i k : Z) : Z := fat_addr k + i * fat_size_32 (bpb fs).
Definition fat_off (k : Z) : Z := 4 * (k mod eps).
Definition data_addr (k : Z) : Z := partition_lba fs + data_start + (k - 2) * spc.

Definition sector (c : gmap Z (list Z)) (s : Z) : list Z := default [] (c !! s).
Definition fat_raw (c : gmap Z (list Z)) (k : Z) : Z :=
  field_le (sector c (fat_addr k)) (Z.to_nat (fat_off k)) 4.
Definition fat_of (c : gmap Z (list Z)) (k : Z) : Z := Z.land (fat_raw c k) 0x0FFFFFFF.
Definition cluster_of (c : gmap Z (list Z)) (k : Z) : list Z :=
  concat ((λ j, sector c (data_addr k + j)) <$> range 0 spc).

Definition disk_ok (c : gmap Z (list Z)) : Prop :=
  ∀ s, partition_lba fs ≤ s < partition_lba fs + total_sectors_32 (bpb fs) →
    ∃ bs, c !! s = Some bs ∧ zlen bs = bps ∧ bytes bs.

End Geometry.

Record volume := mkVol { v_fat : gmap Z Z; v_data : gmap Z (list Z) }.

Definition set_fat (k x : Z) (v : volume) : volume := mkVol (<[k := x]> (v_fat v)) (v_data v).
Definition set_data (k : Z) (b : list Z) (v : volume) : volume :=
  mkVol (v_fat v) (<[k := b]> (v_data v)).

Record abs (fs : Fat32Fs) (c : gmap Z (list Z)) (v : volume) : Prop := {
  a_disk : disk_ok fs c;
  a_fat : ∀ k, v_fat v !! k = if decide (is_cluster fs k) then Some (fat_of fs c k) else None;
  a_data : ∀ k, v_data v !! k = if decide (is_cluster fs k) then Some (cluster_of fs c k) else None;
}.

(** ** Address arithmetic *)

Section Addresses.
Context (fs : Fat32Fs) (G : geometry fs).

Lemma eps_pos : 0 < eps fs.
Proof. destruct G. unfold eps. dlia. Qed.

Lemma eps_bps : bps fs = 4 * eps fs.
Proof. destruct G. unfold eps. dlia. Qed.

Lemma data_start_pos : 1 ≤ data_start fs.
Proof. destruct G. unfold data_start. nia. Qed.

Lemma total_bound : data_start fs + nclusters fs * spc fs ≤ total_sectors_32 (bpb fs).
Proof. destruct G. unfold nclusters in *. dlia. Qed.

Lemma table_row k : is_cluster fs k → 0 ≤ k / eps fs < fat_size_32 (bpb fs).
Proof.
  intros [H1 H2]. pose proof eps_pos. pose proof eps_bps as Hb. pose proof (g_table _ G) as Ht.
  split; [apply Z.div_pos; lia|]. apply Z.div_lt_upper_bound; [lia|]. rewrite Hb in Ht. nia.
Qed.

Lemma fat_copy_range i k :
  is_cluster fs k → 0 ≤ i < num_fats (bpb fs) →
  partition_lba fs ≤ fat_copy_addr fs i k < partition_lba fs + data_start fs.
Proof.
  intros Hk Hi. pose proof (table_row k Hk). destruct G.
  unfold fat_copy_addr, fat_addr, data_start. nia.
Qed.

Lemma data_range k j :
  is_cluster fs k → 0 ≤ j < spc fs →
  partition_lba fs + data_start fs ≤ data_addr fs k + j < partition_lba fs + total_sectors_32 (bpb fs).
Proof.
  intros [H1 H2] Hj. pose proof total_bound. pose proof data_start_pos. destruct G.
  unfold data_addr. nia.
Qed.

Lemma fat_copy_in i k :
  is_cluster fs k → 0 ≤ i < num_fats (bpb fs) →
  partition_lba fs ≤ fat_copy_addr fs i k < partition_lba fs + total_sectors_32 (bpb fs).
Proof.
  intros Hk Hi. pose proof (fat_copy_range i k Hk Hi). pose proof total_bound.
  destruct G. nia.
Qed.

Lemma fat_addr_in k :
  is_cluster fs k →
  partition_lba fs ≤ fat_addr fs k < partition_lba fs + total_sectors_32 (bpb fs).
Proof.
  intros Hk. pose proof (fat_copy_in 0 k Hk) as H. destruct G.
  unfold fat_copy_addr in H. lia.
Qed.

Lemma fat_off_range k : 0 ≤ fat_off fs k ∧ fat_off fs k + 4 ≤ bps fs.
Proof.
  pose proof eps_pos as H. pose proof eps_bps. unfold fat_off.
  pose proof (Z.mod_pos_bound k (eps fs) H). lia.
Qed.

(** Entries of the same table sector have the same offset only when equal. *)
Lemma fat_position_inj k k' :
  k / eps fs = k' / eps fs → fat_off fs k = fat_off fs k' → k = k'.
Proof.
  intros Hq Ho. unfold fat_off in Ho. pose proof eps_pos.
  rewrite (Z.div_mod k (eps fs)), (Z.div_mod k' (eps fs)) by lia. nia.
Qed.

Lemma data_addr_inj k k' j j' :
  0 ≤ j < spc fs → 0 ≤ j' < spc fs → data_addr fs k + j = data_addr fs k' + j' → k = k'.
Proof. unfold data_addr. nia. Qed.

(** The machine computes these addresses without wrapping. *)
Lemma fat_position_spec k :
  is_cluster fs k → fat_position fs k = Ret (k / eps fs, fat_off fs k).
Proof.
  intros Hk. unfold fat_position, div_rust, rem_rust. fold (bps fs). fold (eps fs).
  pose proof eps_pos. destruct (Z.eqb_spec (eps fs) 0); [lia|].
  cbn. do 2 f_equal. unfold fat_off. lia.
Qed.

Lemma fat_addr_machine k :
  is_cluster fs k →
  partition_lba fs +₃₂ (fat_start_sector (bpb fs) +₃₂ (k / eps fs)) = fat_addr fs k.
Proof.
  intros Hk. pose proof (table_row k Hk). pose proof (fat_addr_in k Hk) as Ha.
  unfold fat_addr in *. destruct G. unfold fat_start_sector. nowrap. lia.
Qed.

Lemma fat_copy_machine i k :
  is_cluster fs k → 0 ≤ i < num_fats (bpb fs) →
  partition_lba fs +₃₂ ((fat_start_sector (bpb fs) +₃₂ (k / eps fs))
    +₃₂ (i *₃₂ fat_size_32 (bpb fs))) = fat_copy_addr fs i k.
Proof.
  intros Hk Hi. pose proof (table_row k Hk). pose proof (fat_copy_in i k Hk Hi) as Ha.
  unfold fat_copy_addr, fat_addr in *. destruct G. unfold fat_start_sector.
  assert (0 ≤ i * fat_size_32 (bpb fs)) by nia. nowrap. lia.
Qed.

Lemma cluster_size_machine : cluster_size_bytes (bpb fs) = csize fs.
Proof.
  unfold cluster_size_bytes, csize. fold (bps fs). fold (spc fs). destruct G.
  apply wrap64_small. nia.
Qed.

Lemma data_addr_machine k j :
  is_cluster fs k → 0 ≤ j < spc fs →
  partition_lba fs +₃₂ (cluster_to_sector (bpb fs) k +₃₂ j) = data_addr fs k + j.
Proof.
  intros Hk Hj. pose proof (data_range k j Hk Hj) as Ha. pose proof data_start_pos.
  pose proof Hk as [Hk1 Hk2]. pose proof total_bound. destruct G.
  unfold cluster_to_sector, data_start_sector, data_addr, data_start in *. fold (spc fs).
  assert (0 ≤ num_fats (bpb fs) * fat_size_32 (bpb fs)) by nia.
  assert (0 ≤ (k - 2) * spc fs) by nia.
  rewrite (wrap32_small (k - 2)) by nia. nowrap. lia.
Qed.

End Addresses.

(** ** Lists of sectors *)

Lemma zcopy_at {A} (l k src : list A) :
  zlen src ≤ zlen k → zcopy (l ++ k) (zlen l) src = Ret (l ++ src ++ drop (length src) k).
Proof.
  intros Hl. rewrite zcopy_ok by (rewrite ?zlen_app; unfold zlen in *; lia).
  f_equal. unfold zlen. rewrite Nat2Z.id, take_app_length. do 2 f_equal.
  rewrite <- Nat2Z.inj_add, Nat2Z.id, drop_app_ge by lia. f_equal. lia.
Qed.

Lemma zslice_at {A} (l k : list A) n :
  0 ≤ n ≤ zlen k → zslice (l ++ k) (zlen l) (zlen l + n) = Ret (take (Z.to_nat n) k).
Proof.
  intros Hn. rewrite zslice_ok by (rewrite ?zlen_app; unfold zlen in *; lia).
  f_equal. replace (zlen l + n - zlen l) with n by lia. f_equal.
  unfold zlen. by rewrite Nat2Z.id, drop_app_length.
Qed.

(** The [j]-th block of [n] bytes. *)
Definition nth_block (n : Z) (buf : list Z) (j : Z) : list Z :=
  take (Z.to_nat n) (drop (Z.to_nat (j * n)) buf).

Lemma concat_blocks n buf m :
  0 ≤ n → concat (nth_block n buf <$> range 0 (Z.of_nat m)) = take (Z.to_nat (Z.of_nat m * n)) buf.
Proof.
  intros Hn. induction m as [|m IH]; [done|].
  replace (Z.of_nat (S m)) with (Z.of_nat m + 1) by lia.
  rewrite range_snoc, fmap_app, concat_app, IH by lia. cbn. rewrite app_nil_r.
  unfold nth_block. rewrite take_take_drop. f_equal. lia.
Qed.

Lemma zlen_block n buf j :
  0 ≤ j → 0 ≤ n → (j + 1) * n ≤ zlen buf → zlen (nth_block n buf j) = n.
Proof. intros. unfold nth_block. rewrite zlen_take, zlen_drop. nia. Qed.

Lemma zslice_block n buf j :
  0 ≤ j → 0 ≤ n → (j + 1) * n ≤ zlen buf →
  zslice buf (j * n) (j * n + n) = Ret (nth_block n buf j).
Proof.
  intros. rewrite zslice_ok by nia. unfold nth_block. do 3 f_equal. lia.
Qed.

Lemma block_bytes n buf j : bytes buf → bytes (nth_block n buf j).
Proof. intros. unfold nth_block. by apply Forall_take, Forall_drop. Qed.

(** ** The primitives *)

Section Primitives.
Context `{BlockDeviceLaws D} (fs : Fat32Fs) (G : geometry fs).

Lemma druns_bind_ok {A B E} (m : M D (result A E)) (k : A → M D (result B E)) c a c1 b c2 :
  druns m c (Ok a) c1 → druns (k a) c1 b c2 → druns (x ←? m; k x) c b c2.
Proof. intros Hm Hk. eapply druns_bind; [exact Hm|exact Hk]. Qed.

Lemma druns_sector c lba a bs :
  partition_lba fs +₃₂ lba = a → c !! a = Some bs → zlen bs = bps fs →
  druns (read_sector_buf fs lba (bps fs)) c (Ok bs) c.
Proof.
  intros Ha Hl Hz. apply druns_map_err. rewrite Ha. by apply druns_read.
Qed.

Lemma druns_sector_write c lba a bs bs' :
  partition_lba fs +₃₂ lba = a → c !! a = Some bs → zlen bs = bps fs → zlen bs' = bps fs → bytes bs' →
  druns (write_sector_buf fs lba bs') c (Ok tt) (<[a := bs']> c).
Proof.
  intros Ha Hl Hz Hz' Hb. apply druns_map_err. rewrite Ha. eapply druns_write; [done|congruence|done].
Qed.

Lemma druns_mfor_res {A E} (P : list A → gmap Z (list Z) → Prop) (l : list A)
    (body : A → M D (result unit E)) c :
  P [] c →
  (∀ pre x post c1, l = pre ++ x :: post → P pre c1 →
     ∃ c2, druns (body x) c1 (Ok tt) c2 ∧ P (pre ++ [x]) c2) →
  ∃ c', druns (mfor_res l body) c (Ok tt) c' ∧ P l c'.
Proof.
  intros Hinit Hstep.
  cut (∀ k pre c1, l = pre ++ k → P pre c1 → ∃ c', druns (mfor_res k body) c1 (Ok tt) c' ∧ P l c').
  { intros Hc. by apply (Hc l []). }
  induction k as [|x k IH]; intros pre c1 Hl HP.
  - exists c1. rewrite app_nil_r in Hl. subst. split; [apply druns_ret|done].
  - destruct (Hstep pre x k c1 Hl HP) as (c2 & Hb & HP2).
    destruct (IH (pre ++ [x]) c2) as (c' & Hr & HP'); [by rewrite <- app_assoc|done|].
    exists c'. split; [|done]. eapply druns_bind_ok; [exact Hb|exact Hr].
Qed.

Lemma druns_mfold_res {A B E} (P : list A → B → Prop) (l : list A)
    (body : A → B → M D (result B E)) acc c :
  P [] acc →
  (∀ pre x post acc1, l = pre ++ x :: post → P pre acc1 →
     ∃ acc2, druns (body x acc1) c (Ok acc2) c ∧ P (pre ++ [x]) acc2) →
  ∃ acc', druns (mfold_res l body acc) c (Ok acc') c ∧ P l acc'.
Proof.
  intros Hinit Hstep.
  cut (∀ k pre acc1, l = pre ++ k → P pre acc1 →
    ∃ acc', druns (mfold_res k body acc1) c (Ok acc') c ∧ P l acc').
  { intros Hc. by apply (Hc l []). }
  induction k as [|x k IH]; intros pre acc1 Hl HP.
  - exists acc1. rewrite app_nil_r in Hl. subst. split; [apply druns_ret|done].
  - destruct (Hstep pre x k acc1 Hl HP) as (acc2 & Hb & HP2).
    destruct (IH (pre ++ [x]) acc2) as (acc' & Hr & HP'); [by rewrite <- app_assoc|done|].
    exists acc'. split; [|done]. eapply druns_bind_ok; [exact Hb|exact Hr].
Qed.

Lemma disk_sector c s :
  disk_ok fs c → partition_lba fs ≤ s < partition_lba fs + total_sectors_32 (bpb fs) →
  c !! s = Some (sector c s) ∧ zlen (sector c s) = bps fs ∧ bytes (sector c s).
Proof.
  intros Hd Hs. destruct (Hd s Hs) as (bs & Hl & ? & ?). unfold sector. by rewrite Hl.
Qed.

(** *** The table *)

Lemma get_u32_spec buf o :
  0 ≤ o → o + 4 ≤ zlen buf → get_u32 buf o = Ret (field_le buf (Z.to_nat o) 4).
Proof.
  intros Ho Hl. unfold get_u32.
  assert (∀ i : nat, (i < 4)%nat → zget buf (o + Z.of_nat i) = Ret (drop (Z.to_nat o) buf !!! i)) as Hg.
  { intros i Hi. rewrite zget_total by lia. rewrite lookup_total_drop. do 2 f_equal. lia. }
  pose proof (Hg 0%nat ltac:(lia)) as Hg0. rewrite Z.add_0_r in Hg0. rewrite Hg0. cbn [mbind outcome_bind].
  pose proof (Hg 1%nat ltac:(lia)) as Hg1. change (Z.of_nat 1) with 1 in Hg1.
  pose proof (Hg 2%nat ltac:(lia)) as Hg2. change (Z.of_nat 2) with 2 in Hg2.
  pose proof (Hg 3%nat ltac:(lia)) as Hg3. change (Z.of_nat 3) with 3 in Hg3.
  rewrite Hg1, Hg2, Hg3. cbn [mbind outcome_bind].
  unfold field_le, field, zlen in *.
  destruct (drop (Z.to_nat o) buf) as [|b0 [|b1 [|b2 [|b3 rest]]]] eqn:Hd;
    try (apply (f_equal length) in Hd; rewrite length_drop in Hd; cbn in Hd; lia).
  done.
Qed.

Lemma read_fat_entry_spec c v k x :
  abs fs c v → v_fat v !! k = Some x → druns (read_fat_entry fs k) c (Ok x) c.
Proof.
  intros [Hd Hf _] Hk. rewrite Hf in Hk. case_decide as Hc; [|done]. injection Hk as <-.
  destruct (disk_sector c _ Hd (fat_addr_in fs G k Hc)) as (Hl & Hz & _).
  destruct (fat_off_range fs G k) as [Ho Ho'].
  unfold read_fat_entry. eapply druns_bind; [apply druns_liftO, fat_position_spec; done|].
  cbn beta iota. eapply druns_bind_ok.
  { apply (druns_sector c _ _ _ (fat_addr_machine fs G k Hc) Hl Hz). }
  eapply druns_bind; [apply druns_liftO, get_u32_spec; lia|]. apply druns_ret.
Qed.

Lemma land_masks_disjoint x y i :
  Z.testbit (Z.land (Z.lor (Z.land x 0xF0000000) (Z.land y 0x0FFFFFFF)) 0x0FFFFFFF) i =
  Z.testbit (Z.land y 0x0FFFFFFF) i.
Proof.
  rewrite !Z.land_spec, Z.lor_spec, !Z.land_spec. change 0x0FFFFFFF with (Z.ones 28).
  change 0xF0000000 with (Z.shiftl (Z.ones 4) 28).
  destruct (Z.lt_ge_cases i 0); [by rewrite !Z.testbit_neg_r|].
  rewrite Z.shiftl_spec by done. rewrite !Z.testbit_ones by lia.
  destruct (Z.leb_spec 0 i), (Z.ltb_spec i 28), (Z.leb_spec 0 (i - 28)), (Z.ltb_spec (i - 28) 4);
    try lia; by destruct (Z.testbit x i), (Z.testbit y i).
Qed.

(** The masked value fits in 32 bits. *)
Lemma masked_range x y : 0 ≤ Z.lor (Z.land x 0xF0000000) (Z.land y 0x0FFFFFFF) < 2 ^ 32.
Proof.
  set (z := Z.lor _ _).
  assert (0 ≤ z) as Hz by (apply Z.lor_nonneg; split; apply Z.land_nonneg; right; lia).
  split; [done|]. destruct (decide (z = 0)) as [->|Hne]; [lia|].
  apply Z.log2_lt_pow2; [lia|]. destruct (Z.lt_ge_cases (Z.log2 z) 32) as [|Hge]; [done|].
  pose proof (Z.bit_log2 z ltac:(lia)) as Hb. unfold z in Hb at 1.
  rewrite Z.lor_spec, !Z.land_spec in Hb. change 0x0FFFFFFF with (Z.ones 28) in Hb.
  change 0xF0000000 with (Z.shiftl (Z.ones 4) 28) in Hb.
  rewrite Z.shiftl_spec, !Z.testbit_ones in Hb by lia.
  destruct (Z.ltb_spec (Z.log2 z) 28); [lia|]. destruct (Z.ltb_spec (Z.log2 z - 28) 4); [lia|].
  by rewrite !andb_false_r in Hb.
Qed.

Lemma field_write_same (buf : list Z) o src :
  (o + length src ≤ length buf)%nat →
  field (take o buf ++ src ++ drop (o + length src) buf) o (length src) = src.
Proof.
  intros Hl. unfold field. rewrite drop_app_ge by (rewrite length_take; lia).
  rewrite length_take, Nat.min_l by lia. rewrite Nat.sub_diag, drop_0. apply take_app_length.
Qed.

Lemma field_write_other (buf : list Z) o src o' n :
  (o + length src ≤ length buf)%nat → (o' + n ≤ o ∨ o + length src ≤ o')%nat →
  field (take o buf ++ src ++ drop (o + length src) buf) o' n = field buf o' n.
Proof.
  intros Hl Ho. apply list_eq. intros i. unfold field.
  destruct (Nat.lt_ge_cases i n).
  - rewrite !lookup_take_lt, !lookup_drop by done.
    destruct Ho as [Ho|Ho].
    + rewrite lookup_app_l, lookup_take_lt by (rewrite ?length_take; lia). done.
    + rewrite lookup_app_r by (rewrite length_take; lia). rewrite length_take, Nat.min_l by lia.
      rewrite lookup_app_r, lookup_drop by lia. f_equal. lia.
  - rewrite !lookup_take_ge by done. done.
Qed.

Lemma fat_row_eq k k' : k / eps fs = k' / eps fs → fat_addr fs k = fat_addr fs k'.
Proof. unfold fat_addr. by intros ->. Qed.

(** The sectors after a table update: every copy of the sector holds [buf]. *)
Record mirrored (c c' : gmap Z (list Z)) (k n : Z) (buf : list Z) : Prop := {
  mi_copy : ∀ i, 0 ≤ i < n → c' !! fat_copy_addr fs i k = Some buf;
  mi_other : ∀ s, (∀ i, 0 ≤ i < n → s ≠ fat_copy_addr fs i k) → c' !! s = c !! s;
}.

Lemma mirrored_step c c1 k n buf :
  0 ≤ n → mirrored c c1 k n buf → mirrored c (<[fat_copy_addr fs n k := buf]> c1) k (n + 1) buf.
Proof.
  intros Hn [Hc Ho]. split.
  - intros i Hi. destruct (decide (fat_copy_addr fs n k = fat_copy_addr fs i k)) as [->|Hne].
    + by rewrite lookup_insert_eq.
    + rewrite lookup_insert_ne by done. apply Hc. destruct (decide (i = n)); [congruence|lia].
  - intros s Hs. rewrite lookup_insert_ne by (intros <-; apply (Hs n); [lia|done]).
    apply Ho. intros i Hi. apply Hs. lia.
Qed.

Lemma fat_copies_loop c k buf :
  disk_ok fs c → is_cluster fs k → zlen buf = bps fs → bytes buf →
  ∃ c', druns (mfor_res (range 0 (num_fats (bpb fs))) (λ fat_copy,
      write_sector_buf fs ((fat_start_sector (bpb fs) +₃₂ (k / eps fs))
        +₃₂ (fat_copy *₃₂ fat_size_32 (bpb fs))) buf)) c (Ok tt) c' ∧
    mirrored c c' k (num_fats (bpb fs)) buf.
Proof.
  intros Hd Hk Hz Hbuf.
  destruct (druns_mfor_res (λ pre c1, mirrored c c1 k (zlen pre) buf)
    (range 0 (num_fats (bpb fs))) (λ fat_copy,
      write_sector_buf fs ((fat_start_sector (bpb fs) +₃₂ (k / eps fs))
        +₃₂ (fat_copy *₃₂ fat_size_32 (bpb fs))) buf) c) as (c' & Hrun & Hm).
  - split; [intros i Hi; change (zlen (@nil Z)) with 0 in Hi; lia|done].
  - intros pre x post c1 (-> & Hx & ->)%range_prefix Hm.
    assert (zlen (range 0 x) = x) as Hl by (unfold zlen; rewrite length_range; lia).
    rewrite Hl in Hm. exists (<[fat_copy_addr fs x k := buf]> c1). split.
    + destruct (disk_sector c _ Hd (fat_copy_in fs G x k Hk Hx)) as (Hs & Hsz & _).
      destruct (decide (Exists (λ i, fat_copy_addr fs x k = fat_copy_addr fs i k) (range 0 x)))
        as [(i & Hi%elem_of_range & He)%Exists_exists|Hno].
      * apply (druns_sector_write c1 _ _ buf); [by apply fat_copy_machine| |done..].
        rewrite He. by apply Hm.
      * apply (druns_sector_write c1 _ _ (sector c (fat_copy_addr fs x k)));
          [by apply fat_copy_machine| |done..].
        rewrite (mi_other _ _ _ _ _ Hm); [done|]. intros i Hi He.
        apply Hno, Exists_exists. exists i. by rewrite elem_of_range.
    + rewrite zlen_app, Hl, zlen_cons, zlen_nil. apply mirrored_step; [lia|done].
  - exists c'. split; [exact Hrun|].
    replace (zlen (range 0 (num_fats (bpb fs)))) with (num_fats (bpb fs)) in Hm; [done|].
    unfold zlen. rewrite length_range. destruct G. lia.
Qed.

(** The table sector with the entry of [k] replaced. *)
Definition patched (buf : list Z) (k new : Z) : list Z :=
  take (Z.to_nat (fat_off fs k)) buf ++ le_bytes 4 new ++ drop (Z.to_nat (fat_off fs k) + 4) buf.

Lemma patched_length buf k new : zlen buf = bps fs → zlen (patched buf k new) = bps fs.
Proof.
  intros Hz. destruct (fat_off_range fs G k). unfold patched.
  rewrite !zlen_app, zlen_take, zlen_drop. unfold zlen at 2. rewrite length_le_bytes. lia.
Qed.

Lemma patched_bytes buf k new : bytes buf → bytes (patched buf k new).
Proof.
  intros Hb. unfold patched, bytes. rewrite !Forall_app.
  split_and!; [by apply Forall_take|apply le_bytes_bytes|by apply Forall_drop].
Qed.

Lemma patched_field buf k k' new :
  zlen buf = bps fs → 0 ≤ new < 2 ^ 32 → k / eps fs = k' / eps fs →
  field_le (patched buf k new) (Z.to_nat (fat_off fs k')) 4 =
    if decide (k' = k) then new else field_le buf (Z.to_nat (fat_off fs k')) 4.
Proof.
  intros Hz Hnew Hrow. destruct (fat_off_range fs G k), (fat_off_range fs G k').
  unfold field_le, patched. pose proof (length_le_bytes 4 new) as Hl4. unfold zlen in Hz.
  case_decide as He.
  - subst k'. rewrite <- Hl4 at 2 3. rewrite field_write_same by lia. by apply le_val_bytes.
  - f_equal. rewrite <- Hl4 at 2. apply field_write_other; [lia|]. rewrite Hl4.
    assert (fat_off fs k ≠ fat_off fs k') as Hne by (intros ?; by destruct He; apply (fat_position_inj fs G)).
    unfold fat_off in *. lia.
Qed.

Lemma sector_eq c c' s : c' !! s = c !! s → sector c' s = sector c s.
Proof. unfold sector. by intros ->. Qed.

Lemma mirrored_abs c c' v k x buf :
  abs fs c v → is_cluster fs k →
  buf = patched (sector c (fat_addr fs k)) k
    (Z.lor (Z.land (fat_raw fs c k) 0xF0000000) (Z.land x 0x0FFFFFFF)) →
  mirrored c c' k (num_fats (bpb fs)) buf →
  abs fs c' (set_fat k (Z.land x 0x0FFFFFFF) v).
Proof.
  intros [Hd Hf Hdata] Hk Hbuf [Hcopy Hother].
  destruct (disk_sector c _ Hd (fat_addr_in fs G k Hk)) as (Hs & Hz & Hb).
  assert (c' !! fat_addr fs k = Some buf) as H0copy.
  { rewrite <- (Hcopy 0) by (destruct G; lia). unfold fat_copy_addr. f_equal. lia. }
  split.
  - intros s Hin. destruct (decide (Exists (λ i, s = fat_copy_addr fs i k) (range 0 (num_fats (bpb fs)))))
      as [(i & Hi%elem_of_range & ->)%Exists_exists|Hno].
    + exists buf. subst buf. split; [by apply Hcopy|].
      split; [by apply patched_length|by apply patched_bytes].
    + rewrite Hother; [by apply Hd|]. intros i Hi ->. apply Hno, Exists_exists.
      exists i. by rewrite elem_of_range.
  - intros k'. cbn [set_fat v_fat]. destruct (decide (k' = k)) as [->|Hne].
    + rewrite lookup_insert_eq, decide_True by done. f_equal. unfold fat_of, fat_raw.
      unfold sector. rewrite H0copy. change (default [] (Some buf)) with buf. subst buf.
      rewrite patched_field, decide_True by (done || apply masked_range).
      apply Z.bits_inj'. intros i _. by rewrite land_masks_disjoint.
    + rewrite lookup_insert_ne, Hf by done. case_decide as Hk'; [|done]. f_equal.
      unfold fat_of. f_equal. unfold fat_raw. destruct (decide (k / eps fs = k' / eps fs)) as [Hrow|Hrow].
      * rewrite <- (fat_row_eq k k' Hrow). unfold sector at 2. rewrite H0copy. change (default [] (Some buf)) with buf.
        subst buf. by rewrite patched_field, decide_False by (done || apply masked_range).
      * rewrite (sector_eq c c'); [done|]. apply Hother. intros i Hi.
        pose proof (table_row fs G k Hk). pose proof (table_row fs G k' Hk').
        unfold fat_copy_addr, fat_addr. destruct (decide (i = 0)) as [->|]; [lia|]. nia.
  - intros k'. cbn [set_fat v_data]. rewrite Hdata. case_decide as Hk'; [|done]. f_equal.
    unfold cluster_of. f_equal. apply list_fmap_ext. intros j y Hj.
    apply lookup_seqZ in Hj as [-> Hj].
    symmetry. apply sector_eq, Hother. intros i Hi.
    pose proof (fat_copy_range fs G i k Hk Hi).
    pose proof (data_range fs G k' (0 + Z.of_nat j) Hk' ltac:(lia)). lia.
Qed.

(** [write_fat_entry] updates one entry of the table, keeps its upper four bits, and
    keeps the copies of the table equal. *)
Lemma write_fat_entry_spec c v k x :
  abs fs c v → is_cluster fs k →
  ∃ c', druns (write_fat_entry fs k x) c (Ok tt) c' ∧
    abs fs c' (set_fat k (Z.land x 0x0FFFFFFF) v) ∧
    fat_raw fs c' k = Z.lor (Z.land (fat_raw fs c k) 0xF0000000) (Z.land x 0x0FFFFFFF) ∧
    ∀ i, 0 ≤ i < num_fats (bpb fs) → c' !! fat_copy_addr fs i k = c' !! fat_addr fs k.
Proof.
  intros Habs Hk. pose proof (a_disk _ _ _ Habs) as Hd.
  destruct (disk_sector c _ Hd (fat_addr_in fs G k Hk)) as (Hs & Hz & Hb).
  destruct (fat_off_range fs G k) as [Ho Ho'].
  set (new := Z.lor (Z.land (fat_raw fs c k) 0xF0000000) (Z.land x 0x0FFFFFFF)).
  set (buf := patched (sector c (fat_addr fs k)) k new).
  destruct (fat_copies_loop c k buf Hd Hk (patched_length _ _ _ Hz) (patched_bytes _ _ _ Hb)) as (c' & Hrun & Hm).
  assert (c' !! fat_addr fs k = Some buf) as H0copy.
  { rewrite <- (mi_copy _ _ _ _ _ Hm 0) by (destruct G; lia). unfold fat_copy_addr. f_equal. lia. }
  exists c'. split; [|split; [|split]].
  - unfold write_fat_entry. eapply druns_bind; [apply druns_liftO, fat_position_spec; done|].
    cbn beta iota. eapply druns_bind_ok.
    { apply (druns_sector c _ _ _ (fat_addr_machine fs G k Hk) Hs Hz). }
    eapply druns_bind; [apply druns_liftO, get_u32_spec; lia|].
    eapply druns_bind; [apply druns_liftO, zcopy_ok; [done|unfold zlen at 1; rewrite length_le_bytes; lia]|].
    replace (_ ++ _) with buf; [exact Hrun|]. unfold buf, patched. do 3 f_equal.
    unfold zlen. rewrite length_le_bytes. lia.
  - by eapply mirrored_abs.
  - unfold fat_raw at 1, sector. rewrite H0copy. change (default [] (Some buf)) with buf. unfold buf.
    by rewrite patched_field, decide_True by (done || apply masked_range).
  - intros i Hi. rewrite H0copy. by apply Hm.
Qed.

(** *** Clusters *)

Lemma cluster_sector c k j :
  disk_ok fs c → is_cluster fs k → 0 ≤ j < spc fs →
  c !! (data_addr fs k + j) = Some (sector c (data_addr fs k + j)) ∧
  zlen (sector c (data_addr fs k + j)) = bps fs ∧ bytes (sector c (data_addr fs k + j)).
Proof.
  intros Hd Hk Hj. apply disk_sector; [done|].
  pose proof (data_range fs G k j Hk Hj). pose proof (data_start_pos fs G). lia.
Qed.

(** The first [n] sectors of a cluster. *)
Definition cluster_prefix (c : gmap Z (list Z)) (k n : Z) : list Z :=
  concat ((λ j, sector c (data_addr fs k + j)) <$> range 0 n).

Lemma cluster_prefix_snoc c k n :
  0 ≤ n → cluster_prefix c k (n + 1) = cluster_prefix c k n ++ sector c (data_addr fs k + n).
Proof.
  intros Hn. unfold cluster_prefix. rewrite range_snoc, fmap_app, concat_app by done.
  cbn. by rewrite app_nil_r.
Qed.

Lemma cluster_prefix_ok c k (n : nat) :
  disk_ok fs c → is_cluster fs k → Z.of_nat n ≤ spc fs →
  zlen (cluster_prefix c k (Z.of_nat n)) = Z.of_nat n * bps fs ∧
  bytes (cluster_prefix c k (Z.of_nat n)).
Proof.
  intros Hd Hk. induction n as [|n IH]; intros Hn; [by split; [|constructor]|].
  destruct IH as [Hl Hb]; [lia|].
  destruct (cluster_sector c k (Z.of_nat n) Hd Hk ltac:(lia)) as (_ & Hz & Hsb).
  replace (Z.of_nat (S n)) with (Z.of_nat n + 1) by lia. rewrite cluster_prefix_snoc by lia.
  split; [rewrite zlen_app; lia|]. apply Forall_app. by split.
Qed.

Lemma cluster_of_ok c k :
  disk_ok fs c → is_cluster fs k → zlen (cluster_of fs c k) = csize fs ∧ bytes (cluster_of fs c k).
Proof.
  intros Hd Hk. assert (0 ≤ spc fs) by (destruct G; lia).
  pose proof (cluster_prefix_ok c k (Z.to_nat (spc fs)) Hd Hk) as H'.
  rewrite Z2Nat.id in H' by done. apply H'. lia.
Qed.

Lemma csize_bounds : 32 ≤ csize fs < 2 ^ 24 ∧ csize fs mod 32 = 0.
Proof.
  destruct G as [Hb Hb32 Hs ????????]. unfold csize. split; [nia|].
  apply Z.mod_divide in Hb32 as [q ->]; [|lia]. rewrite Z.mul_assoc. by apply Z_mod_mult.
Qed.

Lemma read_cluster_spec c v k b buf :
  abs fs c v → v_data v !! k = Some b → zlen buf = csize fs →
  druns (read_cluster fs k buf) c (Ok b) c.
Proof.
  intros [Hd _ Hdata] Hk Hz. rewrite Hdata in Hk. case_decide as Hc; [|done]. injection Hk as <-.
  pose proof (g_bps _ G) as Hbps. pose proof (g_spc _ G) as Hspc.
  unfold read_cluster. rewrite (cluster_size_machine fs G).
  destruct (Z.ltb_spec (zlen buf) (csize fs)); [lia|].
  fold (spc fs). fold (bps fs).
  destruct (druns_mfold_res (λ pre acc,
      acc = cluster_prefix c k (zlen pre) ++ drop (Z.to_nat (zlen pre * bps fs)) buf)
    (range 0 (spc fs)) (λ i buf,
      s ← liftO (zslice buf (i *₆₄ bps fs) (i *₆₄ bps fs +₆₄ bps fs));
      data ←? read_sector_buf fs (cluster_to_sector (bpb fs) k +₃₂ i) (zlen s);
      buf' ← liftO (zcopy buf (i *₆₄ bps fs) data);
      mret (Ok buf')) buf c) as (acc & Hrun & Hacc).
  - by rewrite drop_0.
  - intros pre x post acc (-> & Hx & ->)%range_prefix ->.
    assert (zlen (range 0 x) = x) as Hl by (unfold zlen; rewrite length_range; lia).
    assert (zlen (range 0 x ++ [x]) = x + 1) as Hl'
      by (rewrite zlen_app, Hl, zlen_cons, zlen_nil; lia).
    rewrite Hl, Hl'. eexists. split; [|reflexivity].
    destruct (cluster_sector c k x Hd Hc Hx) as (Hs & Hsz & _).
    destruct (cluster_prefix_ok c k (Z.to_nat x) Hd Hc ltac:(lia)) as [Hpl _].
    rewrite Z2Nat.id in Hpl by lia.
    assert (0 ≤ x * bps fs ∧ x * bps fs + bps fs ≤ csize fs ∧ csize fs < 2 ^ 24) as (Hm1 & Hm2 & Hm3)
      by (pose proof csize_bounds; unfold csize in *; nia).
    nowrap. set (rest := drop (Z.to_nat (x * bps fs)) buf).
    assert (zlen rest = csize fs - x * bps fs) as Hrest
      by (unfold rest; rewrite zlen_drop, Hz; lia).
    eapply druns_bind.
    { apply druns_liftO. rewrite <- Hpl. apply zslice_at. lia. }
    replace (zlen (take (Z.to_nat (bps fs)) rest)) with (bps fs) by (rewrite zlen_take; lia).
    eapply druns_bind_ok.
    { apply (druns_sector c _ _ _ (data_addr_machine fs G k x Hc Hx) Hs Hsz). }
    eapply druns_bind.
    { apply druns_liftO. rewrite <- Hpl. apply zcopy_at. lia. }
    rewrite cluster_prefix_snoc by lia. unfold rest. rewrite drop_drop, <- app_assoc.
    replace (Z.to_nat (x * bps fs) + length (sector c (data_addr fs k + x)))%nat
      with (Z.to_nat ((x + 1) * bps fs)) by (unfold zlen in Hsz; nia).
    apply druns_ret.
  - assert (zlen (range 0 (spc fs)) = spc fs) as Hl by (unfold zlen; rewrite length_range; lia).
    rewrite Hl in Hacc. rewrite drop_ge, app_nil_r in Hacc.
    + subst acc. exact Hrun.
    + unfold zlen, csize in Hz. nia.
Qed.

(** What writing the first [n] sectors of cluster [k] does to the device. *)
Record blocks_written (c c' : gmap Z (list Z)) (k n : Z) (buf : list Z) : Prop := {
  bw_in : ∀ j, 0 ≤ j < n → c' !! (data_addr fs k + j) = Some (nth_block (bps fs) buf j);
  bw_out : ∀ s, (∀ j, 0 ≤ j < n → s ≠ data_addr fs k + j) → c' !! s = c !! s;
}.

Lemma write_blocks_loop c k buf :
  disk_ok fs c → is_cluster fs k → csize fs ≤ zlen buf → bytes buf →
  ∃ c', druns (write_cluster fs k buf) c (Ok tt) c' ∧ blocks_written c c' k (spc fs) buf.
Proof.
  intros Hd Hk Hz Hbuf. pose proof (g_bps _ G) as Hbps. pose proof (g_spc _ G) as Hspc.
  unfold write_cluster. rewrite (cluster_size_machine fs G).
  destruct (Z.ltb_spec (zlen buf) (csize fs)); [lia|]. fold (spc fs). fold (bps fs).
  edestruct (druns_mfor_res (E:=string) (λ (pre : list Z) c1, blocks_written c c1 k (zlen pre) buf)) as (c' & Hrun & Hw);
    [| |exists c'; split; [exact Hrun|]].
  - split; [intros j Hj; change (zlen (@nil Z)) with 0 in Hj; lia|done].
  - intros pre x post c1 (-> & Hx & ->)%range_prefix [Hin Hout].
    assert (zlen (range 0 x) = x) as Hl by (unfold zlen; rewrite length_range; lia).
    assert (zlen (range 0 x ++ [x]) = x + 1) as Hl'
      by (rewrite zlen_app, Hl, zlen_cons, zlen_nil; lia).
    rewrite Hl in Hin, Hout. rewrite Hl'.
    destruct (cluster_sector c k x Hd Hk Hx) as (Hs & Hsz & _).
    assert (0 ≤ x * bps fs ∧ x * bps fs + bps fs ≤ csize fs ∧ csize fs < 2 ^ 24) as (Hm1 & Hm2 & Hm3)
      by (pose proof csize_bounds; unfold csize in *; nia).
    exists (<[data_addr fs k + x := nth_block (bps fs) buf x]> c1). split.
    + nowrap. eapply druns_bind; [apply druns_liftO, zslice_block; [lia|lia|nia]|].
      apply (druns_sector_write c1 _ _ (sector c (data_addr fs k + x)));
        [by apply data_addr_machine| |done|apply zlen_block; [lia|lia|nia]|by apply block_bytes].
      rewrite Hout; [done|]. intros; lia.
    + split.
      * intros j Hj. destruct (decide (j = x)) as [->|]; [by rewrite lookup_insert_eq|].
        rewrite lookup_insert_ne by lia. apply Hin. lia.
      * intros s Hs'. rewrite lookup_insert_ne by (intros <-; apply (Hs' x); [lia|done]).
        apply Hout. intros j Hj. apply Hs'. lia.
  - by replace (zlen (range 0 (spc fs))) with (spc fs) in Hw
      by (unfold zlen; rewrite length_range; lia).
Qed.

Lemma blocks_written_abs c c' v k buf :
  abs fs c v → is_cluster fs k → zlen buf = csize fs → bytes buf →
  blocks_written c c' k (spc fs) buf → abs fs c' (set_data k buf v).
Proof.
  intros [Hd Hf Hdata] Hk Hz Hb [Hin Hout].
  pose proof (g_bps _ G) as Hbps. pose proof (g_spc _ G) as Hspc. split.
  - intros s Hs. destruct (decide (data_addr fs k ≤ s < data_addr fs k + spc fs)) as [Hr|Hr].
    + exists (nth_block (bps fs) buf (s - data_addr fs k)).
      replace s with (data_addr fs k + (s - data_addr fs k)) at 1 by lia.
      split; [apply Hin; lia|]. split; [|by apply block_bytes].
      apply zlen_block; [lia|lia|]. rewrite Hz. unfold csize. nia.
    + rewrite Hout by (intros; lia). by apply Hd.
  - intros k'. cbn [set_data v_fat]. rewrite Hf. case_decide as Hk'; [|done]. f_equal.
    unfold fat_of, fat_raw. symmetry. rewrite (sector_eq c c'); [done|]. apply Hout.
    intros j Hj. pose proof (data_range fs G k j Hk Hj).
    pose proof (fat_copy_range fs G 0 k' Hk') as Hr. unfold fat_copy_addr in Hr.
    specialize (Hr ltac:(destruct G; lia)). lia.
  - intros k'. cbn [set_data v_data]. destruct (decide (k' = k)) as [->|Hne].
    + rewrite lookup_insert_eq, decide_True by done. f_equal. unfold cluster_of.
      rewrite (list_fmap_ext _ (nth_block (bps fs) buf)).
      * replace (spc fs) with (Z.of_nat (Z.to_nat (spc fs))) by lia.
        rewrite concat_blocks by lia. rewrite take_ge; [done|]. unfold zlen, csize in Hz. nia.
      * intros i y [-> Hi]%lookup_seqZ. unfold sector. by rewrite Hin by lia.
    + rewrite lookup_insert_ne, Hdata by done. case_decide as Hk'; [|done]. f_equal.
      unfold cluster_of. f_equal. apply list_fmap_ext. intros i y [-> Hi]%lookup_seqZ.
      symmetry. apply sector_eq, Hout. intros j Hj He.
      apply Hne. apply (data_addr_inj fs k' k (0 + Z.of_nat i) j); [lia|lia|done].
Qed.

Lemma write_cluster_spec c v k buf :
  abs fs c v → is_cluster fs k → zlen buf = csize fs → bytes buf →
  ∃ c', druns (write_cluster fs k buf) c (Ok tt) c' ∧ abs fs c' (set_data k buf v).
Proof.
  intros Habs Hk Hz Hb. destruct (write_blocks_loop c k buf (a_disk _ _ _ Habs) Hk ltac:(lia) Hb)
    as (c' & Hrun & Hw). exists c'. split; [done|]. by eapply blocks_written_abs.
Qed.
End Primitives.

(** ** Computations on a volume *)

Section Runs.
Context `{BlockDeviceLaws D} (fs : Fat32Fs) (G : geometry fs).

(** From any working device that represents [v], [m] answers [r] and leaves a device
    that represents [v']. *)
Definition vruns {A} (m : M D A) (v : volume) (r : A) (v' : volume) : Prop :=
  ∀ d, working d → abs fs (content d) v →
    ∃ d', m d = Ret (r, d') ∧ working d' ∧ abs fs (content d') v'.

Lemma vruns_ret {A} (a : A) v : vruns (mret a) v a v.
Proof. intros d Hw Hc. by exists d. Qed.

Lemma vruns_bind {A B} (m : M D A) (k : A → M D B) v a v1 b v2 :
  vruns m v a v1 → vruns (k a) v1 b v2 → vruns (m ≫= k) v b v2.
Proof.
  intros Hm Hk d Hw Hc. destruct (Hm d Hw Hc) as (d1 & Hrun & Hw1 & Hc1).
  rewrite (bind_Ret _ _ _ _ _ Hrun). by apply Hk.
Qed.

Lemma vruns_ok {A B E} (m : M D (result A E)) (k : A → M D (result B E)) v a v1 b v2 :
  vruns m v (Ok a) v1 → vruns (k a) v1 b v2 → vruns (x ←? m; k x) v b v2.
Proof. intros Hm Hk. eapply vruns_bind; [exact Hm|exact Hk]. Qed.

Lemma vruns_liftO {A B} (o : outcome A) a (k : A → M D B) v b v2 :
  o = Ret a → vruns (k a) v b v2 → vruns (x ← liftO o; k x) v b v2.
Proof.
  intros -> Hk. eapply vruns_bind; [|exact Hk]. intros d Hw Hc. by exists d.
Qed.

Lemma vruns_druns {A} (m : M D A) v r v' :
  (∀ c, abs fs c v → ∃ c', druns m c r c' ∧ abs fs c' v') → vruns m v r v'.
Proof.
  intros Hm d Hw Hc. destruct (Hm _ Hc) as (c' & Hrun & Hc').
  destruct (Hrun d Hw eq_refl) as (d' & ? & ? & <-). by exists d'.
Qed.

Lemma vruns_map_err {A E F} (f : E → F) (m : M D (result A E)) v a v' :
  vruns m v (Ok a) v' → vruns (map_err f m) v (Ok a) v'.
Proof. intros Hm. eapply vruns_bind; [exact Hm|]. apply vruns_ret. Qed.

Lemma vruns_map_err_Err {A E F} (f : E → F) (m : M D (result A E)) v e v' :
  vruns m v (Err e) v' → vruns (map_err f m) v (Err (f e)) v'.
Proof. intros Hm. eapply vruns_bind; [exact Hm|]. apply vruns_ret. Qed.

Lemma vruns_err {A B E} (m : M D (result A E)) (k : A → M D (result B E)) v e v1 :
  vruns m v (Err e) v1 → vruns (x ←? m; k x) v (Err e) v1.
Proof. intros Hm. eapply vruns_bind; [exact Hm|]. apply vruns_ret. Qed.

(** The volume's side of the four primitives. *)
Record vol_ok (v : volume) : Prop := {
  vo_fat : ∀ k, is_Some (v_fat v !! k) ↔ is_cluster fs k;
  vo_data : ∀ k, is_Some (v_data v !! k) ↔ is_cluster fs k;
  vo_entry : ∀ k x, v_fat v !! k = Some x → 0 ≤ x < 2 ^ 28;
  vo_bytes : ∀ k b, v_data v !! k = Some b → zlen b = csize fs ∧ bytes b;
}.

Lemma land_28 x : Z.land x 0x0FFFFFFF = x mod 2 ^ 28.
Proof. change 0x0FFFFFFF with (Z.ones 28). by rewrite Z.land_ones. Qed.

Lemma abs_vol_ok c v : abs fs c v → vol_ok v.
Proof.
  intros [Hd Hf Hdata]. split.
  - intros k. rewrite Hf. case_decide; [|split; [by intros []|done]]. split; [done|by eexists].
  - intros k. rewrite Hdata. case_decide; [|split; [by intros []|done]]. split; [done|by eexists].
  - intros k x Hk. rewrite Hf in Hk. case_decide; [|done]. injection Hk as <-.
    unfold fat_of. rewrite land_28. by apply Z.mod_pos_bound.
  - intros k b Hk. rewrite Hdata in Hk. case_decide; [|done]. injection Hk as <-.
    by apply cluster_of_ok.
Qed.

Lemma vruns_read_fat v k x : v_fat v !! k = Some x → vruns (read_fat_entry fs k) v (Ok x) v.
Proof.
  intros Hk. apply vruns_druns. intros c Hc. exists c. split; [|done].
  by eapply read_fat_entry_spec.
Qed.

Lemma vruns_write_fat v k x :
  is_cluster fs k → 0 ≤ x < 2 ^ 28 → vruns (write_fat_entry fs k x) v (Ok tt) (set_fat k x v).
Proof.
  intros Hk Hx. apply vruns_druns. intros c Hc.
  destruct (write_fat_entry_spec fs G c v k x Hc Hk) as (c' & Hrun & Habs & _).
  rewrite land_28, Z.mod_small in Habs by done. by exists c'.
Qed.

Lemma vruns_read_cluster v k b buf :
  v_data v !! k = Some b → zlen buf = csize fs → vruns (read_cluster fs k buf) v (Ok b) v.
Proof.
  intros Hk Hz. apply vruns_druns. intros c Hc. exists c. split; [|done].
  by eapply read_cluster_spec.
Qed.

Lemma vruns_write_cluster v k buf :
  is_cluster fs k → zlen buf = csize fs → bytes buf →
  vruns (write_cluster fs k buf) v (Ok tt) (set_data k buf v).
Proof.
  intros Hk Hz Hb. apply vruns_druns. intros c Hc. by apply write_cluster_spec.
Qed.

Lemma vruns_mono {A} (m : M D A) v r v' :
  (vol_ok v → vruns m v r v') → vruns m v r v'.
Proof. intros Hm d Hw Hc. apply Hm; [by eapply abs_vol_ok|done..]. Qed.

End Runs.
