(* ===== verification/Files.v ===== *)
(** * Chains and files on a volume

    The behaviour of the FAT and file operations of [Fat32] on the abstract
    volume: chains are linked lists in the table, files the concatenation of
    their clusters. *)

From stdpp Require Import base numbers list gmap strings.
From S2P Require Import Prelude ByteStr Block Bpb Fat32 Volume.

#[local] Open Scope Z_scope.
#[local] Open Scope rust_scope.

(** ** Chains *)

(** [cs] is a chain of the table that ends with an end-of-chain mark. *)
Fixpoint linked (f : gmap Z Z) (cs : list Z) : Prop :=
  match cs with
  | [] => False
  | k :: rest =>
      match rest with
      | [] => ∃ x, f !! k = Some x ∧ FAT32_EOC ≤ x
      | k' :: _ => f !! k = Some k' ∧ linked f rest
      end
  end.

(** A file or directory chain, short enough for [read_chain]. *)
Record chain_ok (v : volume) (cs : list Z) : Prop := {
  ch_linked : linked (v_fat v) cs;
  ch_nodup : NoDup cs;
  ch_short : zlen cs ≤ 100000;
}.

(** The bytes of a chain. *)
Definition file_bytes (v : volume) (cs : list Z) : list Z :=
  concat ((λ k, default [] (v_data v !! k)) <$> cs).

(** The lowest free cluster. *)
Definition first_free (fs : Fat32Fs) (v : volume) (k : Z) : Prop :=
  v_fat v !! k = Some FAT32_FREE ∧
  ∀ j x, 2 ≤ j < k → v_fat v !! j = Some x → x ≠ FAT32_FREE.

Definition table_full (v : volume) : Prop := ∀ k x, v_fat v !! k = Some x → x ≠ FAT32_FREE.

(** ** Updates in sequence *)

Lemma foldl_insert_other {B} (f : Z → Z) (g : Z → B) (m : gmap Z B) l k :
  (∀ i, i ∈ l → f i ≠ k) → foldl (λ m i, <[f i := g i]> m) m l !! k = m !! k.
Proof.
  revert m. induction l as [|i l IH]; intros m Hl; [done|]. cbn [foldl].
  rewrite IH by (intros j Hj; apply Hl; by right).
  apply lookup_insert_ne, Hl. left.
Qed.

Lemma foldl_insert_at {B} (f : Z → Z) (g : Z → B) (m : gmap Z B) l1 i l2 k :
  f i = k → (∀ j, j ∈ l2 → f j ≠ k) →
  foldl (λ m i, <[f i := g i]> m) m (l1 ++ i :: l2) !! k = Some (g i).
Proof.
  intros <- Hl. rewrite foldl_app. cbn [foldl].
  rewrite foldl_insert_other by done. apply lookup_insert_eq.
Qed.

Lemma foldl_set_data (f : Z → Z) (g : Z → list Z) v (l : list Z) :
  foldl (λ v i, set_data (f i) (g i) v) v l =
    mkVol (v_fat v) (foldl (λ m i, <[f i := g i]> m) (v_data v) l).
Proof. revert v. induction l as [|i l IH]; intros [a b]; cbn; [done|]. by rewrite IH. Qed.

Lemma foldl_set_fat (f g : Z → Z) v (l : list Z) :
  foldl (λ v i, set_fat (f i) (g i) v) v l =
    mkVol (foldl (λ m i, <[f i := g i]> m) (v_fat v) l) (v_data v).
Proof. revert v. induction l as [|i l IH]; intros [a b]; cbn; [done|]. by rewrite IH. Qed.

Lemma linked_cons f k cs : linked f (k :: cs) → cs ≠ [] → linked f cs.
Proof. destruct cs; [done|]. by intros [_ ?]. Qed.

Lemma linked_app f l k cs : linked f (l ++ k :: cs) → linked f (k :: cs).
Proof.
  induction l as [|x l IH]; intros Hl; [done|]. apply IH.
  apply (linked_cons f x); [exact Hl|]. by destruct l.
Qed.

Lemma linked_lookup f cs k : linked f cs → k ∈ cs → is_Some (f !! k).
Proof.
  intros Hl Hk. apply list_elem_of_split in Hk as (l & r & ->).
  apply linked_app in Hl. destruct r; [destruct Hl as (x & ? & _)|destruct Hl]; by eexists.
Qed.

(** A member of a chain is not free. *)
Lemma linked_not_free f cs k :
  linked f cs → k ∈ cs → (∀ j, j ∈ cs → 2 ≤ j) → f !! k ≠ Some FAT32_FREE.
Proof.
  intros Hl Hk Hge. apply list_elem_of_split in Hk as (l & r & ->).
  apply linked_app in Hl. destruct r as [|k' r].
  - destruct Hl as (x & -> & Hx). unfold FAT32_EOC, FAT32_FREE in *. intros [=]. lia.
  - destruct Hl as [-> _]. assert (2 ≤ k') by (apply Hge; set_solver).
    unfold FAT32_FREE. intros [=]. lia.
Qed.

(** The chain that the link loop builds. *)
Lemma linked_of_lookup f cs :
  cs ≠ [] →
  (∀ (i : nat) k, cs !! i = Some k → f !! k = Some (default FAT32_EOC (cs !! S i))) →
  linked f cs.
Proof.
  induction cs as [|k cs IH]; intros Hne Hf; [done|].
  pose proof (Hf 0%nat k eq_refl) as Hk. cbn in Hk. cbn [linked].
  destruct cs as [|k' cs].
  - cbn in Hk. exists FAT32_EOC. split; [done|lia].
  - cbn in Hk. split; [done|]. apply IH; [done|]. intros i y Hi. apply (Hf (S i) y Hi).
Qed.

Section Files.
Context `{BlockDeviceLaws D} (fs : Fat32Fs) (G : geometry fs).

Notation vruns := (vruns fs).

Lemma vruns_mfor_res {A E} (F : volume → A → volume) (l : list A) (body : A → M D (result unit E)) v :
  (∀ x v, x ∈ l → vruns (body x) v (Ok tt) (F v x)) →
  vruns (mfor_res l body) v (Ok tt) (foldl F v l).
Proof.
  revert v. induction l as [|x l IH]; intros v Hl; [apply vruns_ret|].
  eapply vruns_ok; [apply Hl; left|]. apply IH. intros y w Hy. apply Hl. by right.
Qed.

(** ** [read_chain] *)

Lemma read_chain_loop_spec v fuel pre k cs :
  linked (v_fat v) (k :: cs) → NoDup (pre ++ k :: cs) →
  (∀ j, j ∈ k :: cs → is_cluster fs j) → zlen (pre ++ k :: cs) ≤ 100000 →
  (length (k :: cs) ≤ fuel)%nat →
  vruns (read_chain_loop fs fuel pre k) v (Ok (pre ++ k :: cs)) v.
Proof.
  revert pre k fuel. induction cs as [|k' cs IH]; intros pre k fuel Hl Hnd Hcl Hlen Hfuel;
    (destruct fuel as [|fuel]; [cbn in Hfuel; lia|]); cbn [read_chain_loop];
    (destruct (Z.ltb_spec k 2); [destruct (Hcl k ltac:(left)); lia|]).
  - destruct Hl as (x & Hx & Heoc). eapply vruns_ok; [by apply vruns_read_fat|].
    destruct (Z.leb_spec FAT32_EOC x); [|lia]. cbn [orb]. apply vruns_ret.
  - destruct Hl as [Hx Hl]. eapply vruns_ok; [by apply vruns_read_fat|].
    destruct (Hcl k' ltac:(right; left)) as [Hk'1 Hk'2]. pose proof (g_max _ G) as Hmax.
    unfold FAT32_EOC, FAT32_BAD in *.
    destruct (Z.leb_spec 0xFFFFFF8 k'); [lia|]. destruct (Z.eqb_spec k' 0xFFFFFF7); [lia|].
    destruct (Z.eqb_spec k' 0); [lia|]. cbn [orb]. destruct (Z.ltb_spec k' 2); [lia|].
    assert (k' ≠ k ∧ k' ∉ pre ++ [k]) as [Hne Hnin].
    { replace (pre ++ k :: k' :: cs) with ((pre ++ [k]) ++ k' :: cs) in Hnd by (by rewrite <- app_assoc).
      apply NoDup_app in Hnd as (_ & Hd & _). split.
      - intros ->. apply (Hd k); [set_solver|left].
      - intros Hin. apply (Hd k' Hin). left. }
    destruct (Z.eqb_spec k' k); [done|]. cbn [orb].
    unfold contains. rewrite bool_decide_eq_false_2 by done.
    rewrite zlen_app, !zlen_cons in Hlen. pose proof (zlen_nonneg cs).
    destruct (Z.ltb_spec 100000 (zlen (pre ++ [k]))) as [Hgt|].
    { rewrite zlen_app, zlen_cons, zlen_nil in Hgt. lia. }
    replace (pre ++ k :: k' :: cs) with ((pre ++ [k]) ++ k' :: cs) by (by rewrite <- app_assoc).
    apply IH; [done|by rewrite <- app_assoc|intros j Hj; apply Hcl; by right| |cbn in *; lia].
    rewrite !zlen_app, !zlen_cons, zlen_nil. lia.
Qed.

Lemma chain_clusters v cs :
  vol_ok fs v → chain_ok v cs → ∀ j, j ∈ cs → is_cluster fs j.
Proof.
  intros Hv [Hl _ _] j Hj. apply (vo_fat _ _ Hv). by eapply linked_lookup.
Qed.

Lemma read_chain_spec v k cs :
  vol_ok fs v → chain_ok v (k :: cs) → vruns (read_chain fs k) v (Ok (k :: cs)) v.
Proof.
  intros Hv Hch. pose proof Hch as [Hl Hnd Hlen]. unfold read_chain.
  apply (read_chain_loop_spec v CHAIN_FUEL [] k cs); [done..|by eapply chain_clusters|done|].
  unfold CHAIN_FUEL, zlen in *. lia.
Qed.

(** ** [alloc_cluster] *)

Lemma machine_data_start : data_start_sector (bpb fs) = data_start fs.
Proof.
  pose proof (data_start_pos fs G). pose proof (total_bound fs G). destruct G.
  unfold data_start_sector, data_start in *.
  assert (0 ≤ num_fats (bpb fs) * fat_size_32 (bpb fs)) by nia.
  assert (0 ≤ nclusters fs * spc fs) by nia. nowrap. lia.
Qed.

Lemma nclusters_machine :
  sat_sub (total_sectors_32 (bpb fs)) (data_start_sector (bpb fs)) ≠ 0 ∧
  div_rust (sat_sub (total_sectors_32 (bpb fs)) (data_start_sector (bpb fs)))
    (sectors_per_cluster (bpb fs)) = Ret (nclusters fs).
Proof.
  rewrite machine_data_start. pose proof (total_bound fs G). destruct G.
  unfold sat_sub, div_rust. fold (spc fs).
  assert (1 ≤ nclusters fs * spc fs) by nia.
  rewrite Z.max_r by lia. split; [lia|]. destruct (Z.eqb_spec (spc fs) 0); [lia|]. done.
Qed.

Lemma zeros_ok : zlen (zrepeat (csize fs) 0) = csize fs ∧ bytes (zrepeat (csize fs) 0).
Proof.
  pose proof (csize_bounds fs G) as [? _]. split; [apply zlen_repeat; lia|].
  apply Forall_replicate. unfold is_byte. lia.
Qed.

Lemma try_cluster_free v k :
  is_cluster fs k → v_fat v !! k = Some FAT32_FREE →
  vruns (try_cluster fs k) v (Ok (Some k)) (set_data k (zrepeat (csize fs) 0) v).
Proof.
  intros Hk Hf. unfold try_cluster. eapply vruns_ok; [by apply vruns_read_fat|].
  rewrite (cluster_size_machine fs G). cbn. destruct zeros_ok.
  eapply vruns_ok; [by apply vruns_write_cluster|]. apply vruns_ret.
Qed.

Lemma try_cluster_used v k x :
  v_fat v !! k = Some x → x ≠ FAT32_FREE → vruns (try_cluster fs k) v (Ok None) v.
Proof.
  intros Hf Hx. unfold try_cluster. eapply vruns_ok; [by apply vruns_read_fat|].
  destruct (Z.eqb_spec x FAT32_FREE); [done|]. apply vruns_ret.
Qed.

Lemma alloc_scan_found v k (m : nat) j :
  vol_ok fs v → first_free fs v k → 2 ≤ j ≤ k → k - j = Z.of_nat m →
  vruns (mfor_ret (range j (nclusters fs + 2)) (try_cluster fs)) v (Ok (Some k))
    (set_data k (zrepeat (csize fs) 0) v).
Proof.
  intros Hv [Hk Hlow]. assert (is_cluster fs k) as Hkc by (apply (vo_fat _ _ Hv); by eexists).
  pose proof Hkc as [Hk1 Hk2].
  revert j. induction m as [|m IH]; intros j Hj Hm; rewrite range_cons by lia; cbn [mfor_ret].
  - assert (j = k) as -> by lia. eapply vruns_ok; [by apply try_cluster_free|]. apply vruns_ret.
  - assert (is_cluster fs j) as Hjc by (split; lia).
    apply (vo_fat _ _ Hv) in Hjc as [x Hx].
    eapply vruns_ok; [apply (try_cluster_used v j x Hx), (Hlow j x); [lia|done]|].
    apply IH; lia.
Qed.

Lemma alloc_scan_full v (m : nat) j :
  vol_ok fs v → table_full v → 2 ≤ j → nclusters fs + 2 - j = Z.of_nat m →
  vruns (mfor_ret (range j (nclusters fs + 2)) (try_cluster fs)) v (Ok None) v.
Proof.
  intros Hv Hfull. revert j. induction m as [|m IH]; intros j Hj Hm.
  - rewrite range_nil by lia. apply vruns_ret.
  - rewrite range_cons by lia. cbn [mfor_ret]. assert (is_cluster fs j) as Hjc by (split; lia).
    apply (vo_fat _ _ Hv) in Hjc as [x Hx].
    eapply vruns_ok; [by eapply try_cluster_used, Hfull|]. apply IH; lia.
Qed.

Lemma alloc_cluster_spec v k :
  vol_ok fs v → first_free fs v k →
  vruns (alloc_cluster fs) v (Ok k) (set_data k (zrepeat (csize fs) 0) v).
Proof.
  intros Hv Hk. unfold alloc_cluster. destruct nclusters_machine as [Hne Hdiv].
  destruct (Z.eqb_spec (sat_sub (total_sectors_32 (bpb fs)) (data_start_sector (bpb fs))) 0); [done|].
  eapply vruns_liftO; [exact Hdiv|]. pose proof (g_clusters _ G). pose proof (g_max _ G).
  unfold FAT32_BAD in *. destruct (Z.ltb_spec (nclusters fs) 2); [lia|]. nowrap.
  assert (is_cluster fs k) as [? ?] by (apply (vo_fat _ _ Hv); exists FAT32_FREE; apply Hk).
  eapply vruns_ok; [apply (alloc_scan_found v k (Z.to_nat (k - 2)) 2 Hv Hk); lia|].
  apply vruns_ret.
Qed.

Lemma alloc_cluster_full v :
  vol_ok fs v → table_full v → vruns (alloc_cluster fs) v (Err "No free clusters") v.
Proof.
  intros Hv Hk. unfold alloc_cluster. destruct nclusters_machine as [Hne Hdiv].
  destruct (Z.eqb_spec (sat_sub (total_sectors_32 (bpb fs)) (data_start_sector (bpb fs))) 0); [done|].
  eapply vruns_liftO; [exact Hdiv|]. pose proof (g_clusters _ G). pose proof (g_max _ G).
  unfold FAT32_BAD in *. destruct (Z.ltb_spec (nclusters fs) 2); [lia|]. nowrap.
  eapply vruns_ok; [apply (alloc_scan_full v (Z.to_nat (nclusters fs)) 2 Hv Hk); lia|].
  apply vruns_ret.
Qed.

Lemma first_free_or_full v : vol_ok fs v → (∃ k, first_free fs v k) ∨ table_full v.
Proof.
  intros Hv. cut (∀ m : nat, (∃ k, first_free fs v k) ∨
    ∀ k x, 2 ≤ k < 2 + Z.of_nat m → v_fat v !! k = Some x → x ≠ FAT32_FREE).
  { intros Hcut. destruct (Hcut (Z.to_nat (nclusters fs))) as [?|Hno]; [by left|right].
    intros k x Hk. apply (Hno k x); [|done].
    assert (is_cluster fs k) as [? ?] by (apply (vo_fat _ _ Hv); by eexists). lia. }
  induction m as [|m [?|IH]]; [right; lia|by left|].
  destruct (decide (v_fat v !! (2 + Z.of_nat m) = Some FAT32_FREE)) as [Hf|Hf].
  - left. exists (2 + Z.of_nat m). split; [done|]. intros j x Hj. apply IH. lia.
  - right. intros k x Hk Hx. destruct (decide (k = 2 + Z.of_nat m)) as [->|].
    + intros ->. by apply Hf.
    + apply (IH k x); [lia|done].
Qed.


(** ** [read_file] *)

Lemma file_bytes_cons v k cs b :
  v_data v !! k = Some b → file_bytes v (k :: cs) = b ++ file_bytes v cs.
Proof. intros Hk. unfold file_bytes. cbn. by rewrite Hk. Qed.

(** How many bytes a read of [size] bytes into [buf] moves. *)
Definition read_count (size : Z) (buf fb : list Z) : Z := Z.min (Z.min size (zlen buf)) (zlen fb).

(** The buffer after the read. *)
Definition read_result (size : Z) (buf fb : list Z) : list Z :=
  let n := Z.to_nat (read_count size buf fb) in take n fb ++ drop n buf.

Lemma read_step (b fb rest : list Z) rem :
  0 < rem → 0 < zlen rest → 0 < zlen b →
  let tc := Z.min (Z.min rem (zlen b)) (zlen rest) in
  read_result rem rest (b ++ fb) =
    take (Z.to_nat tc) b ++ read_result (rem - tc) (drop (Z.to_nat tc) rest) fb ∧
  read_count rem rest (b ++ fb) =
    tc + read_count (rem - tc) (drop (Z.to_nat tc) rest) fb.
Proof.
  intros Hrem Hrest Hb tc. pose proof (zlen_nonneg fb).
  assert (read_count rem rest (b ++ fb) =
    tc + read_count (rem - tc) (drop (Z.to_nat tc) rest) fb) as Hcount.
  { unfold read_count. rewrite zlen_app, zlen_drop. lia. }
  split; [|done]. unfold read_result at 1. rewrite Hcount.
  set (n' := read_count (rem - tc) (drop (Z.to_nat tc) rest) fb) in *.
  assert (0 ≤ n') by (unfold n', read_count; rewrite zlen_drop; lia).
  assert (tc < zlen b → n' = 0) as Hshort.
  { intros Hlt. unfold n', read_count. rewrite zlen_drop. lia. }
  rewrite Z2Nat.inj_add by lia. unfold read_result. fold n'.
  rewrite take_app, drop_drop, app_assoc. f_equal.
  destruct (Z.lt_ge_cases tc (zlen b)) as [Hlt|Hge].
  - rewrite (Hshort Hlt). cbn [Z.to_nat]. rewrite Nat.add_0_r. f_equal.
    replace (Z.to_nat tc - length b)%nat with 0%nat by (unfold zlen in *; lia). done.
  - assert (tc = zlen b) as -> by lia. unfold zlen. rewrite Nat2Z.id.
    rewrite (take_ge b (length b + _)), (take_ge b (length b)) by lia. f_equal. f_equal. lia.
Qed.

Lemma read_file_loop_spec v cs dn rest rem :
  vol_ok fs v → (∀ j, j ∈ cs → is_cluster fs j) → 0 ≤ rem →
  vruns (read_file_loop fs cs (dn ++ rest) (zlen dn) rem) v
    (Ok (dn ++ read_result rem rest (file_bytes v cs),
         zlen dn + read_count rem rest (file_bytes v cs))) v.
Proof.
  intros Hv. revert dn rest rem. induction cs as [|k cs IH]; intros dn rest rem Hcs Hrem;
    cbn [read_file_loop].
  - unfold read_result, read_count. change (zlen (file_bytes v [])) with 0.
    rewrite Z.min_r by (pose proof (zlen_nonneg rest); lia). rewrite Z.add_0_r. apply vruns_ret.
  - destruct (proj2 (vo_data _ _ Hv k) (Hcs k ltac:(left))) as [b Hb].
    destruct (vo_bytes _ _ Hv k b Hb) as [Hbl Hbb]. rewrite (file_bytes_cons v k cs b Hb).
    pose proof (csize_bounds fs G) as [Hcz _]. pose proof (zlen_nonneg rest).
    destruct ((rem =? 0) || (zlen (dn ++ rest) <=? zlen dn)) eqn:Hstop.
    + assert (read_count rem rest (b ++ file_bytes v cs) = 0) as Hzero.
      { unfold read_count. rewrite zlen_app in *. pose proof (zlen_nonneg (file_bytes v cs)).
        apply orb_true_iff in Hstop as [?%Z.eqb_eq|?%Z.leb_le]; lia. }
      unfold read_result. rewrite Hzero, Z.add_0_r. apply vruns_ret.
    + apply orb_false_iff in Hstop as [Hr0%Z.eqb_neq Hlt%Z.leb_gt]. rewrite zlen_app in Hlt.
      destruct zeros_ok as [Hzl _]. rewrite (cluster_size_machine fs G).
      eapply vruns_ok; [by apply vruns_read_cluster|].
      destruct (read_step b (file_bytes v cs) rest rem) as [Hres Hcount]; [lia..|].
      rewrite Hbl in Hres, Hcount. rewrite zlen_app.
      replace (zlen dn + zlen rest - zlen dn) with (zlen rest) by lia.
      set (tc := Z.min (Z.min rem (csize fs)) (zlen rest)) in *.
      eapply vruns_liftO; [apply zslice_ok; lia|]. rewrite Z.sub_0_r, drop_0.
      assert (zlen (take (Z.to_nat tc) b) = tc) as Htl by (rewrite zlen_take; lia).
      eapply vruns_liftO; [apply zcopy_at; lia|].
      replace (length (take (Z.to_nat tc) b)) with (Z.to_nat tc) by (unfold zlen in Htl; lia).
      rewrite app_assoc. replace (zlen dn + tc) with (zlen (dn ++ take (Z.to_nat tc) b))
        by (rewrite zlen_app; lia).
      rewrite Hres, Hcount. rewrite (app_assoc dn), Z.add_assoc.
      replace (zlen dn + tc) with (zlen (dn ++ take (Z.to_nat tc) b)) by (rewrite zlen_app; lia).
      apply IH; [intros j Hj; apply Hcs; by right|lia].
Qed.

Lemma read_file_spec v k cs size buf :
  vol_ok fs v → chain_ok v (k :: cs) → 0 ≤ size →
  vruns (read_file fs k size buf) v
    (Ok (read_result size buf (file_bytes v (k :: cs)),
         read_count size buf (file_bytes v (k :: cs)))) v.
Proof.
  intros Hv Hch Hsize. unfold read_file. eapply vruns_ok; [by apply read_chain_spec|].
  apply (read_file_loop_spec v (k :: cs) [] buf size); [done|by eapply chain_clusters|done].
Qed.

(** ** Writing data *)

(** The [i]-th block of [n] bytes of [data], filled up with zeros. *)
Definition pad_chunk (n : Z) (data : list Z) (i : Z) : list Z :=
  let c := nth_block n data i in c ++ zrepeat (n - zlen c) 0.

Lemma pad_chunk_ok n data i :
  0 ≤ n → bytes data → zlen (pad_chunk n data i) = n ∧ bytes (pad_chunk n data i).
Proof.
  intros Hn Hb. unfold pad_chunk. assert (zlen (nth_block n data i) ≤ n).
  { unfold nth_block. rewrite zlen_take. lia. }
  split; [rewrite zlen_app, zlen_repeat; lia|]. apply Forall_app. split; [by apply block_bytes|].
  apply Forall_replicate. unfold is_byte. lia.
Qed.

(** A padded chunk is a block of the padded data. *)
Lemma pad_chunk_block n data i K :
  0 ≤ n → 0 ≤ i → 0 ≤ K → (i + 1) * n ≤ zlen data + K →
  pad_chunk n data i = nth_block n (data ++ zrepeat K 0) i.
Proof.
  intros Hn Hi HK Hle. unfold pad_chunk, nth_block, zrepeat.
  rewrite drop_app, take_app, drop_replicate, take_replicate. f_equal. f_equal.
  rewrite zlen_take, zlen_drop, length_drop. unfold zlen in *. nia.
Qed.

Lemma concat_chunks n data (m : nat) K :
  0 ≤ n → 0 ≤ K → Z.of_nat m * n = zlen data + K →
  concat (pad_chunk n data <$> range 0 (Z.of_nat m)) = data ++ zrepeat K 0.
Proof.
  intros Hn HK Hm. rewrite (list_fmap_ext _ (nth_block n (data ++ zrepeat K 0))).
  - rewrite concat_blocks by done. apply take_ge. unfold zlen, zrepeat in *.
    rewrite length_app, length_replicate. lia.
  - intros i y [-> Hi]%lookup_seqZ. apply pad_chunk_block; [lia..|nia].
Qed.

Lemma data_chunk_spec data i :
  0 ≤ i → (i + 1) * csize fs < 2 ^ 64 →
  data_chunk (csize fs) data i = Ret (pad_chunk (csize fs) data i).
Proof.
  intros Hi Hlt. pose proof (csize_bounds fs G) as [Hc _]. unfold data_chunk.
  assert (0 ≤ i * csize fs) by nia. rewrite wrap64_small by nia.
  unfold pad_chunk. destruct (Z.ltb_spec (i * csize fs) (zlen data)) as [Hin|Hout].
  - rewrite zslice_ok by lia. cbn [mbind outcome_bind].
    replace (i * csize fs + Z.min (zlen data - i * csize fs) (csize fs) - i * csize fs)
      with (Z.min (zlen data - i * csize fs) (csize fs)) by lia.
    assert (take (Z.to_nat (Z.min (zlen data - i * csize fs) (csize fs)))
      (drop (Z.to_nat (i * csize fs)) data) = nth_block (csize fs) data i) as ->.
    { unfold nth_block. destruct (Z.le_gt_cases (csize fs) (zlen data - i * csize fs)).
      - by rewrite Z.min_r by lia.
      - rewrite Z.min_l, !take_ge by (rewrite ?length_drop; unfold zlen in *; lia). done. }
    unfold zrepeat. assert (zlen (nth_block (csize fs) data i) ≤ csize fs).
    { unfold nth_block. rewrite zlen_take. lia. }
    rewrite zcopy_pad by (unfold zlen in *; lia). do 4 f_equal. unfold zlen. lia.
  - assert (nth_block (csize fs) data i = []) as ->.
    { unfold nth_block. rewrite drop_ge; [by rewrite take_nil|]. unfold zlen in *. lia. }
    change (zlen (@nil Z)) with 0. by rewrite Z.sub_0_r.
Qed.

(** The updates of the two loops of [write_file_data]. *)
Definition put_chunk (C data : list Z) (v : volume) (i : Z) : volume :=
  set_data (C !!! Z.to_nat i) (pad_chunk (csize fs) data i) v.
Definition next_of (C : list Z) (i : Z) : Z := default FAT32_EOC (C !! S (Z.to_nat i)).
Definition put_link (C : list Z) (v : volume) (i : Z) : volume :=
  set_fat (C !!! Z.to_nat i) (next_of C i) v.

Lemma write_chunks_spec C data v :
  (∀ j, j ∈ C → is_cluster fs j) → bytes data → zlen C < 2 ^ 32 →
  vruns (mfor_res (range 0 (zlen C)) (write_chunk fs C data)) v (Ok tt)
    (foldl (put_chunk C data) v (range 0 (zlen C))).
Proof.
  intros HC Hb HlC. pose proof (csize_bounds fs G) as [Hc _].
  apply vruns_mfor_res. intros i w [Hi0 Hi]%elem_of_range. unfold write_chunk.
  eapply vruns_liftO; [by apply zget_total|]. rewrite (cluster_size_machine fs G).
  eapply vruns_liftO; [apply data_chunk_spec; nia|].
  destruct (pad_chunk_ok (csize fs) data i ltac:(lia) Hb).
  apply vruns_write_cluster; [done| |done..]. apply HC, list_elem_of_lookup_total_2.
  unfold zlen in *. lia.
Qed.

Lemma next_of_machine C i :
  0 ≤ i < zlen C →
  (if i + 1 <? zlen C then zget C (i + 1) else mret FAT32_EOC) = Ret (next_of C i).
Proof.
  intros Hi. unfold next_of. destruct (Z.ltb_spec (i + 1) (zlen C)).
  - rewrite zget_total by lia. f_equal.
    replace (Z.to_nat (i + 1)) with (S (Z.to_nat i)) by lia.
    rewrite (list_lookup_lookup_total_lt C (S (Z.to_nat i))) by (unfold zlen in *; lia). done.
  - rewrite lookup_ge_None_2 by (unfold zlen in *; lia). done.
Qed.

Lemma next_of_range C i :
  (∀ j, j ∈ C → is_cluster fs j) → 0 ≤ next_of C i < 2 ^ 28.
Proof.
  intros HC. unfold next_of. pose proof (g_max _ G) as Hmax. unfold FAT32_EOC, FAT32_BAD in *.
  destruct (C !! S (Z.to_nat i)) eqn:Hl; cbn; [|lia].
  apply list_elem_of_lookup_2, HC in Hl as [? ?]. lia.
Qed.

Lemma link_loop_spec C v :
  (∀ j, j ∈ C → is_cluster fs j) →
  vruns (mfor_res (range 0 (zlen C)) (link_cluster fs C)) v (Ok tt)
    (foldl (put_link C) v (range 0 (zlen C))).
Proof.
  intros HC. apply vruns_mfor_res. intros i w [Hi0 Hi]%elem_of_range. unfold link_cluster.
  eapply vruns_liftO; [by apply next_of_machine|].
  eapply vruns_liftO; [by apply zget_total|].
  apply vruns_write_fat; [done| |by apply next_of_range].
  apply HC, list_elem_of_lookup_total_2. unfold zlen in *. lia.
Qed.

(** The volume after both loops. *)
Definition written (C data : list Z) (v : volume) : volume :=
  mkVol (foldl (λ m i, <[C !!! Z.to_nat i := next_of C i]> m) (v_fat v) (range 0 (zlen C)))
    (foldl (λ m i, <[C !!! Z.to_nat i := pad_chunk (csize fs) data i]> m) (v_data v)
      (range 0 (zlen C))).

Lemma written_eq C data v :
  foldl (put_link C) (foldl (put_chunk C data) v (range 0 (zlen C))) (range 0 (zlen C)) =
  written C data v.
Proof. unfold put_link, put_chunk. by rewrite foldl_set_data, foldl_set_fat. Qed.

Lemma range_at n i : 0 ≤ i < n → range 0 n = range 0 i ++ i :: range (i + 1) n.
Proof. intros. rewrite (range_split 0 i n) by lia. by rewrite (range_cons i n) by lia. Qed.

(** What a cluster holds at the end is decided by its last index in [C]. *)
Lemma written_at C data v (i : nat) k :
  C !! i = Some k → k ∉ drop (S i) C →
  v_fat (written C data v) !! k = Some (next_of C (Z.of_nat i)) ∧
  v_data (written C data v) !! k = Some (pad_chunk (csize fs) data (Z.of_nat i)).
Proof.
  intros Hk Hlast. pose proof (lookup_lt_Some _ _ _ Hk) as Hi.
  assert (C !!! Z.to_nat (Z.of_nat i) = k) as Hat
    by (rewrite Nat2Z.id; by apply list_lookup_total_correct).
  assert (∀ j, j ∈ range (Z.of_nat i + 1) (zlen C) → C !!! Z.to_nat j ≠ k) as Hafter.
  { intros j [Hj1 Hj2]%elem_of_range He. apply Hlast. rewrite <- He.
    replace (Z.to_nat j) with (S i + (Z.to_nat j - S i))%nat by lia.
    rewrite <- lookup_total_drop. apply list_elem_of_lookup_total_2.
    rewrite length_drop. unfold zlen in *. lia. }
  unfold written. cbn [v_fat v_data]. rewrite (range_at (zlen C) (Z.of_nat i)) by (unfold zlen; lia).
  split; by apply foldl_insert_at.
Qed.

Lemma written_other C data v k :
  k ∉ C → v_fat (written C data v) !! k = v_fat v !! k ∧
          v_data (written C data v) !! k = v_data v !! k.
Proof.
  intros Hk. assert (∀ i, i ∈ range 0 (zlen C) → C !!! Z.to_nat i ≠ k) as Hne.
  { intros i [Hi1 Hi2]%elem_of_range <-. apply Hk, list_elem_of_lookup_total_2.
    unfold zlen in *. lia. }
  split; by apply foldl_insert_other.
Qed.

(** A list of distinct clusters becomes a chain that holds the padded data. *)
Lemma written_chain C data v K :
  C ≠ [] → NoDup C → 0 ≤ K → zlen C * csize fs = zlen data + K →
  linked (v_fat (written C data v)) C ∧
  file_bytes (written C data v) C = data ++ zrepeat K 0.
Proof.
  intros Hne Hnd HK Hlen. pose proof (csize_bounds fs G) as [Hc _].
  assert (∀ (i : nat) k, C !! i = Some k → k ∉ drop (S i) C) as Hlast.
  { intros i k Hk Hin. rewrite <- (take_drop_middle C i k Hk) in Hnd.
    apply NoDup_app in Hnd as (_ & _ & Hnd). by apply NoDup_cons in Hnd as [? _]. }
  split.
  - apply linked_of_lookup; [done|]. intros i k Hk.
    destruct (written_at C data v i k Hk (Hlast i k Hk)) as [-> _].
    unfold next_of. by rewrite Nat2Z.id.
  - rewrite <- (concat_chunks (csize fs) data (length C) K) by (done || lia).
    unfold file_bytes. f_equal. apply list_eq. intros i. rewrite !list_lookup_fmap.
    destruct (C !! i) as [k|] eqn:Hk.
    + pose proof (lookup_lt_Some _ _ _ Hk). unfold range. rewrite lookup_seqZ_lt by lia.
      destruct (written_at C data v i k Hk (Hlast i k Hk)) as [_ Hd].
      change (Some (default [] (v_data (written C data v) !! k)) =
        Some (pad_chunk (csize fs) data (Z.of_nat i))). by rewrite Hd.
    + apply lookup_ge_None in Hk. unfold range. rewrite lookup_seqZ_ge by lia. done.
Qed.

(** The number of clusters that [len] bytes take. *)
Definition needed (len : Z) : Z := (len + csize fs - 1) / csize fs.

Lemma needed_machine (data : list Z) :
  zlen data < 2 ^ 63 →
  (if zlen data =? 0 then mret 0
   else div_rust (zlen data +₆₄ csize fs -₆₄ 1) (csize fs)) = Ret (needed (zlen data)).
Proof.
  intros Hlt. pose proof (csize_bounds fs G) as [Hc _]. pose proof (zlen_nonneg data).
  unfold needed. destruct (Z.eqb_spec (zlen data) 0) as [->|].
  - rewrite Z.div_small by lia. done.
  - nowrap. unfold div_rust. destruct (Z.eqb_spec (csize fs) 0); [lia|done].
Qed.

Lemma needed_bounds len :
  0 ≤ len → 0 ≤ needed len ∧ len ≤ needed len * csize fs ∧ (needed len - 1) * csize fs < Z.max 1 len.
Proof. intros Hl. pose proof (csize_bounds fs G) as [Hc _]. unfold needed. dlia. Qed.

Lemma write_file_data_gen v v0 k cs C data :
  vol_ok fs v → chain_ok v (k :: cs) → bytes data → zlen data < 2 ^ 63 → zlen C < 2 ^ 32 →
  (∀ j, j ∈ C → is_cluster fs j) → zlen (k :: cs) ≤ zlen C →
  vruns (extend_clusters fs (Z.to_nat (needed (zlen data))) (needed (zlen data)) (k :: cs)) v (Ok C) v0 →
  vruns (write_file_data fs k data) v (Ok tt) (written C data v0).
Proof.
  intros Hv Hch Hb Hlt HlC HC Hle Hext. unfold write_file_data. rewrite (cluster_size_machine fs G).
  eapply vruns_liftO; [by apply needed_machine|].
  eapply vruns_ok; [by apply read_chain_spec|]. eapply vruns_ok; [exact Hext|].
  eapply vruns_ok; [by apply write_chunks_spec|]. eapply vruns_ok; [by apply link_loop_spec|].
  rewrite written_eq. destruct (Z.ltb_spec (zlen C) (zlen (k :: cs))); [lia|]. apply vruns_ret.
Qed.

Lemma extend_none v fuel n C :
  n ≤ zlen C → vruns (extend_clusters fs fuel n C) v (Ok C) v.
Proof.
  intros Hn. destruct fuel; cbn [extend_clusters];
    (destruct (Z.ltb_spec (zlen C) n); [lia|]); apply vruns_ret.
Qed.

Lemma set_data_twice k b v : set_data k b (set_data k b v) = set_data k b v.
Proof. unfold set_data. cbn. by rewrite insert_insert_eq. Qed.

Lemma vol_ok_zero v k :
  vol_ok fs v → is_cluster fs k → vol_ok fs (set_data k (zrepeat (csize fs) 0) v).
Proof.
  intros [H1 H2 H3 H4] Hk. split; cbn [set_data v_fat v_data]; try done.
  - intros j. destruct (decide (j = k)) as [->|].
    + rewrite lookup_insert_eq. split; [done|by eexists].
    + by rewrite lookup_insert_ne.
  - intros j b. destruct (decide (j = k)) as [->|].
    + rewrite lookup_insert_eq. intros [= <-]. apply zeros_ok.
    + rewrite lookup_insert_ne by done. apply H4.
Qed.

(** [alloc_cluster] does not mark the cluster it returns: asked again, it returns the
    same one. *)
Lemma extend_same v fuel n C j :
  vol_ok fs v → first_free fs v j → 0 ≤ n - zlen C ≤ Z.of_nat fuel →
  zlen C < n →
  vruns (extend_clusters fs fuel n C) v
    (Ok (C ++ replicate (Z.to_nat (n - zlen C)) j)) (set_data j (zrepeat (csize fs) 0) v).
Proof.
  intros Hv Hj. assert (is_cluster fs j) as Hjc by (apply (vo_fat _ _ Hv); exists FAT32_FREE; apply Hj).
  revert C v Hv Hj. induction fuel as [|fuel IH]; intros C v Hv Hj Hf Hlt; [lia|].
  cbn [extend_clusters]. destruct (Z.ltb_spec (zlen C) n); [|lia].
  eapply vruns_ok; [by apply alloc_cluster_spec|].
  set (v1 := set_data j (zrepeat (csize fs) 0) v).
  assert (zlen (C ++ [j]) = zlen C + 1) as HlC by (rewrite zlen_app, zlen_cons, zlen_nil; lia).
  destruct (decide (zlen C + 1 = n)) as [He|Hne].
  - replace (Z.to_nat (n - zlen C)) with 1%nat by lia. change (replicate 1 j) with [j]. apply extend_none. lia.
  - replace (Z.to_nat (n - zlen C)) with (S (Z.to_nat (n - zlen (C ++ [j])))) by lia.
    cbn [replicate].
    assert (set_data j (zrepeat (csize fs) 0) v1 = v1) as Hv1 by apply set_data_twice.
    rewrite (app_assoc C [j] (replicate (Z.to_nat (n - zlen (C ++ [j]))) j)
      : C ++ j :: replicate (Z.to_nat (n - zlen (C ++ [j]))) j = _).
    specialize (IH (C ++ [j]) v1). rewrite Hv1 in IH.
    apply IH; [by apply vol_ok_zero|done|lia|lia].
Qed.

Lemma free_not_in_chain v cs j :
  vol_ok fs v → chain_ok v cs → v_fat v !! j = Some FAT32_FREE → j ∉ cs.
Proof.
  intros Hv Hch Hj Hin. eapply linked_not_free; [apply Hch|exact Hin| |exact Hj].
  intros i Hi. by destruct (chain_clusters v cs Hv Hch i Hi).
Qed.

End Files.
