(* ===== verification/FatTheorems.v ===== *)
(** * FAT32: the properties of the table, of chains and of files

    Stated on a working device [d] whose sectors represent a volume [v], for
    every well-formed geometry; the termination theorem holds for any device. *)

From stdpp Require Import base numbers list gmap strings.
From S2P Require Import Prelude ByteStr Block Bpb Fat32 Volume Files.

#[local] Open Scope Z_scope.
#[local] Open Scope rust_scope.

(** The volume that the sectors of a disk represent. *)
Definition volume_of (fs : Fat32Fs) (c : gmap Z (list Z)) : volume :=
  mkVol (list_to_map ((λ k, (k, fat_of fs c k)) <$> range 2 (nclusters fs + 2)))
    (list_to_map ((λ k, (k, cluster_of fs c k)) <$> range 2 (nclusters fs + 2))).

Lemma lookup_range_map {B} (f : Z → B) a b k :
  (list_to_map ((λ k, (k, f k)) <$> range a b) : gmap Z B) !! k =
    if decide (a ≤ k < b) then Some (f k) else None.
Proof.
  set (l := (λ k, (k, f k)) <$> range a b).
  assert (l.*1 = range a b) as Hl.
  { unfold l. rewrite <- list_fmap_compose. rewrite <- (list_fmap_id (range a b)) at 2. done. }
  case_decide as Hk.
  - apply elem_of_list_to_map; [rewrite Hl; apply NoDup_seqZ|].
    apply list_elem_of_fmap. exists k. by rewrite elem_of_range.
  - apply not_elem_of_list_to_map. by rewrite Hl, elem_of_range.
Qed.

Lemma abs_volume_of fs c : disk_ok fs c → abs fs c (volume_of fs c).
Proof.
  intros Hd. split; [done|..]; intros k; cbn; rewrite lookup_range_map; reflexivity.
Qed.

(** ** Any device: [read_chain] terminates *)

Section AnyDevice.
Context `{BlockDevice D} (fs : Fat32Fs).

(** A device whose reads end. *)
Definition reads_end : Prop := ∀ lba n d, read_sector lba n d ≠ OutOfFuel.

(** A computation that ends, and whose answers satisfy [P]. *)
Definition ends {A} (m : M D A) (P : A → Prop) : Prop :=
  ∀ d, m d ≠ OutOfFuel ∧ ∀ a d', m d = Ret (a, d') → P a.

Lemma ends_bind {A B} (m : M D A) (k : A → M D B) P Q :
  ends m P → (∀ a, P a → ends (k a) Q) → ends (m ≫= k) Q.
Proof.
  intros Hm Hk d. destruct (Hm d) as [Hne Hp]. unfold mbind, M_bind.
  destruct (m d) as [[a d1]| | |] eqn:Hrun; [|done..]. apply Hk. by eapply Hp.
Qed.

Lemma ends_ret {A} (a : A) (P : A → Prop) : P a → ends (mret a) P.
Proof. intros Ha d. split; [done|]. by intros ? ? [= <- <-]. Qed.

Lemma ends_liftO {A} (o : outcome A) : o ≠ OutOfFuel → ends (liftO o : M D A) (λ _, True).
Proof. intros Ho d. unfold liftO. by destruct o. Qed.

Lemma zget_ends {A} (l : list A) i : zget l i ≠ OutOfFuel.
Proof. revert i. induction l as [|x l IH]; intros i; cbn; [done|]. by case_match. Qed.

Lemma read_fat_entry_ends k : reads_end → ends (read_fat_entry fs k) (λ _, True).
Proof.
  intros Hr. unfold read_fat_entry. eapply ends_bind.
  { apply ends_liftO. unfold fat_position, div_rust, rem_rust. cbn. by repeat case_match. }
  intros [s o] _. eapply (ends_bind _ _ (λ _, True)).
  { unfold read_sector_buf, map_err. eapply (ends_bind _ _ (λ _, True)).
    - intros d. split; [apply Hr|done].
    - intros r _. by apply ends_ret. }
  intros [buf|e] _; [|by apply ends_ret]. eapply ends_bind; [|intros; by apply ends_ret].
  apply ends_liftO. unfold get_u32.
  repeat (match goal with |- context [zget buf ?i] =>
    pose proof (zget_ends buf i); destruct (zget buf i) end; cbn; try done).
Qed.

(** What holds of the chain read so far. *)
Definition chain_shape (cs : list Z) : Prop :=
  NoDup cs ∧ (∀ k, k ∈ cs → 2 ≤ k) ∧ zlen cs ≤ 100001.

Lemma read_chain_loop_ends fuel chain k :
  reads_end → chain_shape chain → zlen chain ≤ 100000 → k ∉ chain →
  100002 - zlen chain ≤ Z.of_nat fuel →
  ends (read_chain_loop fs fuel chain k)
    (λ r, match r with Ok cs => chain_shape cs | Err _ => True end).
Proof.
  intros Hr. revert chain k. induction fuel as [|fuel IH]; intros chain k Hc Hlen Hk Hf; [lia|].
  cbn [read_chain_loop]. destruct (Z.ltb_spec k 2); [by apply ends_ret|].
  assert (zlen (chain ++ [k]) = zlen chain + 1) as Hl by (rewrite zlen_app, zlen_cons, zlen_nil; lia).
  assert (chain_shape (chain ++ [k])) as Hc'.
  { destruct Hc as (Hnd & Hge & _). split_and!; [|set_solver by lia|lia].
    apply NoDup_app. split_and!; [done| |apply NoDup_singleton]. set_solver. }
  eapply ends_bind; [by apply read_fat_entry_ends|]. intros [next|e] _; [|by apply ends_ret].
  destruct ((FAT32_EOC <=? next) || (next =? FAT32_BAD) || (next =? 0)); [by apply ends_ret|].
  destruct ((next <? 2) || (next =? k)); [by apply ends_ret|].
  unfold contains. case_bool_decide as Hin; [by apply ends_ret|].
  destruct (Z.ltb_spec 100000 (zlen (chain ++ [k]))); [by apply ends_ret|].
  apply IH; (done || lia).
Qed.

(** C15. Termination: [read_chain] ends on every table, cyclic or corrupt, and what it
    returns is a list of at most 100001 distinct cluster numbers. *)
Theorem read_chain_terminates start d :
  reads_end →
  read_chain fs start d ≠ OutOfFuel ∧
  ∀ cs d', read_chain fs start d = Ret (Ok cs, d') →
    NoDup cs ∧ (∀ k, k ∈ cs → 2 ≤ k) ∧ zlen cs ≤ 100001.
Proof.
  intros Hr. destruct (read_chain_loop_ends CHAIN_FUEL [] start Hr) with (d := d) as [Hne Hp].
  - split_and!; [constructor|set_solver|done].
  - done.
  - set_solver.
  - unfold CHAIN_FUEL. change (zlen (@nil Z)) with 0. lia.
  - split; [exact Hne|]. intros cs d' Hrun. exact (Hp (Ok cs) d' Hrun).
Qed.
End AnyDevice.

(** ** A working device *)

Section Theorems.
Context `{BlockDeviceLaws D} (fs : Fat32Fs).

(** C17. A table entry written is the entry read back, in 28 bits; every other entry
    and every cluster keeps its value, the upper four bits of the stored word are
    kept, and all copies of the table agree on the sector. *)
Theorem fat_entry_round_trip d v k x :
  geometry fs → working d → abs fs (content d) v → is_cluster fs k →
  ∃ d', write_fat_entry fs k x d = Ret (Ok tt, d') ∧ working d' ∧
    (∀ k' y, v_fat v !! k' = Some y →
       ∃ d'', read_fat_entry fs k' d' =
         Ret (Ok (if decide (k' = k) then x mod 2 ^ 28 else y), d'')) ∧
    abs fs (content d') (set_fat k (x mod 2 ^ 28) v) ∧
    Z.land (fat_raw fs (content d') k) 0xF0000000 = Z.land (fat_raw fs (content d) k) 0xF0000000 ∧
    ∀ i, 0 ≤ i < num_fats (bpb fs) →
      content d' !! fat_copy_addr fs i k = content d' !! fat_addr fs k.
Proof.
  intros G Hw Habs Hk.
  destruct (write_fat_entry_spec fs G _ v k x Habs Hk) as (c' & Hrun & Habs' & Hraw & Hcopy).
  destruct (Hrun d Hw eq_refl) as (d' & Hd' & Hw' & Hc'). rewrite land_28 in Habs'.
  rewrite <- Hc' in Habs', Hraw, Hcopy.
  exists d'. split; [done|]. split; [done|]. split; [|split; [done|split; [|done]]].
  - intros k' y Hy.
    assert (v_fat (set_fat k (x mod 2 ^ 28) v) !! k' =
      Some (if decide (k' = k) then x mod 2 ^ 28 else y)) as Hl.
    { cbn. case_decide as He; [subst; apply lookup_insert_eq|by rewrite lookup_insert_ne]. }
    destruct (vruns_read_fat fs G _ _ _ Hl d' Hw' Habs') as (d'' & Hr & _). by exists d''.
  - rewrite Hraw. apply Z.bits_inj'. intros i Hi. rewrite !Z.land_spec, Z.lor_spec, !Z.land_spec.
    change 0x0FFFFFFF with (Z.ones 28). change 0xF0000000 with (Z.shiftl (Z.ones 4) 28).
    rewrite Z.shiftl_spec, !Z.testbit_ones by lia.
    destruct (Z.leb_spec 0 (i - 28)), (Z.ltb_spec (i - 28) 4), (Z.leb_spec 0 i), (Z.ltb_spec i 28);
      try lia; by destruct (Z.testbit (fat_raw fs (content d) k) i), (Z.testbit x i).
Qed.

(** A cluster written is the cluster read back; every other cluster and the whole
    table are unchanged. *)
Theorem cluster_round_trip d v k buf :
  geometry fs → working d → abs fs (content d) v → is_cluster fs k →
  zlen buf = csize fs → bytes buf →
  ∃ d', write_cluster fs k buf d = Ret (Ok tt, d') ∧ working d' ∧
    abs fs (content d') (set_data k buf v) ∧
    ∀ k' b, v_data v !! k' = Some b →
      ∃ d'', read_cluster fs k' (zrepeat (csize fs) 0) d' =
        Ret (Ok (if decide (k' = k) then buf else b), d'').
Proof.
  intros G Hw Habs Hk Hz Hb.
  destruct (vruns_write_cluster fs G v k buf Hk Hz Hb d Hw Habs) as (d' & Hrun & Hw' & Habs').
  exists d'. split; [done|]. split; [done|]. split; [done|]. intros k' b Hk'.
  assert (v_data (set_data k buf v) !! k' = Some (if decide (k' = k) then buf else b)) as Hl.
  { cbn. case_decide as He; [subst; apply lookup_insert_eq|by rewrite lookup_insert_ne]. }
  destruct (vruns_read_cluster fs G _ _ _ (zrepeat (csize fs) 0) Hl) with (d := d')
    as (d'' & Hr & _); [apply (zeros_ok fs G)|done..|]. by exists d''.
Qed.

(** [read_chain] returns the linked list of the table, in order, and reads only. *)
Theorem read_chain_follows d v k cs :
  geometry fs → working d → abs fs (content d) v → chain_ok v (k :: cs) →
  ∃ d', read_chain fs k d = Ret (Ok (k :: cs), d') ∧ working d' ∧ abs fs (content d') v.
Proof.
  intros G Hw Habs Hch. apply read_chain_spec; try done. by eapply abs_vol_ok.
Qed.

(** [alloc_cluster] returns the lowest free cluster and zeroes it, leaving the table
    as it was, or fails without a write exactly when the table has no free entry. *)
Theorem alloc_cluster_lowest d v :
  geometry fs → working d → abs fs (content d) v →
  (∃ k d', first_free fs v k ∧ alloc_cluster fs d = Ret (Ok k, d') ∧ working d' ∧
     abs fs (content d') (set_data k (zrepeat (csize fs) 0) v)) ∨
  (∃ d', table_full v ∧ alloc_cluster fs d = Ret (Err "No free clusters", d') ∧
     working d' ∧ abs fs (content d') v).
Proof.
  intros G Hw Habs. pose proof (abs_vol_ok fs G _ _ Habs) as Hv.
  destruct (first_free_or_full fs v Hv) as [[k Hk]|Hfull].
  - left. destruct (alloc_cluster_spec fs G v k Hv Hk d Hw Habs) as (d' & ? & ? & ?). by exists k, d'.
  - right. destruct (alloc_cluster_full fs G v Hv Hfull d Hw Habs) as (d' & ? & ? & ?). by exists d'.
Qed.

(** The clusters a file of [len] bytes ends on when it starts on the chain [cs] and
    the lowest free cluster is [j]. *)
Definition grown (cs : list Z) (j len : Z) : list Z :=
  if needed fs len <=? zlen cs then cs else cs ++ [j].

Lemma grown_nodup v cs j len :
  vol_ok fs v → chain_ok v cs → first_free fs v j → NoDup (grown cs j len).
Proof.
  intros Hv Hch Hj. unfold grown. case_match; [apply Hch|]. apply NoDup_app.
  split_and!; [apply Hch| |apply NoDup_singleton]. intros k Hk ->%list_elem_of_singleton.
  revert Hk. eapply free_not_in_chain; [done..|apply Hj].
Qed.

(** C4. Round trip: data that needs at most one cluster more than the file has is
    written completely; the file's chain is kept or extended by the lowest free
    cluster, reading it back gives the data, and clusters outside the chain keep their
    table entries and bytes. *)
Theorem write_read_file d v k cs j data :
  geometry fs → working d → abs fs (content d) v → chain_ok v (k :: cs) → first_free fs v j →
  bytes data → 0 < zlen data < 2 ^ 32 → needed fs (zlen data) ≤ zlen (k :: cs) + 1 →
  zlen (k :: cs) < 100000 →
  ∃ d' v', write_file_data fs k data d = Ret (Ok tt, d') ∧ working d' ∧
    abs fs (content d') v' ∧ chain_ok v' (grown (k :: cs) j (zlen data)) ∧
    (∃ d'', read_file fs k (zlen data) (zrepeat (zlen data) 0) d' = Ret (Ok (data, zlen data), d'')) ∧
    ∀ i, i ∉ grown (k :: cs) j (zlen data) →
      v_fat v' !! i = v_fat v !! i ∧ v_data v' !! i = v_data v !! i.
Proof.
  intros G Hw Habs Hch Hj Hb Hlen Hneed Hshort.
  pose proof (abs_vol_ok fs G _ _ Habs) as Hv. pose proof (csize_bounds fs G) as [Hcs _].
  pose proof (grown_nodup v (k :: cs) j (zlen data) Hv Hch Hj) as Hnd.
  destruct (needed_bounds fs G (zlen data)) as (Hn0 & Hn1 & Hn2); [lia|].
  assert (is_cluster fs j) as Hjc by (apply (vo_fat _ _ Hv); exists FAT32_FREE; apply Hj).
  set (C := grown (k :: cs) j (zlen data)) in *.
  assert (∀ i, i ∈ C → is_cluster fs i) as HC.
  { intros i. unfold C, grown. case_match; [by eapply chain_clusters|].
    intros [Hi| ->%list_elem_of_singleton]%elem_of_app; [by eapply chain_clusters|done]. }
  assert (∃ rest, C = k :: rest) as [rest HCk] by (unfold C, grown; case_match; by eexists).
  assert (zlen (k :: cs) ≤ zlen C ∧ needed fs (zlen data) ≤ zlen C ∧ zlen C ≤ 100000) as (HlC & HnC & HsC).
  { unfold C, grown. destruct (Z.leb_spec (needed fs (zlen data)) (zlen (k :: cs)));
      rewrite ?zlen_app, ?(zlen_cons j), ?zlen_nil; split_and!; try lia; done. }
  assert (∃ v0, vruns fs (extend_clusters fs (Z.to_nat (needed fs (zlen data)))
      (needed fs (zlen data)) (k :: cs)) v (Ok C) v0 ∧ v_fat v0 = v_fat v ∧
      ∀ i, i ∉ C → v_data v0 !! i = v_data v !! i) as (v0 & Hext & Hf0 & Hd0).
  { unfold C, grown. destruct (Z.leb_spec (needed fs (zlen data)) (zlen (k :: cs))) as [Hle|Hgt].
    - exists v. split; [by apply extend_none|done].
    - exists (set_data j (zrepeat (csize fs) 0) v). split; [|split; [done|]].
      + replace [j] with (replicate (Z.to_nat (needed fs (zlen data) - zlen (k :: cs))) j).
        * apply extend_same; (done || lia).
        * by replace (Z.to_nat (needed fs (zlen data) - zlen (k :: cs))) with 1%nat by lia.
      + intros i Hi. cbn. apply lookup_insert_ne. set_solver. }
  pose proof (write_file_data_gen fs G v v0 k cs C data Hv Hch Hb ltac:(lia) ltac:(lia) HC HlC Hext) as Hrun.
  destruct (Hrun d Hw Habs) as (d' & Hd' & Hw' & Habs').
  set (v' := written fs C data v0) in *.
  destruct (written_chain fs G C data v0 (zlen C * csize fs - zlen data)) as [Hlink Hbytes];
    [by rewrite HCk|done|nia|lia|].
  exists d', v'. split; [done|]. split; [done|]. split; [done|].
  assert (chain_ok v' C) as Hch' by (split; done).
  split; [done|]. split.
  - fold v' in Hbytes. destruct (read_file_spec fs G v' k rest (zlen data) (zrepeat (zlen data) 0)) with (d := d')
      as (d'' & Hr & _); [by eapply abs_vol_ok|by rewrite <- HCk|lia|done..|].
    exists d''. rewrite <- HCk, Hbytes in Hr. rewrite Hr. clear -Hlen.
    set (K := _ - _). unfold read_result.
    assert (read_count (zlen data) (zrepeat (zlen data) 0) (data ++ zrepeat K 0) = zlen data) as ->.
    { unfold read_count. rewrite zlen_repeat, zlen_app by lia. pose proof (zlen_nonneg (zrepeat K 0)). lia. }
    unfold zlen, zrepeat. rewrite !Nat2Z.id, take_app_length, drop_ge, app_nil_r; [done|].
    rewrite length_replicate. lia.
  - intros i Hi. destruct (written_other fs C data v0 i Hi) as [H1' H2'].
    unfold v'. rewrite H1', H2', Hf0. split; [done|]. by apply Hd0.
Qed.

(** Data that needs two or more additional clusters is corrupted: the allocator
    hands out the same cluster again and again, so the write reports success but the
    chain grows by one cluster only, and a read returns fewer bytes than were written. *)
Theorem write_file_truncates d v k cs j data :
  geometry fs → working d → abs fs (content d) v → chain_ok v (k :: cs) → first_free fs v j →
  bytes data → zlen data < 2 ^ 32 → zlen (k :: cs) + 2 ≤ needed fs (zlen data) →
  zlen (k :: cs) < 100000 →
  ∃ d' d'' buf n, write_file_data fs k data d = Ret (Ok tt, d') ∧
    read_file fs k (zlen data) (zrepeat (zlen data) 0) d' = Ret (Ok (buf, n), d'') ∧
    n = (zlen (k :: cs) + 1) * csize fs ∧ n < zlen data.
Proof.
  intros G Hw Habs Hch Hj Hb Hlen Hneed Hshort.
  pose proof (abs_vol_ok fs G _ _ Habs) as Hv. pose proof (csize_bounds fs G) as [Hcs _].
  pose proof (zlen_nonneg data). pose proof (zlen_nonneg (k :: cs)) as Hkc.
  destruct (needed_bounds fs G (zlen data)) as (Hn0 & Hn1 & Hn2); [lia|].
  assert (is_cluster fs j) as Hjc by (apply (vo_fat _ _ Hv); exists FAT32_FREE; apply Hj).
  set (m := Z.to_nat (needed fs (zlen data) - zlen (k :: cs))).
  assert (∃ m', m = S (S m')) as [m' Hm] by (exists (m - 2)%nat; lia).
  set (C := (k :: cs) ++ replicate m j).
  assert (zlen C = needed fs (zlen data)) as HlC.
  { unfold C. rewrite zlen_app. unfold zlen at 2. rewrite length_replicate. lia. }
  assert (∀ i, i ∈ C → is_cluster fs i) as HC.
  { intros i [Hi|[-> _]%elem_of_replicate]%elem_of_app; [by eapply chain_clusters|done]. }
  pose proof (extend_same fs G v (Z.to_nat (needed fs (zlen data))) (needed fs (zlen data))
    (k :: cs) j Hv Hj ltac:(lia) ltac:(lia)) as Hext. fold m in Hext. fold C in Hext.
  set (v0 := set_data j (zrepeat (csize fs) 0) v) in *.
  assert (needed fs (zlen data) < 2 ^ 32) as HnC by nia.
  pose proof (write_file_data_gen fs G v v0 k cs C data Hv Hch Hb ltac:(lia) ltac:(lia) HC
    ltac:(lia) Hext) as Hrun.
  destruct (Hrun d Hw Habs) as (d' & Hd' & Hw' & Habs').
  set (v' := written fs C data v0) in *. pose proof (abs_vol_ok fs G _ _ Habs') as Hv'.
  assert (j ∉ k :: cs) as Hjn by (exact (free_not_in_chain fs v (k :: cs) j Hv Hch (proj1 Hj))).
  assert (chain_ok v' ((k :: cs) ++ [j])) as Hch'.
  { split.
    - apply linked_of_lookup; [done|]. intros i x Hx.
      destruct (decide (i < length (k :: cs))%nat) as [Hi|Hi].
      + rewrite lookup_app_l in Hx by done.
        destruct (written_at fs C data v0 i x) as [Hat _]; [| |fold v' in Hat; rewrite Hat; clear Hat].
        * unfold C. by rewrite lookup_app_l.
        * unfold C. rewrite drop_app_le by lia. rewrite elem_of_app. intros [Hin|[-> _]%elem_of_replicate].
          -- pose proof (ch_nodup _ _ Hch) as Hnd. rewrite <- (take_drop_middle _ i x Hx) in Hnd.
             apply NoDup_app in Hnd as (_ & _ & Hnd). by apply NoDup_cons in Hnd as [? _].
          -- by apply list_elem_of_lookup_2 in Hx.
        * unfold next_of. rewrite Nat2Z.id. f_equal. f_equal. unfold C.
          destruct (decide (S i < length (k :: cs))%nat).
          -- by rewrite !lookup_app_l.
          -- rewrite !lookup_app_r by lia. rewrite Hm. by replace (S i - length (k :: cs))%nat with 0%nat by lia.
      + assert (i = length (k :: cs) ∧ x = j) as [-> ->].
        { pose proof (lookup_lt_Some _ _ _ Hx) as Hl. rewrite length_app in Hl. cbn [length] in Hl, Hi.
          assert (i = length (k :: cs)) as -> by (cbn [length]; lia). split; [done|].
          rewrite lookup_app_r, Nat.sub_diag in Hx by done. by injection Hx. }
        destruct (written_at fs C data v0 (length (k :: cs) + (m - 1)) j) as [Hat _];
          [| |fold v' in Hat; rewrite Hat; clear Hat].
        * unfold C. rewrite lookup_app_r by lia. apply lookup_replicate_2. lia.
        * unfold C. rewrite drop_ge; [set_solver|]. rewrite length_app, length_replicate. lia.
        * unfold next_of. rewrite Nat2Z.id. f_equal. f_equal.
          rewrite !lookup_ge_None_2; [done|rewrite length_app; cbn [length]; lia|].
          unfold C. rewrite length_app, length_replicate. lia.
    - apply NoDup_app. split_and!; [apply Hch| |apply NoDup_singleton].
      intros x Hx ->%list_elem_of_singleton. done.
    - rewrite zlen_app, (zlen_cons j), zlen_nil. lia. }
  assert (zlen (file_bytes v' ((k :: cs) ++ [j])) = (zlen (k :: cs) + 1) * csize fs) as Hfb.
  { assert (∀ l, (∀ x, x ∈ l → is_cluster fs x) → zlen (file_bytes v' l) = zlen l * csize fs) as Hfl.
    { induction l as [|x l IH]; intros Hl; [done|].
      destruct (proj2 (vo_data _ _ Hv' x) (Hl x ltac:(left))) as [b Hxb].
      rewrite (file_bytes_cons v' x l b Hxb), zlen_app, zlen_cons, IH by (intros; apply Hl; by right).
      destruct (vo_bytes _ _ Hv' x b Hxb). lia. }
    rewrite Hfl, zlen_app, (zlen_cons j), zlen_nil; [lia|]. by eapply chain_clusters. }
  destruct (read_file_spec fs G v' k (cs ++ [j]) (zlen data) (zrepeat (zlen data) 0)) with (d := d')
    as (d'' & Hr & _); [done..|].
  eexists d', d'', _, _. split; [done|]. split; [exact Hr|].
  change (k :: cs ++ [j]) with ((k :: cs) ++ [j]). unfold read_count. rewrite Hfb, zlen_repeat by lia.
  split; nia.
Qed.

(** C16. [free_chain] marks exactly the clusters of the chain free, all of them, and
    writes no data cluster. *)
Theorem free_chain_frees d v k cs :
  geometry fs → working d → abs fs (content d) v → chain_ok v (k :: cs) →
  ∃ d' v', free_chain fs k d = Ret (Ok tt, d') ∧ working d' ∧ abs fs (content d') v' ∧
    v_data v' = v_data v ∧
    ∀ i, v_fat v' !! i = if decide (i ∈ k :: cs) then Some FAT32_FREE else v_fat v !! i.
Proof.
  intros G Hw Habs Hch. pose proof (abs_vol_ok fs G _ _ Habs) as Hv.
  assert (∀ l w, vruns fs (mfor_res l (λ cluster, write_fat_entry fs cluster FAT32_FREE)) w (Ok tt)
    (foldl (λ w i, set_fat i FAT32_FREE w) w l) ∨ ∃ i, i ∈ l ∧ ¬ is_cluster fs i) as Hloop.
  { intros l w. destruct (decide (Forall (is_cluster fs) l)) as [Hl|Hl].
    - left. apply vruns_mfor_res. intros i u Hi. rewrite Forall_forall in Hl.
      apply vruns_write_fat; [done|by apply Hl|unfold FAT32_FREE; lia].
    - right. apply not_Forall_Exists in Hl; [|apply _]. by apply Exists_exists in Hl. }
  destruct (Hloop (k :: cs) v) as [Hrun|(i & Hi & Hn)];
    [|by destruct Hn; eapply chain_clusters].
  assert (vruns fs (free_chain fs k) v (Ok tt) (foldl (λ w i, set_fat i FAT32_FREE w) v (k :: cs)))
    as Hfree by (eapply vruns_ok; [by apply read_chain_spec|exact Hrun]).
  destruct (Hfree d Hw Habs) as (d' & Hd' & Hw' & Habs').
  rewrite (foldl_set_fat (λ i, i) (λ _, FAT32_FREE)) in Habs'.
  eexists d', _. split; [done|]. split; [done|]. split; [exact Habs'|]. split; [done|].
  cbn [v_fat]. clear. intros i. generalize (v_fat v) as f. generalize (k :: cs) as l.
  induction l as [|x l IH]; intros f; cbn [foldl]; [done|].
  rewrite IH. destruct (decide (i ∈ l)) as [Hin|Hin].
  - rewrite decide_True by (by right). done.
  - destruct (decide (i = x)) as [->|Hne].
    + rewrite decide_True by left. apply lookup_insert_eq.
    + rewrite decide_False by (rewrite elem_of_cons; naive_solver). by apply lookup_insert_ne.
Qed.
End Theorems.

(** ** On-disk structures *)

(** Directory entries and their 32 bytes determine each other: encoding then decoding
    is the identity on entries, decoding then encoding on bytes. *)
Theorem dir_entry_codec :
  (∀ e, entry_wf e → length (encode_entry e) = 32%nat ∧ bytes (encode_entry e) ∧
     decode_entry (encode_entry e) = e) ∧
  (∀ l, length l = 32%nat → bytes l → entry_wf (decode_entry l) ∧
     encode_entry (decode_entry l) = l).
Proof.
  split.
  - intros e He. split_and!; [by apply length_encode_entry|by apply encode_entry_bytes|by apply decode_encode].
  - intros l Hl Hb. split; [by apply decode_wf|by apply encode_decode].
Qed.

Lemma push_until_pad_full l :
  Forall name_char l → push_until_pad (λ b, b) l = l.
Proof.
  intros Hl. pose proof (push_until_pad_stop l 0 Hl) as Hp. cbn in Hp. by rewrite app_nil_r in Hp.
Qed.

(** Names: a name that fits 8.3 is stored and read back unchanged; a base name of
    more than eight characters is stored truncated, so that the entry never matches the
    name it was created for. *)
Theorem name_83_storage e :
  (∀ name, short_name name →
     ∃ e', set_name_83 name e = Ret e' ∧ full_name_upper e' = name) ∧
  (∀ base, (8 < length base)%nat → zlen base < 2 ^ 32 → Forall name_char base →
     ∃ e', set_name_83 base e = Ret e' ∧ full_name_upper e' = take 8 base ∧
       full_name_upper e' ≠ base).
Proof.
  split.
  - intros name Hs. destruct (set_name_83_short name e Hs) as (b & x & Hrun & _).
    eexists. split; [exact Hrun|]. by eapply full_name_upper_set.
  - intros base Hl H32 Hb. unfold set_name_83. rewrite dot_position_none by (by apply name_char_no_dot).
    rewrite zslice_all. cbn [mbind outcome_bind]. rewrite Z.min_r by (unfold zlen; lia).
    rewrite (zslice_ok base 0 8) by (unfold zlen; lia). cbn [mbind outcome_bind].
    rewrite zcopy_pad by (rewrite length_take; lia). cbn [mbind outcome_bind].
    rewrite wrap64_small by (unfold zlen in *; lia).
    destruct (Z.ltb_spec (zlen base) (zlen base - 1)); [lia|].
    eexists. split; [reflexivity|]. unfold full_name_upper, join_name.
    cbn [set_names de_name de_ext]. change (Z.to_nat (8 - 0)) with 8%nat. rewrite drop_0.
    rewrite push_until_pad_stop by (by apply Forall_take). cbn. rewrite app_nil_r.
    split; [done|]. intros He. apply (f_equal length) in He. rewrite length_take in He. lia.
Qed.

(** Mounting accepts a boot sector exactly when it is at least 90 bytes long, has a
    32-bit table size only, and carries the FAT32 label; nothing else is checked, so
    that a sector size of zero is accepted and the first table access then divides by
    zero. *)
Theorem mount_checks sector :
  match Bpb_from_bytes sector with
  | Some b => b = read_bpb sector ∧ 90 ≤ zlen sector ∧ fat_size_16 b = 0 ∧ fat_size_32 b ≠ 0 ∧
      utf8_valid (fs_type b) = true ∧ take 5 (fs_type b) = bytes_of "FAT32"
  | None => zlen sector < 90 ∨ fat_size_16 (read_bpb sector) ≠ 0 ∨
      fat_size_32 (read_bpb sector) = 0 ∨ utf8_valid (fs_type (read_bpb sector)) = false ∨
      take 5 (fs_type (read_bpb sector)) ≠ bytes_of "FAT32"
  end.
Proof.
  unfold Bpb_from_bytes. destruct (Z.ltb_spec (zlen sector) 90); [by left|].
  destruct (Z.eqb_spec (fat_size_16 (read_bpb sector)) 0); cbn [negb]; [|by right; left].
  destruct (Z.eqb_spec (fat_size_32 (read_bpb sector)) 0); [by right; right; left|].
  unfold starts_with. destruct (utf8_valid (fs_type (read_bpb sector))) eqn:Hu.
  - case_bool_decide as Hs; cbn [negb]; [by split_and!|]. by repeat right.
  - rewrite bool_decide_eq_false_2 by done. cbn [negb]. by right; right; right; left.
Qed.

(** With a sector size below four bytes, which mounting accepts, every table access
    panics. *)
Theorem tiny_sector_panics `{BlockDevice D} fs k (d : D) :
  bytes_per_sector (bpb fs) < 4 → 0 ≤ bytes_per_sector (bpb fs) →
  read_fat_entry fs k d = Panic ∧ write_fat_entry fs k 0 d = Panic.
Proof.
  intros Hb Hb0. assert (fat_position fs k = Panic) as Hp.
  { unfold fat_position, div_rust. by rewrite (Z.div_small (bytes_per_sector (bpb fs)) 4) by lia. }
  unfold read_fat_entry, write_fat_entry, mbind, M_bind, liftO. by rewrite Hp.
Qed.

(** ** Witnesses: a RAM disk of fifteen 32-byte sectors *)

Definition w_bpb : Fat32Bpb :=
  mkBpb [] [] 32 1 1 2 0 0 0 0 0 0 0 15 2 0 0 2 0 0 [] 0 0 0 0 [] [].
Definition w_fs : Fat32Fs := mkFat32Fs w_bpb 0.

(** Clusters 2 and 3 form a chain, the others are free. *)
Definition w_table : list Z :=
  [0; 0; 0; 0; 0; 0; 0; 0; 3; 0; 0; 0; 0xF8; 0xFF; 0xFF; 0xAF] ++ replicate 16 0.
Definition w_disk : RamDisk :=
  list_to_map (imap (λ i b, (Z.of_nat i, b))
    (replicate 32 1 :: w_table :: replicate 32 0 :: w_table :: replicate 11 (replicate 32 0))).

Lemma w_geometry : geometry w_fs.
Proof. split; vm_compute; repeat split; done. Qed.

Lemma w_disk_ok : disk_ok w_fs w_disk.
Proof.
  assert (Forall (λ s, ∃ bs, w_disk !! s = Some bs ∧ zlen bs = 32 ∧ bytes bs) (range 0 15)) as Hall.
  { change (range 0 15) with [0;1;2;3;4;5;6;7;8;9;10;11;12;13;14].
    repeat constructor; (eexists; split; [vm_compute; reflexivity|]; split; [reflexivity|];
      apply (bool_decide_unpack _); vm_compute; reflexivity). }
  intros s Hs. rewrite Forall_forall in Hall. apply Hall, elem_of_range. exact Hs.
Qed.

Definition w_vol : volume := volume_of w_fs w_disk.

Lemma w_abs : abs w_fs (content w_disk) w_vol.
Proof. apply abs_volume_of, w_disk_ok. Qed.

Lemma w_chain : chain_ok w_vol [2; 3].
Proof.
  split.
  - cbn [linked]. split; [vm_compute; reflexivity|]. exists 0x0FFFFFF8.
    split; [vm_compute; reflexivity|]. done.
  - apply (bool_decide_unpack _). vm_compute. reflexivity.
  - done.
Qed.

Lemma w_free : first_free w_fs w_vol 4.
Proof.
  split; [vm_compute; reflexivity|]. intros j x Hj.
  assert (j = 2 ∨ j = 3) as [-> | ->] by lia; vm_compute; by intros [= <-].
Qed.

Lemma w_working : working w_disk.
Proof. exact I. Qed.

Lemma read_chain_terminates_witness :
  read_chain w_fs 2 w_disk ≠ OutOfFuel ∧
  ∀ cs d', read_chain w_fs 2 w_disk = Ret (Ok cs, d') →
    NoDup cs ∧ (∀ k, k ∈ cs → 2 ≤ k) ∧ zlen cs ≤ 100001.
Proof.
  apply (read_chain_terminates w_fs 2 w_disk). intros lba n d. cbn. by repeat case_match.
Defined.

Lemma fat_entry_round_trip_witness :
  ∃ d' : RamDisk, write_fat_entry w_fs 5 0xF2345678 w_disk = Ret (Ok tt, d') ∧
    ∃ d'', read_fat_entry w_fs 5 d' = Ret (Ok 0x2345678, d'').
Proof.
  destruct (fat_entry_round_trip w_fs w_disk w_vol 5 0xF2345678 w_geometry w_working w_abs)
    as (d' & Hrun & _ & Hread & _); [done|].
  exists d'. split; [exact Hrun|]. apply (Hread 5 0). vm_compute. reflexivity.
Defined.

Lemma cluster_round_trip_witness :
  ∃ d' : RamDisk, write_cluster w_fs 6 (replicate 32 7) w_disk = Ret (Ok tt, d') ∧
    ∃ d'', read_cluster w_fs 6 (zrepeat (csize w_fs) 0) d' = Ret (Ok (replicate 32 7), d'').
Proof.
  destruct (cluster_round_trip w_fs w_disk w_vol 6 (replicate 32 7) w_geometry w_working w_abs)
    as (d' & Hrun & _ & _ & Hread);
    [done|done|apply (bool_decide_unpack _); vm_compute; reflexivity|].
  exists d'. split; [exact Hrun|]. apply (Hread 6 (replicate 32 0)). vm_compute. reflexivity.
Defined.

Lemma read_chain_follows_witness :
  ∃ d' : RamDisk, read_chain w_fs 2 w_disk = Ret (Ok [2; 3], d').
Proof.
  destruct (read_chain_follows w_fs w_disk w_vol 2 [3] w_geometry w_working w_abs w_chain) as (d' & Hrun & _).
  exists d'. exact Hrun.
Defined.

Lemma alloc_cluster_lowest_witness :
  ∃ k (d' : RamDisk), alloc_cluster w_fs w_disk = Ret (Ok k, d').
Proof.
  destruct (alloc_cluster_lowest w_fs w_disk w_vol w_geometry w_working w_abs)
    as [(k & d' & _ & Hrun & _)|(d' & Hfull & _)]; [by exists k, d'|].
  destruct (Hfull 4 0); [vm_compute; reflexivity|done].
Defined.

Definition w_data (n : nat) : list Z := replicate n 9.

Lemma w_data_bytes n : bytes (w_data n).
Proof. apply Forall_replicate. unfold is_byte. lia. Qed.

Lemma write_read_file_witness :
  ∃ d' d'' : RamDisk, write_file_data w_fs 2 (w_data 70) w_disk = Ret (Ok tt, d') ∧
    read_file w_fs 2 70 (zrepeat 70 0) d' = Ret (Ok (w_data 70, 70), d'').
Proof.
  destruct (write_read_file w_fs w_disk w_vol 2 [3] 4 (w_data 70) w_geometry w_working w_abs w_chain w_free)
    as (d' & v' & Hrun & _ & _ & _ & (d'' & Hr) & _); [apply w_data_bytes|done..|].
  exists d', d''. split; [exact Hrun|exact Hr].
Defined.

Lemma write_file_truncates_witness :
  ∃ (d' d'' : RamDisk) buf, write_file_data w_fs 2 (w_data 100) w_disk = Ret (Ok tt, d') ∧
    read_file w_fs 2 100 (zrepeat 100 0) d' = Ret (Ok (buf, 96), d'').
Proof.
  destruct (write_file_truncates w_fs w_disk w_vol 2 [3] 4 (w_data 100) w_geometry w_working w_abs w_chain w_free)
    as (d' & d'' & buf & n & Hrun & Hr & Hn & _); [apply w_data_bytes|done..|].
  exists d', d'', buf. split; [exact Hrun|]. change (_ * _) with 96 in Hn. rewrite <- Hn. exact Hr.
Defined.

Lemma free_chain_frees_witness :
  ∃ (d' : RamDisk) v', free_chain w_fs 2 w_disk = Ret (Ok tt, d') ∧
    v_fat v' !! 3 = Some FAT32_FREE.
Proof.
  destruct (free_chain_frees w_fs w_disk w_vol 2 [3] w_geometry w_working w_abs w_chain)
    as (d' & v' & Hrun & _ & _ & _ & Hf).
  exists d', v'. split; [exact Hrun|]. rewrite Hf. reflexivity.
Defined.

Lemma tiny_sector_panics_witness :
  read_fat_entry (mkFat32Fs (read_bpb (replicate 90 0)) 0) 2 w_disk = Panic ∧
  write_fat_entry (mkFat32Fs (read_bpb (replicate 90 0)) 0) 2 0 w_disk = Panic.
Proof. apply tiny_sector_panics; done. Defined.
