(* ===== verification/Dir.v ===== *)
(** * FAT32 directories (kernel/src/fs/fat32/dir.rs)

    A directory is a chain of clusters of 32-byte entries, ended by an entry
    whose first byte is zero. *)

From stdpp Require Import base numbers list gmap strings.
From S2P Require Import Prelude ByteStr Block Bpb Fat32.

#[local] Open Scope Z_scope.
#[local] Open Scope rust_scope.

Record DirEntryInfo := mkDirInfo {
  di_name : list Z;
  di_is_dir : bool;
  di_size : Z;
  di_cluster : Z;
}.

#[export] Instance DirEntryInfo_eq_dec : EqDecision DirEntryInfo.
Proof. solve_decision. Defined.

(** [read_unaligned(buf[offset..].as_ptr() as *const Fat32DirEntry)] *)
Definition read_entry (buf : list Z) (offset : Z) : outcome Fat32DirEntry :=
  if zlen buf <? offset then Panic
  else if zlen buf <? offset + 32 then UB
  else Ret (decode_entry (take 32 (drop (Z.to_nat offset) buf))).

(** The entries that are not files or directories. *)
Definition skip_entry (e : Fat32DirEntry) : bool :=
  is_deleted e || is_long_name e || is_volume_label e.

(** ** One cluster

    The loops [for i in 0..entries_per_cluster] over a cluster read into [buf]. *)

(** [read_dir_entries]: was the end of the directory reached, and the entries. *)
Fixpoint scan_listing (buf : list Z) (l : list Z) (acc : list DirEntryInfo) :
    outcome (bool * list DirEntryInfo) :=
  match l with
  | [] => mret (false, acc)
  | i :: l =>
      let offset := i * 32 in
      entry ← read_entry buf offset;
      if is_end entry then mret (true, acc) else
      if is_deleted entry then scan_listing buf l acc else
      if is_long_name entry then scan_listing buf l acc else
      if is_volume_label entry then scan_listing buf l acc else
      let name := from_utf8_lossy (full_name entry) in
      if bool_decide (name = bytes_of ".") || bool_decide (name = bytes_of "..")
      then scan_listing buf l acc
      else scan_listing buf l
             (acc ++ [mkDirInfo name (is_directory entry) (de_file_size entry) (first_cluster entry)])
  end.

Inductive scan :=
  | ScanNext
  | ScanEnd
  | ScanHit (offset : Z) (entry : Fat32DirEntry).

(** [find_entry] and [remove_entry]: the first entry with the given name. *)
Fixpoint scan_find (buf : list Z) (name_upper : list Z) (l : list Z) : outcome scan :=
  match l with
  | [] => mret ScanNext
  | i :: l =>
      let offset := i * 32 in
      entry ← read_entry buf offset;
      if is_end entry then mret ScanEnd else
      if is_deleted entry || is_long_name entry || is_volume_label entry
      then scan_find buf name_upper l else
      if bool_decide (full_name_upper entry = name_upper) then mret (ScanHit offset entry)
      else scan_find buf name_upper l
  end.

(** [add_entry]: the offset of the first free slot. *)
Fixpoint scan_slot (buf : list Z) (l : list Z) : outcome (option Z) :=
  match l with
  | [] => mret None
  | i :: l =>
      let offset := i * 32 in
      entry ← read_entry buf offset;
      if is_end entry || is_deleted entry then mret (Some offset) else scan_slot buf l
  end.

(** ** The operations *)

Section Dir.
Context `{BlockDevice D}.

Definition entries_per_cluster (fs : Fat32Fs) : Z := cluster_size_bytes (bpb fs) / 32.

Definition empty_cluster (fs : Fat32Fs) : list Z := zrepeat (cluster_size_bytes (bpb fs)) 0.

Fixpoint listing_loop (fs : Fat32Fs) (chain : list Z) (acc : list DirEntryInfo) :
    M D (result (list DirEntryInfo) string) :=
  match chain with
  | [] => mret (Ok acc)
  | cluster :: chain =>
      cluster_buf ←? read_cluster fs cluster (empty_cluster fs);
      r ← liftO (scan_listing cluster_buf (range 0 (entries_per_cluster fs)) acc);
      let '(ended, acc) := r in
      if (ended : bool) then mret (Ok acc) else listing_loop fs chain acc
  end.

Definition read_dir_entries (fs : Fat32Fs) (dir_cluster : Z) :
    M D (result (list DirEntryInfo) string) :=
  chain ←? read_chain fs dir_cluster;
  listing_loop fs chain [].

(** The body of the cluster loop of [find_entry]: [Some] is a [return]. *)
Definition find_in_cluster (fs : Fat32Fs) (name_upper : list Z) (cluster : Z) :
    M D (result (option (option Fat32DirEntry)) string) :=
  cluster_buf ←? read_cluster fs cluster (empty_cluster fs);
  r ← liftO (scan_find cluster_buf name_upper (range 0 (entries_per_cluster fs)));
  mret (Ok (match r with
            | ScanNext => None
            | ScanEnd => Some None
            | ScanHit _ entry => Some (Some entry)
            end)).

Definition find_entry (fs : Fat32Fs) (dir_cluster : Z) (name_upper : list Z) :
    M D (result (option Fat32DirEntry) string) :=
  chain ←? read_chain fs dir_cluster;
  o ←? mfor_ret chain (find_in_cluster fs name_upper);
  match o with
  | Some r => mret (Ok r)
  | None => mret (Ok None)
  end.

(** The body of the cluster loop of [add_entry]. *)
Definition add_in_cluster (fs : Fat32Fs) (new_entry : Fat32DirEntry) (cluster : Z) :
    M D (result (option unit) string) :=
  cluster_buf ←? read_cluster fs cluster (empty_cluster fs);
  o ← liftO (scan_slot cluster_buf (range 0 (entries_per_cluster fs)));
  match o with
  | Some offset =>
      cluster_buf ← liftO (zcopy cluster_buf offset (encode_entry new_entry));
      _ ←? write_cluster fs cluster cluster_buf;
      mret (Ok (Some tt))
  | None => mret (Ok None)
  end.

Definition add_entry (fs : Fat32Fs) (dir_cluster : Z) (new_entry : Fat32DirEntry) :
    M D (result unit string) :=
  chain ←? read_chain fs dir_cluster;
  o ←? mfor_ret chain (add_in_cluster fs new_entry);
  match o with
  | Some _ => mret (Ok tt)
  | None =>
      new_cluster ←? alloc_cluster fs;
      cluster_buf ← liftO (zcopy (empty_cluster fs) 0 (encode_entry new_entry));
      last_cluster ←? mret (ok_or (last chain) "Empty chain");
      _ ←? write_fat_entry fs last_cluster new_cluster;
      _ ←? write_fat_entry fs new_cluster FAT32_EOC;
      _ ←? write_cluster fs new_cluster cluster_buf;
      mret (Ok tt)
  end.

(** The body of the cluster loop of [remove_entry]. *)
Definition remove_in_cluster (fs : Fat32Fs) (name_upper : list Z) (cluster : Z) :
    M D (result (option Fat32DirEntry) string) :=
  cluster_buf ←? read_cluster fs cluster (empty_cluster fs);
  r ← liftO (scan_find cluster_buf name_upper (range 0 (entries_per_cluster fs)));
  match r with
  | ScanNext => mret (Ok None)
  | ScanEnd => mret (Err "File not found")
  | ScanHit offset removed =>
      cluster_buf ← liftO (zset cluster_buf offset 0xE5);
      _ ←? write_cluster fs cluster cluster_buf;
      mret (Ok (Some removed))
  end.

Definition remove_entry (fs : Fat32Fs) (dir_cluster : Z) (name_upper : list Z) :
    M D (result Fat32DirEntry string) :=
  chain ←? read_chain fs dir_cluster;
  o ←? mfor_ret chain (remove_in_cluster fs name_upper);
  match o with
  | Some removed => mret (Ok removed)
  | None => mret (Err "File not found")
  end.

End Dir.
