(* ===== verification/DirSpec.v ===== *)
(** * Directories on a volume

    A directory chain is abstracted to the list of its entries, [dir_entries];
    [dir_lookup] and [dir_listing] are the reference lookup and listing. Each
    operation of [Dir] is shown to compute them, or to replace exactly one
    entry. *)

From stdpp Require Import base numbers list gmap strings.
From S2P Require Import Prelude ByteStr Block Bpb Fat32 Volume Files Dir.

#[local] Open Scope Z_scope.
#[local] Open Scope rust_scope.

(** ** Entries of a buffer *)

Definition entries_of (buf : list Z) : list Fat32DirEntry :=
  (λ i, decode_entry (nth_block 32 buf i)) <$> range 0 (zlen buf / 32).

Definition dir_entries (v : volume) (cs : list Z) : list Fat32DirEntry :=
  concat ((λ k, entries_of (default [] (v_data v !! k))) <$> cs).

(** An entry that a search for [name] goes past, and one that it finds. *)
Definition passes (name : list Z) (e : Fat32DirEntry) : Prop :=
  is_end e = false ∧ (skip_entry e = true ∨ full_name_upper e ≠ name).
Definition hits (name : list Z) (e : Fat32DirEntry) : Prop :=
  is_end e = false ∧ skip_entry e = false ∧ full_name_upper e = name.

(** The reference lookup: the first entry with the name before the end. *)
Fixpoint dir_lookup (name : list Z) (es : list Fat32DirEntry) : option Fat32DirEntry :=
  match es with
  | [] => None
  | e :: es =>
      if is_end e then None
      else if skip_entry e then dir_lookup name es
      else if bool_decide (full_name_upper e = name) then Some e
      else dir_lookup name es
  end.

(** The reference listing. *)
Definition listed (e : Fat32DirEntry) : list DirEntryInfo :=
  let name := from_utf8_lossy (full_name e) in
  if skip_entry e || bool_decide (name = bytes_of ".") || bool_decide (name = bytes_of "..")
  then []
  else [mkDirInfo name (is_directory e) (de_file_size e) (first_cluster e)].
Fixpoint dir_listing (es : list Fat32DirEntry) : list DirEntryInfo :=
  match es with
  | [] => []
  | e :: es => if is_end e then [] else listed e ++ dir_listing es
  end.

Lemma dir_lookup_passes name l1 l2 :
  Forall (passes name) l1 → dir_lookup name (l1 ++ l2) = dir_lookup name l2.
Proof.
  induction 1 as [|e l1 [He Hs] _ IH]; cbn; [done|]. rewrite He.
  destruct (skip_entry e); [done|]. destruct Hs as [|Hne]; [done|].
  by rewrite bool_decide_eq_false_2.
Qed.

Lemma dir_lookup_hit name l1 e l2 :
  Forall (passes name) l1 → hits name e → dir_lookup name (l1 ++ e :: l2) = Some e.
Proof.
  intros Hl (He & Hs & Hn). rewrite dir_lookup_passes by done. cbn. rewrite He, Hs.
  by rewrite bool_decide_eq_true_2.
Qed.

Lemma dir_lookup_end name l1 x l2 :
  Forall (passes name) l1 → is_end x = true → dir_lookup name (l1 ++ x :: l2) = None.
Proof. intros Hl Hx. rewrite dir_lookup_passes by done. cbn. by rewrite Hx. Qed.

Lemma dir_listing_end l1 x l2 :
  Forall (λ e, is_end e = false) l1 → is_end x = true →
  dir_listing (l1 ++ x :: l2) = concat (listed <$> l1).
Proof.
  intros Hl Hx. induction Hl as [|e l1 He _ IH]; cbn; [by rewrite Hx|]. by rewrite He, IH.
Qed.

Lemma dir_listing_app l1 l2 :
  Forall (λ e, is_end e = false) l1 → dir_listing (l1 ++ l2) = concat (listed <$> l1) ++ dir_listing l2.
Proof.
  intros Hl. induction Hl as [|e l1 He _ IH]; cbn; [done|]. by rewrite He, IH, app_assoc.
Qed.

(** ** Scans of one buffer *)

Lemma read_entry_ok buf i :
  0 ≤ i → (i + 1) * 32 ≤ zlen buf → read_entry buf (i * 32) = Ret (decode_entry (nth_block 32 buf i)).
Proof.
  intros Hi Hl. unfold read_entry. destruct (Z.ltb_spec (zlen buf) (i * 32)); [lia|].
  destruct (Z.ltb_spec (zlen buf) (i * 32 + 32)); [lia|]. done.
Qed.

(** Induction over the indices [j, n) of a buffer of [n] entries. *)
Lemma drop_entries buf j :
  0 ≤ j < zlen buf / 32 →
  drop (Z.to_nat j) (entries_of buf) =
    decode_entry (nth_block 32 buf j) :: drop (Z.to_nat (j + 1)) (entries_of buf).
Proof.
  intros Hj. unfold entries_of.
  assert (range 0 (zlen buf / 32) !! Z.to_nat j = Some j) as Hl.
  { unfold range. rewrite lookup_seqZ_lt by lia. f_equal. lia. }
  assert (((λ i, decode_entry (nth_block 32 buf i)) <$> range 0 (zlen buf / 32)) !! Z.to_nat j =
    Some (decode_entry (nth_block 32 buf j))) as Hl' by (by rewrite list_lookup_fmap, Hl).
  rewrite (drop_S _ _ _ Hl'). do 2 f_equal. lia.
Qed.

Lemma length_entries buf : length (entries_of buf) = Z.to_nat (zlen buf / 32).
Proof. unfold entries_of. rewrite length_fmap, length_range. lia. Qed.

Lemma scan_find_spec buf name (m : nat) j :
  0 ≤ j → zlen buf / 32 - j = Z.of_nat m →
  ∃ r, scan_find buf name (range j (zlen buf / 32)) = Ret r ∧
    let es := drop (Z.to_nat j) (entries_of buf) in
    match r with
    | ScanNext => Forall (passes name) es
    | ScanEnd => ∃ l1 x l2, es = l1 ++ x :: l2 ∧ Forall (passes name) l1 ∧ is_end x = true
    | ScanHit off e => ∃ l1 l2, es = l1 ++ e :: l2 ∧ Forall (passes name) l1 ∧ hits name e ∧
        off = (j + zlen l1) * 32
    end.
Proof.
  revert j. induction m as [|m IH]; intros j Hj Hm.
  - rewrite range_nil by lia. exists ScanNext. split; [done|]. cbn.
    rewrite drop_ge by (rewrite length_entries; lia). constructor.
  - rewrite range_cons by lia. cbn [scan_find]. rewrite drop_entries by lia.
    rewrite read_entry_ok by dlia. cbn [mbind outcome_bind].
    set (e := decode_entry (nth_block 32 buf j)).
    destruct (is_end e) eqn:He.
    { exists ScanEnd. split; [done|]. exists [], e. eexists. done. }
    destruct (IH (j + 1)) as (r & Hrun & Hr); [lia..|].
    assert (passes name e →
      match r with
      | ScanNext => Forall (passes name) (e :: drop (Z.to_nat (j + 1)) (entries_of buf))
      | ScanEnd => ∃ l1 x l2, e :: drop (Z.to_nat (j + 1)) (entries_of buf) = l1 ++ x :: l2 ∧
          Forall (passes name) l1 ∧ is_end x = true
      | ScanHit off e' => ∃ l1 l2, e :: drop (Z.to_nat (j + 1)) (entries_of buf) = l1 ++ e' :: l2 ∧
          Forall (passes name) l1 ∧ hits name e' ∧ off = (j + zlen l1) * 32
      end) as Hgo.
    { intros Hp. destruct r as [| |off e'].
      - by constructor.
      - destruct Hr as (l1 & x & l2 & -> & ? & ?). exists (e :: l1), x, l2. split; [done|].
        split; [by constructor|done].
      - destruct Hr as (l1 & l2 & -> & ? & ? & ->). exists (e :: l1), l2. split; [done|].
        split; [by constructor|]. split; [done|]. rewrite zlen_cons. lia. }
    fold (skip_entry e). destruct (skip_entry e) eqn:Hs.
    { exists r. split; [exact Hrun|]. apply Hgo. split; [done|by left]. }
    case_bool_decide as Hn.
    + exists (ScanHit (j * 32) e). split; [done|]. exists []. eexists. split; [done|].
      split; [constructor|]. split; [done|]. change (zlen []) with 0. lia.
    + exists r. split; [exact Hrun|]. apply Hgo. split; [done|by right].
Qed.

Definition is_slot (e : Fat32DirEntry) : bool := is_end e || is_deleted e.

Lemma scan_slot_spec buf (m : nat) j :
  0 ≤ j → zlen buf / 32 - j = Z.of_nat m →
  ∃ r, scan_slot buf (range j (zlen buf / 32)) = Ret r ∧
    let es := drop (Z.to_nat j) (entries_of buf) in
    match r with
    | None => Forall (λ e, is_slot e = false) es
    | Some off => ∃ l1 x l2, es = l1 ++ x :: l2 ∧ Forall (λ e, is_slot e = false) l1 ∧
        is_slot x = true ∧ off = (j + zlen l1) * 32
    end.
Proof.
  revert j. induction m as [|m IH]; intros j Hj Hm.
  - rewrite range_nil by lia. exists None. split; [done|]. cbn.
    rewrite drop_ge by (rewrite length_entries; lia). constructor.
  - rewrite range_cons by lia. cbn [scan_slot]. rewrite drop_entries by lia.
    rewrite read_entry_ok by dlia. cbn [mbind outcome_bind].
    set (e := decode_entry (nth_block 32 buf j)). fold (is_slot e).
    destruct (is_slot e) eqn:He.
    { exists (Some (j * 32)). split; [done|]. exists [], e. eexists. split; [done|].
      split; [constructor|]. split; [done|]. change (zlen []) with 0. lia. }
    destruct (IH (j + 1)) as (r & Hrun & Hr); [lia..|]. exists r. split; [exact Hrun|].
    destruct r as [off|]; [|by constructor].
    destruct Hr as (l1 & x & l2 & -> & ? & ? & ->). exists (e :: l1), x, l2. split; [done|].
    split; [by constructor|]. split; [done|]. rewrite zlen_cons. lia.
Qed.

Lemma scan_listing_spec buf (m : nat) j acc :
  0 ≤ j → zlen buf / 32 - j = Z.of_nat m →
  ∃ ended acc', scan_listing buf (range j (zlen buf / 32)) acc = Ret (ended, acc') ∧
    let es := drop (Z.to_nat j) (entries_of buf) in
    if ended : bool
    then ∃ l1 x l2, es = l1 ++ x :: l2 ∧ Forall (λ e, is_end e = false) l1 ∧ is_end x = true ∧
      acc' = acc ++ concat (listed <$> l1)
    else Forall (λ e, is_end e = false) es ∧ acc' = acc ++ concat (listed <$> es).
Proof.
  revert j acc. induction m as [|m IH]; intros j acc Hj Hm.
  - rewrite range_nil by lia. exists false, acc. split; [done|]. cbn.
    rewrite drop_ge by (rewrite length_entries; lia). split; [constructor|]. by rewrite app_nil_r.
  - rewrite range_cons by lia. cbn [scan_listing]. rewrite drop_entries by lia.
    rewrite read_entry_ok by dlia. cbn [mbind outcome_bind].
    set (e := decode_entry (nth_block 32 buf j)).
    destruct (is_end e) eqn:He.
    { exists true, acc. split; [done|]. exists [], e. eexists. split; [done|].
      split; [constructor|]. split; [done|]. by rewrite app_nil_r. }
    destruct (IH (j + 1) (acc ++ listed e)) as (ended & acc' & Hrun & Hr); [lia..|].
    exists ended, acc'. split.
    + rewrite <- Hrun. unfold listed, skip_entry.
      destruct (is_deleted e), (is_long_name e), (is_volume_label e); cbn [orb];
        try (by rewrite app_nil_r).
      destruct (bool_decide (from_utf8_lossy (full_name e) = bytes_of ".")); cbn [orb];
        [by rewrite app_nil_r|].
      by destruct (bool_decide (from_utf8_lossy (full_name e) = bytes_of "..")); rewrite ?app_nil_r.
    + destruct ended.
      * destruct Hr as (l1 & x & l2 & -> & ? & ? & ->). exists (e :: l1), x, l2. split; [done|].
        split; [by constructor|]. split; [done|]. cbn. by rewrite <- app_assoc.
      * destruct Hr as [? ->]. split; [by constructor|]. cbn. by rewrite <- app_assoc.
Qed.

(** ** Replacing one entry of a buffer *)

Lemma entries_splice buf src l1 x l2 :
  zlen buf mod 32 = 0 → length src = 32%nat → entries_of buf = l1 ++ x :: l2 →
  ∃ buf', zcopy buf (zlen l1 * 32) src = Ret buf' ∧ zlen buf' = zlen buf ∧
    entries_of buf' = l1 ++ decode_entry src :: l2 ∧
    (bytes buf → bytes src → bytes buf').
Proof.
  intros Hmod Hsrc He. pose proof (zlen_nonneg l1) as Hl1.
  assert (zlen l1 < zlen buf / 32) as Hlt.
  { apply (f_equal length) in He. rewrite length_entries, length_app in He. cbn in He.
    unfold zlen in *. lia. }
  assert (zlen src = 32) as Hsl by (unfold zlen; lia).
  assert (zlen l1 * 32 + zlen src ≤ zlen buf) as Hfit by dlia.
  eexists. split; [apply zcopy_ok; lia|]. split; [apply zlen_copied; lia|].
  set (o := Z.to_nat (zlen l1 * 32)).
  replace (Z.to_nat (zlen l1 * 32 + zlen src)) with (o + length src)%nat by (unfold o, zlen in *; lia).
  set (buf' := take o buf ++ src ++ drop (o + length src) buf).
  assert (zlen buf' = zlen buf) as Hlen.
  { unfold buf'. rewrite !zlen_app, zlen_take, zlen_drop. unfold o, zlen in *. lia. }
  assert (Hblock : ∀ i, 0 ≤ i < zlen buf / 32 →
    nth_block 32 buf' i = if decide (i = zlen l1) then src else nth_block 32 buf i).
  { intros i Hi. unfold nth_block. change (Z.to_nat 32) with 32%nat. case_decide as Hd.
    - subst i. change (field buf' o 32 = src). rewrite <- Hsrc. apply (field_write_same buf o src).
      unfold o, zlen in *. lia.
    - change (field buf' (Z.to_nat (i * 32)) 32 = field buf (Z.to_nat (i * 32)) 32).
      apply (field_write_other buf o src); unfold o, zlen in *; lia. }
  split.
  - apply list_eq. intros i. unfold entries_of. rewrite Hlen, list_lookup_fmap.
    assert (entries_of buf !! i = (l1 ++ x :: l2) !! i) as Hi by (by rewrite He).
    unfold entries_of in Hi. rewrite list_lookup_fmap in Hi.
    destruct (decide (Z.of_nat i < zlen buf / 32)) as [Hin|Hout].
    + unfold range in *. rewrite lookup_seqZ_lt in * by lia. rewrite Z.add_0_l in *. cbn in *.
      rewrite Hblock by lia.
      destruct (decide (Z.of_nat i = zlen l1)) as [Heq|Hne].
      * replace i with (length l1) by (unfold zlen in *; lia). by rewrite list_lookup_middle.
      * rewrite Hi. destruct (decide (i < length l1)%nat).
        -- by rewrite !lookup_app_l.
        -- rewrite !lookup_app_r by lia. destruct (i - length l1)%nat eqn:Hd; [unfold zlen in *; lia|done].
    + unfold range in *. rewrite lookup_seqZ_ge in * by lia. cbn in *.
      symmetry in Hi. apply lookup_ge_None in Hi. rewrite length_app in Hi. cbn in Hi.
      symmetry. apply lookup_ge_None. rewrite length_app. cbn. lia.
  - intros Hb Hs. unfold buf', bytes. rewrite !Forall_app.
    split_and!; [by apply Forall_take|done|by apply Forall_drop].
Qed.

(** ** The operations on a volume *)

Lemma dir_entries_cons v k cs b :
  v_data v !! k = Some b → dir_entries v (k :: cs) = entries_of b ++ dir_entries v cs.
Proof. intros Hk. unfold dir_entries. cbn. by rewrite Hk. Qed.

Lemma dir_entries_other v cs k b :
  k ∉ cs → dir_entries (set_data k b v) cs = dir_entries v cs.
Proof.
  intros Hk. unfold dir_entries. f_equal. apply list_fmap_ext. intros i x Hx.
  apply list_elem_of_lookup_2 in Hx. cbn. by rewrite lookup_insert_ne by (intros ->; done).
Qed.

Lemma dir_entries_app v c1 c2 : dir_entries v (c1 ++ c2) = dir_entries v c1 ++ dir_entries v c2.
Proof. unfold dir_entries. by rewrite fmap_app, concat_app. Qed.

(** [v'] is [v] with one cluster of the directory rewritten. *)
Definition cluster_updated (fs : Fat32Fs) (v v' : volume) (cs : list Z) : Prop :=
  ∃ k buf, k ∈ cs ∧ v' = set_data k buf v ∧ zlen buf = csize fs ∧ bytes buf.

Lemma entries_deleted buf l1 e l2 :
  zlen buf mod 32 = 0 → bytes buf → entries_of buf = l1 ++ e :: l2 →
  ∃ buf' e', zset buf (zlen l1 * 32) 0xE5 = Ret buf' ∧ zlen buf' = zlen buf ∧ bytes buf' ∧
    entries_of buf' = l1 ++ e' :: l2 ∧ is_deleted e' = true ∧ is_end e' = false.
Proof.
  intros Hmod Hb He. pose proof (zlen_nonneg l1) as Hl1.
  assert (zlen l1 < zlen buf / 32) as Hlt.
  { apply (f_equal length) in He. rewrite length_entries, length_app in He. cbn in He.
    unfold zlen in *. lia. }
  set (o := Z.to_nat (zlen l1 * 32)).
  set (src := 0xE5 :: take 31 (drop (S o) buf)).
  assert (length src = 32%nat) as Hsrc.
  { unfold src. cbn [length]. rewrite length_take, length_drop. unfold o, zlen in *. dlia. }
  assert (zset buf (zlen l1 * 32) 0xE5 = zcopy buf (zlen l1 * 32) src) as Heq.
  { rewrite zset_ok by dlia. rewrite zcopy_ok by (unfold zlen in *; dlia). f_equal. fold o.
    replace (Z.to_nat (zlen l1 * 32 + zlen src)) with (o + 32)%nat by (unfold o, zlen in *; lia).
    rewrite (insert_take_drop buf o) by (unfold o, zlen in *; dlia). unfold src. f_equal.
    cbn [app]. f_equal. rewrite <- (take_drop 31 (drop (S o) buf)) at 1. f_equal.
    rewrite drop_drop. f_equal. lia. }
  destruct (entries_splice buf src l1 e l2 Hmod Hsrc He) as (buf' & Hrun & Hl & Hes & Hbytes).
  exists buf', (decode_entry src). rewrite Heq. split; [done|]. split; [done|].
  split; [|done]. apply Hbytes; [done|]. unfold src. constructor; [unfold is_byte; lia|].
  by apply Forall_take, Forall_drop.
Qed.

Section DirOps.
Context `{BlockDeviceLaws D} (fs : Fat32Fs) (G : geometry fs).

Notation vruns := (vruns fs).

Lemma vruns_dir_cluster {B} (k : Z) (b : list Z) (c : list Z → M D (result B string)) v r v' :
  vol_ok fs v → v_data v !! k = Some b → vruns (c b) v r v' →
  vruns (cluster_buf ←? read_cluster fs k (empty_cluster fs); c cluster_buf) v r v'.
Proof.
  intros Hv Hk Hc. eapply vruns_ok; [|exact Hc]. apply vruns_read_cluster; [done..|].
  unfold empty_cluster. rewrite (cluster_size_machine fs G). apply (zeros_ok fs G).
Qed.

Lemma entries_count (b : list Z) : zlen b = csize fs → entries_per_cluster fs = zlen b / 32.
Proof. intros Hb. unfold entries_per_cluster. by rewrite (cluster_size_machine fs G), Hb. Qed.

Lemma cluster_bytes v k :
  vol_ok fs v → is_cluster fs k →
  ∃ b, v_data v !! k = Some b ∧ zlen b = csize fs ∧ bytes b ∧ zlen b mod 32 = 0.
Proof.
  intros Hv Hk. apply (vo_data _ _ Hv) in Hk as [b Hb]. destruct (vo_bytes _ _ Hv k b Hb).
  exists b. pose proof (csize_bounds fs G) as [_ ?]. split_and!; congruence.
Qed.

Lemma find_loop_spec v cs name :
  vol_ok fs v → (∀ j, j ∈ cs → is_cluster fs j) →
  ∃ o, vruns (mfor_ret cs (find_in_cluster fs name)) v (Ok o) v ∧
    dir_lookup name (dir_entries v cs) = default None o.
Proof.
  intros Hv. induction cs as [|k cs IH]; intros Hcs.
  - exists None. split; [apply vruns_ret|done].
  - destruct (cluster_bytes v k Hv (Hcs k ltac:(left))) as (b & Hb & Hl & _ & _).
    rewrite (dir_entries_cons v k cs b Hb).
    destruct (scan_find_spec b name (Z.to_nat (zlen b / 32)) 0) as (r & Hrun & Hr); [lia|pose proof (zlen_nonneg b); dlia|].
    rewrite drop_0 in Hr.
    assert (vruns (find_in_cluster fs name k) v
      (Ok (match r with ScanNext => None | ScanEnd => Some None | ScanHit _ e => Some (Some e) end)) v)
      as Hbody.
    { unfold find_in_cluster. eapply vruns_dir_cluster; [done..|].
      rewrite (entries_count b Hl). eapply vruns_liftO; [exact Hrun|]. apply vruns_ret. }
    destruct r as [| |off e]; cbn [mfor_ret].
    + destruct IH as (o & Ho & Hd); [intros; apply Hcs; by right|].
      exists o. split; [eapply vruns_ok; [exact Hbody|exact Ho]|]. by rewrite dir_lookup_passes.
    + destruct Hr as (l1 & x & l2 & -> & ? & ?). exists (Some None).
      split; [eapply vruns_ok; [exact Hbody|apply vruns_ret]|].
      rewrite <- app_assoc. cbn [app]. by rewrite dir_lookup_end.
    + destruct Hr as (l1 & l2 & -> & ? & ? & _). exists (Some (Some e)).
      split; [eapply vruns_ok; [exact Hbody|apply vruns_ret]|].
      rewrite <- app_assoc. cbn [app]. by rewrite dir_lookup_hit.
Qed.

Lemma find_entry_spec v k cs name :
  vol_ok fs v → chain_ok v (k :: cs) →
  vruns (find_entry fs k name) v (Ok (dir_lookup name (dir_entries v (k :: cs)))) v.
Proof.
  intros Hv Hch. unfold find_entry. eapply vruns_ok; [by apply read_chain_spec|].
  destruct (find_loop_spec v (k :: cs) name Hv) as (o & Ho & ->); [by eapply chain_clusters|].
  eapply vruns_ok; [exact Ho|]. destruct o; apply vruns_ret.
Qed.

Lemma listing_loop_spec v cs acc :
  vol_ok fs v → (∀ j, j ∈ cs → is_cluster fs j) →
  vruns (listing_loop fs cs acc) v (Ok (acc ++ dir_listing (dir_entries v cs))) v.
Proof.
  intros Hv. revert acc. induction cs as [|k cs IH]; intros acc Hcs; cbn [listing_loop].
  - rewrite app_nil_r. apply vruns_ret.
  - destruct (cluster_bytes v k Hv (Hcs k ltac:(left))) as (b & Hb & Hl & _ & _).
    rewrite (dir_entries_cons v k cs b Hb). eapply vruns_dir_cluster; [done..|].
    rewrite (entries_count b Hl).
    destruct (scan_listing_spec b (Z.to_nat (zlen b / 32)) 0 acc) as (ended & acc' & Hrun & Hr);
      [lia|pose proof (zlen_nonneg b); dlia|]. rewrite drop_0 in Hr.
    eapply vruns_liftO; [exact Hrun|]. cbn beta iota. destruct ended.
    + destruct Hr as (l1 & x & l2 & -> & ? & ? & ->). rewrite <- app_assoc. cbn [app].
      rewrite dir_listing_end by done. apply vruns_ret.
    + destruct Hr as [? ->]. rewrite dir_listing_app, app_assoc by done.
      apply IH. intros; apply Hcs; by right.
Qed.

Lemma read_dir_entries_spec v k cs :
  vol_ok fs v → chain_ok v (k :: cs) →
  vruns (read_dir_entries fs k) v (Ok (dir_listing (dir_entries v (k :: cs)))) v.
Proof.
  intros Hv Hch. unfold read_dir_entries. eapply vruns_ok; [by apply read_chain_spec|].
  apply (listing_loop_spec v (k :: cs) []); [done|by eapply chain_clusters].
Qed.

(** One entry of the chain is replaced: [l1 ++ x :: l2] becomes [l1 ++ e :: l2]. *)
Definition replaces (v v' : volume) (cs : list Z) (l1 : list Fat32DirEntry) (x e : Fat32DirEntry)
    (l2 : list Fat32DirEntry) : Prop :=
  dir_entries v cs = l1 ++ x :: l2 ∧ dir_entries v' cs = l1 ++ e :: l2 ∧ cluster_updated fs v v' cs.

Lemma replaces_here v k cs b buf l1 x e l2 :
  v_data v !! k = Some b → k ∉ cs → zlen buf = csize fs → bytes buf →
  entries_of b = l1 ++ x :: l2 → entries_of buf = l1 ++ e :: l2 →
  replaces v (set_data k buf v) (k :: cs) l1 x e (l2 ++ dir_entries v cs).
Proof.
  intros Hb Hn Hz Hbb He He'. split; [|split].
  - rewrite (dir_entries_cons v k cs b Hb), He, <- app_assoc. done.
  - rewrite (dir_entries_cons _ k cs buf), He', <- app_assoc by (cbn; apply lookup_insert_eq).
    by rewrite dir_entries_other.
  - exists k, buf. split; [left|done].
Qed.

Lemma replaces_later v v' k cs b l1 x e l2 :
  v_data v !! k = Some b → k ∉ cs → replaces v v' cs l1 x e l2 →
  replaces v v' (k :: cs) (entries_of b ++ l1) x e l2.
Proof.
  intros Hb Hn (H1 & H2 & (k' & buf & Hk' & -> & Hz & Hbb)).
  assert (k' ≠ k) by (intros ->; done). split; [|split].
  - by rewrite (dir_entries_cons v k cs b Hb), H1, <- app_assoc.
  - rewrite (dir_entries_cons _ k cs b) by (cbn; by rewrite lookup_insert_ne).
    by rewrite H2, <- app_assoc.
  - exists k', buf. split; [by right|done].
Qed.

Lemma add_loop_spec v cs e :
  vol_ok fs v → (∀ j, j ∈ cs → is_cluster fs j) → NoDup cs → entry_wf e →
  (∃ v' l1 x l2, vruns (mfor_ret cs (add_in_cluster fs e)) v (Ok (Some tt)) v' ∧
     replaces v v' cs l1 x e l2 ∧ Forall (λ y, is_slot y = false) l1 ∧ is_slot x = true) ∨
  (vruns (mfor_ret cs (add_in_cluster fs e)) v (Ok None) v ∧
     Forall (λ y, is_slot y = false) (dir_entries v cs)).
Proof.
  intros Hv Hcs Hnd He. induction cs as [|k cs IH].
  - right. split; [apply vruns_ret|constructor].
  - apply NoDup_cons in Hnd as [Hkn Hnd].
    destruct (cluster_bytes v k Hv (Hcs k ltac:(left))) as (b & Hb & Hl & Hbb & Hmod).
    destruct (scan_slot_spec b (Z.to_nat (zlen b / 32)) 0) as (r & Hrun & Hr); [lia|pose proof (zlen_nonneg b); dlia|].
    rewrite drop_0 in Hr. destruct r as [off|].
    + left. destruct Hr as (l1 & x & l2 & Hes & Hl1 & Hx & ->).
      destruct (entries_splice b (encode_entry e) l1 x l2 Hmod (length_encode_entry e He) Hes)
        as (buf & Hcopy & Hlen & Hes' & Hbytes). rewrite decode_encode in Hes' by done.
      assert (bytes buf) as Hbuf by (apply Hbytes; [done|by apply encode_entry_bytes]).
      exists (set_data k buf v), l1, x, (l2 ++ dir_entries v cs).
      split; [|split; [by eapply replaces_here; try congruence|done]].
      cbn [mfor_ret]. eapply (vruns_ok fs _ _ _ (Some tt)); [|apply vruns_ret].
      unfold add_in_cluster. eapply vruns_dir_cluster; [done..|]. rewrite (entries_count b Hl).
      eapply vruns_liftO; [exact Hrun|]. cbn beta iota. rewrite Z.add_0_l.
      eapply vruns_liftO; [exact Hcopy|].
      eapply vruns_ok; [apply vruns_write_cluster; [done|apply Hcs; left|congruence|done]|].
      apply vruns_ret.
    + assert (vruns (add_in_cluster fs e k) v (Ok None) v) as Hbody.
      { unfold add_in_cluster. eapply vruns_dir_cluster; [done..|]. rewrite (entries_count b Hl).
        eapply vruns_liftO; [exact Hrun|]. apply vruns_ret. }
      destruct IH as [(v' & l1 & x & l2 & Hgo & Hrep & Hl1 & Hx)|[Hgo Hall]];
        [intros; apply Hcs; by right|done| |].
      * left. exists v', (entries_of b ++ l1), x, l2.
        split; [cbn [mfor_ret]; eapply vruns_ok; [exact Hbody|exact Hgo]|].
        split; [by apply replaces_later|]. split; [by apply Forall_app|done].
      * right. split; [cbn [mfor_ret]; eapply vruns_ok; [exact Hbody|exact Hgo]|].
        rewrite (dir_entries_cons v k cs b Hb). by apply Forall_app.
Qed.

Lemma remove_loop_spec v cs name :
  vol_ok fs v → (∀ j, j ∈ cs → is_cluster fs j) → NoDup cs →
  (∃ v' l1 e e' l2, vruns (mfor_ret cs (remove_in_cluster fs name)) v (Ok (Some e)) v' ∧
     replaces v v' cs l1 e e' l2 ∧ Forall (passes name) l1 ∧ hits name e ∧
     is_deleted e' = true ∧ is_end e' = false) ∨
  (vruns (mfor_ret cs (remove_in_cluster fs name)) v (Ok None) v ∧
     Forall (passes name) (dir_entries v cs)) ∨
  (vruns (mfor_ret cs (remove_in_cluster fs name)) v (Err "File not found") v ∧
     dir_lookup name (dir_entries v cs) = None).
Proof.
  intros Hv Hcs Hnd. induction cs as [|k cs IH].
  - right. left. split; [apply vruns_ret|constructor].
  - apply NoDup_cons in Hnd as [Hkn Hnd].
    destruct (cluster_bytes v k Hv (Hcs k ltac:(left))) as (b & Hb & Hl & Hbb & Hmod).
    destruct (scan_find_spec b name (Z.to_nat (zlen b / 32)) 0) as (r & Hrun & Hr); [lia|pose proof (zlen_nonneg b); dlia|].
    rewrite drop_0 in Hr. destruct r as [| |off e].
    + assert (vruns (remove_in_cluster fs name k) v (Ok None) v) as Hbody.
      { unfold remove_in_cluster. eapply vruns_dir_cluster; [done..|]. rewrite (entries_count b Hl).
        eapply vruns_liftO; [exact Hrun|]. apply vruns_ret. }
      destruct IH as [(v' & l1 & e & e' & l2 & Hgo & Hrep & Hl1 & Hx)|[[Hgo Hall]|[Hgo Hno]]];
        [intros; apply Hcs; by right|done| | |].
      * left. exists v', (entries_of b ++ l1), e, e', l2.
        split; [cbn [mfor_ret]; eapply vruns_ok; [exact Hbody|exact Hgo]|].
        split; [by apply replaces_later|]. split; [by apply Forall_app|done].
      * right. left. split; [cbn [mfor_ret]; eapply vruns_ok; [exact Hbody|exact Hgo]|].
        rewrite (dir_entries_cons v k cs b Hb). by apply Forall_app.
      * right. right. split; [cbn [mfor_ret]; eapply vruns_ok; [exact Hbody|exact Hgo]|].
        rewrite (dir_entries_cons v k cs b Hb). by rewrite dir_lookup_passes.
    + right. right. destruct Hr as (l1 & x & l2 & Hes & Hl1 & Hx). split.
      * cbn [mfor_ret]. apply vruns_err. unfold remove_in_cluster.
        eapply vruns_dir_cluster; [done..|]. rewrite (entries_count b Hl).
        eapply vruns_liftO; [exact Hrun|]. apply vruns_ret.
      * rewrite (dir_entries_cons v k cs b Hb), Hes, <- app_assoc. by apply dir_lookup_end.
    + left. destruct Hr as (l1 & l2 & Hes & Hl1 & Hx & ->).
      destruct (entries_deleted b l1 e l2 Hmod Hbb Hes) as (buf & e' & Hset & Hlen & Hbuf & Hes' & Hdel & Hend).
      exists (set_data k buf v), l1, e, e', (l2 ++ dir_entries v cs).
      split; [|split; [by eapply replaces_here; try congruence|done]].
      cbn [mfor_ret]. eapply (vruns_ok fs _ _ _ (Some e)); [|apply vruns_ret].
      unfold remove_in_cluster. eapply vruns_dir_cluster; [done..|]. rewrite (entries_count b Hl).
      eapply vruns_liftO; [exact Hrun|]. cbn beta iota. rewrite Z.add_0_l.
      eapply vruns_liftO; [exact Hset|].
      eapply vruns_ok; [apply vruns_write_cluster; [done|apply Hcs; left|congruence|done]|].
      apply vruns_ret.
Qed.

End DirOps.
