(* ===== verification/DirTheorems.v ===== *)
(** * Directories: the properties

    Lookup, listing, insertion and removal of entries on a working device, in
    terms of the reference functions of [DirSpec]. *)

From stdpp Require Import base numbers list gmap strings.
From S2P Require Import Prelude ByteStr Block Bpb Fat32 Volume Files Dir DirSpec FatTheorems.

#[local] Open Scope Z_scope.
#[local] Open Scope rust_scope.

(** ** Lookups after an update *)

Lemma slot_not_end e : is_slot e = false → is_end e = false ∧ is_deleted e = false.
Proof. unfold is_slot. apply orb_false_iff. Qed.

Lemma passed_before name l1 r :
  Forall (λ y, is_slot y = false) l1 → dir_lookup name (l1 ++ r) = None → Forall (passes name) l1.
Proof.
  induction 1 as [|e l1 He _ IH]; cbn; [constructor|].
  apply slot_not_end in He as [He Hd]. rewrite He. intros Hn.
  destruct (skip_entry e) eqn:Hs.
  - constructor; [split; [done|by left]|by apply IH].
  - case_bool_decide; [done|]. constructor; [split; [done|by right]|by apply IH].
Qed.

(** Filling a slot keeps what was found. *)
Lemma lookup_filled name l1 x e l2 y :
  is_slot x = true → passes name e →
  dir_lookup name (l1 ++ x :: l2) = Some y → dir_lookup name (l1 ++ e :: l2) = Some y.
Proof.
  intros Hx [He Hp]. induction l1 as [|z l1 IH]; cbn.
  - intros Hy. rewrite He. unfold is_slot in Hx. destruct (is_end x); [done|].
    cbn in Hx. unfold skip_entry at 1 in Hy. rewrite Hx in Hy. cbn in Hy.
    destruct (skip_entry e); [done|]. destruct Hp as [|Hne]; [done|].
    by rewrite bool_decide_eq_false_2.
  - destruct (is_end z); [done|]. destruct (skip_entry z); [done|]. by case_bool_decide.
Qed.

(** Deleting the hit keeps what is found under other names. *)
Lemma lookup_deleted name name' l1 e e' l2 :
  hits name e → is_deleted e' = true → is_end e' = false → name' ≠ name →
  dir_lookup name' (l1 ++ e' :: l2) = dir_lookup name' (l1 ++ e :: l2).
Proof.
  intros (He & Hs & Hn) Hd Hend Hne. induction l1 as [|z l1 IH]; cbn.
  - rewrite He, Hend, Hs. unfold skip_entry at 1. rewrite Hd. cbn.
    by rewrite bool_decide_eq_false_2 by congruence.
  - destruct (is_end z); [done|]. destruct (skip_entry z); [done|]. by case_bool_decide.
Qed.

Lemma lookup_some_split name es e :
  dir_lookup name es = Some e →
  ∃ l1 l2, es = l1 ++ e :: l2 ∧ Forall (passes name) l1 ∧ hits name e.
Proof.
  induction es as [|x es IH]; cbn; [done|]. destruct (is_end x) eqn:He; [done|].
  destruct (skip_entry x) eqn:Hs; [|case_bool_decide as Hn].
  - intros (l1 & l2 & -> & ? & ?)%IH. exists (x :: l1), l2. split; [done|].
    split; [|done]. constructor; [split; [done|by left]|done].
  - intros [= ->]. exists [], es. split; [done|]. by split; [constructor|].
  - intros (l1 & l2 & -> & ? & ?)%IH. exists (x :: l1), l2. split; [done|].
    split; [|done]. constructor; [split; [done|by right]|done].
Qed.

(** ** Growing a directory *)

Lemma linked_insert_other f k x cs : k ∉ cs → linked f cs → linked (<[k := x]> f) cs.
Proof.
  induction cs as [|c cs IH]; intros Hk Hl; [done|]. apply not_elem_of_cons in Hk as [Hkc Hk].
  destruct cs as [|c' cs].
  - destruct Hl as (y & Hy & ?). exists y. by rewrite lookup_insert_ne.
  - destruct Hl as [Hy Hl]. split; [by rewrite lookup_insert_ne|by apply IH].
Qed.

Lemma linked_extend f cs lc j :
  linked f cs → NoDup cs → last cs = Some lc → j ∉ cs →
  linked (<[j := FAT32_EOC]> (<[lc := j]> f)) (cs ++ [j]).
Proof.
  induction cs as [|c cs IH]; intros Hl Hnd Hlast Hj; [done|].
  apply NoDup_cons in Hnd as [Hc Hnd]. apply not_elem_of_cons in Hj as [Hjc Hj].
  destruct cs as [|c' cs].
  - injection Hlast as ->. cbn. split.
    + by rewrite lookup_insert_ne, lookup_insert_eq.
    + exists FAT32_EOC. by rewrite lookup_insert_eq.
  - destruct Hl as [Hy Hl]. rewrite last_cons_cons in Hlast.
    assert (lc ≠ c) by (intros ->; apply Hc; by apply last_Some_elem_of).
    change ((c :: c' :: cs) ++ [j]) with (c :: c' :: (cs ++ [j])). split.
    + by rewrite !lookup_insert_ne.
    + by apply IH.
Qed.

Section Theorems.
Context `{BlockDeviceLaws D} (fs : Fat32Fs).

(** The directory at [C] on device [d]: [find_entry] computes lookup in [es]. *)
Definition directory (d : D) (v : volume) (C : list Z) (es : list Fat32DirEntry) : Prop :=
  working d ∧ abs fs (content d) v ∧ chain_ok v C ∧ dir_entries v C = es.

Lemma directory_find (G : geometry fs) d v k cs es name :
  directory d v (k :: cs) es →
  ∃ d', find_entry fs k name d = Ret (Ok (dir_lookup name es), d').
Proof.
  intros (Hw & Habs & Hch & <-).
  destruct (find_entry_spec fs G v k cs name (abs_vol_ok fs G _ _ Habs) Hch d Hw Habs) as (d' & ? & _).
  by exists d'.
Qed.

(** [find_entry] is the reference lookup: it returns the first entry with the exact
    upper-case name that precedes the end mark and is neither deleted nor a long-name
    or label entry; [read_dir_entries] is the reference listing. Both only read. *)
Theorem directory_reads d v k cs name :
  geometry fs → working d → abs fs (content d) v → chain_ok v (k :: cs) →
  (∃ d', find_entry fs k name d = Ret (Ok (dir_lookup name (dir_entries v (k :: cs))), d') ∧
     working d' ∧ abs fs (content d') v) ∧
  (∃ d', read_dir_entries fs k d = Ret (Ok (dir_listing (dir_entries v (k :: cs))), d') ∧
     working d' ∧ abs fs (content d') v).
Proof.
  intros G Hw Habs Hch. pose proof (abs_vol_ok fs G _ _ Habs) as Hv.
  split; [by apply find_entry_spec|by apply read_dir_entries_spec].
Qed.

Lemma add_grows v k cs e j :
  geometry fs → vol_ok fs v → chain_ok v (k :: cs) → zlen (k :: cs) < 100000 → entry_wf e →
  first_free fs v j → vruns fs (mfor_ret (k :: cs) (add_in_cluster fs e)) v (Ok None) v →
  ∃ v' l2, vruns fs (add_entry fs k e) v (Ok tt) v' ∧ chain_ok v' (k :: cs ++ [j]) ∧
    dir_entries v' (k :: cs ++ [j]) = dir_entries v (k :: cs) ++ e :: l2.
Proof.
  intros G Hv Hch Hlen He Hj Hloop. pose proof (csize_bounds fs G) as [Hcs Hmod].
  destruct (zeros_ok fs G) as [Hzl Hzb].
  assert (is_cluster fs j) as Hjc by (apply (vo_fat _ _ Hv); exists FAT32_FREE; apply Hj).
  assert (j ∉ k :: cs) as Hjn by exact (free_not_in_chain fs v (k :: cs) j Hv Hch (proj1 Hj)).
  destruct (last (k :: cs)) as [lc|] eqn:Hlast; [|by apply last_None in Hlast].
  assert (is_cluster fs lc) as Hlc by (eapply chain_clusters; [done..|by apply last_Some_elem_of]).
  assert (∃ x l2, entries_of (zrepeat (csize fs) 0) = [] ++ x :: l2) as (x & l2 & Hes).
  { destruct (entries_of (zrepeat (csize fs) 0)) as [|x l2] eqn:Hes; [|by exists x, l2].
    apply (f_equal length) in Hes. rewrite length_entries, Hzl in Hes. cbn in Hes. dlia. }
  destruct (entries_splice (zrepeat (csize fs) 0) (encode_entry e) [] x l2)
    as (buf & Hcopy & Hbl & Hbes & Hbb); [congruence|by apply length_encode_entry|done|].
  rewrite decode_encode in Hbes by done. change (zlen [] * 32) with 0 in Hcopy.
  assert (bytes buf) as Hbuf by (apply Hbb; [done|by apply encode_entry_bytes]).
  set (v' := set_data j buf (set_fat j FAT32_EOC (set_fat lc j (set_data j (zrepeat (csize fs) 0) v)))).
  exists v', l2. split; [|split].
  - unfold add_entry. eapply vruns_ok; [by apply read_chain_spec|]. eapply vruns_ok; [exact Hloop|].
    eapply vruns_ok; [by apply alloc_cluster_spec|].
    eapply vruns_liftO; [unfold empty_cluster; rewrite (cluster_size_machine fs G); exact Hcopy|].
    eapply (vruns_ok fs _ _ _ lc); [rewrite Hlast; apply vruns_ret|].
    pose proof (g_max _ G). destruct Hjc as [? ?]. unfold FAT32_BAD in *.
    eapply vruns_ok; [apply vruns_write_fat; [done|done|lia]|].
    eapply vruns_ok; [apply vruns_write_fat; [done|by split|done]|].
    eapply vruns_ok; [apply vruns_write_cluster; [done|by split|congruence|done]|].
    apply vruns_ret.
  - change (k :: cs ++ [j]) with ((k :: cs) ++ [j]). destruct Hch as [Hl Hnd _]. split.
    + cbn [v' set_data set_fat v_fat]. by apply linked_extend.
    + apply NoDup_app. split_and!; [done| |apply NoDup_singleton].
      intros y Hy ->%list_elem_of_singleton. done.
    + rewrite zlen_app, (zlen_cons j), zlen_nil. lia.
  - change (k :: cs ++ [j]) with ((k :: cs) ++ [j]). rewrite dir_entries_app.
    unfold v'. rewrite dir_entries_other by done.
    rewrite (dir_entries_cons _ j [] buf), Hbes by (cbn; apply lookup_insert_eq).
    cbn [app]. f_equal; [|by rewrite app_nil_r].
    transitivity (dir_entries (set_data j (zrepeat (csize fs) 0) v) (k :: cs)); [done|].
    by apply dir_entries_other.
Qed.

(** C20. Inserting an entry under a new name: [add_entry] fills the first free slot, or
    grows the directory by the lowest free cluster when there is none, or fails on a
    full volume; after a success the new name is found with exactly the entry given,
    and every name found before is still found with its entry. *)
Theorem add_entry_then_find d v k cs e :
  geometry fs → working d → abs fs (content d) v → chain_ok v (k :: cs) →
  zlen (k :: cs) < 100000 → entry_wf e → is_end e = false → skip_entry e = false →
  dir_lookup (full_name_upper e) (dir_entries v (k :: cs)) = None →
  (∃ d', add_entry fs k e d = Ret (Ok tt, d') ∧
     (∃ d'', find_entry fs k (full_name_upper e) d' = Ret (Ok (Some e), d'')) ∧
     ∀ name x, dir_lookup name (dir_entries v (k :: cs)) = Some x →
       ∃ d'', find_entry fs k name d' = Ret (Ok (Some x), d'')) ∨
  (∃ d', add_entry fs k e d = Ret (Err "No free clusters", d') ∧ abs fs (content d') v ∧
     table_full v).
Proof.
  intros G Hw Habs Hch Hlen He Hend Hskip Hnone.
  pose proof (abs_vol_ok fs G _ _ Habs) as Hv. set (nm := full_name_upper e) in *.
  assert (∀ name x, dir_lookup name (dir_entries v (k :: cs)) = Some x → passes name e) as Hother.
  { intros name x Hx. split; [done|]. right. intros <-. unfold nm in Hnone. congruence. }
  assert (∀ v' rest l1 l2, vruns fs (add_entry fs k e) v (Ok tt) v' → chain_ok v' (k :: rest) →
    dir_entries v' (k :: rest) = l1 ++ e :: l2 → Forall (passes nm) l1 →
    (∀ name x, dir_lookup name (dir_entries v (k :: cs)) = Some x →
       dir_lookup name (l1 ++ e :: l2) = Some x) →
    ∃ d', add_entry fs k e d = Ret (Ok tt, d') ∧
     (∃ d'', find_entry fs k nm d' = Ret (Ok (Some e), d'')) ∧
     ∀ name x, dir_lookup name (dir_entries v (k :: cs)) = Some x →
       ∃ d'', find_entry fs k name d' = Ret (Ok (Some x), d'')) as Hfinish.
  { intros v' rest l1 l2 Hrun Hch' Hes' Hl1 Hkeep. destruct (Hrun d Hw Habs) as (d' & Hd' & Hw' & Habs').
    assert (directory d' v' (k :: rest) (l1 ++ e :: l2)) as Hdir by done.
    exists d'. split; [done|]. split.
    - destruct (directory_find G _ _ _ _ _ nm Hdir) as (d'' & Hf). exists d''.
      by rewrite dir_lookup_hit in Hf.
    - intros name x Hx. destruct (directory_find G _ _ _ _ _ name Hdir) as (d'' & Hf).
      exists d''. by rewrite (Hkeep _ _ Hx) in Hf. }
  destruct (add_loop_spec fs G v (k :: cs) e Hv) as
    [(v' & l1 & x & l2 & Hgo & (Hes & Hes' & (kk & buf & _ & -> & _)) & Hl1 & Hx)|[Hgo Hall]];
    [by eapply chain_clusters|apply Hch|done| |].
  - left. apply (Hfinish (set_data kk buf v) cs l1 l2); [| |done| |].
    + unfold add_entry. eapply vruns_ok; [by apply read_chain_spec|].
      eapply vruns_ok; [exact Hgo|]. apply vruns_ret.
    + destruct Hch. by split.
    + rewrite Hes in Hnone. by eapply passed_before.
    + intros name y Hy. pose proof (Hother _ _ Hy). rewrite Hes in Hy. by eapply lookup_filled.
  - destruct (first_free_or_full fs v Hv) as [[j Hj]|Hfull].
    + left. destruct (add_grows v k cs e j G Hv Hch Hlen He Hj Hgo) as (v' & l2 & Hrun & Hch' & Hes').
      apply (Hfinish v' (cs ++ [j]) (dir_entries v (k :: cs)) l2); [done|done|done| |].
      * apply (passed_before nm _ []); [done|by rewrite app_nil_r].
      * intros name x Hx. destruct (lookup_some_split _ _ _ Hx) as (l1 & l3 & -> & Hl1 & Hh).
        rewrite <- app_assoc. cbn [app]. by apply dir_lookup_hit.
    + right. assert (vruns fs (add_entry fs k e) v (Err "No free clusters") v) as Hrun.
      { unfold add_entry. eapply vruns_ok; [by apply read_chain_spec|].
        eapply vruns_ok; [exact Hgo|]. apply vruns_err. by apply alloc_cluster_full. }
      destruct (Hrun d Hw Habs) as (d' & Hd' & _ & Habs'). by exists d'.
Qed.

(** C21. Removing a name returns the entry that a lookup finds and deletes only it:
    lookups of other names are unchanged, and the name itself is afterwards found
    only if a second entry carried it. Removing an absent name fails and changes
    nothing. *)
Theorem remove_entry_then_find d v k cs name :
  geometry fs → working d → abs fs (content d) v → chain_ok v (k :: cs) →
  match dir_lookup name (dir_entries v (k :: cs)) with
  | Some e =>
      ∃ d' l1 l2, remove_entry fs k name d = Ret (Ok e, d') ∧
        dir_entries v (k :: cs) = l1 ++ e :: l2 ∧
        (∃ d'', find_entry fs k name d' = Ret (Ok (dir_lookup name l2), d'')) ∧
        ∀ name', name' ≠ name →
          ∃ d'', find_entry fs k name' d' =
            Ret (Ok (dir_lookup name' (dir_entries v (k :: cs))), d'')
  | None =>
      ∃ d', remove_entry fs k name d = Ret (Err "File not found", d') ∧ abs fs (content d') v
  end.
Proof.
  intros G Hw Habs Hch. pose proof (abs_vol_ok fs G _ _ Habs) as Hv.
  destruct (remove_loop_spec fs G v (k :: cs) name Hv) as
    [(v' & l1 & e & e' & l2 & Hgo & (Hes & Hes' & (kk & buf & _ & -> & _)) & Hl1 & He & Hdel & Hend)
    |[[Hgo Hall]|[Hgo Hno]]]; [by eapply chain_clusters|apply Hch| | |].
  - assert (dir_lookup name (dir_entries v (k :: cs)) = Some e) as ->
      by (rewrite Hes; by apply dir_lookup_hit).
    assert (vruns fs (remove_entry fs k name) v (Ok e) (set_data kk buf v)) as Hrun.
    { unfold remove_entry. eapply vruns_ok; [by apply read_chain_spec|].
      eapply vruns_ok; [exact Hgo|]. apply vruns_ret. }
    destruct (Hrun d Hw Habs) as (d' & Hd' & Hw' & Habs').
    assert (directory d' (set_data kk buf v) (k :: cs) (l1 ++ e' :: l2)) as Hdir.
    { split; [done|]. split; [done|]. split; [|done]. destruct Hch. by split. }
    exists d', l1, l2. split; [done|]. split; [done|]. split.
    + destruct (directory_find G _ _ _ _ _ name Hdir) as (d'' & Hf). exists d''. rewrite Hf.
      rewrite dir_lookup_passes by done. cbn. rewrite Hend. unfold skip_entry at 1. by rewrite Hdel.
    + intros name' Hne. destruct (directory_find G _ _ _ _ _ name' Hdir) as (d'' & Hf).
      exists d''. rewrite Hf, Hes. by rewrite (lookup_deleted name name' l1 e e' l2).
  - assert (dir_lookup name (dir_entries v (k :: cs)) = None) as ->.
    { rewrite <- (app_nil_r (dir_entries v (k :: cs))). by rewrite dir_lookup_passes. }
    assert (vruns fs (remove_entry fs k name) v (Err "File not found") v) as Hrun.
    { unfold remove_entry. eapply vruns_ok; [by apply read_chain_spec|].
      eapply vruns_ok; [exact Hgo|]. apply vruns_ret. }
    destruct (Hrun d Hw Habs) as (d' & Hd' & _ & Habs'). by exists d'.
  - rewrite Hno. assert (vruns fs (remove_entry fs k name) v (Err "File not found") v) as Hrun.
    { unfold remove_entry. eapply vruns_ok; [by apply read_chain_spec|].
      apply vruns_err. exact Hgo. }
    destruct (Hrun d Hw Habs) as (d' & Hd' & _ & Habs'). by exists d'.
Qed.
End Theorems.

(** ** Witnesses: the directory is the chain 2, 3 of the RAM disk, all free slots *)

Definition w_entry : Fat32DirEntry :=
  mkDirEntry (bytes_of "README  ") (bytes_of "TXT") 0x20 0 0 0 0 0 0 0 0 4 12.

Lemma w_entry_wf : entry_wf w_entry.
Proof.
  split; try done; try (vm_compute; split; done);
    (apply (bool_decide_unpack _); vm_compute; reflexivity).
Qed.

Lemma directory_reads_witness :
  ∃ d' : RamDisk, find_entry w_fs 2 (bytes_of "README.TXT") w_disk =
    Ret (Ok (dir_lookup (bytes_of "README.TXT") (dir_entries w_vol [2; 3])), d').
Proof.
  destruct (directory_reads w_fs w_disk w_vol 2 [3] (bytes_of "README.TXT") w_geometry w_working
    w_abs w_chain) as [(d' & Hrun & _) _].
  exists d'. exact Hrun.
Defined.

Lemma add_entry_then_find_witness :
  ∃ d' d'' : RamDisk, add_entry w_fs 2 w_entry w_disk = Ret (Ok tt, d') ∧
    find_entry w_fs 2 (bytes_of "README.TXT") d' = Ret (Ok (Some w_entry), d'').
Proof.
  destruct (add_entry_then_find w_fs w_disk w_vol 2 [3] w_entry w_geometry w_working w_abs w_chain)
    as [(d' & Hrun & (d'' & Hf) & _)|(d' & _ & _ & Hfull)];
    [done|exact w_entry_wf|reflexivity|reflexivity|vm_compute; reflexivity| |].
  - exists d', d''. split; [exact Hrun|exact Hf].
  - destruct (Hfull 4 0); [vm_compute; reflexivity|done].
Defined.

Lemma remove_entry_then_find_witness :
  ∃ d' : RamDisk, remove_entry w_fs 2 (bytes_of "README.TXT") w_disk =
    Ret (Err "File not found", d').
Proof.
  pose proof (remove_entry_then_find w_fs w_disk w_vol 2 [3] (bytes_of "README.TXT") w_geometry
    w_working w_abs w_chain) as Hr.
  replace (dir_lookup (bytes_of "README.TXT") (dir_entries w_vol [2; 3]))
    with (@None Fat32DirEntry) in Hr by (vm_compute; reflexivity).
  destruct Hr as (d' & Hrun & _). exists d'. exact Hrun.
Defined.
