(* ===== verification/Vfs.v ===== *)
(** * The virtual file system (kernel/src/fs/vfs/mod.rs)

    [VfsManager] over a mounted FAT32 volume. Its methods run on a state that
    holds the manager and the device; a string is the list of its UTF-8 bytes,
    and a method that fills a [&mut] buffer answers the new buffer too. *)

From stdpp Require Import base numbers list gmap strings.
From S2P Require Import Prelude ByteStr Block Bpb Fat32 Dir.

#[local] Open Scope Z_scope.
#[local] Open Scope rust_scope.

Inductive VfsError :=
  | NotFound
  | NotADirectory
  | NotAFile
  | AlreadyExists
  | PermissionDenied
  | VfsIoError
  | NoSpace
  | InvalidPath.

#[export] Instance VfsError_eq_dec : EqDecision VfsError.
Proof. solve_decision. Defined.

Definition VfsError_display (e : VfsError) : string :=
  match e with
  | NotFound => "Not found"
  | NotADirectory => "Not a directory"
  | NotAFile => "Not a file"
  | AlreadyExists => "Already exists"
  | PermissionDenied => "Permission denied"
  | VfsIoError => "I/O error"
  | NoSpace => "No space left"
  | InvalidPath => "Invalid path"
  end.

Inductive FileMode :=
  | Read
  | Write
  | Create
  | CreateNew.

#[export] Instance FileMode_eq_dec : EqDecision FileMode.
Proof. solve_decision. Defined.

Record VfsNode := mkNode {
  node_path : list Z;
  node_is_dir : bool;
  node_size : Z;
  node_cluster : Z;
}.

Record FileDescriptor := mkFd {
  fd_fd : Z;
  fd_path : list Z;
  fd_mode : FileMode;
  fd_pos : Z;
  fd_size : Z;
  fd_cluster : Z;
}.

Record VfsManager := mkVfs {
  mount_point : list Z;
  fat_fs : option Fat32Fs;
  vfs_root_cluster : Z;
  file_table : list FileDescriptor;
  next_fd : Z;
  cwd : list Z;
}.

Definition set_table (t : list FileDescriptor) (m : VfsManager) : VfsManager :=
  mkVfs (mount_point m) (fat_fs m) (vfs_root_cluster m) t (next_fd m) (cwd m).
Definition set_next_fd (n : Z) (m : VfsManager) : VfsManager :=
  mkVfs (mount_point m) (fat_fs m) (vfs_root_cluster m) (file_table m) n (cwd m).

(** [&[u8]] comparison. *)
Definition bytes_eqb (a b : list Z) : bool := bool_decide (a = b).
Definition is_empty (l : list Z) : bool := match l with [] => true | _ => false end.

Definition to_upper_83 (name : list Z) : list Z := from_utf8_lossy (to_upper_byte <$> name).

(** [str::from_utf8(l).unwrap_or(dflt)] with an empty default *)
Definition utf8_or_empty (l : list Z) : list Z := if utf8_valid l then l else [].

(** ** State *)

Record VfsState (D : Type) := mkVS { vm : VfsManager; dev : D }.
Arguments mkVS {D} _ _.
Arguments vm {D} _.
Arguments dev {D} _.

Section Vfs.
Context `{BlockDevice D}.

Abbreviation V A := (M (VfsState D) (result A VfsError)).

(** A computation on the device. *)
Definition on_dev {A} (m : M D A) : M (VfsState D) A := λ s,
  match m (dev s) with
  | Ret (a, d) => Ret (a, mkVS (vm s) d)
  | Panic => Panic
  | UB => UB
  | OutOfFuel => OutOfFuel
  end.

(** [m.map_err(|_| e)] *)
Definition dev_err {A} (e : VfsError) (m : M D (result A string)) : V A :=
  map_err (λ _, e) (on_dev m).

Definition upd_vm (f : VfsManager → VfsManager) : M (VfsState D) unit :=
  modify (λ s, mkVS (f (vm s)) (dev s)).

(** ** Mounting *)

(** [init_vfs]: the manager of the global mutex; the boot messages, and the
    unwrapping of the label they need, are not modelled. *)
Definition init_vfs : M D VfsManager :=
  r ← mount 0;
  match r with
  | Ok fs =>
      total ← liftO (total_clusters (bpb fs));
      mret (mkVfs (bytes_of "/") (Some fs) (root_cluster (bpb fs)) [] 3 (bytes_of "/"))
  | Err e => mret (mkVfs (bytes_of "/") None 0 [] 3 (bytes_of "/"))
  end.

Definition is_mounted (m : VfsManager) : bool := bool_decide (is_Some (fat_fs m)).

(** [self.fs()?] *)
Definition get_fs : V Fat32Fs :=
  s ← get;
  mret (ok_or (fat_fs (vm s)) VfsIoError).

(** ** Paths *)

Definition canonicalize (m : VfsManager) (path : list Z) : list Z :=
  if head_is (λ b, b =? slash) path then path
  else (if ends_with slash (cwd m) then cwd m else cwd m ++ [slash]) ++ path.

(** [for entry in &entries { if p(entry) { ...; break; } }] *)
Definition find_info (p : DirEntryInfo → bool) (l : list DirEntryInfo) : option DirEntryInfo :=
  snd <$> list_find p l.

(** The [loop] of [resolve_path]. *)
Fixpoint resolve_loop (fs : Fat32Fs) (fuel : nat) (current_cluster : Z) (remaining : list Z) :
    V (Z * list Z) :=
  if is_empty remaining then mret (Ok (current_cluster, [])) else
  match fuel with
  | O => liftO OutOfFuel
  | S fuel =>
      let '(component, rest) :=
        match split_first slash remaining with
        | Some (c, r) => (c, r)
        | None => (remaining, [])
        end in
      if is_empty component || bytes_eqb component (bytes_of ".")
      then resolve_loop fs fuel current_cluster rest
      else if bytes_eqb component (bytes_of "..") then
        s ← get;
        if current_cluster =? vfs_root_cluster (vm s)
        then resolve_loop fs fuel current_cluster rest
        else
          entries ←? dev_err VfsIoError (read_dir_entries fs current_cluster);
          match find_info (λ entry, bytes_eqb (di_name entry) (bytes_of "..")) entries with
          | Some entry => resolve_loop fs fuel (di_cluster entry) rest
          | None => resolve_loop fs fuel (vfs_root_cluster (vm s)) rest
          end
      else
        let upper_name := to_upper_83 component in
        entries ←? dev_err VfsIoError (read_dir_entries fs current_cluster);
        match find_info (λ entry,
                bytes_eqb (to_upper_83 (di_name entry)) (utf8_or_empty upper_name)) entries with
        | Some entry => resolve_loop fs fuel (di_cluster entry) rest
        | None => mret (Err NotFound)
        end
  end.

Definition resolve_path (path : list Z) : V (Z * list Z) :=
  fs ←? get_fs;
  s ← get;
  let path := trim_start slash path in
  if is_empty path || bytes_eqb path (bytes_of ".")
  then mret (Ok (vfs_root_cluster (vm s), []))
  else resolve_loop fs (length path) (vfs_root_cluster (vm s)) path.

Definition resolve_parent (path : list Z) : V (Z * list Z) :=
  s ← get;
  let path := trim_start slash path in
  if is_empty path then mret (Ok (vfs_root_cluster (vm s), [])) else
  match split_last slash path with
  | Some (parent, name) =>
      if is_empty parent then mret (Ok (vfs_root_cluster (vm s), name))
      else
        '(cluster, _) ←? resolve_path parent;
        mret (Ok (cluster, name))
  | None => mret (Ok (vfs_root_cluster (vm s), path))
  end.

Definition list_dir (path : list Z) : V (list VfsNode) :=
  fs ←? get_fs;
  '(cluster, _) ←? resolve_path path;
  entries ←? dev_err VfsIoError (read_dir_entries fs cluster);
  mret (Ok ((λ entry, mkNode (di_name entry) (di_is_dir entry) (di_size entry) (di_cluster entry))
              <$> entries)).

(** ** Descriptors *)

(** [let fd = self.next_fd; self.next_fd += 1; self.file_table.push(..); Ok(fd)] *)
Definition push_fd (path : list Z) (mode : FileMode) (size cluster : Z) : V Z :=
  s ← get;
  let fd := next_fd (vm s) in
  _ ← upd_vm (set_next_fd (fd +₆₄ 1));
  _ ← upd_vm (λ m, set_table (file_table m ++ [mkFd fd path mode 0 size cluster]) m);
  mret (Ok fd).

(** An entry for [upper_name], as [open], [mkdir] and [create_file] build it. *)
Definition fresh_entry (upper_name : list Z) (attributes cluster size : Z) : outcome Fat32DirEntry :=
  e ← set_name_83 upper_name zeroed_entry;
  mret (set_file_size size (set_first_cluster cluster (set_attributes attributes e))).

Definition open (path : list Z) (mode : FileMode) : V Z :=
  fs ←? get_fs;
  s ← get;
  let path_clean := canonicalize (vm s) path in
  '(parent_cluster, file_name) ←? resolve_parent path_clean;
  if is_empty file_name then
    if bool_decide (mode = Read) then
      '(cluster, _) ←? resolve_path path_clean;
      push_fd path_clean mode 0 cluster
    else mret (Err InvalidPath)
  else
    let upper_name := to_upper_83 file_name in
    existing ←? dev_err VfsIoError (find_entry fs parent_cluster upper_name);
    match mode with
    | Read | Write =>
        entry ←? mret (ok_or existing NotFound);
        if is_directory entry then mret (Err NotAFile) else
        push_fd path_clean mode (de_file_size entry) (first_cluster entry)
    | Create | CreateNew =>
        match existing with
        | Some entry =>
            if bool_decide (mode = CreateNew) then mret (Err AlreadyExists)
            else if is_directory entry then mret (Err NotAFile)
            else push_fd path_clean mode (de_file_size entry) (first_cluster entry)
        | None =>
            first ←? dev_err NoSpace (allocate_and_write fs []);
            new_entry ← liftO (fresh_entry upper_name 0x20 first 0);
            _ ←? dev_err VfsIoError (add_entry fs parent_cluster new_entry);
            push_fd path_clean mode 0 first
        end
    end.

(** [self.file_table.iter().find(|f| f.fd == fd)] *)
Definition find_fd (fd : Z) (t : list FileDescriptor) : option (nat * FileDescriptor) :=
  list_find (λ f, fd_fd f = fd) t.

(** The answer is the number of bytes read and the buffer. *)
Definition read (fd : Z) (buf : list Z) : V (Z * list Z) :=
  s ← get;
  '(_, file) ←? mret (ok_or (find_fd fd (file_table (vm s))) NotFound);
  fs ←? get_fs;
  let bytes_left := sat_sub (fd_size file) (fd_pos file) in
  if bytes_left =? 0 then mret (Ok (0, buf)) else
  let to_read := Z.min (zlen buf) bytes_left in
  '(file_buf, _) ←? dev_err VfsIoError
    (read_file fs (fd_cluster file) (fd_size file) (zrepeat (fd_size file) 0));
  let end_ := Z.min (fd_pos file +₆₄ to_read) (fd_size file) in
  let available := sat_sub end_ (fd_pos file) in
  if 0 <? available then
    src ← liftO (zslice file_buf (fd_pos file) end_);
    buf' ← liftO (zcopy buf 0 src);
    mret (Ok (available, buf'))
  else mret (Ok (0, buf)).

(** The body of the cluster loop of [update_file_size]. *)
Definition resize_in_cluster (fs : Fat32Fs) (upper_name : list Z) (new_size cluster : Z) :
    M D (result (option unit) string) :=
  cluster_buf ←? read_cluster fs cluster (empty_cluster fs);
  r ← liftO (scan_find cluster_buf upper_name (range 0 (entries_per_cluster fs)));
  match r with
  | ScanNext => mret (Ok None)
  | ScanEnd => mret (Ok (Some tt))
  | ScanHit offset entry =>
      cluster_buf ← liftO (zcopy cluster_buf offset (encode_entry (set_file_size new_size entry)));
      _ ←? write_cluster fs cluster cluster_buf;
      mret (Ok (Some tt))
  end.

Definition update_file_size (path : list Z) (new_size : Z) : V unit :=
  fs ←? get_fs;
  '(parent_cluster, file_name) ←? resolve_parent path;
  if is_empty file_name then mret (Ok tt) else
  let upper_name := to_upper_83 file_name in
  chain ←? dev_err VfsIoError (read_chain fs parent_cluster);
  _ ←? dev_err VfsIoError (mfor_ret chain (resize_in_cluster fs upper_name new_size));
  mret (Ok tt).

(** The data written at the position of [file] when it is not the start. *)
Definition splice_data (fs : Fat32Fs) (file : FileDescriptor) (data : list Z) : V (list Z) :=
  let new_end := fd_pos file +₆₄ zlen data in
  let buf_size := Z.max new_end (fd_size file) in
  let full_data := zrepeat buf_size 0 in
  full_data ←? (if 0 <? fd_size file
    then
      '(b, _) ←? dev_err VfsIoError (read_file fs (fd_cluster file) (fd_size file) full_data);
      mret (Ok b)
    else mret (Ok full_data));
  let write_end := Z.min new_end buf_size in
  let write_len := sat_sub write_end (fd_pos file) in
  src ← liftO (zslice data 0 write_len);
  dst ← liftO (zslice full_data (fd_pos file) write_end);
  full_data ← liftO (if zlen dst =? zlen src then zcopy full_data (fd_pos file) src else Panic);
  mret (Ok full_data).

Definition write (fd : Z) (data : list Z) : V Z :=
  s ← get;
  '(file_idx, file) ←? mret (ok_or (find_fd fd (file_table (vm s))) NotFound);
  if bool_decide (fd_mode file = Read) then mret (Err PermissionDenied) else
  fs ←? mret (ok_or (fat_fs (vm s)) VfsIoError);
  _ ←? (if fd_pos file =? 0
    then dev_err VfsIoError (write_file_data fs (fd_cluster file) data)
    else
      full_data ←? splice_data fs file data;
      dev_err VfsIoError (write_file_data fs (fd_cluster file) full_data));
  let pos := fd_pos file +₆₄ zlen data in
  let new_size := Z.max pos (fd_size file) in
  let file' := mkFd (fd_fd file) (fd_path file) (fd_mode file) pos (wrap 32 new_size)
                 (fd_cluster file) in
  _ ← upd_vm (λ m, set_table (<[file_idx := file']> (file_table m)) m);
  _ ←? (if 0 <? fd_size file' then update_file_size (fd_path file') (fd_size file')
        else mret (Ok tt));
  mret (Ok (zlen data)).

Definition close (fd : Z) : V unit :=
  _ ← upd_vm (λ m, set_table (filter (λ f, fd_fd f ≠ fd) (file_table m)) m);
  mret (Ok tt).

(** ** Path operations *)

Definition stat (path : list Z) : V VfsNode :=
  fs ←? get_fs;
  '(cluster, _) ←? resolve_path path;
  s ← get;
  let path_clean := canonicalize (vm s) path in
  '(_, file_name) ←? resolve_parent path_clean;
  if is_empty file_name then mret (Ok (mkNode path_clean true 0 cluster)) else
  '(parent_cluster, _) ←? resolve_parent path_clean;
  let upper_name := to_upper_83 file_name in
  found ←? dev_err VfsIoError (find_entry fs parent_cluster upper_name);
  entry ←? mret (ok_or found NotFound);
  mret (Ok (mkNode path_clean (is_directory entry) (de_file_size entry) (first_cluster entry))).

(** The two entries a new directory starts with. *)
Definition dot_entry (name : string) (cluster : Z) : Fat32DirEntry :=
  set_first_cluster cluster (set_attributes 0x10 (set_names (bytes_of name) (replicate 3 0) zeroed_entry)).

Definition mkdir (path : list Z) : V unit :=
  fs ←? get_fs;
  '(parent_cluster, dir_name) ←? resolve_parent path;
  if is_empty dir_name then mret (Err InvalidPath) else
  let upper_name := to_upper_83 dir_name in
  existing ←? dev_err VfsIoError (find_entry fs parent_cluster upper_name);
  match existing with
  | Some _ => mret (Err AlreadyExists)
  | None =>
      new_cluster ←? dev_err NoSpace (alloc_cluster fs);
      buf ← liftO (zcopy (empty_cluster fs) 0 (encode_entry (dot_entry ".       " new_cluster)));
      buf ← liftO (zcopy buf 32 (encode_entry (dot_entry "..      " parent_cluster)));
      _ ←? dev_err VfsIoError (write_cluster fs new_cluster buf);
      _ ←? dev_err VfsIoError (write_fat_entry fs new_cluster FAT32_EOC);
      new_entry ← liftO (fresh_entry upper_name 0x10 new_cluster 0);
      _ ←? dev_err VfsIoError (add_entry fs parent_cluster new_entry);
      mret (Ok tt)
  end.

(** The inner loop of [update_dir_entry]. *)
Fixpoint scan_update (buf : list Z) (name_upper : list Z) (l : list Z) :
    outcome (option (Z * Fat32DirEntry)) :=
  match l with
  | [] => mret None
  | i :: l =>
      let offset := i * 32 in
      e ← read_entry buf offset;
      if is_end e || is_deleted e || is_long_name e || is_volume_label e
      then scan_update buf name_upper l
      else if bool_decide (full_name_upper e = name_upper) then mret (Some (offset, e))
      else scan_update buf name_upper l
  end.

Definition update_in_cluster (fs : Fat32Fs) (name_upper : list Z) (new_cluster new_size cluster : Z) :
    M D (result (option unit) string) :=
  cluster_buf ←? read_cluster fs cluster (empty_cluster fs);
  r ← liftO (scan_update cluster_buf name_upper (range 0 (entries_per_cluster fs)));
  match r with
  | None => mret (Ok None)
  | Some (offset, e) =>
      let e := set_file_size new_size (set_first_cluster new_cluster e) in
      cluster_buf ← liftO (zcopy cluster_buf offset (encode_entry e));
      _ ←? write_cluster fs cluster cluster_buf;
      mret (Ok (Some tt))
  end.

Definition update_dir_entry (dir_cluster : Z) (name_upper : list Z) (new_cluster new_size : Z) : V unit :=
  fs ←? get_fs;
  chain ←? dev_err VfsIoError (read_chain fs dir_cluster);
  o ←? dev_err VfsIoError (mfor_ret chain (update_in_cluster fs name_upper new_cluster new_size));
  match o with
  | Some _ => mret (Ok tt)
  | None => mret (Err NotFound)
  end.

Definition create_file (path data : list Z) : V unit :=
  fs ←? get_fs;
  '(parent_cluster, file_name) ←? resolve_parent path;
  if is_empty file_name then mret (Err InvalidPath) else
  let upper_name := to_upper_83 file_name in
  existing ←? dev_err VfsIoError (find_entry fs parent_cluster upper_name);
  match existing with
  | Some entry =>
      if is_directory entry then mret (Err NotAFile) else
      _ ←? (if 2 <=? first_cluster entry
            then dev_err VfsIoError (free_chain fs (first_cluster entry))
            else mret (Ok tt));
      new_cluster ←? (if is_empty data
        then
          c ←? dev_err NoSpace (alloc_cluster fs);
          _ ←? dev_err VfsIoError (write_fat_entry fs c FAT32_EOC);
          mret (Ok c)
        else dev_err NoSpace (allocate_and_write fs data));
      update_dir_entry parent_cluster upper_name new_cluster (wrap 32 (zlen data))
  | None =>
      first ←? dev_err NoSpace (allocate_and_write fs data);
      new_entry ← liftO (fresh_entry upper_name 0x20 first (wrap 32 (zlen data)));
      _ ←? dev_err VfsIoError (add_entry fs parent_cluster new_entry);
      mret (Ok tt)
  end.

Definition delete (path : list Z) : V unit :=
  fs ←? get_fs;
  '(parent_cluster, file_name) ←? resolve_parent path;
  if is_empty file_name then mret (Err InvalidPath) else
  let upper_name := to_upper_83 file_name in
  removed ←? dev_err VfsIoError (remove_entry fs parent_cluster upper_name);
  _ ←? (if 2 <=? first_cluster removed
        then dev_err VfsIoError (free_chain fs (first_cluster removed))
        else mret (Ok tt));
  mret (Ok tt).

Definition read_file_content (path : list Z) : V (list Z) :=
  fs ←? get_fs;
  '(_, file_name) ←? resolve_parent path;
  if is_empty file_name then mret (Ok []) else
  '(parent_cluster, _) ←? resolve_parent path;
  let upper_name := to_upper_83 file_name in
  found ←? dev_err VfsIoError (find_entry fs parent_cluster upper_name);
  entry ←? mret (ok_or found NotFound);
  if is_directory entry then mret (Err NotAFile) else
  if de_file_size entry =? 0 then mret (Ok []) else
  '(buf, _) ←? dev_err VfsIoError
    (read_file fs (first_cluster entry) (de_file_size entry) (zrepeat (de_file_size entry) 0));
  mret (Ok buf).

End Vfs.
