(* ===== verification/VfsSpec.v ===== *)
(** * The VFS on a volume

    Running a method of [VfsManager] on a working device that represents a
    volume: a manager and a volume before, an answer, a manager and a volume
    after. Paths are resolved by [walk], a function of the directory listings. *)

From stdpp Require Import base numbers list gmap strings.
From S2P Require Import Prelude ByteStr Block Bpb Fat32 Volume Files Dir DirSpec Vfs.

#[local] Open Scope Z_scope.
#[local] Open Scope rust_scope.

Section Runs.
Context `{BlockDeviceLaws D} (fs : Fat32Fs).

Definition fruns {A} (m : M (VfsState D) A) (mg : VfsManager) (v : volume)
    (r : A) (mg' : VfsManager) (v' : volume) : Prop :=
  ∀ d, working d → abs fs (content d) v →
    ∃ d', m (mkVS mg d) = Ret (r, mkVS mg' d') ∧ working d' ∧ abs fs (content d') v'.

Lemma fruns_ret {A} (a : A) mg v : fruns (mret a) mg v a mg v.
Proof. intros d Hw Hc. by exists d. Qed.

Lemma fruns_bind {A B} (m : M (VfsState D) A) (k : A → M (VfsState D) B) mg v a mg1 v1 b mg2 v2 :
  fruns m mg v a mg1 v1 → fruns (k a) mg1 v1 b mg2 v2 → fruns (m ≫= k) mg v b mg2 v2.
Proof.
  intros Hm Hk d Hw Hc. destruct (Hm d Hw Hc) as (d1 & Hrun & Hw1 & Hc1).
  rewrite (bind_Ret _ _ _ _ _ Hrun). by apply Hk.
Qed.

Lemma fruns_ok {A B E} (m : M (VfsState D) (result A E)) (k : A → M (VfsState D) (result B E))
    mg v a mg1 v1 b mg2 v2 :
  fruns m mg v (Ok a) mg1 v1 → fruns (k a) mg1 v1 b mg2 v2 → fruns (x ←? m; k x) mg v b mg2 v2.
Proof. intros Hm Hk. eapply fruns_bind; [exact Hm|exact Hk]. Qed.

Lemma fruns_err {A B E} (m : M (VfsState D) (result A E)) (k : A → M (VfsState D) (result B E))
    mg v e mg1 v1 :
  fruns m mg v (Err e) mg1 v1 → fruns (x ←? m; k x) mg v (Err e) mg1 v1.
Proof. intros Hm. eapply fruns_bind; [exact Hm|]. apply fruns_ret. Qed.

Lemma fruns_get {B} (k : VfsState D → M (VfsState D) B) mg v b mg2 v2 :
  (∀ d, fruns (k (mkVS mg d)) mg v b mg2 v2) → fruns (s ← get; k s) mg v b mg2 v2.
Proof. intros Hk d Hw Hc. exact (Hk d d Hw Hc). Qed.

Lemma fruns_dev {A} (m : M D (result A string)) e mg v a v' :
  vruns fs m v (Ok a) v' → fruns (dev_err e m) mg v (Ok a) mg v'.
Proof.
  intros Hm d Hw Hc. destruct (Hm d Hw Hc) as (d' & Hrun & Hw' & Hc'). exists d'.
  split; [|done]. unfold dev_err, map_err, mbind, M_bind, on_dev. cbn. by rewrite Hrun.
Qed.

Lemma fruns_dev_err {A} (m : M D (result A string)) e mg v msg v' :
  vruns fs m v (Err msg) v' → fruns (dev_err e m) mg v (Err e) mg v'.
Proof.
  intros Hm d Hw Hc. destruct (Hm d Hw Hc) as (d' & Hrun & Hw' & Hc'). exists d'.
  split; [|done]. unfold dev_err, map_err, mbind, M_bind, on_dev. cbn. by rewrite Hrun.
Qed.

Lemma fruns_liftO {A B} (o : outcome A) a (k : A → M (VfsState D) B) mg v b mg2 v2 :
  o = Ret a → fruns (k a) mg v b mg2 v2 → fruns (x ← liftO o; k x) mg v b mg2 v2.
Proof. intros -> Hk. eapply fruns_bind; [|exact Hk]. intros d Hw Hc. by exists d. Qed.

Lemma fruns_fs {B} (k : Fat32Fs → M (VfsState D) (result B VfsError)) mg v b mg2 v2 :
  fat_fs mg = Some fs → fruns (k fs) mg v b mg2 v2 → fruns (fs ←? get_fs; k fs) mg v b mg2 v2.
Proof.
  intros Hfs Hk. eapply fruns_ok; [|exact Hk]. intros d Hw Hc. exists d.
  split; [|done]. unfold get_fs, mbind, M_bind, get. cbn. by rewrite Hfs.
Qed.

Lemma fruns_mono {A} (m : M (VfsState D) A) mg v r mg' v' :
  geometry fs → (vol_ok fs v → fruns m mg v r mg' v') → fruns m mg v r mg' v'.
Proof. intros G Hm d Hw Hc. apply Hm; [by eapply abs_vol_ok|done..]. Qed.

End Runs.

(** ** Names and paths *)

Lemma to_upper_ascii l :
  Forall (λ b, 0 ≤ b < 128) l → Forall (λ b, 0 ≤ b < 128) (to_upper_byte <$> l).
Proof.
  intros Hl. apply Forall_fmap. eapply Forall_impl; [exact Hl|]. intros b Hb; cbn beta in Hb.
  cbn. unfold to_upper_byte, is_lower, in_range.
  destruct (Z.leb_spec 97 b), (Z.leb_spec b 122); cbn; lia.
Qed.

Lemma to_upper_83_ascii name :
  Forall (λ b, 0 ≤ b < 128) name → to_upper_83 name = to_upper_byte <$> name.
Proof.
  intros Hn. unfold to_upper_83. by apply from_utf8_lossy_valid, utf8_valid_ascii, to_upper_ascii.
Qed.

Lemma utf8_or_empty_ascii l : Forall (λ b, 0 ≤ b < 128) l → utf8_or_empty l = l.
Proof. intros Hl. unfold utf8_or_empty. by rewrite utf8_valid_ascii. Qed.

Lemma split_last_none c l : c ∉ l → split_last c l = None.
Proof.
  induction l as [|b l IH]; cbn; [done|]. intros [Hb Hl]%not_elem_of_cons. rewrite IH by done.
  by destruct (Z.eqb_spec b c).
Qed.

Lemma split_first_none c l : c ∉ l → split_first c l = None.
Proof.
  induction l as [|b l IH]; cbn; [done|]. intros [Hb Hl]%not_elem_of_cons. rewrite IH by done.
  by destruct (Z.eqb_spec b c).
Qed.

Lemma split_first_app c x y : c ∉ x → split_first c (x ++ c :: y) = Some (x, y).
Proof.
  induction x as [|b x IH]; cbn; intros Hx; [by rewrite Z.eqb_refl|].
  apply not_elem_of_cons in Hx as [Hb Hx]. destruct (Z.eqb_spec b c); [done|]. by rewrite IH.
Qed.

(** A name of a file below the root: ASCII, of the 8.3 shape once in upper case. *)
Record plain_name (name : list Z) : Prop := {
  pn_ascii : Forall (λ b, 0 ≤ b < 128) name;
  pn_short : short_name (to_upper_byte <$> name);
  pn_slash : slash ∉ name;
}.

Lemma plain_name_nonempty name : plain_name name → name ≠ [].
Proof. intros [_ Hs _] ->. cbn in Hs. inversion Hs as [? Hl|base ? Hl]; [cbn in *; lia|by destruct base]. Qed.

(** ** The entry of a fresh file or directory *)

Lemma zeroed_entry_wf : entry_wf zeroed_entry.
Proof. split; try (vm_compute; done); (apply (bool_decide_unpack _); vm_compute; reflexivity). Qed.

Lemma name_char_bytes l : Forall name_char l → bytes l.
Proof. intros Hl. eapply Forall_impl; [exact Hl|]. by intros b [? _]. Qed.

Lemma padded_bytes l n : Forall name_char l → bytes (l ++ replicate n space).
Proof.
  intros Hl. apply Forall_app. split; [by apply name_char_bytes|].
  apply Forall_replicate. unfold is_byte, space. lia.
Qed.

(** Upper-case ASCII, in names as they are stored. *)
Definition upper_char (b : Z) : Prop := 0 ≤ b < 128 ∧ is_lower b = false.
Definition upper_entry (e : Fat32DirEntry) : Prop :=
  Forall upper_char (de_name e) ∧ Forall upper_char (de_ext e).

Lemma to_upper_chars l :
  Forall (λ b, 0 ≤ b < 128) l → Forall upper_char (to_upper_byte <$> l).
Proof.
  intros Hl. apply Forall_fmap. eapply Forall_impl; [exact Hl|]. intros b Hb; cbn beta in Hb.
  unfold compose, upper_char, to_upper_byte, is_lower, in_range.
  destruct (Z.leb_spec 97 b), (Z.leb_spec b 122); cbn; (split; [lia|]);
    destruct (Z.leb_spec 97 (b - 32)), (Z.leb_spec (b - 32) 122); cbn; lia || done.
Qed.

Lemma padded_upper l n : Forall upper_char l → Forall upper_char (l ++ replicate n space).
Proof.
  intros Hl. apply Forall_app. split; [done|]. by apply Forall_replicate.
Qed.

(** What a fresh entry for a plain name looks like. *)
Record fresh (upper : list Z) (attributes cluster size : Z) (e : Fat32DirEntry) : Prop := {
  fr_wf : entry_wf e;
  fr_end : is_end e = false;
  fr_skip : skip_entry e = false;
  fr_name : full_name_upper e = upper;
  fr_attr : de_attributes e = attributes;
  fr_cluster : first_cluster e = cluster;
  fr_size : de_file_size e = size;
  fr_upper : upper_entry e;
}.

Lemma fresh_entry_spec upper attributes cluster size :
  short_name upper → Forall upper_char upper →
  attributes = ATTR_ARCHIVE ∨ attributes = ATTR_DIRECTORY →
  0 ≤ cluster < 2 ^ 32 → 0 ≤ size < 2 ^ 32 →
  ∃ e, fresh_entry upper attributes cluster size = Ret e ∧ fresh upper attributes cluster size e.
Proof.
  intros Hs Ha Hattr Hc Hz.
  destruct (set_name_83_short upper zeroed_entry Hs) as (b & x & Hrun & Hl & Hb & Hx & Hxc & Hup).
  pose proof (full_name_upper_set _ _ _ Hs Hrun) as Hname.
  set (nm := b ++ replicate (8 - length b) space) in *.
  set (ex := x ++ replicate (3 - length x) space) in *.
  exists (set_file_size size (set_first_cluster cluster (set_attributes attributes
    (set_names nm ex zeroed_entry)))).
  split; [unfold fresh_entry; by rewrite Hrun|].
  assert (∃ b0 b', b = b0 :: b') as (b0 & b' & ->) by (destruct b; [cbn in Hl; lia|by eexists _, _]).
  pose proof Hb as Hbc. inversion_clear Hbc as [|?? (Hb0 & Hsp & Hz0 & _) _].
  assert (Forall upper_char (b0 :: b') ∧ Forall upper_char x) as [Hub Hux].
  { rewrite Hup in Ha. apply Forall_app in Ha as [? Hx']. split; [done|].
    destruct x; [constructor|by inversion_clear Hx']. }
  assert (0 ≤ b0 < 128) as Hb0a by (inversion_clear Hub as [|?? [? _] _]; done).
  assert (0 ≤ attributes < 2 ^ 8) as Hab by (destruct Hattr as [-> | ->]; done).
  split.
  - cut (entry_wf (set_attributes attributes (set_names nm ex zeroed_entry))).
    { intros Hw. apply (set_first_cluster_wf cluster) in Hw; [|done]. by destruct Hw; split. }
    destruct zeroed_entry_wf.
    split; cbn [set_attributes set_names de_name de_ext de_attributes]; try done.
    + unfold nm. rewrite length_app, length_replicate. lia.
    + by apply padded_bytes.
    + unfold ex. rewrite length_app, length_replicate. lia.
    + by apply padded_bytes.
  - unfold is_end, name0. cbn. by apply Z.eqb_neq.
  - unfold skip_entry, is_deleted, is_long_name, is_volume_label, name0. cbn -[Z.land].
    destruct (Z.eqb_spec b0 229); [lia|]. by destruct Hattr as [-> | ->].
  - exact Hname.
  - done.
  - transitivity (first_cluster (set_first_cluster cluster (set_attributes attributes
      (set_names nm ex zeroed_entry)))); [done|]. by apply first_cluster_set.
  - done.
  - split; [by apply (padded_upper (b0 :: b'))|by apply padded_upper].
Qed.

(** ** Resolution of paths *)

(** The components of a path. *)
Fixpoint components_loop (fuel : nat) (path : list Z) : list (list Z) :=
  if is_empty path then [] else
  match fuel with
  | O => []
  | S fuel =>
      match split_first slash path with
      | Some (c, r) => c :: components_loop fuel r
      | None => [path]
      end
  end.
Definition components (path : list Z) : list (list Z) := components_loop (length path) path.

(** One component: [..] leads to the root from everywhere. *)
Definition step_dir (root : Z) (ls : Z → list DirEntryInfo) (c : Z) (comp : list Z) : option Z :=
  if is_empty comp || bytes_eqb comp (bytes_of ".") then Some c
  else if bytes_eqb comp (bytes_of "..") then Some root
  else di_cluster <$> find_info (λ entry,
    bytes_eqb (to_upper_83 (di_name entry)) (utf8_or_empty (to_upper_83 comp))) (ls c).

Fixpoint walk (root : Z) (ls : Z → list DirEntryInfo) (c : Z) (comps : list (list Z)) : option Z :=
  match comps with
  | [] => Some c
  | comp :: comps =>
      match step_dir root ls c comp with
      | Some c => walk root ls c comps
      | None => None
      end
  end.

(** [es] is what listing cluster [c] gives: nothing below cluster 2. *)
Definition dir_at (v : volume) (c : Z) (es : list DirEntryInfo) : Prop :=
  c < 2 ∧ es = [] ∨ ∃ cs, chain_ok v (c :: cs) ∧ dir_listing (dir_entries v (c :: cs)) = es.

(** The clusters [P] can be listed, and entries lead from [P] to [P]: a file tree. *)
Definition tree (v : volume) (ls : Z → list DirEntryInfo) (P : Z → Prop) : Prop :=
  ∀ c, P c → dir_at v c (ls c) ∧ ∀ e, e ∈ ls c → P (di_cluster e).

Lemma listing_no_dots es e :
  e ∈ dir_listing es → di_name e ≠ bytes_of ".".
Proof.
  induction es as [|x es IH]; cbn; [by intros ?%elem_of_nil|].
  destruct (is_end x); [by intros ?%elem_of_nil|]. intros [He|He]%elem_of_app; [|by apply IH].
  revert He. unfold listed. destruct (skip_entry x); [by intros ?%elem_of_nil|].
  case_bool_decide; [by intros ?%elem_of_nil|].
  case_bool_decide; [by intros ?%elem_of_nil|]. cbn. by intros ->%list_elem_of_singleton.
Qed.

Lemma listing_no_dotdot es e :
  e ∈ dir_listing es → di_name e ≠ bytes_of "..".
Proof.
  induction es as [|x es IH]; cbn; [by intros ?%elem_of_nil|].
  destruct (is_end x); [by intros ?%elem_of_nil|]. intros [He|He]%elem_of_app; [|by apply IH].
  revert He. unfold listed. destruct (skip_entry x); [by intros ?%elem_of_nil|].
  case_bool_decide; [by intros ?%elem_of_nil|].
  case_bool_decide; [by intros ?%elem_of_nil|]. cbn. by intros ->%list_elem_of_singleton.
Qed.

Lemma find_info_none p l : (∀ e, e ∈ l → p e = false) → find_info p l = None.
Proof.
  intros Hl. unfold find_info. destruct (list_find p l) as [[i e]|] eqn:Hf; [|done].
  apply list_find_Some in Hf as (Hi & Hp & _). apply list_elem_of_lookup_2, Hl in Hi.
  by rewrite Hi in Hp.
Qed.

Lemma no_dotdot_entry es :
  find_info (λ entry, bytes_eqb (di_name entry) (bytes_of "..")) (dir_listing es) = None.
Proof.
  apply find_info_none. intros e He. apply bool_decide_eq_false_2. by eapply listing_no_dotdot.
Qed.

Section Resolve.
Context `{BlockDeviceLaws D} (fs : Fat32Fs) (G : geometry fs).

Lemma list_dir_at v c es : vol_ok fs v → dir_at v c es → vruns fs (read_dir_entries fs c) v (Ok es) v.
Proof.
  intros Hv [[Hc ->]|(cs & Hch & <-)]; [|by apply read_dir_entries_spec].
  unfold read_dir_entries. eapply (vruns_ok fs _ _ _ []); [|apply vruns_ret].
  unfold read_chain, CHAIN_FUEL. replace (Z.to_nat 100002) with (S (Z.to_nat 100001)) by lia.
  cbn [read_chain_loop]. destruct (Z.ltb_spec c 2); [apply vruns_ret|lia].
Qed.

Lemma find_info_elem p l e : find_info p l = Some e → e ∈ l.
Proof.
  unfold find_info. destruct (list_find p l) as [[i x]|] eqn:Hf; [|done]. intros [= <-].
  apply list_find_Some in Hf as (Hi & _). by eapply list_elem_of_lookup_2.
Qed.

Lemma no_dotdot_at v c es :
  dir_at v c es → find_info (λ entry, bytes_eqb (di_name entry) (bytes_of "..")) es = None.
Proof. intros [[_ ->]|(cs & _ & <-)]; [done|apply no_dotdot_entry]. Qed.

Lemma resolve_loop_refines mg v ls P fuel c path :
  vol_ok fs v → (length path ≤ fuel)%nat → tree v ls P → P (vfs_root_cluster mg) → P c →
  fruns fs (resolve_loop fs fuel c path) mg v
    (match walk (vfs_root_cluster mg) ls c (components_loop fuel path) with
     | Some c' => Ok (c', [])
     | None => Err NotFound
     end) mg v.
Proof.
  intros Hv Hlen Htree Hroot. revert c path Hlen.
  induction fuel as [|fuel IH]; intros c path Hlen Hc.
  { destruct path; [apply fruns_ret|cbn in Hlen; lia]. }
  cbn [resolve_loop components_loop]. destruct path as [|b path]; [apply fruns_ret|].
  cbn [is_empty].
  assert (∃ comp rest, (match split_first slash (b :: path) with
      | Some (c, r) => (c, r) | None => (b :: path, []) end) = (comp, rest) ∧
    (length rest ≤ fuel)%nat ∧
    (match split_first slash (b :: path) with
      | Some (c, r) => c :: components_loop fuel r | None => [b :: path] end) =
      comp :: components_loop fuel rest) as (comp & rest & -> & Hrest & ->).
  { destruct (split_first slash (b :: path)) as [[x y]|] eqn:Hs.
    - exists x, y. split_and!; [done| |done]. apply split_first_Some in Hs as [Heq _].
      apply (f_equal length) in Heq. rewrite length_app in Heq. cbn in Heq, Hlen. lia.
    - exists (b :: path), []. split_and!; [done|cbn; lia|]. by destruct fuel. }
  cbn [walk]. unfold step_dir.
  destruct (is_empty comp || bytes_eqb comp (bytes_of ".")); [by apply IH|].
  destruct (Htree c Hc) as [Hat Hnext].
  destruct (bytes_eqb comp (bytes_of "..")).
  - apply fruns_get. intros d. cbn [vm]. destruct (Z.eqb_spec c (vfs_root_cluster mg)) as [->|].
    + by apply IH.
    + eapply fruns_ok; [by eapply fruns_dev, list_dir_at|].
      rewrite (no_dotdot_at _ _ _ Hat). by apply IH.
  - eapply fruns_ok; [by eapply fruns_dev, list_dir_at|].
    destruct (find_info _ (ls c)) as [entry|] eqn:Hf; cbn [fmap option_fmap option_map];
      [|apply fruns_ret]. apply IH; [done|]. by eapply Hnext, find_info_elem.
Qed.

Lemma trim_start_length c l : (length (trim_start c l) ≤ length l)%nat.
Proof. induction l as [|b l IH]; cbn; [done|]. destruct (b =? c); cbn; lia. Qed.

Lemma resolve_path_refines mg v ls P path :
  vol_ok fs v → fat_fs mg = Some fs → tree v ls P → P (vfs_root_cluster mg) →
  fruns fs (resolve_path path) mg v
    (match walk (vfs_root_cluster mg) ls (vfs_root_cluster mg)
             (components (trim_start slash path)) with
     | Some c' => Ok (c', [])
     | None => Err NotFound
     end) mg v.
Proof.
  intros Hv Hfs Htree Hroot. unfold resolve_path. apply fruns_fs; [done|].
  apply fruns_get. intros d. cbn [vm]. set (p := trim_start slash path).
  destruct (is_empty p || bytes_eqb p (bytes_of ".")) eqn:Hp.
  - assert (walk (vfs_root_cluster mg) ls (vfs_root_cluster mg) (components p) =
      Some (vfs_root_cluster mg)) as ->; [|apply fruns_ret].
    destruct p as [|b p]; [done|]. cbn [is_empty orb] in Hp. apply bool_decide_eq_true in Hp.
    by rewrite Hp.
  - unfold components. by eapply resolve_loop_refines.
Qed.

End Resolve.
