(* ===== verification/VfsFiles.v ===== *)
(** * Creating files and directories on a volume

    How the pieces of [create_file] and [mkdir] change the volume: a new chain,
    then one new entry in the parent's directory. *)

From stdpp Require Import base numbers list gmap strings.
From S2P Require Import Prelude ByteStr Block Bpb Fat32 Volume Files Dir DirSpec FatTheorems DirTheorems.
From S2P Require Import Vfs VfsSpec.

#[local] Open Scope Z_scope.
#[local] Open Scope rust_scope.

(** [v'] is [v] but for cluster [j]. *)
Definition same_except (j : Z) (v v' : volume) : Prop :=
  ∀ i, i ≠ j → v_fat v' !! i = v_fat v !! i ∧ v_data v' !! i = v_data v !! i.

Lemma linked_same f f' cs : (∀ i, i ∈ cs → f' !! i = f !! i) → linked f cs → linked f' cs.
Proof.
  induction cs as [|c cs IH]; intros Hs Hl; [done|]. destruct cs as [|c' cs].
  - destruct Hl as (x & Hx & ?). exists x. rewrite Hs by left. done.
  - destruct Hl as [Hx Hl]. split; [rewrite Hs by left; done|].
    apply IH; [|done]. intros i Hi. apply Hs. by right.
Qed.

Lemma chain_same {j v v' cs} : same_except j v v' → j ∉ cs → chain_ok v cs → chain_ok v' cs.
Proof.
  intros Hs Hj [Hl Hnd Hlen]. split; [|done|done]. eapply linked_same; [|exact Hl].
  intros i Hi. apply Hs. by intros ->.
Qed.

Lemma dir_entries_same j v v' cs :
  same_except j v v' → j ∉ cs → dir_entries v' cs = dir_entries v cs.
Proof.
  intros Hs Hj. unfold dir_entries. f_equal. apply list_fmap_ext. intros i x Hx.
  apply list_elem_of_lookup_2 in Hx. by rewrite (proj2 (Hs x ltac:(by intros ->))).
Qed.

Lemma set_data_chain k b v cs : chain_ok v cs → chain_ok (set_data k b v) cs.
Proof. by intros [? ? ?]. Qed.

Section Create.
Context `{BlockDeviceLaws D} (fs : Fat32Fs) (G : geometry fs).

Lemma chain_singleton v j : v_fat v !! j = Some FAT32_EOC → chain_ok v [j].
Proof.
  intros Hj. split; [exists FAT32_EOC; done|apply NoDup_singleton|].
  rewrite zlen_cons. change (zlen (@nil Z)) with 0. lia.
Qed.

Lemma free_is_cluster v j : vol_ok fs v → first_free fs v j → is_cluster fs j.
Proof. intros Hv Hj. apply (vo_fat _ _ Hv). exists FAT32_FREE. apply Hj. Qed.

Lemma needed_one (data : list Z) : 0 < zlen data ≤ csize fs → needed fs (zlen data) = 1.
Proof. intros Hd. unfold needed. symmetry. apply (Z.div_unique _ _ _ (zlen data - 1)); lia. Qed.

Lemma vol_ok_set_fat v k x :
  vol_ok fs v → is_cluster fs k → 0 ≤ x < 2 ^ 28 → vol_ok fs (set_fat k x v).
Proof.
  intros [H1 H2 H3 H4] Hk Hx. split; cbn [set_fat v_fat v_data]; [|done| |done].
  - intros i. destruct (decide (i = k)) as [->|].
    + rewrite lookup_insert_eq. split; [done|by eexists].
    + by rewrite lookup_insert_ne.
  - intros i y. destruct (decide (i = k)) as [->|].
    + rewrite lookup_insert_eq. by intros [= <-].
    + rewrite lookup_insert_ne by done. apply H3.
Qed.

Lemma vol_ok_set_data v k b :
  vol_ok fs v → is_cluster fs k → zlen b = csize fs → bytes b → vol_ok fs (set_data k b v).
Proof.
  intros [H1 H2 H3 H4] Hk Hl Hb. split; cbn [set_data v_fat v_data]; [done| |done|].
  - intros i. destruct (decide (i = k)) as [->|].
    + rewrite lookup_insert_eq. split; [done|by eexists].
    + by rewrite lookup_insert_ne.
  - intros i y. destruct (decide (i = k)) as [->|].
    + rewrite lookup_insert_eq. by intros [= <-].
    + rewrite lookup_insert_ne by done. apply H4.
Qed.

(** A file of at most one cluster takes the lowest free cluster. *)
Lemma allocate_and_write_spec v j data :
  vol_ok fs v → first_free fs v j → bytes data → zlen data ≤ csize fs →
  ∃ v', vruns fs (allocate_and_write fs data) v (Ok j) v' ∧ vol_ok fs v' ∧ same_except j v v' ∧
    chain_ok v' [j] ∧ file_bytes v' [j] = data ++ zrepeat (csize fs - zlen data) 0.
Proof.
  intros Hv Hj Hb Hlen. pose proof (free_is_cluster v j Hv Hj) as Hjc.
  pose proof (csize_bounds fs G) as [Hcs _]. pose proof (zlen_nonneg data) as Hd0.
  set (v1 := set_fat j FAT32_EOC (set_data j (zrepeat (csize fs) 0) v)).
  assert (vol_ok fs v1) as Hv1.
  { apply vol_ok_set_fat; [by apply vol_ok_zero|done|done]. }
  assert (same_except j v v1) as Hs1.
  { intros i Hi. cbn. by rewrite !lookup_insert_ne. }
  assert (v_fat v1 !! j = Some FAT32_EOC) as Hj1 by apply lookup_insert_eq.
  pose proof (chain_singleton v1 j Hj1) as Hch1.
  destruct (Z.eqb_spec (zlen data) 0) as [Hz|Hz].
  - exists v1. split; [|split; [done|split; [done|split; [done|]]]].
    + unfold allocate_and_write. eapply vruns_ok; [by apply alloc_cluster_spec|].
      eapply vruns_ok; [by apply vruns_write_fat|]. rewrite Hz.
      eapply vruns_ok; [apply vruns_ret|]. apply vruns_ret.
    + assert (data = []) as -> by (destruct data as [|b data]; [done|rewrite zlen_cons in Hz; pose proof (zlen_nonneg data); lia]).
      rewrite (file_bytes_cons v1 j [] (zrepeat (csize fs) 0)) by apply lookup_insert_eq.
      change (zlen (@nil Z)) with 0. rewrite Z.sub_0_r. apply app_nil_r.
  - assert (needed fs (zlen data) = 1) as Hn by (apply needed_one; lia).
    assert (zlen [j] = 1) as Hl1 by done.
    destruct (written_chain fs G [j] data v1 (csize fs - zlen data)) as [Hlink Hbytes];
      [done|apply NoDup_singleton|lia|lia|].
    exists (written fs [j] data v1). split; [|split; [|split; [|split; [|done]]]].
    + unfold allocate_and_write. eapply vruns_ok; [by apply alloc_cluster_spec|].
      eapply vruns_ok; [by apply vruns_write_fat|].
      destruct (Z.eqb_spec (zlen data) 0); [done|]. eapply vruns_ok; [|apply vruns_ret].
      apply (write_file_data_gen fs G v1 v1 j [] [j] data); try done; try lia.
      * by intros i ->%list_elem_of_singleton.
      * rewrite Hn. apply extend_none. lia.
    + destruct (pad_chunk_ok (csize fs) data 0 ltac:(lia) Hb).
      change (written fs [j] data v1) with
        (set_fat j FAT32_EOC (set_data j (pad_chunk (csize fs) data 0) v1)).
      apply vol_ok_set_fat; [by apply vol_ok_set_data|done|done].
    + intros i Hi. destruct (written_other fs [j] data v1 i) as [-> ->];
        [by rewrite list_elem_of_singleton|]. by apply Hs1.
    + split; [exact Hlink|apply NoDup_singleton|lia].
Qed.

(** A new name goes to a free slot of the directory, and is found there. *)
Lemma add_entry_slot v k cs e :
  vol_ok fs v → chain_ok v (k :: cs) → entry_wf e → is_end e = false → skip_entry e = false →
  dir_lookup (full_name_upper e) (dir_entries v (k :: cs)) = None →
  Exists (λ x, is_slot x = true) (dir_entries v (k :: cs)) →
  ∃ v' l1 x l2 kk buf, vruns fs (add_entry fs k e) v (Ok tt) v' ∧ vol_ok fs v' ∧
    v' = set_data kk buf v ∧ kk ∈ k :: cs ∧ chain_ok v' (k :: cs) ∧
    dir_entries v (k :: cs) = l1 ++ x :: l2 ∧ dir_entries v' (k :: cs) = l1 ++ e :: l2 ∧
    Forall (passes (full_name_upper e)) l1.
Proof.
  intros Hv Hch Hwf Hend Hskip Hnone Hslot.
  destruct (add_loop_spec fs G v (k :: cs) e Hv) as
    [(v' & l1 & x & l2 & Hgo & (Hes & Hes' & (kk & buf & Hkk & -> & Hz & Hb)) & Hl1 & Hx)|[_ Hall]];
    [by eapply chain_clusters|apply Hch|done| |].
  - exists (set_data kk buf v), l1, x, l2, kk, buf. split_and!; try done.
    + unfold add_entry. eapply vruns_ok; [by apply read_chain_spec|].
      eapply vruns_ok; [exact Hgo|]. apply vruns_ret.
    + apply vol_ok_set_data; [done|by eapply chain_clusters|done..].
    + by apply set_data_chain.
    + rewrite Hes in Hnone. by eapply passed_before.
  - exfalso. apply Exists_exists in Hslot as (x & Hx & Hs). rewrite Forall_forall in Hall.
    by rewrite (Hall x Hx) in Hs.
Qed.

(** A path of one component below the root. *)
Lemma resolve_parent_top mg v path name :
  trim_start slash path = name → name ≠ [] → slash ∉ name →
  fruns fs (resolve_parent path) mg v (Ok (vfs_root_cluster mg, name)) mg v.
Proof.
  intros Hp Hne Hs. unfold resolve_parent. apply fruns_get. intros d. cbn [vm]. rewrite Hp.
  destruct name as [|b name]; [done|]. cbn [is_empty]. rewrite split_last_none by done.
  apply fruns_ret.
Qed.

(** Reading a whole file of one cluster. *)
Lemma read_single v j data :
  vol_ok fs v → chain_ok v [j] → file_bytes v [j] = data ++ zrepeat (csize fs - zlen data) 0 →
  vruns fs (read_file fs j (zlen data) (zrepeat (zlen data) 0)) v (Ok (data, zlen data)) v.
Proof.
  intros Hv Hch Hb. pose proof (zlen_nonneg data) as Hd.
  pose proof (read_file_spec fs G v j [] (zlen data) (zrepeat (zlen data) 0) Hv Hch Hd) as Hr.
  rewrite Hb in Hr. revert Hr. clear -Hd. set (K := _ - _).
  unfold read_result.
  assert (read_count (zlen data) (zrepeat (zlen data) 0) (data ++ zrepeat K 0) = zlen data) as ->.
  { unfold read_count. rewrite zlen_repeat, zlen_app by lia. pose proof (zlen_nonneg (zrepeat K 0)). lia. }
  intros Hr. unfold zlen, zrepeat in *. rewrite !Nat2Z.id in Hr.
  rewrite take_app_length, drop_ge, app_nil_r in Hr; [by rewrite !Nat2Z.id|].
  rewrite length_replicate. lia.
Qed.

End Create.

(** ** Listings and lookups

    Path resolution searches the listing, which shows names in lower case and
    hides the dot entries; [find_entry] compares the stored names. On a directory
    whose stored names are upper-case ASCII the two agree. *)

Definition info_of (e : Fat32DirEntry) : DirEntryInfo :=
  mkDirInfo (from_utf8_lossy (full_name e)) (is_directory e) (de_file_size e) (first_cluster e).

Lemma push_until_pad_map f l : push_until_pad f l = f <$> push_until_pad (λ b, b) l.
Proof. induction l as [|b l IH]; cbn; [done|]. destruct (_ || _); [done|]. cbn. by rewrite IH. Qed.

Lemma push_until_pad_Forall (P : Z → Prop) l : Forall P l → Forall P (push_until_pad (λ b, b) l).
Proof. induction 1; cbn; [constructor|]. destruct (_ || _); by constructor. Qed.

Lemma full_name_lower e : full_name e = to_lower_byte <$> full_name_upper e.
Proof.
  unfold full_name, full_name_upper, join_name. rewrite fmap_app, push_until_pad_map. f_equal.
  destruct (_ && _); [|done]. cbn. by rewrite push_until_pad_map.
Qed.

Lemma upper_name_chars e : upper_entry e → Forall upper_char (full_name_upper e).
Proof.
  intros [Hn Hx]. unfold full_name_upper, join_name. apply Forall_app.
  split; [by apply push_until_pad_Forall|]. destruct (_ && _); [|done].
  constructor; [done|by apply push_until_pad_Forall].
Qed.

Lemma shown_name e : upper_entry e → to_upper_83 (from_utf8_lossy (full_name e)) = full_name_upper e.
Proof.
  intros He%upper_name_chars. rewrite full_name_lower. set (l := full_name_upper e) in *.
  assert (Forall (λ b, 0 ≤ b < 128) (to_lower_byte <$> l)) as Ha.
  { apply Forall_fmap. eapply Forall_impl; [exact He|]. intros b [Hb Hl]. cbn.
    revert Hl. unfold to_lower_byte, is_upper, in_range.
    destruct (Z.leb_spec 65 b), (Z.leb_spec b 90); cbn; lia. }
  rewrite from_utf8_lossy_valid by (by apply utf8_valid_ascii).
  rewrite to_upper_83_ascii by done. rewrite <- list_fmap_compose.
  rewrite <- (list_fmap_id l) at 2. apply Forall_fmap_ext. eapply Forall_impl; [exact He|].
  intros b [_ Hb]. by apply to_upper_lower.
Qed.

Definition not_dots (name : list Z) : Prop := name ≠ bytes_of "." ∧ name ≠ bytes_of "..".

Lemma short_not_dots name : short_name name → not_dots name.
Proof.
  intros Hs. split; intros ->; inversion Hs as [base Hl Hb|base ext Hl Hb Hl' He].
  - inversion_clear Hb as [|?? (_ & _ & _ & ?) _]. done.
  - destruct base as [|b [|]]; cbn in *; try lia; [|simplify_eq; destruct l; done]. simplify_eq.
  - inversion_clear Hb as [|?? (_ & _ & _ & ?) _]. done.
  - destruct base as [|b base]; cbn in *; [lia|]. simplify_eq.
    inversion_clear Hb as [|?? (_ & _ & _ & ?) _]. done.
Qed.

Lemma listing_lookup name es :
  not_dots name → Forall upper_entry es →
  find_info (λ entry, bytes_eqb (to_upper_83 (di_name entry)) name) (dir_listing es) =
  info_of <$> dir_lookup name es.
Proof.
  intros Hnd. induction 1 as [|e es He _ IH]; cbn; [done|]. destruct (is_end e); [done|].
  pose proof (shown_name e He) as Hshown. unfold listed.
  destruct (skip_entry e); cbn [orb]; [exact IH|].
  case_bool_decide as Hd1; cbn [orb].
  { rewrite bool_decide_eq_false_2; [exact IH|]. intros Hn. apply (proj1 Hnd).
    rewrite <- Hn, <- Hshown, Hd1. reflexivity. }
  case_bool_decide as Hd2.
  { rewrite bool_decide_eq_false_2; [exact IH|]. intros Hn. apply (proj2 Hnd).
    rewrite <- Hn, <- Hshown, Hd2. reflexivity. }
  cbn [app]. unfold find_info. cbn [list_find]. unfold bytes_eqb. cbn [di_name]. rewrite Hshown.
  case_bool_decide as Hn.
  - rewrite decide_True by exact I. done.
  - rewrite decide_False by (by intros []). unfold find_info, bytes_eqb in IH. rewrite <- IH.
    by destruct (list_find _ _) as [[]|].
Qed.

(** ** A new directory *)

Lemma dot_entry_wf name c :
  length (bytes_of name) = 8%nat → bytes (bytes_of name) → 0 ≤ c < 2 ^ 32 → entry_wf (dot_entry name c).
Proof.
  intros Hl Hb Hc. unfold dot_entry. apply set_first_cluster_wf; [|done].
  destruct zeroed_entry_wf.
  split; cbn [set_attributes set_names de_name de_ext de_attributes]; done.
Qed.

Lemma dir_listing_ends es : Forall (λ e, is_end e = true) es → dir_listing es = [].
Proof. destruct 1 as [|e es He]; cbn; [done|]. by rewrite He. Qed.

Lemma zero_entries n : 0 ≤ n → Forall (λ e, is_end e = true) (entries_of (zrepeat n 0)).
Proof.
  intros Hn. unfold entries_of. apply Forall_fmap, Forall_forall. intros i _. cbn.
  unfold nth_block, zrepeat. rewrite drop_replicate, take_replicate.
  unfold decode_entry, is_end, name0, field. cbn [de_name]. rewrite drop_replicate, take_replicate.
  by destruct (_ `min` _)%nat.
Qed.

Section NewDir.
Context `{BlockDeviceLaws D} (fs : Fat32Fs) (G : geometry fs).

(** The cluster that [mkdir] writes: the two dot entries, which a listing hides. *)
Lemma dir_buffer j p :
  64 ≤ csize fs → 0 ≤ j < 2 ^ 32 → 0 ≤ p < 2 ^ 32 →
  ∃ b1 b2, zcopy (zrepeat (csize fs) 0) 0 (encode_entry (dot_entry ".       " j)) = Ret b1 ∧
    zcopy b1 32 (encode_entry (dot_entry "..      " p)) = Ret b2 ∧
    zlen b2 = csize fs ∧ bytes b2 ∧ dir_listing (entries_of b2) = [].
Proof.
  intros Hcs Hj Hp. destruct (zeros_ok fs G) as [Hzl Hzb]. pose proof (csize_bounds fs G) as [_ Hmod].
  set (b0 := zrepeat (csize fs) 0) in *.
  assert (entry_wf (dot_entry ".       " j)) as Hw1
    by (apply dot_entry_wf; [done|apply (bool_decide_unpack _); vm_compute; reflexivity|done]).
  assert (entry_wf (dot_entry "..      " p)) as Hw2
    by (apply dot_entry_wf; [done|apply (bool_decide_unpack _); vm_compute; reflexivity|done]).
  pose proof (zero_entries (csize fs) ltac:(lia)) as Hz. fold b0 in Hz.
  destruct (entries_of b0) as [|x [|y es]] eqn:Hes;
    [apply (f_equal length) in Hes; rewrite length_entries, Hzl in Hes; cbn in Hes; dlia..|].
  destruct (entries_splice b0 (encode_entry (dot_entry ".       " j)) [] x (y :: es))
    as (b1 & Hc1 & Hl1 & He1 & Hb1); [congruence|by apply length_encode_entry|done|].
  rewrite decode_encode in He1 by done. cbn [app] in He1.
  destruct (entries_splice b1 (encode_entry (dot_entry "..      " p)) [dot_entry ".       " j] y es)
    as (b2 & Hc2 & Hl2 & He2 & Hb2); [congruence|by apply length_encode_entry|done|].
  rewrite decode_encode in He2 by done. exists b1, b2. split; [exact Hc1|]. split; [exact Hc2|].
  split; [congruence|]. split.
  { apply Hb2; [apply Hb1; [done|]|]; by apply encode_entry_bytes. }
  rewrite He2. change (dir_listing es = []). apply dir_listing_ends.
  by do 2 apply Forall_inv_tail in Hz.
Qed.

(** Resolving a one-component path is looking the name up in the root. *)
Lemma resolve_top mg v cs path name :
  vol_ok fs v → fat_fs mg = Some fs → chain_ok v (vfs_root_cluster mg :: cs) →
  Forall upper_entry (dir_entries v (vfs_root_cluster mg :: cs)) →
  plain_name name → trim_start slash path = name →
  fruns fs (resolve_path path) mg v
    (match dir_lookup (to_upper_byte <$> name) (dir_entries v (vfs_root_cluster mg :: cs)) with
     | Some e => Ok (first_cluster e, [])
     | None => Err NotFound
     end) mg v.
Proof.
  intros Hv Hfs Hch Hup Hname Hpath. pose proof (plain_name_nonempty _ Hname) as Hne.
  destruct Hname as [Hascii Hshort Hsl]. pose proof (short_not_dots _ Hshort) as Hnd.
  unfold resolve_path. apply fruns_fs; [done|]. apply fruns_get. intros d. cbn [vm]. rewrite Hpath.
  assert (bytes_eqb name (bytes_of ".") = false ∧ bytes_eqb name (bytes_of "..") = false) as [Hd1 Hd2].
  { destruct Hnd as [Hn1 Hn2]. split; apply bool_decide_eq_false_2; intros ->;
      [by apply Hn1|by apply Hn2]. }
  assert (is_empty name = false) as He by (by destruct name).
  assert (∃ n, length name = S n) as [n Hn] by (destruct name; [done|by eexists]).
  rewrite He, Hd1. cbn [orb]. rewrite Hn. cbn [resolve_loop]. rewrite He.
  rewrite split_first_none by done. rewrite He, Hd1, Hd2. cbn [orb].
  eapply fruns_ok; [by eapply fruns_dev, read_dir_entries_spec|].
  rewrite to_upper_83_ascii, utf8_or_empty_ascii by (done || by apply to_upper_ascii).
  rewrite listing_lookup by done.
  destruct (dir_lookup _ _) as [e|]; cbn [fmap option_fmap option_map]; [|apply fruns_ret].
  destruct n; apply fruns_ret.
Qed.

End NewDir.
