(* ===== verification/VfsTheorems.v ===== *)
(** * The VFS: the properties

    Path resolution, file creation and reading, directory creation, and the
    table of open files. *)

From stdpp Require Import base numbers list gmap strings.
From S2P Require Import Prelude ByteStr Block Bpb Fat32 Volume Files Dir DirSpec FatTheorems.
From S2P Require Import DirTheorems Vfs VfsSpec VfsFiles.

#[local] Open Scope Z_scope.
#[local] Open Scope rust_scope.

Section Volume.
Context `{BlockDeviceLaws D} (fs : Fat32Fs).

(** C18. Resolution is a walk over the components of the path: empty components and
    [.] stay, a name leads to the first listed entry whose upper-case name is equal,
    and [..] leads to the root from everywhere, since the listing that is searched for
    it hides the dot entries. It ends on every path, and an unknown name is
    [NotFound]. *)
Theorem resolve_path_walks mg d v ls P path :
  geometry fs → working d → abs fs (content d) v → fat_fs mg = Some fs →
  tree v ls P → P (vfs_root_cluster mg) →
  ∃ d', resolve_path path (mkVS mg d) =
    Ret (match walk (vfs_root_cluster mg) ls (vfs_root_cluster mg)
             (components (trim_start slash path)) with
         | Some c => Ok (c, [])
         | None => Err NotFound
         end, mkVS mg d').
Proof.
  intros G Hw Habs Hfs Htree Hroot.
  destruct (resolve_path_refines fs G mg v ls P path (abs_vol_ok fs G _ _ Habs) Hfs Htree Hroot
    d Hw Habs) as (d' & Hrun & _). by exists d'.
Qed.

(** The state that [create_file] leaves, as a volume: the data on a new chain and an
    entry for it in the directory of the root. *)
Lemma create_file_spec (G : geometry fs) mg v cs j path name data :
  let root := vfs_root_cluster mg in
  vol_ok fs v → fat_fs mg = Some fs → chain_ok v (root :: cs) → first_free fs v j →
  bytes data → zlen data ≤ csize fs → plain_name name → trim_start slash path = name →
  dir_lookup (to_upper_byte <$> name) (dir_entries v (root :: cs)) = None →
  Exists (λ x, is_slot x = true) (dir_entries v (root :: cs)) →
  ∃ v' e, fruns fs (create_file path data) mg v (Ok tt) mg v' ∧
    vol_ok fs v' ∧ chain_ok v' (root :: cs) ∧
    dir_lookup (to_upper_byte <$> name) (dir_entries v' (root :: cs)) = Some e ∧
    fresh (to_upper_byte <$> name) ATTR_ARCHIVE j (zlen data) e ∧
    chain_ok v' [j] ∧ file_bytes v' [j] = data ++ zrepeat (csize fs - zlen data) 0.
Proof.
  intros root Hv Hfs Hch Hj Hb Hlen Hname Hpath Hnone Hslot.
  pose proof (csize_bounds fs G) as [Hcs _]. pose proof (free_is_cluster fs v j Hv Hj) as [Hj1 Hj2].
  pose proof (g_max _ G) as Hmax. unfold FAT32_BAD in Hmax. pose proof (zlen_nonneg data).
  pose proof (free_not_in_chain fs v (root :: cs) j Hv Hch (proj1 Hj)) as Hjn.
  pose proof (plain_name_nonempty _ Hname) as Hne.
  destruct Hname as [Hascii Hshort Hsl]. pose proof (to_upper_chars _ Hascii) as Hup.
  destruct (allocate_and_write_spec fs G v j data Hv Hj Hb Hlen)
    as (v1 & Hrun1 & Hv1 & Hsame & Hch1 & Hfb1).
  destruct (fresh_entry_spec (to_upper_byte <$> name) ATTR_ARCHIVE j (zlen data) Hshort Hup) as
    (e & He & Hfresh); [by left|lia|lia|].
  pose proof (dir_entries_same j v v1 (root :: cs) Hsame Hjn) as Hes1.
  destruct (add_entry_slot fs G v1 root cs e Hv1 (chain_same Hsame Hjn Hch)) as
    (v' & l1 & x & l2 & kk & buf & Hadd & Hv' & -> & Hkk & Hch' & _ & Hes' & Hl1);
    [apply Hfresh|apply Hfresh|apply Hfresh| |by rewrite Hes1|].
  { by rewrite (fr_name _ _ _ _ _ Hfresh), Hes1. }
  assert (j ≠ kk) by (intros ->; done).
  exists (set_data kk buf v1), e. split; [|split; [done|split; [done|split; [|split; [done|split]]]]].
  - unfold create_file. apply fruns_fs; [done|]. eapply fruns_ok; [by apply resolve_parent_top|].
    cbn beta iota. destruct (is_empty name) eqn:He0; [by destruct name|].
    rewrite to_upper_83_ascii by done.
    eapply fruns_ok; [by eapply fruns_dev, find_entry_spec|]. fold root. rewrite Hnone.
    eapply fruns_ok; [by apply fruns_dev|]. eapply fruns_liftO.
    { unfold wrap. rewrite Z.mod_small by lia. exact He. }
    eapply fruns_ok; [by apply fruns_dev|]. apply fruns_ret.
  - rewrite Hes'. apply dir_lookup_hit; [by rewrite <- (fr_name _ _ _ _ _ Hfresh)|].
    destruct Hfresh. done.
  - by apply set_data_chain.
  - rewrite <- Hfb1. unfold file_bytes. cbn. by rewrite lookup_insert_ne.
Qed.

(** Round trip through a path: a file of at most one cluster, created under a new
    8.3 name, is read back unchanged under the same path; names are matched without
    regard to case, and the manager is not changed. *)
Theorem create_then_read mg d v cs j path name data :
  geometry fs → working d → abs fs (content d) v → fat_fs mg = Some fs →
  chain_ok v (vfs_root_cluster mg :: cs) → first_free fs v j →
  bytes data → zlen data ≤ csize fs → plain_name name → trim_start slash path = name →
  dir_lookup (to_upper_byte <$> name) (dir_entries v (vfs_root_cluster mg :: cs)) = None →
  Exists (λ x, is_slot x = true) (dir_entries v (vfs_root_cluster mg :: cs)) →
  ∃ d', create_file path data (mkVS mg d) = Ret (Ok tt, mkVS mg d') ∧
    ∀ path', to_upper_byte <$> trim_start slash path' = to_upper_byte <$> name →
      slash ∉ trim_start slash path' → Forall (λ b, 0 ≤ b < 128) (trim_start slash path') →
      ∃ d'', read_file_content path' (mkVS mg d') = Ret (Ok data, mkVS mg d'').
Proof.
  intros G Hw Habs Hfs Hch Hj Hb Hlen Hname Hpath Hnone Hslot.
  destruct (create_file_spec G mg v cs j path name data (abs_vol_ok fs G _ _ Habs) Hfs Hch Hj Hb
    Hlen Hname Hpath Hnone Hslot) as (v' & e & Hrun & Hv' & Hch' & Hes & Hfresh & Hchj & Hfb).
  destruct (Hrun d Hw Habs) as (d' & Hd' & Hw' & Habs'). exists d'. split; [done|].
  intros path' Hup Hs' Hascii. remember (trim_start slash path') as name' eqn:Hn'.
  assert (name' ≠ []) as Hne.
  { intros ->. symmetry in Hup. apply fmap_nil_inv in Hup. by apply (plain_name_nonempty _ Hname). }
  assert (fruns fs (read_file_content path') mg v' (Ok data) mg v') as Hread.
  2: { destruct (Hread d' Hw' Habs') as (d'' & ? & _). by exists d''. }
  unfold read_file_content. apply fruns_fs; [done|].
  eapply fruns_ok; [by apply (resolve_parent_top fs mg v' path' name')|]. cbn beta iota.
  destruct (is_empty name') eqn:He0; [by destruct name'|].
  eapply fruns_ok; [by apply (resolve_parent_top fs mg v' path' name')|]. cbn beta iota.
  rewrite to_upper_83_ascii, Hup by done.
  eapply fruns_ok; [by eapply fruns_dev, find_entry_spec|]. rewrite Hes.
  eapply (fruns_ok _ _ _ _ _ e); [apply fruns_ret|]. destruct Hfresh.
  unfold is_directory. rewrite fr_attr. change (Z.land ATTR_ARCHIVE 0x10 =? 0) with true. cbn [negb].
  rewrite fr_size. destruct (Z.eqb_spec (zlen data) 0) as [Hz|].
  - destruct data as [|b data]; [apply fruns_ret|]. rewrite zlen_cons in Hz.
    pose proof (zlen_nonneg data). lia.
  - rewrite fr_cluster. eapply fruns_ok; [by eapply fruns_dev, read_single|]. apply fruns_ret.
Qed.

Lemma mkdir_spec (G : geometry fs) mg v cs j path name :
  let root := vfs_root_cluster mg in
  vol_ok fs v → fat_fs mg = Some fs → chain_ok v (root :: cs) → first_free fs v j →
  64 ≤ csize fs → plain_name name → trim_start slash path = name →
  Forall upper_entry (dir_entries v (root :: cs)) →
  dir_lookup (to_upper_byte <$> name) (dir_entries v (root :: cs)) = None →
  Exists (λ x, is_slot x = true) (dir_entries v (root :: cs)) →
  ∃ v' e, fruns fs (mkdir path) mg v (Ok tt) mg v' ∧
    vol_ok fs v' ∧ chain_ok v' (root :: cs) ∧
    dir_lookup (to_upper_byte <$> name) (dir_entries v' (root :: cs)) = Some e ∧
    Forall upper_entry (dir_entries v' (root :: cs)) ∧
    fresh (to_upper_byte <$> name) ATTR_DIRECTORY j 0 e ∧
    chain_ok v' [j] ∧ dir_listing (dir_entries v' [j]) = [].
Proof.
  intros root Hv Hfs Hch Hj Hcs Hname Hpath Hall Hnone Hslot.
  pose proof (free_is_cluster fs v j Hv Hj) as Hjc. pose proof Hjc as [Hj1 Hj2].
  pose proof (g_max _ G) as Hmax. unfold FAT32_BAD in Hmax.
  pose proof (free_not_in_chain fs v (root :: cs) j Hv Hch (proj1 Hj)) as Hjn.
  destruct (chain_clusters fs v (root :: cs) Hv Hch root ltac:(left)) as [Hr1 Hr2].
  pose proof (plain_name_nonempty _ Hname) as Hne.
  destruct Hname as [Hascii Hshort Hsl]. pose proof (to_upper_chars _ Hascii) as Hup.
  destruct (dir_buffer fs G j root Hcs) as (b1 & b2 & Hc1 & Hc2 & Hbl & Hbb & Hbe); [lia..|].
  destruct (fresh_entry_spec (to_upper_byte <$> name) ATTR_DIRECTORY j 0 Hshort Hup) as
    (e & He & Hfresh); [by right|lia|lia|].
  set (v1 := set_fat j FAT32_EOC (set_data j b2 (set_data j (zrepeat (csize fs) 0) v))).
  assert (vol_ok fs v1) as Hv1.
  { apply vol_ok_set_fat; [|done|done]. apply vol_ok_set_data; [by apply vol_ok_zero|done..]. }
  assert (same_except j v v1) as Hsame by (intros i Hi; cbn; by rewrite !lookup_insert_ne).
  pose proof (dir_entries_same j v v1 (root :: cs) Hsame Hjn) as Hes1.
  destruct (add_entry_slot fs G v1 root cs e Hv1 (chain_same Hsame Hjn Hch)) as
    (v' & l1 & x & l2 & kk & buf & Hadd & Hv' & -> & Hkk & Hch' & Hold & Hes' & Hl1);
    [apply Hfresh|apply Hfresh|apply Hfresh| |by rewrite Hes1|].
  { by rewrite (fr_name _ _ _ _ _ Hfresh), Hes1. }
  assert (j ≠ kk) by (intros ->; done).
  exists (set_data kk buf v1), e.
  split; [|split; [done|split; [done|split; [|split; [|split; [done|split]]]]]].
  - unfold mkdir. apply fruns_fs; [done|]. eapply fruns_ok; [by apply resolve_parent_top|].
    cbn beta iota. destruct (is_empty name) eqn:He0; [by destruct name|].
    rewrite to_upper_83_ascii by done.
    eapply fruns_ok; [by eapply fruns_dev, find_entry_spec|]. fold root. rewrite Hnone.
    eapply fruns_ok; [by eapply fruns_dev, alloc_cluster_spec|].
    unfold empty_cluster. rewrite (cluster_size_machine fs G).
    eapply fruns_liftO; [exact Hc1|]. eapply fruns_liftO; [exact Hc2|].
    eapply fruns_ok; [by apply fruns_dev, vruns_write_cluster|].
    eapply fruns_ok; [by apply fruns_dev, vruns_write_fat|].
    eapply fruns_liftO; [exact He|]. eapply fruns_ok; [by apply fruns_dev|]. apply fruns_ret.
  - rewrite Hes'. apply dir_lookup_hit; [by rewrite <- (fr_name _ _ _ _ _ Hfresh)|].
    destruct Hfresh. done.
  - rewrite Hes'. rewrite <- Hes1, Hold in Hall.
    apply Forall_app in Hall as [? Hall]. apply Forall_app. split; [done|].
    constructor; [apply Hfresh|by apply Forall_inv_tail in Hall].
  - apply set_data_chain, chain_singleton. apply lookup_insert_eq.
  - rewrite dir_entries_other by (by rewrite list_elem_of_singleton).
    rewrite (dir_entries_cons v1 j [] b2) by apply lookup_insert_eq. by rewrite app_nil_r.
Qed.

(** C19. [mkdir] of a new name below the root creates an empty directory: the path then
    resolves to the cluster allocated for it, its listing is empty although it holds
    the two dot entries, and creating it again fails with [AlreadyExists]. *)
Theorem mkdir_then_list mg d v cs j path name :
  geometry fs → working d → abs fs (content d) v → fat_fs mg = Some fs →
  chain_ok v (vfs_root_cluster mg :: cs) → first_free fs v j → 64 ≤ csize fs →
  plain_name name → trim_start slash path = name →
  Forall upper_entry (dir_entries v (vfs_root_cluster mg :: cs)) →
  dir_lookup (to_upper_byte <$> name) (dir_entries v (vfs_root_cluster mg :: cs)) = None →
  Exists (λ x, is_slot x = true) (dir_entries v (vfs_root_cluster mg :: cs)) →
  ∃ d', mkdir path (mkVS mg d) = Ret (Ok tt, mkVS mg d') ∧
    (∃ d'', resolve_path path (mkVS mg d') = Ret (Ok (j, []), mkVS mg d'')) ∧
    (∃ d'', list_dir path (mkVS mg d') = Ret (Ok [], mkVS mg d'')) ∧
    (∃ d'', mkdir path (mkVS mg d') = Ret (Err AlreadyExists, mkVS mg d'')).
Proof.
  intros G Hw Habs Hfs Hch Hj Hcs Hname Hpath Hall Hnone Hslot.
  destruct (mkdir_spec G mg v cs j path name (abs_vol_ok fs G _ _ Habs) Hfs Hch Hj Hcs Hname Hpath
    Hall Hnone Hslot) as (v' & e & Hrun & Hv' & Hch' & Hes & Hall' & Hfresh & Hchj & Hlist).
  destruct (Hrun d Hw Habs) as (d' & Hd' & Hw' & Habs'). exists d'. split; [done|].
  pose proof (resolve_top fs G mg v' cs path name Hv' Hfs Hch' Hall' Hname Hpath) as Hres.
  rewrite Hes, (fr_cluster _ _ _ _ _ Hfresh) in Hres.
  split; [|split].
  - destruct (Hres d' Hw' Habs') as (d'' & ? & _). by exists d''.
  - assert (fruns fs (list_dir path) mg v' (Ok []) mg v') as Hl.
    2: { destruct (Hl d' Hw' Habs') as (d'' & ? & _). by exists d''. }
    unfold list_dir. apply fruns_fs; [done|]. eapply fruns_ok; [exact Hres|]. cbn beta iota.
    eapply fruns_ok; [by eapply fruns_dev, read_dir_entries_spec|]. rewrite Hlist. apply fruns_ret.
  - assert (fruns fs (mkdir path) mg v' (Err AlreadyExists) mg v') as Hm.
    2: { destruct (Hm d' Hw' Habs') as (d'' & ? & _). by exists d''. }
    pose proof (plain_name_nonempty _ Hname). destruct Hname as [Hascii _ Hsl].
    unfold mkdir. apply fruns_fs; [done|]. eapply fruns_ok; [by apply resolve_parent_top|].
    cbn beta iota. destruct (is_empty name) eqn:He0; [by destruct name|].
    rewrite to_upper_83_ascii by done.
    eapply fruns_ok; [by eapply fruns_dev, find_entry_spec|]. rewrite Hes. apply fruns_ret.
Qed.
End Volume.

(** ** Mounting at boot *)

Section Mount.
Context `{BlockDeviceLaws D}.

(** [init_vfs] on a working device, by its first sector: without a FAT32 boot sector
    nothing is mounted; with one, the volume is, at its root directory, with no open
    file. The division of [total_clusters], which is only computed for a message,
    stops the boot on a boot sector with no sectors per cluster. *)
Theorem init_vfs_outcomes d bs :
  working d → content d !! 0 = Some bs → zlen bs = 512 →
  match Bpb_from_bytes bs with
  | None => ∃ d', init_vfs d = Ret (mkVfs (bytes_of "/") None 0 [] 3 (bytes_of "/"), d') ∧ content d' = content d
  | Some b =>
      if sectors_per_cluster b =? 0 then init_vfs d = Panic else
      ∃ d', init_vfs d = Ret (mkVfs (bytes_of "/") (Some (mkFat32Fs b 0)) (root_cluster b) [] 3 (bytes_of "/"), d') ∧
        working d' ∧ content d' = content d
  end.
Proof.
  intros Hw Hbs Hlen. destruct (read_sector_ok d 0 bs Hw Hbs) as (d' & Hread & Hw' & Hc'). rewrite Hlen in Hread.
  assert (Hmount : mount 0 d = Ret (match Bpb_from_bytes bs with
    | Some b => Ok (mkFat32Fs b 0) | None => Err "Not a FAT32 filesystem"%string end, d')).
  { unfold mount, map_err. rewrite bind_assoc, (bind_Ret _ _ _ _ _ Hread), bind_mret, bind_mret.
    by destruct (Bpb_from_bytes bs). }
  unfold init_vfs. rewrite (bind_Ret _ _ _ _ _ Hmount).
  destruct (Bpb_from_bytes bs) as [b|]; [|by exists d'].
  cbn [bpb]. unfold total_clusters, div_rust.
  destruct (sectors_per_cluster b =? 0); [done|]. by exists d'.
Qed.

End Mount.
