(* ===== verification/VfsFds.v ===== *)
(** * The table of open files

    Which methods of [VfsManager] change the manager and how, on any device; the
    invariant of the table over every sequence of calls; reading and writing
    through a descriptor. *)

From stdpp Require Import base numbers list gmap strings.
From S2P Require Import Prelude ByteStr Block Bpb Fat32 Volume Files Dir DirSpec FatTheorems.
From S2P Require Import DirTheorems Vfs VfsSpec VfsFiles VfsTheorems.

#[local] Open Scope Z_scope.
#[local] Open Scope rust_scope.

(** ** Frame conditions *)

Section Frame.
Context `{BlockDevice D}.

(** [m] relates the manager before, the answer and the manager after by [R]. *)
Definition post {A} (R : VfsManager → A → VfsManager → Prop) (m : M (VfsState D) A) : Prop :=
  ∀ s a s', m s = Ret (a, s') → R (vm s) a (vm s').

(** [m] leaves the manager alone. *)
Definition same {A} (m : M (VfsState D) A) : Prop := post (λ mg _ mg', mg' = mg) m.

Lemma post_ret {A} (a : A) (R : VfsManager → A → VfsManager → Prop) :
  (∀ mg, R mg a mg) → post R (mret a).
Proof. intros HR s b s' [= <- <-]. apply HR. Qed.

Lemma post_bind {A B} (m : M (VfsState D) A) (k : A → M (VfsState D) B) R :
  same m → (∀ a, post R (k a)) → post R (m ≫= k).
Proof.
  intros Hm Hk s b s' Hrun. unfold mbind, M_bind in Hrun.
  destruct (m s) as [[a s1]| | |] eqn:Hs; [|done..]. apply Hm in Hs. rewrite <- Hs. by eapply Hk.
Qed.

Lemma same_get : same get.
Proof. by intros s a s' [= <- <-]. Qed.

Lemma same_liftO {A} (o : outcome A) : same (liftO o).
Proof. intros s a s' Hr. unfold liftO in Hr. by destruct o; simplify_eq. Qed.

Lemma same_on_dev {A} (m : M D A) : same (on_dev m).
Proof. intros s a s' Hr. unfold on_dev in Hr. destruct (m (dev s)) as [[? ?]| | |]; by simplify_eq. Qed.

Lemma same_ret {A} (a : A) : same (mret a).
Proof. by apply post_ret. Qed.

Lemma same_bind {A B} (m : M (VfsState D) A) (k : A → M (VfsState D) B) :
  same m → (∀ a, same (k a)) → same (m ≫= k).
Proof. apply post_bind. Qed.

Lemma same_dev {A} e (m : M D (result A string)) : same (dev_err e m).
Proof.
  unfold dev_err, map_err. apply same_bind; [apply same_on_dev|]. intros r. apply same_ret.
Qed.

Lemma same_fs : same get_fs.
Proof. apply same_bind; [apply same_get|]. intros. apply same_ret. Qed.
End Frame.

(** Goals [same m] by the structure of [m]; lemmas about callees are hints. *)
Create HintDb vfs_same.
#[export] Hint Resolve same_get same_liftO same_ret same_dev same_fs : vfs_same.
Ltac same_solve :=
  repeat first
    [ solve [auto with vfs_same]
    | apply same_bind; [|intros ?]
    | progress cbn beta zeta
    | case_match ].

Section Same.
Context `{BlockDevice D}.

Lemma resolve_loop_same fs fuel c path : same (D := D) (resolve_loop fs fuel c path).
Proof.
  revert c path. induction fuel as [|fuel IH]; intros c path; cbn [resolve_loop]; [same_solve|].
  destruct (is_empty path); [same_solve|]. case_match.
  repeat first [apply IH | solve [auto with vfs_same] | apply same_bind; [|intros ?]
    | progress cbn beta zeta | case_match ].
Qed.
#[local] Hint Resolve resolve_loop_same : vfs_same.

Lemma resolve_path_same path : same (D := D) (resolve_path path).
Proof. unfold resolve_path. same_solve. Qed.
#[local] Hint Resolve resolve_path_same : vfs_same.

Lemma resolve_parent_same path : same (D := D) (resolve_parent path).
Proof. unfold resolve_parent. same_solve. Qed.
#[local] Hint Resolve resolve_parent_same : vfs_same.

Lemma list_dir_same path : same (D := D) (list_dir path).
Proof. unfold list_dir. same_solve. Qed.

Lemma read_same fd buf : same (D := D) (read fd buf).
Proof. unfold read. same_solve. Qed.

Lemma update_file_size_same path n : same (D := D) (update_file_size path n).
Proof. unfold update_file_size. same_solve. Qed.

Lemma splice_data_same fs f data : same (D := D) (splice_data fs f data).
Proof. unfold splice_data. same_solve. Qed.

Lemma stat_same path : same (D := D) (stat path).
Proof. unfold stat. same_solve. Qed.

Lemma mkdir_same path : same (D := D) (mkdir path).
Proof. unfold mkdir. same_solve. Qed.

Lemma update_dir_entry_same c nm c' n : same (D := D) (update_dir_entry c nm c' n).
Proof. unfold update_dir_entry. same_solve. Qed.
#[local] Hint Resolve update_dir_entry_same : vfs_same.

Lemma create_file_same path data : same (D := D) (create_file path data).
Proof. unfold create_file. same_solve. Qed.

Lemma delete_same path : same (D := D) (delete path).
Proof. unfold delete. same_solve. Qed.

Lemma read_file_content_same path : same (D := D) (read_file_content path).
Proof. unfold read_file_content. same_solve. Qed.
End Same.
#[export] Hint Resolve resolve_path_same resolve_parent_same list_dir_same read_same
  update_file_size_same splice_data_same stat_same mkdir_same create_file_same delete_same
  read_file_content_same : vfs_same.

(** ** The methods that change the manager *)

(** [f] is pushed with the next number. *)
Definition pushed (f : FileDescriptor) (mg : VfsManager) : VfsManager :=
  set_table (file_table mg ++ [f]) (set_next_fd (next_fd mg +₆₄ 1) mg).

Definition opens (mode : FileMode) (mg : VfsManager) (r : result Z VfsError) (mg' : VfsManager) : Prop :=
  match r with
  | Ok fd => ∃ f, fd = next_fd mg ∧ fd_fd f = fd ∧ fd_mode f = mode ∧ fd_pos f = 0 ∧ mg' = pushed f mg
  | Err _ => mg' = mg
  end.

(** [f] moves and grows; only a descriptor that is not open for reading. *)
Definition writes (fd : Z) (mg : VfsManager) (r : result Z VfsError) (mg' : VfsManager) : Prop :=
  mg' = mg ∨ ∃ i f f', find_fd fd (file_table mg) = Some (i, f) ∧ fd_mode f ≠ Read ∧
    fd_fd f' = fd_fd f ∧ fd_mode f' = fd_mode f ∧
    mg' = set_table (<[i := f']> (file_table mg)) mg.

Section Changes.
Context `{BlockDevice D}.

Lemma push_fd_opens path mode size cluster : post (D := D) (opens mode) (push_fd path mode size cluster).
Proof.
  intros s r s' [= <- <-]. exists (mkFd (next_fd (vm s)) path mode 0 size cluster).
  split_and!; [done..|]. by destruct s as [[] ?].
Qed.

Lemma opens_err mode e : post (D := D) (opens mode) (mret (Err e)).
Proof. by apply post_ret. Qed.

Lemma open_opens path mode : post (D := D) (opens mode) (open path mode).
Proof.
  unfold open.
  repeat first
    [ apply push_fd_opens | apply opens_err
    | apply post_bind; [solve [auto with vfs_same]|intros ?]
    | progress cbn beta zeta | case_match ].
Qed.

Lemma write_writes fd data : post (D := D) (writes fd) (write fd data).
Proof.
  intros s r s' Hrun. unfold write in Hrun. rewrite bind_get in Hrun.
  destruct (find_fd fd (file_table (vm s))) as [[i f]|] eqn:Hf; cbn [ok_or] in Hrun;
    rewrite bind_mret in Hrun; cbn beta iota in Hrun; [|injection Hrun as _ <-; by left].
  case_bool_decide as Hm; [injection Hrun as _ <-; by left|].
  destruct (fat_fs (vm s)) as [fs|]; cbn [ok_or] in Hrun; rewrite bind_mret in Hrun;
    cbn beta iota in Hrun; [|injection Hrun as _ <-; by left].
  unfold mbind at 1, M_bind at 1 in Hrun.
  match type of Hrun with match ?m s with _ => _ end = _ =>
    assert (same m) as Hsame by (case_match; same_solve);
    destruct (m s) as [[r1 s1]| | |] eqn:Hm1; [|done..]; apply Hsame in Hm1 end.
  destruct r1 as [[]|e]; [|injection Hrun as _ <-; by left].
  unfold upd_vm in Hrun. cbn beta iota zeta in Hrun. rewrite bind_modify in Hrun.
  match type of Hrun with (?m ≫= ?k) ?s2 = _ =>
    assert (same (m ≫= k)) as Hsame2; [|apply Hsame2 in Hrun] end.
  { clear. apply same_bind; [|intros ?]; cbn [fd_size fd_path]; same_solve. }
  right. exists i, f. rewrite Hrun. cbn [vm]. rewrite Hm1.
  eexists. split_and!; [done|done| | |reflexivity]; done.
Qed.

Lemma close_runs fd (s : VfsState D) :
  close fd s =
    Ret (Ok tt, mkVS (set_table (filter (λ f, fd_fd f ≠ fd) (file_table (vm s))) (vm s)) (dev s)).
Proof. done. Qed.
End Changes.

(** ** Sequences of calls *)

Inductive vfs_op :=
  | OpOpen (path : list Z) (mode : FileMode)
  | OpRead (fd : Z) (buf : list Z)
  | OpWrite (fd : Z) (data : list Z)
  | OpClose (fd : Z)
  | OpStat (path : list Z)
  | OpListDir (path : list Z)
  | OpMkdir (path : list Z)
  | OpCreateFile (path data : list Z)
  | OpDelete (path : list Z)
  | OpReadContent (path : list Z).

(** The table invariant. *)
Record fds_ok (mg : VfsManager) : Prop := {
  fo_next : 3 ≤ next_fd mg;
  fo_nodup : NoDup (fd_fd <$> file_table mg);
  fo_range : Forall (λ f, 3 ≤ fd_fd f < next_fd mg) (file_table mg);
  fo_read : Forall (λ f, fd_mode f = Read → fd_pos f = 0) (file_table mg);
}.

Section Sequences.
Context `{BlockDevice D}.

(** The state after one call, whatever it answers. *)
Inductive vfs_step : VfsState D → vfs_op → VfsState D → Prop :=
  | step_open s path mode r s' : open path mode s = Ret (r, s') → vfs_step s (OpOpen path mode) s'
  | step_read s fd buf r s' : read fd buf s = Ret (r, s') → vfs_step s (OpRead fd buf) s'
  | step_write s fd data r s' : write fd data s = Ret (r, s') → vfs_step s (OpWrite fd data) s'
  | step_close s fd r s' : close fd s = Ret (r, s') → vfs_step s (OpClose fd) s'
  | step_stat s path r s' : stat path s = Ret (r, s') → vfs_step s (OpStat path) s'
  | step_list s path r s' : list_dir path s = Ret (r, s') → vfs_step s (OpListDir path) s'
  | step_mkdir s path r s' : mkdir path s = Ret (r, s') → vfs_step s (OpMkdir path) s'
  | step_create s path data r s' :
      create_file path data s = Ret (r, s') → vfs_step s (OpCreateFile path data) s'
  | step_delete s path r s' : delete path s = Ret (r, s') → vfs_step s (OpDelete path) s'
  | step_content s path r s' :
      read_file_content path s = Ret (r, s') → vfs_step s (OpReadContent path) s'.

Inductive vfs_steps : VfsState D → list vfs_op → VfsState D → Prop :=
  | steps_nil s : vfs_steps s [] s
  | steps_cons s op s1 ops s' :
      vfs_step s op s1 → vfs_steps s1 ops s' → vfs_steps s (op :: ops) s'.

Lemma pushed_ok mg f :
  fds_ok mg → fd_fd f = next_fd mg → fd_pos f = 0 → next_fd mg < 2 ^ 64 - 1 → fds_ok (pushed f mg).
Proof.
  intros [Hn Hnd Hr Hrd] Hfd Hpos Hlt.
  split; cbn [pushed set_table set_next_fd file_table next_fd]; rewrite ?wrap64_small by lia.
  - lia.
  - rewrite fmap_app. apply NoDup_app. split_and!; [done| |apply NoDup_singleton].
    intros x (g & -> & Hg)%list_elem_of_fmap Hx. apply list_elem_of_singleton in Hx.
    rewrite Forall_forall in Hr. apply Hr in Hg. lia.
  - apply Forall_app. split; [|constructor; [lia|done]].
    eapply Forall_impl; [exact Hr|]. intros g Hg; cbn beta in *. lia.
  - apply Forall_app. split; [done|]. by repeat constructor.
Qed.

Lemma replaced_ok mg i f f' :
  fds_ok mg → file_table mg !! i = Some f → fd_mode f ≠ Read → fd_fd f' = fd_fd f →
  fd_mode f' = fd_mode f → fds_ok (set_table (<[i := f']> (file_table mg)) mg).
Proof.
  intros [Hn Hnd Hr Hrd] Hi Hm Hfd Hmode.
  split; cbn [set_table file_table next_fd]; [done| | |].
  - rewrite list_fmap_insert, Hfd, list_insert_id; [done|]. by rewrite list_lookup_fmap, Hi.
  - apply Forall_insert; [done|]. rewrite Hfd. exact (Forall_lookup_1 _ _ _ _ Hr Hi).
  - apply Forall_insert; [done|]. intros Hread. congruence.
Qed.

Lemma filter_Forall (P : FileDescriptor → Prop) fd t :
  Forall P t → Forall P (filter (λ f, fd_fd f ≠ fd) t).
Proof. rewrite !Forall_forall. intros Hp f [_ Hf]%list_elem_of_filter. by apply Hp. Qed.

Lemma removed_ok mg fd :
  fds_ok mg → fds_ok (set_table (filter (λ f, fd_fd f ≠ fd) (file_table mg)) mg).
Proof.
  intros [Hn Hnd Hr Hrd]. split; cbn [set_table file_table next_fd]; [done| | |].
  - eapply sublist_NoDup; [exact Hnd|]. apply fmap_sublist, sublist_filter.
  - by apply filter_Forall.
  - by apply filter_Forall.
Qed.

Lemma find_fd_lookup fd t i f : find_fd fd t = Some (i, f) → t !! i = Some f ∧ fd_fd f = fd.
Proof. intros (? & ? & _)%list_find_Some. done. Qed.

(** One call keeps the invariant and takes at most one number. *)
Lemma vfs_step_ok s op s' :
  vfs_step s op s' → fds_ok (vm s) → next_fd (vm s) < 2 ^ 64 - 1 →
  fds_ok (vm s') ∧ next_fd (vm s') ≤ next_fd (vm s) + 1.
Proof.
  assert (∀ A (m : M (VfsState D) A) r, same m → m s = Ret (r, s') → fds_ok (vm s) →
    fds_ok (vm s') ∧ next_fd (vm s') ≤ next_fd (vm s) + 1) as Hframe.
  { intros A m r Hm Hrun Hok. apply Hm in Hrun. rewrite Hrun. split; [done|lia]. }
  intros Hstep Hok Hlt. destruct Hstep as [s path mode r s' Hrun|s fd buf r s' Hrun
    |s fd data r s' Hrun|s fd r s' Hrun|s path r s' Hrun|s path r s' Hrun|s path r s' Hrun
    |s path data r s' Hrun|s path r s' Hrun|s path r s' Hrun];
    try (eapply Hframe; [|exact Hrun|done]; solve [auto with vfs_same]).
  - apply open_opens in Hrun. destruct r as [fd|e]; cbn [opens] in Hrun.
    + destruct Hrun as (f & -> & Hfd & _ & Hpos & ->). split; [by apply pushed_ok|].
      cbn. rewrite wrap64_small by (destruct Hok; lia). lia.
    + rewrite Hrun. split; [done|lia].
  - apply write_writes in Hrun as [->|(i & f & f' & [Hi _]%find_fd_lookup & Hm & Hfd & Hmode & ->)].
    + split; [done|lia].
    + split; [by eapply replaced_ok|cbn; lia].
  - rewrite close_runs in Hrun. injection Hrun as _ <-. split; [by apply removed_ok|cbn; lia].
Qed.

Lemma vfs_steps_ok s ops s' :
  vfs_steps s ops s' → fds_ok (vm s) → next_fd (vm s) + zlen ops < 2 ^ 64 →
  fds_ok (vm s') ∧ next_fd (vm s') ≤ next_fd (vm s) + zlen ops.
Proof.
  induction 1 as [s|s op s1 ops s' Hstep _ IH]; intros Hok Hlt.
  { change (zlen (@nil vfs_op)) with 0. split; [done|lia]. }
  rewrite zlen_cons in Hlt. pose proof (zlen_nonneg ops).
  destruct (vfs_step_ok s op s1 Hstep Hok) as [Hok1 Hn1]; [lia|].
  destruct IH as [? ?]; [done|lia|]. rewrite zlen_cons. split; [done|lia].
Qed.

Lemma find_fd_absent fd t : fd ∉ fd_fd <$> t → find_fd fd t = None.
Proof.
  intros Hn. unfold find_fd. apply list_find_None, Forall_forall. intros f Hf <-.
  apply Hn. by apply list_elem_of_fmap_2.
Qed.

(** C33. Open files: from a freshly mounted manager, over any sequence of calls on any
    device, the numbers in the table are distinct, at least 3 and below the next
    number, and a file open for reading is always at position 0; so [open] never
    hands out a number in use, and a closed number is unusable. *)
Theorem descriptors_distinct s ops s' :
  file_table (vm s) = [] → next_fd (vm s) = 3 → zlen ops < 2 ^ 64 - 4 → vfs_steps s ops s' →
  fds_ok (vm s') ∧
  (∀ path mode fd s2, open path mode s' = Ret (Ok fd, s2) →
     find_fd fd (file_table (vm s')) = None ∧ is_Some (find_fd fd (file_table (vm s2)))) ∧
  (∀ fd s2 buf data, close fd s' = Ret (Ok tt, s2) →
     read fd buf s2 = Ret (Err NotFound, s2) ∧ write fd data s2 = Ret (Err NotFound, s2)).
Proof.
  intros Ht Hn Hlen Hsteps. destruct (vfs_steps_ok s ops s' Hsteps) as [Hok Hle].
  { split; rewrite ?Ht, ?Hn; [done|apply NoDup_nil_2|constructor..]. }
  { rewrite Hn. lia. }
  split; [done|]. split.
  - intros path mode fd s2 Hrun. apply open_opens in Hrun as (f & -> & Hfd & _ & _ & ->). split.
    + apply find_fd_absent. intros (g & Hg & Hin)%list_elem_of_fmap.
      pose proof (fo_range _ Hok) as Hr. rewrite Forall_forall in Hr. apply Hr in Hin. lia.
    + cbn [pushed set_table set_next_fd file_table].
      apply (list_find_elem_of _ _ f); [|done]. apply elem_of_app. right. by apply list_elem_of_singleton.
  - intros fd s2 buf data Hrun. rewrite close_runs in Hrun. injection Hrun as <-.
    assert (find_fd fd (filter (λ f, fd_fd f ≠ fd) (file_table (vm s'))) = None) as Hnone.
    { apply find_fd_absent. intros (g & -> & [Hg _]%list_elem_of_filter)%list_elem_of_fmap. done. }
    unfold read, write. rewrite !bind_get. cbn [vm file_table set_table]. rewrite Hnone. done.
Qed.
End Sequences.

(** ** Reading through a descriptor *)

Section Read.
Context `{BlockDeviceLaws D} (fs : Fat32Fs).

(** The number of bytes a read into [buf] delivers at the position of [f]. *)
Definition deliver (f : FileDescriptor) (buf : list Z) : Z :=
  Z.min (zlen buf) (Z.max 0 (fd_size f - fd_pos f)).

Lemma read_spec (G : geometry fs) mg v fd i f cs buf :
  vol_ok fs v → fat_fs mg = Some fs → find_fd fd (file_table mg) = Some (i, f) →
  chain_ok v (fd_cluster f :: cs) → 0 ≤ fd_pos f → 0 ≤ fd_size f < 2 ^ 32 →
  fd_size f ≤ zlen (file_bytes v (fd_cluster f :: cs)) →
  let n := deliver f buf in
  fruns fs (read fd buf) mg v
    (Ok (n, take (Z.to_nat n) (drop (Z.to_nat (fd_pos f)) (file_bytes v (fd_cluster f :: cs))) ++
            drop (Z.to_nat n) buf)) mg v.
Proof.
  intros Hv Hfs Hfd Hch Hpos Hsize Hfb n. unfold read. apply fruns_get. intros d. cbn [vm].
  rewrite Hfd. eapply (fruns_ok _ _ _ _ _ (i, f)); [apply fruns_ret|]. cbn beta iota.
  apply fruns_fs; [done|]. pose proof (zlen_nonneg buf) as Hb. unfold sat_sub.
  assert (0 ≤ n ≤ zlen buf) as Hn by (unfold n, deliver; lia).
  destruct (Z.eqb_spec (Z.max 0 (fd_size f - fd_pos f)) 0) as [Hz|Hz].
  { replace n with 0 by (unfold n, deliver; lia). change (Z.to_nat 0) with 0%nat.
    rewrite take_0, drop_0. apply fruns_ret. }
  set (fb := file_bytes v (fd_cluster f :: cs)) in *.
  eapply fruns_ok.
  { eapply fruns_dev, (read_file_spec fs G v (fd_cluster f) cs (fd_size f)); [done..|lia]. }
  fold fb. unfold read_result.
  assert (read_count (fd_size f) (zrepeat (fd_size f) 0) fb = fd_size f) as ->
    by (unfold read_count; rewrite zlen_repeat by lia; lia).
  rewrite (drop_ge (zrepeat (fd_size f) 0)) by (unfold zrepeat; rewrite length_replicate; lia).
  rewrite app_nil_r. cbn beta iota. set (tr := Z.min (zlen buf) _).
  assert (tr = n) as -> by (unfold tr, n, deliver; lia).
  assert (fd_pos f + n ≤ fd_size f) as Hend by (unfold n, deliver; lia). nowrap.
  rewrite (Z.min_l (fd_pos f + n)) by done.
  replace (Z.max 0 (fd_pos f + n - fd_pos f)) with n by lia.
  destruct (Z.ltb_spec 0 n) as [Hpn|Hpn].
  - eapply fruns_liftO.
    { apply zslice_ok; [lia|]. rewrite zlen_take. unfold n, deliver in *. lia. }
    rewrite skipn_firstn_comm, take_take.
    replace (Z.to_nat (fd_pos f + n - fd_pos f) `min` (Z.to_nat (fd_size f) - Z.to_nat (fd_pos f)))%nat
      with (Z.to_nat n) by (unfold n, deliver in *; lia).
    set (src := take (Z.to_nat n) (drop (Z.to_nat (fd_pos f)) fb)).
    assert (zlen src = n) as Hsrc by (unfold src; rewrite zlen_take, zlen_drop; unfold n, deliver in *; lia).
    eapply fruns_liftO; [apply zcopy_ok; lia|]. rewrite Hsrc. change (Z.to_nat 0) with 0%nat.
    rewrite take_0, Z.add_0_l. apply fruns_ret.
  - replace n with 0 by lia. change (Z.to_nat 0) with 0%nat. rewrite take_0, drop_0. apply fruns_ret.
Qed.

(** Reading through a descriptor delivers the bytes of the file at its position, as
    many as the buffer and the size allow, and leaves the rest of the buffer alone; the
    position does not move, so that reading again delivers the same bytes again, and a
    file opened for reading can never be read past the length of one buffer. *)
Theorem read_never_advances mg d v fd i f cs buf :
  geometry fs → working d → abs fs (content d) v → fat_fs mg = Some fs →
  find_fd fd (file_table mg) = Some (i, f) → chain_ok v (fd_cluster f :: cs) →
  0 ≤ fd_pos f → 0 ≤ fd_size f < 2 ^ 32 →
  fd_size f ≤ zlen (file_bytes v (fd_cluster f :: cs)) →
  ∃ d' buf', read fd buf (mkVS mg d) = Ret (Ok (deliver f buf, buf'), mkVS mg d') ∧
    buf' = take (Z.to_nat (deliver f buf))
             (drop (Z.to_nat (fd_pos f)) (file_bytes v (fd_cluster f :: cs))) ++
           drop (Z.to_nat (deliver f buf)) buf ∧
    ∃ d'', read fd buf (mkVS mg d') = Ret (Ok (deliver f buf, buf'), mkVS mg d'').
Proof.
  intros G Hw Habs Hfs Hfd Hch Hpos Hsize Hfb.
  pose proof (read_spec G mg v fd i f cs buf (abs_vol_ok fs G _ _ Habs) Hfs Hfd Hch Hpos Hsize Hfb)
    as Hrun. destruct (Hrun d Hw Habs) as (d' & Hd' & Hw' & Habs').
  destruct (Hrun d' Hw' Habs') as (d'' & Hd'' & _).
  exists d'. eexists. split; [exact Hd'|]. split; [done|]. by exists d''.
Qed.
End Read.

(** ** Witnesses *)

Definition w_mgr (fs : Fat32Fs) (t : list FileDescriptor) : VfsManager :=
  mkVfs (bytes_of "/") (Some fs) 2 t 3 (bytes_of "/").

(** A disk like [w_disk] with clusters of two sectors. *)
Definition w2_bpb : Fat32Bpb :=
  mkBpb [] [] 32 2 1 2 0 0 0 0 0 0 0 25 2 0 0 2 0 0 [] 0 0 0 0 [] [].
Definition w2_fs : Fat32Fs := mkFat32Fs w2_bpb 0.
Definition w2_disk : RamDisk :=
  list_to_map (imap (λ i b, (Z.of_nat i, b))
    (replicate 32 1 :: w_table :: replicate 32 0 :: w_table :: replicate 21 (replicate 32 0))).

Lemma w2_geometry : geometry w2_fs.
Proof. split; vm_compute; repeat split; done. Qed.

Lemma w2_disk_ok : disk_ok w2_fs w2_disk.
Proof.
  assert (Forall (λ s, ∃ bs, w2_disk !! s = Some bs ∧ zlen bs = 32 ∧ bytes bs) (range 0 25)) as Hall.
  { change (range 0 25) with [0;1;2;3;4;5;6;7;8;9;10;11;12;13;14;15;16;17;18;19;20;21;22;23;24].
    repeat constructor; (eexists; split; [vm_compute; reflexivity|]; split; [reflexivity|];
      apply (bool_decide_unpack _); vm_compute; reflexivity). }
  intros s Hs. rewrite Forall_forall in Hall. apply Hall, elem_of_range. exact Hs.
Qed.

Lemma w2_working : working w2_disk.
Proof. exact I. Qed.

Definition w2_vol : volume := volume_of w2_fs w2_disk.

Lemma w2_abs : abs w2_fs (content w2_disk) w2_vol.
Proof. apply abs_volume_of, w2_disk_ok. Qed.

Lemma w2_chain : chain_ok w2_vol [2; 3].
Proof.
  split.
  - cbn [linked]. split; [vm_compute; reflexivity|]. exists 0x0FFFFFF8.
    split; [vm_compute; reflexivity|]. done.
  - apply (bool_decide_unpack _). vm_compute. reflexivity.
  - done.
Qed.

Lemma w2_free : first_free w2_fs w2_vol 4.
Proof.
  split; [vm_compute; reflexivity|]. intros j x Hj.
  assert (j = 2 ∨ j = 3) as [-> | ->] by lia; vm_compute; by intros [= <-].
Qed.

Lemma w_plain : plain_name (bytes_of "Readme.txt").
Proof.
  split.
  - apply (bool_decide_unpack _). vm_compute. reflexivity.
  - apply (short_ext (bytes_of "README") (bytes_of "TXT")); try (cbn; lia);
      unfold name_char, is_byte, space, dot; vm_compute; repeat constructor; done.
  - apply (bool_decide_unpack _). vm_compute. reflexivity.
Qed.

Lemma resolve_path_walks_witness :
  ∃ d' : RamDisk, resolve_path (bytes_of "//./../.") (mkVS (w_mgr w_fs []) w_disk) =
    Ret (Ok (2, []), mkVS (w_mgr w_fs []) d').
Proof.
  apply (resolve_path_walks w_fs (w_mgr w_fs []) w_disk w_vol (λ _, []) (λ c, c = 2)
    (bytes_of "//./../.") w_geometry w_working w_abs eq_refl); [|reflexivity].
  intros c ->. split; [|by intros e He%elem_of_nil]. right. exists [3].
  split; [exact w_chain|vm_compute; reflexivity].
Defined.

Lemma create_then_read_witness :
  ∃ d' d'' : RamDisk,
    create_file (bytes_of "/Readme.txt") [1; 2; 3] (mkVS (w_mgr w_fs []) w_disk) =
      Ret (Ok tt, mkVS (w_mgr w_fs []) d') ∧
    read_file_content (bytes_of "README.TXT") (mkVS (w_mgr w_fs []) d') =
      Ret (Ok [1; 2; 3], mkVS (w_mgr w_fs []) d'').
Proof.
  destruct (create_then_read w_fs (w_mgr w_fs []) w_disk w_vol [3] 4 (bytes_of "/Readme.txt")
    (bytes_of "Readme.txt") [1; 2; 3] w_geometry w_working w_abs eq_refl w_chain w_free)
    as (d' & Hd' & Hread).
  - apply (bool_decide_unpack _). vm_compute. reflexivity.
  - vm_compute. discriminate.
  - exact w_plain.
  - reflexivity.
  - vm_compute. reflexivity.
  - constructor. vm_compute. reflexivity.
  - destruct (Hread (bytes_of "README.TXT")) as (d'' & Hd'');
      [vm_compute; reflexivity|apply (bool_decide_unpack _); vm_compute; reflexivity..|].
    exists d', d''. split; [exact Hd'|exact Hd''].
Defined.

Lemma mkdir_then_list_witness :
  ∃ d' d'' : RamDisk,
    mkdir (bytes_of "/Readme.txt") (mkVS (w_mgr w2_fs []) w2_disk) =
      Ret (Ok tt, mkVS (w_mgr w2_fs []) d') ∧
    list_dir (bytes_of "/Readme.txt") (mkVS (w_mgr w2_fs []) d') =
      Ret (Ok [], mkVS (w_mgr w2_fs []) d'').
Proof.
  destruct (mkdir_then_list w2_fs (w_mgr w2_fs []) w2_disk w2_vol [3] 4 (bytes_of "/Readme.txt")
    (bytes_of "Readme.txt") w2_geometry w2_working w2_abs eq_refl w2_chain w2_free)
    as (d' & Hd' & _ & (d'' & Hl) & _).
  - vm_compute. discriminate.
  - exact w_plain.
  - reflexivity.
  - apply (bool_decide_unpack _). vm_compute. reflexivity.
  - vm_compute. reflexivity.
  - constructor. vm_compute. reflexivity.
  - exists d', d''. split; [exact Hd'|exact Hl].
Defined.

Lemma descriptors_distinct_witness :
  ∃ s' : VfsState RamDisk,
    vfs_steps (mkVS (w_mgr w_fs []) w_disk) [OpOpen (bytes_of "/") Read; OpClose 3; OpClose 4] s' ∧
    fds_ok (vm s').
Proof.
  assert (∃ s' : VfsState RamDisk,
    vfs_steps (mkVS (w_mgr w_fs []) w_disk) [OpOpen (bytes_of "/") Read; OpClose 3; OpClose 4] s')
    as [s' Hs'].
  { set (s1 := mkVS (pushed (mkFd 3 (bytes_of "/") Read 0 0 2) (w_mgr w_fs [])) w_disk).
    eexists. eapply steps_cons; [apply (step_open _ _ _ (Ok 3) s1); reflexivity|].
    eapply steps_cons; [eapply step_close; reflexivity|].
    eapply steps_cons; [eapply step_close; reflexivity|]. apply steps_nil. }
  exists s'. split; [exact Hs'|].
  apply (descriptors_distinct (mkVS (w_mgr w_fs []) w_disk)
    [OpOpen (bytes_of "/") Read; OpClose 3; OpClose 4] s' eq_refl eq_refl); [reflexivity|exact Hs'].
Defined.

Lemma read_never_advances_witness :
  ∃ (d' : RamDisk) buf',
    read 3 [7; 7; 7] (mkVS (w_mgr w_fs [mkFd 3 (bytes_of "/A") Write 38 40 2]) w_disk) =
      Ret (Ok (2, buf'), mkVS (w_mgr w_fs [mkFd 3 (bytes_of "/A") Write 38 40 2]) d') ∧
    buf' = [0; 0; 7].
Proof.
  destruct (read_never_advances w_fs (w_mgr w_fs [mkFd 3 (bytes_of "/A") Write 38 40 2]) w_disk w_vol
    3 0 (mkFd 3 (bytes_of "/A") Write 38 40 2) [3] [7; 7; 7] w_geometry w_working w_abs eq_refl
    eq_refl w_chain) as (d' & buf' & Hrun & Hbuf & _);
    [vm_compute; discriminate|split; [vm_compute; discriminate|reflexivity]|vm_compute; discriminate|].
  exists d', buf'. split; [exact Hrun|]. rewrite Hbuf. vm_compute. reflexivity.
Defined.
