(* ===== verification/Ports.v ===== *)
(** * Port I/O and the driver interface (kernel/src/drivers/mod.rs)

    The x86 port instructions are a parameter of the drivers: [PortIO P] gives
    them on a machine state [P]. *)

From stdpp Require Import base numbers list gmap strings.
From S2P Require Import Prelude.

#[local] Open Scope Z_scope.

Class PortIO (P : Type) := {
  inb : Z → M P Z;
  outb : Z → Z → M P unit;
  inw : Z → M P Z;
  outw : Z → Z → M P unit;
  inl : Z → M P Z;
  outl : Z → Z → M P unit;
}.

Inductive DriverStatus :=
  | Uninitialized
  | Initializing
  | Ready
  | Error
  | Disabled.

#[export] Instance DriverStatus_eq_dec : EqDecision DriverStatus.
Proof. solve_decision. Defined.

Definition DriverStatus_display (s : DriverStatus) : string :=
  match s with
  | Uninitialized => "Uninitialized"
  | Initializing => "Initializing"
  | Ready => "Ready"
  | Error => "Error"
  | Disabled => "Disabled"
  end.

Inductive DriverError :=
  | DriverDeviceNotFound
  | InitFailed
  | Timeout
  | DriverIoError
  | NotReady
  | Unsupported
  | InvalidParam
  | BufferTooSmall.

#[export] Instance DriverError_eq_dec : EqDecision DriverError.
Proof. solve_decision. Defined.

Definition DriverError_display (e : DriverError) : string :=
  match e with
  | DriverDeviceNotFound => "Device not found"
  | InitFailed => "Initialization failed"
  | Timeout => "Operation timed out"
  | DriverIoError => "I/O error"
  | NotReady => "Device not ready"
  | Unsupported => "Unsupported operation"
  | InvalidParam => "Invalid parameter"
  | BufferTooSmall => "Buffer too small"
  end.

(** The trait [Driver] for a driver [T] on a machine [P]. *)
Class Driver (T P : Type) := {
  driver_name : T → string;
  driver_init : T → M P (result unit DriverError * T);
  driver_status : T → DriverStatus;
  driver_reset : T → M P (result unit DriverError * T);
  driver_shutdown : T → T;
  driver_probe : T → bool;
}.
