(* ===== verification/Ata.v ===== *)
(** * The ATA PIO driver (kernel/src/drivers/ata/mod.rs, kernel/src/block/ata.rs)

    Every port access of the driver in its order, on a machine [P]. The functions
    that fill a [&mut] buffer answer the new buffer too, on errors as well. The
    last part is the block device over the driver of the global mutex. *)

From stdpp Require Import base numbers list gmap strings.
From S2P Require Import Prelude ByteStr Block Ports.

#[local] Open Scope Z_scope.
#[local] Open Scope rust_scope.

Definition PRIMARY_BASE : Z := 0x1F0.
Definition PRIMARY_CONTROL : Z := 0x3F6.
Definition SECONDARY_BASE : Z := 0x170.
Definition SECONDARY_CONTROL : Z := 0x376.

Definition SECTOR_SIZE : Z := 512.

Definition STATUS_ERR : Z := 0x01.
Definition STATUS_DRQ : Z := 0x08.
Definition STATUS_DF : Z := 0x20.
Definition STATUS_BSY : Z := 0x80.

Definition CMD_READ_SECTORS : Z := 0x20.
Definition CMD_WRITE_SECTORS : Z := 0x30.
Definition CMD_IDENTIFY_DRIVE : Z := 0xEC.
Definition CMD_FLUSH_CACHE : Z := 0xE7.

Definition MAX_RETRIES : nat := 3.
Definition POLL_TIMEOUT : nat := Z.to_nat 100000.

Record AtaChannel := mkChannel { base_port : Z; control_port : Z }.

Record AtaDeviceInfo := mkDeviceInfo {
  present : bool;
  is_ata : bool;
  sectors_28 : Z;
  lba48 : bool;
  model : list Z;
  serial : list Z;
  firmware : list Z;
}.

Definition AtaDeviceInfo_new : AtaDeviceInfo := mkDeviceInfo false false 0 false [] [] [].

Record AtaDriver := mkAtaDriver {
  ata_status : DriverStatus;
  primary_master : AtaDeviceInfo;
  primary_slave : AtaDeviceInfo;
  secondary_master : AtaDeviceInfo;
  secondary_slave : AtaDeviceInfo;
}.

Definition AtaDriver_new : AtaDriver :=
  mkAtaDriver Uninitialized AtaDeviceInfo_new AtaDeviceInfo_new AtaDeviceInfo_new AtaDeviceInfo_new.

Definition get_channel (base_port : Z) : AtaChannel :=
  if base_port =? PRIMARY_BASE then mkChannel PRIMARY_BASE PRIMARY_CONTROL
  else if base_port =? SECONDARY_BASE then mkChannel SECONDARY_BASE SECONDARY_CONTROL
  else mkChannel PRIMARY_BASE PRIMARY_CONTROL.

Definition device_info (self : AtaDriver) (base_port : Z) (slave : bool) : AtaDeviceInfo :=
  if base_port =? PRIMARY_BASE then (if slave then primary_slave self else primary_master self)
  else if base_port =? SECONDARY_BASE then
    (if slave then secondary_slave self else secondary_master self)
  else primary_master self.

(** A status byte has one of the bits of [mask]. *)
Definition any_bit (status mask : Z) : bool := negb (Z.land status mask =? 0).

Definition swap_bytes (word : Z) : list Z := [wrap 8 (Z.shiftr word 8); wrap 8 word].

(** [while bytes.last() == Some(&b' ') || bytes.last() == Some(&0) { bytes.pop(); }] *)
Fixpoint trim_end_pad (l : list Z) : list Z :=
  match l with
  | [] => []
  | b :: l =>
      match trim_end_pad l with
      | [] => if (b =? space) || (b =? 0) then [] else [b]
      | l' => b :: l'
      end
  end.

Fixpoint extract_words (data : list Z) (idx : list Z) : outcome (list Z) :=
  match idx with
  | [] => mret []
  | i :: idx =>
      word ← zget data i;
      rest ← extract_words data idx;
      mret (swap_bytes word ++ rest)
  end.

Definition extract_string (data : list Z) (start_word end_word : Z) : outcome (list Z) :=
  bytes ← extract_words data (range start_word (end_word + 1));
  mret (trim_end_pad bytes).

Section Ata.
Context `{PortIO P}.

Definition read_reg (ch : AtaChannel) (offset : Z) : M P Z := inb (wrap 16 (base_port ch + offset)).
Definition write_reg (ch : AtaChannel) (offset value : Z) : M P unit :=
  outb (wrap 16 (base_port ch + offset)) value.
Definition read_data_word (ch : AtaChannel) : M P Z := inw (base_port ch).
Definition write_data_word (ch : AtaChannel) (value : Z) : M P unit := outw (base_port ch) value.
Definition read_alt_status (ch : AtaChannel) : M P Z := inb (control_port ch).
Definition write_control (ch : AtaChannel) (value : Z) : M P unit := outb (control_port ch) value.

(** Four reads of the alternate status register. *)
Definition delay_400ns (ch : AtaChannel) : M P unit :=
  mfor (range 0 4) (λ _, _ ← read_alt_status ch; mret tt).

Definition select_device (ch : AtaChannel) (slave : bool) : M P unit :=
  let head := if slave then 0xB0 else 0xA0 in
  _ ← write_reg ch 6 head;
  delay_400ns ch.

Definition software_reset (ch : AtaChannel) : M P unit :=
  _ ← write_control ch 0x04;
  _ ← delay_400ns ch;
  _ ← write_control ch 0x00;
  delay_400ns ch.

(** [for _ in 0..POLL_TIMEOUT { .. return .. } Err(Timeout)] *)
Fixpoint poll_loop (ch : AtaChannel) (n : nat) (done_ : Z → option (result unit DriverError)) :
    M P (result unit DriverError) :=
  match n with
  | O => mret (Err Timeout)
  | S n =>
      status ← read_reg ch 7;
      match done_ status with
      | Some r => mret r
      | None => poll_loop ch n done_
      end
  end.

Definition bsy_done (status : Z) : option (result unit DriverError) :=
  if negb (any_bit status STATUS_BSY) then Some (Ok tt) else None.

Definition drq_done (status : Z) : option (result unit DriverError) :=
  if negb (any_bit status STATUS_BSY) && any_bit status STATUS_DRQ then Some (Ok tt)
  else if any_bit status (Z.lor STATUS_ERR STATUS_DF) then Some (Err DriverIoError)
  else None.

Definition poll_bsy (ch : AtaChannel) : M P (result unit DriverError) :=
  poll_loop ch POLL_TIMEOUT bsy_done.
Definition poll_drq (ch : AtaChannel) : M P (result unit DriverError) :=
  poll_loop ch POLL_TIMEOUT drq_done.
Definition poll_not_busy (ch : AtaChannel) : M P (result unit DriverError) :=
  poll_loop ch POLL_TIMEOUT bsy_done.

(** ** Identification *)

(** [for i in 0..256 { identify_data[i] = read_data_word() }] *)
Fixpoint read_words (ch : AtaChannel) (n : nat) : M P (list Z) :=
  match n with
  | O => mret []
  | S n =>
      w ← read_data_word ch;
      rest ← read_words ch n;
      mret (w :: rest)
  end.

Definition identify (ch : AtaChannel) : M P AtaDeviceInfo :=
  identify_data ← read_words ch 256;
  r ← poll_not_busy ch;
  match r with
  | Err _ => mret AtaDeviceInfo_new
  | Ok _ =>
      serial ← liftO (extract_string identify_data 10 19);
      firmware ← liftO (extract_string identify_data 23 26);
      model ← liftO (extract_string identify_data 27 46);
      w61 ← liftO (zget identify_data 61);
      w60 ← liftO (zget identify_data 60);
      w83 ← liftO (zget identify_data 83);
      mret (mkDeviceInfo true true (Z.lor (Z.shiftl w61 16) w60) (any_bit w83 (Z.shiftl 1 10))
              model serial firmware)
  end.

Definition probe_device (ch : AtaChannel) (slave : bool) : M P AtaDeviceInfo :=
  let info := AtaDeviceInfo_new in
  _ ← select_device ch slave;
  _ ← mfor (range 1 6) (λ r, write_reg ch r 0x00);
  _ ← write_reg ch 7 CMD_IDENTIFY_DRIVE;
  status ← read_reg ch 7;
  if status =? 0 then mret info else
  r ← poll_bsy ch;
  match r with
  | Err _ => mret info
  | Ok _ =>
      mid ← read_reg ch 4;
      high ← read_reg ch 5;
      if negb (mid =? 0) || negb (high =? 0) then mret info else
      r ← poll_drq ch;
      match r with
      | Err _ => mret info
      | Ok _ => identify ch
      end
  end.

(** ** Transfers *)

(** The registers of a one-sector command. *)
Definition issue_command (ch : AtaChannel) (slave : bool) (sector_lba cmd : Z) : M P unit :=
  _ ← select_device ch slave;
  _ ← write_reg ch 1 0x00;
  _ ← write_reg ch 2 0x01;
  _ ← write_reg ch 3 (Z.land sector_lba 0xFF);
  _ ← write_reg ch 4 (Z.land (Z.shiftr sector_lba 8) 0xFF);
  _ ← write_reg ch 5 (Z.land (Z.shiftr sector_lba 16) 0xFF);
  _ ← write_reg ch 6 (Z.lor (Z.lor 0xE0 (if slave then 0x10 else 0x00))
                        (Z.land (Z.shiftr sector_lba 24) 0x0F));
  write_reg ch 7 cmd.

(** The 256 words into the buffer at [buf_offset]; words [idx]. *)
Fixpoint read_data (ch : AtaChannel) (buf : list Z) (buf_offset : Z) (idx : list Z) : M P (list Z) :=
  match idx with
  | [] => mret buf
  | i :: idx =>
      word ← read_data_word ch;
      let byte_idx := buf_offset +₆₄ i * 2 in
      buf' ← liftO (if byte_idx +₆₄ 1 <? zlen buf
        then b ← zset buf byte_idx (Z.land word 0xFF);
             zset b (byte_idx +₆₄ 1) (Z.shiftr word 8)
        else mret buf);
      read_data ch buf' buf_offset idx
  end.

(** An attempt failed: [last_error = e; software_reset(); continue]. *)
Definition fail_attempt {A} (ch : AtaChannel) (e : DriverError) (a : A) :
    M P (result unit DriverError * A) :=
  _ ← software_reset ch;
  mret (Err e, a).

Definition check_status {A} (ch : AtaChannel) (a : A) (k : M P (result unit DriverError * A)) :
    M P (result unit DriverError * A) :=
  r ← poll_not_busy ch;
  match r with
  | Err e => fail_attempt ch e a
  | Ok _ =>
      status ← read_reg ch 7;
      if any_bit status (Z.lor STATUS_ERR STATUS_DF) then fail_attempt ch DriverIoError a else k
  end.

(** One iteration of the retry loop of [read_sectors]. *)
Definition read_attempt (ch : AtaChannel) (slave : bool) (sector_lba buf_offset : Z) (buf : list Z) :
    M P (result unit DriverError * list Z) :=
  _ ← issue_command ch slave sector_lba CMD_READ_SECTORS;
  r ← poll_drq ch;
  match r with
  | Err e => fail_attempt ch e buf
  | Ok _ =>
      buf' ← read_data ch buf buf_offset (range 0 256);
      check_status ch buf' (mret (Ok tt, buf'))
  end.

(** [for _attempt in 0..MAX_RETRIES], then [last_error]. *)
Fixpoint retry {A} (n : nat) (attempt : A → M P (result unit DriverError * A))
    (last_error : result unit DriverError) (a : A) : M P (result unit DriverError * A) :=
  match n with
  | O => mret (last_error, a)
  | S n =>
      '(r, a') ← attempt a;
      match r with
      | Ok _ => mret (Ok tt, a')
      | Err e => retry n attempt (Err e) a'
      end
  end.

(** [for sector_offset in 0..count { ..?; }] *)
Fixpoint for_sectors {A} (l : list Z) (body : Z → A → M P (result unit DriverError * A)) (a : A) :
    M P (result unit DriverError * A) :=
  match l with
  | [] => mret (Ok tt, a)
  | x :: l =>
      '(r, a') ← body x a;
      match r with
      | Ok _ => for_sectors l body a'
      | Err e => mret (Err e, a')
      end
  end.

(** The checks before a transfer. *)
Definition transfer_error (lba count : Z) (buf : list Z) : option DriverError :=
  if zlen buf <? count *₆₄ SECTOR_SIZE then Some BufferTooSmall
  else if (0 <? count) && (2 ^ 32 <=? lba + (count - 1)) then Some InvalidParam
  else None.

Definition read_sectors (channel_base : Z) (slave : bool) (lba count : Z) (buf : list Z) :
    M P (result unit DriverError * list Z) :=
  let ch := get_channel channel_base in
  match transfer_error lba count buf with
  | Some e => mret (Err e, buf)
  | None =>
      for_sectors (range 0 count) (λ sector_offset buf,
        let sector_lba := lba +₃₂ sector_offset in
        retry MAX_RETRIES (read_attempt ch slave sector_lba (sector_offset *₆₄ SECTOR_SIZE))
          (Err DriverIoError) buf) buf
  end.

(** The 256 words of the buffer at [buf_offset] to the data port. *)
Definition write_data (ch : AtaChannel) (buf : list Z) (buf_offset : Z) (idx : list Z) : M P unit :=
  mfor idx (λ i,
    let byte_idx := buf_offset +₆₄ i * 2 in
    word ← liftO (if byte_idx +₆₄ 1 <? zlen buf
      then b0 ← zget buf byte_idx;
           b1 ← zget buf (byte_idx +₆₄ 1);
           mret (Z.lor b0 (Z.shiftl b1 8))
      else mret 0);
    write_data_word ch word).

(** One iteration of the retry loop of [write_sectors]. *)
Definition write_attempt (ch : AtaChannel) (slave : bool) (sector_lba buf_offset : Z) (buf : list Z)
    (u : unit) : M P (result unit DriverError * unit) :=
  _ ← issue_command ch slave sector_lba CMD_WRITE_SECTORS;
  r ← poll_drq ch;
  match r with
  | Err e => fail_attempt ch e u
  | Ok _ =>
      _ ← write_data ch buf buf_offset (range 0 256);
      check_status ch u (
        _ ← write_reg ch 7 CMD_FLUSH_CACHE;
        check_status ch u (mret (Ok tt, u)))
  end.

Definition write_sectors (channel_base : Z) (slave : bool) (lba count : Z) (buf : list Z) :
    M P (result unit DriverError) :=
  let ch := get_channel channel_base in
  match transfer_error lba count buf with
  | Some e => mret (Err e)
  | None =>
      '(r, _) ← for_sectors (range 0 count) (λ sector_offset u,
        let sector_lba := lba +₃₂ sector_offset in
        retry MAX_RETRIES (write_attempt ch slave sector_lba (sector_offset *₆₄ SECTOR_SIZE) buf)
          (Err DriverIoError) u) tt;
      mret r
  end.

(** ** The driver *)

(** Resetting both channels and probing the four devices, as [init] and [reset] do. *)
Definition probe_all : M P (AtaDeviceInfo * AtaDeviceInfo * AtaDeviceInfo * AtaDeviceInfo) :=
  let primary := get_channel PRIMARY_BASE in
  let secondary := get_channel SECONDARY_BASE in
  _ ← software_reset primary;
  _ ← software_reset secondary;
  pm ← probe_device primary false;
  ps ← probe_device primary true;
  sm ← probe_device secondary false;
  ss ← probe_device secondary true;
  mret (pm, ps, sm, ss).

Definition usable (d : AtaDeviceInfo) : bool := present d && is_ata d.

Definition AtaDriver_init (self : AtaDriver) : M P (result unit DriverError * AtaDriver) :=
  '(pm, ps, sm, ss) ← probe_all;
  if usable pm || usable ps || usable sm || usable ss
  then mret (Ok tt, mkAtaDriver Ready pm ps sm ss)
  else mret (Err DriverDeviceNotFound, mkAtaDriver Error pm ps sm ss).

Definition AtaDriver_probe (self : AtaDriver) : bool :=
  present (primary_master self) || present (primary_slave self) ||
  present (secondary_master self) || present (secondary_slave self).

Definition AtaDriver_reset (self : AtaDriver) : M P (result unit DriverError * AtaDriver) :=
  '(pm, ps, sm, ss) ← probe_all;
  let found := present pm || present ps || present sm || present ss in
  mret (Ok tt, mkAtaDriver (if found then Ready else Error) pm ps sm ss).

Definition AtaDriver_shutdown (self : AtaDriver) : AtaDriver :=
  mkAtaDriver Disabled (primary_master self) (primary_slave self) (secondary_master self)
    (secondary_slave self).

#[export] Instance ata_driver : Driver AtaDriver P := {
  driver_name _ := "ATA PIO Driver";
  driver_init := AtaDriver_init;
  driver_status := ata_status;
  driver_reset := AtaDriver_reset;
  driver_shutdown := AtaDriver_shutdown;
  driver_probe := AtaDriver_probe;
}.
End Ata.

(** ** The block device *)

(** The global [ATA] mutex and the machine. *)
Record AtaSystem (P : Type) := mkAtaSystem { ata : option AtaDriver; machine : P }.
Arguments mkAtaSystem {P} _ _.
Arguments ata {P} _.
Arguments machine {P} _.

Record AtaBlockDevice := mkAtaBlockDevice { abd_base_port : Z; abd_slave : bool }.

Definition AtaBlockDevice_primary_master : AtaBlockDevice := mkAtaBlockDevice PRIMARY_BASE false.
Definition AtaBlockDevice_new (base_port : Z) (slave : bool) : AtaBlockDevice :=
  mkAtaBlockDevice base_port slave.

Section BlockDev.
Context `{PortIO P}.

(** A computation on the machine. *)
Definition on_machine {A} (m : M P A) : M (AtaSystem P) A := λ s,
  match m (machine s) with
  | Ret (a, p) => Ret (a, mkAtaSystem (ata s) p)
  | Panic => Panic
  | UB => UB
  | OutOfFuel => OutOfFuel
  end.

Definition init_ata_driver : M (AtaSystem P) (result unit DriverError) :=
  '(r, driver) ← on_machine (AtaDriver_init AtaDriver_new);
  match r with
  | Err e => mret (Err e)
  | Ok _ =>
      _ ← modify (λ s, mkAtaSystem (Some driver) (machine s));
      mret (Ok tt)
  end.

(** [read_sector] into a zeroed buffer of [n] bytes, as its callers pass it. *)
Definition ata_read_sector (d : AtaBlockDevice) (lba n : Z) : M (AtaSystem P) (result (list Z) BlockError) :=
  s ← get;
  match ata s with
  | None => mret (Err DeviceNotFound)
  | Some _ =>
      '(r, buf) ← on_machine (read_sectors (abd_base_port d) (abd_slave d) lba 1 (zrepeat n 0));
      mret (match r with Ok _ => Ok buf | Err _ => Err IoError end)
  end.

Definition ata_write_sector (d : AtaBlockDevice) (lba : Z) (buf : list Z) :
    M (AtaSystem P) (result unit BlockError) :=
  s ← get;
  match ata s with
  | None => mret (Err DeviceNotFound)
  | Some _ =>
      r ← on_machine (write_sectors (abd_base_port d) (abd_slave d) lba 1 buf);
      mret (match r with Ok _ => Ok tt | Err _ => Err IoError end)
  end.

Definition ata_total_sectors (d : AtaBlockDevice) (s : AtaSystem P) : Z :=
  match ata s with
  | None => 0
  | Some driver => sectors_28 (device_info driver (abd_base_port d) (abd_slave d))
  end.

Definition ata_name (d : AtaBlockDevice) : string :=
  if abd_slave d then "ATA-primary-slave" else "ATA-primary-master".

(** The device that the VFS mounts. *)
#[export] Instance ata_block_device : BlockDevice (AtaSystem P) := {
  read_sector := ata_read_sector AtaBlockDevice_primary_master;
  write_sector := ata_write_sector AtaBlockDevice_primary_master;
  sector_size _ := SECTOR_SIZE;
  total_sectors := ata_total_sectors AtaBlockDevice_primary_master;
}.
End BlockDev.
