(* ===== verification/AtaSpec.v ===== *)
(** * The ATA driver on working hardware

    What a drive on the primary channel promises the driver ([AtaHardware], after
    the ATA command protocol for PIO transfers): a small automaton over its
    registers, the transfer under way, the time it stays busy and its sectors. While it
    is busy it takes no register writes and no data. On such a drive the driver reads and
    writes sectors, so that it implements the block device interface. *)

From stdpp Require Import base numbers list gmap strings fin_maps.
From S2P Require Import Prelude ByteStr Block Ports Ata.

#[local] Open Scope Z_scope.
#[local] Open Scope rust_scope.

(** ** The drive *)

(** [Resetting]: the reset bit is set. *)
Inductive phase :=
  | Idle
  | DataIn (ws : list Z)
  | DataOut (lba : Z) (ws : list Z)
  | Resetting.

(** Time is counted in reads of the two status registers, the only clock the driver has:
    [hw_busy] is the number of them for which the drive stays busy. *)
Record AtaHw := mkHw {
  hw_low : Z;
  hw_mid : Z;
  hw_high : Z;
  hw_head : Z;
  hw_phase : phase;
  hw_busy : nat;
  hw_sectors : gmap Z (list Z);
}.

(** Little-endian words. *)
Fixpoint words_of (l : list Z) : list Z :=
  match l with
  | a :: b :: l => (a + 256 * b) :: words_of l
  | _ => []
  end.
Definition bytes_of_words (ws : list Z) : list Z := concat (le_bytes 2 <$> ws).

Definition hw_lba (h : AtaHw) : Z :=
  hw_low h + 2 ^ 8 * hw_mid h + 2 ^ 16 * hw_high h + 2 ^ 24 * (hw_head h mod 16).

Definition set_phase (ph : phase) (busy : nat) (h : AtaHw) : AtaHw :=
  mkHw (hw_low h) (hw_mid h) (hw_high h) (hw_head h) ph busy (hw_sectors h).

(** The BSY bit: a command, or a reset, is under way. *)
Definition busy (h : AtaHw) : bool :=
  match hw_phase h with Resetting => true | _ => negb (hw_busy h =? 0)%nat end.

(** The slave is selected; there is none. *)
Definition slave_selected (h : AtaHw) : bool := Z.testbit (hw_head h) 4.

(** A write to a register below the command register. *)
Definition store_reg (r v : Z) (h : AtaHw) : AtaHw :=
  if r =? 3 then mkHw v (hw_mid h) (hw_high h) (hw_head h) (hw_phase h) (hw_busy h) (hw_sectors h)
  else if r =? 4 then mkHw (hw_low h) v (hw_high h) (hw_head h) (hw_phase h) (hw_busy h) (hw_sectors h)
  else if r =? 5 then mkHw (hw_low h) (hw_mid h) v (hw_head h) (hw_phase h) (hw_busy h) (hw_sectors h)
  else if r =? 6 then mkHw (hw_low h) (hw_mid h) (hw_high h) v (hw_phase h) (hw_busy h) (hw_sectors h)
  else h.
Definition hw_set (r v : Z) (h : AtaHw) : AtaHw := if busy h then h else store_reg r v h.

(** A write to the command register. The drive takes it when it is selected and not busy;
    it answers IDENTIFY with the words [identity]. *)
Definition hw_command (latency : nat) (identity : list Z) (cmd : Z) (h : AtaHw) : AtaHw :=
  if busy h || slave_selected h then h else
  if cmd =? 0x20 then
    match hw_sectors h !! hw_lba h with
    | Some bs => set_phase (DataIn (words_of bs)) latency h
    | None => set_phase Idle latency h
    end
  else if cmd =? 0x30 then set_phase (DataOut (hw_lba h) []) latency h
  else if cmd =? 0xE7 then set_phase Idle latency h
  else if cmd =? 0xEC then set_phase (DataIn identity) latency h
  else h.

(** A write to the device control register. The reset bit makes the drive drop what it was
    doing; when the bit is cleared the drive is busy with its reset for [latency], and
    then shows the signature of an ATA device, with the master selected. *)
Definition hw_control (latency : nat) (v : Z) (h : AtaHw) : AtaHw :=
  if Z.testbit v 2 then set_phase Resetting 0 h
  else match hw_phase h with
       | Resetting => mkHw 1 0 0 0 Idle latency (hw_sectors h)
       | _ => h
       end.

(** Both status registers. For a slave that is not there, the master answers zero. *)
Definition hw_status (h : AtaHw) : Z :=
  if busy h then 0x80 else
  if slave_selected h then 0 else
  match hw_phase h with
  | DataIn (_ :: _) | DataOut _ _ => 0x58
  | _ => 0x50
  end.
Definition hw_poll (h : AtaHw) : AtaHw := set_phase (hw_phase h) (pred (hw_busy h)) h.

Definition hw_data_in (h : AtaHw) : Z * AtaHw :=
  if busy h then (0, h) else
  match hw_phase h with
  | DataIn (w :: ws) => (w, set_phase (DataIn ws) (hw_busy h) h)
  | _ => (0, h)
  end.

Definition hw_data_out (latency : nat) (w : Z) (h : AtaHw) : AtaHw :=
  if busy h then h else
  match hw_phase h with
  | DataOut lba ws =>
      let ws := ws ++ [w] in
      if (length ws <? 256)%nat then set_phase (DataOut lba ws) (hw_busy h) h
      else mkHw (hw_low h) (hw_mid h) (hw_high h) (hw_head h) Idle latency
             (<[lba := bytes_of_words ws]> (hw_sectors h))
  | _ => h
  end.

(** A machine with such a drive as the master of the primary channel. *)
Class AtaHardware (P : Type) `{PortIO P} := {
  hw : P → AtaHw;
  hw_latency : nat;
  hw_latency_ok : (hw_latency < POLL_TIMEOUT)%nat;
  hw_reset_latency : nat;
  hw_identity : list Z;
  hw_identity_len : zlen hw_identity = 256;
  hw_outb : ∀ p r v, 1 ≤ r ≤ 6 → ∃ p', outb (PRIMARY_BASE + r) v p = Ret (tt, p') ∧ hw p' = hw_set r v (hw p);
  hw_outb_command : ∀ p c, ∃ p', outb (PRIMARY_BASE + 7) c p = Ret (tt, p') ∧
    hw p' = hw_command hw_latency hw_identity c (hw p);
  hw_outb_control : ∀ p v, ∃ p', outb PRIMARY_CONTROL v p = Ret (tt, p') ∧ hw p' = hw_control hw_reset_latency v (hw p);
  hw_inb_mid : ∀ p, ∃ p', inb (PRIMARY_BASE + 4) p = Ret (hw_mid (hw p), p') ∧ hw p' = hw p;
  hw_inb_high : ∀ p, ∃ p', inb (PRIMARY_BASE + 5) p = Ret (hw_high (hw p), p') ∧ hw p' = hw p;
  hw_inb_status : ∀ p, ∃ p', inb (PRIMARY_BASE + 7) p = Ret (hw_status (hw p), p') ∧ hw p' = hw_poll (hw p);
  hw_inb_alt : ∀ p, ∃ p', inb PRIMARY_CONTROL p = Ret (hw_status (hw p), p') ∧ hw p' = hw_poll (hw p);
  hw_inw : ∀ p, ∃ p', inw PRIMARY_BASE p = Ret ((hw_data_in (hw p)).1, p') ∧ hw p' = (hw_data_in (hw p)).2;
  hw_outw : ∀ p w, ∃ p', outw PRIMARY_BASE w p = Ret (tt, p') ∧ hw p' = hw_data_out hw_latency w (hw p);
}.

(** ** Words and bytes *)

Lemma words_roundtrip (n : nat) l :
  length l = (2 * n)%nat → bytes l → bytes_of_words (words_of l) = l ∧ length (words_of l) = n.
Proof.
  revert l. induction n as [|n IH]; intros l Hl Hb; [destruct l; [done|cbn in Hl; lia]|].
  destruct l as [|a [|b l]]; [cbn in Hl; lia..|]. cbn in Hl.
  inversion_clear Hb as [|?? Ha Hb']. inversion_clear Hb' as [|?? Hbb Hb].
  destruct (IH l) as [He Hn]; [lia|done|]. cbn [words_of length]. split; [|by rewrite Hn].
  transitivity (le_bytes 2 (a + 256 * b) ++ bytes_of_words (words_of l)); [done|].
  rewrite He. unfold is_byte in *. cbn [le_bytes app]. f_equal; [dlia|]. f_equal. dlia.
Qed.

Lemma words_of_app (n : nat) l k :
  length l = (2 * n)%nat → words_of (l ++ k) = words_of l ++ words_of k.
Proof.
  revert l. induction n as [|n IH]; intros l Hl; [destruct l; [done|cbn in Hl; lia]|].
  destruct l as [|a [|b l]]; [cbn in Hl; lia..|]. cbn in Hl. cbn. f_equal. apply IH. lia.
Qed.

Lemma lor_bytes a b : is_byte a → Z.lor a (Z.shiftl b 8) = a + 256 * b.
Proof.
  intros Ha. rewrite Z.shiftl_mul_pow2 by lia. rewrite lor_low_high by (done || lia). lia.
Qed.

(** ** The driver on the drive *)

Section Driver.
Context `{AtaHardware P}.

(** From any machine whose drive is [h], [m] answers [a] and leaves the drive [h']. *)
Definition hruns {A} (m : M P A) (h : AtaHw) (a : A) (h' : AtaHw) : Prop :=
  ∀ p, hw p = h → ∃ p', m p = Ret (a, p') ∧ hw p' = h'.

Lemma hruns_ret {A} (a : A) h : hruns (mret a) h a h.
Proof. intros p Hp. by exists p. Qed.

Lemma hruns_bind {A B} (m : M P A) (k : A → M P B) h a h1 b h2 :
  hruns m h a h1 → hruns (k a) h1 b h2 → hruns (m ≫= k) h b h2.
Proof.
  intros Hm Hk p Hp. destruct (Hm p Hp) as (p1 & Hrun & Hp1).
  rewrite (bind_Ret _ _ _ _ _ Hrun). by apply Hk.
Qed.

Lemma hruns_liftO {A B} (o : outcome A) a (k : A → M P B) h b h' :
  o = Ret a → hruns (k a) h b h' → hruns (x ← liftO o; k x) h b h'.
Proof. intros -> Hk. eapply hruns_bind; [|exact Hk]. intros p Hp. by exists p. Qed.

Definition primary : AtaChannel := mkChannel PRIMARY_BASE PRIMARY_CONTROL.

Lemma reg_port r : 0 ≤ r ≤ 7 → wrap 16 (base_port primary + r) = PRIMARY_BASE + r.
Proof. intros Hr. unfold wrap. cbn [base_port primary]. unfold PRIMARY_BASE. apply Z.mod_small. lia. Qed.

Lemma hruns_set r v h : 1 ≤ r ≤ 6 → hruns (write_reg primary r v) h tt (hw_set r v h).
Proof. intros Hr p <-. unfold write_reg. rewrite reg_port by lia. by apply hw_outb. Qed.

Lemma hruns_command c h : hruns (write_reg primary 7 c) h tt (hw_command hw_latency hw_identity c h).
Proof. intros p <-. unfold write_reg. rewrite reg_port by lia. apply hw_outb_command. Qed.

Lemma hruns_status h : hruns (read_reg primary 7) h (hw_status h) (hw_poll h).
Proof. intros p <-. unfold read_reg. rewrite reg_port by lia. apply hw_inb_status. Qed.

(** [n] status reads later. *)
Definition later (n : nat) (h : AtaHw) : AtaHw := set_phase (hw_phase h) (hw_busy h - n) h.

Lemma later_0 h : later 0 h = h.
Proof. unfold later. rewrite Nat.sub_0_r. by destruct h. Qed.

Lemma later_poll n h : later n (hw_poll h) = later (S n) h.
Proof. unfold later, hw_poll. cbn [hw_phase hw_busy set_phase]. by replace (pred (hw_busy h) - n)%nat with (hw_busy h - S n)%nat by lia. Qed.

Lemma hruns_delay h : hruns (delay_400ns primary) h tt (later 4 h).
Proof.
  assert (Hr : ∀ h, hruns (read_alt_status primary) h (hw_status h) (hw_poll h)) by (intros ? p <-; apply hw_inb_alt).
  unfold delay_400ns. change (range 0 4) with [0; 1; 2; 3]. cbn [mfor].
  do 4 (eapply hruns_bind; [eapply hruns_bind; [apply Hr|apply hruns_ret]|]).
  rewrite <- (later_0 (hw_poll _)), !later_poll. apply hruns_ret.
Qed.

(** A drive that takes commands. *)
Definition ready (h : AtaHw) : Prop := hw_busy h = 0%nat ∧ hw_phase h ≠ Resetting.

Lemma ready_busy h : ready h → busy h = false.
Proof. intros [Hb Hp]. unfold busy. rewrite Hb. by destruct (hw_phase h). Qed.

Lemma later_ready n h : ready h → later n h = h.
Proof. intros [Hb _]. unfold later. rewrite Hb. destruct h. cbn in *. by subst. Qed.

Lemma store_reg_ready r v h : ready h → ready (store_reg r v h).
Proof. intros Hr. unfold store_reg. by repeat case_match. Qed.

Lemma hruns_store r v h : 1 ≤ r ≤ 6 → ready h → hruns (write_reg primary r v) h tt (store_reg r v h).
Proof.
  intros Hr Hh. assert (hw_set r v h = store_reg r v h) as <-; [|by apply hruns_set].
  unfold hw_set. by rewrite ready_busy.
Qed.

(** The drive with a command of sector [lba] addressed to the master. *)
Definition addressed (lba : Z) (h : AtaHw) : AtaHw :=
  mkHw (Z.land lba 0xFF) (Z.land (Z.shiftr lba 8) 0xFF) (Z.land (Z.shiftr lba 16) 0xFF)
    (Z.lor 0xE0 (Z.land (Z.shiftr lba 24) 0x0F)) (hw_phase h) (hw_busy h) (hw_sectors h).

Lemma head_bits x : 0 ≤ x < 16 → Z.lor 0xE0 x mod 16 = x ∧ Z.testbit (Z.lor 0xE0 x) 4 = false.
Proof.
  intros Hx. rewrite Z.lor_comm. change 0xE0 with (14 * 2 ^ 4). rewrite lor_low_high by lia.
  change (2 ^ 4) with 16. split; [by rewrite Z_mod_plus_full, Z.mod_small|].
  rewrite Z.testbit_false by lia. change (2 ^ 4) with 16.
  rewrite Z.div_add, Z.div_small by lia. done.
Qed.

Lemma addressed_lba lba h : 0 ≤ lba < 2 ^ 28 → hw_lba (addressed lba h) = lba.
Proof.
  intros Hl. unfold hw_lba. cbn [addressed hw_low hw_mid hw_high hw_head].
  change 0xFF with (Z.ones 8). change 0x0F with (Z.ones 4).
  rewrite !Z.land_ones, !Z.shiftr_div_pow2 by lia.
  rewrite (proj1 (head_bits (lba / 2 ^ 24 mod 2 ^ 4) ltac:(apply Z.mod_pos_bound; lia))). dlia.
Qed.

Lemma addressed_master lba h : slave_selected (addressed lba h) = false.
Proof.
  unfold slave_selected. cbn [addressed hw_head]. apply head_bits. change 0x0F with (Z.ones 4).
  rewrite Z.land_ones by lia. by apply Z.mod_pos_bound.
Qed.

Lemma issue_command_spec lba cmd h :
  ready h →
  hruns (issue_command primary false lba cmd) h tt (hw_command hw_latency hw_identity cmd (addressed lba h)).
Proof.
  intros Hr. unfold issue_command, select_device.
  eapply hruns_bind; [eapply hruns_bind; [apply hruns_store; [lia|done]|apply hruns_delay]|].
  rewrite later_ready by by apply store_reg_ready.
  do 6 (eapply hruns_bind; [apply hruns_store; [lia|exact Hr]|]). apply hruns_command.
Qed.

(** Polling outlasts the time that the drive is busy. *)
Lemma hw_status_busy h : hw_busy h ≠ 0%nat → hw_status h = 0x80.
Proof. unfold hw_status, busy. by destruct (hw_phase h), (hw_busy h). Qed.

Lemma poll_spec done_ n h r :
  done_ 0x80 = None → done_ (hw_status (set_phase (hw_phase h) 0 h)) = Some r →
  (hw_busy h < n)%nat →
  hruns (poll_loop primary n done_) h r (set_phase (hw_phase h) 0 h).
Proof.
  intros Hbusy Hdone. remember (hw_busy h) as b eqn:Hb. revert n h Hb Hdone.
  induction b as [|b IH]; intros [|n] h Hb Hdone Hn; try lia; cbn [poll_loop];
    (eapply hruns_bind; [apply hruns_status|]).
  - assert (h = set_phase (hw_phase h) 0 h) as Hh by (destruct h; cbn in *; by subst).
    assert (hw_poll h = set_phase (hw_phase h) 0 h) as -> by (unfold hw_poll; by rewrite <- Hb).
    rewrite Hh, Hdone. apply hruns_ret.
  - rewrite hw_status_busy, Hbusy by (rewrite <- Hb; done).
    apply (IH n (hw_poll h)); [|done|lia]. unfold hw_poll. cbn. by rewrite <- Hb.
Qed.

(** A drive with data to move. *)
Definition moving (ph : phase) : Prop :=
  match ph with DataIn ws => ws ≠ [] | DataOut _ _ => True | _ => False end.

(** The status of the master when its command is done. *)
Lemma hw_status_done h :
  slave_selected h = false → hw_phase h ≠ Resetting →
  hw_status (set_phase (hw_phase h) 0 h) =
    match hw_phase h with DataIn (_ :: _) | DataOut _ _ => 0x58 | _ => 0x50 end.
Proof.
  intros Hs Hp. unfold hw_status, busy, slave_selected in *. cbn [hw_busy hw_phase hw_head set_phase]. rewrite Hs.
  by destruct (hw_phase h) as [|[]| |].
Qed.

Lemma poll_drq_spec h :
  slave_selected h = false → moving (hw_phase h) → (hw_busy h < POLL_TIMEOUT)%nat →
  hruns (poll_drq primary) h (Ok tt) (set_phase (hw_phase h) 0 h).
Proof.
  intros Hs Hm Hb. apply poll_spec; [done| |done]. rewrite hw_status_done by (done || by destruct (hw_phase h)).
  by destruct (hw_phase h) as [|[]| |].
Qed.

Lemma poll_not_busy_spec h :
  slave_selected h = false → hw_phase h ≠ Resetting → (hw_busy h < POLL_TIMEOUT)%nat →
  hruns (poll_not_busy primary) h (Ok tt) (set_phase (hw_phase h) 0 h).
Proof.
  intros Hs Hp Hb. apply poll_spec; [done| |done]. rewrite hw_status_done by done.
  by destruct (hw_phase h) as [|[]| |].
Qed.

Lemma check_status_spec {A} (a : A) k h b h' :
  slave_selected h = false → hw_phase h ≠ Resetting → (hw_busy h < POLL_TIMEOUT)%nat →
  hruns k (set_phase (hw_phase h) 0 h) b h' → hruns (check_status primary a k) h b h'.
Proof.
  intros Hs Hp Hb Hk. unfold check_status. eapply hruns_bind; [by apply poll_not_busy_spec|].
  eapply hruns_bind; [apply hruns_status|]. rewrite hw_status_done by done.
  assert (any_bit (match hw_phase h with DataIn (_ :: _) | DataOut _ _ => 0x58 | _ => 0x50 end)
    (Z.lor STATUS_ERR STATUS_DF) = false) as -> by (by destruct (hw_phase h) as [|[]| |]).
  exact Hk.
Qed.

(** *** The data port *)

Lemma hruns_in h : hruns (read_data_word primary) h (hw_data_in h).1 (hw_data_in h).2.
Proof. intros p <-. apply hw_inw. Qed.

Lemma hruns_out w h : hruns (write_data_word primary w) h tt (hw_data_out hw_latency w h).
Proof. intros p <-. apply hw_outw. Qed.

Lemma set_phase_same h ph : hw_phase h = ph → hw_busy h = 0%nat → set_phase ph 0 h = h.
Proof. destruct h. cbn. by intros -> ->. Qed.

Lemma hw_data_in_word h w ws :
  hw_phase h = DataIn (w :: ws) → hw_busy h = 0%nat → hw_data_in h = (w, set_phase (DataIn ws) 0 h).
Proof. intros Hp Hb. unfold hw_data_in, busy. by rewrite Hp, Hb. Qed.

Lemma take_two (buf : list Z) (m : nat) a b :
  (S m < length buf)%nat → take (S (S m)) (<[S m := b]> (<[m := a]> buf)) = take m buf ++ [a; b].
Proof.
  intros Hm. rewrite (take_S_r _ (S m) b) by (apply list_lookup_insert_eq; rewrite length_insert; lia).
  rewrite take_insert_ge by lia. rewrite (take_S_r _ m a) by (apply list_lookup_insert_eq; lia).
  rewrite take_insert_ge by lia. by rewrite <- app_assoc.
Qed.

Lemma read_data_spec (n : nat) i buf ws h :
  length ws = n → 0 ≤ i → i + Z.of_nat n = 256 → zlen buf = 512 → hw_phase h = DataIn ws →
  hw_busy h = 0%nat → Forall (λ w, 0 ≤ w < 65536) ws →
  hruns (read_data primary buf 0 (range i 256)) h (take (Z.to_nat (2 * i)) buf ++ bytes_of_words ws)
    (set_phase (DataIn []) 0 h).
Proof.
  revert i buf ws h. induction n as [|n IH]; intros i buf ws h Hl Hi Hn Hbuf Hph Hb Hws.
  - apply nil_length_inv in Hl as ->. rewrite range_nil by lia. cbn [read_data].
    rewrite (set_phase_same h (DataIn [])) by done. unfold bytes_of_words. cbn [fmap list_fmap concat].
    rewrite app_nil_r, take_ge by (unfold zlen in Hbuf; lia). apply hruns_ret.
  - destruct ws as [|w ws]; [done|]. inversion_clear Hws as [|?? Hw Hws']. cbn in Hl.
    rewrite (range_cons i 256) by lia. cbn [read_data].
    eapply hruns_bind; [apply hruns_in|].
    rewrite (hw_data_in_word h w ws) by done. cbn [fst snd]. nowrap. rewrite !Z.add_0_l.
    destruct (Z.ltb_spec (i * 2 + 1) (zlen buf)); [|lia].
    rewrite zset_ok by lia. cbn [mbind outcome_bind]. rewrite zset_ok by (rewrite zlen_insert; lia).
    eapply hruns_liftO; [reflexivity|].
    change 0xFF with (Z.ones 8). rewrite Z.land_ones, Z.shiftr_div_pow2 by lia.
    replace (Z.to_nat (i * 2 + 1)) with (S (Z.to_nat (i * 2))) by lia.
    set (buf' := <[S _ := _]> _).
    specialize (IH (i + 1) buf' ws (set_phase (DataIn ws) 0 h)).
    replace (take (Z.to_nat (2 * i)) buf ++ bytes_of_words (w :: ws))
      with (take (Z.to_nat (2 * (i + 1))) buf' ++ bytes_of_words ws).
    { apply IH; [lia|lia|lia| |done|done|done]. unfold buf'. by rewrite !zlen_insert. }
    replace (Z.to_nat (2 * (i + 1))) with (S (S (Z.to_nat (i * 2)))) by lia.
    unfold buf'. rewrite take_two by (unfold zlen in *; lia).
    replace (Z.to_nat (i * 2)) with (Z.to_nat (2 * i)) by lia.
    rewrite <- app_assoc. f_equal. unfold bytes_of_words. rewrite fmap_cons.
    change (concat (le_bytes 2 w :: (le_bytes 2 <$> ws))) with (le_bytes 2 w ++ concat (le_bytes 2 <$> ws)).
    cbn [le_bytes app]. change (2 ^ 8) with 256. f_equal. f_equal. rewrite Z.mod_small; [done|dlia].
Qed.

Lemma words_range (n : nat) l :
  length l = (2 * n)%nat → bytes l → Forall (λ w, 0 ≤ w < 65536) (words_of l).
Proof.
  revert l. induction n as [|n IH]; intros l Hl Hb; [destruct l; [constructor|cbn in Hl; lia]|].
  destruct l as [|a [|b l]]; [cbn in Hl; lia..|]. cbn in Hl.
  inversion_clear Hb as [|?? Ha Hb']. inversion_clear Hb' as [|?? Hbb Hb].
  cbn. constructor; [unfold is_byte in *; lia|apply IH; [lia|done]].
Qed.

(** A sector of the drive. *)
Definition sector_ok (bs : list Z) : Prop := zlen bs = 512 ∧ bytes bs.

Lemma sector_words bs :
  sector_ok bs → bytes_of_words (words_of bs) = bs ∧ length (words_of bs) = 256%nat ∧
    Forall (λ w, 0 ≤ w < 65536) (words_of bs).
Proof.
  intros [Hl Hb]. assert (length bs = (2 * 256)%nat) as Hl' by (unfold zlen in Hl; lia).
  destruct (words_roundtrip 256 bs Hl' Hb). split; [done|]. split; [done|]. by eapply words_range.
Qed.

Lemma read_attempt_spec lba bs buf h :
  ready h → 0 ≤ lba < 2 ^ 28 → hw_sectors h !! lba = Some bs → sector_ok bs → zlen buf = 512 →
  ∃ h', hruns (read_attempt primary false lba 0 buf) h (Ok tt, bs) h' ∧ ready h' ∧ hw_sectors h' = hw_sectors h.
Proof.
  intros Hr Hl Hs Hok Hbuf. destruct (sector_words bs Hok) as (Hbw & Hlen & Hrange).
  pose proof hw_latency_ok as Hlat. pose proof (addressed_master lba h) as Hm.
  set (h1 := set_phase (DataIn (words_of bs)) hw_latency (addressed lba h)).
  assert (hw_command hw_latency hw_identity CMD_READ_SECTORS (addressed lba h) = h1) as Hcmd.
  { unfold hw_command. rewrite (ready_busy (addressed lba h) Hr), Hm. change (CMD_READ_SECTORS =? 0x20) with true.
    cbn [orb]. rewrite addressed_lba by done. cbn [hw_sectors addressed]. by rewrite Hs. }
  eexists. split.
  - unfold read_attempt. eapply hruns_bind; [by apply issue_command_spec|]. rewrite Hcmd.
    eapply hruns_bind; [apply poll_drq_spec; [done|by destruct (words_of bs)|done]|].
    eapply hruns_bind; [eapply (read_data_spec 256 0 buf (words_of bs)); done|].
    change (Z.to_nat (2 * 0)) with 0%nat. rewrite take_0, Hbw.
    apply check_status_spec; [done|done|cbn; unfold POLL_TIMEOUT; lia|]. apply hruns_ret.
  - by split.
Qed.

Lemma read_sectors_spec lba bs buf h :
  ready h → 0 ≤ lba < 2 ^ 28 → hw_sectors h !! lba = Some bs → sector_ok bs → zlen buf = 512 →
  ∃ h', hruns (read_sectors PRIMARY_BASE false lba 1 buf) h (Ok tt, bs) h' ∧ ready h' ∧
    hw_sectors h' = hw_sectors h.
Proof.
  intros Hr Hl Hs Hok Hbuf. destruct (read_attempt_spec lba bs buf h Hr Hl Hs Hok Hbuf) as (h' & Hrun & Hh').
  exists h'. split; [|done]. unfold read_sectors, transfer_error. rewrite Hbuf.
  change (512 <? 1 *₆₄ SECTOR_SIZE) with false. cbn iota.
  destruct (Z.leb_spec (2 ^ 32) (lba + (1 - 1))); [lia|]. change (0 <? 1) with true. cbn [andb].
  change (range 0 1) with [0]. cbn [for_sectors]. change (get_channel PRIMARY_BASE) with primary.
  nowrap. rewrite Z.add_0_r, Z.mul_0_l. eapply (hruns_bind _ _ _ (Ok tt, bs) h'); [|apply hruns_ret].
  cbn [retry MAX_RETRIES]. eapply hruns_bind; [exact Hrun|]. apply hruns_ret.
Qed.

Lemma drop_two (bs : list Z) (m : nat) :
  (2 * m + 2 ≤ length bs)%nat →
  ∃ a b, bs !! (2 * m)%nat = Some a ∧ bs !! S (2 * m) = Some b ∧
    drop (2 * m) bs = a :: b :: drop (2 * S m) bs.
Proof.
  intros Hm. destruct (bs !! (2 * m)%nat) as [a|] eqn:Ha; [|apply lookup_ge_None in Ha; lia].
  destruct (bs !! S (2 * m)) as [b|] eqn:Hb; [|apply lookup_ge_None in Hb; lia].
  exists a, b. split; [done|]. split; [done|]. rewrite (drop_S _ _ _ Ha), (drop_S _ _ _ Hb).
  do 2 f_equal. f_equal. lia.
Qed.

(** The words of [bs] from the [m]-th on go to the drive. *)
Lemma write_data_spec (n : nat) (m : nat) lba bs ws h :
  (m + n)%nat = 256%nat → sector_ok bs → hw_phase h = DataOut lba ws → length ws = m →
  hw_busy h = 0%nat → (m < 256)%nat →
  hruns (write_data primary bs 0 (range (Z.of_nat m) 256)) h tt
    (mkHw (hw_low h) (hw_mid h) (hw_high h) (hw_head h) Idle hw_latency
       (<[lba := bytes_of_words (ws ++ words_of (drop (2 * m) bs))]> (hw_sectors h))).
Proof.
  revert m ws h. induction n as [|n IH]; intros m ws h Hn [Hl Hb] Hph Hws Hz Hm; [lia|].
  destruct (drop_two bs m) as (a & b & Ha & Hbb & Hd); [unfold zlen in Hl; lia|].
  pose proof (Forall_lookup_1 _ _ _ _ Hb Ha) as Hab.
  rewrite (range_cons (Z.of_nat m)) by lia. unfold write_data. cbn [mfor].
  eapply hruns_bind; [|].
  - nowrap. rewrite Z.add_0_l. destruct (Z.ltb_spec (Z.of_nat m * 2 + 1) (zlen bs)); [|lia].
    rewrite (zget_lookup bs (Z.of_nat m * 2) a) by (lia || (replace (Z.to_nat _) with (2 * m)%nat by lia; done)).
    cbn [mbind outcome_bind].
    rewrite (zget_lookup bs (Z.of_nat m * 2 + 1) b)
      by (lia || (replace (Z.to_nat _) with (S (2 * m)) by lia; done)).
    eapply hruns_liftO; [reflexivity|]. rewrite lor_bytes by done. apply hruns_out.
  - assert (busy h = false) as Hbz by (unfold busy; by rewrite Hph, Hz).
    unfold hw_data_out. rewrite Hbz, Hph, length_app, Hws. cbn [length].
    destruct (Nat.ltb_spec (m + 1) 256) as [Hlt|Hge].
    + replace (Z.of_nat m + 1) with (Z.of_nat (S m)) by lia.
      rewrite Hd. cbn [words_of].
      replace (ws ++ (a + 256 * b) :: words_of (drop (2 * S m) bs))
        with ((ws ++ [a + 256 * b]) ++ words_of (drop (2 * S m) bs)) by (by rewrite <- app_assoc).
      apply (IH (S m) (ws ++ [a + 256 * b]) (set_phase (DataOut lba (ws ++ [a + 256 * b])) (hw_busy h) h));
        [lia|done|done|rewrite length_app; cbn; lia|done|lia].
    + rewrite range_nil by lia. rewrite Hd, (drop_ge bs (2 * S m)) by (unfold zlen in Hl; lia).
      apply hruns_ret.
Qed.

Lemma write_attempt_spec lba bs h :
  ready h → 0 ≤ lba < 2 ^ 28 → sector_ok bs →
  ∃ h', hruns (write_attempt primary false lba 0 bs tt) h (Ok tt, tt) h' ∧ ready h' ∧
    hw_sectors h' = <[lba := bs]> (hw_sectors h).
Proof.
  intros Hr Hl Hok. destruct (sector_words bs Hok) as (Hbw & Hlen & Hrange).
  pose proof hw_latency_ok as Hlat. pose proof (addressed_master lba h) as Hm.
  set (h1 := set_phase (DataOut lba []) hw_latency (addressed lba h)).
  assert (hw_command hw_latency hw_identity CMD_WRITE_SECTORS (addressed lba h) = h1) as Hcmd.
  { unfold hw_command. rewrite (ready_busy (addressed lba h) Hr), Hm. change (CMD_WRITE_SECTORS =? 0x20) with false.
    change (CMD_WRITE_SECTORS =? 0x30) with true. cbn [orb]. by rewrite addressed_lba. }
  eexists. split.
  - unfold write_attempt. eapply hruns_bind; [by apply issue_command_spec|]. rewrite Hcmd.
    eapply hruns_bind; [apply poll_drq_spec; done|].
    eapply hruns_bind; [apply (write_data_spec 256 0 lba bs []); try done; lia|].
    change (drop (2 * 0) bs) with bs. cbn [app]. rewrite Hbw.
    apply check_status_spec; [done..|]. eapply hruns_bind; [apply hruns_command|].
    set (h2 := set_phase _ 0 _).
    assert (hw_command hw_latency hw_identity CMD_FLUSH_CACHE h2 = set_phase Idle hw_latency h2) as ->.
    { unfold hw_command. change (slave_selected h2) with (slave_selected (addressed lba h)). by rewrite Hm. }
    apply check_status_spec; [done..|]. apply hruns_ret.
  - by split.
Qed.

Lemma write_sectors_spec lba bs h :
  ready h → 0 ≤ lba < 2 ^ 28 → sector_ok bs →
  ∃ h', hruns (write_sectors PRIMARY_BASE false lba 1 bs) h (Ok tt) h' ∧ ready h' ∧
    hw_sectors h' = <[lba := bs]> (hw_sectors h).
Proof.
  intros Hr Hl Hok. destruct (write_attempt_spec lba bs h Hr Hl Hok) as (h' & Hrun & Hh').
  exists h'. split; [|done]. unfold write_sectors, transfer_error. rewrite (proj1 Hok).
  change (512 <? 1 *₆₄ SECTOR_SIZE) with false. cbn iota.
  destruct (Z.leb_spec (2 ^ 32) (lba + (1 - 1))); [lia|]. change (0 <? 1) with true. cbn [andb].
  change (range 0 1) with [0]. cbn [for_sectors]. change (get_channel PRIMARY_BASE) with primary.
  nowrap. rewrite Z.add_0_r, Z.mul_0_l. eapply (hruns_bind _ _ _ (Ok tt, tt) h'); [|apply hruns_ret].
  eapply (hruns_bind _ _ _ (Ok tt, tt) h'); [|apply hruns_ret].
  cbn [retry MAX_RETRIES]. eapply hruns_bind; [exact Hrun|]. apply hruns_ret.
Qed.
End Driver.
