(* ===== verification/AtaTheorems.v ===== *)
(** * The ATA driver: the properties

    The driver on working hardware discharges the laws of the block device
    interface, so that what is proved of the file system holds on it; the limits
    of its addressing. *)

From stdpp Require Import base numbers list gmap strings fin_maps.
From S2P Require Import Prelude ByteStr Block Ports Ata AtaSpec.

#[local] Open Scope Z_scope.
#[local] Open Scope rust_scope.

(** ** The block device laws *)

(** The sectors that the 28-bit commands reach. *)
Definition reachable (x : Z * list Z) : Prop := 0 ≤ x.1 < 2 ^ 28 ∧ sector_ok x.2.

#[export] Instance reachable_dec x : Decision (reachable x).
Proof. unfold reachable, sector_ok, bytes, is_byte. apply _. Defined.

Section Laws.
Context `{AtaHardware P}.

Definition ata_content (s : AtaSystem P) : gmap Z (list Z) :=
  filter reachable (hw_sectors (hw (machine s))).
(** The driver is initialised and the drive takes commands. *)
Definition ata_working (s : AtaSystem P) : Prop := is_Some (ata s) ∧ ready (hw (machine s)).

Lemma ata_content_lookup s lba bs :
  ata_content s !! lba = Some bs ↔
  hw_sectors (hw (machine s)) !! lba = Some bs ∧ 0 ≤ lba < 2 ^ 28 ∧ sector_ok bs.
Proof. unfold ata_content. rewrite map_lookup_filter_Some. done. Qed.

Lemma on_machine_run {A} (m : M P A) s a h' :
  hruns m (hw (machine s)) a h' →
  ∃ s', on_machine m s = Ret (a, s') ∧ ata s' = ata s ∧ hw (machine s') = h'.
Proof.
  intros Hm. destruct (Hm (machine s) eq_refl) as (p' & Hrun & Hp').
  exists (mkAtaSystem (ata s) p'). unfold on_machine. by rewrite Hrun.
Qed.

(** Reading a sector changes neither the driver nor any sector. *)
Lemma ata_reads s lba bs :
  ata_working s → hw_sectors (hw (machine s)) !! lba = Some bs → 0 ≤ lba < 2 ^ 28 → sector_ok bs →
  ∃ s', ata_read_sector AtaBlockDevice_primary_master lba 512 s = Ret (Ok bs, s') ∧
    ata s' = ata s ∧ ready (hw (machine s')) ∧ hw_sectors (hw (machine s')) = hw_sectors (hw (machine s)).
Proof.
  intros [[drv Hdrv] Hr] Hs Hl Hok.
  assert (zlen (zrepeat 512 0) = 512) as Hz by (by apply zlen_repeat).
  destruct (read_sectors_spec lba bs (zrepeat 512 0) (hw (machine s)) Hr Hl Hs Hok Hz)
    as (h' & Hrun & Hr' & Hh'). destruct (on_machine_run _ s _ _ Hrun) as (s' & Hs' & Ha & Hm).
  exists s'. rewrite Hm. split; [|by split_and!].
  unfold ata_read_sector. rewrite bind_get, Hdrv.
  change (abd_base_port AtaBlockDevice_primary_master) with PRIMARY_BASE.
  change (abd_slave AtaBlockDevice_primary_master) with false.
  by rewrite (bind_Ret _ _ _ _ _ Hs').
Qed.

Lemma ata_read_ok s lba bs :
  ata_working s → ata_content s !! lba = Some bs →
  ∃ s', ata_read_sector AtaBlockDevice_primary_master lba (zlen bs) s = Ret (Ok bs, s') ∧
    ata_working s' ∧ ata_content s' = ata_content s.
Proof.
  intros Hw (Hs & Hl & Hok)%ata_content_lookup. rewrite (proj1 Hok).
  destruct (ata_reads s lba bs Hw Hs Hl Hok) as (s' & Hrun & Ha & Hr & Hh). exists s'. split; [done|].
  unfold ata_working, ata_content. rewrite Ha, Hh. by split; [split; [apply Hw|]|].
Qed.

Lemma ata_write_ok s lba bs bs' :
  ata_working s → ata_content s !! lba = Some bs → zlen bs' = zlen bs → bytes bs' →
  ∃ s', ata_write_sector AtaBlockDevice_primary_master lba bs' s = Ret (Ok tt, s') ∧
    ata_working s' ∧ ata_content s' = <[lba := bs']> (ata_content s).
Proof.
  intros [[drv Hdrv] Hr] (Hs & Hl & Hok)%ata_content_lookup Hlen Hb. rewrite (proj1 Hok) in Hlen.
  destruct (write_sectors_spec lba bs' (hw (machine s)) Hr Hl (conj Hlen Hb)) as (h' & Hrun & Hr' & Hh').
  destruct (on_machine_run _ s _ _ Hrun) as (s' & Hs' & Ha & Hm).
  exists s'. split; [|split].
  - unfold ata_write_sector. rewrite bind_get, Hdrv.
    change (abd_base_port AtaBlockDevice_primary_master) with PRIMARY_BASE.
    change (abd_slave AtaBlockDevice_primary_master) with false.
    by rewrite (bind_Ret _ _ _ _ _ Hs').
  - unfold ata_working. rewrite Ha, Hm. split; [by exists drv|done].
  - unfold ata_content. rewrite Hm, Hh'. by apply map_filter_insert_True.
Qed.

#[export] Instance ata_laws : BlockDeviceLaws (AtaSystem P) := {
  content := ata_content;
  working := ata_working;
  read_sector_ok := ata_read_ok;
  write_sector_ok := ata_write_ok;
}.

(** C22. The driver is a block device: on a machine with an ATA drive whose busy times
    stay below the polling limit, with the driver initialised and the drive ready for a
    command, as every operation leaves it, a sector written is
    read back with exactly its bytes, in little-endian words over the data port, and
    no other sector changes; a sector that was not written reads as the drive holds
    it. So the laws that the file system relies on hold of it. *)
Theorem ata_sector_round_trip s lba bs bs' :
  ata_working s → hw_sectors (hw (machine s)) !! lba = Some bs →
  0 ≤ lba < 2 ^ 28 → sector_ok bs → sector_ok bs' →
  (∃ s', read_sector lba 512 s = Ret (Ok bs, s')) ∧
  ∃ s', write_sector lba bs' s = Ret (Ok tt, s') ∧
    (∃ s'', read_sector lba 512 s' = Ret (Ok bs', s'')) ∧
    ∀ lba' b, lba' ≠ lba → ata_content s !! lba' = Some b →
      ∃ s'', read_sector lba' 512 s' = Ret (Ok b, s'').
Proof.
  intros Hw Hs Hl Hok Hok'.
  assert (ata_content s !! lba = Some bs) as Hc by (by apply ata_content_lookup).
  assert (∀ s lba bs, ata_working s → ata_content s !! lba = Some bs →
    ∃ s', read_sector lba 512 s = Ret (Ok bs, s')) as Hread.
  { intros t l b Ht Hb. destruct (ata_read_ok t l b Ht Hb) as (t' & Hrun & _).
    apply ata_content_lookup in Hb as (_ & _ & Hb). rewrite (proj1 Hb) in Hrun. by exists t'. }
  split; [by apply Hread|].
  destruct (ata_write_ok s lba bs bs' Hw Hc) as (s' & Hrun & Hw' & Hc');
    [by rewrite (proj1 Hok), (proj1 Hok')|apply Hok'|].
  exists s'. split; [done|]. split.
  - apply Hread; [done|]. rewrite Hc'. apply lookup_insert_eq.
  - intros lba' b Hne Hb. apply Hread; [done|]. rewrite Hc'. by rewrite lookup_insert_ne.
Qed.
End Laws.

(** ** Addressing *)

Section Ports.
Context `{PortIO P}.

Lemma issue_command_mod ch slave lba cmd :
  0 ≤ lba → issue_command ch slave lba cmd = issue_command (P := P) ch slave (lba mod 2 ^ 28) cmd.
Proof.
  intros Hl. unfold issue_command.
  assert (Z.land lba 0xFF = Z.land (lba mod 2 ^ 28) 0xFF) as ->.
  { change 0xFF with (Z.ones 8). rewrite !Z.land_ones by lia. dlia. }
  assert (∀ k n, 0 ≤ k → 0 ≤ n → k + n ≤ 28 →
    Z.land (Z.shiftr lba k) (Z.ones n) = Z.land (Z.shiftr (lba mod 2 ^ 28) k) (Z.ones n)) as Heq.
  { intros k n Hk Hn Hkn. apply Z.bits_inj'. intros i Hi. rewrite !Z.land_spec.
    destruct (Z.lt_ge_cases i n).
    - rewrite !Z.shiftr_spec by done. by rewrite Z.mod_pow2_bits_low by lia.
    - rewrite Z.ones_spec_high by lia. by rewrite !andb_false_r. }
  change 0xFF with (Z.ones 8). change 0x0F with (Z.ones 4).
  by rewrite (Heq 8 8), (Heq 16 8), (Heq 24 4) by lia.
Qed.

(** Only 28 bits of a sector number reach the drive, although every 32-bit number is
    accepted: a transfer of a sector at or above 2^28 silently reads or overwrites the
    sector with the same low 28 bits, whatever the hardware. *)
Theorem ata_lba_truncated base slave lba buf (p : P) :
  0 ≤ lba < 2 ^ 32 →
  read_sectors base slave lba 1 buf p = read_sectors base slave (lba mod 2 ^ 28) 1 buf p ∧
  write_sectors base slave lba 1 buf p = write_sectors base slave (lba mod 2 ^ 28) 1 buf p.
Proof.
  intros Hl. assert (0 ≤ lba mod 2 ^ 28 < 2 ^ 28) as Hm by (apply Z.mod_pos_bound; lia).
  assert (transfer_error lba 1 buf = transfer_error (lba mod 2 ^ 28) 1 buf) as Hte.
  { unfold transfer_error. destruct (Z.leb_spec (2 ^ 32) (lba + (1 - 1))); [lia|].
    destruct (Z.leb_spec (2 ^ 32) (lba mod 2 ^ 28 + (1 - 1))); [lia|done]. }
  assert (∀ n, 0 ≤ n → issue_command (P := P) (get_channel base) slave (lba +₃₂ 0) n =
    issue_command (get_channel base) slave (lba mod 2 ^ 28 +₃₂ 0) n) as Hic.
  { intros n _. nowrap. rewrite !Z.add_0_r. apply issue_command_mod. lia. }
  unfold read_sectors, write_sectors. rewrite Hte.
  destruct (transfer_error (lba mod 2 ^ 28) 1 buf); [done|].
  change (range 0 1) with [0]. cbn [for_sectors].
  assert (∀ o, read_attempt (P := P) (get_channel base) slave (lba +₃₂ 0) o =
    read_attempt (get_channel base) slave (lba mod 2 ^ 28 +₃₂ 0) o) as ->.
  { intros o. unfold read_attempt. by rewrite Hic. }
  assert (∀ o b, write_attempt (P := P) (get_channel base) slave (lba +₃₂ 0) o b =
    write_attempt (get_channel base) slave (lba mod 2 ^ 28 +₃₂ 0) o b) as ->.
  { intros o b. unfold write_attempt. by rewrite Hic. }
  done.
Qed.
End Ports.

(** ** Witnesses: a machine that is only a drive *)

(** The identification of a drive of 4096 sectors without strings. *)
Definition w_identity : list Z := zrepeat 60 0x2020 ++ [4096; 0] ++ zrepeat 194 0.

#[export] Instance drive_ports : PortIO AtaHw := {
  inb port h :=
    if port =? PRIMARY_BASE + 7 then Ret (hw_status h, hw_poll h)
    else if port =? PRIMARY_CONTROL then Ret (hw_status h, hw_poll h)
    else if port =? PRIMARY_BASE + 4 then Ret (hw_mid h, h)
    else if port =? PRIMARY_BASE + 5 then Ret (hw_high h, h)
    else Ret (0, h);
  outb port v h :=
    if port =? PRIMARY_BASE + 7 then Ret (tt, hw_command 2 w_identity v h)
    else if port =? PRIMARY_CONTROL then Ret (tt, hw_control 6 v h)
    else Ret (tt, hw_set (port - PRIMARY_BASE) v h);
  inw port h := if port =? PRIMARY_BASE then Ret (hw_data_in h) else Ret (0, h);
  outw port w h := Ret (tt, if port =? PRIMARY_BASE then hw_data_out 2 w h else h);
  inl port h := Ret (0, h);
  outl port v h := Ret (tt, h);
}.

Lemma drive_outb (p : AtaHw) r v :
  1 ≤ r ≤ 6 → ∃ p', outb (PRIMARY_BASE + r) v p = Ret (tt, p') ∧ p' = hw_set r v p.
Proof.
  intros Hr. exists (hw_set r v p). split; [|done]. cbn -[PRIMARY_BASE PRIMARY_CONTROL hw_set].
  destruct (Z.eqb_spec (PRIMARY_BASE + r) (PRIMARY_BASE + 7)); [lia|].
  destruct (Z.eqb_spec (PRIMARY_BASE + r) PRIMARY_CONTROL) as [He|]; [unfold PRIMARY_BASE, PRIMARY_CONTROL in He; lia|].
  by replace (PRIMARY_BASE + r - PRIMARY_BASE) with r by lia.
Qed.

#[export] Program Instance drive_hardware : AtaHardware AtaHw := {
  hw p := p;
  hw_latency := 2;
  hw_reset_latency := 6;
  hw_identity := w_identity;
  hw_outb := drive_outb;
}.
Next Obligation. unfold POLL_TIMEOUT. lia. Qed.
Next Obligation. reflexivity. Qed.
Next Obligation. intros p c. by eexists. Qed.
Next Obligation. intros p v. by eexists. Qed.
Next Obligation. intros p. by eexists. Qed.
Next Obligation. intros p. by eexists. Qed.
Next Obligation. intros p. by eexists. Qed.
Next Obligation. intros p. by eexists. Qed.
Next Obligation. intros p. cbn. eexists. split; [|done]. by destruct (hw_data_in p). Qed.
Next Obligation. intros p w. by eexists. Qed.

Definition w_drive : AtaHw := mkHw 0 0 0 0 Idle 0 {[ 5 := zrepeat 512 7 ]}.
Definition w_system : AtaSystem AtaHw := mkAtaSystem (Some AtaDriver_new) w_drive.

Lemma w_sector_ok x : 0 ≤ x < 256 → sector_ok (zrepeat 512 x).
Proof. intros Hx. split; [done|]. by apply Forall_replicate. Qed.

Lemma ata_sector_round_trip_witness :
  ∃ s' s'', write_sector 5 (zrepeat 512 9) w_system = Ret (Ok tt, s') ∧
    read_sector 5 512 s' = Ret (Ok (zrepeat 512 9), s'').
Proof.
  destruct (ata_sector_round_trip w_system 5 (zrepeat 512 7) (zrepeat 512 9))
    as (_ & s' & Hw & (s'' & Hr) & _);
    [split; [by eexists|done]|apply lookup_singleton_eq|done|by apply w_sector_ok|by apply w_sector_ok|].
  exists s', s''. split; [exact Hw|exact Hr].
Defined.

Lemma ata_lba_truncated_witness :
  read_sectors PRIMARY_BASE false (2 ^ 28 + 5) 1 (zrepeat 512 0) w_drive =
  read_sectors PRIMARY_BASE false 5 1 (zrepeat 512 0) w_drive.
Proof. apply (ata_lba_truncated PRIMARY_BASE false (2 ^ 28 + 5) (zrepeat 512 0) w_drive). done. Defined.
