(* ===== verification/Mbr.v ===== *)
(** * The master boot record (kernel/src/fs/mbr.rs)

    The four partition entries at offset 446 and the boot signature of a sector,
    and reading the first sector through the ATA driver. *)

From stdpp Require Import base numbers list gmap strings.
From S2P Require Import Prelude ByteStr Bpb Block Fat32 Ports Ata.

#[local] Open Scope Z_scope.
#[local] Open Scope rust_scope.

Definition MBR_BOOT_SIG : Z := 0xAA55.
Definition MAX_PARTITIONS : Z := 4.

Inductive PartitionType :=
  | Empty
  | Fat12
  | Fat16Small
  | Fat16Large
  | Fat32Chs
  | Fat32Lba
  | Ntfs
  | LinuxSwap
  | Linux
  | Extended
  | Unknown (b : Z).

#[export] Instance PartitionType_eq_dec : EqDecision PartitionType.
Proof. solve_decision. Defined.

Definition from_byte (byte : Z) : PartitionType :=
  if byte =? 0x00 then Empty
  else if byte =? 0x01 then Fat12
  else if (byte =? 0x04) || (byte =? 0x06) then Fat16Small
  else if byte =? 0x0B then Fat32Chs
  else if byte =? 0x0C then Fat32Lba
  else if byte =? 0x07 then Ntfs
  else if byte =? 0x82 then LinuxSwap
  else if byte =? 0x83 then Linux
  else if (byte =? 0x05) || (byte =? 0x0F) then Extended
  else Unknown byte.

Definition type_name (t : PartitionType) : string :=
  match t with
  | Empty => "Empty"
  | Fat12 => "FAT12"
  | Fat16Small => "FAT16"
  | Fat16Large => "FAT16 (Large)"
  | Fat32Chs => "FAT32 (CHS)"
  | Fat32Lba => "FAT32 (LBA)"
  | Ntfs => "NTFS"
  | LinuxSwap => "Linux Swap"
  | Linux => "Linux"
  | Extended => "Extended"
  | Unknown _ => "Unknown"
  end.

Record PartitionEntry := mkPartition {
  boot_indicator : Z;
  partition_type : PartitionType;
  type_byte : Z;
  chs_first : list Z;
  chs_last : list Z;
  lba_first : Z;
  sector_count : Z;
}.

Definition is_active (p : PartitionEntry) : bool := boot_indicator p =? 0x80.
Definition is_empty_partition (p : PartitionEntry) : bool := bool_decide (partition_type p = Empty).
Definition lba_last (p : PartitionEntry) : Z :=
  if 0 <? sector_count p then lba_first p +₃₂ sector_count p -₃₂ 1 else lba_first p.
Definition size_bytes (p : PartitionEntry) : Z := sector_count p *₆₄ SECTOR_SIZE.

Record MbrTable := mkMbr {
  boot_sig : Z;
  partitions : list PartitionEntry;
  valid : bool;
}.

Definition no_partition : PartitionEntry :=
  mkPartition 0 Empty 0 (replicate 3 0) (replicate 3 0) 0 0.

Definition MbrTable_new : MbrTable := mkMbr 0 (zrepeat MAX_PARTITIONS no_partition) false.

(** One entry of 16 bytes. *)
Definition parse_entry (entry : list Z) : outcome PartitionEntry :=
  type_byte ← zget entry 4;
  boot_indicator ← zget entry 0;
  lba_first ← get_u32 entry 8;
  sector_count ← get_u32 entry 12;
  first ← zslice entry 1 4;
  chs_first ← zcopy (replicate 3 0) 0 first;
  last ← zslice entry 5 8;
  chs_last ← zcopy (replicate 3 0) 0 last;
  mret (mkPartition boot_indicator (from_byte type_byte) type_byte chs_first chs_last
          lba_first sector_count).

(** The loop over the entries [idx]. *)
Fixpoint parse_entries (sector : list Z) (idx : list Z) (parts : list PartitionEntry) :
    outcome (list PartitionEntry) :=
  match idx with
  | [] => mret parts
  | i :: idx =>
      let offset := 446 + i * 16 in
      entry ← zslice sector offset (offset + 16);
      p ← parse_entry entry;
      parts' ← zset parts i p;
      parse_entries sector idx parts'
  end.

Definition MbrTable_parse (sector : list Z) : outcome MbrTable :=
  if zlen sector <? SECTOR_SIZE then mret MbrTable_new else
  b510 ← zget sector 510;
  b511 ← zget sector 511;
  let boot_sig := le_val [b510; b511] in
  let valid := boot_sig =? MBR_BOOT_SIG in
  partitions ← parse_entries sector (range 0 MAX_PARTITIONS) (zrepeat MAX_PARTITIONS no_partition);
  mret (mkMbr boot_sig partitions valid).

Definition partition_count (t : MbrTable) : Z :=
  if negb (valid t) then 0
  else zlen (filter (λ p, is_empty_partition p = false) (partitions t)).

Definition active_partition (t : MbrTable) : option PartitionEntry :=
  snd <$> list_find (λ p, is_active p = true) (partitions t).

Definition read_mbr `{PortIO P} : M (AtaSystem P) (result MbrTable string) :=
  s ← get;
  match ata s with
  | None => mret (Err "No ATA driver")
  | Some _ =>
      '(r, buf) ← on_machine (read_sectors PRIMARY_BASE false 0 1 (zrepeat SECTOR_SIZE 0));
      match r with
      | Err _ => mret (Err "Read error")
      | Ok _ =>
          t ← liftO (MbrTable_parse buf);
          mret (Ok t)
      end
  end.

(** ** Reading back what was written *)

(** The on-disk form of an entry. *)
Definition encode_partition (p : PartitionEntry) : list Z :=
  boot_indicator p :: chs_first p ++ type_byte p :: chs_last p ++
  le_bytes 4 (lba_first p) ++ le_bytes 4 (sector_count p).

Record partition_wf (p : PartitionEntry) : Prop := {
  pw_type : partition_type p = from_byte (type_byte p);
  pw_first : length (chs_first p) = 3%nat;
  pw_last : length (chs_last p) = 3%nat;
  pw_lba : 0 ≤ lba_first p < 2 ^ 32;
  pw_count : 0 ≤ sector_count p < 2 ^ 32;
}.

Lemma length_encode_partition p : partition_wf p → length (encode_partition p) = 16%nat.
Proof.
  intros [_ Hf Hl _ _]. unfold encode_partition. cbn [length].
  rewrite length_app, Hf. cbn [length]. rewrite length_app, Hl, length_app, !length_le_bytes. done.
Qed.

Lemma parse_encode p : partition_wf p → parse_entry (encode_partition p) = Ret p.
Proof.
  destruct p as [bi pt ty cf cl lf sc]. intros [Ht Hf Hl Hlba Hsc].
  cbn in Ht, Hf, Hl, Hlba, Hsc.
  destruct cf as [|f0 [|f1 [|f2 [|]]]]; try done. destruct cl as [|l0 [|l1 [|l2 [|]]]]; try done.
  pose proof (length_le_bytes 4 lf) as Hlf. pose proof (length_le_bytes 4 sc) as Hlc.
  pose proof (le_val_bytes 4 lf Hlba) as Hvf. pose proof (le_val_bytes 4 sc Hsc) as Hvc.
  unfold encode_partition. cbn [boot_indicator chs_first type_byte chs_last lba_first sector_count].
  set (bf := le_bytes 4 lf) in *. set (bc := le_bytes 4 sc) in *. clearbody bf bc.
  destruct bf as [|a0 [|a1 [|a2 [|a3 [|]]]]]; try done.
  destruct bc as [|c0 [|c1 [|c2 [|c3 [|]]]]]; try done.
  transitivity (Ret (mkPartition bi (from_byte ty) ty [f0; f1; f2] [l0; l1; l2]
    (le_val [a0; a1; a2; a3]) (le_val [c0; c1; c2; c3]))); [reflexivity|]. by rewrite Hvf, Hvc, Ht.
Qed.

Lemma zslice_app {A} (l k r : list A) a b :
  a = zlen l → b = a + zlen k → zslice (l ++ k ++ r) a b = Ret k.
Proof.
  intros -> ->. pose proof (zlen_nonneg l). pose proof (zlen_nonneg k). pose proof (zlen_nonneg r).
  rewrite zslice_ok by (rewrite ?zlen_app; lia).
  replace (zlen l + zlen k - zlen l) with (zlen k) by lia.
  unfold zlen. by rewrite !Nat2Z.id, drop_app_length, take_app_length.
Qed.

Lemma parse_entries_spec pre rest ps done_ todo :
  Forall partition_wf ps → length todo = length ps → zlen pre = 446 + zlen done_ * 16 →
  parse_entries (pre ++ concat (encode_partition <$> ps) ++ rest)
    (range (zlen done_) (zlen done_ + zlen ps)) (done_ ++ todo) = Ret (done_ ++ ps).
Proof.
  intros Hps. revert pre done_ todo. induction Hps as [|p ps Hp Hps IH]; intros pre done_ todo Ht Hpre.
  - apply nil_length_inv in Ht as ->. change (zlen (@nil PartitionEntry)) with 0.
    by rewrite range_nil by lia.
  - destruct todo as [|t todo]; [done|]. injection Ht as Ht. rewrite zlen_cons.
    pose proof (zlen_nonneg ps). pose proof (zlen_nonneg done_).
    rewrite (range_cons (zlen done_)) by lia. cbn [parse_entries].
    assert (zlen (encode_partition p) = 16) as Hlen by (unfold zlen; by rewrite length_encode_partition).
    rewrite fmap_cons. cbn [concat]. rewrite <- (app_assoc (encode_partition p)).
    rewrite zslice_app by lia. cbn [mbind outcome_bind]. rewrite parse_encode by done.
    cbn [mbind outcome_bind]. rewrite zset_ok by (rewrite zlen_app, zlen_cons; pose proof (zlen_nonneg todo); lia).
    cbn [mbind outcome_bind].
    rewrite insert_app_r_alt by (unfold zlen; lia).
    replace (Z.to_nat (zlen done_) - length done_)%nat with 0%nat by (unfold zlen; lia).
    cbn [insert list_insert]. rewrite (app_assoc pre).
    change (done_ ++ p :: todo) with (done_ ++ [p] ++ todo).
    change (done_ ++ p :: ps) with (done_ ++ [p] ++ ps). rewrite !(app_assoc done_ [p]).
    replace (zlen done_ + 1) with (zlen (done_ ++ [p])) by (rewrite zlen_app; done).
    replace (zlen done_ + (1 + zlen ps)) with (zlen (done_ ++ [p]) + zlen ps)
      by (rewrite zlen_app; change (zlen [p]) with 1; lia).
    apply IH; [done|]. rewrite !zlen_app, Hlen. change (zlen [p]) with 1. lia.
Qed.

Lemma filter_nonempty ps :
  Forall partition_wf ps →
  filter (λ p, is_empty_partition p = false) ps = filter (λ p, type_byte p ≠ 0) ps.
Proof.
  induction 1 as [|p ps [Ht _ _ _ _] _ IH]; [done|]. rewrite !filter_cons, IH.
  assert (is_empty_partition p = false ↔ type_byte p ≠ 0) as Hiff.
  { unfold is_empty_partition. rewrite bool_decide_eq_false, Ht. unfold from_byte.
    destruct (Z.eqb_spec (type_byte p) 0); [done|]. by repeat case_match. }
  by destruct (decide (is_empty_partition p = false)), (decide (type_byte p ≠ 0)); naive_solver.
Qed.

(** C36. Round trip: any boot code, four partition entries and two signature bytes, laid
    out as a sector, are parsed back to exactly those entries, in order, with their
    types decoded; the table is valid exactly when the signature is 55 AA, and only
    then are partitions counted. *)
Theorem mbr_round_trip code ps b510 b511 :
  zlen code = 446 → length ps = 4%nat → Forall partition_wf ps → is_byte b510 → is_byte b511 →
  ∃ t, MbrTable_parse (code ++ concat (encode_partition <$> ps) ++ [b510; b511]) = Ret t ∧
    partitions t = ps ∧ (valid t = true ↔ b510 = 0x55 ∧ b511 = 0xAA) ∧
    partition_count t = (if valid t then zlen (filter (λ p, type_byte p ≠ 0) ps) else 0).
Proof.
  intros Hcode Hps Hwf H0 H1. set (sector := code ++ _).
  assert (zlen (concat (encode_partition <$> ps)) = 64) as Hlen.
  { destruct ps as [|p0 [|p1 [|p2 [|p3 [|]]]]]; try done. rewrite !Forall_cons in Hwf.
    destruct Hwf as (W0 & W1 & W2 & W3 & _). rewrite !fmap_cons. cbn [concat fmap list_fmap].
    rewrite !zlen_app. unfold zlen. by rewrite !length_encode_partition. }
  assert (zlen sector = 512) as Hs by (unfold sector; rewrite !zlen_app, Hcode, Hlen; done).
  assert (zget sector 510 = Ret b510 ∧ zget sector 511 = Ret b511) as [Hg0 Hg1].
  { unfold sector. rewrite app_assoc.
    assert (length (code ++ concat (encode_partition <$> ps)) = 510%nat) as Hl
      by (rewrite length_app; unfold zlen in *; lia).
    split; apply zget_lookup; try lia; rewrite lookup_app_r by lia; rewrite Hl; done. }
  eexists. split.
  - unfold MbrTable_parse. rewrite Hs. change (512 <? SECTOR_SIZE) with false. cbn iota.
    rewrite Hg0, Hg1. cbn [mbind outcome_bind].
    pose proof (parse_entries_spec code [b510; b511] ps [] (zrepeat MAX_PARTITIONS no_partition) Hwf) as Hp.
    fold sector in Hp. change (zlen (@nil PartitionEntry)) with 0 in Hp.
    replace (0 + zlen ps) with MAX_PARTITIONS in Hp by (unfold zlen; by rewrite Hps).
    cbn [app] in Hp. rewrite Hp by (by rewrite ?Hps). reflexivity.
  - cbn [partitions valid]. split; [done|]. unfold is_byte in *. split.
    + cbn [le_val]. unfold MBR_BOOT_SIG. split; [|by intros [-> ->]].
      intros He%Z.eqb_eq. lia.
    + unfold partition_count. cbn [valid partitions]. destruct (_ =? _); [|done]. cbn [negb]. f_equal.
      by apply filter_nonempty.
Qed.

(** The last sector of a partition that reaches past 2^32 wraps to a small number. *)
Lemma lba_last_wraps p :
  partition_wf p → 2 ^ 32 < lba_first p + sector_count p → lba_last p < lba_first p.
Proof.
  intros [_ _ _ Hl Hc] Hover. unfold lba_last. destruct (Z.ltb_spec 0 (sector_count p)); [|lia].
  unfold wrap. dlia.
Qed.

Definition w_partition : PartitionEntry := mkPartition 0x80 Fat32Lba 0x0C [1; 1; 0] [9; 9; 9] 2048 4096.

Lemma w_partition_wf : partition_wf w_partition.
Proof. split; try done; vm_compute; (split; [discriminate|reflexivity]). Qed.
Lemma no_partition_wf : partition_wf no_partition.
Proof. split; try done; vm_compute; (split; [discriminate|reflexivity]). Qed.

Lemma mbr_round_trip_witness :
  ∃ t, MbrTable_parse (zrepeat 446 0 ++ concat (encode_partition <$>
      [w_partition; no_partition; no_partition; no_partition]) ++ [0x55; 0xAA]) = Ret t ∧
    partitions t = [w_partition; no_partition; no_partition; no_partition] ∧ valid t = true.
Proof.
  destruct (mbr_round_trip (zrepeat 446 0) [w_partition; no_partition; no_partition; no_partition]
    0x55 0xAA) as (t & Ht & Hp & Hv & _); try done.
  - rewrite !Forall_cons. split; [exact w_partition_wf|].
    split; [exact no_partition_wf|]. split; [exact no_partition_wf|].
    split; [exact no_partition_wf|constructor].
  - exists t. split; [exact Ht|]. split; [exact Hp|]. apply Hv. split; reflexivity.
Defined.
