(* ===== verification/Elf.v ===== *)
(** * ELF executables (kernel/src/elf/mod.rs)

    The header and program header structures with their byte layout, the parser,
    and its behaviour: what it returns, and when its [unsafe] read is out of
    bounds. *)

From stdpp Require Import base numbers list gmap strings.
From S2P Require Import Prelude ByteStr Bpb.

#[local] Open Scope Z_scope.

Definition ELF_MAGIC : list Z := [0x7F; 69; 76; 70].
Definition ELFCLASS64 : Z := 2.
Definition ELFDATA2LSB : Z := 1.
Definition ET_EXEC : Z := 2.
Definition EM_X86_64 : Z := 0x3E.
Definition PT_LOAD : Z := 1.
Definition PT_NOTE : Z := 4.

Record Elf64Header := mkElfHeader {
  e_ident : list Z;
  e_type : Z;
  e_machine : Z;
  e_version : Z;
  e_entry : Z;
  e_phoff : Z;
  e_shoff : Z;
  e_flags : Z;
  e_ehsize : Z;
  e_phentsize : Z;
  e_phnum : Z;
  e_shentsize : Z;
  e_shnum : Z;
  e_shstrndx : Z;
}.

(** [read_unaligned(p as *const Elf64Header)] *)
Definition decode_header (l : list Z) : Elf64Header :=
  {| e_ident := field l 0 16;
     e_type := field_le l 16 2;
     e_machine := field_le l 18 2;
     e_version := field_le l 20 4;
     e_entry := field_le l 24 8;
     e_phoff := field_le l 32 8;
     e_shoff := field_le l 40 8;
     e_flags := field_le l 48 4;
     e_ehsize := field_le l 52 2;
     e_phentsize := field_le l 54 2;
     e_phnum := field_le l 56 2;
     e_shentsize := field_le l 58 2;
     e_shnum := field_le l 60 2;
     e_shstrndx := field_le l 62 2 |}.

(** [Elf64Header::parse] *)
Definition Elf64Header_parse (data : list Z) : outcome (option Elf64Header) :=
  if zlen data <? 64 then mret None else
  magic ← zslice data 0 4;
  if bool_decide (magic ≠ ELF_MAGIC) then mret None else
  class ← zget data 4;
  bad ← (if negb (class =? ELFCLASS64) then mret true
         else enc ← zget data 5; mret (negb (enc =? ELFDATA2LSB)));
  if (bad : bool) then mret None else
  let header := decode_header data in
  if negb (e_type header =? ET_EXEC) || negb (e_machine header =? EM_X86_64) then mret None
  else mret (Some header).

Record Elf64ProgramHeader := mkProgramHeader {
  p_type : Z;
  p_flags : Z;
  p_offset : Z;
  p_vaddr : Z;
  p_paddr : Z;
  p_filesz : Z;
  p_memsz : Z;
  p_align : Z;
}.

Definition decode_program_header (l : list Z) : Elf64ProgramHeader :=
  {| p_type := field_le l 0 4;
     p_flags := field_le l 4 4;
     p_offset := field_le l 8 8;
     p_vaddr := field_le l 16 8;
     p_paddr := field_le l 24 8;
     p_filesz := field_le l 32 8;
     p_memsz := field_le l 40 8;
     p_align := field_le l 48 8 |}.

Definition is_loadable (ph : Elf64ProgramHeader) : bool := p_type ph =? PT_LOAD.
Definition is_executable (ph : Elf64ProgramHeader) : bool := negb (Z.land (p_flags ph) 0x1 =? 0).
Definition is_writable (ph : Elf64ProgramHeader) : bool := negb (Z.land (p_flags ph) 0x2 =? 0).

Record ElfSegment := mkSegment {
  seg_vaddr : Z;
  seg_memsz : Z;
  seg_filesz : Z;
  seg_data_offset : Z;
  seg_writable : bool;
  seg_executable : bool;
}.

#[export] Instance ElfSegment_eq_dec : EqDecision ElfSegment.
Proof. solve_decision. Defined.

Record ElfLoadInfo := mkLoadInfo {
  li_entry : Z;
  li_segments : list ElfSegment;
  li_segment_count : Z;
}.

Definition zero_segment : ElfSegment := mkSegment 0 0 0 0 false false.

Definition segment_of (ph : Elf64ProgramHeader) : ElfSegment :=
  mkSegment (p_vaddr ph) (p_memsz ph) (p_filesz ph) (p_offset ph) (is_writable ph) (is_executable ph).

(** [read_unaligned(data[offset..].as_ptr() as *const Elf64ProgramHeader)] *)
Definition read_program_header (data : list Z) (offset : Z) : outcome Elf64ProgramHeader :=
  if zlen data <? offset then Panic
  else if zlen data <? offset + 56 then UB
  else Ret (decode_program_header (drop (Z.to_nat offset) data)).

#[local] Open Scope rust_scope.

(** The loop over the program headers [idx]. *)
Fixpoint parse_loop (data : list Z) (phoff phentsize : Z) (idx : list Z) (info : ElfLoadInfo) :
    outcome (result ElfLoadInfo string) :=
  match idx with
  | [] => mret (Ok info)
  | i :: idx =>
      let offset := phoff +₆₄ (i *₆₄ phentsize) in
      if zlen data <? offset +₆₄ phentsize then mret (Err "Program header out of bounds") else
      ph ← read_program_header data offset;
      if is_loadable ph then
        if 4 <=? li_segment_count info then mret (Err "Too many loadable segments") else
        segments ← zset (li_segments info) (li_segment_count info) (segment_of ph);
        parse_loop data phoff phentsize idx
          (mkLoadInfo (li_entry info) segments (li_segment_count info + 1))
      else parse_loop data phoff phentsize idx info
  end.

Definition parse_elf (data : list Z) : outcome (result ElfLoadInfo string) :=
  h ← Elf64Header_parse data;
  match h with
  | None => mret (Err "Invalid ELF header")
  | Some header =>
      let phoff := e_phoff header in
      let phentsize := e_phentsize header in
      let phnum := e_phnum header in
      if 4 <? phnum then mret (Err "Too many program headers") else
      r ← parse_loop data phoff phentsize (range 0 phnum)
        (mkLoadInfo (e_entry header) (replicate 4 zero_segment) 0);
      match r with
      | Err e => mret (Err e)
      | Ok info =>
          if li_segment_count info =? 0 then mret (Err "No loadable segments") else mret (Ok info)
      end
  end.

(** ** Behaviour *)

(** A file that is recognised, with header [h]. *)
Definition elf_file (data : list Z) (h : Elf64Header) : Prop :=
  Elf64Header_parse data = Ret (Some h) ∧ bytes data ∧ zlen data < 2 ^ 63.

(** The program headers, as an array at [e_phoff]. *)
Definition header_at (data : list Z) (h : Elf64Header) (i : Z) : Elf64ProgramHeader :=
  decode_program_header (drop (Z.to_nat (e_phoff h + i * e_phentsize h)) data).
Definition load_segments (data : list Z) (h : Elf64Header) (idx : list Z) : list ElfSegment :=
  segment_of <$> filter (λ ph, is_loadable ph = true) (header_at data h <$> idx).

(** The segments of the file in order, filled up to four. *)
Definition load_info (h : Elf64Header) (segs : list ElfSegment) : ElfLoadInfo :=
  mkLoadInfo (e_entry h) (segs ++ replicate (4 - length segs) zero_segment) (zlen segs).

Lemma field_le_range l off n : bytes l → 0 ≤ field_le l off n < 256 ^ Z.of_nat n.
Proof.
  intros Hb. assert (bytes (field l off n)) as Hf by (by apply Forall_take, Forall_drop).
  pose proof (le_val_range _ Hf). split; [apply H|]. eapply Z.lt_le_trans; [apply H|].
  apply Z.pow_le_mono_r; [lia|]. unfold field. rewrite length_take. lia.
Qed.

Lemma elf_file_decoded data h : elf_file data h → h = decode_header data ∧ 64 ≤ zlen data.
Proof.
  intros (Hp & _ & _). unfold Elf64Header_parse in Hp.
  destruct (Z.ltb_spec (zlen data) 64); [done|]. split; [|done].
  destruct (zslice data 0 4); cbn [mbind outcome_bind] in Hp; try done.
  case_bool_decide; [done|]. destruct (zget data 4); cbn [mbind outcome_bind] in Hp; try done.
  destruct (if negb (a0 =? ELFCLASS64) then _ else _) as [[]| | |]; cbn [mbind outcome_bind] in Hp;
    try done. destruct (_ || _); [done|]. by injection Hp.
Qed.

Lemma elf_file_ranges data h :
  elf_file data h → 0 ≤ e_phoff h < 2 ^ 64 ∧ 0 ≤ e_phentsize h < 2 ^ 16 ∧ 0 ≤ e_phnum h < 2 ^ 16.
Proof.
  intros He. pose proof (elf_file_decoded _ _ He) as [-> _]. destruct He as (_ & Hb & _).
  cbn [decode_header e_phoff e_phentsize e_phnum]. split; [|split].
  - exact (field_le_range data 32 8 Hb).
  - exact (field_le_range data 54 2 Hb).
  - exact (field_le_range data 56 2 Hb).
Qed.

Lemma parse_loop_in data h (n : nat) i segs :
  elf_file data h → 56 ≤ e_phentsize h → 0 ≤ i → i + Z.of_nat n ≤ 4 → zlen segs ≤ i →
  e_phoff h + (i + Z.of_nat n) * e_phentsize h ≤ zlen data →
  parse_loop data (e_phoff h) (e_phentsize h) (range i (i + Z.of_nat n)) (load_info h segs) =
  Ret (Ok (load_info h (segs ++ load_segments data h (range i (i + Z.of_nat n))))).
Proof.
  intros He Hsize. pose proof (elf_file_ranges _ _ He) as (Hoff & Hent & _).
  destruct He as (_ & _ & Hlen). revert i segs.
  induction n as [|n IH]; intros i segs Hi Hn Hsegs Hfit.
  { rewrite range_nil by lia. cbn. by rewrite app_nil_r. }
  rewrite (range_cons i) by lia. cbn [parse_loop].
  assert (e_phoff h + (i + 1) * e_phentsize h ≤ zlen data) as Hfit1 by nia.
  assert (0 ≤ i * e_phentsize h < 2 ^ 18) as Hm by nia. nowrap.
  destruct (Z.ltb_spec (zlen data) (e_phoff h + i * e_phentsize h + e_phentsize h)); [lia|].
  unfold read_program_header.
  destruct (Z.ltb_spec (zlen data) (e_phoff h + i * e_phentsize h)); [lia|].
  destruct (Z.ltb_spec (zlen data) (e_phoff h + i * e_phentsize h + 56)); [lia|].
  cbn [mbind outcome_bind]. fold (header_at data h i).
  assert (∀ l, load_segments data h (i :: l) =
    (if is_loadable (header_at data h i) then [segment_of (header_at data h i)] else []) ++
    load_segments data h l) as Hcons.
  { intros l. unfold load_segments. rewrite fmap_cons, filter_cons. by destruct (is_loadable _). }
  rewrite Hcons. replace (i + Z.of_nat (S n)) with (i + 1 + Z.of_nat n) by lia.
  destruct (is_loadable (header_at data h i)).
  - cbn [li_segment_count load_info]. destruct (Z.leb_spec 4 (zlen segs)); [lia|].
    cbn [li_segments load_info]. rewrite zset_ok.
    2: { rewrite zlen_app. unfold zlen in *. rewrite length_replicate. lia. }
    cbn [mbind outcome_bind]. rewrite app_assoc. rewrite <- IH; [|lia|lia| |lia].
    + f_equal. unfold load_info. f_equal.
      * rewrite insert_app_r_alt by (unfold zlen; lia).
        replace (Z.to_nat (zlen segs) - length segs)%nat with 0%nat by (unfold zlen; lia).
        rewrite length_app. cbn [length]. unfold zlen in *.
        replace (4 - length segs)%nat with (S (4 - (length segs + 1))) by lia.
        cbn. by rewrite <- app_assoc.
      * rewrite zlen_app, zlen_cons. change (zlen (@nil ElfSegment)) with 0. lia.
    + rewrite zlen_app, zlen_cons. change (zlen (@nil ElfSegment)) with 0. lia.
  - cbn [app]. apply IH; lia.
Qed.

Lemma range_end a b : a ≤ b → range a b = range a (a + Z.of_nat (Z.to_nat (b - a))).
Proof. intros. f_equal. lia. Qed.

(** C37. On a recognised file whose headers have their full size and lie within the file,
    the parser returns the loadable segments in file order, with the permission bits
    decoded and the rest of the four slots zero, or says that there are none; more than
    four program headers are refused. *)
Theorem parse_elf_segments data h :
  elf_file data h → 56 ≤ e_phentsize h → e_phoff h + e_phnum h * e_phentsize h ≤ zlen data →
  parse_elf data = Ret (
    if 4 <? e_phnum h then Err "Too many program headers"
    else match load_segments data h (range 0 (e_phnum h)) with
         | [] => Err "No loadable segments"
         | segs => Ok (load_info h segs)
         end).
Proof.
  intros He Hsize Hfit. pose proof (elf_file_ranges _ _ He) as (Hoff & Hent & Hnum).
  unfold parse_elf. destruct He as (Hp & Hb & Hlen). rewrite Hp. cbn [mbind outcome_bind].
  destruct (Z.ltb_spec 4 (e_phnum h)); [done|].
  change (mkLoadInfo (e_entry h) (replicate 4 zero_segment) 0) with (load_info h []).
  rewrite (range_end 0) by lia.
  rewrite parse_loop_in; [|done|lia|lia|lia|by cbn|lia]. cbn [app mbind outcome_bind].
  destruct (load_segments data h _) as [|s segs]; [done|]. cbn [li_segment_count load_info].
  rewrite zlen_cons. pose proof (zlen_nonneg segs). destruct (Z.eqb_spec (1 + zlen segs) 0); [lia|done].
Qed.

(** The size of a program header is not checked against the structure: a recognised
    file with one short header at its end makes the parser read past the end of the
    slice, which is undefined behaviour. *)
Theorem parse_elf_overread data h :
  elf_file data h → e_phnum h = 1 → e_phentsize h < 56 →
  e_phoff h + e_phentsize h ≤ zlen data < e_phoff h + 56 → parse_elf data = UB.
Proof.
  intros He Hnum Hsize Hfit. pose proof (elf_file_ranges _ _ He) as (Hoff & Hent & _).
  unfold parse_elf. destruct He as (Hp & Hb & Hlen). rewrite Hp. cbn [mbind outcome_bind].
  rewrite Hnum. change (range 0 1) with [0]. cbn [Z.ltb Z.compare parse_loop Pos.compare].
  change (4 <? 1) with false. cbn iota. rewrite Z.mul_0_l. change (wrap 64 0) with 0.
  rewrite Z.add_0_r. nowrap.
  destruct (Z.ltb_spec (zlen data) (e_phoff h + e_phentsize h)); [lia|].
  unfold read_program_header. destruct (Z.ltb_spec (zlen data) (e_phoff h)); [lia|].
  destruct (Z.ltb_spec (zlen data) (e_phoff h + 56)); [done|lia].
Qed.

(** ** Witnesses *)

(** A header with the given table offset, entry size and number of entries. *)
Definition w_elf_header (phoff phentsize phnum : Z) : list Z :=
  ELF_MAGIC ++ [2; 1] ++ replicate 10 0 ++ le_bytes 2 2 ++ le_bytes 2 0x3E ++ le_bytes 4 1 ++
  le_bytes 8 0x400000 ++ le_bytes 8 phoff ++ le_bytes 8 0 ++ le_bytes 4 0 ++ le_bytes 2 64 ++
  le_bytes 2 phentsize ++ le_bytes 2 phnum ++ replicate 6 0.
Definition w_program_header : list Z :=
  le_bytes 4 1 ++ le_bytes 4 5 ++ le_bytes 8 0x1000 ++ le_bytes 8 0x400000 ++ le_bytes 8 0 ++
  le_bytes 8 16 ++ le_bytes 8 32 ++ le_bytes 8 4096.
Definition w_elf : list Z := w_elf_header 64 56 1 ++ w_program_header.

Lemma parse_elf_segments_witness :
  parse_elf w_elf = Ret (Ok (mkLoadInfo 0x400000
    [mkSegment 0x400000 32 16 0x1000 false true; zero_segment; zero_segment; zero_segment] 1)).
Proof.
  rewrite (parse_elf_segments w_elf (decode_header w_elf)).
  - vm_compute. reflexivity.
  - split; [vm_compute; reflexivity|]. split; [|vm_compute; reflexivity].
    apply (bool_decide_unpack _). vm_compute. reflexivity.
  - vm_compute. discriminate.
  - vm_compute. discriminate.
Defined.

Lemma parse_elf_overread_witness : parse_elf (w_elf_header 32 32 1) = UB.
Proof.
  apply (parse_elf_overread (w_elf_header 32 32 1) (decode_header (w_elf_header 32 32 1))).
  - split; [vm_compute; reflexivity|]. split; [|vm_compute; reflexivity].
    apply (bool_decide_unpack _). vm_compute. reflexivity.
  - vm_compute. reflexivity.
  - vm_compute. reflexivity.
  - split; [vm_compute; discriminate|vm_compute; reflexivity].
Defined.
