(* ===== verification/Pci.v ===== *)
(** * The PCI bus scan (kernel/src/drivers/pci/mod.rs)

    Reads of configuration space through the ports 0xCF8 and 0xCFC, and the scan
    of the buses. What the configuration mechanism promises is [PciSpace]. *)

From stdpp Require Import base numbers list gmap strings.
From S2P Require Import Prelude Ports.

#[local] Open Scope Z_scope.

Record PciDevice := mkPciDevice {
  pci_bus : Z;
  pci_device : Z;
  pci_function : Z;
  vendor_id : Z;
  device_id : Z;
  pci_class : Z;
  subclass : Z;
  header_type : Z;
}.

(** The dword address that every read computes. *)
Definition pci_address (bus device function offset : Z) : Z :=
  Z.lor (Z.lor (Z.lor (Z.lor 0x80000000 (Z.shiftl bus 16)) (Z.shiftl device 11))
           (Z.shiftl function 8)) (Z.land offset 0xFC).

Definition is_bridge (d : PciDevice) : bool := (pci_class d =? 0x06) && (subclass d =? 0x04).

Section Pci.
Context `{PortIO P}.

Definition pci_read_u32 (bus device function offset : Z) : M P Z :=
  _ ← outl 0xCF8 (pci_address bus device function offset);
  inl 0xCFC.

Definition pci_read_u16 (bus device function offset : Z) : M P Z :=
  _ ← outl 0xCF8 (pci_address bus device function offset);
  v ← inl 0xCFC;
  mret (wrap 16 v).

Definition pci_read_u8 (bus device function offset : Z) : M P Z :=
  _ ← outl 0xCF8 (pci_address bus device function offset);
  v ← inl 0xCFC;
  mret (wrap 8 v).

(** [PciDevice::new] *)
Definition PciDevice_new (bus device function : Z) : M P (option PciDevice) :=
  vendor_id ← pci_read_u16 bus device function 0;
  if vendor_id =? 0xFFFF then mret None else
  device_id ← pci_read_u16 bus device function 2;
  class_rev ← pci_read_u32 bus device function 8;
  header_type ← pci_read_u8 bus device function 14;
  mret (Some (mkPciDevice bus device function vendor_id device_id
    (wrap 8 (Z.shiftr class_rev 24)) (wrap 8 (Z.shiftr class_rev 16)) header_type)).

(** [for x in l { if let Some(d) = PciDevice::new(..) { devices.push(d); } }] *)
Fixpoint push_found (l : list Z) (probe : Z → M P (option PciDevice)) (devices : list PciDevice) :
    M P (list PciDevice) :=
  match l with
  | [] => mret devices
  | x :: l =>
      o ← probe x;
      push_found l probe (match o with Some d => devices ++ [d] | None => devices end)
  end.

(** The body of the loop over the devices of a bus. *)
Definition scan_device (bus device : Z) (devices : list PciDevice) : M P (list PciDevice) :=
  o ← PciDevice_new bus device 0;
  match o with
  | None => mret devices
  | Some d =>
      let multi_func := negb (Z.land (header_type d) 0x80 =? 0) in
      let devices := devices ++ [d] in
      devices ← (if is_bridge d then
          sub_bus ← pci_read_u8 bus device 0 0x19;
          push_found (range 0 32) (λ sub_device, PciDevice_new sub_bus sub_device 0) devices
        else mret devices);
      if multi_func
      then push_found (range 1 8) (λ func, PciDevice_new bus device func) devices
      else mret devices
  end.

Fixpoint scan_devices (l : list (Z * Z)) (devices : list PciDevice) : M P (list PciDevice) :=
  match l with
  | [] => mret devices
  | (bus, device) :: l =>
      devices ← scan_device bus device devices;
      scan_devices l devices
  end.

(** [for bus in 0..256u16 { for device in 0..32 { .. } }] *)
Definition scan_pci_bus : M P (list PciDevice) :=
  scan_devices (bus ← range 0 256; (λ device, (wrap 8 bus, device)) <$> range 0 32) [].
End Pci.

(** ** Configuration space

    [cfg a] is the dword at configuration address [a]; it does not change. *)
Class PciSpace (P : Type) `{PortIO P} := {
  cfg : Z → Z;
  cfg_range : ∀ a, 0 ≤ cfg a < 2 ^ 32;
  pci_ok : P → Prop;
  pci_read : ∀ p a, pci_ok p → ∃ p1, outl 0xCF8 a p = Ret (tt, p1) ∧
    ∃ p2, inl 0xCFC p1 = Ret (cfg a, p2) ∧ pci_ok p2;
}.

Section Spec.
Context `{PciSpace P}.

Definition pruns {A} (m : M P A) (a : A) : Prop :=
  ∀ p, pci_ok p → ∃ p', m p = Ret (a, p') ∧ pci_ok p'.

Lemma pruns_ret {A} (a : A) : pruns (mret a) a.
Proof. intros p Hp. by exists p. Qed.

Lemma pruns_bind {A B} (m : M P A) (k : A → M P B) a b :
  pruns m a → pruns (k a) b → pruns (m ≫= k) b.
Proof.
  intros Hm Hk p Hp. destruct (Hm p Hp) as (p1 & Hrun & Hp1).
  rewrite (bind_Ret _ _ _ _ _ Hrun). by apply Hk.
Qed.

Lemma pruns_u32 b d f o : pruns (pci_read_u32 b d f o) (cfg (pci_address b d f o)).
Proof.
  intros p Hp. destruct (pci_read p (pci_address b d f o) Hp) as (p1 & H1 & p2 & H2 & Hp2).
  exists p2. unfold pci_read_u32. by rewrite (bind_Ret _ _ _ _ _ H1).
Qed.

Lemma pruns_u16 b d f o : pruns (pci_read_u16 b d f o) (wrap 16 (cfg (pci_address b d f o))).
Proof.
  intros p Hp. destruct (pci_read p (pci_address b d f o) Hp) as (p1 & H1 & p2 & H2 & Hp2).
  exists p2. unfold pci_read_u16. rewrite (bind_Ret _ _ _ _ _ H1). by rewrite (bind_Ret _ _ _ _ _ H2).
Qed.

Lemma pruns_u8 b d f o : pruns (pci_read_u8 b d f o) (wrap 8 (cfg (pci_address b d f o))).
Proof.
  intros p Hp. destruct (pci_read p (pci_address b d f o) Hp) as (p1 & H1 & p2 & H2 & Hp2).
  exists p2. unfold pci_read_u8. rewrite (bind_Ret _ _ _ _ _ H1). by rewrite (bind_Ret _ _ _ _ _ H2).
Qed.

(** The configuration dwords of a function, and what the code makes of them. *)
Definition dword (b d f i : Z) : Z := cfg (pci_address b d f (4 * i)).

Definition found (b d f : Z) : option PciDevice :=
  let id := wrap 16 (dword b d f 0) in
  if id =? 0xFFFF then None else
  Some (mkPciDevice b d f id id (wrap 8 (Z.shiftr (dword b d f 2) 24))
    (wrap 8 (Z.shiftr (dword b d f 2) 16)) (wrap 8 (dword b d f 3))).

Lemma PciDevice_new_spec b d f : pruns (PciDevice_new b d f) (found b d f).
Proof.
  unfold PciDevice_new, found. eapply pruns_bind; [apply pruns_u16|].
  change (cfg (pci_address b d f 0)) with (dword b d f 0).
  destruct (wrap 16 (dword b d f 0) =? 0xFFFF); [apply pruns_ret|].
  eapply pruns_bind; [apply pruns_u16|]. eapply pruns_bind; [apply pruns_u32|].
  eapply pruns_bind; [apply pruns_u8|]. apply pruns_ret.
Qed.

(** The devices found at the positions [l], and the pure scan. *)
Definition found_at (l : list Z) (probe : Z → option PciDevice) : list PciDevice := omap probe l.

Definition scanned (b d : Z) : list PciDevice :=
  match found b d 0 with
  | None => []
  | Some dev =>
      dev :: (if is_bridge dev
              then found_at (range 0 32) (λ s, found (wrap 8 (dword b d 0 6)) s 0) else []) ++
      (if negb (Z.land (header_type dev) 0x80 =? 0) then found_at (range 1 8) (found b d) else [])
  end.

Definition positions : list (Z * Z) :=
  bus ← range 0 256; (λ device, (wrap 8 bus, device)) <$> range 0 32.

Lemma push_found_spec l probe pure devices :
  (∀ x, pruns (probe x) (pure x)) → pruns (push_found l probe devices) (devices ++ found_at l pure).
Proof.
  intros Hp. revert devices. induction l as [|x l IH]; intros devices; cbn.
  - rewrite app_nil_r. apply pruns_ret.
  - eapply pruns_bind; [apply Hp|]. destruct (pure x) as [d|]; [|apply IH].
    cbn. replace (devices ++ d :: omap pure l) with ((devices ++ [d]) ++ omap pure l)
      by (by rewrite <- app_assoc). apply IH.
Qed.

Lemma scan_device_spec b d devices : pruns (scan_device b d devices) (devices ++ scanned b d).
Proof.
  unfold scan_device, scanned. eapply pruns_bind; [apply PciDevice_new_spec|].
  destruct (found b d 0) as [dev|]; [|rewrite app_nil_r; apply pruns_ret].
  set (subs := if is_bridge dev then _ else []).
  eapply (pruns_bind _ _ ((devices ++ [dev]) ++ subs)).
  - unfold subs. destruct (is_bridge dev); [|rewrite app_nil_r; apply pruns_ret].
    eapply pruns_bind; [apply pruns_u8|]. apply push_found_spec. intros x. apply PciDevice_new_spec.
  - replace (devices ++ dev :: subs ++ _) with (((devices ++ [dev]) ++ subs) ++
      (if negb (Z.land (header_type dev) 0x80 =? 0) then found_at (range 1 8) (found b d) else []))
      by (by rewrite <- !app_assoc).
    destruct (negb _); [|rewrite app_nil_r; apply pruns_ret].
    apply push_found_spec. intros x. apply PciDevice_new_spec.
Qed.

Lemma scan_devices_spec l devices :
  pruns (scan_devices l devices) (devices ++ concat ((λ x, scanned x.1 x.2) <$> l)).
Proof.
  revert devices. induction l as [|[b d] l IH]; intros devices; cbn.
  - rewrite app_nil_r. apply pruns_ret.
  - eapply pruns_bind; [apply scan_device_spec|]. rewrite app_assoc. apply IH.
Qed.

Lemma found_ids b d f dev :
  found b d f = Some dev →
  device_id dev = vendor_id dev ∧ vendor_id dev = wrap 16 (dword b d f 0) ∧
  header_type dev = wrap 8 (dword b d f 3).
Proof. unfold found. destruct (_ =? _); [done|]. by intros [= <-]. Qed.

Lemma found_at_ids l probe dev :
  (∀ x e, probe x = Some e → device_id e = vendor_id e) →
  dev ∈ found_at l probe → device_id dev = vendor_id dev.
Proof. intros Hp (x & _ & Hx)%list_elem_of_omap. by eapply Hp. Qed.

Lemma scanned_ids b d dev : dev ∈ scanned b d → device_id dev = vendor_id dev.
Proof.
  unfold scanned. destruct (found b d 0) as [e|] eqn:Hf; [|by intros ?%elem_of_nil].
  intros [->|[Hs|Hm]%elem_of_app]%elem_of_cons; [exact (proj1 (found_ids _ _ _ _ Hf))| |].
  - destruct (is_bridge e); [|by apply elem_of_nil in Hs].
    eapply found_at_ids; [|exact Hs]. intros x y Hy. exact (proj1 (found_ids _ _ _ _ Hy)).
  - destruct (negb _); [|by apply elem_of_nil in Hm].
    eapply found_at_ids; [|exact Hm]. intros x y Hy. exact (proj1 (found_ids _ _ _ _ Hy)).
Qed.

(** C38. The scan reads every function 0 of the 256 x 32 positions, in order, and lists
    every one that answers, once per position; but the reads of parts of a dword mask
    the low bits of the offset away and take the low bits of the dword, so that every
    device listed has its vendor number as its device number, and its header type is
    the cache line size. *)
Theorem pci_scan_reads (p : P) :
  pci_ok p →
  ∃ p' devices, scan_pci_bus p = Ret (devices, p') ∧
    devices = concat ((λ x, scanned x.1 x.2) <$> positions) ∧
    (∀ b d, 0 ≤ b < 256 → 0 ≤ d < 32 → wrap 16 (dword b d 0 0) ≠ 0xFFFF →
       ∃ dev, dev ∈ devices ∧ found b d 0 = Some dev ∧ header_type dev = wrap 8 (dword b d 0 3)) ∧
    ∀ dev, dev ∈ devices → device_id dev = vendor_id dev.
Proof.
  intros Hp. destruct (scan_devices_spec positions [] p Hp) as (p' & Hrun & _).
  assert (scan_pci_bus (P := P) = scan_devices positions []) as -> by (unfold scan_pci_bus, positions; reflexivity).
  rewrite app_nil_l in Hrun.
  exists p', (concat ((λ x, scanned x.1 x.2) <$> positions)). split; [exact Hrun|]. split; [reflexivity|].
  split.
  - intros b d Hb Hd Hv. unfold found.
    destruct (Z.eqb_spec (wrap 16 (dword b d 0 0)) 0xFFFF) as [|Hne]; [done|].
    eexists. split; [|done]. apply list_elem_of_In, in_concat. exists (scanned b d). split.
    + apply list_elem_of_In, list_elem_of_fmap. exists (b, d). split; [done|].
      unfold positions. apply list_elem_of_bind. exists b. split; [|by apply elem_of_range].
      apply list_elem_of_fmap. exists d. split; [|by apply elem_of_range].
      unfold wrap. by rewrite Z.mod_small.
    + apply list_elem_of_In. unfold scanned, found.
      destruct (Z.eqb_spec (wrap 16 (dword b d 0 0)) 0xFFFF); [done|]. apply elem_of_cons. by left.
  - intros dev Hdev%list_elem_of_In. apply in_concat in Hdev as (l & Hl%list_elem_of_In & Hin%list_elem_of_In).
    apply list_elem_of_fmap in Hl as ([b d] & -> & _). by eapply scanned_ids.
Qed.
End Spec.

(** ** A machine with an Intel bridge (8086:1237) at 0:0 *)

Definition w_cfg (a : Z) : Z :=
  if a =? pci_address 0 0 0 0 then 0x12378086
  else if a =? pci_address 0 0 0 8 then 0x06000002
  else if a =? pci_address 0 0 0 12 then 0x00000008
  else 0xFFFFFFFF.

(** The machine is the address register. *)
#[export] Instance cfg_ports : PortIO Z := {
  inb _ p := Ret (0, p);
  outb _ _ p := Ret (tt, p);
  inw _ p := Ret (0, p);
  outw _ _ p := Ret (tt, p);
  inl port p := if port =? 0xCFC then Ret (w_cfg p, p) else Ret (0, p);
  outl port v p := if port =? 0xCF8 then Ret (tt, v) else Ret (tt, p);
}.

#[export] Program Instance cfg_space : PciSpace Z := {
  cfg := w_cfg;
  pci_ok p := True;
}.
Next Obligation. intros a. unfold w_cfg. repeat case_match; done. Qed.
Next Obligation. intros p a _. exists a. split; [done|]. by exists a. Qed.

Lemma w_pci_ok : pci_ok (P := Z) 0.
Proof. exact I. Qed.

Lemma pci_scan_reads_witness :
  ∃ p' devices, scan_pci_bus 0 = Ret (devices, p') ∧
    ∃ dev, dev ∈ devices ∧ vendor_id dev = 0x8086 ∧ device_id dev = 0x8086.
Proof.
  assert (0 ≤ 0 < 256 ∧ 0 ≤ 0 < 32 ∧ wrap 16 (dword 0 0 0 0) ≠ 0xFFFF ∧
    wrap 16 (dword 0 0 0 0) = 0x8086) as (H1 & H2 & H3 & H4).
  { split; [done|]. split; [done|]. split; [vm_compute; discriminate|vm_compute; reflexivity]. }
  destruct (pci_scan_reads (P := Z) 0 w_pci_ok) as (p' & devices & Hrun & _ & Hall & Hid).
  exists p', devices. split; [exact Hrun|]. clear Hrun.
  destruct (Hall 0 0 H1 H2 H3) as (dev & Hdev & Hf & _).
  apply found_ids in Hf as (Hid' & Hv & _). exists dev. split; [exact Hdev|].
  rewrite Hid', Hv. split; exact H4.
Defined.
