(* ===== verification/Vga.v ===== *)
(** * The VGA text buffer (kernel/src/vga_buffer.rs)

    The writer over the 25 by 80 cells of the text buffer, cell by cell as the
    volatile accesses go, and what the screen shows: the last 25 lines written. *)

From stdpp Require Import base numbers list gmap strings.
From S2P Require Import Prelude ByteStr.

#[local] Open Scope Z_scope.

Inductive Color :=
  | Black | Blue | Green | Cyan | Red | Magenta | Brown | LightGray
  | DarkGray | LightBlue | LightGreen | LightCyan | LightRed | Pink | Yellow | White.

(** [color as u8] *)
Definition color_u8 (c : Color) : Z :=
  match c with
  | Black => 0 | Blue => 1 | Green => 2 | Cyan => 3
  | Red => 4 | Magenta => 5 | Brown => 6 | LightGray => 7
  | DarkGray => 8 | LightBlue => 9 | LightGreen => 10 | LightCyan => 11
  | LightRed => 12 | Pink => 13 | Yellow => 14 | White => 15
  end.

Definition ColorCode_new (foreground background : Color) : Z :=
  Z.lor (wrap 8 (Z.shiftl (color_u8 background) 4)) (color_u8 foreground).

Record ScreenChar := mkScreenChar { ascii_character : Z; char_color : Z }.

Definition BUFFER_HEIGHT : Z := 25.
Definition BUFFER_WIDTH : Z := 80.

(** The rows of the buffer. *)
Abbreviation Buffer := (list (list ScreenChar)).

Record Writer := mkWriter {
  column_position : Z;
  color_code : Z;
  buffer : Buffer;
}.

Definition set_buffer (b : Buffer) (w : Writer) : Writer :=
  mkWriter (column_position w) (color_code w) b.
Definition set_column (c : Z) (w : Writer) : Writer := mkWriter c (color_code w) (buffer w).

Definition write_volatile (row col : Z) (character : ScreenChar) : M Writer unit :=
  w ← get;
  r ← liftO (zget (buffer w) row);
  r' ← liftO (zset r col character);
  b' ← liftO (zset (buffer w) row r');
  modify (set_buffer b').

Definition read_volatile (row col : Z) : M Writer ScreenChar :=
  w ← get;
  r ← liftO (zget (buffer w) row);
  liftO (zget r col).

Definition clear_row (row : Z) : M Writer unit :=
  w ← get;
  let blank := mkScreenChar space (color_code w) in
  mfor (range 0 BUFFER_WIDTH) (λ col, write_volatile row col blank).

Definition new_line : M Writer unit :=
  _ ← mfor (range 1 BUFFER_HEIGHT) (λ row,
        mfor (range 0 BUFFER_WIDTH) (λ col,
          character ← read_volatile row col;
          write_volatile (row - 1) col character));
  _ ← clear_row (BUFFER_HEIGHT - 1);
  modify (set_column 0).

Definition newline : Z := 10.

Definition write_byte (byte : Z) : M Writer unit :=
  if byte =? newline then new_line else
  w ← get;
  _ ← (if BUFFER_WIDTH <=? column_position w then new_line else mret tt);
  w ← get;
  let row := BUFFER_HEIGHT - 1 in
  let col := column_position w in
  _ ← write_volatile row col (mkScreenChar byte (color_code w));
  modify (λ w, set_column (column_position w + 1) w).

Definition clear_screen : M Writer unit :=
  _ ← mfor (range 0 BUFFER_HEIGHT) clear_row;
  modify (set_column 0).

(** [fmt::Write::write_str], on the bytes of the string. *)
Definition write_str (s : list Z) : M Writer unit :=
  mfor s (λ byte,
    if in_range 0x20 0x7e byte || (byte =? newline) then write_byte byte else write_byte 0xfe).

(** ** Cells and rows *)

(** A buffer of the right shape. *)
Definition shape (b : Buffer) : Prop := length b = 25%nat ∧ Forall (λ r, length r = 80%nat) b.

Lemma shape_row b (i : nat) r : shape b → b !! i = Some r → length r = 80%nat.
Proof. intros [_ Hb] Hr. exact (Forall_lookup_1 _ _ _ _ Hb Hr). Qed.

Lemma shape_insert b i r : shape b → length r = 80%nat → shape (<[i := r]> b).
Proof. intros [Hl Hb] Hr. split; [by rewrite length_insert|by apply Forall_insert]. Qed.

Lemma write_volatile_spec w row col ch r :
  buffer w !! Z.to_nat row = Some r → 0 ≤ row → 0 ≤ col < zlen r →
  write_volatile row col ch w =
    Ret (tt, set_buffer (<[Z.to_nat row := <[Z.to_nat col := ch]> r]> (buffer w)) w).
Proof.
  intros Hr Hrow Hcol. unfold write_volatile. rewrite bind_get.
  rewrite (bind_Ret _ _ w r w) by (by apply liftO_Ret, zget_lookup).
  rewrite (bind_Ret _ _ w (<[Z.to_nat col := ch]> r) w) by (by apply liftO_Ret, zset_ok).
  apply lookup_lt_Some in Hr.
  rewrite (bind_Ret _ _ w (<[Z.to_nat row := <[Z.to_nat col := ch]> r]> (buffer w)) w); [done|].
  apply liftO_Ret, zset_ok. unfold zlen. lia.
Qed.

Lemma read_volatile_spec w row col r ch :
  buffer w !! Z.to_nat row = Some r → r !! Z.to_nat col = Some ch → 0 ≤ row → 0 ≤ col →
  read_volatile row col w = Ret (ch, w).
Proof.
  intros Hr Hc Hrow Hcol. unfold read_volatile. rewrite bind_get.
  rewrite (bind_Ret _ _ w r w) by (by apply liftO_Ret, zget_lookup). by apply liftO_Ret, zget_lookup.
Qed.

(** The first [n] elements taken from [src]. *)
Definition overwritten {A} (n : nat) (src r : list A) : list A := take n src ++ drop n r.

Lemma overwritten_step {A} n (src r : list A) ch :
  src !! n = Some ch → (n < length r)%nat →
  <[n := ch]> (overwritten n src r) = overwritten (S n) src r.
Proof.
  intros Hch Hn. pose proof (lookup_lt_Some _ _ _ Hch) as Hl. unfold overwritten. rewrite insert_app_r_alt by (rewrite length_take; lia).
  rewrite length_take. replace (n - n `min` length src)%nat with 0%nat by lia.
  destruct (lookup_lt_is_Some_2 r n Hn) as [x Hx]. rewrite (drop_S _ _ _ Hx).
  rewrite (take_S_r src n ch Hch), <- app_assoc. done.
Qed.

Lemma overwritten_length (n : nat) (src r : list ScreenChar) :
  length src = length r → length (overwritten n src r) = length r.
Proof. intros Hl. unfold overwritten. rewrite length_app, length_take, length_drop. lia. Qed.

(** A loop over the columns that writes the cells of [src] into row [row]. *)
Lemma fill_row w row r src (body : Z → M Writer unit) :
  0 ≤ row → buffer w !! Z.to_nat row = Some r → length r = 80%nat → length src = 80%nat →
  (∀ (n : nat) ch w', src !! n = Some ch →
     w' = set_buffer (<[Z.to_nat row := overwritten n src r]> (buffer w)) w →
     body (Z.of_nat n) w' = write_volatile row (Z.of_nat n) ch w') →
  mfor (range 0 BUFFER_WIDTH) body w = Ret (tt, set_buffer (<[Z.to_nat row := src]> (buffer w)) w).
Proof.
  intros Hrow Hr Hl Hs Hbody. pose proof (lookup_lt_Some _ _ _ Hr) as Hlt.
  destruct (mfor_inv (λ pre w', w' = set_buffer
    (<[Z.to_nat row := overwritten (length pre) src r]> (buffer w)) w) (range 0 BUFFER_WIDTH) body w)
    as (w' & Hrun & ->).
  - cbn [length]. unfold overwritten. rewrite take_0, drop_0. cbn [app].
    rewrite list_insert_id by done. by destruct w.
  - intros pre x post w1 (-> & [Hx0 Hx] & ->)%range_prefix ->. unfold BUFFER_WIDTH in Hx.
    assert (length (range 0 x) = Z.to_nat x) as Hlx by (rewrite length_range; lia).
    rewrite length_app, Hlx. cbn [length].
    destruct (lookup_lt_is_Some_2 src (Z.to_nat x)) as [ch Hch]; [lia|].
    eexists. split; [|reflexivity]. replace x with (Z.of_nat (Z.to_nat x)) at 1 by lia.
    rewrite (Hbody (Z.to_nat x) ch _ Hch eq_refl). rewrite Z2Nat.id by lia.
    rewrite (write_volatile_spec _ row x ch (overwritten (Z.to_nat x) src r)); [|by apply list_lookup_insert_eq|done|].
    + cbn [set_buffer buffer]. rewrite list_insert_insert_eq. rewrite (overwritten_step _ src r ch) by (done || lia).
      by replace (Z.to_nat x + 1)%nat with (S (Z.to_nat x)) by lia.
    + unfold zlen. rewrite overwritten_length by lia. lia.
  - rewrite Hrun. do 3 f_equal. unfold overwritten. rewrite length_range.
    rewrite take_ge, drop_ge by (unfold BUFFER_WIDTH; lia). by rewrite app_nil_r.
Qed.

Definition blank_row (color : Z) : list ScreenChar := replicate 80 (mkScreenChar space color).

Lemma clear_row_spec w row :
  0 ≤ row < 25 → shape (buffer w) →
  clear_row row w = Ret (tt, set_buffer (<[Z.to_nat row := blank_row (color_code w)]> (buffer w)) w).
Proof.
  intros Hrow Hsh. destruct (lookup_lt_is_Some_2 (buffer w) (Z.to_nat row)) as [r Hr];
    [destruct Hsh; lia|].
  unfold clear_row. rewrite bind_get. apply (fill_row w row r); [lia|done|by eapply shape_row|done|].
  intros n ch w' [-> _]%lookup_replicate ->. done.
Qed.

Lemma overwritten_old {A} n (src r : list A) i :
  (n ≤ length src)%nat → (n ≤ i)%nat → overwritten n src r !! i = r !! i.
Proof.
  intros Hl Hi. unfold overwritten. rewrite lookup_app_r by (rewrite length_take; lia).
  rewrite lookup_drop, length_take. f_equal. lia.
Qed.

Lemma scroll_rows w :
  shape (buffer w) →
  mfor (range 1 BUFFER_HEIGHT) (λ row,
    mfor (range 0 BUFFER_WIDTH) (λ col,
      character ← read_volatile row col; write_volatile (row - 1) col character)) w =
  Ret (tt, set_buffer (overwritten 24 (drop 1 (buffer w)) (buffer w)) w).
Proof.
  intros Hsh. pose proof Hsh as [Hlen _]. set (b := buffer w) in *.
  destruct (mfor_inv (λ pre w', w' = set_buffer (overwritten (length pre) (drop 1 b) b) w)
    (range 1 BUFFER_HEIGHT) (λ row, mfor (range 0 BUFFER_WIDTH) (λ col,
      character ← read_volatile row col; write_volatile (row - 1) col character)) w)
    as (w' & Hrun & ->).
  - cbn [length]. unfold overwritten. rewrite take_0, drop_0. cbn [app]. by destruct w.
  - intros pre x post w1 (-> & [Hx1 Hx] & ->)%range_prefix ->. unfold BUFFER_HEIGHT in Hx.
    assert (length (range 1 x) = Z.to_nat (x - 1)) as Hlx by (rewrite length_range; lia).
    rewrite length_app, Hlx. cbn [length]. set (k := Z.to_nat (x - 1)).
    destruct (lookup_lt_is_Some_2 b k) as [r Hr]; [lia|].
    destruct (lookup_lt_is_Some_2 b (S k)) as [src Hsrc]; [lia|].
    assert (drop 1 b !! k = Some src) as Hd by (by rewrite lookup_drop).
    assert (length (drop 1 b) = 24%nat) as Hdl by (rewrite length_drop; lia).
    set (w1 := set_buffer (overwritten k (drop 1 b) b) w).
    eexists. split; [|reflexivity].
    rewrite (fill_row w1 (x - 1) r src).
    + cbn [w1 set_buffer buffer]. rewrite (overwritten_step _ (drop 1 b) b src) by (done || lia).
      by replace (k + 1)%nat with (S k) by lia.
    + lia.
    + cbn [w1 set_buffer buffer]. by rewrite overwritten_old by lia.
    + by eapply shape_row.
    + by eapply shape_row.
    + intros n ch w' Hch ->. pose proof (lookup_lt_Some _ _ _ Hch) as Hn.
      rewrite (bind_Ret _ _ _ ch (set_buffer (<[Z.to_nat (x - 1) := overwritten n src r]> (buffer w1)) w1));
        [done|]. apply (read_volatile_spec _ x _ src); [|by rewrite Nat2Z.id|lia|lia].
      cbn [set_buffer buffer w1]. rewrite list_lookup_insert_ne by lia.
      replace (Z.to_nat x) with (S k) by lia. by rewrite overwritten_old by lia.
  - rewrite Hrun. reflexivity.
Qed.

Definition scrolled (w : Writer) : Buffer := drop 1 (buffer w) ++ [blank_row (color_code w)].

Lemma scrolled_shape w : shape (buffer w) → shape (scrolled w).
Proof.
  intros [Hl Hb]. split; [unfold scrolled; rewrite length_app, length_drop; cbn; lia|].
  apply Forall_app. split; [by apply Forall_drop|]. by repeat constructor.
Qed.

Lemma new_line_spec w :
  shape (buffer w) → new_line w = Ret (tt, mkWriter 0 (color_code w) (scrolled w)).
Proof.
  intros Hsh. pose proof Hsh as [Hl Hb]. unfold new_line.
  rewrite (bind_Ret _ _ _ _ _ (scroll_rows w Hsh)).
  assert (length (drop 1 (buffer w)) = 24%nat) as Hd by (rewrite length_drop; lia).
  set (b1 := overwritten 24 (drop 1 (buffer w)) (buffer w)).
  assert (shape b1) as Hsh1.
  { split; [unfold b1, overwritten; rewrite length_app, length_take, !length_drop; lia|].
    apply Forall_app. split; [by apply Forall_take, Forall_drop|by apply Forall_drop]. }
  rewrite (bind_Ret _ _ _ _ _ (clear_row_spec (set_buffer b1 w) 24 ltac:(lia) Hsh1)).
  unfold modify, set_column, set_buffer. cbn [color_code buffer]. do 3 f_equal.
  unfold scrolled, b1, overwritten. rewrite take_ge by lia.
  destruct (lookup_lt_is_Some_2 (buffer w) 24) as [r Hr]; [lia|].
  rewrite (drop_S _ _ _ Hr), (drop_ge _ 25) by lia.
  rewrite insert_app_r_alt by (change (Z.to_nat 24) with 24%nat; lia). by rewrite Hd.
Qed.

(** ** What the screen shows *)

(** The lines written so far: those that are complete, and the current one. *)
Definition lines : Type := list (list Z) * list Z.

(** One byte: a newline or a full line starts a new one. *)
Definition type_byte (l : lines) (byte : Z) : lines :=
  let '(past, cur) := l in
  if byte =? newline then (past ++ [cur], [])
  else if (length cur =? 80)%nat then (past ++ [cur], [byte])
  else (past, cur ++ [byte]).

(** The byte that a character of a string is shown as. *)
Definition shown (byte : Z) : Z :=
  if in_range 0x20 0x7e byte || (byte =? newline) then byte else 0xfe.

Definition typed (s : list Z) : lines := foldl type_byte ([], []) (shown <$> s).

(** A line as a row of cells, filled up with blanks. *)
Definition row_of (color : Z) (l : list Z) : list ScreenChar :=
  ((λ b, mkScreenChar b color) <$> l) ++ replicate (80 - length l) (mkScreenChar space color).

(** The rows from the cleared screen on; the screen shows the last 25. *)
Definition rows (color : Z) (l : lines) : Buffer :=
  replicate 24 (blank_row color) ++ (row_of color <$> l.1) ++ [row_of color l.2].
Definition screen (color : Z) (l : lines) : Buffer :=
  drop (length l.1) (rows color l).

Record shows (w : Writer) (l : lines) : Prop := {
  sh_buffer : buffer w = screen (color_code w) l;
  sh_column : column_position w = zlen l.2;
  sh_width : (length l.2 ≤ 80)%nat;
  sh_past : Forall (λ x, length x ≤ 80)%nat l.1;
}.

Lemma row_of_length c l : (length l ≤ 80)%nat → length (row_of c l) = 80%nat.
Proof. intros Hl. unfold row_of. rewrite length_app, length_fmap, length_replicate. lia. Qed.

Lemma row_of_nil c : row_of c [] = blank_row c.
Proof. reflexivity. Qed.

Lemma rows_length c l : length (rows c l) = (25 + length l.1)%nat.
Proof. unfold rows. rewrite !length_app, length_replicate, length_fmap. cbn [length]. lia. Qed.

Lemma shows_shape w l : shows w l → shape (buffer w).
Proof.
  intros [-> _ Hw Hp]. unfold screen. split; [rewrite length_drop, rows_length; lia|].
  apply Forall_drop. unfold rows. rewrite !Forall_app. split; [|split].
  - apply Forall_replicate. reflexivity.
  - apply Forall_fmap. eapply Forall_impl; [exact Hp|]. intros x Hx. by apply row_of_length.
  - constructor; [by apply row_of_length|constructor].
Qed.

Lemma screen_new_line c past cur :
  screen c (past ++ [cur], []) = drop 1 (screen c (past, cur)) ++ [blank_row c].
Proof.
  unfold screen, rows. cbn [fst snd]. rewrite length_app. cbn [length].
  rewrite fmap_app. cbn [fmap list_fmap]. rewrite <- app_assoc. cbn [app]. rewrite row_of_nil.
  rewrite drop_drop.
  replace (replicate 24 (blank_row c) ++ (row_of c <$> past) ++ [row_of c cur; blank_row c])
    with ((replicate 24 (blank_row c) ++ (row_of c <$> past) ++ [row_of c cur]) ++ [blank_row c])
    by (by rewrite <- !app_assoc).
  rewrite drop_app_le; [do 2 f_equal; lia|].
  rewrite !length_app, length_replicate, length_fmap. cbn [length]. lia.
Qed.

Lemma shows_new_line w l :
  shows w l → ∃ w', new_line w = Ret (tt, w') ∧ shows w' (l.1 ++ [l.2], []) ∧ color_code w' = color_code w.
Proof.
  intros Hs. pose proof (shows_shape _ _ Hs) as Hsh. destruct Hs as [Hb Hc Hw Hp].
  exists (mkWriter 0 (color_code w) (scrolled w)). split; [by apply new_line_spec|]. split; [|done].
  split; cbn [buffer color_code column_position fst snd]; [|done|cbn; lia|].
  - unfold scrolled. rewrite Hb. destruct l. by rewrite screen_new_line.
  - apply Forall_app. split; [done|]. constructor; [done|constructor].
Qed.

Lemma row_of_snoc c l b :
  (length l < 80)%nat →
  <[length l := mkScreenChar b c]> (row_of c l) = row_of c (l ++ [b]).
Proof.
  intros Hl. unfold row_of. rewrite insert_app_r_alt by (rewrite length_fmap; lia).
  rewrite length_fmap, Nat.sub_diag, length_app. cbn [length].
  replace (80 - length l)%nat with (S (80 - (length l + 1))) by lia. cbn [replicate].
  rewrite fmap_app, <- app_assoc. done.
Qed.

Lemma screen_last c past cur :
  screen c (past, cur) = drop (length past) (replicate 24 (blank_row c) ++ (row_of c <$> past)) ++ [row_of c cur].
Proof.
  unfold screen, rows. cbn [fst snd]. rewrite app_assoc, drop_app_le; [done|].
  rewrite length_app, length_replicate, length_fmap. lia.
Qed.

(** Writing a printable byte on a line that has room. *)
Lemma shows_put w past cur b :
  shows w (past, cur) → (length cur < 80)%nat →
  ∃ w', (w0 ← get; _ ← write_volatile (BUFFER_HEIGHT - 1) (column_position w0)
           (mkScreenChar b (color_code w0)); modify (λ w, set_column (column_position w + 1) w)) w =
          Ret (tt, w') ∧ shows w' (past, cur ++ [b]) ∧ color_code w' = color_code w.
Proof.
  intros [Hb Hc Hw Hp] Hlt. cbn [fst snd] in *. rewrite bind_get.
  set (c := color_code w) in *. rewrite screen_last in Hb.
  set (above := drop (length past) (replicate 24 (blank_row c) ++ (row_of c <$> past))) in *.
  assert (length above = 24%nat) as Ha.
  { unfold above. rewrite length_drop, length_app, length_replicate, length_fmap. lia. }
  rewrite (bind_Ret _ _ _ _ _ (write_volatile_spec w (BUFFER_HEIGHT - 1) (column_position w) _
    (row_of c cur) ltac:(rewrite Hb; change (Z.to_nat (BUFFER_HEIGHT - 1)) with 24%nat;
      rewrite lookup_app_r, Ha by lia; reflexivity) ltac:(done)
      ltac:(unfold zlen; rewrite row_of_length by lia; rewrite Hc; unfold zlen; lia))).
  eexists. split; [reflexivity|]. split; [|done].
  split; cbn [set_column set_buffer buffer color_code column_position fst snd].
  - fold c. rewrite screen_last. fold above. rewrite Hb. change (Z.to_nat (BUFFER_HEIGHT - 1)) with 24%nat.
    rewrite insert_app_r_alt by lia. rewrite Ha, Nat.sub_diag. cbn [insert list_insert].
    rewrite Hc. unfold zlen. by rewrite Nat2Z.id, row_of_snoc.
  - rewrite Hc, zlen_app. done.
  - rewrite length_app. cbn [length]. lia.
  - done.
Qed.

Lemma write_byte_shows w l b :
  shows w l → ∃ w', write_byte b w = Ret (tt, w') ∧ shows w' (type_byte l b) ∧ color_code w' = color_code w.
Proof.
  intros Hs. destruct l as [past cur]. unfold write_byte, type_byte.
  destruct (b =? newline); [exact (shows_new_line w _ Hs)|].
  rewrite bind_get. pose proof Hs as [_ Hc Hw _]. cbn [snd] in Hc, Hw. rewrite Hc.
  destruct (Nat.eqb_spec (length cur) 80) as [He|Hne].
  - destruct (Z.leb_spec BUFFER_WIDTH (zlen cur)) as [_|Hlt]; [|unfold BUFFER_WIDTH, zlen in Hlt; lia].
    destruct (shows_new_line w _ Hs) as (w1 & Hrun & Hs1 & Hc1). rewrite (bind_Ret _ _ _ _ _ Hrun).
    cbn [fst snd] in Hs1. destruct (shows_put w1 (past ++ [cur]) [] b Hs1) as (w2 & Hw2 & Hs2 & Hc2);
      [cbn; lia|]. exists w2. split; [exact Hw2|]. split; [exact Hs2|congruence].
  - destruct (Z.leb_spec BUFFER_WIDTH (zlen cur)) as [Hge|_]; [unfold BUFFER_WIDTH, zlen in Hge; lia|].
    rewrite bind_mret. apply shows_put; [done|lia].
Qed.

Lemma write_str_shows s w l :
  shows w l → ∃ w', write_str s w = Ret (tt, w') ∧ shows w' (foldl type_byte l (shown <$> s)) ∧
    color_code w' = color_code w.
Proof.
  revert w l. induction s as [|b s IH]; intros w l Hs; [by exists w|].
  destruct (write_byte_shows w l (shown b) Hs) as (w1 & Hw1 & Hs1 & Hc1).
  destruct (IH w1 _ Hs1) as (w2 & Hw2 & Hs2 & Hc2). exists w2.
  split; [|split; [exact Hs2|congruence]]. unfold write_str. cbn [mfor].
  assert ((if in_range 32 126 b || (b =? newline) then write_byte b else write_byte 254) w =
    Ret (tt, w1)) as Hb by (unfold shown in Hw1; by destruct (_ || _)).
  rewrite (bind_Ret _ _ _ _ _ Hb). exact Hw2.
Qed.

Lemma clear_screen_spec w :
  shape (buffer w) → clear_screen w = Ret (tt, mkWriter 0 (color_code w) (replicate 25 (blank_row (color_code w)))).
Proof.
  intros Hsh. pose proof Hsh as [Hl _]. unfold clear_screen. set (c := color_code w).
  set (blanks := replicate 25 (blank_row c)).
  destruct (mfor_inv (λ pre w', w' = set_buffer (overwritten (length pre) blanks (buffer w)) w)
    (range 0 BUFFER_HEIGHT) clear_row w) as (w' & Hrun & ->).
  - cbn [length]. unfold overwritten. rewrite take_0, drop_0. cbn [app]. by destruct w.
  - intros pre x post w1 (-> & [Hx0 Hx] & ->)%range_prefix ->. unfold BUFFER_HEIGHT in Hx.
    assert (length (range 0 x) = Z.to_nat x) as Hlx by (rewrite length_range; lia).
    rewrite length_app, Hlx. cbn [length]. eexists. split; [|reflexivity].
    assert (shape (overwritten (Z.to_nat x) blanks (buffer w))) as Hsh1.
    { split; [unfold overwritten, blanks; rewrite length_app, length_take, length_drop, length_replicate; lia|].
      apply Forall_app. split; [|apply Forall_drop, Hsh]. apply Forall_take, Forall_replicate. reflexivity. }
    rewrite (clear_row_spec _ x) by (done || lia). cbn [set_buffer buffer color_code]. fold c.
    rewrite (overwritten_step _ blanks (buffer w) (blank_row c)); [|apply lookup_replicate; split; [done|lia]|lia].
    by replace (Z.to_nat x + 1)%nat with (S (Z.to_nat x)) by lia.
  - rewrite (bind_Ret _ _ _ _ _ Hrun). unfold modify, set_column, set_buffer. cbn [color_code buffer].
    do 3 f_equal. unfold overwritten, blanks. rewrite length_range.
    rewrite take_ge, drop_ge by (rewrite ?length_replicate; unfold BUFFER_HEIGHT; lia). apply app_nil_r.
Qed.

(** C35. The screen shows the last 25 lines: after clearing it, whatever it held, writing
    any string never leaves the 25 by 80 cells, and the rows are exactly the last 25
    of the lines of the text, where a newline or a full line of 80 starts a new line,
    unprintable bytes are shown as FE, lines are filled up with blanks, and the column
    is the length of the last line. *)
Theorem screen_shows_text w s :
  shape (buffer w) →
  ∃ w', (_ ← clear_screen; write_str s) w = Ret (tt, w') ∧
    buffer w' = screen (color_code w) (typed s) ∧ column_position w' = zlen (typed s).2 ∧
    shape (buffer w').
Proof.
  intros Hsh. rewrite (bind_Ret _ _ _ _ _ (clear_screen_spec w Hsh)).
  set (w0 := mkWriter 0 _ _).
  assert (shows w0 ([], [])) as Hs0 by (split; [reflexivity|reflexivity|cbn; lia|constructor]).
  destruct (write_str_shows s w0 ([], []) Hs0) as (w' & Hrun & Hs & Hc). exists w'.
  split; [exact Hrun|]. pose proof (shows_shape _ _ Hs). destruct Hs as [Hb Hcol _ _].
  rewrite Hc in Hb. done.
Qed.

Definition w_writer : Writer :=
  mkWriter 79 (ColorCode_new LightGreen Black) (replicate 25 (replicate 80 (mkScreenChar 1 0))).

Lemma screen_shows_text_witness :
  ∃ w', (_ ← clear_screen; write_str (bytes_of "ok")) w_writer = Ret (tt, w') ∧
    column_position w' = 2.
Proof.
  destruct (screen_shows_text w_writer (bytes_of "ok")) as (w' & Hrun & _ & Hc & _).
  - split; [reflexivity|]. apply Forall_replicate. reflexivity.
  - exists w'. split; [exact Hrun|exact Hc].
Defined.
