(* ===== verification/Text.v ===== *)
(** * Formatting and parsing of numbers

    What the kernel uses of Rust's [core::fmt] and [from_str_radix]: decimal and
    hexadecimal digits, padding, and the parsing of an unsigned number. Text is the
    list of its bytes. *)

From stdpp Require Import base numbers list gmap strings.
From S2P Require Import Prelude ByteStr.

#[local] Open Scope Z_scope.

(** ** Digits *)

(** The digit values of [z] in base [b], most significant first; 64 are enough for a
    64-bit number in any base. *)
Fixpoint digits_acc (fuel : nat) (b z : Z) (acc : list Z) : list Z :=
  match fuel with
  | O => acc
  | S fuel => if z <? b then z :: acc else digits_acc fuel b (z / b) (z mod b :: acc)
  end.

Definition digits (b z : Z) : list Z := digits_acc 64 b z [].

(** An upper-case digit. *)
Definition digit_char (d : Z) : Z := if d <? 10 then 48 + d else 55 + d.

(** [{}] and [{:X}] *)
Definition dec (z : Z) : list Z := digit_char <$> digits 10 z.
Definition hex (z : Z) : list Z := digit_char <$> digits 16 z.

(** Characters, as the padding of [core::fmt] counts them. *)
Definition char_count (s : list Z) : Z := zlen (filter (λ b, is_cont b = false) s).

(** [{:>w}], [{:<w}] and [{:0w}] *)
Definition pad_left (w : Z) (s : list Z) : list Z := zrepeat (w - char_count s) space ++ s.
Definition pad_right (w : Z) (s : list Z) : list Z := s ++ zrepeat (w - char_count s) space.
Definition pad_zero (w : Z) (s : list Z) : list Z := zrepeat (w - char_count s) 48 ++ s.

(** ** Parsing *)

(** [char::to_digit] below a radix of at most 16 *)
Definition to_digit (radix c : Z) : option Z :=
  let d := if in_range 48 57 c then c - 48
           else if in_range 97 102 c then c - 87
           else if in_range 65 70 c then c - 55 else 16 in
  if d <? radix then Some d else None.

Fixpoint parse_digits (radix limit acc : Z) (s : list Z) : option Z :=
  match s with
  | [] => Some acc
  | c :: s =>
      d ← to_digit radix c;
      let acc := acc * radix + d in
      if limit <=? acc then None else parse_digits radix limit acc s
  end.

(** [uN::from_str_radix(s, radix).ok()] with [limit] = 2^N: digits, possibly after a [+]. *)
Definition from_str_radix (radix limit : Z) (s : list Z) : option Z :=
  match s with
  | [] => None
  | [43] | [45] => None
  | 43 :: s => parse_digits radix limit 0 s
  | s => parse_digits radix limit 0 s
  end.

(** ** The value of digits *)

Definition digit_value (b : Z) (l : list Z) : Z := foldl (λ a d, a * b + d) 0 l.

Lemma digit_value_acc b l a : foldl (λ a d, a * b + d) a l = a * b ^ zlen l + digit_value b l.
Proof.
  unfold digit_value. revert a. induction l as [|d l IH]; intros a.
  { change (zlen (@nil Z)) with 0. rewrite Z.pow_0_r. cbn. lia. }
  cbn [foldl]. rewrite IH, (IH (0 * b + d)). rewrite zlen_cons.
  rewrite Z.pow_add_r by (pose proof (zlen_nonneg l); lia). ring.
Qed.

Lemma digits_acc_spec fuel b z acc :
  2 ≤ b → 0 ≤ z < b ^ Z.of_nat fuel → Forall (λ d, 0 ≤ d < b) acc →
  Forall (λ d, 0 ≤ d < b) (digits_acc fuel b z acc) ∧
  digit_value b (digits_acc fuel b z acc) = z * b ^ zlen acc + digit_value b acc.
Proof.
  intros Hb. revert z acc. induction fuel as [|fuel IH]; intros z acc Hz Ha.
  - change (b ^ Z.of_nat 0) with 1 in Hz. assert (z = 0) as -> by lia. split; [done|]. cbn [digits_acc]. lia.
  - cbn [digits_acc]. destruct (Z.ltb_spec z b).
    + split; [constructor; [lia|done]|]. unfold digit_value at 1. cbn [foldl].
      rewrite digit_value_acc. lia.
    + rewrite Nat2Z.inj_succ, Z.pow_succ_r in Hz by lia.
      assert (0 < b ^ Z.of_nat fuel) by (apply Z.pow_pos_nonneg; lia).
      pose proof (Z.mod_pos_bound z b ltac:(lia)) as Hm.
      destruct (IH (z / b) (z mod b :: acc)) as [Hd Hv].
      * split; [apply Z.div_pos; lia|]. apply Z.div_lt_upper_bound; lia.
      * by constructor.
      * split; [done|]. rewrite Hv. unfold digit_value at 1. cbn [foldl]. rewrite digit_value_acc.
        rewrite zlen_cons, Z.pow_add_r by (pose proof (zlen_nonneg acc); lia).
        rewrite (Z.div_mod z b) at 3 by lia. ring.
Qed.

Lemma digits_acc_app fuel b z acc : digits_acc fuel b z acc = digits_acc fuel b z [] ++ acc.
Proof.
  revert z acc. induction fuel as [|fuel IH]; intros z acc; cbn; [done|].
  destruct (z <? b); [done|]. rewrite IH, (IH _ [z mod b]). by rewrite <- app_assoc.
Qed.

(** The digits of a number below [b ^ n] are at most [n]. *)
Lemma digits_acc_length fuel b z n :
  2 ≤ b → 0 ≤ z < b ^ Z.of_nat n → (1 ≤ n)%nat → zlen (digits_acc fuel b z []) ≤ Z.of_nat n.
Proof.
  intros Hb. revert z n. induction fuel as [|fuel IH]; intros z n Hz Hn; cbn [digits_acc]; [unfold zlen; simpl; lia|].
  destruct (Z.ltb_spec z b); [unfold zlen; simpl; lia|]. rewrite digits_acc_app, zlen_app.
  change (zlen [z mod b]) with 1. destruct n as [|n]; [lia|].
  rewrite Nat2Z.inj_succ, Z.pow_succ_r in Hz by lia.
  destruct n as [|n]; [change (b ^ Z.of_nat 0) with 1 in Hz; lia|].
  specialize (IH (z / b) (S n)).
  assert (0 ≤ z / b < b ^ Z.of_nat (S n)).
  { split; [apply Z.div_pos; lia|]. apply Z.div_lt_upper_bound; lia. }
  specialize (IH ltac:(done) ltac:(lia)). lia.
Qed.

(** 64-bit numbers have at most 64 digits in any base. *)
Lemma pow_64 b : 2 ≤ b → 2 ^ 64 ≤ b ^ Z.of_nat 64.
Proof. intros. apply Z.pow_le_mono_l. lia. Qed.

Lemma digits_spec b z :
  2 ≤ b → 0 ≤ z < 2 ^ 64 → Forall (λ d, 0 ≤ d < b) (digits b z) ∧ digit_value b (digits b z) = z.
Proof.
  intros Hb Hz. pose proof (pow_64 b Hb).
  destruct (digits_acc_spec 64 b z [] Hb ltac:(lia) ltac:(constructor)) as [Hd Hv].
  split; [done|]. unfold digits. rewrite Hv.
  change (zlen (@nil Z)) with 0. change (digit_value b []) with 0. rewrite Z.pow_0_r. lia.
Qed.

Lemma to_digit_char radix d : 2 ≤ radix ≤ 16 → 0 ≤ d < radix → to_digit radix (digit_char d) = Some d.
Proof.
  intros Hr Hd. unfold digit_char, to_digit, in_range.
  destruct (Z.ltb_spec d 10); repeat case_match; f_equal; lia.
Qed.

Lemma parse_digits_value radix limit l a :
  2 ≤ radix ≤ 16 → 0 ≤ a → Forall (λ d, 0 ≤ d < radix) l → foldl (λ a d, a * radix + d) a l < limit →
  parse_digits radix limit a (digit_char <$> l) = Some (foldl (λ a d, a * radix + d) a l).
Proof.
  intros Hr. revert a. induction l as [|d l IH]; intros a Ha Hl Hlim; [done|].
  apply Forall_cons in Hl as [Hd Hl]. cbn [fmap list_fmap parse_digits foldl] in *.
  rewrite to_digit_char by done. cbn [mbind option_bind].
  assert (Hmono : a * radix + d ≤ foldl (λ a d, a * radix + d) (a * radix + d) l).
  { rewrite digit_value_acc. assert (0 ≤ digit_value radix l).
    { clear -Hl Hr. unfold digit_value. assert (H : ∀ a, 0 ≤ a → 0 ≤ foldl (λ a d, a * radix + d) a l).
      { induction Hl as [|d l Hd _ IH]; intros a Ha; [done|]. cbn. apply IH. nia. }
      by apply H. }
    assert (1 ≤ radix ^ zlen l) by (pose proof (Z.pow_pos_nonneg radix (zlen l) ltac:(lia) (zlen_nonneg l)); lia).
    nia. }
  destruct (Z.leb_spec limit (a * radix + d)); [lia|]. apply IH; [nia|done|done].
Qed.

Lemma digits_nonempty b z : digits b z ≠ [].
Proof.
  unfold digits. assert (H : ∀ fuel z acc, acc ≠ [] ∨ fuel ≠ O → digits_acc fuel b z acc ≠ []).
  { induction fuel as [|fuel IH]; intros z' acc Ha; cbn; [naive_solver|]. case_match; [done|]. apply IH. by left. }
  apply H. by right.
Qed.

(** A number that was printed parses back. *)
Lemma parse_printed radix limit z :
  2 ≤ radix ≤ 16 → 0 ≤ z < limit → limit ≤ 2 ^ 64 →
  from_str_radix radix limit (digit_char <$> digits radix z) = Some z.
Proof.
  intros Hr Hz Hl. destruct (digits_spec radix z ltac:(lia) ltac:(lia)) as [Hd Hv].
  pose proof (parse_digits_value radix limit (digits radix z) 0 Hr ltac:(lia) Hd) as Hp.
  fold (digit_value radix (digits radix z)) in Hp. rewrite Hv in Hp. specialize (Hp ltac:(lia)).
  pose proof (digits_nonempty radix z) as Hne. destruct (digits radix z) as [|d l]; [done|].
  apply Forall_cons in Hd as [Hd _].
  assert (H43 : digit_char d ≠ 43 ∧ digit_char d ≠ 45) by (unfold digit_char; case_match; lia).
  unfold from_str_radix. cbn [fmap list_fmap] in *. repeat case_match; try done; naive_solver lia.
Qed.
