(* ===== verification/CpuInfo.v ===== *)
(** * CPU detection (kernel/src/sysinfo/cpu.rs)

    Everything the kernel learns about the processor comes from the [cpuid]
    instruction, a parameter here: the four registers it leaves for a leaf. *)

From stdpp Require Import base numbers list gmap strings.
From S2P Require Import Prelude ByteStr Text.

#[local] Open Scope Z_scope.
#[local] Open Scope rust_scope.

(** The result of [__cpuid(leaf)]. *)
Record CpuidResult := mkCpuid { cpuid_eax : Z; cpuid_ebx : Z; cpuid_ecx : Z; cpuid_edx : Z }.

Definition VENDOR_STRING_LENGTH : Z := 13.
Definition BRAND_STRING_LENGTH : Z := 48.

(** ** Vendor *)

Inductive CpuVendor :=
  | Intel
  | Amd
  | UnknownVendor (raw : list Z).

#[export] Instance CpuVendor_eq_dec : EqDecision CpuVendor.
Proof. solve_decision. Defined.

Definition vendor_as_str (v : CpuVendor) : string :=
  match v with
  | Intel => "Intel"
  | Amd => "AMD"
  | UnknownVendor _ => "Unknown"
  end.

Definition raw_string (v : CpuVendor) : outcome (list Z) :=
  match v with
  | Intel => zcopy (zrepeat VENDOR_STRING_LENGTH 0) 0 (bytes_of "GenuineIntel")
  | Amd => zcopy (zrepeat VENDOR_STRING_LENGTH 0) 0 (bytes_of "AuthenticAMD")
  | UnknownVendor v => Ret v
  end.

(** ** Signature *)

Record CpuSignature := mkSignature {
  extended_family : Z;
  family : Z;
  extended_model : Z;
  sig_model : Z;
  stepping : Z;
}.

Definition CpuSignature_new (eax : Z) : CpuSignature :=
  mkSignature (Z.land (Z.shiftr eax 20) 0xFF) (Z.land (Z.shiftr eax 8) 0xF)
    (Z.land (Z.shiftr eax 16) 0xF) (Z.land (Z.shiftr eax 4) 0xF) (Z.land eax 0xF).

Definition full_family (s : CpuSignature) : Z := wrap 8 (extended_family s + family s).
Definition full_model (s : CpuSignature) : Z := Z.lor (wrap 8 (Z.shiftl (extended_model s) 4)) (sig_model s).
Definition signature_format (s : CpuSignature) : list Z :=
  dec (full_family s) ++ bytes_of "." ++ dec (full_model s) ++ bytes_of "." ++ dec (stepping s).

(** ** Features *)

Record CpuFeatures := mkFeatures {
  fpu : bool;
  vme : bool;
  de : bool;
  pse : bool;
  tsc : bool;
  msr : bool;
  pae : bool;
  mce : bool;
  cx8 : bool;
  apic : bool;
  sep : bool;
  mtrr : bool;
  pge : bool;
  mca : bool;
  cmov : bool;
  pat : bool;
  pse36 : bool;
  mmx : bool;
  fxsr : bool;
  sse : bool;
  sse2 : bool;
  self_snoop : bool;
  ht : bool;
  tm : bool;
  sse3 : bool;
  pclmulqdq : bool;
  dtes64 : bool;
  monitor : bool;
  ds_cpl : bool;
  vmx : bool;
  smx : bool;
  est : bool;
  tm2 : bool;
  ssse3 : bool;
  cid : bool;
  fma : bool;
  cx16 : bool;
  xtpr : bool;
  pdcm : bool;
  pcid : bool;
  dca : bool;
  sse41 : bool;
  sse42 : bool;
  x2apic : bool;
  movbe : bool;
  popcnt : bool;
  aes : bool;
  xsave : bool;
  osxsave : bool;
  avx : bool;
  f16c : bool;
  rdrand : bool;
  hypervisor : bool;
}.

Definition CpuFeatures_new (edx ecx : Z) : CpuFeatures := {|
  fpu := bit_set edx 0;
  vme := bit_set edx 1;
  de := bit_set edx 2;
  pse := bit_set edx 3;
  tsc := bit_set edx 4;
  msr := bit_set edx 5;
  pae := bit_set edx 6;
  mce := bit_set edx 7;
  cx8 := bit_set edx 8;
  apic := bit_set edx 9;
  sep := bit_set edx 11;
  mtrr := bit_set edx 12;
  pge := bit_set edx 13;
  mca := bit_set edx 14;
  cmov := bit_set edx 15;
  pat := bit_set edx 16;
  pse36 := bit_set edx 17;
  mmx := bit_set edx 23;
  fxsr := bit_set edx 24;
  sse := bit_set edx 25;
  sse2 := bit_set edx 26;
  self_snoop := bit_set edx 27;
  ht := bit_set edx 28;
  tm := bit_set edx 29;
  sse3 := bit_set ecx 0;
  pclmulqdq := bit_set ecx 1;
  dtes64 := bit_set ecx 2;
  monitor := bit_set ecx 3;
  ds_cpl := bit_set ecx 4;
  vmx := bit_set ecx 5;
  smx := bit_set ecx 6;
  est := bit_set ecx 7;
  tm2 := bit_set ecx 8;
  ssse3 := bit_set ecx 9;
  cid := bit_set ecx 10;
  fma := bit_set ecx 12;
  cx16 := bit_set ecx 13;
  xtpr := bit_set ecx 14;
  pdcm := bit_set ecx 15;
  pcid := bit_set ecx 17;
  dca := bit_set ecx 18;
  sse41 := bit_set ecx 19;
  sse42 := bit_set ecx 20;
  x2apic := bit_set ecx 21;
  movbe := bit_set ecx 22;
  popcnt := bit_set ecx 23;
  aes := bit_set ecx 25;
  xsave := bit_set ecx 26;
  osxsave := bit_set ecx 27;
  avx := bit_set ecx 28;
  f16c := bit_set ecx 29;
  rdrand := bit_set ecx 30;
  hypervisor := bit_set ecx 31;
|}.

(** [features.push(name)] for each enabled feature, in order. *)
Definition push_if (b : bool) (name : string) : list string := if b then [name] else [].

Definition enabled_features (f : CpuFeatures) : list string :=
  push_if (fpu f) "FPU" ++
  push_if (vme f) "VME" ++
  push_if (de f) "DE" ++
  push_if (pse f) "PSE" ++
  push_if (tsc f) "TSC" ++
  push_if (msr f) "MSR" ++
  push_if (pae f) "PAE" ++
  push_if (mce f) "MCE" ++
  push_if (cx8 f) "CX8" ++
  push_if (apic f) "APIC" ++
  push_if (sep f) "SEP" ++
  push_if (mtrr f) "MTRR" ++
  push_if (pge f) "PGE" ++
  push_if (mca f) "MCA" ++
  push_if (cmov f) "CMOV" ++
  push_if (pat f) "PAT" ++
  push_if (pse36 f) "PSE36" ++
  push_if (mmx f) "MMX" ++
  push_if (fxsr f) "FXSR" ++
  push_if (sse f) "SSE" ++
  push_if (sse2 f) "SSE2" ++
  push_if (ht f) "HT" ++
  push_if (tm f) "TM" ++
  push_if (sse3 f) "SSE3" ++
  push_if (pclmulqdq f) "PCLMULQDQ" ++
  push_if (monitor f) "MONITOR" ++
  push_if (vmx f) "VMX" ++
  push_if (smx f) "SMX" ++
  push_if (est f) "EST" ++
  push_if (tm2 f) "TM2" ++
  push_if (ssse3 f) "SSSE3" ++
  push_if (fma f) "FMA" ++
  push_if (cx16 f) "CX16" ++
  push_if (sse41 f) "SSE4.1" ++
  push_if (sse42 f) "SSE4.2" ++
  push_if (x2apic f) "x2APIC" ++
  push_if (popcnt f) "POPCNT" ++
  push_if (aes f) "AES" ++
  push_if (xsave f) "XSAVE" ++
  push_if (osxsave f) "OSXSAVE" ++
  push_if (avx f) "AVX" ++
  push_if (f16c f) "F16C" ++
  push_if (rdrand f) "RDRAND" ++
  push_if (hypervisor f) "HYPERVISOR".

Definition has_feature (f : CpuFeatures) (feature : string) : bool :=
  if String.eqb feature "FPU" then fpu f else
  if String.eqb feature "VME" then vme f else
  if String.eqb feature "DE" then de f else
  if String.eqb feature "PSE" then pse f else
  if String.eqb feature "TSC" then tsc f else
  if String.eqb feature "MSR" then msr f else
  if String.eqb feature "PAE" then pae f else
  if String.eqb feature "MCE" then mce f else
  if String.eqb feature "CX8" then cx8 f else
  if String.eqb feature "APIC" then apic f else
  if String.eqb feature "SEP" then sep f else
  if String.eqb feature "MTRR" then mtrr f else
  if String.eqb feature "PGE" then pge f else
  if String.eqb feature "MCA" then mca f else
  if String.eqb feature "CMOV" then cmov f else
  if String.eqb feature "PAT" then pat f else
  if String.eqb feature "PSE36" then pse36 f else
  if String.eqb feature "MMX" then mmx f else
  if String.eqb feature "FXSR" then fxsr f else
  if String.eqb feature "SSE" then sse f else
  if String.eqb feature "SSE2" then sse2 f else
  if String.eqb feature "HT" then ht f else
  if String.eqb feature "TM" then tm f else
  if String.eqb feature "SSE3" then sse3 f else
  if String.eqb feature "PCLMULQDQ" then pclmulqdq f else
  if String.eqb feature "MONITOR" then monitor f else
  if String.eqb feature "VMX" then vmx f else
  if String.eqb feature "SMX" then smx f else
  if String.eqb feature "EST" then est f else
  if String.eqb feature "TM2" then tm2 f else
  if String.eqb feature "SSSE3" then ssse3 f else
  if String.eqb feature "FMA" then fma f else
  if String.eqb feature "CX16" then cx16 f else
  if String.eqb feature "SSE4.1" then sse41 f else
  if String.eqb feature "SSE4.2" then sse42 f else
  if String.eqb feature "x2APIC" then x2apic f else
  if String.eqb feature "POPCNT" then popcnt f else
  if String.eqb feature "AES" then aes f else
  if String.eqb feature "XSAVE" then xsave f else
  if String.eqb feature "OSXSAVE" then osxsave f else
  if String.eqb feature "AVX" then avx f else
  if String.eqb feature "F16C" then f16c f else
  if String.eqb feature "RDRAND" then rdrand f else
  if String.eqb feature "HYPERVISOR" then hypervisor f else
  false.

(** ** Brand string *)

(** [raw[a..b].copy_from_slice(src)]: panics when the lengths differ. *)
Definition copy_slice (raw : list Z) (a b : Z) (src : list Z) : outcome (list Z) :=
  if zlen src =? b - a then zcopy raw a src else Panic.

Definition CpuBrandString_new (eax ebx ecx edx : Z) : outcome (list Z) :=
  raw ← copy_slice (zrepeat BRAND_STRING_LENGTH 0) 0 4 (le_bytes 4 eax);
  raw ← copy_slice raw 4 8 (le_bytes 4 ebx);
  raw ← copy_slice raw 8 12 (le_bytes 4 ecx);
  copy_slice raw 12 16 (le_bytes 4 edx).

(** The bytes up to the last one that is not zero. *)
Fixpoint trim_zeros (l : list Z) : list Z :=
  match l with
  | [] => []
  | b :: l =>
      match trim_zeros l with
      | [] => if b =? 0 then [] else [b]
      | l' => b :: l'
      end
  end.

Definition brand_as_str (raw : list Z) : list Z := from_utf8_lossy (trim_zeros raw).

(** ** The processor *)

Record CpuInfo := mkCpuInfo {
  vendor : CpuVendor;
  brand_string : list Z;
  signature : CpuSignature;
  features : CpuFeatures;
  physical_cores : Z;
  logical_cores : Z;
  frequency_mhz : Z;
  cache_l1 : Z;
  cache_l2 : Z;
  cache_l3 : Z;
}.

Definition feature_count (c : CpuInfo) : Z := zlen (enabled_features (features c)).

(** A number, or that it is not known. *)
Definition or_unavailable (known : bool) (s : list Z) : list Z :=
  if known then s else bytes_of "Unavailable".

Definition cpu_summary (c : CpuInfo) : list Z :=
  let physical_str := or_unavailable (0 <? physical_cores c) (dec (physical_cores c)) in
  let logical_str := or_unavailable (0 <? logical_cores c) (dec (logical_cores c)) in
  let frequency_str := or_unavailable (0 <? frequency_mhz c) (dec (frequency_mhz c) ++ bytes_of " MHz") in
  let cache_str := or_unavailable ((0 <? cache_l1 c) || (0 <? cache_l2 c) || (0 <? cache_l3 c))
    (bytes_of "L1=" ++ dec (cache_l1 c) ++ bytes_of " KB, L2=" ++ dec (cache_l2 c) ++
     bytes_of " KB, L3=" ++ dec (cache_l3 c) ++ bytes_of " KB") in
  bytes_of "Vendor: " ++ bytes_of (vendor_as_str (vendor c)) ++ [10] ++
  bytes_of "Brand: " ++ brand_as_str (brand_string c) ++ [10] ++
  bytes_of "Family: " ++ dec (full_family (signature c)) ++
  bytes_of " Model: " ++ dec (full_model (signature c)) ++
  bytes_of " Stepping: " ++ dec (stepping (signature c)) ++ [10] ++
  bytes_of "Cores: " ++ physical_str ++ bytes_of " physical, " ++ logical_str ++ bytes_of " logical" ++ [10] ++
  bytes_of "Frequency: " ++ frequency_str ++ [10] ++
  bytes_of "Cache: " ++ cache_str.

Section Detection.
Context (cpuid : Z → CpuidResult).

Definition detect_vendor : outcome CpuVendor :=
  let result := cpuid 0 in
  vendor_bytes ← copy_slice (zrepeat 12 0) 0 4 (le_bytes 4 (cpuid_ebx result));
  vendor_bytes ← copy_slice vendor_bytes 4 8 (le_bytes 4 (cpuid_edx result));
  vendor_bytes ← copy_slice vendor_bytes 8 12 (le_bytes 4 (cpuid_ecx result));
  if bool_decide (vendor_bytes = bytes_of "GenuineIntel") then mret Intel
  else if bool_decide (vendor_bytes = bytes_of "AuthenticAMD") then mret Amd
  else
    full_vendor ← copy_slice (zrepeat VENDOR_STRING_LENGTH 0) 0 12 vendor_bytes;
    mret (UnknownVendor full_vendor).

Definition detect_signature : CpuSignature := CpuSignature_new (cpuid_eax (cpuid 1)).

Definition detect_features : CpuFeatures := CpuFeatures_new (cpuid_edx (cpuid 1)) (cpuid_ecx (cpuid 1)).

Definition detect_brand_string : outcome (list Z) :=
  let r := cpuid 0x80000002 in
  CpuBrandString_new (cpuid_eax r) (cpuid_ebx r) (cpuid_ecx r) (cpuid_edx r).

Definition detect_core_count : Z * Z :=
  let logical_per_physical := Z.land (Z.shiftr (cpuid_ebx (cpuid 1)) 16) 0xFF in
  (1, if 0 <? logical_per_physical then logical_per_physical else 1).

Definition detect_cache_info : Z * Z * Z :=
  let result5 := cpuid 0x80000005 in
  let l1 := Z.land (Z.shiftr (cpuid_ecx result5) 24) 0xFF *₃₂ 1024 in
  let result6 := cpuid 0x80000006 in
  let l2 := Z.land (Z.shiftr (cpuid_ecx result6) 16) 0xFFFF *₃₂ 1024 in
  let units := Z.land (Z.shiftr (cpuid_edx result6) 18) 0x3FFF in
  let l3 := if negb (units =? 0) then ((units *₃₂ 512) *₃₂ 1024) / 1024 else 0 in
  (l1, l2, l3).

Definition detect_frequency : Z :=
  let result := cpuid 0x16 in
  if negb (cpuid_eax result =? 0) then Z.land (cpuid_eax result) 0xFFFF else 0.

Definition CpuInfo_new : outcome CpuInfo :=
  v ← detect_vendor;
  brand ← detect_brand_string;
  let '(physical, logical) := detect_core_count in
  let '(l1, l2, l3) := detect_cache_info in
  mret (mkCpuInfo v brand detect_signature detect_features physical logical detect_frequency l1 l2 l3).

(** [CPU_INFO] is the state; [init] fills it. *)
Definition cpu_init : M (option CpuInfo) unit :=
  c ← liftO CpuInfo_new;
  modify (λ _, Some c).

End Detection.

(** ** The global queries *)

Definition cpu_info (g : option CpuInfo) : outcome CpuInfo :=
  match g with Some c => Ret c | None => Panic end.
Definition cpu_is_initialized (g : option CpuInfo) : bool := bool_decide (is_Some g).

(** [if is_initialized() { f(cpu_info()) } else { dflt }] *)
Definition cpu_query {A} (f : CpuInfo → A) (dflt : A) (g : option CpuInfo) : outcome A :=
  if cpu_is_initialized g then c ← cpu_info g; mret (f c) else mret dflt.

Definition cpu_vendor_string : option CpuInfo → outcome (list Z) :=
  cpu_query (λ c, bytes_of (vendor_as_str (vendor c))) (bytes_of "Unknown").
Definition cpu_brand_string : option CpuInfo → outcome (list Z) :=
  cpu_query (λ c, brand_as_str (brand_string c)) (bytes_of "Unknown").
Definition cpu_signature_string : option CpuInfo → outcome (list Z) :=
  cpu_query (λ c, signature_format (signature c)) (bytes_of "Unknown").
Definition cpu_frequency_mhz : option CpuInfo → outcome Z := cpu_query frequency_mhz 0.
Definition cpu_physical_cores : option CpuInfo → outcome Z := cpu_query physical_cores 0.
Definition cpu_logical_cores : option CpuInfo → outcome Z := cpu_query logical_cores 0.
Definition cpu_features : option CpuInfo → outcome CpuFeatures :=
  cpu_query features (CpuFeatures_new 0 0).

(** ** What is reported *)

(** The features the kernel names: the register (true for EDX) and bit of CPUID leaf 1. *)
Definition feature_table : list (string * (bool * Z)) :=
  [("FPU", (true, 0)); ("VME", (true, 1)); ("DE", (true, 2));
   ("PSE", (true, 3)); ("TSC", (true, 4)); ("MSR", (true, 5));
   ("PAE", (true, 6)); ("MCE", (true, 7)); ("CX8", (true, 8));
   ("APIC", (true, 9)); ("SEP", (true, 11)); ("MTRR", (true, 12));
   ("PGE", (true, 13)); ("MCA", (true, 14)); ("CMOV", (true, 15));
   ("PAT", (true, 16)); ("PSE36", (true, 17)); ("MMX", (true, 23));
   ("FXSR", (true, 24)); ("SSE", (true, 25)); ("SSE2", (true, 26));
   ("HT", (true, 28)); ("TM", (true, 29)); ("SSE3", (false, 0));
   ("PCLMULQDQ", (false, 1)); ("MONITOR", (false, 3)); ("VMX", (false, 5));
   ("SMX", (false, 6)); ("EST", (false, 7)); ("TM2", (false, 8));
   ("SSSE3", (false, 9)); ("FMA", (false, 12)); ("CX16", (false, 13));
   ("SSE4.1", (false, 19)); ("SSE4.2", (false, 20)); ("x2APIC", (false, 21));
   ("POPCNT", (false, 23)); ("AES", (false, 25)); ("XSAVE", (false, 26));
   ("OSXSAVE", (false, 27)); ("AVX", (false, 28)); ("F16C", (false, 29));
   ("RDRAND", (false, 30)); ("HYPERVISOR", (false, 31))].

Definition feature_bit (edx ecx : Z) (e : string * (bool * Z)) : bool :=
  let '(_, (in_edx, i)) := e in bit_set (if in_edx : bool then edx else ecx) i.

Definition feature_names (edx ecx : Z) (t : list (string * (bool * Z))) : list string :=
  t ≫= λ e, push_if (feature_bit edx ecx e) e.1.

Fixpoint feature_find (edx ecx : Z) (t : list (string * (bool * Z))) (s : string) : bool :=
  match t with
  | [] => false
  | e :: t => if String.eqb s e.1 then feature_bit edx ecx e else feature_find edx ecx t s
  end.

Lemma enabled_features_table edx ecx :
  enabled_features (CpuFeatures_new edx ecx) = feature_names edx ecx feature_table.
Proof.
  unfold feature_names, feature_table. cbn [mbind list_bind]. rewrite app_nil_r. reflexivity.
Qed.

Lemma has_feature_table edx ecx s :
  has_feature (CpuFeatures_new edx ecx) s = feature_find edx ecx feature_table s.
Proof. reflexivity. Qed.

Lemma feature_table_names : NoDup (feature_table.*1).
Proof. apply (bool_decide_unpack _). vm_compute. exact I. Qed.

Lemma feature_names_elem edx ecx t s :
  s ∈ feature_names edx ecx t ↔ ∃ e, e ∈ t ∧ e.1 = s ∧ feature_bit edx ecx e = true.
Proof.
  unfold feature_names. rewrite list_elem_of_bind. unfold push_if. split.
  - intros (e & Hs & He). destruct (feature_bit edx ecx e) eqn:Hb; [|by apply elem_of_nil in Hs].
    apply list_elem_of_singleton in Hs. by exists e.
  - intros (e & He & <- & Hb). exists e. rewrite Hb. split; [by left|done].
Qed.

Lemma feature_find_elem edx ecx t s :
  NoDup (t.*1) → feature_find edx ecx t s = true ↔ ∃ e, e ∈ t ∧ e.1 = s ∧ feature_bit edx ecx e = true.
Proof.
  induction t as [|e t IH]; intros Hn.
  - split; [done|]. intros (e & He & _). by apply elem_of_nil in He.
  - cbn [fmap list_fmap] in Hn. apply NoDup_cons in Hn as [He Hn]. cbn [feature_find].
    destruct (String.eqb_spec s e.1) as [->|Hne].
    + split; [intros Hb; exists e; split; [by left|done]|].
      intros (e' & [->|Hin]%elem_of_cons & Hs & Hb); [done|]. exfalso. apply He. rewrite <- Hs.
      by apply list_elem_of_fmap_2.
    + rewrite IH by done. split; intros (e' & Hin & Hs & Hb).
      * exists e'. split; [by right|done].
      * apply elem_of_cons in Hin as [->|Hin]; [congruence|]. by exists e'.
Qed.

(** ** Properties *)

(** The features reported are the CPUID bits of the table: a name is in the list of
    enabled features exactly when [has_feature] says so, and exactly when the table has
    it with a register bit that is set. *)
Theorem features_reported edx ecx s :
  (has_feature (CpuFeatures_new edx ecx) s = true ↔ s ∈ enabled_features (CpuFeatures_new edx ecx)) ∧
  (s ∈ enabled_features (CpuFeatures_new edx ecx) ↔
    ∃ in_edx i, (s, (in_edx, i)) ∈ feature_table ∧ Z.testbit (if in_edx : bool then edx else ecx) i = true).
Proof.
  assert (Hbits : ∀ e, e ∈ feature_table → 0 ≤ e.2.2).
  { apply Forall_forall. apply (bool_decide_unpack _). vm_compute. exact I. }
  rewrite has_feature_table, enabled_features_table, feature_names_elem,
    (feature_find_elem _ _ _ _ feature_table_names). split; [done|]. split.
  - intros ([s' [in_edx i]] & Hin & <- & Hb). specialize (Hbits _ Hin). cbn [fst snd] in *.
    unfold feature_bit in Hb. rewrite bit_set_testbit in Hb by done. by exists in_edx, i.
  - intros (in_edx & i & Hin & Hb). specialize (Hbits _ Hin). cbn [snd] in Hbits.
    exists (s, (in_edx, i)). split_and!; [done..|]. unfold feature_bit. by rewrite bit_set_testbit.
Qed.

(** The twelve bytes of the vendor registers. *)
Definition vendor_text (r : CpuidResult) : list Z :=
  le_bytes 4 (cpuid_ebx r) ++ le_bytes 4 (cpuid_edx r) ++ le_bytes 4 (cpuid_ecx r).

Lemma copy_slice_at l k src r a b :
  zlen l = a → b = a + zlen src → zlen k = zlen src → copy_slice (l ++ k ++ r) a b src = Ret (l ++ src ++ r).
Proof.
  intros Hl Hb Hk. unfold copy_slice. destruct (Z.eqb_spec (zlen src) (b - a)); [|lia].
  pose proof (zlen_nonneg l). pose proof (zlen_nonneg r). pose proof (zlen_nonneg src).
  rewrite zcopy_ok by (rewrite ?zlen_app; lia). f_equal. unfold zlen in *.
  rewrite take_app_length' by lia. do 2 f_equal.
  rewrite app_assoc, drop_app_length'; [done|]. rewrite length_app. lia.
Qed.

(** The vendor is recognised from its twelve bytes and its raw string gives them back,
    with the final zero, for the two known vendors and for any other one. *)
Theorem vendor_round_trip (cpuid : Z → CpuidResult) :
  ∃ v, detect_vendor cpuid = Ret v ∧ raw_string v = Ret (vendor_text (cpuid 0) ++ [0]) ∧
    (v = Intel ↔ vendor_text (cpuid 0) = bytes_of "GenuineIntel") ∧
    (v = Amd ↔ vendor_text (cpuid 0) = bytes_of "AuthenticAMD").
Proof.
  unfold detect_vendor, vendor_text. destruct (cpuid 0) as [eax ebx ecx edx]. cbn [cpuid_ebx cpuid_edx cpuid_ecx].
  change (zrepeat 12 0) with ([] ++ zrepeat 4 0 ++ zrepeat 8 0).
  rewrite copy_slice_at by (rewrite ?zlen_le_bytes; done). cbn [mbind outcome_bind app].
  change (zrepeat 8 0) with (zrepeat 4 0 ++ zrepeat 4 0).
  rewrite copy_slice_at by (rewrite ?zlen_le_bytes; done). cbn [mbind outcome_bind].
  rewrite (app_assoc (le_bytes 4 ebx)). rewrite <- (app_nil_r (zrepeat 4 0)).
  rewrite copy_slice_at by (rewrite ?zlen_app, ?zlen_le_bytes; done). cbn [mbind outcome_bind].
  rewrite app_nil_r, <- app_assoc. set (t := le_bytes 4 ebx ++ le_bytes 4 edx ++ le_bytes 4 ecx).
  assert (Ht : zlen t = 12) by (unfold t; by rewrite !zlen_app, !zlen_le_bytes).
  case_bool_decide as Hi; [|case_bool_decide as Ha].
  - exists Intel. rewrite Hi. split_and!; [done|reflexivity|done|split; [done|]]. by intros ?%(f_equal head).
  - exists Amd. rewrite Ha. split_and!; [done|reflexivity|split; [done|]|done]. by intros ?%(f_equal head).
  - change (zrepeat VENDOR_STRING_LENGTH 0) with ([] ++ zrepeat 12 0 ++ [0]).
    rewrite copy_slice_at by (rewrite ?Ht; done). cbn [mbind outcome_bind app].
    exists (UnknownVendor (t ++ [0])). by split_and!.
Qed.

(** The signature decodes CPUID leaf 1, and both numbers are bytes: the family wraps
    when the two fields add up to 256 or more. *)
Theorem signature_fields eax :
  0 ≤ eax < 2 ^ 32 →
  let s := CpuSignature_new eax in
  full_family s = (eax / 2 ^ 20 mod 256 + eax / 2 ^ 8 mod 16) mod 256 ∧
  full_model s = eax / 2 ^ 16 mod 16 * 16 + eax / 2 ^ 4 mod 16 ∧
  stepping s = eax mod 16.
Proof.
  intros He s. unfold s, full_family, full_model, CpuSignature_new.
  cbn [extended_family family extended_model sig_model stepping].
  change 0xFF with (Z.ones 8). change 0xF with (Z.ones 4). rewrite !Z.land_ones, !Z.shiftr_div_pow2 by lia.
  split; [done|]. split; [|done].
  change (2 ^ 4) with 16. set (hi := eax / 2 ^ 16 mod 16). set (lo := eax / 16 mod 16).
  assert (0 ≤ hi < 16) by (apply Z.mod_pos_bound; lia). assert (0 ≤ lo < 16) by (apply Z.mod_pos_bound; lia).
  rewrite Z.shiftl_mul_pow2 by lia. rewrite wrap_small by lia. rewrite Z.lor_comm, lor_low_high by lia. lia.
Qed.

(** Witnesses *)

Lemma signature_fields_witness :
  0 ≤ 0xFF00F00 < 2 ^ 32 ∧ full_family (CpuSignature_new 0xFF00F00) = 14.
Proof.
  assert (H : 0 ≤ 0xFF00F00 < 2 ^ 32) by lia. split; [exact H|].
  destruct (signature_fields 0xFF00F00 H) as [Hf _]. exact Hf.
Defined.
