(* ===== verification/SysInfo.v ===== *)
(** * Memory detection and system information (kernel/src/sysinfo/memory.rs, mod.rs)

    The report of the machine's memory: regions, their totals, and the texts shown
    to the user. *)

From stdpp Require Import base numbers list gmap strings.
From S2P Require Import Prelude ByteStr Text Regions CpuInfo.

#[local] Open Scope Z_scope.
#[local] Open Scope rust_scope.

(** ** Regions *)

Inductive SysRegionType :=
  | SysUsable
  | SysReserved
  | SysAcpi
  | SysAcpiNvs
  | SysBad
  | SysBootloaderReclaimable
  | SysKernel
  | SysFramebuffer
  | SysUnknown.

#[export] Instance SysRegionType_eq_dec : EqDecision SysRegionType.
Proof. solve_decision. Defined.

Definition from_u32 (t : Z) : SysRegionType :=
  if t =? 1 then SysUsable
  else if t =? 2 then SysReserved
  else if t =? 3 then SysAcpi
  else if t =? 4 then SysAcpiNvs
  else if t =? 5 then SysBad
  else if t =? 6 then SysBootloaderReclaimable
  else if t =? 7 then SysKernel
  else if t =? 8 then SysFramebuffer
  else SysUnknown.

Definition sys_type_as_str (t : SysRegionType) : string :=
  match t with
  | SysUsable => "Usable RAM"
  | SysReserved => "Reserved"
  | SysAcpi => "ACPI Tables"
  | SysAcpiNvs => "ACPI NVS"
  | SysBad => "Bad Memory"
  | SysBootloaderReclaimable => "Bootloader Reclaimable"
  | SysKernel => "Kernel"
  | SysFramebuffer => "Framebuffer"
  | SysUnknown => "Unknown"
  end.

Record SysRegion := mkSysRegion {
  sr_base : Z;
  sr_size : Z;
  sr_type : SysRegionType;
  sr_usable : bool;
}.

Definition SysRegion_new (base size : Z) (t : SysRegionType) : SysRegion :=
  mkSysRegion base size t
    (bool_decide (t = SysUsable) || bool_decide (t = SysBootloaderReclaimable)).

Section SysInfo.
Context `{PhysAddrApi}.

(** [PhysAddr::new(self.base.as_u64().checked_add(self.size).unwrap_or(0))] *)
Definition sys_region_end (r : SysRegion) : outcome Z :=
  PhysAddr_new (if sr_base r + sr_size r <? 2 ^ 64 then sr_base r + sr_size r else 0).

Definition sys_region_format (r : SysRegion) : outcome (list Z) :=
  end_ ← sys_region_end r;
  mret (bytes_of "0x" ++ pad_zero 16 (hex (sr_base r)) ++ bytes_of " - 0x" ++ pad_zero 16 (hex end_) ++
    bytes_of " (" ++ dec (sr_size r / (1024 * 1024)) ++ bytes_of " MiB) " ++
    bytes_of (sys_type_as_str (sr_type r))).

(** ** The report *)

Record MemoryInfo := mkMemoryInfo {
  mi_total_bytes : Z;
  mi_usable_bytes : Z;
  mi_reserved_bytes : Z;
  mi_memory_map : list SysRegion;
  mi_firmware_regions : list SysRegion;
  mi_usable_regions : list SysRegion;
  mi_reserved_regions : list SysRegion;
}.

(** [iter().filter(|r| r.is_usable).cloned().collect()], and its complement. *)
Definition usable_of (l : list SysRegion) : list SysRegion := filter (λ r, sr_usable r = true) l.
Definition reserved_of (l : list SysRegion) : list SysRegion := filter (λ r, sr_usable r = false) l.

(** [iter().map(|r| r.size).sum()] *)
Definition total_size (l : list SysRegion) : Z := foldl (λ a r, a +₆₄ sr_size r) 0 l.

Definition with_memory_map (memory_map : list SysRegion) : MemoryInfo :=
  let usable := usable_of memory_map in
  let reserved := reserved_of memory_map in
  mkMemoryInfo (total_size memory_map) (total_size usable) (total_size reserved) memory_map [] usable reserved.

Definition add_region (region : SysRegion) (m : MemoryInfo) : MemoryInfo :=
  let memory_map := mi_memory_map m ++ [region] in
  let usable := usable_of memory_map in
  let reserved := reserved_of memory_map in
  mkMemoryInfo (total_size memory_map) (total_size usable) (total_size reserved) memory_map
    (mi_firmware_regions m) usable reserved.

(** [detect_total_memory] over the [cpuid] instruction. *)
Definition sys_detect_total_memory (cpuid : Z → CpuidResult) : Z :=
  let physical_bits := Z.land (cpuid_eax (cpuid 0x80000008)) 0xFF in
  if 0 <? physical_bits then Z.shiftl 1 (physical_bits mod 64) -₆₄ 1 else 256 * 1024 * 1024.

Definition MemoryInfo_new (cpuid : Z → CpuidResult) : outcome MemoryInfo :=
  let total := sys_detect_total_memory cpuid in
  base0 ← PhysAddr_new 0;
  base1 ← PhysAddr_new 0x100000;
  let memory_map := [SysRegion_new base0 0x100000 SysReserved;
                     SysRegion_new base1 (total -₆₄ 0x100000) SysUsable] in
  let usable := usable_of memory_map in
  let reserved := reserved_of memory_map in
  mret (mkMemoryInfo total (total_size usable) (total_size reserved) memory_map [] usable reserved).

Definition new_with_total (total_bytes : Z) : outcome MemoryInfo :=
  base0 ← PhysAddr_new 0;
  let first := [SysRegion_new base0 0x100000 SysReserved] in
  if 0x100000 <? total_bytes then
    base1 ← PhysAddr_new 0x100000;
    mret (with_memory_map (first ++ [SysRegion_new base1 (total_bytes -₆₄ 0x100000) SysUsable]))
  else mret (with_memory_map first).

Definition mib (n : Z) : Z := n / (1024 * 1024).
Definition mi_total_mib (m : MemoryInfo) : Z := mib (mi_total_bytes m).
Definition mi_usable_mib (m : MemoryInfo) : Z := mib (mi_usable_bytes m).
Definition mi_reserved_mib (m : MemoryInfo) : Z := mib (mi_reserved_bytes m).

Definition memory_summary (m : MemoryInfo) : list Z :=
  bytes_of "Total Memory: " ++ dec (mi_total_mib m) ++ bytes_of " MiB" ++ [10] ++
  bytes_of "Usable Memory: " ++ dec (mi_usable_mib m) ++ bytes_of " MiB" ++ [10] ++
  bytes_of "Reserved Memory: " ++ dec (mi_reserved_mib m) ++ bytes_of " MiB" ++ [10] ++
  bytes_of "Memory Regions: " ++ dec (zlen (mi_memory_map m)).

(** [for region in l { result.push_str(&format!("  {}\n", region.format())) }] *)
Fixpoint regions_text (result : list Z) (l : list SysRegion) : outcome (list Z) :=
  match l with
  | [] => mret result
  | r :: l =>
      line ← sys_region_format r;
      regions_text (result ++ bytes_of "  " ++ line ++ [10]) l
  end.

Definition memory_map_string (m : MemoryInfo) : outcome (list Z) :=
  regions_text (bytes_of "Memory Map:" ++ [10]) (mi_memory_map m).
Definition usable_regions_string (m : MemoryInfo) : outcome (list Z) :=
  regions_text (bytes_of "Usable Memory Regions:" ++ [10]) (mi_usable_regions m).
Definition reserved_regions_string (m : MemoryInfo) : outcome (list Z) :=
  regions_text (bytes_of "Reserved Memory Regions:" ++ [10]) (mi_reserved_regions m).

(** ** The global report *)

(** [MEMORY_INFO] is the state. *)
Definition memory_init (total_memory : Z) : M (option MemoryInfo) unit :=
  m ← liftO (new_with_total total_memory);
  modify (λ _, Some m).

Definition memory_init_with_memory_map (l : list SysRegion) : M (option MemoryInfo) unit :=
  modify (λ _, Some (with_memory_map l)).

Definition memory_info (g : option MemoryInfo) : outcome MemoryInfo :=
  match g with Some m => Ret m | None => Panic end.
Definition memory_is_initialized (g : option MemoryInfo) : bool := bool_decide (is_Some g).

(** [if is_initialized() { f(memory_info()) } else { dflt }] *)
Definition memory_query {A} (f : MemoryInfo → A) (dflt : A) (g : option MemoryInfo) : outcome A :=
  if memory_is_initialized g then m ← memory_info g; mret (f m) else mret dflt.

Definition total_bytes : option MemoryInfo → outcome Z := memory_query mi_total_bytes 0.
Definition total_mib : option MemoryInfo → outcome Z := memory_query mi_total_mib 0.
Definition usable_bytes : option MemoryInfo → outcome Z := memory_query mi_usable_bytes 0.
Definition usable_mib : option MemoryInfo → outcome Z := memory_query mi_usable_mib 0.
Definition reserved_bytes : option MemoryInfo → outcome Z := memory_query mi_reserved_bytes 0.
Definition reserved_mib : option MemoryInfo → outcome Z := memory_query mi_reserved_mib 0.
Definition sys_memory_map : option MemoryInfo → outcome (list SysRegion) := memory_query mi_memory_map [].
Definition sys_usable_regions : option MemoryInfo → outcome (list SysRegion) := memory_query mi_usable_regions [].
Definition sys_reserved_regions : option MemoryInfo → outcome (list SysRegion) := memory_query mi_reserved_regions [].

(** ** The whole system *)

(** The statics [CPU_INFO], [MEMORY_INFO] and [SYSTEM_INFO]. *)
Record SysGlobals := mkSys {
  g_CPU_INFO : option CpuInfo;
  g_MEMORY_INFO : option MemoryInfo;
  g_SYSTEM_INFO : option (CpuInfo * MemoryInfo);
}.

Definition sys_init (cpuid : Z → CpuidResult) (total_memory : Z) : M SysGlobals unit := λ g,
  match (r ← cpu_init cpuid (g_CPU_INFO g); r' ← memory_init total_memory (g_MEMORY_INFO g); mret (r.2, r'.2)) with
  | Ret (c, m) => Ret (tt, mkSys c m (g_SYSTEM_INFO g))
  | Panic => Panic
  | UB => UB
  | OutOfFuel => OutOfFuel
  end.

Definition SystemInfo_new (cpuid : Z → CpuidResult) : outcome (CpuInfo * MemoryInfo) :=
  c ← CpuInfo_new cpuid;
  m ← MemoryInfo_new cpuid;
  mret (c, m).

Definition init_with_total_memory (cpuid : Z → CpuidResult) (total_memory : Z) : M SysGlobals unit :=
  _ ← sys_init cpuid total_memory;
  i ← liftO (SystemInfo_new cpuid);
  modify (λ g, mkSys (g_CPU_INFO g) (g_MEMORY_INFO g) (Some i)).

Definition sys_is_initialized (g : SysGlobals) : bool :=
  cpu_is_initialized (g_CPU_INFO g) && memory_is_initialized (g_MEMORY_INFO g).

Definition system_text (cpu mem : list Z) : list Z :=
  bytes_of "System Information" ++ [10] ++ cpu ++ [10] ++ mem.

Definition system_summary (g : SysGlobals) : outcome (list Z) :=
  c ← cpu_info (g_CPU_INFO g);
  m ← memory_info (g_MEMORY_INFO g);
  mret (system_text (cpu_summary c) (memory_summary m)).

Definition SystemInfo_summary (i : CpuInfo * MemoryInfo) : list Z :=
  system_text (cpu_summary i.1) (memory_summary i.2).

(** ** Properties *)

(** The totals are those of the regions, and every region is in one of the two parts. *)
Record memory_info_ok (m : MemoryInfo) : Prop := {
  mio_usable : mi_usable_regions m = usable_of (mi_memory_map m);
  mio_reserved : mi_reserved_regions m = reserved_of (mi_memory_map m);
  mio_total : mi_total_bytes m = total_size (mi_memory_map m);
  mio_usable_bytes : mi_usable_bytes m = total_size (mi_usable_regions m);
  mio_reserved_bytes : mi_reserved_bytes m = total_size (mi_reserved_regions m);
}.

(** The sum without wrap-around. *)
Definition exact_size (l : list SysRegion) : Z := foldr (λ r n, sr_size r + n) 0 l.

Lemma total_size_exact l : total_size l = wrap 64 (exact_size l).
Proof.
  unfold total_size. cut (∀ a, foldl (λ a r, a +₆₄ sr_size r) (wrap 64 a) l = wrap 64 (a + exact_size l)).
  { intros Hc. exact (Hc 0). }
  induction l as [|r l IH]; intros a; cbn [foldl]; [by rewrite Z.add_0_r|].
  rewrite wrap_add, IH. f_equal. change (exact_size (r :: l)) with (sr_size r + exact_size l). lia.
Qed.

Lemma total_size_split l : total_size l = total_size (usable_of l) +₆₄ total_size (reserved_of l).
Proof.
  rewrite !total_size_exact, wrap_add, wrap_add_r. f_equal. unfold usable_of, reserved_of.
  induction l as [|r l IH]; [done|]. rewrite !filter_cons.
  change (exact_size (r :: l)) with (sr_size r + exact_size l). rewrite IH.
  destruct (sr_usable r); repeat case_decide; try done;
    change (exact_size (r :: ?k)) with (sr_size r + exact_size k); lia.
Qed.

(** The memory report is consistent however it was built: any map, grown by any regions,
    keeps its two parts and its totals, and the total is the sum of the usable and the
    reserved bytes (64-bit, as the code adds them). *)
Theorem memory_info_consistent (l extra : list SysRegion) :
  let m := foldl (λ m r, add_region r m) (with_memory_map l) extra in
  memory_info_ok m ∧ mi_memory_map m = l ++ extra ∧
  mi_total_bytes m = mi_usable_bytes m +₆₄ mi_reserved_bytes m.
Proof.
  cbv zeta. assert (Hm : memory_info_ok (foldl (λ m r, add_region r m) (with_memory_map l) extra) ∧
    mi_memory_map (foldl (λ m r, add_region r m) (with_memory_map l) extra) = l ++ extra).
  { induction extra as [|r extra IH] using rev_ind; [split; [by split|by rewrite app_nil_r]|].
    rewrite foldl_app. cbn [foldl]. destruct IH as [_ Hmap]. split; [by split|].
    cbn [add_region mi_memory_map]. by rewrite Hmap, <- app_assoc. }
  destruct Hm as [[Hu Hr Ht Hub Hrb] Hmap]. split_and!; [by split|done|].
  rewrite Ht, Hub, Hrb, Hu, Hr. apply total_size_split.
Qed.

(** The report of [init]: a machine of [total] bytes is shown as the first MiB, reserved,
    and the rest, usable; a machine of less than a MiB is reported as one MiB. *)
Theorem memory_init_reports `{!PhysAddrLaws _} total g :
  0 ≤ total < 2 ^ 64 →
  ∃ m, memory_init total g = Ret (tt, Some m) ∧ memory_info_ok m ∧
    mi_total_bytes m = Z.max total 0x100000 ∧ mi_reserved_bytes m = 0x100000 ∧
    mi_usable_bytes m = Z.max 0 (total - 0x100000).
Proof.
  intros Ht. unfold memory_init, new_with_total.
  rewrite (PhysAddr_new_ok 0) by lia. cbn [mbind outcome_bind].
  destruct (Z.ltb_spec 0x100000 total).
  - rewrite (PhysAddr_new_ok 0x100000) by lia. cbn [mbind outcome_bind].
    rewrite wrap64_small by lia. set (r0 := SysRegion_new 0 0x100000 SysReserved).
    set (r1 := SysRegion_new 0x100000 (total - 0x100000) SysUsable).
    assert (usable_of ([r0] ++ [r1]) = [r1]) as Hu by reflexivity.
    assert (reserved_of ([r0] ++ [r1]) = [r0]) as Hr by reflexivity.
    eexists. split; [reflexivity|]. split; [by split|]. cbn [mi_total_bytes mi_reserved_bytes mi_usable_bytes with_memory_map].
    rewrite Hu, Hr, !total_size_exact. cbn [exact_size foldr app sr_size r0 r1 SysRegion_new]. nowrap. lia.
  - eexists. split; [reflexivity|]. split; [by split|]. cbn [mi_total_bytes mi_reserved_bytes mi_usable_bytes with_memory_map].
    change (total_size (usable_of _)) with 0. change (total_size (reserved_of _)) with 0x100000.
    change (total_size _) with 0x100000. lia.
Qed.

End SysInfo.

Lemma memory_init_reports_witness :
  ∃ m, memory_init (H := phys52) 0x8000000 None = Ret (tt, Some m) ∧ mi_usable_bytes m = 0x7F00000.
Proof.
  destruct (memory_init_reports (H := phys52) (PhysAddrLaws0 := phys52_laws) 0x8000000 None ltac:(lia))
    as (m & Hr & _ & _ & _ & Hu).
  exists m. split; [exact Hr|exact Hu].
Defined.
