(* ===== verification/Boot.v ===== *)
(** * Early output and detection at boot (kernel/src/arch/boot_entry.rs)

    The output the kernel makes before any of its modules is initialised: raw writes
    to the serial port and to the VGA memory, with numbers formatted in fixed
    buffers; and the detection of the processor and of the memory size. *)

From stdpp Require Import base numbers list gmap strings.
From S2P Require Import Prelude ByteStr Text Ports CpuInfo.

#[local] Open Scope Z_scope.
#[local] Open Scope rust_scope.

(** ** The serial port *)

Section Early.
Context `{PortIO P}.

(** The wait for an empty transmitter; [timeout] counts down to the [break]. *)
Fixpoint wait_transmit (timeout : nat) : M P unit :=
  match timeout with
  | O => mret tt
  | S timeout =>
      status ← inb 0x3FD;
      if Z.land status 0x20 =? 0 then wait_transmit timeout else mret tt
  end.

Definition EARLY_TIMEOUT : nat := Z.to_nat 100000.

Definition early_serial_write (b : Z) : M P unit :=
  _ ← wait_transmit EARLY_TIMEOUT;
  outb 0x3F8 b.

Definition early_serial_print (s : list Z) : M P unit :=
  mfor s (λ b,
    _ ← (if b =? 10 then early_serial_write 13 else mret tt);
    early_serial_write b).

(** [while val > 0 { buf[i] = low(val); i += 1; val = next(val); }] *)
Fixpoint fill_digits (low next : Z → Z) (fuel : nat) (val i : Z) (buf : list Z) : outcome (Z * list Z) :=
  if 0 <? val then
    match fuel with
    | O => OutOfFuel
    | S fuel =>
        buf ← zset buf i (low val);
        fill_digits low next fuel (next val) (i + 1) buf
    end
  else mret (i, buf).

(** [while i > 0 { i -= 1; early_serial_write(buf[i]); }] *)
Definition write_reversed (i : Z) (buf : list Z) : M P unit :=
  mfor (rev (range 0 i)) (λ j, b ← liftO (zget buf j); early_serial_write b).

Definition hex_low (val : Z) : Z :=
  let nibble := wrap 8 (Z.land val 0xF) in
  if nibble <? 10 then 48 + nibble else 65 + nibble - 10.

Definition early_serial_write_hex (val : Z) : M P unit :=
  if val =? 0 then early_serial_write 48 else
  '(i, buf) ← liftO (fill_digits hex_low (λ v, Z.shiftr v 4) 64 val 0 (zrepeat 16 0));
  write_reversed i buf.

Definition dec_low (val : Z) : Z := wrap 8 (48 + wrap 8 (val mod 10)).

Definition early_serial_write_dec (val : Z) : M P unit :=
  if val =? 0 then early_serial_write 48 else
  '(i, buf) ← liftO (fill_digits dec_low (λ v, v / 10) 64 val 0 (zrepeat 20 0));
  write_reversed i buf.

Definition early_serial_write_hex8 (val : Z) : M P unit :=
  let HEX := bytes_of "0123456789ABCDEF" in
  hi ← liftO (zget HEX (Z.land (Z.shiftr val 4) 0xF));
  _ ← early_serial_write hi;
  lo ← liftO (zget HEX (Z.land val 0xF));
  early_serial_write lo.

(** The percentage, as the three branches format it in [buf]. *)
Definition percent_text (pct : Z) : list Z :=
  if 100 <=? pct then [48 + pct / 100; 48 + (pct / 10) mod 10; 48 + pct mod 10]
  else if 10 <=? pct then [48 + pct / 10; 48 + pct mod 10]
  else [48 + pct].

Definition progress_serial (phase : list Z) (pct : Z) : M P unit :=
  _ ← early_serial_print (bytes_of "[BOOT] ");
  _ ← early_serial_print phase;
  _ ← early_serial_print (bytes_of " [");
  let filled := pct / 5 in
  _ ← mfor (range 0 20) (λ i, early_serial_write (if i <? filled then 35 else 45));
  _ ← early_serial_print (bytes_of "] ");
  _ ← early_serial_print (percent_text pct);
  early_serial_print (bytes_of "%" ++ [13; 10]).

End Early.

(** ** The last line of the screen *)

(** The VGA memory from 0xB8000; [*vga.add(off) = b]. *)
Definition VGA_WINDOW : Z := 0x8000.

Definition vga_poke (off b : Z) : M (list Z) unit := λ m,
  match zset m off b with
  | Ret m' => if 0 <=? off then Ret (tt, m') else UB
  | _ => UB
  end.

(** A character and its attribute at a column of row 24. *)
Definition vga_cell (col ch color : Z) : M (list Z) unit :=
  _ ← vga_poke ((24 * 80 + col) * 2) ch;
  vga_poke ((24 * 80 + col) * 2 + 1) color.

(** [for (i, &ch) in l.iter().enumerate() { .. }] from column [col]. *)
Definition vga_text (col color : Z) (l : list Z) : M (list Z) unit :=
  mfor (zip (range 0 (zlen l)) l) (λ ic, vga_cell (col + ic.1) ic.2 color).

Definition progress_vga (phase : list Z) (pct : Z) : M (list Z) unit :=
  _ ← mfor (range 0 80) (λ col, vga_cell col 32 0x07);
  let prefix := bytes_of "[BOOT] " in
  let offset := zlen prefix in
  _ ← vga_text 0 0x0B prefix;
  _ ← vga_text offset 0x0F (take 40 phase);
  let bar_start := offset + zlen phase + 1 in
  _ ← vga_cell bar_start 91 0x08;
  _ ← mfor (range 0 20) (λ i,
    vga_cell (bar_start + 1 + i) (if i <? pct / 5 then 35 else 45) (if i <? pct / 5 then 0x0A else 0x08));
  vga_cell (bar_start + 21) 93 0x08.

(** [boot_progress]: the serial part, then the screen. *)
Definition boot_progress `{PortIO P} (vga serial : bool) (phase : list Z) (pct : Z) :
    M (P * list Z) unit := λ s,
  match (if serial then progress_serial phase pct else mret tt) s.1 with
  | Ret (_, p) =>
      match (if vga then progress_vga phase pct else mret tt) s.2 with
      | Ret (_, m) => Ret (tt, (p, m))
      | Panic => Panic
      | UB => UB
      | OutOfFuel => OutOfFuel
      end
  | Panic => Panic
  | UB => UB
  | OutOfFuel => OutOfFuel
  end.

(** ** Detection *)

Inductive BootVendor := BootIntel | BootAmd | BootOther.

Definition detect_cpu_vendor (cpuid : Z → CpuidResult) : BootVendor :=
  let r := cpuid 0 in
  let vendor := (cpuid_ebx r, cpuid_edx r, cpuid_ecx r) in
  if bool_decide (vendor = (0x756E6547, 0x49656E65, 0x6C65746E)) then BootIntel
  else if bool_decide (vendor = (0x68747541, 0x69746E65, 0x444D4163)) then BootAmd
  else BootOther.

Definition detect_total_memory (cpuid : Z → CpuidResult) : Z :=
  if 0x80000008 <=? cpuid_eax (cpuid 0x80000000) then
    let physical_bits := Z.land (cpuid_eax (cpuid 0x80000008)) 0xFF in
    if (0 <? physical_bits) && (physical_bits <? 64) then Z.shiftl 1 physical_bits
    else 128 * 1024 * 1024
  else 128 * 1024 * 1024.

(** ** Output *)

(** A serial port with the bytes sent so far; its status is anything. *)
Class SerialOut (P : Type) `{PortIO P} := {
  sent : P → list Z;
  status_any : ∀ p, ∃ v p', inb 0x3FD p = Ret (v, p') ∧ sent p' = sent p;
  data_sent : ∀ p b, ∃ p', outb 0x3F8 b p = Ret (tt, p') ∧ sent p' = sent p ++ [b];
}.

Section Output.
Context `{SerialOut P}.

(** [m] returns after sending [l]. *)
Definition sends (m : M P unit) (l : list Z) : Prop :=
  ∀ p, ∃ p', m p = Ret (tt, p') ∧ sent p' = sent p ++ l.

Lemma sends_ret : sends (mret tt) [].
Proof. intros p. exists p. by rewrite app_nil_r. Qed.

Lemma sends_bind (m k : M P unit) l l' : sends m l → sends k l' → sends (_ ← m; k) (l ++ l').
Proof.
  intros Hm Hk p. destruct (Hm p) as (p1 & H1 & Hs1). destruct (Hk p1) as (p2 & H2 & Hs2).
  exists p2. rewrite (bind_Ret _ _ _ _ _ H1). split; [done|]. by rewrite Hs2, Hs1, app_assoc.
Qed.

Lemma sends_mfor {A} (l : list A) (body : A → M P unit) (f : A → list Z) :
  (∀ x, x ∈ l → sends (body x) (f x)) → sends (mfor l body) (l ≫= f).
Proof.
  induction l as [|x l IH]; intros Hb; [apply sends_ret|]. cbn [mfor].
  change ((x :: l) ≫= f) with (f x ++ (l ≫= f)). apply sends_bind; [apply Hb; by left|].
  apply IH. intros. apply Hb. by right.
Qed.

Lemma sends_wait n : sends (wait_transmit n) [].
Proof.
  induction n as [|n IH]; [apply sends_ret|]. intros p. cbn [wait_transmit].
  destruct (status_any p) as (v & p1 & Hv & Hs). rewrite (bind_Ret _ _ _ _ _ Hv).
  destruct (Z.land v 0x20 =? 0).
  - destruct (IH p1) as (p2 & Hr & Hs2). exists p2. split; [done|]. by rewrite Hs2, Hs.
  - exists p1. split; [done|]. by rewrite Hs, app_nil_r.
Qed.

Lemma sends_write b : sends (early_serial_write b) [b].
Proof.
  unfold early_serial_write. apply (sends_bind _ _ [] [b]); [apply sends_wait|].
  intros p. destruct (data_sent p b) as (p' & ? & ?). by exists p'.
Qed.

(** Line feeds are sent after a carriage return. *)
Definition crlf (s : list Z) : list Z := s ≫= λ b, if b =? 10 then [13; 10] else [b].

Lemma sends_print s : sends (early_serial_print s) (crlf s).
Proof.
  apply sends_mfor. intros b _. destruct (Z.eqb_spec b 10) as [->|].
  - apply (sends_bind _ _ [13] [10]); apply sends_write.
  - apply (sends_bind _ _ [] [b]); [apply sends_ret|apply sends_write].
Qed.

Lemma sends_liftO {A} (o : outcome A) a (k : A → M P unit) l :
  o = Ret a → sends (k a) l → sends (x ← liftO o; k x) l.
Proof. intros -> Hk. exact Hk. Qed.

Lemma sends_reversed l rest :
  sends (write_reversed (zlen l) (l ++ rest)) (rev l).
Proof.
  revert rest. induction l as [|x l IH] using rev_ind; intros rest; [apply sends_ret|].
  unfold write_reversed in *. rewrite zlen_app. change (zlen [x]) with 1.
  rewrite range_snoc by apply zlen_nonneg. rewrite !rev_unit, <- app_assoc. cbn [mfor].
  apply (sends_bind _ _ [x] (rev l)); [|apply IH].
  eapply sends_liftO; [|apply sends_write].
  apply zget_lookup; [|apply zlen_nonneg]. unfold zlen. rewrite Nat2Z.id. by apply list_lookup_middle.
Qed.

(** The loop leaves the digits in the buffer, least significant first. *)
Lemma fill_digits_spec (low next : Z → Z) (b : Z) :
  2 ≤ b → (∀ v, 0 ≤ v → low v = digit_char (v mod b) ∧ next v = v / b) →
  ∀ fuel val l rest, 0 < val < b ^ Z.of_nat fuel →
    zlen (digits_acc fuel b val []) ≤ zlen rest →
    ∃ rest', fill_digits low next fuel val (zlen l) (l ++ rest) =
      Ret (zlen l + zlen (digits_acc fuel b val []),
           l ++ rev (digit_char <$> digits_acc fuel b val []) ++ rest').
Proof.
  intros Hb Hstep fuel. induction fuel as [|fuel IH]; intros val l rest Hv Hroom.
  { change (b ^ Z.of_nat 0) with 1 in Hv. lia. }
  destruct (Hstep val ltac:(lia)) as [Hlow Hnext].
  cbn [fill_digits]. destruct (Z.ltb_spec 0 val); [|lia].
  cbn [digits_acc] in *. destruct (Z.ltb_spec val b) as [Hlt|Hge].
  - destruct rest as [|x rest]; [unfold zlen in Hroom; simpl in Hroom; lia|].
    rewrite zset_middle. cbn [mbind outcome_bind]. rewrite Hlow, Hnext, Z.mod_small, Z.div_small by lia.
    exists rest. destruct fuel; done.
  - rewrite digits_acc_app in Hroom |- *. rewrite zlen_app in *. change (zlen [val mod b]) with 1 in *.
    pose proof (zlen_nonneg (digits_acc fuel b (val / b) [])).
    destruct rest as [|x rest]; [unfold zlen at 2 in Hroom; simpl in Hroom; lia|]. rewrite zlen_cons in Hroom.
    rewrite zset_middle. cbn [mbind outcome_bind]. rewrite Hlow, Hnext.
    rewrite Nat2Z.inj_succ, Z.pow_succ_r in Hv by lia.
    destruct (IH (val / b) (l ++ [digit_char (val mod b)]) rest) as (rest' & Hr).
    + split; [apply Z.div_str_pos; lia|]. apply Z.div_lt_upper_bound; lia.
    + lia.
    + exists rest'. rewrite <- app_assoc, zlen_app in Hr. change (zlen [_]) with 1 in Hr. cbn [app] in Hr.
      rewrite Hr. rewrite fmap_app, rev_app_distr. cbn [fmap list_fmap rev app]. rewrite <- app_assoc.
      do 2 f_equal. lia.
Qed.

Lemma sends_number (low next : Z → Z) b val cap :
  2 ≤ b → (∀ v, 0 ≤ v → low v = digit_char (v mod b) ∧ next v = v / b) →
  0 < val < 2 ^ 64 → 2 ^ 64 ≤ b ^ cap → 1 ≤ cap →
  sends ('(i, buf) ← liftO (fill_digits low next 64 val 0 (zrepeat cap 0)); write_reversed i buf)
    (digit_char <$> digits b val).
Proof.
  intros Hb Hstep Hv Hcap Hc. pose proof (pow_64 b Hb).
  destruct (fill_digits_spec low next b Hb Hstep 64 val [] (zrepeat cap 0)) as (rest & Hr); [lia| |].
  - rewrite zlen_repeat by lia. replace cap with (Z.of_nat (Z.to_nat cap)) by lia.
    apply digits_acc_length; [done| |lia]. rewrite Z2Nat.id by lia. lia.
  - eapply sends_liftO; [exact Hr|]. cbn beta match. change (zlen []) with 0. cbn [app].
    rewrite Z.add_0_l. fold (digits b val).
    pose proof (sends_reversed (rev (digit_char <$> digits b val)) rest) as Hs.
    rewrite rev_involutive in Hs. unfold zlen in *. by rewrite length_rev, length_fmap in Hs.
Qed.

Lemma hex_low_spec v : 0 ≤ v → hex_low v = digit_char (v mod 16) ∧ Z.shiftr v 4 = v / 16.
Proof.
  intros Hv. unfold hex_low, digit_char. change 0xF with (Z.ones 4).
  rewrite Z.land_ones, Z.shiftr_div_pow2 by lia. change (2 ^ 4) with 16.
  pose proof (Z.mod_pos_bound v 16 ltac:(lia)). rewrite wrap_small by lia.
  split; [|done]. destruct (v mod 16 <? 10); lia.
Qed.

Lemma dec_low_spec v : 0 ≤ v → dec_low v = digit_char (v mod 10) ∧ v / 10 = v / 10.
Proof.
  intros Hv. unfold dec_low, digit_char. pose proof (Z.mod_pos_bound v 10 ltac:(lia)).
  rewrite !wrap_small by (rewrite ?wrap_small by lia; lia).
  split; [|done]. destruct (Z.ltb_spec (v mod 10) 10); lia.
Qed.

Lemma percent_dec pct : 0 ≤ pct < 256 → percent_text pct = dec pct.
Proof.
  intros Hp. assert (Hall : Forall (λ p, percent_text p = dec p) (range 0 256))
    by (apply (bool_decide_unpack _); vm_compute; reflexivity).
  rewrite Forall_forall in Hall. apply Hall, elem_of_range. lia.
Qed.

(** The output at boot reaches the serial port whatever the port's status says (the wait
    for the transmitter is bounded), and without a heap the numbers come out as the
    formatter prints them: the fixed buffers of 16 and 20 digits never overflow. *)
Theorem early_output (s : list Z) (n : Z) :
  0 ≤ n < 2 ^ 64 →
  sends (early_serial_print s) (crlf s) ∧
  sends (early_serial_write_hex n) (hex n) ∧
  sends (early_serial_write_dec n) (dec n).
Proof.
  intros Hn. split; [apply sends_print|]. unfold early_serial_write_hex, early_serial_write_dec.
  destruct (Z.eqb_spec n 0) as [->|]; [split; apply (sends_write 48)|].
  split; apply sends_number; try lia; [apply hex_low_spec|apply dec_low_spec].
Qed.

(** A progress report: the phase, one mark for each five percent, and the percentage in
    decimal go to the serial port. *)
Theorem progress_line phase pct :
  0 ≤ pct < 256 →
  sends (progress_serial phase pct)
    (bytes_of "[BOOT] " ++ crlf phase ++ bytes_of " [" ++
     (if pct <? 100 then zrepeat (pct / 5) 35 ++ zrepeat (20 - pct / 5) 45 else zrepeat 20 35) ++
     bytes_of "] " ++ dec pct ++ bytes_of "%" ++ [13; 13; 10]).
Proof.
  intros Hp. unfold progress_serial. rewrite percent_dec by done.
  apply sends_bind; [apply sends_print|]. apply sends_bind; [apply sends_print|].
  apply sends_bind; [apply sends_print|]. apply sends_bind.
  { set (bar := λ i, if i <? pct / 5 then 35 else 45).
    assert (Hbar : (if pct <? 100 then zrepeat (pct / 5) 35 ++ zrepeat (20 - pct / 5) 45 else zrepeat 20 35) =
      range 0 20 ≫= λ i, [bar i]).
    { destruct (Z.ltb_spec pct 100).
      - assert (0 ≤ pct / 5 < 20) as Hq by dlia. unfold bar. clear -Hq.
        assert (Hall : Forall (λ q, zrepeat q 35 ++ zrepeat (20 - q) 45 =
          range 0 20 ≫= λ i, [if i <? q then 35 else 45]) (range 0 20)) by (repeat constructor).
        eapply Forall_forall in Hall; [exact Hall|]. by apply elem_of_range.
      - assert (Hge : ∀ i, i ∈ range 0 20 → bar i = 35).
        { intros i Hi%elem_of_range. unfold bar. destruct (Z.ltb_spec i (pct / 5)); [done|dlia]. }
        revert Hge. generalize (bar). intros f Hge.
        assert (Hl : ∀ l, (∀ i, i ∈ l → f i = 35) → (l ≫= λ i, [f i]) = replicate (length l) 35).
        { induction l as [|i l IH]; intros Hl; [done|]. change ((i :: l) ≫= ?g) with (g i ++ (l ≫= g)).
          rewrite IH by (intros; apply Hl; by right). cbn. by rewrite Hl by left. }
        by rewrite Hl. }
    rewrite Hbar. apply sends_mfor. intros i _. apply sends_write. }
  apply sends_bind; [apply sends_print|]. apply sends_bind; [|apply sends_print].
  assert (Hd : crlf (dec pct) = dec pct).
  { unfold crlf, dec. destruct (digits_spec 10 pct ltac:(lia) ltac:(lia)) as [Hd _].
    induction Hd as [|d l Hd _ IH]; [done|]. cbn [fmap list_fmap].
    change ((?x :: ?k) ≫= ?g) with (g x ++ (k ≫= g)). rewrite IH.
    unfold digit_char at 1. destruct (Z.eqb_spec (if d <? 10 then 48 + d else 55 + d) 10);
      [destruct (d <? 10); lia|done]. }
  rewrite <- Hd at 2. apply sends_print.
Qed.

End Output.

(** ** A port that records what it is sent *)

#[export] Instance list_ports : PortIO (list Z) := {
  inb := λ _ l, Ret (0, l);
  outb := λ port v l, Ret (tt, if port =? 0x3F8 then l ++ [v] else l);
  inw := λ _ l, Ret (0, l);
  outw := λ _ _ l, Ret (tt, l);
  inl := λ _ l, Ret (0, l);
  outl := λ _ _ l, Ret (tt, l);
}.

#[export] Instance list_serial : SerialOut (list Z).
Proof.
  refine {| sent := λ l, l |}.
  - intros p. by exists 0, p.
  - intros p b. by exists (p ++ [b]).
Defined.

Lemma early_output_witness :
  sends (P := list Z) (early_serial_write_dec 65536) (bytes_of "65536") ∧
  sends (P := list Z) (early_serial_write_hex 65536) (bytes_of "10000").
Proof.
  split.
  - exact (proj2 (proj2 (early_output (P := list Z) [] 65536 ltac:(lia)))).
  - exact (proj1 (proj2 (early_output (P := list Z) [] 65536 ltac:(lia)))).
Defined.

Lemma progress_line_witness :
  ∃ p', progress_serial (bytes_of "Memory") 35 ([] : list Z) = Ret (tt, p') ∧
    p' = bytes_of "[BOOT] Memory [#######-------------] 35%" ++ [13; 13; 10].
Proof. exact (progress_line (P := list Z) (bytes_of "Memory") 35 ltac:(lia) []). Defined.
