(* ===== verification/Paging.v ===== *)
(** * Page tables: what the kernel uses of the x86_64 crate

    [VirtAddr], [Page], [PhysFrame] and [OffsetPageTable] belong to the crate:
    [VirtAddrApi] and [PageMapper] are their operations, parameters of the virtual
    memory manager. The tables themselves are read as memory, entry by entry, as
    the manager reads them; [leaves] is what they map, and [PageMapperLaws] states
    the documented behaviour of the mapper on it. *)

From stdpp Require Import base numbers list gmap strings.
From S2P Require Import Prelude.

#[local] Open Scope Z_scope.
#[local] Open Scope rust_scope.

(** ** Addresses *)

(** [VirtAddr::new] (panics outside the canonical range), [is_aligned], and the start
    of [Page::containing_address] and [PhysFrame::containing_address]. *)
Class VirtAddrApi := {
  VirtAddr_new : Z → outcome Z;
  is_aligned : Z → Z → bool;
  page_containing : Z → Z;
  frame_containing : Z → Z;
}.

Definition canonical (a : Z) : Prop := 0 ≤ a < 2 ^ 47 ∨ 2 ^ 64 - 2 ^ 47 ≤ a < 2 ^ 64.

Class VirtAddrLaws (V : VirtAddrApi) : Prop := {
  VirtAddr_new_ok : ∀ a, canonical a → VirtAddr_new a = Ret a;
  VirtAddr_new_bad : ∀ a, 2 ^ 47 ≤ a < 2 ^ 64 - 2 ^ 47 → VirtAddr_new a = Panic;
  is_aligned_ok : ∀ a, is_aligned a 4096 = (a mod 4096 =? 0);
  page_containing_ok : ∀ a, page_containing a = a - a mod 4096;
  frame_containing_ok : ∀ a, frame_containing a = a - a mod 4096;
}.

(** ** Entries *)

(** The bits of [PageTableFlags] the kernel uses. *)
Definition PRESENT : Z := 1.
Definition WRITABLE : Z := 2.
Definition USER_ACCESSIBLE : Z := 4.
Definition HUGE_PAGE : Z := 128.

(** A [PageTableEntry], as its [flags()] and its [addr()]. *)
Record PageTableEntry := mkPte { pte_flags : Z; pte_addr : Z }.

(** [flags.contains(f)] *)
Definition contains (flags f : Z) : bool := Z.land flags f =? f.

(** [PageAlreadyMapped] carries the frame that was to be mapped. *)
Inductive MapToError :=
  | FrameAllocationFailed
  | MapParentEntryHugePage
  | PageAlreadyMapped (frame : Z).

Inductive UnmapError :=
  | UnmapParentEntryHugePage
  | PageNotMapped
  | InvalidFrameAddress (addr : Z).

(** The mapper over the memory [T], whose page tables [read_table] reads by their
    physical address. [map_to] takes the frame allocator it may call. *)
Class PageMapper (T : Type) := {
  level_4_table : T → Z;
  read_table : T → Z → list PageTableEntry;
  map_to : ∀ {A}, M A (option Z) → Z → Z → Z → M (T * A) (result unit MapToError);
  unmap : Z → M T (result Z UnmapError);
  translate_page : T → Z → option (Z * Z);
}.

(** [translate_addr] *)
Definition translate_addr `{PageMapper T} (pt : T) (virt : Z) : option Z := fst <$> translate_page pt virt.

(** [table.iter().enumerate()] *)
Definition enumerate {A} (l : list A) : list (Z * A) := zip (range 0 (zlen l)) l.

(** ** What the tables map *)

Record Leaf := mkLeaf { lf_virt : Z; lf_phys : Z; lf_size : Z; lf_flags : Z }.

#[export] Instance Leaf_eq_dec : EqDecision Leaf.
Proof. solve_decision. Defined.

(** The virtual address of a table position, with the sign extension of bit 47. *)
Definition virt_of (raw : Z) : Z := if raw <? 2 ^ 47 then raw else raw + (2 ^ 64 - 2 ^ 48).

Section Leaves.
Context `{PageMapper T} (pt : T).

Definition leaf_at (raw size : Z) (e : PageTableEntry) : Leaf :=
  mkLeaf (virt_of raw) (pte_addr e) size (pte_flags e).

(** The entries that are present, below the virtual address [base]. *)
Definition leaves_1 (base : Z) (ie : Z * PageTableEntry) : list Leaf :=
  let '(i, e) := ie in
  if contains (pte_flags e) PRESENT then [leaf_at (base + i * 2 ^ 12) (2 ^ 12) e] else [].

Definition leaves_2 (base : Z) (ie : Z * PageTableEntry) : list Leaf :=
  let '(i, e) := ie in
  if contains (pte_flags e) PRESENT then
    if contains (pte_flags e) HUGE_PAGE then [leaf_at (base + i * 2 ^ 21) (2 ^ 21) e]
    else enumerate (read_table pt (pte_addr e)) ≫= leaves_1 (base + i * 2 ^ 21)
  else [].

Definition leaves_3 (base : Z) (ie : Z * PageTableEntry) : list Leaf :=
  let '(i, e) := ie in
  if contains (pte_flags e) PRESENT then
    if contains (pte_flags e) HUGE_PAGE then [leaf_at (base + i * 2 ^ 30) (2 ^ 30) e]
    else enumerate (read_table pt (pte_addr e)) ≫= leaves_2 (base + i * 2 ^ 30)
  else [].

Definition leaves_4 (ie : Z * PageTableEntry) : list Leaf :=
  let '(i, e) := ie in
  if contains (pte_flags e) PRESENT
  then enumerate (read_table pt (pte_addr e)) ≫= leaves_3 (i * 2 ^ 39)
  else [].

Definition leaves : list Leaf := enumerate (read_table pt (level_4_table pt)) ≫= leaves_4.

End Leaves.

(** The 4 KiB pages that leaves cover. *)
Definition leaf_pages (l : Leaf) : Z := lf_size l / 4096.
Definition pages (ls : list Leaf) : Z := foldr (λ l n, leaf_pages l + n) 0 ls.

Definition covers (l : Leaf) (virt : Z) : Prop := lf_virt l ≤ virt < lf_virt l + lf_size l.
#[export] Instance covers_dec l v : Decision (covers l v).
Proof. unfold covers. apply _. Defined.

Lemma pages_app ls ls' : pages (ls ++ ls') = pages ls + pages ls'.
Proof. unfold pages. induction ls as [|l ls IH]; simpl; lia. Qed.

Lemma pages_nonneg ls : Forall (λ l, 0 ≤ lf_size l) ls → 0 ≤ pages ls.
Proof. unfold pages. induction 1; simpl; [lia|]. unfold leaf_pages in *. dlia. Qed.

#[export] Instance pages_perm : Proper ((≡ₚ) ==> (=)) pages.
Proof. unfold pages. induction 1; simpl; lia. Qed.

(** ** The frame allocator of the mapper *)

(** From a state with [I a X] the allocator never hands out a frame of [X], nor the same
    frame twice: the safety contract of the crate's [FrameAllocator]. *)
Definition frame_source {A} (alloc : M A (option Z)) (I : A → gset Z → Prop) : Prop :=
  ∀ a X, I a X → ∃ o a', alloc a = Ret (o, a') ∧
    match o with
    | Some f => f ∉ X ∧ I a' ({[f]} ∪ X)
    | None => I a' X
    end.

(** The documented behaviour of the mapper on tables [mapper_ok pt]: they are 512
    entries long, their leaves are disjoint, and the operations change the leaves as
    their names say. *)
Class PageMapperLaws (T : Type) `{PageMapper T} := {
  mapper_ok : T → Prop;
  table_frames : T → gset Z;
  read_table_len : ∀ pt a, zlen (read_table pt a) = 512;
  leaves_aligned : ∀ pt l, mapper_ok pt → l ∈ leaves pt →
    lf_virt l mod lf_size l = 0 ∧ lf_size l ∈ [2 ^ 12; 2 ^ 21; 2 ^ 30] ∧ canonical (lf_virt l);
  leaves_disjoint : ∀ pt l l' ls v,
    mapper_ok pt → leaves pt ≡ₚ l :: l' :: ls → covers l v → ¬ covers l' v;
  leaves_bound : ∀ pt, mapper_ok pt → pages (leaves pt) ≤ 2 ^ 36;
  map_to_ok : ∀ {A} (alloc : M A (option Z)) I page frame flags pt a,
    frame_source alloc I → mapper_ok pt → I a (table_frames pt) →
    canonical page → page mod 4096 = 0 → frame mod 4096 = 0 → 0 ≤ frame < 2 ^ 52 →
    contains flags PRESENT = true →
    ∃ r pt' a', map_to alloc page frame flags (pt, a) = Ret (r, (pt', a')) ∧
      mapper_ok pt' ∧ I a' (table_frames pt') ∧
      match r with
      | Ok _ => leaves pt' ≡ₚ mkLeaf page frame 4096 flags :: leaves pt
      | Err (PageAlreadyMapped f) =>
          leaves pt' ≡ₚ leaves pt ∧ f = frame ∧ ∃ l, l ∈ leaves pt ∧ lf_virt l = page ∧ lf_size l = 4096
      | Err MapParentEntryHugePage =>
          leaves pt' ≡ₚ leaves pt ∧ ∃ l, l ∈ leaves pt ∧ covers l page ∧ lf_size l ≠ 4096
      | Err FrameAllocationFailed => leaves pt' ≡ₚ leaves pt
      end;
  unmap_ok : ∀ page pt,
    mapper_ok pt → canonical page → page mod 4096 = 0 →
    ∃ r pt', unmap page pt = Ret (r, pt') ∧ mapper_ok pt' ∧ table_frames pt' = table_frames pt ∧
      match r with
      | Ok frame => ∃ flags, leaves pt ≡ₚ mkLeaf page frame 4096 flags :: leaves pt'
      | Err UnmapParentEntryHugePage =>
          leaves pt' = leaves pt ∧ ∃ l, l ∈ leaves pt ∧ covers l page ∧ lf_size l ≠ 4096
      | Err PageNotMapped => leaves pt' = leaves pt ∧ ∀ l, l ∈ leaves pt → ¬ covers l page
      | Err (InvalidFrameAddress _) =>
          leaves pt' = leaves pt ∧ ∃ l, l ∈ leaves pt ∧ covers l page ∧ lf_phys l mod 4096 ≠ 0
      end;
  translate_ok : ∀ pt v l,
    mapper_ok pt → l ∈ leaves pt → covers l v →
    translate_page pt v = Some (lf_phys l + (v - lf_virt l), lf_flags l);
  translate_none : ∀ pt v,
    mapper_ok pt → (∀ l, l ∈ leaves pt → ¬ covers l v) → translate_page pt v = None;
}.
