(* ===== verification/Gdt.v ===== *)
(** * Segments (kernel/src/arch/gdt.rs)

    The descriptor table of the kernel, the task state segment, and the selectors the
    processes are entered with. The table itself belongs to the x86_64 crate. *)

From stdpp Require Import base numbers list gmap strings.
From S2P Require Import Prelude Paging.

#[local] Open Scope Z_scope.
#[local] Open Scope rust_scope.

Definition USER_CS : Z := 0x2B.
Definition USER_SS : Z := 0x23.

(** The descriptors the kernel appends. *)
Inductive Descriptor :=
  | kernel_code_segment
  | kernel_data_segment
  | tss_segment
  | user_data_segment
  | user_code_segment.

(** [GlobalDescriptorTable]: [append] returns the selector of the new entry. *)
Class GdtApi (G : Type) := {
  gdt_new : G;
  append : Descriptor → M G Z;
}.

(** The privilege level of a descriptor, and the entries it takes: the descriptor of a task
    state segment is a system descriptor of 16 bytes. *)
Definition ring_of (d : Descriptor) : Z :=
  match d with user_data_segment | user_code_segment => 3 | _ => 0 end.
Definition entries_of (d : Descriptor) : Z := match d with tss_segment => 2 | _ => 1 end.

(** The documented behaviour: a table starts with the null descriptor, has room for eight
    entries, and a selector is the index with the privilege level. *)
Class GdtLaws (G : Type) `{GdtApi G} := {
  gdt_len : G → Z;
  gdt_new_len : gdt_len gdt_new = 1;
  append_ok : ∀ d g, gdt_len g + entries_of d ≤ 8 →
    ∃ g', append d g = Ret (8 * gdt_len g + ring_of d, g') ∧ gdt_len g' = gdt_len g + entries_of d;
}.

Record KernelGdt (G : Type) := mkKernelGdt {
  gdt : G;
  code_selector : Z;
  data_selector : Z;
  tss_selector : Z;
  user_code_selector : Z;
  user_data_selector : Z;
}.
Arguments mkKernelGdt {G} _ _ _ _ _ _.
Arguments gdt {G} _.
Arguments code_selector {G} _.
Arguments data_selector {G} _.
Arguments tss_selector {G} _.
Arguments user_code_selector {G} _.
Arguments user_data_selector {G} _.

(** The [Lazy] initialiser of [GDT]. *)
Definition GDT `{GdtApi G} : outcome (KernelGdt G) :=
  '(sels, g) ← (code ← append kernel_code_segment;
                data ← append kernel_data_segment;
                tss ← append tss_segment;
                user_data ← append user_data_segment;
                user_code ← append user_code_segment;
                mret (code, data, tss, user_data, user_code)) gdt_new;
  let '(code, data, tss, user_data, user_code) := sels in
  mret (mkKernelGdt g code data tss user_code user_data).

(** The fields of the task state segment that the kernel sets. *)
Record Tss := mkTss { interrupt_stack_0 : Z; interrupt_stack_1 : Z; privilege_stack_0 : Z }.

(** The registers [init] loads: CS, DS and the task register. *)
Record Segments := mkSegments { reg_cs : Z; reg_ds : Z; reg_tr : Z }.

Definition gdt_init `{VirtAddrApi} `{GdtApi G} (tss : Tss) : outcome (Tss * Segments) :=
  ist0 ← VirtAddr_new 0x65000;
  ist1 ← VirtAddr_new 0x6A000;
  g ← GDT (G := G);
  mret (mkTss ist0 ist1 (privilege_stack_0 tss), mkSegments (code_selector g) (data_selector g) (tss_selector g)).

(** The selectors of the table: the user code segment has selector 0x33 and the user data
    segment 0x2B. The constants the initial frames use differ from them: [USER_CS] selects
    the data segment, and [USER_SS] the second half of the task state descriptor. *)
Theorem user_selectors_differ `{GdtLaws G} :
  ∃ g, GDT (G := G) = Ret g ∧
    code_selector g = 0x08 ∧ data_selector g = 0x10 ∧ tss_selector g = 0x18 ∧
    user_data_selector g = 0x2B ∧ user_code_selector g = 0x33 ∧
    USER_CS = user_data_selector g ∧ USER_SS / 8 = tss_selector g / 8 + 1.
Proof.
  unfold GDT. pose proof gdt_new_len as H1.
  destruct (append_ok kernel_code_segment gdt_new) as (g1 & E1 & L1); [cbn; lia|].
  destruct (append_ok kernel_data_segment g1) as (g2 & E2 & L2); [cbn in *; lia|].
  destruct (append_ok tss_segment g2) as (g3 & E3 & L3); [cbn in *; lia|].
  destruct (append_ok user_data_segment g3) as (g4 & E4 & L4); [cbn in *; lia|].
  destruct (append_ok user_code_segment g4) as (g5 & E5 & L5); [cbn in *; lia|].
  rewrite (bind_Ret _ _ _ _ _ E1), (bind_Ret _ _ _ _ _ E2), (bind_Ret _ _ _ _ _ E3),
    (bind_Ret _ _ _ _ _ E4), (bind_Ret _ _ _ _ _ E5).
  eexists. split; [reflexivity|]. cbn [code_selector data_selector tss_selector user_data_selector user_code_selector].
  cbn in *. rewrite L4, L3, L2, L1, H1. split_and!; reflexivity.
Qed.

(** The table itself: which descriptor starts at an index, as [append] puts it there. *)
Class GdtEntries (G : Type) `{GdtLaws G} := {
  gdt_at : G → Z → option Descriptor;
  gdt_at_append : ∀ d g sel g', append d g = Ret (sel, g') →
    gdt_at g' (gdt_len g) = Some d ∧ ∀ i, i < gdt_len g → gdt_at g' i = gdt_at g i;
}.

(** The table has seven entries, and [USER_CS] selects a data segment in it. *)
Lemma user_cs_entry `{GdtEntries G} :
  ∃ g, GDT (G := G) = Ret g ∧ gdt_len (gdt g) = 7 ∧ gdt_at (gdt g) (USER_CS / 8) = Some user_data_segment.
Proof.
  unfold GDT. pose proof gdt_new_len as H1'.
  destruct (append_ok kernel_code_segment gdt_new) as (g1 & E1 & L1); [cbn; lia|].
  destruct (append_ok kernel_data_segment g1) as (g2 & E2 & L2); [cbn in *; lia|].
  destruct (append_ok tss_segment g2) as (g3 & E3 & L3); [cbn in *; lia|].
  destruct (append_ok user_data_segment g3) as (g4 & E4 & L4); [cbn in *; lia|].
  destruct (append_ok user_code_segment g4) as (g5 & E5 & L5); [cbn in *; lia|].
  rewrite (bind_Ret _ _ _ _ _ E1), (bind_Ret _ _ _ _ _ E2), (bind_Ret _ _ _ _ _ E3),
    (bind_Ret _ _ _ _ _ E4), (bind_Ret _ _ _ _ _ E5).
  eexists. split; [reflexivity|]. cbn [gdt]. cbn in *. split; [lia|].
  destruct (gdt_at_append _ _ _ _ E4) as [H4 _]. destruct (gdt_at_append _ _ _ _ E5) as [_ H5].
  change (USER_CS / 8) with 5. rewrite H5 by lia. by replace 5 with (gdt_len g3) by lia.
Qed.

(** A table that only counts its entries. *)
#[export] Instance counting_gdt : GdtApi Z := {
  gdt_new := 1;
  append d n := if n + entries_of d <=? 8 then Ret (8 * n + ring_of d, n + entries_of d) else Panic;
}.

#[export] Instance counting_gdt_laws : GdtLaws Z.
Proof.
  refine {| gdt_len := λ n, n |}; [done|]. intros d n Hn. exists (n + entries_of d). cbn.
  by destruct (Z.leb_spec (n + entries_of d) 8); [|lia].
Defined.

Lemma user_selectors_differ_witness :
  ∃ g, GDT (G := Z) = Ret g ∧ user_code_selector g = 0x33 ∧ USER_CS = user_data_selector g.
Proof.
  destruct (user_selectors_differ (G := Z)) as (g & Hg & _ & _ & _ & _ & Hc & Hd & _). by exists g.
Defined.

(** A table that lists its entries. *)
#[export] Instance listed_gdt : GdtApi (list (option Descriptor)) := {
  gdt_new := [None];
  append d l :=
    if zlen l + entries_of d <=? 8
    then Ret (8 * zlen l + ring_of d, l ++ Some d :: zrepeat (entries_of d - 1) None) else Panic;
}.

#[export] Instance listed_gdt_laws : GdtLaws (list (option Descriptor)).
Proof.
  refine {| gdt_len := zlen |}; [done|]. intros d l Hl. cbn. destruct (Z.leb_spec (zlen l + entries_of d) 8); [|lia].
  eexists. split; [reflexivity|]. rewrite zlen_app, zlen_cons, zlen_repeat by (by destruct d). lia.
Defined.

#[export] Instance listed_gdt_entries : GdtEntries (list (option Descriptor)).
Proof.
  refine {| gdt_at l i := if 0 <=? i then mjoin (l !! Z.to_nat i) else None |}.
  intros d l sel l'. cbn. destruct (zlen l + entries_of d <=? 8); [|done]. intros [= _ <-]. pose proof (zlen_nonneg l).
  split.
  - destruct (Z.leb_spec 0 (zlen l)); [|lia]. unfold zlen. rewrite Nat2Z.id. by rewrite list_lookup_middle.
  - intros i Hi. destruct (Z.leb_spec 0 i); [|done]. by rewrite lookup_app_l by (unfold zlen in Hi; lia).
Defined.
