(* ===== verification/Machine.v ===== *)
(** * The processor, as the assembly of the kernel uses it

    Memory of bytes and the tables over it, the general registers, the instructions that
    occur in the [asm!] blocks of process/context.rs and process/syscall.rs, and what the
    processor does on [int 0x80] and [iretq]. These routines run on stacks that are mapped
    where they lie, so that their instructions read memory directly; UserMode.v goes
    through the tables. *)

From stdpp Require Import base numbers list gmap strings.
From S2P Require Import Prelude Regions.

#[local] Open Scope Z_scope.
#[local] Open Scope rust_scope.

(** ** Memory *)

(** The bytes by their address. *)
Definition Memory : Type := Z → Z.

Definition load (m : Memory) (a n : Z) : list Z := m <$> range a (a + n).
Definition store (m : Memory) (a : Z) (l : list Z) : Memory := λ x,
  if (a <=? x) && (x <? a + zlen l) then l !!! Z.to_nat (x - a) else m x.

(** [*(a as *const u64)] and [*(a as *mut u64) = v] *)
Definition rd64 (m : Memory) (a : Z) : Z := read_le m 8 a.
Definition wr64 (m : Memory) (a v : Z) : Memory := store m a (le_bytes 8 v).

(** [ptr::write_bytes(a, 0, n)] *)
Definition zero_bytes (m : Memory) (a n : Z) : Memory := store m a (zrepeat n 0).

Lemma store_other m a l x : x < a ∨ a + zlen l ≤ x → store m a l x = m x.
Proof.
  intros Hx. unfold store. destruct (Z.leb_spec a x), (Z.ltb_spec x (a + zlen l)); cbn; (lia || done).
Qed.

Lemma store_at m a l x : a ≤ x < a + zlen l → store m a l x = l !!! Z.to_nat (x - a).
Proof. intros Hx. unfold store. destruct (Z.leb_spec a x), (Z.ltb_spec x (a + zlen l)); cbn; (lia || done). Qed.

Lemma load_ext m m' a n : (∀ x, a ≤ x < a + n → m x = m' x) → load m a n = load m' a n.
Proof.
  intros Hm. unfold load. apply list_fmap_ext. intros i x Hx.
  apply Hm, elem_of_range. by eapply list_elem_of_lookup_2.
Qed.

Lemma rd64_load m a : rd64 m a = le_val (load m a 8).
Proof. unfold rd64, read_le, load, range. by replace (a + 8 - a) with 8 by lia. Qed.

Lemma load_store_same m a l : load (store m a l) a (zlen l) = l.
Proof.
  unfold load. apply list_eq. intros i. rewrite list_lookup_fmap.
  destruct (decide (i < length l)%nat) as [Hi|Hi].
  - unfold range. rewrite lookup_seqZ_lt by (unfold zlen; lia). cbn [fmap option_fmap option_map].
    rewrite store_at by (unfold zlen; lia). replace (Z.to_nat (a + Z.of_nat i - a)) with i by lia.
    symmetry. by apply list_lookup_lookup_total_lt.
  - rewrite (lookup_ge_None_2 l) by lia. unfold range. rewrite lookup_seqZ_ge by (unfold zlen; lia). done.
Qed.

Lemma rd64_ext m m' a : (∀ x, a ≤ x < a + 8 → m x = m' x) → rd64 m a = rd64 m' a.
Proof. intros Hm. rewrite !rd64_load. f_equal. by apply load_ext. Qed.

Lemma rd64_same m a v : 0 ≤ v < 2 ^ 64 → rd64 (wr64 m a v) a = v.
Proof.
  intros Hv. rewrite rd64_load. unfold wr64. pose proof (load_store_same m a (le_bytes 8 v)) as Hl.
  rewrite zlen_le_bytes in Hl. change (Z.of_nat 8) with 8 in Hl. rewrite Hl. apply le_val_bytes.
  change (256 ^ Z.of_nat 8) with (2 ^ 64). lia.
Qed.

Lemma wr64_other m a v x : x < a ∨ a + 8 ≤ x → wr64 m a v x = m x.
Proof. intros Hx. apply store_other. rewrite zlen_le_bytes. lia. Qed.

Lemma rd64_other m a v b : b + 8 ≤ a ∨ a + 8 ≤ b → rd64 (wr64 m a v) b = rd64 m b.
Proof. intros Hb. apply rd64_ext. intros x Hx. apply wr64_other. lia. Qed.

(** The words from [a] upwards. *)
Fixpoint words_at (m : Memory) (a : Z) (l : list Z) : Prop :=
  match l with
  | [] => True
  | v :: l => rd64 m a = v ∧ words_at m (a + 8) l
  end.

Lemma words_at_app m a l k : words_at m a (l ++ k) ↔ words_at m a l ∧ words_at m (a + 8 * zlen l) k.
Proof.
  revert a. induction l as [|v l IH]; intros a; cbn [words_at app].
  - change (zlen []) with 0. rewrite Z.mul_0_r, Z.add_0_r. tauto.
  - rewrite IH, zlen_cons. replace (a + 8 * (1 + zlen l)) with (a + 8 + 8 * zlen l) by lia. tauto.
Qed.

Lemma words_at_ext m m' a l :
  (∀ x, a ≤ x < a + 8 * zlen l → m x = m' x) → words_at m a l → words_at m' a l.
Proof.
  revert a. induction l as [|v l IH]; intros a Hm; cbn [words_at]; [done|]. rewrite zlen_cons in Hm.
  pose proof (zlen_nonneg l). intros [Hv Hl]. split.
  - rewrite <- Hv. symmetry. apply rd64_ext. intros x Hx. apply Hm. lia.
  - apply IH; [|done]. intros x Hx. apply Hm. lia.
Qed.

Lemma words_at_get m a l i : 0 ≤ i < zlen l → words_at m a l → rd64 m (a + 8 * i) = l !!! Z.to_nat i.
Proof.
  revert a i. induction l as [|v l IH]; intros a i Hi; [unfold zlen in Hi; cbn in Hi; lia|].
  rewrite zlen_cons in Hi. intros [Hv Hl]. destruct (decide (i = 0)) as [->|].
  - by rewrite Z.mul_0_r, Z.add_0_r.
  - replace (a + 8 * i) with (a + 8 + 8 * (i - 1)) by lia. rewrite IH by (lia || done).
    by replace (Z.to_nat i) with (S (Z.to_nat (i - 1))) by lia.
Qed.

(** ** Paging *)

(** The tables of long mode, as the processor walks them from [cr3]: every entry must have
    the flags [need]; one with the PS bit ends the walk at the third and second level. *)
Definition walk (need : Z) (m : Memory) (root a : Z) : option Z :=
  let entry table level := rd64 m (Z.land table 0x000FFFFFFFFFF000 + 8 * (a / 2 ^ (12 + 9 * level) mod 512)) in
  let ok e := Z.land e need =? need in
  let e4 := entry root 3 in
  if negb (ok e4) then None else
  let e3 := entry e4 2 in
  if negb (ok e3) then None else
  if Z.testbit e3 7 then Some (Z.land e3 0x000FFFFFC0000000 + a mod 2 ^ 30) else
  let e2 := entry e3 1 in
  if negb (ok e2) then None else
  if Z.testbit e2 7 then Some (Z.land e2 0x000FFFFFFFE00000 + a mod 2 ^ 21) else
  let e1 := entry e2 0 in
  if negb (ok e1) then None else Some (Z.land e1 0x000FFFFFFFFFF000 + a mod 2 ^ 12).

(** Present for a read; present and writable for a write. *)
Definition FOR_READ : Z := 1.
Definition FOR_WRITE : Z := 3.

(** ** Registers and instructions *)

Inductive reg :=
  | RAX | RBX | RCX | RDX | RSI | RDI | RBP | R8 | R9 | R10 | R11 | R12 | R13 | R14 | R15 | RSP.

#[export] Instance reg_eq_dec : EqDecision reg.
Proof. solve_decision. Defined.

Record Cpu := mkCpu { regs : reg → Z; memory : Memory }.

Definition set_reg (r : reg) (v : Z) (c : Cpu) : Cpu :=
  mkCpu (λ r', if decide (r = r') then v else regs c r') (memory c).
Definition set_mem (m : Memory) (c : Cpu) : Cpu := mkCpu (regs c) m.

(** The instructions, with [\[base + off\]] operands. *)
Inductive instr :=
  | Push (r : reg)
  | Pop (r : reg)
  | Mov (r r' : reg)
  | Load (r base : reg) (off : Z)
  | Store (base : reg) (off : Z) (r : reg)
  | Lea (r base : reg) (off : Z)
  | LoadAbs (r : reg) (addr : Z).

Definition exec (i : instr) (c : Cpu) : Cpu :=
  match i with
  | Push r =>
      let sp := regs c RSP -₆₄ 8 in
      set_reg RSP sp (set_mem (wr64 (memory c) sp (regs c r)) c)
  | Pop r =>
      let v := rd64 (memory c) (regs c RSP) in
      set_reg r v (set_reg RSP (regs c RSP +₆₄ 8) c)
  | Mov r r' => set_reg r (regs c r') c
  | Load r base off => set_reg r (rd64 (memory c) (regs c base +₆₄ off)) c
  | Store base off r => set_mem (wr64 (memory c) (regs c base +₆₄ off) (regs c r)) c
  | Lea r base off => set_reg r (regs c base +₆₄ off) c
  | LoadAbs r addr => set_reg r (rd64 (memory c) addr) c
  end.

Definition run (l : list instr) (c : Cpu) : Cpu := foldl (λ c i, exec i c) c l.

Lemma run_app l k c : run (l ++ k) c = run k (run l c).
Proof. apply foldl_app. Qed.

(** What [iretq] loads, and what an interrupt saves. *)
Record Frame := mkFrame { f_rip : Z; f_cs : Z; f_rflags : Z; f_rsp : Z; f_ss : Z }.

(** Where the code leaves the routine: [iretq], or [ret] to the address on the stack. *)
Inductive transfer :=
  | Iret (frame : Frame) (c : Cpu)
  | RetTo (rip : Z) (c : Cpu).

(** The frame that [iretq] finds. The processor then checks its selectors against the descriptor
    table: those of interrupted code it loaded itself before, so that they pass; those of a
    new process are checked in UserMode.v. *)
Definition iretq (c : Cpu) : transfer :=
  let w i := rd64 (memory c) (regs c RSP +₆₄ 8 * i) in
  let f := mkFrame (w 0) (w 1) (w 2) (w 3) (w 4) in
  Iret f (set_reg RSP (f_rsp f) c).

Definition ret (c : Cpu) : transfer :=
  RetTo (rd64 (memory c) (regs c RSP)) (set_reg RSP (regs c RSP +₆₄ 8) c).

(** [int n] in ring 3: the processor switches to the stack at [rsp0] and pushes the frame
    of the interrupted code, which runs with code segment [cs] and stack segment [ss]. *)
Definition interrupt (rsp0 rip cs rflags ss : Z) (c : Cpu) : Cpu :=
  let push v c := set_reg RSP (regs c RSP -₆₄ 8) (set_mem (wr64 (memory c) (regs c RSP -₆₄ 8) v) c) in
  push rip (push cs (push rflags (push (regs c RSP) (push ss (set_reg RSP rsp0 c))))).

(** The words of a frame, from the lowest address. *)
Definition frame_words (f : Frame) : list Z := [f_rip f; f_cs f; f_rflags f; f_rsp f; f_ss f].

Definition u64 (v : Z) : Prop := 0 ≤ v < 2 ^ 64.

(** ** Stack discipline *)

Lemma regs_set_same r v c : regs (set_reg r v c) r = v.
Proof. unfold set_reg. cbn [regs]. by rewrite decide_True. Qed.

Lemma regs_set_other r r' v c : r ≠ r' → regs (set_reg r v c) r' = regs c r'.
Proof. intros Hr. unfold set_reg. cbn [regs]. by rewrite decide_False. Qed.

Definition stack_holds (c : Cpu) (l : list Z) : Prop := words_at (memory c) (regs c RSP) l.

Lemma words_at_push m a v l :
  u64 v → words_at m a l → words_at (wr64 m (a - 8) v) (a - 8) (v :: l).
Proof.
  intros Hv Hl. cbn [words_at]. split; [by apply rd64_same|]. replace (a - 8 + 8) with a by lia.
  eapply words_at_ext; [|exact Hl]. intros x Hx. symmetry. apply wr64_other. lia.
Qed.

(** Pushing the registers [rs] in order. *)
Lemma push_all rs c l :
  RSP ∉ rs → (∀ r, r ∈ rs → u64 (regs c r)) → 8 * zlen rs ≤ regs c RSP < 2 ^ 64 → stack_holds c l →
  let c' := run (Push <$> rs) c in
  regs c' RSP = regs c RSP - 8 * zlen rs ∧
  (∀ r, r ≠ RSP → regs c' r = regs c r) ∧
  stack_holds c' (rev (regs c <$> rs) ++ l) ∧
  (∀ x, x < regs c' RSP ∨ regs c RSP ≤ x → memory c' x = memory c x).
Proof.
  revert c l. induction rs as [|r rs IH]; intros c l Hsp Hv Hr Hl; cbn zeta.
  { change (zlen []) with 0. cbn. split_and!; [lia|done|done|done]. }
  rewrite zlen_cons in *. pose proof (zlen_nonneg rs). apply not_elem_of_cons in Hsp as [Hne Hsp].
  cbn [fmap list_fmap run foldl]. fold (run (Push <$> rs) (exec (Push r) c)).
  set (c1 := exec (Push r) c).
  assert (H1 : regs c1 RSP = regs c RSP - 8).
  { unfold c1. cbn [exec]. rewrite regs_set_same. nowrap. done. }
  assert (Hk : ∀ r', r' ≠ RSP → regs c1 r' = regs c r').
  { intros r' Hr'. unfold c1. cbn [exec]. by rewrite regs_set_other. }
  assert (Hm : memory c1 = wr64 (memory c) (regs c RSP - 8) (regs c r)).
  { unfold c1. cbn [exec set_reg set_mem memory]. by nowrap. }
  destruct (IH c1 (regs c r :: l)) as (Hrsp & Hregs & Hst & Hout).
  - done.
  - intros r' Hr'. rewrite Hk by (intros ->; done). apply Hv. by right.
  - lia.
  - unfold stack_holds. rewrite H1, Hm. apply words_at_push; [|done]. apply Hv. by left.
  - split_and!.
    + rewrite Hrsp. lia.
    + intros r' Hr'. rewrite Hregs, Hk by done. done.
    + assert (regs c1 <$> rs = regs c <$> rs) as Heq.
      { apply list_fmap_ext. intros i x Hx. apply Hk. intros ->. by eapply Hsp, list_elem_of_lookup_2. }
      rewrite Heq in Hst.
      cbn [rev]. by rewrite <- app_assoc.
    + intros x Hx. rewrite Hout by lia. rewrite Hm. apply wr64_other. lia.
Qed.

(** Popping into the registers [rs] in order. *)
Lemma pop_all rs c vs l :
  RSP ∉ rs → NoDup rs → length vs = length rs →
  0 ≤ regs c RSP → regs c RSP + 8 * zlen rs < 2 ^ 64 → stack_holds c (vs ++ l) →
  let c' := run (Pop <$> rs) c in
  regs c' RSP = regs c RSP + 8 * zlen rs ∧
  (regs c' <$> rs) = vs ∧
  (∀ r, r ∉ rs → r ≠ RSP → regs c' r = regs c r) ∧
  memory c' = memory c ∧ stack_holds c' l.
Proof.
  revert c vs. induction rs as [|r rs IH]; intros c vs Hsp Hnd Hlen Hlo Hhi Hst; cbn zeta.
  { destruct vs; [|done]. change (zlen []) with 0. cbn. split_and!; (done || lia). }
  destruct vs as [|v vs]; [done|]. rewrite zlen_cons in *. pose proof (zlen_nonneg rs).
  apply not_elem_of_cons in Hsp as [Hne Hsp]. apply NoDup_cons in Hnd as [Hin Hnd].
  destruct Hst as [Hv Hst]. cbn [fmap list_fmap run foldl]. fold (run (Pop <$> rs) (exec (Pop r) c)).
  set (c1 := exec (Pop r) c).
  assert (H1 : regs c1 RSP = regs c RSP + 8).
  { unfold c1. cbn [exec]. rewrite regs_set_other, regs_set_same by done. by nowrap. }
  assert (Hr : regs c1 r = v) by (unfold c1; cbn [exec]; rewrite regs_set_same; done).
  assert (Hk : ∀ r', r' ≠ r → r' ≠ RSP → regs c1 r' = regs c r').
  { intros r' ??. unfold c1. cbn [exec]. by rewrite !regs_set_other. }
  destruct (IH c1 vs) as (Hrsp & Hvs & Hregs & Hm & Hl); [done|done| |lia|lia| |].
  - cbn in Hlen. lia.
  - unfold stack_holds. rewrite H1. done.
  - split_and!.
    + rewrite Hrsp. lia.
    + rewrite Hvs. f_equal. rewrite <- Hr. by apply Hregs.
    + intros r' Hr'. apply not_elem_of_cons in Hr' as [Hr' Hr'']. intros. by rewrite Hregs, Hk.
    + by rewrite Hm.
    + done.
Qed.

(** [iretq] on a stack that starts with a frame. *)
Lemma iretq_frame c f l :
  0 ≤ regs c RSP → regs c RSP + 40 < 2 ^ 64 → stack_holds c (frame_words f ++ l) →
  iretq c = Iret f (set_reg RSP (f_rsp f) c).
Proof.
  intros Hlo Hhi Hst. unfold stack_holds in Hst.
  assert (Hw : ∀ i, 0 ≤ i < 5 → rd64 (memory c) (regs c RSP +₆₄ 8 * i) = frame_words f !!! Z.to_nat i).
  { intros i Hi. nowrap. apply words_at_app in Hst as [Hst _]. by apply (words_at_get _ _ (frame_words f)). }
  unfold iretq. rewrite !Hw by lia. by destruct f.
Qed.

(** What the processor leaves on the stack of the handler. *)
Lemma interrupt_frame rsp0 rip cs rflags ss c :
  40 ≤ rsp0 < 2 ^ 64 → u64 rip → u64 cs → u64 rflags → u64 ss → u64 (regs c RSP) →
  let c' := interrupt rsp0 rip cs rflags ss c in
  regs c' RSP = rsp0 - 40 ∧ (∀ r, r ≠ RSP → regs c' r = regs c r) ∧
  stack_holds c' (frame_words (mkFrame rip cs rflags (regs c RSP) ss)) ∧
  (∀ x, x < rsp0 - 40 ∨ rsp0 ≤ x → memory c' x = memory c x).
Proof.
  intros H0 Hrip Hcs Hfl Hss Hsp. cbn zeta. unfold interrupt, stack_holds. cbn zeta.
  cbn [set_reg set_mem regs memory]. cbn [decide decide_rel reg_eq_dec].
  rewrite ?(decide_True (P := RSP = RSP)) by done. nowrap. split_and!.
  - lia.
  - intros r Hr. by rewrite ?(decide_False (P := RSP = r)) by done.
  - replace (rsp0 - 8 - 8 - 8 - 8 - 8) with (rsp0 - 8 - 8 - 8 - 8 - 8) by lia.
    do 5 (apply words_at_push; [done|]). done.
  - intros x Hx. rewrite !wr64_other by lia. done.
Qed.
