(* ===== verification/Context.v ===== *)
(** * Saved contexts and the syscall entry (kernel/src/process/context.rs, syscall.rs)

    The naked assembly routines, instruction by instruction, and what they keep:
    a syscall returns to the interrupted code with its registers, and a switch
    resumes the other process where its own context was saved. *)

From stdpp Require Import base numbers list gmap strings.
From S2P Require Import Prelude Regions Machine.

#[local] Open Scope Z_scope.
#[local] Open Scope rust_scope.

(** The general registers in the order of the pushes, and of the pops. *)
Definition push_order : list reg :=
  [RAX; RBX; RCX; RDX; RSI; RDI; RBP; R8; R9; R10; R11; R12; R13; R14; R15].
Definition pop_order : list reg :=
  [R15; R14; R13; R12; R11; R10; R9; R8; RBP; RDI; RSI; RDX; RCX; RBX; RAX].

Definition push_gprs : list instr := Push <$> push_order.
Definition pop_gprs : list instr := Pop <$> pop_order.

(** ** The syscall entry *)

Definition SYS_WRITE : Z := 1.
Definition SYS_EXIT : Z := 2.
Definition SYS_YIELD : Z := 3.

Section SyscallEntry.

(** [dispatch] is the machine code of [syscall_dispatch], from the call to its return;
    the other two are the addresses of the statics. *)
Context (dispatch : Cpu → Cpu) (exit_flag shell_rsp : Z).

(** The arguments, out of the saved registers. *)
Definition syscall_args : list instr :=
  [Load RDI RSP (14 * 8); Load RSI RSP (9 * 8); Load RDX RSP (10 * 8); Load RCX RSP (11 * 8)].

Definition syscall_entry (c : Cpu) : transfer :=
  let c := run (push_gprs ++ syscall_args) c in
  let c := dispatch c in
  if negb (memory c exit_flag =? 0) then ret (exec (LoadAbs RSP shell_rsp) c)
  else iretq (run (Store RSP (14 * 8) RAX :: pop_gprs) c).

End SyscallEntry.

(** ** Context switching *)

(** The [repr(C)] structure: twenty words. *)
Record Context := mkContext {
  ctx_r15 : Z; ctx_r14 : Z; ctx_r13 : Z; ctx_r12 : Z; ctx_r11 : Z; ctx_r10 : Z; ctx_r9 : Z; ctx_r8 : Z;
  ctx_rbp : Z; ctx_rdi : Z; ctx_rsi : Z; ctx_rdx : Z; ctx_rcx : Z; ctx_rbx : Z; ctx_rax : Z;
  ctx_rip : Z; ctx_cs : Z; ctx_rflags : Z; ctx_rsp : Z; ctx_ss : Z;
}.

Definition context_words (x : Context) : list Z :=
  [ctx_r15 x; ctx_r14 x; ctx_r13 x; ctx_r12 x; ctx_r11 x; ctx_r10 x; ctx_r9 x; ctx_r8 x;
   ctx_rbp x; ctx_rdi x; ctx_rsi x; ctx_rdx x; ctx_rcx x; ctx_rbx x; ctx_rax x;
   ctx_rip x; ctx_cs x; ctx_rflags x; ctx_rsp x; ctx_ss x].

(** The assembly block of [save_context], entered with [rdi = ctx]. *)
Definition save_context : list instr :=
  [Store RDI (0*8) R15; Store RDI (1*8) R14; Store RDI (2*8) R13; Store RDI (3*8) R12;
   Store RDI (4*8) R11; Store RDI (5*8) R10; Store RDI (6*8) R9; Store RDI (7*8) R8;
   Store RDI (8*8) RBP; Store RDI (9*8) RDI; Store RDI (10*8) RSI; Store RDI (11*8) RDX;
   Store RDI (12*8) RCX; Store RDI (13*8) RBX; Store RDI (14*8) RAX;
   Load R8 RSP (15*8); Store RDI (15*8) R8; Load R8 RSP (16*8); Store RDI (16*8) R8;
   Load R8 RSP (17*8); Store RDI (17*8) R8; Load R8 RSP (18*8); Store RDI (18*8) R8;
   Load R8 RSP (19*8); Store RDI (19*8) R8].

Definition restore_context_code : list instr :=
  [Load R15 RDI (0*8); Load R14 RDI (1*8); Load R13 RDI (2*8); Load R12 RDI (3*8);
   Load R11 RDI (4*8); Load R10 RDI (5*8); Load R9 RDI (6*8); Load R8 RDI (7*8);
   Load RBP RDI (8*8); Load RSI RDI (10*8); Load RDX RDI (11*8); Load RCX RDI (12*8);
   Load RBX RDI (13*8); Load RAX RDI (14*8); Lea RSP RDI (15*8); Load RDI RDI (9*8)].

Definition restore_context (c : Cpu) : transfer := iretq (run restore_context_code c).

(** [switch_context(old_rsp_ptr, new_rsp)]: the arguments are in [rdi] and [rsi]. *)
Definition switch_context (c : Cpu) : transfer :=
  iretq (run (Store RDI 0 RSP :: Mov RSP RSI :: pop_gprs) c).

(** ** What they keep *)

(** The general registers of a context, by name. *)
Definition ctx_gprs (x : Context) : list Z :=
  [ctx_r15 x; ctx_r14 x; ctx_r13 x; ctx_r12 x; ctx_r11 x; ctx_r10 x; ctx_r9 x; ctx_r8 x;
   ctx_rbp x; ctx_rdi x; ctx_rsi x; ctx_rdx x; ctx_rcx x; ctx_rbx x; ctx_rax x].
Definition ctx_frame (x : Context) : Frame :=
  mkFrame (ctx_rip x) (ctx_cs x) (ctx_rflags x) (ctx_rsp x) (ctx_ss x).

Lemma context_words_split x : context_words x = ctx_gprs x ++ frame_words (ctx_frame x).
Proof. done. Qed.

(** The context of a processor about to leave for ring 3 with frame [f]. *)
Definition context_of (g : reg → Z) (f : Frame) : Context :=
  mkContext (g R15) (g R14) (g R13) (g R12) (g R11) (g R10) (g R9) (g R8)
    (g RBP) (g RDI) (g RSI) (g RDX) (g RCX) (g RBX) (g RAX)
    (f_rip f) (f_cs f) (f_rflags f) (f_rsp f) (f_ss f).

Lemma ctx_gprs_of g f : ctx_gprs (context_of g f) = g <$> pop_order.
Proof. done. Qed.

Lemma pop_order_nodup : NoDup pop_order.
Proof. by apply (bool_decide_unpack _). Qed.

Lemma pop_order_rsp : RSP ∉ pop_order.
Proof. by apply (bool_decide_unpack _). Qed.

Lemma gpr_in_order r : r ≠ RSP → r ∈ pop_order.
Proof. intros Hr. destruct r; (done || by apply (bool_decide_unpack _)). Qed.

(** Two register files that agree on the list agree on every general register. *)
Lemma gprs_ext (g g' : reg → Z) : g <$> pop_order = g' <$> pop_order → ∀ r, r ≠ RSP → g r = g' r.
Proof.
  intros Heq r Hr. apply gpr_in_order in Hr. revert Heq Hr. generalize pop_order.
  intros l. induction l as [|x l IH]; intros Heq Hin; [by apply elem_of_nil in Hin|].
  cbn in Heq. injection Heq as Hx Hl. apply elem_of_cons in Hin as [->|Hin]; auto.
Qed.

(** Popping a context and leaving: the registers and the frame are those of the context. *)
Lemma pop_context x c l :
  0 ≤ regs c RSP → regs c RSP + 160 < 2 ^ 64 → stack_holds c (context_words x ++ l) →
  ∃ c', iretq (run pop_gprs c) = Iret (ctx_frame x) c' ∧
    (regs c' <$> pop_order) = ctx_gprs x ∧ regs c' RSP = ctx_rsp x ∧ memory c' = memory c.
Proof.
  intros Hlo Hhi Hst. rewrite context_words_split, <- app_assoc in Hst.
  assert (zlen pop_order = 15) as H15 by reflexivity.
  destruct (pop_all pop_order c (ctx_gprs x) (frame_words (ctx_frame x) ++ l)) as (Hsp & Hv & _ & Hm & Hl);
    [apply pop_order_rsp|apply pop_order_nodup|done|done|lia|done|]. cbn zeta in *.
  fold pop_gprs in *. rewrite H15 in Hsp.
  exists (set_reg RSP (f_rsp (ctx_frame x)) (run pop_gprs c)).
  rewrite (iretq_frame _ (ctx_frame x) l) by (done || lia). split_and!; [done| | |exact Hm].
  - rewrite <- Hv. apply list_fmap_ext. intros i r Hr. apply regs_set_other. intros <-.
    eapply pop_order_rsp, list_elem_of_lookup_2, Hr.
  - apply regs_set_same.
Qed.

(** The pushes of an interrupt routine leave the context of the interrupted code. *)
Lemma push_context c f l :
  (∀ r, u64 (regs c r)) → 120 ≤ regs c RSP → stack_holds c (frame_words f ++ l) →
  let c' := run push_gprs c in
  regs c' RSP = regs c RSP - 120 ∧ (∀ r, r ≠ RSP → regs c' r = regs c r) ∧
  stack_holds c' (context_words (context_of (regs c) f) ++ l) ∧
  (∀ x, x < regs c' RSP ∨ regs c RSP ≤ x → memory c' x = memory c x).
Proof.
  intros Hv Hsp Hst. pose proof (Hv RSP) as Hr. unfold u64 in Hr.
  assert (zlen push_order = 15) as H15 by reflexivity.
  pose proof (push_all push_order c (frame_words f ++ l)) as Hp. cbn zeta in *.
  destruct Hp as (H1 & H2 & H3 & H4); [by apply (bool_decide_unpack _)|auto|lia|done|].
  fold push_gprs in *. rewrite H15 in H1. split_and!; [lia|done| |done].
  rewrite context_words_split, <- app_assoc, ctx_gprs_of.
  exact H3.
Qed.

(** [reg_simpl] reads a register through assignments. *)
Ltac reg_simpl :=
  repeat first [rewrite regs_set_same | rewrite regs_set_other by discriminate].

Lemma syscall_args_run c (w : Z → Z) :
  (∀ i, rd64 (memory c) (regs c RSP +₆₄ i * 8) = w i) →
  let d := run syscall_args c in
  memory d = memory c ∧ regs d RSP = regs c RSP ∧
  regs d RDI = w 14 ∧ regs d RSI = w 9 ∧ regs d RDX = w 10 ∧ regs d RCX = w 11.
Proof.
  intros Hw. cbn zeta. unfold run, syscall_args. cbn [foldl exec].
  split_and!; [reflexivity| | | | |]; reg_simpl; try reflexivity.
  - exact (Hw 14).
  - exact (Hw 9).
  - exact (Hw 10).
  - exact (Hw 11).
Qed.

(** Writing the slot of [rax] of a saved context changes that register only. *)
Lemma rax_stored m sp g f v :
  u64 v → words_at m sp (context_words (context_of g f)) →
  words_at (wr64 m (sp + 14 * 8) v) sp (context_words (context_of (λ r, if decide (r = RAX) then v else g r) f)).
Proof.
  intros Hv Hst. rewrite context_words_split in Hst |- *. rewrite ctx_gprs_of in Hst |- *.
  change (?g <$> pop_order) with ((g <$> take 14 pop_order) ++ [g RAX]) in Hst |- *.
  rewrite <- !app_assoc, !words_at_app in Hst |- *. destruct Hst as (Hlow & Hra & Hfr).
  change (zlen (?g <$> take 14 pop_order)) with 14 in *. change (zlen [_]) with 1 in *. split_and!.
  - eapply words_at_ext; [|exact Hlow]. intros z Hz. symmetry. apply wr64_other.
    change (zlen (_ <$> take 14 pop_order)) with 14 in Hz. lia.
  - cbn [words_at]. split; [|done]. replace (sp + 8 * 14) with (sp + 14 * 8) by lia.
    cbn [decide decide_rel reg_eq_dec]. rewrite rd64_same by done. done.
  - eapply words_at_ext; [|exact Hfr]. intros z Hz. symmetry. apply wr64_other. lia.
Qed.

(** What a routine compiled for the System V ABI keeps for this caller: the stack pointer
    and the caller's part of the stack, here the context of the interrupted process. *)
Record abi_call (c c' : Cpu) : Prop := {
  abi_rsp : regs c' RSP = regs c RSP;
  abi_stack : ∀ x, regs c RSP ≤ x < regs c RSP + 160 → memory c' x = memory c x;
  abi_u64 : u64 (regs c' RAX);
}.

(** The processor at the call of the dispatcher, for code interrupted in [c]. *)
Definition syscall_call (rsp0 rip cs rflags ss : Z) (c : Cpu) : Cpu :=
  run (push_gprs ++ syscall_args) (interrupt rsp0 rip cs rflags ss c).

(** C12. A syscall that does not end the process returns to the instruction after [int 0x80]
    with the caller's code, flags and stack, the result of the dispatcher in [rax] and
    every other register as it was. The dispatcher is called with the caller's [rax],
    [rdi], [rsi] and [rdx] as its arguments. *)
Theorem syscall_preserves_registers dispatch exit_flag shell_rsp c rsp0 rip cs rflags ss :
  160 ≤ rsp0 < 2 ^ 63 → (∀ r, u64 (regs c r)) → u64 rip → u64 cs → u64 rflags → u64 ss →
  let d := syscall_call rsp0 rip cs rflags ss c in
  abi_call d (dispatch d) → memory (dispatch d) exit_flag = 0 →
  ∃ c', syscall_entry dispatch exit_flag shell_rsp (interrupt rsp0 rip cs rflags ss c) =
      Iret (mkFrame rip cs rflags (regs c RSP) ss) c' ∧
    regs d RDI = regs c RAX ∧ regs d RSI = regs c RDI ∧
    regs d RDX = regs c RSI ∧ regs d RCX = regs c RDX ∧
    regs c' RAX = regs (dispatch d) RAX ∧ regs c' RSP = regs c RSP ∧
    (∀ r, r ≠ RAX → r ≠ RSP → regs c' r = regs c r).
Proof.
  intros H0 Hv Hrip Hcs Hfl Hss d Habi Hexit.
  destruct (interrupt_frame rsp0 rip cs rflags ss c) as (Hsp & Hregs & Hst & _);
    [lia|done|done|done|done|apply Hv|].
  set (ci := interrupt rsp0 rip cs rflags ss c) in *. set (f := mkFrame rip cs rflags (regs c RSP) ss) in *.
  assert (Hvi : ∀ r, u64 (regs ci r)).
  { intros r. destruct (decide (r = RSP)) as [->|]; [rewrite Hsp; unfold u64; lia|by rewrite Hregs]. }
  destruct (push_context ci f []) as (Hsp1 & Hregs1 & Hst1 & _); [done|lia|by rewrite app_nil_r|].
  unfold syscall_entry. fold ci. change (run (push_gprs ++ syscall_args) ci) with d.
  assert (d = run syscall_args (run push_gprs ci)) as Hd by apply run_app.
  set (c1 := run push_gprs ci) in *. rewrite app_nil_r in Hst1.
  set (x := context_of (regs ci) f) in *.
  assert (Hw : ∀ i, 0 ≤ i < 20 → rd64 (memory c1) (regs c1 RSP +₆₄ i * 8) = context_words x !!! Z.to_nat i).
  { intros i Hi. rewrite wrap64_small by lia. replace (i * 8) with (8 * i) by lia.
    by apply (words_at_get _ _ (context_words x)). }
  destruct (syscall_args_run c1 _ (λ i, eq_refl)) as (Hmd & Hspd & Hrdi & Hrsi & Hrdx & Hrcx).
  rewrite <- Hd in Hmd, Hspd, Hrdi, Hrsi, Hrdx, Hrcx. cbn beta in *. rewrite Hw in Hrdi, Hrsi, Hrdx, Hrcx by lia.
  change (regs d RDI = regs ci RAX) in Hrdi. change (regs d RSI = regs ci RDI) in Hrsi.
  change (regs d RDX = regs ci RSI) in Hrdx. change (regs d RCX = regs ci RDX) in Hrcx.
  destruct Habi as [Hsp2 Hm2 Hrax].
  rewrite Hexit. cbn [negb Z.eqb]. cbn [run foldl]. fold (run pop_gprs (exec (Store RSP (14 * 8) RAX) (dispatch d))).
  set (c2 := exec (Store RSP (14 * 8) RAX) (dispatch d)).
  set (y := context_of (λ r, if decide (r = RAX) then regs (dispatch d) RAX else regs ci r) f).
  assert (Hst2 : stack_holds c2 (context_words y ++ [])).
  { rewrite app_nil_r. unfold stack_holds, c2. cbn [exec set_mem memory regs]. rewrite Hsp2, Hspd.
    rewrite wrap64_small by lia. apply rax_stored; [done|]. fold x.
    eapply words_at_ext; [|exact Hst1]. intros z Hz. rewrite Hm2, Hmd; [done|].
    rewrite Hspd. change (zlen (context_words _)) with 20 in Hz. lia. }
  destruct (pop_context y c2 []) as (c3 & Hiret & Hpop & Hsp3 & _).
  - unfold c2. cbn [exec set_mem regs]. rewrite Hsp2, Hspd, Hsp1, Hsp. lia.
  - unfold c2. cbn [exec set_mem regs]. rewrite Hsp2, Hspd, Hsp1, Hsp. lia.
  - done.
  - exists c3. change (ctx_frame y) with f in Hiret. rewrite Hiret.
    unfold y in Hpop. rewrite ctx_gprs_of in Hpop. pose proof (gprs_ext _ _ Hpop) as Hall.
    split_and!; [done|by rewrite Hrdi, Hregs|by rewrite Hrsi, Hregs|by rewrite Hrdx, Hregs|by rewrite Hrcx, Hregs|
      by rewrite Hall|done|].
    intros r ??. rewrite Hall by done. rewrite decide_False by done. by apply Hregs.
Qed.


(** A switch leaves for ring 3 with the registers and the frame of the context saved on
    the new stack; the old stack pointer is stored and the context on the old stack stays
    there, so that a later switch resumes it in turn. *)
Theorem switch_context_resumes c x old :
  let sp := regs c RSP in let new := regs c RSI in let slot := regs c RDI in
  u64 sp → u64 new → u64 slot → new + 160 < 2 ^ 64 →
  words_at (memory c) sp (context_words old) → words_at (memory c) new (context_words x) →
  (slot + 8 ≤ new ∨ new + 160 ≤ slot) → (slot + 8 ≤ sp ∨ sp + 160 ≤ slot) →
  ∃ c', switch_context c = Iret (ctx_frame x) c' ∧
    (regs c' <$> pop_order) = ctx_gprs x ∧ regs c' RSP = ctx_rsp x ∧
    rd64 (memory c') slot = sp ∧ words_at (memory c') sp (context_words old).
Proof.
  cbn zeta. intros Hsp Hnew Hslot Hhi Hold Hx Hd1 Hd2. unfold switch_context. cbn [run foldl].
  fold (run pop_gprs (exec (Mov RSP RSI) (exec (Store RDI 0 RSP) c))).
  set (c1 := exec (Mov RSP RSI) (exec (Store RDI 0 RSP) c)).
  assert (Hm : memory c1 = wr64 (memory c) (regs c RDI) (regs c RSP)).
  { unfold c1. cbn [exec set_reg set_mem memory regs]. unfold u64 in Hslot. rewrite Z.add_0_r. by nowrap. }
  assert (Hr : regs c1 RSP = regs c RSI) by reflexivity.
  assert (Hkeep : ∀ a k, regs c RDI + 8 ≤ a ∨ a + 160 ≤ regs c RDI →
    words_at (memory c) a (context_words k) → words_at (memory c1) a (context_words k)).
  { intros a k Ha. apply words_at_ext. intros z Hz. change (zlen (context_words k)) with 20 in Hz.
    rewrite Hm. symmetry. apply wr64_other. lia. }
  unfold u64 in *. destruct (pop_context x c1 []) as (c' & Hret & Hg & Hs & Hmem); [rewrite Hr; lia|rewrite Hr; lia| |].
  { unfold stack_holds. rewrite app_nil_r, Hr. apply Hkeep; [lia|done]. }
  exists c'. rewrite Hmem. split_and!; [done|done|done| |].
  - rewrite Hm. by apply rd64_same.
  - apply Hkeep; [lia|done].
Qed.

(** Loading from a context in memory. *)
Lemma restore_context_loads c x :
  u64 (regs c RDI) → regs c RDI + 160 < 2 ^ 64 → words_at (memory c) (regs c RDI) (context_words x) →
  ∃ c', restore_context c = Iret (ctx_frame x) c' ∧
    (regs c' <$> pop_order) = ctx_gprs x ∧ regs c' RSP = ctx_rsp x ∧ memory c' = memory c.
Proof.
  unfold u64. intros Hlo Hhi Hx.
  assert (Hw : ∀ i, 0 ≤ i < 20 → rd64 (memory c) (regs c RDI +₆₄ i * 8) = context_words x !!! Z.to_nat i).
  { intros i Hi. rewrite wrap64_small by lia. replace (i * 8) with (8 * i) by lia.
    by apply (words_at_get _ _ (context_words x)). }
  set (d := run restore_context_code c).
  assert (Hm : memory d = memory c) by reflexivity.
  assert (Hsp : regs d RSP = regs c RDI + 120).
  { change (regs d RSP) with (regs c RDI +₆₄ 15 * 8). rewrite wrap64_small; lia. }
  assert (Hg : regs d <$> pop_order = ctx_gprs x).
  { change (regs d <$> pop_order) with ((λ i, rd64 (memory c) (regs c RDI +₆₄ i * 8)) <$> range 0 15).
    transitivity ((λ i, context_words x !!! Z.to_nat i) <$> range 0 15); [|reflexivity].
    apply list_fmap_ext. intros i v Hi%list_elem_of_lookup_2%elem_of_range. apply Hw. lia. }
  unfold restore_context. fold d.
  assert (Hst : stack_holds d (frame_words (ctx_frame x) ++ [])).
  { unfold stack_holds. rewrite app_nil_r, Hm, Hsp. rewrite context_words_split in Hx.
    apply words_at_app in Hx as [_ Hx]. exact Hx. }
  rewrite (iretq_frame d (ctx_frame x) []) by (done || lia).
  exists (set_reg RSP (f_rsp (ctx_frame x)) d). split_and!; [done| |apply regs_set_same|done].
  rewrite <- Hg. apply list_fmap_ext. intros i r Hr. apply regs_set_other. intros <-.
  eapply pop_order_rsp, list_elem_of_lookup_2, Hr.
Qed.

(** Saving word by word, upwards from [\[rdi\]]. *)
Lemma words_at_snoc m a l v :
  u64 v → words_at m a l → words_at (wr64 m (a + 8 * zlen l) v) a (l ++ [v]).
Proof.
  intros Hv Hl. apply words_at_app. split.
  - eapply words_at_ext; [|exact Hl]. intros z Hz. symmetry. apply wr64_other. lia.
  - cbn [words_at]. by rewrite rd64_same.
Qed.

(** The state of [save_context] after writing [l]: only [r8] may have changed, and only when
    [touched]. *)
Definition saved (touched : bool) (c : Cpu) (l : list Z) (d : Cpu) : Prop :=
  (∀ r, r ≠ R8 ∨ touched = false → regs d r = regs c r) ∧ words_at (memory d) (regs c RDI) l ∧
  (∀ z, z < regs c RDI ∨ regs c RDI + 160 ≤ z → memory d z = memory c z).

Lemma saved_store t c l d r v :
  regs c RDI + 160 < 2 ^ 64 → 0 ≤ regs c RDI → zlen l < 20 →
  saved t c l d → regs d r = v → u64 v → saved t c (l ++ [v]) (exec (Store RDI (zlen l * 8) r) d).
Proof.
  intros Hhi Hlo Hlen (Hr & Hl & Hout) Hv Hu. pose proof (zlen_nonneg l).
  assert (Ha : regs d RDI +₆₄ zlen l * 8 = regs c RDI + 8 * zlen l) by (rewrite Hr by auto; rewrite wrap64_small; lia).
  unfold saved. cbn [exec set_mem regs memory]. rewrite Ha, Hv. split_and!.
  - done.
  - by apply words_at_snoc.
  - intros z Hz. rewrite wr64_other by lia. apply Hout. lia.
Qed.

Lemma zlen_snoc {A} (l : list A) x : zlen (l ++ [x]) = zlen l + 1.
Proof. by rewrite zlen_app. Qed.

(** The two parts of the block. *)
Fixpoint save_regs (i : Z) (rs : list reg) : list instr :=
  match rs with
  | [] => []
  | r :: rs => Store RDI (i * 8) r :: save_regs (i + 1) rs
  end.
Fixpoint save_frame (i : Z) (n : nat) : list instr :=
  match n with
  | O => []
  | S n => Load R8 RSP (i * 8) :: Store RDI (i * 8) R8 :: save_frame (i + 1) n
  end.

Lemma save_context_parts : save_context = save_regs 0 pop_order ++ save_frame 15 5.
Proof. reflexivity. Qed.

Lemma save_regs_run c rs l d :
  regs c RDI + 160 < 2 ^ 64 → (∀ r, u64 (regs c r)) → zlen l + zlen rs ≤ 20 →
  saved false c l d → saved false c (l ++ (regs c <$> rs)) (run (save_regs (zlen l) rs) d).
Proof.
  intros Hhi Hu. revert l d. induction rs as [|r rs IH]; intros l d Hlen Hs.
  { cbn. by rewrite app_nil_r. }
  rewrite zlen_cons in Hlen. pose proof (zlen_nonneg rs). pose proof (Hu RDI) as Hrdi. unfold u64 in Hrdi.
  cbn [save_regs run foldl fmap list_fmap]. fold (run (save_regs (zlen l + 1) rs) (exec (Store RDI (zlen l * 8) r) d)).
  rewrite <- (zlen_snoc l (regs c r)). rewrite cons_middle, app_assoc. apply IH; [rewrite zlen_snoc; lia|].
  apply saved_store; [done|lia|lia|done| |apply Hu]. apply (proj1 Hs). auto.
Qed.

Lemma save_frame_run t c vs l d :
  (∀ r, u64 (regs c r)) → regs c RDI + 160 < 2 ^ 64 → regs c RSP + 160 < 2 ^ 64 →
  regs c RSP + 160 ≤ regs c RDI ∨ regs c RDI + 160 ≤ regs c RSP + 8 * zlen l →
  zlen l + zlen vs = 20 → (∀ v, v ∈ vs → u64 v) →
  words_at (memory c) (regs c RSP + 8 * zlen l) vs → saved t c l d →
  saved true c (l ++ vs) (run (save_frame (zlen l) (length vs)) d).
Proof.
  intros Hu Hhi Hs1. pose proof (Hu RDI) as Hrdi. pose proof (Hu RSP) as Hrsp. unfold u64 in Hrdi, Hrsp.
  revert t l d. induction vs as [|v vs IH]; intros t l d Hdis Hlen Hvs Hw (Hr & Hl & Hout).
  { cbn. rewrite app_nil_r. split_and!; [|done..]. intros r [?|?]; [auto|done]. }
  rewrite zlen_cons in Hlen. pose proof (zlen_nonneg vs). pose proof (zlen_nonneg l). destruct Hw as [Hv Hw].
  cbn [length save_frame run foldl]. set (d1 := exec (Load R8 RSP (zlen l * 8)) d).
  assert (H8 : regs d1 R8 = v).
  { unfold d1. cbn [exec]. rewrite regs_set_same, Hr by auto. rewrite wrap64_small by lia.
    rewrite <- Hv. replace (zlen l * 8) with (8 * zlen l) by lia. apply rd64_ext. intros z Hz. apply Hout. lia. }
  assert (Hd1 : saved true c l d1).
  { split_and!; [|done|done]. intros r [Hne|?]; [|done]. unfold d1. cbn [exec].
    rewrite regs_set_other by congruence. by apply Hr; left. }
  fold (run (save_frame (zlen l + 1) (length vs)) (exec (Store RDI (zlen l * 8) R8) d1)).
  rewrite <- (zlen_snoc l v), cons_middle, app_assoc.
  apply (IH true); rewrite ?zlen_snoc; [lia|lia| | |].
  - intros w Hin. apply Hvs. by right.
  - replace (regs c RSP + 8 * (zlen l + 1)) with (regs c RSP + 8 * zlen l + 8) by lia. done.
  - apply saved_store; [done|lia|lia|done|done|]. apply Hvs. by left.
Qed.

(** Saving a context and restoring it later returns to the interrupted code with its frame
    and the registers as they are on entry to the block; [rdi] is by then the address of
    the context. *)
Theorem save_restore_context c f later :
  (∀ r, u64 (regs c r)) → (∀ v, v ∈ frame_words f → u64 v) →
  regs c RSP + 160 < 2 ^ 64 → regs c RDI + 160 < 2 ^ 64 →
  (regs c RSP + 160 ≤ regs c RDI ∨ regs c RDI + 160 ≤ regs c RSP + 120) →
  words_at (memory c) (regs c RSP + 120) (frame_words f) →
  let d := run save_context c in
  regs later RDI = regs c RDI →
  (∀ z, regs c RDI ≤ z < regs c RDI + 160 → memory later z = memory d z) →
  ∃ c', restore_context later = Iret f c' ∧ regs c' RSP = f_rsp f ∧ ∀ r, r ≠ RSP → regs c' r = regs c r.
Proof.
  intros Hv Hf Hs1 Hd1 Hdis Hst d Hlr Hlm.
  assert (Hsave : saved true c (context_words (context_of (regs c) f)) d).
  { unfold d. rewrite save_context_parts, run_app, context_words_split, ctx_gprs_of.
    assert (H15 : zlen (regs c <$> pop_order) = 15) by reflexivity.
    assert (Hrun : saved false c (regs c <$> pop_order) (run (save_regs 0 pop_order) c)).
    { apply (save_regs_run c pop_order [] c); [exact Hd1|exact Hv|by apply Z.leb_le|].
      split; [reflexivity|]. split; [exact I|reflexivity]. }
    pose proof (save_frame_run false c (frame_words f) (regs c <$> pop_order)
      (run (save_regs 0 pop_order) c) Hv Hd1 Hs1) as Hfr.
    rewrite H15 in Hfr. change (length (frame_words f)) with 5%nat in Hfr.
    apply Hfr; [lia|reflexivity|exact Hf|exact Hst|exact Hrun]. }
  destruct Hsave as (_ & Hwords & _).
  destruct (restore_context_loads later (context_of (regs c) f)) as (c' & Hret & Hg & Hsp & _).
  - rewrite Hlr. apply Hv.
  - rewrite Hlr. done.
  - rewrite Hlr. eapply words_at_ext; [|exact Hwords]. intros z Hz. symmetry. apply Hlm.
    change (zlen (context_words _)) with 20 in Hz. lia.
  - exists c'. split_and!; [by destruct f|done|]. rewrite ctx_gprs_of in Hg. exact (gprs_ext _ _ Hg).
Qed.

(** ** Witnesses *)

(** Code interrupted in ring 3 with all registers 5; a dispatcher that returns 0. *)
Definition w_user : Cpu := mkCpu (λ _, 5) (λ _, 0).
Definition w_dispatch (c : Cpu) : Cpu := set_reg RAX 0 c.

Lemma w_dispatch_abi c : abi_call c (w_dispatch c).
Proof. split; [by apply regs_set_other|done|]. unfold w_dispatch. rewrite regs_set_same. unfold u64. lia. Qed.

Lemma syscall_preserves_registers_witness :
  ∃ c', syscall_entry w_dispatch 0x10 0x18 (interrupt 0x90000 0x400010 0x33 0x202 0x2B w_user) =
      Iret (mkFrame 0x400010 0x33 0x202 5 0x2B) c' ∧ regs c' RAX = 0 ∧ regs c' RBX = 5.
Proof.
  destruct (syscall_preserves_registers w_dispatch 0x10 0x18 w_user 0x90000 0x400010 0x33 0x202 0x2B)
    as (c' & Hret & _ & _ & _ & _ & Hrax & _ & Hregs).
  - lia.
  - intros r. unfold u64, w_user. cbn [regs]. lia.
  - unfold u64. lia.
  - unfold u64. lia.
  - unfold u64. lia.
  - unfold u64. lia.
  - apply w_dispatch_abi.
  - vm_compute. reflexivity.
  - exists c'. split; [exact Hret|]. split.
    + rewrite Hrax. apply regs_set_same.
    + rewrite Hregs by discriminate. reflexivity.
Defined.

(** Words written from [a] upwards. *)
Definition w_words (m : Memory) (a : Z) (l : list Z) : Memory := store m a (l ≫= le_bytes 8).

Definition w_old : Context := context_of (λ _, 1) (mkFrame 0x400000 0x33 0x202 0x7000 0x2B).
Definition w_new : Context := context_of (λ _, 2) (mkFrame 0x500000 0x33 0x202 0x8000 0x2B).
Definition w_switch : Cpu :=
  set_reg RSI 0xA000 (set_reg RDI 0xC000 (set_reg RSP 0x9000
    (mkCpu (λ _, 0) (w_words (w_words (λ _, 0) 0x9000 (context_words w_old)) 0xA000 (context_words w_new))))).

Lemma switch_context_resumes_witness :
  ∃ c', switch_context w_switch = Iret (mkFrame 0x500000 0x33 0x202 0x8000 0x2B) c' ∧
    (regs c' <$> pop_order) = replicate 15 2 ∧ rd64 (memory c') 0xC000 = 0x9000.
Proof.
  destruct (switch_context_resumes w_switch w_new w_old) as (c' & Hret & Hg & _ & Hslot & _).
  - unfold u64, w_switch. reg_simpl. lia.
  - unfold u64, w_switch. reg_simpl. lia.
  - unfold u64, w_switch. reg_simpl. lia.
  - unfold w_switch. reg_simpl. lia.
  - vm_compute. repeat split.
  - vm_compute. repeat split.
  - unfold w_switch. reg_simpl. lia.
  - unfold w_switch. reg_simpl. lia.
  - exists c'. split; [exact Hret|]. split; [exact Hg|exact Hslot].
Defined.
