(* ===== verification/UserMode.v ===== *)
(** * Leaving for user mode (kernel/src/process/mod.rs, [enter_user_mode])

    The end of the function, after it has written CR3: its instructions are fetched, the
    saved registers popped and the descriptors of [iretq] read through the tables of the
    process, and [iretq] checks the selectors it loads. *)

From stdpp Require Import base numbers list gmap strings.
From S2P Require Import Prelude Regions Paging Gdt Machine Context.

#[local] Open Scope Z_scope.
#[local] Open Scope rust_scope.

#[export] Instance canonical_dec a : Decision (canonical a).
Proof. unfold canonical. apply _. Defined.

(** What stops an instruction: a page that is not present, by its address, or a
    protection fault with its error code. *)
Inductive fault :=
  | PageFault (a : Z)
  | GeneralProtection (code : Z).

(** Where the code leaves [enter_user_mode]. *)
Inductive landing :=
  | Landed (f : Frame) (c : Cpu)
  | Faulted (e : fault).

(** The processor at the jump: the general registers, the address of the instructions, which
    the linker chooses, and the descriptor table: its base and limit, and which descriptor
    starts at an index. *)
Record Jump := mkJump {
  j_regs : reg → Z;
  j_text : Z;
  j_gdt : Z;
  j_limit : Z;
  j_entry : Z → option Descriptor;
}.

Section Jump.
Context (j : Jump) (root : Z).

(** Computations of the processor, which a fault ends. *)
Abbreviation F A := (M Cpu (result A fault)).

Definition stop {A} (e : fault) : F A := mret (Err e).

Definition translate (a : Z) : F Z :=
  c ← get;
  match walk FOR_READ (memory c) root a with
  | Some p => mret (Ok p)
  | None => stop (PageFault a)
  end.

Fixpoint read_virtual (a : Z) (n : nat) : F (list Z) :=
  match n with
  | O => mret (Ok [])
  | S n =>
      p ←? translate a;
      b ← gets (λ c, memory c p);
      l ←? read_virtual (a + 1) n;
      mret (Ok (b :: l))
  end.

Definition read_word (a : Z) : F Z := l ←? read_virtual a 8; mret (Ok (le_val l)).

(** An instruction of [n] bytes. On a page that is mapped elsewhere there are other
    instructions than those of the kernel. *)
Definition fetch (a n : Z) : F unit :=
  mfor_res (range a (a + n)) (λ x, p ←? translate x; if p =? x then mret (Ok tt) else liftO UB).

(** [pop r]: the encoding of the registers from r8 on takes a prefix. *)
Definition pop_size (r : reg) : Z := if bool_decide (r ∈ [R8; R9; R10; R11; R12; R13; R14; R15]) then 2 else 1.

Definition pop (at_ : Z) (r : reg) : F unit :=
  _ ←? fetch at_ (pop_size r);
  sp ← gets (λ c, regs c RSP);
  v ←? read_word sp;
  _ ← modify (λ c, set_reg r v (set_reg RSP (sp +₆₄ 8) c));
  mret (Ok tt).

Fixpoint pops (at_ : Z) (rs : list reg) : F unit :=
  match rs with
  | [] => mret (Ok tt)
  | r :: rs =>
      _ ←? pop at_ r;
      pops (at_ + pop_size r) rs
  end.

(** *** Segments *)

Definition is_code (d : Descriptor) : bool :=
  match d with kernel_code_segment | user_code_segment => true | _ => false end.
Definition is_data (d : Descriptor) : bool :=
  match d with kernel_data_segment | user_data_segment => true | _ => false end.

(** The index, the table bit and the privilege level of a selector, and its error code. *)
Definition sel_index (sel : Z) : Z := sel / 8.
Definition sel_local (sel : Z) : bool := Z.testbit sel 2.
Definition sel_ring (sel : Z) : Z := sel mod 4.
Definition refuse {A} (sel : Z) : F A := stop (GeneralProtection (sel - sel mod 4)).

(** The descriptor a selector names, when there is one: there is no local table. *)
Definition selected (sel : Z) : F (option Descriptor) :=
  if sel_local sel || (j_limit j <? 8 * sel_index sel + 7) then refuse sel else
  _ ←? read_virtual (j_gdt j + 8 * sel_index sel) 8;
  mret (Ok (j_entry j (sel_index sel))).

(** The descriptor must be of the right kind and of the level of the selector. *)
Definition load_selector (kind : Descriptor → bool) (sel : Z) : F unit :=
  d ←? selected sel;
  match d with
  | Some d => if kind d && (ring_of d =? sel_ring sel) then mret (Ok tt) else refuse sel
  | None => refuse sel
  end.

(** [iretq] from ring 0. The code segment may not be null; the stack segment may, but not in
    ring 3, and has the level of the code segment. *)
Definition iretq_virtual (at_ : Z) : F Frame :=
  _ ←? fetch at_ 2;
  sp ← gets (λ c, regs c RSP);
  rip ←? read_word sp;
  cs ←? read_word (sp +₆₄ 8);
  rflags ←? read_word (sp +₆₄ 16);
  rsp ←? read_word (sp +₆₄ 24);
  ss ←? read_word (sp +₆₄ 32);
  let code := wrap 16 cs in
  let stack := wrap 16 ss in
  _ ←? (if code / 4 =? 0 then stop (GeneralProtection 0) else load_selector is_code code);
  _ ←? (if stack / 4 =? 0 then
          (if (sel_ring code =? 3) || negb (sel_ring stack =? sel_ring code)
           then stop (GeneralProtection 0) else mret (Ok tt))
        else if negb (sel_ring stack =? sel_ring code) then refuse stack
        else load_selector is_data stack);
  if negb (bool_decide (canonical rip)) then stop (GeneralProtection 0) else
  _ ← modify (set_reg RSP rsp);
  mret (Ok (mkFrame rip cs rflags rsp ss)).

(** The block: [mov rsp, {rsp}], the pops, [iretq]. *)
Definition enter_ring3 (kernel_rsp : Z) : F Frame :=
  _ ←? fetch (j_text j) 3;
  _ ← modify (set_reg RSP kernel_rsp);
  _ ←? pops (j_text j + 3) pop_order;
  iretq_virtual (j_text j + 26).

End Jump.

(** ** What it does *)

(** The [n] bytes at [a] are mapped where they lie. *)
Definition sees (m : Memory) (root a n : Z) : Prop := ∀ x, a ≤ x < a + n → walk FOR_READ m root x = Some x.

Lemma sees_sub m root a n b k : sees m root a n → a ≤ b → b + k ≤ a + n → sees m root b k.
Proof. intros Hs Ha Hb x Hx. apply Hs. lia. Qed.

Section JumpTheorems.
Context (j : Jump) (root : Z).

Lemma translate_ok a c p : walk FOR_READ (memory c) root a = Some p → translate root a c = Ret (Ok p, c).
Proof. intros Hw. unfold translate. rewrite bind_get. cbn beta. by rewrite Hw. Qed.

Lemma translate_fault a c : walk FOR_READ (memory c) root a = None → translate root a c = Ret (Err (PageFault a), c).
Proof. intros Hw. unfold translate. rewrite bind_get. cbn beta. by rewrite Hw. Qed.

Lemma read_virtual_ok (n : nat) a c :
  sees (memory c) root a (Z.of_nat n) → read_virtual root a n c = Ret (Ok (load (memory c) a (Z.of_nat n)), c).
Proof.
  revert a. induction n as [|n IH]; intros a Hs; cbn [read_virtual].
  { unfold load. rewrite Z.add_0_r, range_nil by lia. done. }
  rewrite (bind_Ret _ _ _ _ _ (translate_ok a c a (Hs a ltac:(lia)))), bind_gets. cbn beta match.
  rewrite (bind_Ret _ _ _ _ _ (IH (a + 1) (sees_sub _ _ _ _ (a + 1) (Z.of_nat n) Hs ltac:(lia) ltac:(lia)))).
  unfold load. rewrite (range_cons a) by lia. replace (a + Z.of_nat (S n)) with (a + 1 + Z.of_nat n) by lia. done.
Qed.

Lemma read_word_ok a c : sees (memory c) root a 8 → read_word root a c = Ret (Ok (rd64 (memory c) a), c).
Proof.
  intros Hs. unfold read_word. rewrite (bind_Ret _ _ _ _ _ (read_virtual_ok 8 a c Hs)). by rewrite rd64_load.
Qed.

Lemma read_word_fault a c : walk FOR_READ (memory c) root a = None → read_word root a c = Ret (Err (PageFault a), c).
Proof.
  intros Hw. unfold read_word. cbn [read_virtual]. rewrite !bind_assoc. by rewrite (bind_Ret _ _ _ _ _ (translate_fault a c Hw)).
Qed.

Lemma fetch_ok a n c : sees (memory c) root a n → fetch root a n c = Ret (Ok tt, c).
Proof.
  unfold fetch. intros Hs. assert (Hl : ∀ x, x ∈ range a (a + n) → walk FOR_READ (memory c) root x = Some x).
  { intros x Hx%elem_of_range. by apply Hs. }
  clear Hs. induction (range a (a + n)) as [|x l IH]; [done|]. cbn [mfor_res]. rewrite bind_assoc.
  rewrite (bind_Ret _ _ _ _ _ (translate_ok x c x (Hl x ltac:(by left)))). cbn beta match.
  rewrite Z.eqb_refl, bind_mret. apply IH. intros y Hy. apply Hl. by right.
Qed.

Lemma fetch_fault a n c :
  0 < n → walk FOR_READ (memory c) root a = None → fetch root a n c = Ret (Err (PageFault a), c).
Proof.
  intros Hn Hw. unfold fetch. rewrite (range_cons a) by lia. cbn [mfor_res]. rewrite bind_assoc.
  by rewrite (bind_Ret _ _ _ _ _ (translate_fault a c Hw)).
Qed.

Lemma pop_size_range r : 1 ≤ pop_size r ≤ 2.
Proof. unfold pop_size. case_bool_decide; lia. Qed.

Definition pops_size (rs : list reg) : Z := foldr (λ r n, pop_size r + n) 0 rs.

Lemma pops_size_nonneg rs : 0 ≤ pops_size rs.
Proof. induction rs as [|r rs IH]; [done|]. cbn [pops_size foldr]. fold (pops_size rs). pose proof (pop_size_range r). lia. Qed.

(** On memory that is mapped where it lies, the pops are those of the bare processor. *)
Lemma pops_ok rs at_ c :
  RSP ∉ rs → 0 ≤ regs c RSP → regs c RSP + 8 * zlen rs < 2 ^ 64 →
  sees (memory c) root at_ (pops_size rs) → sees (memory c) root (regs c RSP) (8 * zlen rs) →
  pops root at_ rs c = Ret (Ok tt, run (Pop <$> rs) c).
Proof.
  revert at_ c. induction rs as [|r rs IH]; intros at_ c Hsp Hlo Hhi Htext Hst; [done|].
  apply not_elem_of_cons in Hsp as [Hne Hsp]. rewrite zlen_cons in *. pose proof (zlen_nonneg rs).
  cbn [pops_size foldr] in Htext. fold (pops_size rs) in Htext. pose proof (pop_size_range r). pose proof (pops_size_nonneg rs).
  assert (Hpop : pop root at_ r c = Ret (Ok tt, exec (Pop r) c)).
  { unfold pop. rewrite (bind_Ret _ _ _ _ _ (fetch_ok at_ (pop_size r) c (sees_sub _ _ _ _ at_ (pop_size r) Htext ltac:(lia) ltac:(lia)))).
    cbn beta match. rewrite bind_gets.
    rewrite (bind_Ret _ _ _ _ _ (read_word_ok (regs c RSP) c (sees_sub _ _ _ _ (regs c RSP) 8 Hst ltac:(lia) ltac:(lia)))).
    cbn beta match. by rewrite bind_modify. }
  cbn [pops]. rewrite (bind_Ret _ _ _ _ _ Hpop). cbn beta match.
  assert (Hsp1 : regs (exec (Pop r) c) RSP = regs c RSP + 8).
  { cbn [exec]. rewrite regs_set_other, regs_set_same by done. by nowrap. }
  cbn [fmap list_fmap run foldl]. fold (run (Pop <$> rs) (exec (Pop r) c)). apply IH; [done|lia|lia| |].
  - eapply sees_sub; [exact Htext|lia|lia].
  - rewrite Hsp1. eapply sees_sub; [exact Hst|lia|lia].
Qed.

(** A page that is not there stops the first pop. *)
Lemma pops_fault r rs at_ c :
  sees (memory c) root at_ (pop_size r) → walk FOR_READ (memory c) root (regs c RSP) = None →
  pops root at_ (r :: rs) c = Ret (Err (PageFault (regs c RSP)), c).
Proof.
  intros Htext Hst. cbn [pops]. unfold pop.
  rewrite !bind_assoc, (bind_Ret _ _ _ _ _ (fetch_ok at_ _ c Htext)). cbn beta match.
  rewrite bind_assoc, bind_gets, bind_assoc. by rewrite (bind_Ret _ _ _ _ _ (read_word_fault _ _ Hst)).
Qed.

(** The text of the block up to its last instruction. *)
Lemma enter_text : 3 + pops_size pop_order = 26.
Proof. reflexivity. Qed.

Lemma enter_no_text sp c :
  walk FOR_READ (memory c) root (j_text j) = None → enter_ring3 j root sp c = Ret (Err (PageFault (j_text j)), c).
Proof. intros Hw. unfold enter_ring3. by rewrite (bind_Ret _ _ _ _ _ (fetch_fault _ 3 c ltac:(lia) Hw)). Qed.

Lemma enter_no_stack sp c :
  sees (memory c) root (j_text j) 28 → walk FOR_READ (memory c) root sp = None →
  enter_ring3 j root sp c = Ret (Err (PageFault sp), set_reg RSP sp c).
Proof.
  intros Htext Hst. unfold enter_ring3.
  rewrite (bind_Ret _ _ _ _ _ (fetch_ok (j_text j) 3 c (sees_sub _ _ _ _ (j_text j) 3 Htext ltac:(lia) ltac:(lia)))).
  cbn beta match. rewrite bind_modify. unfold pop_order at 1.
  pose proof (pops_fault R15 (tail pop_order) (j_text j + 3) (set_reg RSP sp c)) as Hp.
  rewrite regs_set_same in Hp. erewrite bind_Ret; [|apply Hp; [|exact Hst]]; [done|].
  eapply sees_sub; [exact Htext|lia|change (pop_size R15) with 2; lia].
Qed.

(** With its text and its stack mapped where they lie, the block pops a context that is on the
    stack, and [iretq] loads the frame, if it accepts the selectors. *)
Lemma enter_pops sp c x :
  0 ≤ sp → sp + 160 < 2 ^ 64 → sees (memory c) root (j_text j) 28 → sees (memory c) root sp 160 →
  words_at (memory c) sp (context_words x) →
  ∃ c', enter_ring3 j root sp c = iretq_virtual j root (j_text j + 26) c' ∧
    memory c' = memory c ∧ regs c' RSP = sp + 120 ∧ (regs c' <$> pop_order) = ctx_gprs x ∧
    words_at (memory c') (sp + 120) (frame_words (ctx_frame x)).
Proof.
  intros Hlo Hhi Htext Hst Hw. set (c1 := set_reg RSP sp c).
  assert (Hsp1 : regs c1 RSP = sp) by apply regs_set_same.
  assert (H15 : zlen pop_order = 15) by reflexivity.
  rewrite context_words_split in Hw.
  destruct (pop_all pop_order c1 (ctx_gprs x) (frame_words (ctx_frame x))) as (Hsp & Hg & _ & Hm & Hf);
    [apply pop_order_rsp|apply pop_order_nodup|done|lia|lia|by unfold stack_holds; rewrite Hsp1|].
  rewrite H15, Hsp1 in Hsp. exists (run (Pop <$> pop_order) c1). unfold stack_holds in Hf. rewrite Hsp in Hf.
  split; [|split_and!; [done|lia|done|exact Hf]].
  unfold enter_ring3. rewrite (bind_Ret _ _ _ _ _ (fetch_ok (j_text j) 3 c (sees_sub _ _ _ _ (j_text j) 3 Htext ltac:(lia) ltac:(lia)))).
  cbn beta match. rewrite bind_modify. fold c1.
  rewrite (bind_Ret _ _ _ (Ok tt) (run (Pop <$> pop_order) c1)); [done|].
  apply pops_ok; [apply pop_order_rsp|lia|lia| |].
  - eapply sees_sub; [exact Htext|lia|pose proof enter_text; lia].
  - rewrite Hsp1. eapply sees_sub; [exact Hst|lia|lia].
Qed.

(** What [iretq] makes of the selectors of a frame, all memory being mapped. *)
Lemma iretq_frame_virtual at_ c f :
  0 ≤ regs c RSP → regs c RSP + 40 < 2 ^ 64 → sees (memory c) root at_ 2 → sees (memory c) root (regs c RSP) 40 →
  words_at (memory c) (regs c RSP) (frame_words f) →
  iretq_virtual j root at_ c =
    (let code := wrap 16 (f_cs f) in
     let stack := wrap 16 (f_ss f) in
     _ ←? (if code / 4 =? 0 then stop (GeneralProtection 0) else load_selector j root is_code code);
     _ ←? (if stack / 4 =? 0 then
             (if (sel_ring code =? 3) || negb (sel_ring stack =? sel_ring code)
              then stop (GeneralProtection 0) else mret (Ok tt))
           else if negb (sel_ring stack =? sel_ring code) then refuse stack
           else load_selector j root is_data stack);
     if negb (bool_decide (canonical (f_rip f))) then stop (GeneralProtection 0) else
     _ ← modify (set_reg RSP (f_rsp f));
     mret (Ok f)) c.
Proof.
  intros Hlo Hhi Htext Hst Hw. destruct f as [rip cs fl rsp ss].
  assert (Hr : ∀ i, 0 ≤ i < 5 → read_word root (regs c RSP + 8 * i) c = Ret (Ok ([rip; cs; fl; rsp; ss] !!! Z.to_nat i), c)).
  { intros i Hi. rewrite read_word_ok by (eapply sees_sub; [exact Hst|lia|lia]).
    do 3 f_equal. by apply (words_at_get _ _ [rip; cs; fl; rsp; ss]). }
  unfold iretq_virtual. rewrite (bind_Ret _ _ _ _ _ (fetch_ok at_ 2 c Htext)). cbn beta match. rewrite bind_gets. nowrap.
  pose proof (Hr 0 ltac:(lia)) as Hr0. rewrite Z.mul_0_r, Z.add_0_r in Hr0. rewrite (bind_Ret _ _ _ _ _ Hr0). cbn beta match.
  rewrite (bind_Ret _ _ _ _ _ (Hr 1 ltac:(lia))), (bind_Ret _ _ _ _ _ (Hr 2 ltac:(lia))),
    (bind_Ret _ _ _ _ _ (Hr 3 ltac:(lia))), (bind_Ret _ _ _ _ _ (Hr 4 ltac:(lia))). reflexivity.
Qed.

(** A selector of the table, by what is at its index. *)
Lemma load_selector_entry kind sel c :
  sel_local sel = false → 8 * sel_index sel + 7 ≤ j_limit j →
  sees (memory c) root (j_gdt j + 8 * sel_index sel) 8 →
  load_selector j root kind sel c =
    Ret (match j_entry j (sel_index sel) with
         | Some d => if kind d && (ring_of d =? sel_ring sel) then Ok tt else Err (GeneralProtection (sel - sel mod 4))
         | None => Err (GeneralProtection (sel - sel mod 4))
         end, c).
Proof.
  intros Hloc Hlim Hs. unfold load_selector.
  assert (Hsel : selected j root sel c = Ret (Ok (j_entry j (sel_index sel)), c)).
  { unfold selected. rewrite Hloc. destruct (Z.ltb_spec (j_limit j) (8 * sel_index sel + 7)); [lia|]. cbn [orb].
    by rewrite (bind_Ret _ _ _ _ _ (read_virtual_ok 8 _ c Hs)). }
  rewrite (bind_Ret _ _ _ _ _ Hsel). cbn beta match. by repeat case_match.
Qed.

End JumpTheorems.
