(* ===== verification/Scancodes.v ===== *)
(** * The scancode ring of the terminal (kernel/src/terminal/mod.rs)

    The keyboard interrupt handler pushes scancodes, the terminal pops them. The
    first part are the two functions; the second shows that they are a bounded
    first-in first-out queue; the third runs the handler between the steps of
    [pop_scancode], which it can interrupt anywhere but inside
    [without_interrupts]. *)

From stdpp Require Import base numbers list gmap strings.
From S2P Require Import Prelude.

#[local] Open Scope Z_scope.
#[local] Open Scope rust_scope.

Definition SCANCODE_BUFFER_SIZE : Z := 256.

(** The three statics. *)
Record Scancodes := mkScancodes {
  SCANCODE_BUFFER : list Z;
  SCANCODE_HEAD : Z;
  SCANCODE_TAIL : Z;
}.

Definition Scancodes_new : Scancodes := mkScancodes (zrepeat SCANCODE_BUFFER_SIZE 0) 0 0.

Definition set_head (h : Z) (s : Scancodes) : Scancodes :=
  mkScancodes (SCANCODE_BUFFER s) h (SCANCODE_TAIL s).
Definition set_tail (t : Z) (s : Scancodes) : Scancodes :=
  mkScancodes (SCANCODE_BUFFER s) (SCANCODE_HEAD s) t.
Definition set_buffer (b : list Z) (s : Scancodes) : Scancodes :=
  mkScancodes b (SCANCODE_HEAD s) (SCANCODE_TAIL s).

(** [(i + 1) % SCANCODE_BUFFER_SIZE] *)
Definition next_slot (i : Z) : Z := (i +₆₄ 1) mod SCANCODE_BUFFER_SIZE.

Definition push_scancode (scancode : Z) : M Scancodes unit :=
  s ← get;
  let tail := SCANCODE_TAIL s in
  let next := next_slot tail in
  if next =? SCANCODE_HEAD s then mret tt else
  buffer ← liftO (zset (SCANCODE_BUFFER s) tail scancode);
  _ ← modify (set_buffer buffer);
  modify (set_tail next).

(** The steps of [pop_scancode] between which an interrupt can come. *)
Definition pop_check : M Scancodes (option Z) :=
  s ← get;
  let head := SCANCODE_HEAD s in
  mret (if head =? SCANCODE_TAIL s then None else Some head).

Definition pop_read (head : Z) : M Scancodes Z :=
  s ← get;
  liftO (zget (SCANCODE_BUFFER s) head).

Definition pop_store (head : Z) : M Scancodes unit := modify (set_head (next_slot head)).

Definition pop_scancode : M Scancodes (option Z) :=
  o ← pop_check;
  match o with
  | None => mret None
  | Some head =>
      scancode ← pop_read head;
      _ ← pop_store head;
      mret (Some scancode)
  end.

(** ** The queue a ring holds *)

Definition ring_count (s : Scancodes) : Z := (SCANCODE_TAIL s - SCANCODE_HEAD s) mod 256.

Definition slot (s : Scancodes) (i : Z) : Z :=
  SCANCODE_BUFFER s !!! Z.to_nat ((SCANCODE_HEAD s + i) mod 256).

Definition ring_queue (s : Scancodes) : list Z := slot s <$> range 0 (ring_count s).

Record ring_wf (s : Scancodes) : Prop := {
  ring_len : zlen (SCANCODE_BUFFER s) = SCANCODE_BUFFER_SIZE;
  ring_head : 0 ≤ SCANCODE_HEAD s < 256;
  ring_tail : 0 ≤ SCANCODE_TAIL s < 256;
}.

Lemma Scancodes_new_wf : ring_wf Scancodes_new ∧ ring_queue Scancodes_new = [].
Proof. split; [split; done || (cbn; lia)|done]. Qed.

Lemma next_slot_eq i : 0 ≤ i < 256 → next_slot i = (i + 1) mod 256.
Proof. intros. unfold next_slot. nowrap. done. Qed.

Lemma ring_count_range s : 0 ≤ ring_count s < 256.
Proof. apply Z.mod_pos_bound. lia. Qed.

Lemma range_shift a b : range (a + 1) b = Z.add 1 <$> range a (b - 1).
Proof. unfold range. rewrite fmap_add_seqZ. f_equal; lia. Qed.

Lemma ring_queue_length s : zlen (ring_queue s) = ring_count s.
Proof.
  unfold ring_queue, zlen. rewrite length_fmap, length_range.
  pose proof (ring_count_range s). lia.
Qed.

(** The ring is full when the slot after the tail is the head. *)
Lemma ring_full s : ring_wf s → next_slot (SCANCODE_TAIL s) = SCANCODE_HEAD s ↔ ring_count s = 255.
Proof.
  intros [_ Hh Ht]. rewrite next_slot_eq by done. unfold ring_count. split; intros; dlia.
Qed.

Lemma push_full s c : ring_wf s → ring_count s = 255 → push_scancode c s = Ret (tt, s).
Proof.
  intros Hwf Hc. unfold push_scancode. msteps.
  destruct (Z.eqb_spec (next_slot (SCANCODE_TAIL s)) (SCANCODE_HEAD s)); [done|].
  by apply ring_full in Hc.
Qed.

Lemma push_room s c :
  ring_wf s → ring_count s < 255 →
  ∃ s', push_scancode c s = Ret (tt, s') ∧ ring_wf s' ∧ ring_queue s' = ring_queue s ++ [c] ∧
    SCANCODE_HEAD s' = SCANCODE_HEAD s.
Proof.
  intros Hwf Hc. pose proof Hwf as [Hl Hh Ht]. pose proof (ring_count_range s) as Hr.
  set (t := SCANCODE_TAIL s) in *. set (h := SCANCODE_HEAD s) in *.
  exists (mkScancodes (<[Z.to_nat t := c]> (SCANCODE_BUFFER s)) h ((t + 1) mod 256)).
  assert (Hcount : ring_count (mkScancodes (<[Z.to_nat t := c]> (SCANCODE_BUFFER s)) h ((t + 1) mod 256))
    = ring_count s + 1).
  { unfold ring_count in *. cbn [SCANCODE_TAIL SCANCODE_HEAD]. subst t h. dlia. }
  assert (Htail : (h + ring_count s) mod 256 = t).
  { unfold ring_count. subst t h. dlia. }
  split_and!.
  - unfold push_scancode. msteps. fold t h.
    destruct (Z.eqb_spec (next_slot t) h) as [He|_]; [apply ring_full in He; [lia|done]|].
    assert (Hz : zset (SCANCODE_BUFFER s) t c = Ret (<[Z.to_nat t := c]> (SCANCODE_BUFFER s)))
      by (apply zset_ok; unfold SCANCODE_BUFFER_SIZE in *; lia).
    rewrite (bind_Ret _ _ _ _ _ (liftO_Ret _ _ _ Hz)).
    msteps. unfold modify. rewrite next_slot_eq by done. done.
  - split; cbn; [by rewrite zlen_insert|done|apply Z.mod_pos_bound; lia].
  - unfold ring_queue. rewrite Hcount, range_snoc by lia. rewrite fmap_app. f_equal.
    + apply list_fmap_ext. intros i x Hx.
      assert (Hxr : 0 ≤ x < ring_count s) by (apply elem_of_range; by eapply list_elem_of_lookup_2).
      unfold slot. cbn [SCANCODE_BUFFER SCANCODE_HEAD].
      rewrite list_lookup_total_insert_ne; [done|].
      assert ((h + x) mod 256 ≠ t) by (rewrite <- Htail; dlia).
      pose proof (Z.mod_pos_bound (h + x) 256 ltac:(lia)). lia.
    + cbn [fmap list_fmap]. f_equal. unfold slot. cbn [SCANCODE_BUFFER SCANCODE_HEAD].
      rewrite Htail, list_lookup_total_insert_eq; [done|].
      unfold zlen, SCANCODE_BUFFER_SIZE in Hl. lia.
  - done.
Qed.

Lemma pop_check_spec s :
  ring_wf s →
  pop_check s = Ret (if decide (ring_queue s = []) then None else Some (SCANCODE_HEAD s), s).
Proof.
  intros [_ Hh Ht]. unfold pop_check. msteps. unfold mret, M_ret. do 2 f_equal.
  pose proof (ring_queue_length s) as Hq.
  destruct (Z.eqb_spec (SCANCODE_HEAD s) (SCANCODE_TAIL s)) as [He|Hne]; case_decide as Hd; try done.
  - exfalso. apply Hd. apply length_zero_iff_nil. unfold zlen, ring_count in Hq.
    rewrite He, Z.sub_diag in Hq. change (0 mod 256) with 0 in Hq. lia.
  - exfalso. rewrite Hd in Hq. change (zlen (@nil Z)) with 0 in Hq. unfold ring_count in Hq. dlia.
Qed.

(** The oldest waiting byte is in the head slot. *)
Lemma pop_read_spec s c q :
  ring_wf s → ring_queue s = c :: q → pop_read (SCANCODE_HEAD s) s = Ret (c, s).
Proof.
  intros [Hl Hh Ht] Hq. unfold pop_read. msteps. apply liftO_Ret.
  rewrite zget_total by (unfold SCANCODE_BUFFER_SIZE in *; lia). f_equal.
  pose proof (ring_queue_length s) as Hlen. rewrite Hq, zlen_cons in Hlen.
  pose proof (zlen_nonneg q). unfold ring_queue in Hq.
  rewrite range_cons in Hq by lia. cbn [fmap list_fmap] in Hq.
  apply (f_equal head) in Hq. cbn [head] in Hq. injection Hq as <-. unfold slot.
  rewrite Z.add_0_r, Z.mod_small by lia. done.
Qed.

Lemma pop_store_spec s c q :
  ring_wf s → ring_queue s = c :: q →
  ∃ s', pop_store (SCANCODE_HEAD s) s = Ret (tt, s') ∧ ring_wf s' ∧ ring_queue s' = q.
Proof.
  intros Hwf Hq. pose proof Hwf as [Hl Hh Ht].
  eexists. split; [reflexivity|]. rewrite next_slot_eq by done.
  pose proof (ring_queue_length s) as Hlen. rewrite Hq, zlen_cons in Hlen.
  pose proof (zlen_nonneg q).
  assert (Hcount : ring_count (set_head ((SCANCODE_HEAD s + 1) mod 256) s) = ring_count s - 1).
  { unfold ring_count in *. cbn [set_head SCANCODE_TAIL SCANCODE_HEAD]. dlia. }
  split; [split; cbn; [done|apply Z.mod_pos_bound; lia|done]|].
  unfold ring_queue in *. rewrite Hcount. rewrite (range_cons 0 (ring_count s)) in Hq by lia.
  cbn [fmap list_fmap] in Hq. apply (f_equal tail) in Hq. cbn [tail] in Hq. rewrite <- Hq.
  rewrite range_shift, <- list_fmap_compose. apply list_fmap_ext. intros i x _.
  unfold compose, slot. cbn [set_head SCANCODE_BUFFER SCANCODE_HEAD]. do 2 f_equal.
  rewrite Zplus_mod_idemp_l. f_equal. lia.
Qed.

(** ** The handler between the steps of [pop_scancode] *)

(** Where the terminal is in [pop_scancode]: before it, after the comparison with
    the tail, with interrupts masked, holding the lock, holding it with the byte
    read, after its release, and with interrupts restored. *)
Inductive pop_pc :=
  | PIdle
  | PChecked (head : Z)
  | PMasked (head : Z)
  | PLocked (head : Z)
  | PRead (head scancode : Z)
  | PUnlocked (head scancode : Z)
  | PGot (head scancode : Z).

Record Keyboarding := mkKeyboarding {
  kb_ring : Scancodes;
  kb_pc : pop_pc;
  kb_irq : bool; (* interrupts are enabled *)
  kb_lock : bool; (* SCANCODE_BUFFER is locked *)
}.

Inductive key_event :=
  | Accepted (c : Z)
  | Dropped (c : Z)
  | Popped (c : Z)
  | Quiet.

(** The interrupt handler runs [push_scancode] to its end: it is not interrupted
    itself, and would spin for ever on a lock the terminal holds. *)
Inductive key_press : Z → Keyboarding → key_event → Keyboarding → Prop :=
  | press_full c s pc l s' :
      next_slot (SCANCODE_TAIL s) = SCANCODE_HEAD s →
      push_scancode c s = Ret (tt, s') →
      key_press c (mkKeyboarding s pc true l) (Dropped c) (mkKeyboarding s' pc true l)
  | press_room c s pc s' :
      next_slot (SCANCODE_TAIL s) ≠ SCANCODE_HEAD s →
      push_scancode c s = Ret (tt, s') →
      key_press c (mkKeyboarding s pc true false) (Accepted c) (mkKeyboarding s' pc true false).

(** The next step of the terminal, which calls [pop_scancode] again and again. *)
Inductive pop_step : Keyboarding → key_event → Keyboarding → Prop :=
  | pop_empty s i l :
      pop_check s = Ret (None, s) →
      pop_step (mkKeyboarding s PIdle i l) Quiet (mkKeyboarding s PIdle i l)
  | pop_checked s i l head :
      pop_check s = Ret (Some head, s) →
      pop_step (mkKeyboarding s PIdle i l) Quiet (mkKeyboarding s (PChecked head) i l)
  | pop_mask s i l head :
      pop_step (mkKeyboarding s (PChecked head) i l) Quiet (mkKeyboarding s (PMasked head) false l)
  | pop_lock s i head :
      pop_step (mkKeyboarding s (PMasked head) i false) Quiet (mkKeyboarding s (PLocked head) i true)
  | pop_byte s i l head c :
      pop_read head s = Ret (c, s) →
      pop_step (mkKeyboarding s (PLocked head) i l) Quiet (mkKeyboarding s (PRead head c) i l)
  | pop_unlock s i l head c :
      pop_step (mkKeyboarding s (PRead head c) i l) Quiet (mkKeyboarding s (PUnlocked head c) i false)
  | pop_unmask s i l head c :
      pop_step (mkKeyboarding s (PUnlocked head c) i l) Quiet (mkKeyboarding s (PGot head c) true l)
  | pop_done s i l head c s' :
      pop_store head s = Ret (tt, s') →
      pop_step (mkKeyboarding s (PGot head c) i l) (Popped c) (mkKeyboarding s' PIdle i l).

Inductive keyboard_run : list key_event → Keyboarding → Prop :=
  | run_start : keyboard_run [] (mkKeyboarding Scancodes_new PIdle true false)
  | run_press evs w c ev w' : keyboard_run evs w → key_press c w ev w' → keyboard_run (evs ++ [ev]) w'
  | run_pop evs w ev w' : keyboard_run evs w → pop_step w ev w' → keyboard_run (evs ++ [ev]) w'.

Definition accepted (evs : list key_event) : list Z :=
  omap (λ e, match e with Accepted c => Some c | _ => None end) evs.
Definition popped (evs : list key_event) : list Z :=
  omap (λ e, match e with Popped c => Some c | _ => None end) evs.

(** Interrupts are enabled, and the lock free, but for the masked section; past the
    comparison a byte is waiting in the head slot, and past the read it is known. *)
Definition pc_ok (w : Keyboarding) : Prop :=
  let s := kb_ring w in
  match kb_pc w with
  | PIdle => kb_irq w = true ∧ kb_lock w = false
  | PChecked h => kb_irq w = true ∧ kb_lock w = false ∧ h = SCANCODE_HEAD s ∧ ring_queue s ≠ []
  | PMasked h => kb_irq w = false ∧ kb_lock w = false ∧ h = SCANCODE_HEAD s ∧ ring_queue s ≠ []
  | PLocked h => kb_irq w = false ∧ kb_lock w = true ∧ h = SCANCODE_HEAD s ∧ ring_queue s ≠ []
  | PRead h c => kb_irq w = false ∧ kb_lock w = true ∧ h = SCANCODE_HEAD s ∧ head (ring_queue s) = Some c
  | PUnlocked h c => kb_irq w = false ∧ kb_lock w = false ∧ h = SCANCODE_HEAD s ∧ head (ring_queue s) = Some c
  | PGot h c => kb_irq w = true ∧ kb_lock w = false ∧ h = SCANCODE_HEAD s ∧ head (ring_queue s) = Some c
  end.

Lemma head_cons {A} (l : list A) x : head l = Some x → ∃ l', l = x :: l'.
Proof. destruct l as [|y l]; cbn; intros; simplify_eq. by exists l. Qed.

(** A byte more at the end changes nothing for the terminal. *)
Lemma pc_ok_press s s' pc i l c :
  ring_queue s' = ring_queue s ++ [c] → SCANCODE_HEAD s' = SCANCODE_HEAD s →
  pc_ok (mkKeyboarding s pc i l) → pc_ok (mkKeyboarding s' pc i l).
Proof.
  intros Hq Hh. unfold pc_ok. cbn [kb_ring kb_pc kb_irq kb_lock]. rewrite Hq, Hh.
  assert (∀ x, head (ring_queue s) = Some x → head (ring_queue s ++ [c]) = Some x).
  { intros x (q & ->)%head_cons. done. }
  destruct pc; naive_solver (by destruct (ring_queue s)).
Qed.

Lemma keyboard_run_ok evs w :
  keyboard_run evs w →
  ring_wf (kb_ring w) ∧ pc_ok w ∧ accepted evs = popped evs ++ ring_queue (kb_ring w).
Proof.
  induction 1 as [|evs w c ev w' _ (Hwf & Hpc & Ha) Hs|evs w ev w' _ (Hwf & Hpc & Ha) Hs].
  - destruct Scancodes_new_wf as [Hwf Hq]. cbn [kb_ring]. rewrite Hq. done.
  - unfold accepted, popped in *. rewrite !omap_app, Ha. destruct Hs as [c s pc l s' Hfull Hs|c s pc s' Hroom Hs].
    + cbn [kb_ring] in *. rewrite (push_full s c Hwf) in Hs by by apply ring_full. simplify_eq.
      cbn. rewrite !app_nil_r. done.
    + cbn [kb_ring] in *. pose proof (ring_count_range s).
      assert (ring_count s ≠ 255) by by rewrite <- ring_full.
      destruct (push_room s c Hwf ltac:(lia)) as (s1 & Hs1 & Hwf1 & Hq1 & Hh1).
      rewrite Hs in Hs1. simplify_eq. split; [done|].
      split; [by eapply pc_ok_press|]. cbn. rewrite Hq1, !app_nil_r. by rewrite app_assoc.
  - unfold accepted, popped in *. rewrite !omap_app, Ha.
    destruct Hs; cbn [kb_ring kb_pc kb_irq kb_lock pc_ok] in *; cbn [omap list_omap];
      rewrite ?app_nil_r; try naive_solver.
    + rewrite (pop_check_spec s Hwf) in H. case_decide; simplify_eq. naive_solver.
    + destruct Hpc as (-> & -> & -> & Hne). destruct (ring_queue s) as [|c' q] eqn:Hq; [done|].
      rewrite (pop_read_spec s c' q Hwf Hq) in H. simplify_eq. done.
    + destruct Hpc as (-> & -> & -> & (q & Hq)%head_cons).
      destruct (pop_store_spec s c q Hwf Hq) as (s1 & Hs1 & Hwf1 & Hq1).
      rewrite Hs1 in H. simplify_eq. rewrite Hq. split_and!; [done..|]. by rewrite <- app_assoc.
Qed.

(** ** Properties *)

(** C3. However the keyboard interrupt falls between the steps of [pop_scancode], the
    terminal pops exactly the accepted scancodes, in their order; a scancode is dropped
    only when 255 are waiting; the handler never meets the lock held, and neither side
    ever panics. *)
Theorem keyboard_fifo evs w :
  keyboard_run evs w →
  accepted evs = popped evs ++ ring_queue (kb_ring w) ∧
  (∀ c evs', evs = evs' ++ [Dropped c] → zlen (ring_queue (kb_ring w)) = 255) ∧
  (kb_irq w = true → ∀ c, ∃ ev w', key_press c w ev w' ∧ (ev = Accepted c ∨ ev = Dropped c)) ∧
  (∃ ev w', pop_step w ev w').
Proof.
  intros Hr. pose proof (keyboard_run_ok _ _ Hr) as (Hwf & Hpc & Ha).
  split; [done|]. split_and!.
  - intros c evs' He. rewrite ring_queue_length. inversion Hr as [|evs0 w0 c0 ev w1 Hr0 Hs|evs0 w0 ev w1 Hr0 Hs]; subst.
    + by destruct evs'.
    + apply app_inj_tail in H as [-> ->]. inversion Hs; subst; cbn [kb_ring] in *.
      destruct (keyboard_run_ok _ _ Hr0) as (Hwf0 & _). cbn [kb_ring] in Hwf0.
      apply ring_full in H0; [|done]. rewrite (push_full _ _ Hwf0 H0) in H3. by simplify_eq.
    + apply app_inj_tail in H as [-> ->]. inversion Hs.
  - intros Hi c. destruct w as [s pc i l]. cbn in Hi. subst i. cbn [kb_ring] in *.
    assert (l = false) as -> by (destruct pc; unfold pc_ok in Hpc; cbn in Hpc; naive_solver).
    destruct (decide (next_slot (SCANCODE_TAIL s) = SCANCODE_HEAD s)) as [Hf|Hf].
    + eexists _, _. split; [|by right]. apply press_full; [done|].
      apply push_full; [done|]. by apply ring_full.
    + pose proof (ring_count_range s). rewrite (ring_full s Hwf) in Hf.
      destruct (push_room s c Hwf ltac:(lia)) as (s' & Hs' & _).
      eexists _, _. split; [|by left]. apply press_room; [by rewrite ring_full|done].
  - destruct w as [s pc i l]. cbn [kb_ring] in *.
    destruct pc; unfold pc_ok in Hpc; cbn [kb_ring kb_pc kb_irq kb_lock] in Hpc.
    + pose proof (pop_check_spec s Hwf) as Hc. case_decide; eexists _, _; [by apply pop_empty|by apply pop_checked].
    + eexists _, _. apply pop_mask.
    + destruct Hpc as (_ & -> & _). eexists _, _. apply pop_lock.
    + destruct Hpc as (_ & _ & -> & Hne). destruct (ring_queue s) as [|c q] eqn:Hq; [done|].
      eexists _, _. apply pop_byte. by eapply pop_read_spec.
    + eexists _, _. apply pop_unlock.
    + eexists _, _. apply pop_unmask.
    + destruct Hpc as (_ & _ & -> & (q & Hq)%head_cons).
      destruct (pop_store_spec s scancode q Hwf Hq) as (s' & Hs' & _). eexists _, _. by apply pop_done.
Qed.

Definition w_pressed : Scancodes := mkScancodes (<[0%nat := 30]> (zrepeat 256 0)) 0 1.

Lemma keyboard_fifo_witness :
  keyboard_run [Accepted 30; Quiet] (mkKeyboarding w_pressed (PChecked 0) true false) ∧
  accepted [Accepted 30; Quiet] = [30] ∧
  ∃ ev w', pop_step (mkKeyboarding w_pressed (PChecked 0) true false) ev w'.
Proof.
  assert (Hr : keyboard_run [Accepted 30; Quiet] (mkKeyboarding w_pressed (PChecked 0) true false)).
  { apply (run_pop [Accepted 30] (mkKeyboarding w_pressed PIdle true false)).
    - apply (run_press [] (mkKeyboarding Scancodes_new PIdle true false) 30); [apply run_start|].
      apply press_room; [by vm_compute|]. vm_compute. reflexivity.
    - apply pop_checked. vm_compute. reflexivity. }
  split; [exact Hr|]. split; [reflexivity|].
  destruct (keyboard_fifo _ _ Hr) as (_ & _ & _ & Hp). exact Hp.
Defined.
