(* ===== verification/Time.v ===== *)
(** * Ticks and sleeping (kernel/src/time/mod.rs, arch/idt.rs, interrupts/mod.rs)

    The programmable interval timer, the tick counter of the timer interrupt, and
    the sleep that waits on it. *)

From stdpp Require Import base numbers list gmap strings.
From S2P Require Import Prelude Ports Scancodes.

#[local] Open Scope Z_scope.
#[local] Open Scope rust_scope.

Definition PIT_FREQUENCY : Z := 1193182.
Definition TICK_RATE : Z := 100.
Definition PIT_DIVISOR : Z := PIT_FREQUENCY / TICK_RATE.
Definition PIT_CHANNEL0_PORT : Z := 0x40.
Definition PIT_COMMAND_PORT : Z := 0x43.

(** The statics of the module. *)
Record Clock := mkClock {
  TICK_COUNT : Z;
  UPTIME_MS : Z;
  PIT_INITIALIZED : bool;
}.

Definition Clock_new : Clock := mkClock 0 0 false.

Definition pit_init `{PortIO P} : M (Clock * P) unit := λ s,
  let '(c, p) := s in
  if PIT_INITIALIZED c then Ret (tt, s) else
  let divisor := wrap 16 PIT_DIVISOR in
  let divisor_lo := wrap 8 (Z.land divisor 0xFF) in
  let divisor_hi := wrap 8 (Z.land (Z.shiftr divisor 8) 0xFF) in
  match (_ ← outb PIT_COMMAND_PORT 0x34;
         _ ← outb PIT_CHANNEL0_PORT divisor_lo;
         outb PIT_CHANNEL0_PORT divisor_hi) p with
  | Ret (_, p) => Ret (tt, (mkClock (TICK_COUNT c) (UPTIME_MS c) true, p))
  | Panic => Panic
  | UB => UB
  | OutOfFuel => OutOfFuel
  end.

Definition tick (c : Clock) : Clock := mkClock (TICK_COUNT c +₆₄ 1) (UPTIME_MS c) (PIT_INITIALIZED c).
Definition ticks (c : Clock) : Z := TICK_COUNT c.
Definition uptime_ms (c : Clock) : Z := TICK_COUNT c *₆₄ (1000 / TICK_RATE).
Definition uptime_secs (c : Clock) : Z := uptime_ms c / 1000.
Definition tick_rate : Z := TICK_RATE.

(** ** Interrupts *)

Inductive HardwareInterrupt :=
  | Timer
  | Keyboard
  | Cascade
  | Serial2
  | Serial1.

Definition PIC_1_OFFSET : Z := 32.

Definition as_u8 (i : HardwareInterrupt) : Z :=
  match i with
  | Timer => PIC_1_OFFSET
  | Keyboard => PIC_1_OFFSET + 1
  | Cascade => PIC_1_OFFSET + 2
  | Serial2 => PIC_1_OFFSET + 3
  | Serial1 => PIC_1_OFFSET + 4
  end.

(** The interrupt controllers of the crate [pic8259]: the end of an interrupt, and
    [initialize]. *)
Class Pics (P : Type) := {
  notify_end_of_interrupt : Z → M P unit;
  pics_initialize : M P unit;
}.

(** What the handlers work on: the clock, the scancode ring and the machine. *)
Record IrqState (P : Type) := mkIrq { irq_clock : Clock; irq_ring : Scancodes; irq_machine : P }.
Arguments mkIrq {P} _ _ _.
Arguments irq_clock {P} _.
Arguments irq_ring {P} _.
Arguments irq_machine {P} _.

Section Handlers.
Context `{PortIO P} `{Pics P}.

Definition irq_port {A} (m : M P A) : M (IrqState P) A := λ s,
  match m (irq_machine s) with
  | Ret (a, p) => Ret (a, mkIrq (irq_clock s) (irq_ring s) p)
  | Panic => Panic
  | UB => UB
  | OutOfFuel => OutOfFuel
  end.

Definition irq_push (c : Z) : M (IrqState P) unit := λ s,
  match push_scancode c (irq_ring s) with
  | Ret (_, r) => Ret (tt, mkIrq (irq_clock s) r (irq_machine s))
  | Panic => Panic
  | UB => UB
  | OutOfFuel => OutOfFuel
  end.

Definition timer_interrupt_handler : M (IrqState P) unit :=
  _ ← modify (λ s, mkIrq (tick (irq_clock s)) (irq_ring s) (irq_machine s));
  irq_port (outb 0x20 0x20).

Definition keyboard_interrupt_handler : M (IrqState P) unit :=
  scancode ← irq_port (inb 0x60);
  _ ← irq_push scancode;
  irq_port (notify_end_of_interrupt (as_u8 Keyboard)).

Definition serial_interrupt_handler : M (IrqState P) unit :=
  irq_port (notify_end_of_interrupt (as_u8 Serial1)).

End Handlers.

(** ** Sleeping *)

(** Each [hlt] ends with an interrupt; [wakes] tells, one after the other, which of
    them are timer ticks. [OutOfFuel] when the interrupts end before the sleep. *)
Fixpoint sleep_loop (wakes : list bool) (end_ : Z) : M Clock unit :=
  c ← get;
  if TICK_COUNT c <? end_ then
    match wakes with
    | [] => liftO OutOfFuel
    | w :: wakes =>
        _ ← modify (if w : bool then tick else id);
        sleep_loop wakes end_
    end
  else mret tt.

Definition sleep_ms (ms : Z) (wakes : list bool) : M Clock unit :=
  let target_ticks := (ms *₆₄ TICK_RATE) / 1000 in
  if target_ticks =? 0 then mret tt else
  start ← gets TICK_COUNT;
  let end_ := start +₆₄ target_ticks in
  _ ← sleep_loop wakes end_;
  modify (λ c, mkClock (TICK_COUNT c) (UPTIME_MS c +₆₄ ms) (PIT_INITIALIZED c)).

(** ** Properties *)

(** The ticks among the interrupts. *)
Definition ticks_in (wakes : list bool) : Z := zlen (filter (λ w, w = true) wakes).

Lemma ticks_in_cons w wakes : ticks_in (w :: wakes) = (if w then 1 else 0) + ticks_in wakes.
Proof. unfold ticks_in. rewrite filter_cons. destruct w; case_decide; try done; rewrite ?zlen_cons; lia. Qed.

Lemma ticks_in_nonneg wakes : 0 ≤ ticks_in wakes.
Proof. apply zlen_nonneg. Qed.

Lemma sleep_loop_spec wakes end_ c :
  0 ≤ TICK_COUNT c → TICK_COUNT c ≤ end_ → end_ < 2 ^ 64 → end_ - TICK_COUNT c ≤ ticks_in wakes →
  sleep_loop wakes end_ c = Ret (tt, mkClock end_ (UPTIME_MS c) (PIT_INITIALIZED c)).
Proof.
  revert c. induction wakes as [|w wakes IH]; intros c H0 Hle Hend Ht; cbn [sleep_loop]; msteps.
  - change (ticks_in []) with 0 in Ht. destruct (Z.ltb_spec (TICK_COUNT c) end_); [lia|].
    assert (TICK_COUNT c = end_) as <- by lia. by destruct c.
  - destruct (Z.ltb_spec (TICK_COUNT c) end_).
    + rewrite ticks_in_cons in Ht. msteps. destruct w.
      * assert (Hw : TICK_COUNT c +₆₄ 1 = TICK_COUNT c + 1) by (apply wrap64_small; lia).
        rewrite IH; cbn [tick TICK_COUNT UPTIME_MS PIT_INITIALIZED]; rewrite ?Hw; (done || lia).
      * unfold id. apply IH; lia.
    + assert (TICK_COUNT c = end_) as <- by lia. by destruct c.
Qed.

(** Sleeping: once enough timer ticks arrive, however many other interrupts come in
    between, [sleep_ms] returns, at the tick [ms / 10] after the one it started at and
    not before; less than 10 milliseconds do not wait at all. *)
Theorem sleep_ms_waits ms wakes c :
  0 ≤ TICK_COUNT c → 0 ≤ ms → ms * TICK_RATE < 2 ^ 64 → TICK_COUNT c + ms / 10 < 2 ^ 64 →
  ms / 10 ≤ ticks_in wakes →
  sleep_ms ms wakes c =
    Ret (tt, if ms <? 10 then c
             else mkClock (TICK_COUNT c + ms / 10) (UPTIME_MS c +₆₄ ms) (PIT_INITIALIZED c)).
Proof.
  intros H0 Hms Hmul Hend Hw. unfold sleep_ms. rewrite (wrap64_small (ms * TICK_RATE)) by (unfold TICK_RATE in *; lia).
  assert (ms * TICK_RATE / 1000 = ms / 10) as ->.
  { unfold TICK_RATE. replace 1000 with (10 * 100) by lia. apply Z.div_mul_cancel_r; lia. }
  destruct (Z.eqb_spec (ms / 10) 0); destruct (Z.ltb_spec ms 10); try done; [dlia|dlia|]. msteps.
  assert (0 ≤ ms / 10) by (apply Z.div_pos; lia).
  rewrite wrap64_small by lia.
  rewrite (bind_Ret _ _ _ _ _ (sleep_loop_spec wakes (TICK_COUNT c + ms / 10) c ltac:(lia) ltac:(lia) Hend ltac:(lia))).
  done.
Qed.

Definition w_clock : Clock := mkClock 1000 0 true.

Lemma sleep_ms_waits_witness :
  sleep_ms 25 [true; false; true] w_clock = Ret (tt, mkClock 1002 25 true).
Proof.
  apply (sleep_ms_waits 25 [true; false; true] w_clock); vm_compute; (reflexivity || discriminate).
Defined.
