(* ===== verification/Terminal.v ===== *)
(** * The line editor of the terminal (kernel/src/terminal/mod.rs)

    [Terminal], [read_line] and the splitting of a line into words. A [String] is
    the list of its characters here (the length Rust reports is that of its UTF-8
    encoding); the scancode decoder of the crate [pc_keyboard] is the class
    [Keyboard], the serial port is reached through [PortIO]. *)

From stdpp Require Import base numbers list gmap strings.
From S2P Require Import Prelude ByteStr Ports Scancodes.

#[local] Open Scope Z_scope.
#[local] Open Scope rust_scope.

(** ** Characters *)

(** The UTF-8 encoding of a character. *)
Definition utf8_char (c : Z) : list Z :=
  if c <? 0x80 then [c]
  else if c <? 0x800 then [0xC0 + c / 64; 0x80 + c mod 64]
  else if c <? 0x10000 then [0xE0 + c / 4096; 0x80 + c / 64 mod 64; 0x80 + c mod 64]
  else [0xF0 + c / 262144; 0x80 + c / 4096 mod 64; 0x80 + c / 64 mod 64; 0x80 + c mod 64].

Definition utf8 (s : list Z) : list Z := s ≫= utf8_char.

(** [String::len] *)
Definition str_len (s : list Z) : Z := zlen (utf8 s).

(** [char::is_control] *)
Definition is_control (c : Z) : bool := (c <=? 0x1F) || in_range 0x7F 0x9F c.

(** [char::is_whitespace]: the Unicode property White_Space *)
Definition is_whitespace (c : Z) : bool :=
  in_range 0x09 0x0D c || (c =? 0x20) || (c =? 0x85) || (c =? 0xA0) || (c =? 0x1680) ||
  in_range 0x2000 0x200A c || in_range 0x2028 0x2029 c || (c =? 0x202F) || (c =? 0x205F) ||
  (c =? 0x3000).

Fixpoint trim_while (p : Z → bool) (s : list Z) : list Z :=
  match s with
  | [] => []
  | c :: s' => if p c then trim_while p s' else s
  end.

(** [str::trim] *)
Definition str_trim (s : list Z) : list Z :=
  rev (trim_while is_whitespace (rev (trim_while is_whitespace s))).

(** [str::split_whitespace]; [word] is the word being read. *)
Fixpoint split_words (word s : list Z) : list (list Z) :=
  match s with
  | [] => match word with [] => [] | _ => [word] end
  | c :: s =>
      if is_whitespace c
      then match word with [] => split_words [] s | _ => word :: split_words [] s end
      else split_words (word ++ [c]) s
  end.
Definition split_whitespace (s : list Z) : list (list Z) := split_words [] s.

(** [args.join(" ")] *)
Fixpoint join_words (l : list (list Z)) : list Z :=
  match l with
  | [] => []
  | [w] => w
  | w :: l => w ++ [space] ++ join_words l
  end.

(** ** The scancode decoder *)

Inductive KeyCode :=
  | ArrowUp
  | ArrowDown
  | OtherKey (code : Z).

Inductive DecodedKey :=
  | Unicode (c : Z)
  | RawKey (key : KeyCode).

(** A decoder [K] with events [E]: [Keyboard::new], [add_byte], [process_keyevent]. *)
Class Keyboard (K E : Type) := {
  kbd_new : K;
  add_byte : K → Z → result (option E) unit * K;
  process_keyevent : K → E → option DecodedKey * K;
}.

(** ** The terminal *)

Definition MAX_INPUT_LEN : Z := 256.
Definition MAX_HISTORY : Z := 50.

Record Terminal := mkTerminal {
  input_buffer : list Z;
  history : list (list Z);
  history_index : option Z;
  prompt : list Z;
}.

Definition Terminal_new : Terminal := mkTerminal [] [] None (bytes_of "arcadia> ").

Definition set_input (s : list Z) (t : Terminal) : Terminal :=
  mkTerminal s (history t) (history_index t) (prompt t).
Definition set_history (h : list (list Z)) (t : Terminal) : Terminal :=
  mkTerminal (input_buffer t) h (history_index t) (prompt t).
Definition set_index (i : option Z) (t : Terminal) : Terminal :=
  mkTerminal (input_buffer t) (history t) i (prompt t).

(** The terminal, the scancode ring, the machine behind the ports, and the bytes
    printed so far. *)
Record TermState (P : Type) := mkTS {
  ts_term : Terminal;
  ts_ring : Scancodes;
  ts_ports : P;
  ts_out : list Z;
}.
Arguments mkTS {P} _ _ _ _.
Arguments ts_term {P} _.
Arguments ts_ring {P} _.
Arguments ts_ports {P} _.
Arguments ts_out {P} _.

Section Terminal.
Context `{PortIO P} `{Keyboard K E}.

Definition upd_term (f : Terminal → Terminal) : M (TermState P) unit :=
  modify (λ s, mkTS (f (ts_term s)) (ts_ring s) (ts_ports s) (ts_out s)).

(** [serial_print!] of the bytes [b] *)
Definition print (b : list Z) : M (TermState P) unit :=
  modify (λ s, mkTS (ts_term s) (ts_ring s) (ts_ports s) (ts_out s ++ b)).

Definition on_ring {A} (m : M Scancodes A) : M (TermState P) A := λ s,
  match m (ts_ring s) with
  | Ret (a, r) => Ret (a, mkTS (ts_term s) r (ts_ports s) (ts_out s))
  | Panic => Panic
  | UB => UB
  | OutOfFuel => OutOfFuel
  end.

Definition on_ports {A} (m : M P A) : M (TermState P) A := λ s,
  match m (ts_ports s) with
  | Ret (a, p) => Ret (a, mkTS (ts_term s) (ts_ring s) p (ts_out s))
  | Panic => Panic
  | UB => UB
  | OutOfFuel => OutOfFuel
  end.

Definition serial_read_byte : M P (option Z) :=
  lsr ← inb 0x3FD;
  if negb (Z.land lsr 1 =? 0) then
    data ← inb 0x3F8;
    mret (Some data)
  else mret None.

(** [history.push(line); if history.len() > MAX_HISTORY { history.remove(0); }] *)
Definition push_history (line : list Z) (h : list (list Z)) : list (list Z) :=
  let h := h ++ [line] in
  if MAX_HISTORY <? zlen h then drop 1 h else h.

(** The end of a line. *)
Definition submit_line (t : Terminal) : Terminal :=
  match input_buffer t with
  | [] => t
  | line => set_index None (set_history (push_history line (history t)) t)
  end.

Definition end_line : M (TermState P) bool :=
  _ ← print [10];
  _ ← upd_term submit_line;
  mret true.

(** [if self.input_buffer.pop().is_some() { serial_print!(..) }] *)
Definition backspace : M (TermState P) bool :=
  s ← get;
  match last (input_buffer (ts_term s)) with
  | Some _ =>
      _ ← upd_term (λ t, set_input (take (length (input_buffer t) - 1) (input_buffer t)) t);
      _ ← print [8; 32; 8];
      mret false
  | None => mret false
  end.

Definition insert_char (c : Z) : M (TermState P) bool :=
  s ← get;
  if str_len (input_buffer (ts_term s)) <? MAX_INPUT_LEN then
    _ ← upd_term (λ t, set_input (input_buffer t ++ [c]) t);
    _ ← print (utf8_char c);
    mret false
  else mret false.

(** The answer is true when the line is finished. *)
Definition on_unicode (c : Z) : M (TermState P) bool :=
  if c =? 10 then end_line
  else if c =? 8 then backspace
  else if negb (is_control c) then insert_char c
  else mret false.

Definition arrow_up (t : Terminal) : Terminal :=
  match history_index t with
  | Some i => if 0 <? i then set_index (Some (i - 1)) t else t
  | None =>
      match history t with
      | [] => t
      | _ => set_index (Some (zlen (history t) - 1)) t
      end
  end.

Definition arrow_down (t : Terminal) : Terminal :=
  match history_index t with
  | Some i => if i +₆₄ 1 <? zlen (history t) then set_index (Some (i + 1)) t else set_index None t
  | None => t
  end.

Definition on_rawkey (key : KeyCode) : M (TermState P) bool :=
  match key with
  | ArrowUp => _ ← upd_term arrow_up; mret false
  | ArrowDown => _ ← upd_term arrow_down; mret false
  | OtherKey _ => mret false
  end.

Definition on_serial (c : Z) : M (TermState P) bool :=
  if (c =? 13) || (c =? 10) then end_line
  else if (c =? 8) || (c =? 0x7F) then backspace
  else if (0x20 <=? c) && (c <? 0x7F) then insert_char c
  else mret false.

(** One turn of the loop of [read_line]. *)
Definition poll_line (kbd : K) : M (TermState P) (K * bool) :=
  o ← on_ring pop_scancode;
  match o with
  | Some scancode =>
      let '(r, kbd) := add_byte kbd scancode in
      match r with
      | Ok (Some key_event) =>
          let '(k, kbd) := process_keyevent kbd key_event in
          match k with
          | Some (Unicode c) => b ← on_unicode c; mret (kbd, b)
          | Some (RawKey key) => b ← on_rawkey key; mret (kbd, b)
          | None => mret (kbd, false)
          end
      | _ => mret (kbd, false)
      end
  | None =>
      o ← on_ports serial_read_byte;
      match o with
      | Some c => b ← on_serial c; mret (kbd, b)
      | None => mret (kbd, false)
      end
  end.

(** The loop, given for each turn the scancodes that the keyboard interrupt
    handler pushes before it; [OutOfFuel] when they end before the line. *)
Fixpoint read_loop (arrivals : list (list Z)) (kbd : K) : M (TermState P) unit :=
  match arrivals with
  | [] => liftO OutOfFuel
  | codes :: arrivals =>
      _ ← mfor codes (λ c, on_ring (push_scancode c));
      '(kbd, finished) ← poll_line kbd;
      if finished : bool then mret tt else read_loop arrivals kbd
  end.

Definition read_line (arrivals : list (list Z)) : M (TermState P) unit :=
  _ ← upd_term (set_input []);
  read_loop arrivals kbd_new.

End Terminal.
