(* ===== verification/TerminalTheorems.v ===== *)
(** * Properties of the terminal

    The invariant of the line editor under any input, what a line typed on the
    serial port becomes, and the words a line is split into. *)

From stdpp Require Import base numbers list gmap strings.
From S2P Require Import Prelude ByteStr Ports Scancodes Terminal.

#[local] Open Scope Z_scope.
#[local] Open Scope rust_scope.

(** ** Computations of the terminal *)

Lemma utf8_char_length c : 1 ≤ zlen (utf8_char c) ≤ 4.
Proof. unfold utf8_char, zlen. repeat case_match; cbn [length]; lia. Qed.

Lemma str_len_nonneg s : 0 ≤ str_len s.
Proof. apply zlen_nonneg. Qed.

Lemma str_len_app s t : str_len (s ++ t) = str_len s + str_len t.
Proof. unfold str_len, utf8. by rewrite bind_app, zlen_app. Qed.

Lemma str_len_one c : str_len [c] = zlen (utf8_char c).
Proof. unfold str_len, utf8. cbn. by rewrite app_nil_r. Qed.

Lemma str_len_take n s : str_len (take n s) ≤ str_len s.
Proof.
  rewrite <- (take_drop n s) at 2. rewrite str_len_app. pose proof (str_len_nonneg (drop n s)). lia.
Qed.

Lemma str_len_ascii s : Forall (λ c, 0 ≤ c < 128) s → str_len s = zlen s.
Proof.
  induction 1 as [|c s Hc _ IH]; [done|]. change (c :: s) with ([c] ++ s).
  rewrite str_len_app, zlen_app, IH, str_len_one. unfold utf8_char.
  destruct (Z.ltb_spec c 0x80); [done|lia].
Qed.

(** ** The invariant *)

(** A line is at most one character longer than the limit of the editor. *)
Definition line_ok (l : list Z) : Prop := str_len l < MAX_INPUT_LEN + 4.

Record term_ok (t : Terminal) : Prop := {
  input_ok : line_ok (input_buffer t);
  history_len : zlen (history t) ≤ MAX_HISTORY;
  history_lines : Forall (λ l, l ≠ [] ∧ line_ok l) (history t);
  index_ok : ∀ i, history_index t = Some i → 0 ≤ i < zlen (history t);
}.

Lemma Terminal_new_ok : term_ok Terminal_new.
Proof. split; [done|done|constructor|done]. Qed.

Lemma push_history_ok line h :
  zlen h ≤ MAX_HISTORY → Forall (λ l, l ≠ [] ∧ line_ok l) h → line ≠ [] → line_ok line →
  zlen (push_history line h) ≤ MAX_HISTORY ∧ Forall (λ l, l ≠ [] ∧ line_ok l) (push_history line h).
Proof.
  intros Hlen Hall Hne Hline. unfold push_history.
  assert (Forall (λ l, l ≠ [] ∧ line_ok l) (h ++ [line])) by (apply Forall_app; auto).
  destruct (Z.ltb_spec MAX_HISTORY (zlen (h ++ [line]))); [|split; [lia|done]].
  split; [|by apply Forall_drop]. rewrite zlen_drop, zlen_app. change (zlen [line]) with 1.
  unfold MAX_HISTORY in *. lia.
Qed.

Lemma submit_line_ok t : term_ok t → term_ok (submit_line t).
Proof.
  intros [Hi Hl Hh Hx]. unfold submit_line. destruct (input_buffer t) as [|c l] eqn:Hb; [by split; rewrite ?Hb|].
  destruct (push_history_ok (c :: l) (history t) Hl Hh ltac:(done) Hi) as [Hl' Hh'].
  split; cbn; [by rewrite Hb|done|done|done].
Qed.

Lemma set_input_ok t l : term_ok t → line_ok l → term_ok (set_input l t).
Proof. intros [Hi Hl Hh Hx] Hline. by split. Qed.

Lemma arrow_up_ok t : term_ok t → term_ok (arrow_up t).
Proof.
  intros [Hi Hl Hh Hx]. unfold arrow_up. destruct (history_index t) as [i|] eqn:Hix.
  - specialize (Hx i eq_refl). destruct (Z.ltb_spec 0 i); [|split; rewrite ?Hix; naive_solver].
    split; cbn; [done..|]. intros j [= <-]. lia.
  - destruct (history t) as [|l h] eqn:Hhist; [split; rewrite ?Hhist, ?Hix; done|].
    split; cbn; rewrite ?Hhist; [done..|]. intros j [= <-]. rewrite zlen_cons. pose proof (zlen_nonneg h). lia.
Qed.

Lemma arrow_down_ok t : term_ok t → term_ok (arrow_down t).
Proof.
  intros [Hi Hl Hh Hx]. unfold arrow_down. destruct (history_index t) as [i|] eqn:Hix;
    [|split; rewrite ?Hix; naive_solver].
  specialize (Hx i eq_refl). unfold MAX_HISTORY in Hl.
  rewrite wrap64_small by lia.
  destruct (Z.ltb_spec (i + 1) (zlen (history t))); split; cbn; [done..| |done|done|done|done].
  intros j [= <-]. lia.
Qed.

Create HintDb terminal.
#[export] Hint Resolve submit_line_ok set_input_ok arrow_up_ok arrow_down_ok : terminal.

Section Invariant.
Context `{PortIO P} `{Keyboard K E}.

(** The ports always answer. *)
Definition ports_answer : Prop := ∀ port (p : P), ∃ v p', inb port p = Ret (v, p').

Definition ts_ok (s : TermState P) : Prop := term_ok (ts_term s) ∧ ring_wf (ts_ring s).

Lemma on_ring_Ret {A} (m : M Scancodes A) (s : TermState P) a r :
  m (ts_ring s) = Ret (a, r) → on_ring m s = Ret (a, mkTS (ts_term s) r (ts_ports s) (ts_out s)).
Proof. intros Hm. unfold on_ring. by rewrite Hm. Qed.

Lemma on_ports_Ret {A} (m : M P A) (s : TermState P) a p :
  m (ts_ports s) = Ret (a, p) → on_ports m s = Ret (a, mkTS (ts_term s) (ts_ring s) p (ts_out s)).
Proof. intros Hm. unfold on_ports. by rewrite Hm. Qed.

(** [m] keeps the invariant and always returns. *)
Definition keeps {A} (m : M (TermState P) A) : Prop :=
  ∀ s, ts_ok s → ∃ a s', m s = Ret (a, s') ∧ ts_ok s'.

Lemma keeps_ret {A} (a : A) : keeps (mret a).
Proof. intros s Hs. by exists a, s. Qed.

Lemma keeps_bind {A B} (m : M (TermState P) A) (k : A → M (TermState P) B) :
  keeps m → (∀ a, keeps (k a)) → keeps (m ≫= k).
Proof.
  intros Hm Hk s Hs. destruct (Hm s Hs) as (a & s1 & Hr & Hs1).
  rewrite (bind_Ret _ _ _ _ _ Hr). by apply Hk.
Qed.

Lemma keeps_get {A} (k : TermState P → M (TermState P) A) : (∀ s, ts_ok s → ∃ a s', k s s = Ret (a, s') ∧ ts_ok s') → keeps (get ≫= k).
Proof. intros Hk s Hs. rewrite bind_get. by apply Hk. Qed.

Lemma keeps_term f : (∀ t, term_ok t → term_ok (f t)) → keeps (upd_term f).
Proof. intros Hf s [Ht Hr]. eexists _, _. split; [reflexivity|]. split; [by apply Hf|done]. Qed.

Lemma keeps_print b : keeps (print b).
Proof. intros s [Ht Hr]. eexists _, _. split; [reflexivity|]. by split. Qed.

Lemma keeps_push c : keeps (on_ring (push_scancode c)).
Proof.
  intros s [Ht Hr]. unfold on_ring. pose proof (ring_count_range (ts_ring s)).
  destruct (decide (ring_count (ts_ring s) = 255)) as [Hf|].
  - rewrite (push_full _ c Hr Hf). eexists _, _. split; [reflexivity|]. by split.
  - destruct (push_room (ts_ring s) c Hr ltac:(lia)) as (r & -> & ? & _).
    eexists _, _. split; [reflexivity|]. by split.
Qed.

Lemma pop_scancode_spec r :
  ring_wf r → ∃ r', pop_scancode r = Ret (head (ring_queue r), r') ∧ ring_wf r' ∧
    ring_queue r' = tail (ring_queue r).
Proof.
  intros Hr. unfold pop_scancode. rewrite (bind_Ret _ _ _ _ _ (pop_check_spec r Hr)).
  case_decide as Hq; [exists r; by rewrite Hq|].
  destruct (ring_queue r) as [|c q] eqn:Hc; [done|].
  rewrite (bind_Ret _ _ _ _ _ (pop_read_spec r c q Hr Hc)).
  destruct (pop_store_spec r c q Hr Hc) as (r' & Hs & ? & ?).
  rewrite (bind_Ret _ _ _ _ _ Hs). by exists r'.
Qed.

Lemma keeps_pop : keeps (on_ring pop_scancode).
Proof.
  intros s [Ht Hr]. unfold on_ring. destruct (pop_scancode_spec _ Hr) as (r & -> & ? & _).
  eexists _, _. split; [reflexivity|]. by split.
Qed.

Lemma keeps_ports {A} (m : M P A) : (∀ p, ∃ a p', m p = Ret (a, p')) → keeps (on_ports m).
Proof.
  intros Hm s [Ht Hr]. unfold on_ports. destruct (Hm (ts_ports s)) as (a & p' & ->).
  eexists _, _. split; [reflexivity|]. by split.
Qed.

Lemma serial_read_answers : ports_answer → ∀ p : P, ∃ a p', serial_read_byte p = Ret (a, p').
Proof.
  intros Hp p. unfold serial_read_byte. destruct (Hp 0x3FD p) as (v & p1 & Hv).
  rewrite (bind_Ret _ _ _ _ _ Hv). destruct (negb (Z.land v 1 =? 0)).
  - destruct (Hp 0x3F8 p1) as (c & p2 & Hc). rewrite (bind_Ret _ _ _ _ _ Hc). by eexists _, _.
  - by eexists _, _.
Qed.

(** Step through a computation whose parts keep the invariant. *)
Ltac keep_steps :=
  repeat first
    [ solve [auto with terminal] | apply keeps_ret | apply keeps_bind; [|intros] | apply keeps_print | apply keeps_push
    | apply keeps_pop | apply keeps_term; solve [auto with terminal]
    | case_match ].

Lemma keeps_end_line : keeps end_line.
Proof. unfold end_line. keep_steps. Qed.

Lemma keeps_backspace : keeps backspace.
Proof.
  apply keeps_get. intros s Hs. destruct (last _); [|by apply keeps_ret].
  apply keeps_bind; [|intros; keep_steps|done]. apply keeps_term. intros t Ht. apply set_input_ok; [done|].
  destruct Ht as [Hi _ _ _]. unfold line_ok in *.
  pose proof (str_len_take (length (input_buffer t) - 1) (input_buffer t)). lia.
Qed.

Lemma keeps_insert_char c : keeps (insert_char c).
Proof.
  apply keeps_get. intros s Hs. destruct (Z.ltb_spec (str_len (input_buffer (ts_term s))) MAX_INPUT_LEN) as [Hlt|];
    [|by apply keeps_ret].
  unfold upd_term, print. msteps. eexists _, _. split; [reflexivity|]. destruct Hs as [Ht Hr].
  split; [|done]. cbn [ts_term]. apply set_input_ok; [done|]. unfold line_ok.
  rewrite str_len_app, str_len_one. pose proof (utf8_char_length c). lia.
Qed.

#[local] Hint Resolve keeps_end_line keeps_backspace keeps_insert_char : terminal.

Lemma keeps_poll kbd : ports_answer → keeps (poll_line kbd).
Proof.
  intros Hp. unfold poll_line. apply keeps_bind; [apply keeps_pop|]. intros [scancode|].
  - destruct (add_byte kbd scancode) as [[[e|]|] k]; [|by keep_steps..].
    destruct (process_keyevent k e) as [[[c|key]|] k']; unfold on_unicode, on_rawkey; keep_steps.
  - apply keeps_bind; [apply keeps_ports; by apply serial_read_answers|].
    intros [c|]; unfold on_serial; keep_steps.
Qed.

Lemma read_loop_keeps arrivals kbd s :
  ports_answer → ts_ok s →
  read_loop arrivals kbd s = OutOfFuel ∨ ∃ s', read_loop arrivals kbd s = Ret (tt, s') ∧ ts_ok s'.
Proof.
  intros Hp. revert kbd s. induction arrivals as [|codes arrivals IH]; intros kbd s Hs; [by left|].
  cbn [read_loop].
  assert (Hk : keeps (mfor codes (λ c, on_ring (push_scancode c)))).
  { clear -H. induction codes as [|c codes IHc]; cbn [mfor]; keep_steps. }
  destruct (Hk s Hs) as ([] & s1 & Hr1 & Hs1). rewrite (bind_Ret _ _ _ _ _ Hr1).
  destruct (keeps_poll kbd Hp s1 Hs1) as ([kbd' fin] & s2 & Hr2 & Hs2).
  rewrite (bind_Ret _ _ _ _ _ Hr2). cbn beta match. destruct fin; [right; by exists s2|by apply IH].
Qed.

(** C31. The terminal's invariant: whatever scancodes and serial bytes arrive, reading a
    line never panics, the input stays below 260 bytes, the history holds at most 50
    non-empty lines, and the history index, when there is one, is inside it. *)
Theorem terminal_invariant arrivals s :
  ports_answer → ts_ok s →
  read_line arrivals s = OutOfFuel ∨ ∃ s', read_line arrivals s = Ret (tt, s') ∧ ts_ok s'.
Proof.
  intros Hp [Ht Hr]. unfold read_line, upd_term. msteps. apply read_loop_keeps; [done|].
  split; [|done]. by apply set_input_ok.
Qed.

End Invariant.

(** ** A line typed on the serial port *)

(** A serial port with received bytes: bit 0 of the line status register (0x3FD)
    tells whether one is waiting, the data register (0x3F8) delivers it. *)
Class SerialPort (P : Type) `{PortIO P} := {
  received : P → list Z;
  status_ready : ∀ p c q, received p = c :: q →
    ∃ v p', inb 0x3FD p = Ret (v, p') ∧ Z.land v 1 ≠ 0 ∧ received p' = c :: q;
  status_empty : ∀ p, received p = [] →
    ∃ v p', inb 0x3FD p = Ret (v, p') ∧ Z.land v 1 = 0 ∧ received p' = [];
  data_register : ∀ p c q, received p = c :: q →
    ∃ p', inb 0x3F8 p = Ret (c, p') ∧ received p' = q;
}.

(** What one byte does to the line. *)
Definition edit (line : list Z) (b : Z) : list Z :=
  if (b =? 8) || (b =? 0x7F) then take (length line - 1) line
  else if (0x20 <=? b) && (b <? 0x7F) && (zlen line <? 256) then line ++ [b]
  else line.

(** What the terminal sends back for it, and for a sequence of bytes. *)
Definition echo (line : list Z) (b : Z) : list Z :=
  if (b =? 8) || (b =? 0x7F) then match line with [] => [] | _ => [8; 32; 8] end
  else if (0x20 <=? b) && (b <? 0x7F) && (zlen line <? 256) then [b]
  else [].

Fixpoint echoes (line bs : list Z) : list Z :=
  match bs with
  | [] => []
  | b :: bs => echo line b ++ echoes (edit line b) bs
  end.

Definition is_eol (b : Z) : Prop := b = 13 ∨ b = 10.

Definition ascii_text (l : list Z) : Prop := Forall (λ c, 0 ≤ c < 128) l.

Lemma edit_ascii line b : ascii_text line → ascii_text (edit line b).
Proof.
  intros Ha. unfold edit. destruct ((b =? 8) || (b =? 0x7F)); [by apply Forall_take|].
  destruct ((0x20 <=? b) && (b <? 0x7F) && (zlen line <? 256)) eqn:Hb; [|done].
  apply Forall_app; split; [done|]. constructor; [lia|constructor].
Qed.

Section Serial.
Context `{SerialPort P} `{Keyboard K E}.

Lemma serial_read_spec (p : P) c q :
  received p = c :: q → ∃ p', serial_read_byte p = Ret (Some c, p') ∧ received p' = q.
Proof.
  intros Hr. unfold serial_read_byte. destruct (status_ready p c q Hr) as (v & p1 & Hv & Hbit & Hr1).
  rewrite (bind_Ret _ _ _ _ _ Hv). destruct (Z.eqb_spec (Z.land v 1) 0); [done|]. cbn [negb].
  destruct (data_register p1 c q Hr1) as (p2 & Hd & Hr2). exists p2.
  rewrite (bind_Ret _ _ _ _ _ Hd). done.
Qed.

(** A terminal waiting for serial bytes only. *)
Record serial_state (line : list Z) (t0 : Terminal) (pending o : list Z) (s : TermState P) : Prop := {
  ss_input : input_buffer (ts_term s) = line;
  ss_history : history (ts_term s) = history t0;
  ss_index : history_index (ts_term s) = history_index t0;
  ss_prompt : prompt (ts_term s) = prompt t0;
  ss_ring : ring_wf (ts_ring s);
  ss_queue : ring_queue (ts_ring s) = [];
  ss_pending : received (ts_ports s) = pending;
  ss_out : ts_out s = o;
}.

Lemma poll_serial kbd line t0 c q o s :
  serial_state line t0 (c :: q) o s →
  ∃ s1, poll_line kbd s = ((on_serial c) ≫= λ b, mret (kbd, b)) s1 ∧ serial_state line t0 q o s1.
Proof.
  intros [Hi Hh Hx Hp Hr Hq Hc Ho]. unfold poll_line.
  destruct (pop_scancode_spec _ Hr) as (r & Hpop & Hr' & Hq'). rewrite Hq in Hpop, Hq'. cbn in Hpop, Hq'.
  destruct (serial_read_spec (ts_ports s) c q Hc) as (p' & Hs & Hp').
  exists (mkTS (ts_term s) r p' (ts_out s)). split; [|by split].
  rewrite (bind_Ret _ _ _ _ _ (on_ring_Ret _ s _ _ Hpop)).
  set (s1 := mkTS (ts_term s) r (ts_ports s) (ts_out s)).
  rewrite (bind_Ret _ _ _ _ _ (on_ports_Ret _ s1 _ _ Hs)). done.
Qed.

Lemma backspace_spec line t0 q o s :
  serial_state line t0 q o s →
  ∃ s', backspace s = Ret (false, s') ∧
    serial_state (take (length line - 1) line) t0 q (o ++ match line with [] => [] | _ => [8; 32; 8] end) s'.
Proof.
  intros [Hi Hh Hx Hp Hr Hq Hc Ho]. unfold backspace. msteps. rewrite Hi.
  destruct (last line) as [z|] eqn:Hl; unfold upd_term, print; msteps.
  - eexists. split; [reflexivity|]. destruct line; [done|]. split; cbn; rewrite ?Hi, ?Ho; done.
  - apply last_None in Hl as ->. exists s. split; [done|]. split; try done. by rewrite app_nil_r.
Qed.

Lemma insert_char_spec line t0 q o c s :
  ascii_text line → c < 128 → serial_state line t0 q o s →
  ∃ s', insert_char c s = Ret (false, s') ∧
    serial_state (if zlen line <? 256 then line ++ [c] else line) t0 q
      (o ++ if zlen line <? 256 then [c] else []) s'.
Proof.
  intros Ha Hlt [Hi Hh Hx Hp Hr Hq Hc Ho]. unfold insert_char. msteps.
  rewrite Hi, (str_len_ascii line Ha). unfold MAX_INPUT_LEN.
  destruct (zlen line <? 256); unfold upd_term, print; msteps; eexists; (split; [reflexivity|]);
    split; cbn; rewrite ?Hi, ?Ho, ?app_nil_r; try done.
  unfold utf8_char. by destruct (Z.ltb_spec c 0x80); [|lia].
Qed.

Lemma on_serial_edits line t0 q o c s :
  ascii_text line → ¬ is_eol c → serial_state line t0 q o s →
  ∃ s', on_serial c s = Ret (false, s') ∧ serial_state (edit line c) t0 q (o ++ echo line c) s'.
Proof.
  intros Ha Hc Hs. unfold on_serial, edit, echo, is_eol in *.
  destruct (Z.eqb_spec c 13); [lia|]. destruct (Z.eqb_spec c 10); [lia|]. cbn [orb].
  destruct ((c =? 8) || (c =? 0x7F)); [by apply backspace_spec|].
  destruct ((0x20 <=? c) && (c <? 0x7F)) eqn:Hc'; cbn [andb].
  - destruct (insert_char_spec line t0 q o c s Ha ltac:(lia) Hs) as (s' & ? & Hs'). exists s'. split; [done|].
    by destruct (zlen line <? 256).
  - exists s. by rewrite app_nil_r.
Qed.

Lemma on_serial_end line t0 q o c s :
  is_eol c → serial_state line t0 q o s →
  ∃ p, on_serial c s = Ret (true, mkTS (submit_line (ts_term s)) (ts_ring s) p (o ++ [10])) ∧
    received p = q.
Proof.
  intros Hc [Hi Hh Hx Hp Hr Hq Hpend Ho]. unfold on_serial, is_eol in *.
  assert ((c =? 13) || (c =? 10) = true) as -> by (destruct Hc as [->| ->]; done).
  unfold end_line, print, upd_term. msteps. rewrite Ho. by eexists.
Qed.

Lemma read_serial_loop kbd t0 bs e rest line o s :
  Forall (λ b, ¬ is_eol b) bs → is_eol e → ascii_text line →
  serial_state line t0 (bs ++ e :: rest) o s →
  ∃ s1 p, read_loop (replicate (length bs + 1) []) kbd s =
      Ret (tt, mkTS (submit_line (ts_term s1)) (ts_ring s1) p (o ++ echoes line bs ++ [10])) ∧
    (∃ o1, serial_state (foldl edit line bs) t0 rest o1 s1) ∧ received p = rest.
Proof.
  intros Hbs He. revert line o s. induction Hbs as [|b bs Hb _ IH]; intros line o s Ha Hs;
    cbn [length Nat.add replicate read_loop mfor]; rewrite bind_mret, (bind_Ret_cont (poll_line kbd)).
  - destruct (poll_serial kbd line t0 e rest o s Hs) as (s1 & -> & Hs1).
    destruct (on_serial_end line t0 rest o e s1 He Hs1) as (p & Hr & Hp).
    exists s1, p. rewrite (bind_Ret _ _ _ _ _ Hr). split; [done|]. split; [by exists o|done].
  - destruct (poll_serial kbd line t0 b (bs ++ e :: rest) o s Hs) as (s1 & -> & Hs1).
    destruct (on_serial_edits line t0 (bs ++ e :: rest) o b s1 Ha Hb Hs1) as (s2 & Hr & Hs2).
    rewrite (bind_Ret _ _ _ _ _ Hr). cbn beta iota. unfold mret at 1, M_ret at 1.
    destruct (IH (edit line b) (o ++ echo line b) s2) as (s3 & p & Hl & Hrest); [by apply edit_ascii|done|].
    exists s3, p. rewrite <- app_assoc in Hl. cbn [echoes]. rewrite <- app_assoc. done.
Qed.

(** A line typed on the serial port: the bytes up to the first carriage return or
    line feed are edited into the line (printable characters are added while it is
    shorter than 256, backspace and delete remove the last one, the rest is ignored)
    and echoed, a line that is not empty goes to the history, and the bytes after it
    stay unread. *)
Lemma serial_line_read s bs e rest :
  ring_wf (ts_ring s) → ring_queue (ts_ring s) = [] →
  Forall (λ b, ¬ is_eol b) bs → is_eol e → received (ts_ports s) = bs ++ e :: rest →
  let line := foldl edit [] bs in
  ∃ t r p, read_line (replicate (length bs + 1) []) s =
      Ret (tt, mkTS t r p (ts_out s ++ echoes [] bs ++ [10])) ∧
    input_buffer t = line ∧
    history t = (if decide (line = []) then history (ts_term s) else push_history line (history (ts_term s))) ∧
    prompt t = prompt (ts_term s) ∧ ring_wf r ∧ ring_queue r = [] ∧ received p = rest.
Proof.
  intros Hr Hq Hbs He Hp line. unfold read_line, upd_term. msteps.
  destruct (read_serial_loop kbd_new (ts_term s) bs e rest [] (ts_out s)
    (mkTS (set_input [] (ts_term s)) (ts_ring s) (ts_ports s) (ts_out s)))
    as (s1 & p & Hl & [o1 [Hi Hh Hx Hpr Hr1 Hq1 _ _]] & Hrest); [done|done|constructor|by split|].
  exists (submit_line (ts_term s1)), (ts_ring s1), p. split; [done|]. unfold submit_line. rewrite Hi. fold line in Hi |- *.
  destruct line as [|c l] eqn:Hline; case_decide; try done. cbn. by rewrite Hi, Hh.
Qed.

End Serial.

(** ** Words *)

Definition word_ok (w : list Z) : Prop := w ≠ [] ∧ Forall (λ c, is_whitespace c = false) w.

Lemma split_words_ok word s :
  Forall (λ c, is_whitespace c = false) word → Forall word_ok (split_words word s).
Proof.
  revert word. induction s as [|c s IH]; intros word Hw; cbn [split_words].
  - destruct word; constructor; [by split|constructor].
  - destruct (is_whitespace c) eqn:Hc.
    + destruct word; [by apply IH|]. constructor; [by split|]. by apply IH.
    + apply IH, Forall_app. split; [done|]. by constructor.
Qed.

Lemma split_words_app word w s :
  Forall (λ c, is_whitespace c = false) w → split_words word (w ++ s) = split_words (word ++ w) s.
Proof.
  intros Hw. revert word. induction Hw as [|c w Hc _ IH]; intros word; cbn [app split_words].
  - by rewrite app_nil_r.
  - rewrite Hc, IH. by rewrite <- app_assoc.
Qed.

Lemma split_words_end s t : is_whitespace t = true → split_words [] (s ++ [t]) = split_words [] s.
Proof.
  intros Ht. cut (∀ word, split_words word (s ++ [t]) = split_words word s); [auto|].
  induction s as [|c s IH]; intros word; cbn [app split_words].
  - rewrite Ht. by destruct word.
  - destruct (is_whitespace c); [destruct word|]; by rewrite IH.
Qed.

Lemma split_trim_start s : split_whitespace (trim_while is_whitespace s) = split_whitespace s.
Proof.
  induction s as [|c s IH]; [done|]. cbn [trim_while]. unfold split_whitespace in *. cbn [split_words].
  destruct (is_whitespace c) eqn:Hc; [done|]. cbn [split_words]. by rewrite Hc.
Qed.

Lemma split_trim_end s : split_whitespace (rev (trim_while is_whitespace (rev s))) = split_whitespace s.
Proof.
  induction s as [|c s IH] using rev_ind; [done|]. rewrite rev_unit. cbn [trim_while].
  destruct (is_whitespace c) eqn:Hc; [|by rewrite <- rev_unit, rev_involutive].
  rewrite IH. unfold split_whitespace. by rewrite split_words_end.
Qed.

(** The words of a command line hold no white space and are not empty, trimming the
    line does not change them, and splitting words joined by single spaces gives them
    back: a command and its arguments reach their handler as they were typed. *)
Theorem command_words s ws :
  Forall word_ok (split_whitespace s) ∧
  split_whitespace (str_trim s) = split_whitespace s ∧
  (Forall word_ok ws → split_whitespace (join_words ws) = ws).
Proof.
  split; [by apply split_words_ok|]. split.
  { unfold str_trim. by rewrite split_trim_end, split_trim_start. }
  intros Hws. unfold split_whitespace. induction Hws as [|w ws [Hne Hw] Hws IH]; [done|].
  destruct ws as [|w' ws].
  - cbn [join_words]. rewrite <- (app_nil_r w) at 1. rewrite split_words_app by done.
    cbn. by destruct w.
  - change (join_words (w :: w' :: ws)) with (w ++ [space] ++ join_words (w' :: ws)).
    rewrite split_words_app by done. cbn [app split_words].
    change (is_whitespace space) with true. cbn iota. destruct w; [done|]. by rewrite IH.
Qed.

(** ** Witnesses *)

(** A serial line whose received bytes are the state; the ports that no serial byte
    comes from read 0. *)
#[export] Instance serial_ports : PortIO (list Z) := {
  inb port p :=
    if port =? 0x3FD then Ret (match p with [] => 0x60 | _ => 0x61 end, p)
    else if port =? 0x3F8 then match p with [] => Ret (0, p) | c :: q => Ret (c, q) end
    else Ret (0, p);
  outb _ _ p := Ret (tt, p);
  inw _ p := Ret (0, p);
  outw _ _ p := Ret (tt, p);
  inl _ p := Ret (0, p);
  outl _ _ p := Ret (tt, p);
}.

#[export] Program Instance serial_port : SerialPort (list Z) := { received p := p }.
Next Obligation. intros p c q ->. exists 0x61, (c :: q). done. Qed.
Next Obligation. intros p ->. exists 0x60, []. done. Qed.
Next Obligation. intros p c q ->. exists q. done. Qed.

(** A decoder that delivers every scancode as a character. *)
#[export] Instance plain_keyboard : Keyboard unit Z := {
  kbd_new := tt;
  add_byte k c := (Ok (Some c), k);
  process_keyevent k c := (Some (Unicode c), k);
}.

Definition w_typed : TermState (list Z) := mkTS Terminal_new Scancodes_new (bytes_of "lx" ++ [8; 115; 13]) [].

Lemma serial_answers : ports_answer (P := list Z).
Proof.
  intros port p. unfold inb, serial_ports. repeat case_match; by eexists _, _.
Qed.

Lemma w_typed_ok : ts_ok w_typed.
Proof. split; [exact Terminal_new_ok|apply Scancodes_new_wf]. Qed.

Lemma terminal_invariant_witness :
  ts_ok w_typed ∧
  (read_line [[]; []; [97]; []; []; []] w_typed = OutOfFuel ∨
   ∃ s', read_line [[]; []; [97]; []; []; []] w_typed = Ret (tt, s') ∧ ts_ok s').
Proof.
  split; [exact w_typed_ok|]. exact (terminal_invariant _ w_typed serial_answers w_typed_ok).
Defined.

Lemma command_words_witness :
  split_whitespace (join_words [bytes_of "write"; bytes_of "f"; bytes_of "hi"]) =
    [bytes_of "write"; bytes_of "f"; bytes_of "hi"].
Proof.
  destruct (command_words [] [bytes_of "write"; bytes_of "f"; bytes_of "hi"]) as (_ & _ & Hj).
  apply Hj. repeat constructor; done.
Defined.
