(* ===== verification/Vmm.v ===== *)
(** * The virtual memory manager (kernel/src/memory/vmm.rs)

    [VirtualMemoryManager] over the page tables of the class [PageMapper] and the
    global frame allocator. The state also logs the TLB invalidations issued. *)

From stdpp Require Import base numbers list gmap strings.
From S2P Require Import Prelude Regions FrameAllocator PhysMem Paging.

#[local] Open Scope Z_scope.
#[local] Open Scope rust_scope.

Definition PAGE_SIZE : Z := 4096.

Inductive VmmError :=
  | NotInitialized
  | AlreadyMapped
  | NotMapped
  | OutOfMemory
  | InvalidAddress
  | MapFailed
  | UnmapFailed
  | ParentEntryHugePage.

#[export] Instance VmmError_eq_dec : EqDecision VmmError.
Proof. solve_decision. Defined.

Definition VmmError_display (e : VmmError) : string :=
  match e with
  | NotInitialized => "VMM not initialized"
  | AlreadyMapped => "Page already mapped"
  | NotMapped => "Page not mapped"
  | OutOfMemory => "Out of memory for page tables"
  | InvalidAddress => "Invalid address (not page-aligned or out of range)"
  | MapFailed => "Page table mapping failed"
  | UnmapFailed => "Page table unmapping failed"
  | ParentEntryHugePage => "Parent entry is a huge page"
  end.

Record VmmStatistics := mkVmmStats {
  total_mapped_pages : Z;
  total_mapped_bytes : Z;
  map_count : Z;
  unmap_count : Z;
  remap_count : Z;
  tlb_flush_count : Z;
  page_table_frames : Z;
}.

Definition VmmStatistics_new : VmmStatistics := mkVmmStats 0 0 0 0 0 0 0.

Record MappedRegion := mkMapped {
  virtual_addr : Z;
  physical_addr : Z;
  mapped_size : Z;
  mapped_flags : Z;
  description : string;
}.

Record VirtualMemoryManager := mkVmm {
  mapped_regions : list MappedRegion;
  vmm_stats : VmmStatistics;
  vmm_validation_enabled : bool;
}.

(** A TLB invalidation: one page, or all of them. *)
Inductive TlbOp :=
  | FlushPage (virt : Z)
  | FlushAll.

Record VmmState (T : Type) := mkVmmState {
  vs_vmm : VirtualMemoryManager;
  vs_pt : T; (* the page tables *)
  vs_pmm : Global; (* the physical memory manager *)
  vs_tlb : list TlbOp; (* the invalidations so far *)
}.
Arguments mkVmmState {T} _ _ _ _.
Arguments vs_vmm {T} _.
Arguments vs_pt {T} _.
Arguments vs_pmm {T} _.
Arguments vs_tlb {T} _.

(** The counters of one mapping made, and of one removed. *)
Definition count_map (t : VmmStatistics) : VmmStatistics :=
  mkVmmStats (total_mapped_pages t +₆₄ 1) (total_mapped_bytes t +₆₄ PAGE_SIZE) (map_count t +₆₄ 1)
    (unmap_count t) (remap_count t) (tlb_flush_count t +₆₄ 1) (page_table_frames t).
Definition count_unmap (t : VmmStatistics) : VmmStatistics :=
  mkVmmStats (sat_sub (total_mapped_pages t) 1) (sat_sub (total_mapped_bytes t) PAGE_SIZE) (map_count t)
    (unmap_count t +₆₄ 1) (remap_count t) (tlb_flush_count t +₆₄ 1) (page_table_frames t).
Definition count_remap (t : VmmStatistics) : VmmStatistics :=
  mkVmmStats (total_mapped_pages t) (total_mapped_bytes t) (map_count t) (unmap_count t)
    (remap_count t +₆₄ 1) (tlb_flush_count t) (page_table_frames t).
Definition count_flush (t : VmmStatistics) : VmmStatistics :=
  mkVmmStats (total_mapped_pages t) (total_mapped_bytes t) (map_count t) (unmap_count t)
    (remap_count t) (tlb_flush_count t +₆₄ 1) (page_table_frames t).
Definition add_pages (n : Z) (t : VmmStatistics) : VmmStatistics :=
  mkVmmStats (total_mapped_pages t +₆₄ n) (total_mapped_bytes t) (map_count t) (unmap_count t)
    (remap_count t) (tlb_flush_count t) (page_table_frames t).
Definition set_bytes (n : Z) (t : VmmStatistics) : VmmStatistics :=
  mkVmmStats (total_mapped_pages t) n (map_count t) (unmap_count t)
    (remap_count t) (tlb_flush_count t) (page_table_frames t).

Definition upd_stats (f : VmmStatistics → VmmStatistics) (v : VirtualMemoryManager) :
    VirtualMemoryManager :=
  mkVmm (mapped_regions v) (f (vmm_stats v)) (vmm_validation_enabled v).
Definition upd_regions (f : list MappedRegion → list MappedRegion) (v : VirtualMemoryManager) :
    VirtualMemoryManager :=
  mkVmm (f (mapped_regions v)) (vmm_stats v) (vmm_validation_enabled v).

Section Vmm.
Context `{PhysAddrApi} `{VirtAddrApi} `{PageMapper T}.

Abbreviation W A := (M (VmmState T) A).

(** ** Taking over the boot tables *)

(** [self.mapped_regions.push(..); self.stats.total_mapped_pages += n; ] *)
Definition record_boot (raw phys size flags n : Z) (desc : string) : M VirtualMemoryManager unit :=
  virt ← liftO (VirtAddr_new raw);
  _ ← modify (upd_regions (λ l, l ++ [mkMapped virt phys size flags desc]));
  modify (upd_stats (add_pages n)).

Definition discover_1 (p4_idx p3_idx p2_idx : Z) (ie : Z * PageTableEntry) : M VirtualMemoryManager unit :=
  let '(p1_idx, p1_entry) := ie in
  if negb (contains (pte_flags p1_entry) PRESENT) then mret tt else
  record_boot
    (Z.lor (Z.lor (Z.lor (Z.shiftl p4_idx 39) (Z.shiftl p3_idx 30)) (Z.shiftl p2_idx 21)) (Z.shiftl p1_idx 12))
    (pte_addr p1_entry) PAGE_SIZE (pte_flags p1_entry) 1 "boot 4 KiB page".

Definition discover_2 (pt : T) (p4_idx p3_idx : Z) (ie : Z * PageTableEntry) : M VirtualMemoryManager unit :=
  let '(p2_idx, p2_entry) := ie in
  if negb (contains (pte_flags p2_entry) PRESENT) then mret tt else
  if contains (pte_flags p2_entry) HUGE_PAGE then
    record_boot (Z.lor (Z.lor (Z.shiftl p4_idx 39) (Z.shiftl p3_idx 30)) (Z.shiftl p2_idx 21))
      (pte_addr p2_entry) (4096 * 512) (pte_flags p2_entry) 512 "boot 2 MiB page"
  else mfor (enumerate (read_table pt (pte_addr p2_entry))) (discover_1 p4_idx p3_idx p2_idx).

Definition discover_3 (pt : T) (p4_idx : Z) (ie : Z * PageTableEntry) : M VirtualMemoryManager unit :=
  let '(p3_idx, p3_entry) := ie in
  if negb (contains (pte_flags p3_entry) PRESENT) then mret tt else
  if contains (pte_flags p3_entry) HUGE_PAGE then
    record_boot (Z.lor (Z.shiftl p4_idx 39) (Z.shiftl p3_idx 30))
      (pte_addr p3_entry) (4096 * 512 * 512) (pte_flags p3_entry) (512 * 512) "boot 1 GiB page"
  else mfor (enumerate (read_table pt (pte_addr p3_entry))) (discover_2 pt p4_idx p3_idx).

Definition discover_4 (pt : T) (ie : Z * PageTableEntry) : M VirtualMemoryManager unit :=
  let '(p4_idx, p4_entry) := ie in
  if negb (contains (pte_flags p4_entry) PRESENT) then mret tt else
  mfor (enumerate (read_table pt (pte_addr p4_entry))) (discover_3 pt p4_idx).

Definition discover_existing_mappings (pt : T) : M VirtualMemoryManager unit :=
  _ ← mfor (enumerate (read_table pt (level_4_table pt))) (discover_4 pt);
  modify (upd_stats (λ t, set_bytes (total_mapped_pages t *₆₄ PAGE_SIZE) t)).

Definition vmm_new : VirtualMemoryManager := mkVmm [] VmmStatistics_new true.

(** [VirtualMemoryManager::init] over the tables that CR3 points to. *)
Definition vmm_init (pt : T) : outcome VirtualMemoryManager :=
  '(_, v) ← discover_existing_mappings pt vmm_new;
  mret v.

(** ** Mapping *)

Definition upd_vmm (f : VirtualMemoryManager → VirtualMemoryManager) : W unit :=
  modify (λ s, mkVmmState (f (vs_vmm s)) (vs_pt s) (vs_pmm s) (vs_tlb s)).

(** An invalidation issued to the processor. *)
Definition issue (op : TlbOp) : W unit :=
  modify (λ s, mkVmmState (vs_vmm s) (vs_pt s) (vs_pmm s) (vs_tlb s ++ [op])).

(** [PmmFrameAllocator::allocate_frame] *)
Definition pmm_source : M Global (option Z) :=
  o ← g_allocate_frame;
  mret (frame_containing <$> o).

(** [self.page_table.map_to(page, frame, flags, &mut PmmFrameAllocator)] *)
Definition mapper_map (page frame flags : Z) : W (result unit MapToError) := λ s,
  match map_to pmm_source page frame flags (vs_pt s, vs_pmm s) with
  | Ret (r, (pt, g)) => Ret (r, mkVmmState (vs_vmm s) pt g (vs_tlb s))
  | Panic => Panic
  | UB => UB
  | OutOfFuel => OutOfFuel
  end.

Definition mapper_unmap (page : Z) : W (result Z UnmapError) := λ s,
  match unmap page (vs_pt s) with
  | Ret (r, pt) => Ret (r, mkVmmState (vs_vmm s) pt (vs_pmm s) (vs_tlb s))
  | Panic => Panic
  | UB => UB
  | OutOfFuel => OutOfFuel
  end.

Definition map_error (e : MapToError) : VmmError :=
  match e with
  | FrameAllocationFailed => OutOfMemory
  | MapParentEntryHugePage => ParentEntryHugePage
  | PageAlreadyMapped _ => AlreadyMapped
  end.

Definition unmap_error (e : UnmapError) : VmmError :=
  match e with
  | PageNotMapped => NotMapped
  | UnmapParentEntryHugePage => ParentEntryHugePage
  | InvalidFrameAddress _ => UnmapFailed
  end.

(** The bookkeeping of a new mapping. *)
Definition track (virt phys flags : Z) (desc : string) : W unit :=
  _ ← upd_vmm (upd_regions (λ l, l ++ [mkMapped virt phys PAGE_SIZE flags desc]));
  upd_vmm (upd_stats count_map).

Definition map_page (virt phys flags : Z) : W (result unit VmmError) :=
  if negb (is_aligned virt PAGE_SIZE) || negb (is_aligned phys PAGE_SIZE) then mret (Err InvalidAddress) else
  let page := page_containing virt in
  let frame := frame_containing phys in
  _ ←? map_err map_error (mapper_map page frame flags);
  _ ← issue (FlushPage page);
  _ ← track virt phys flags "user mapped";
  mret (Ok tt).

(** [virt.as_u64() >= r.virtual_addr.as_u64() && virt.as_u64() < r.virtual_addr.as_u64() + r.size] *)
Definition in_region (virt : Z) (r : MappedRegion) : bool :=
  (virtual_addr r <=? virt) && (virt <? virtual_addr r +₆₄ mapped_size r).

Definition unmap_page (virt : Z) : W (result Z VmmError) :=
  if negb (is_aligned virt PAGE_SIZE) then mret (Err InvalidAddress) else
  let page := page_containing virt in
  frame ←? map_err unmap_error (mapper_unmap page);
  _ ← issue (FlushPage page);
  _ ← upd_vmm (upd_regions (filter (λ r, in_region virt r = false)));
  _ ← upd_vmm (upd_stats count_unmap);
  mret (Ok frame).

Definition remap_page (virt new_phys flags : Z) : W (result Z VmmError) :=
  old_phys ←? unmap_page virt;
  _ ←? map_page virt new_phys flags;
  _ ← upd_vmm (upd_stats count_remap);
  mret (Ok old_phys).

Definition vmm_translate (virt : Z) : W (option Z) :=
  s ← get;
  mret (translate_addr (vs_pt s) virt).

(** ** Ranges of pages *)

Definition map_region (virt phys count flags : Z) : W (result unit VmmError) :=
  if negb (is_aligned virt PAGE_SIZE) || negb (is_aligned phys PAGE_SIZE) then mret (Err InvalidAddress) else
  mfor_res (range 0 count) (λ i,
    page_virt ← liftO (VirtAddr_new (virt +₆₄ i *₆₄ PAGE_SIZE));
    page_phys ← liftO (PhysAddr_new (phys +₆₄ i *₆₄ PAGE_SIZE));
    map_page page_virt page_phys flags).

Definition unmap_region (virt count : Z) : W (result unit VmmError) :=
  if negb (is_aligned virt PAGE_SIZE) then mret (Err InvalidAddress) else
  _ ← mfor (range 0 count) (λ i,
    page_virt ← liftO (VirtAddr_new (virt +₆₄ i *₆₄ PAGE_SIZE));
    _ ← unmap_page page_virt;
    mret tt);
  mret (Ok tt).

Definition identity_map_one (phys flags i : Z) : W (result unit VmmError) :=
  frame_phys ← liftO (PhysAddr_new (phys +₆₄ i *₆₄ PAGE_SIZE));
  virt ← liftO (VirtAddr_new frame_phys);
  s ← get;
  match translate_addr (vs_pt s) virt with
  | Some _ => mret (Ok tt)
  | None =>
      let frame := frame_containing frame_phys in
      let page := page_containing virt in
      r ← mapper_map page frame flags;
      match r with
      | Ok _ =>
          _ ← issue (FlushPage page);
          _ ← track virt frame_phys flags "identity map";
          mret (Ok tt)
      | Err (PageAlreadyMapped _) => mret (Ok tt)
      | Err FrameAllocationFailed => mret (Err OutOfMemory)
      | Err MapParentEntryHugePage => mret (Err ParentEntryHugePage)
      end
  end.

Definition identity_map (phys count flags : Z) : W (result unit VmmError) :=
  if negb (is_aligned phys PAGE_SIZE) then mret (Err InvalidAddress) else
  mfor_res (range 0 count) (identity_map_one phys flags).

(** ** TLB, validation and queries *)

Definition flush_tlb : W unit :=
  _ ← issue FlushAll;
  upd_vmm (upd_stats count_flush).

Definition flush_tlb_page (virt : Z) : W unit :=
  _ ← issue (FlushPage virt);
  upd_vmm (upd_stats count_flush).

Definition vmm_set_validation (enabled : bool) : W unit :=
  upd_vmm (λ v, mkVmm (mapped_regions v) (vmm_stats v) enabled).

Definition count_1 (count : Z) (e : PageTableEntry) : Z :=
  if contains (pte_flags e) PRESENT then count +₆₄ 1 else count.

Definition count_2 (pt : T) (count : Z) (e : PageTableEntry) : Z :=
  if negb (contains (pte_flags e) PRESENT) then count
  else if contains (pte_flags e) HUGE_PAGE then count +₆₄ 512
  else foldl count_1 count (read_table pt (pte_addr e)).

Definition count_3 (pt : T) (count : Z) (e : PageTableEntry) : Z :=
  if negb (contains (pte_flags e) PRESENT) then count
  else if contains (pte_flags e) HUGE_PAGE then count +₆₄ (512 * 512)
  else foldl (count_2 pt) count (read_table pt (pte_addr e)).

Definition count_4 (pt : T) (count : Z) (e : PageTableEntry) : Z :=
  if negb (contains (pte_flags e) PRESENT) then count
  else foldl (count_3 pt) count (read_table pt (pte_addr e)).

Definition count_mapped_pages (pt : T) : Z :=
  foldl (count_4 pt) 0 (read_table pt (level_4_table pt)).

Definition vmm_validate (s : VmmState T) : bool :=
  count_mapped_pages (vs_pt s) =? total_mapped_pages (vmm_stats (vs_vmm s)).

Definition vmm_statistics (s : VmmState T) : VmmStatistics := vmm_stats (vs_vmm s).
Definition region_count (s : VmmState T) : Z := zlen (mapped_regions (vs_vmm s)).
Definition is_mapped (s : VmmState T) (virt : Z) : bool :=
  bool_decide (is_Some (translate_addr (vs_pt s) virt)).
Definition get_mapping (s : VmmState T) (virt : Z) : option MappedRegion :=
  snd <$> list_find (λ r, in_region virt r = true) (mapped_regions (vs_vmm s)).
Definition get_flags (s : VmmState T) (virt : Z) : option Z := snd <$> translate_page (vs_pt s) virt.

End Vmm.

(** ** The global instance *)

(** [static mut VMM] and [VMM_INIT]. *)
Record VmmGlobal := mkVmmGlobal { g_VMM : option VirtualMemoryManager; g_VMM_INIT : bool }.

Definition vmm_global_init `{VirtAddrApi} `{PageMapper T} (pt : T) : outcome VmmGlobal :=
  v ← vmm_init pt;
  mret (mkVmmGlobal (Some v) true).

(** [vmm()] *)
Definition vmm (g : VmmGlobal) : outcome VirtualMemoryManager :=
  if negb (g_VMM_INIT g) then Panic else
  match g_VMM g with
  | Some v => Ret v
  | None => UB
  end.

(** The functions of the module: [translate], [statistics] and [validate] of the global
    manager. *)
Definition g_translate `{PageMapper T} (g : VmmGlobal) (pt : T) (virt : Z) : outcome (option Z) :=
  _ ← vmm g; mret (translate_addr pt virt).
Definition g_vmm_statistics (g : VmmGlobal) : outcome VmmStatistics := v ← vmm g; mret (vmm_stats v).
Definition g_validate `{PageMapper T} (g : VmmGlobal) (pt : T) (k : Global) : outcome bool :=
  v ← vmm g; mret (vmm_validate (mkVmmState v pt k [])).

Definition vmm_is_initialized (g : VmmGlobal) : bool := g_VMM_INIT g.
