(* ===== verification/VmmSpec.v ===== *)
(** * The virtual memory manager and the page tables

    What the two walks over the tables compute, and the invariant of the manager:
    its tracked regions and its statistics are those of the tables. *)

From stdpp Require Import base numbers list gmap strings.
From S2P Require Import Prelude Regions FrameAllocator FrameSpec FrameInit PhysMem Paging Vmm.

#[local] Open Scope Z_scope.
#[local] Open Scope rust_scope.

(** ** Walking the tables *)

Lemma elem_of_enumerate {A} (l : list A) i x : (i, x) ∈ enumerate l → 0 ≤ i < zlen l.
Proof. intros Hx. apply elem_of_zip_l in Hx. by apply elem_of_range. Qed.

(** A table index next to the ones above it. *)
Lemma lor_index base i k q :
  0 ≤ k → 0 ≤ i < 512 → base = q * 2 ^ (k + 9) → Z.lor base (Z.shiftl i k) = base + i * 2 ^ k.
Proof.
  intros Hk Hi ->. rewrite Z.shiftl_mul_pow2 by done.
  assert (2 ^ (k + 9) = 2 ^ k * 512) as Hp by by rewrite Z.pow_add_r by lia.
  assert (0 < 2 ^ k) by lia. rewrite Z.lor_comm, lor_low_high by nia. lia.
Qed.

(** [lia] with the powers of two of the table levels evaluated. *)
Ltac pow_lia :=
  repeat match goal with
    | |- context [2 ^ ?k] => let v := eval vm_compute in (2 ^ k) in change (2 ^ k) with v
    end;
  (lia || dlia).

Definition region_of (desc : Z → string) (l : Leaf) : MappedRegion :=
  mkMapped (lf_virt l) (lf_phys l) (lf_size l) (lf_flags l) (desc (lf_size l)).
Definition leaf_of (r : MappedRegion) : Leaf :=
  mkLeaf (virtual_addr r) (physical_addr r) (mapped_size r) (mapped_flags r).

Definition boot_desc (size : Z) : string :=
  if size =? 2 ^ 30 then "boot 1 GiB page"
  else if size =? 2 ^ 21 then "boot 2 MiB page" else "boot 4 KiB page".

Definition record_leaf (v : VirtualMemoryManager) (l : Leaf) : VirtualMemoryManager :=
  upd_stats (add_pages (leaf_pages l)) (upd_regions (λ rs, rs ++ [region_of boot_desc l]) v).

Section Walk.
Context `{VirtAddrApi} `{!VirtAddrLaws _} `{PageMapperLaws T}.

Implicit Types pt : T.

Lemma mfor_record {A} (l : list A) (f : A → list Leaf) (body : A → M VirtualMemoryManager unit) :
  (∀ x v, x ∈ l → body x v = Ret (tt, foldl record_leaf v (f x))) →
  ∀ v, mfor l body v = Ret (tt, foldl record_leaf v (l ≫= f)).
Proof.
  induction l as [|x l IH]; intros Hb v; [done|]. cbn [mfor].
  rewrite (bind_Ret _ _ _ _ _ (Hb x v ltac:(left))).
  rewrite IH by (intros; apply Hb; by right).
  change ((x :: l) ≫= f) with (f x ++ (l ≫= f)). by rewrite foldl_app.
Qed.

Lemma record_boot_spec raw phys size flags n desc v :
  0 ≤ raw < 2 ^ 47 → n = size / 4096 → desc = boot_desc size →
  record_boot raw phys size flags n desc v =
    Ret (tt, foldl record_leaf v [mkLeaf (virt_of raw) phys size flags]).
Proof.
  intros Hr -> ->. unfold record_boot.
  rewrite (bind_Ret _ _ _ _ _ (liftO_Ret _ _ _ (VirtAddr_new_ok _ (or_introl Hr)))).
  unfold virt_of. destruct (Z.ltb_spec raw (2 ^ 47)); [|lia]. done.
Qed.

Lemma enumerate_index pt a i e : (i, e) ∈ enumerate (read_table pt a) → 0 ≤ i < 512.
Proof. intros He. apply elem_of_enumerate in He. by rewrite read_table_len in He. Qed.

Lemma index_3 p4 p3 :
  0 ≤ p3 < 512 → Z.lor (Z.shiftl p4 39) (Z.shiftl p3 30) = p4 * 2 ^ 39 + p3 * 2 ^ 30.
Proof.
  intros. rewrite (Z.shiftl_mul_pow2 p4) by lia. by rewrite (lor_index _ _ _ p4) by pow_lia.
Qed.

Lemma index_2 p4 p3 p2 :
  0 ≤ p3 < 512 → 0 ≤ p2 < 512 →
  Z.lor (Z.lor (Z.shiftl p4 39) (Z.shiftl p3 30)) (Z.shiftl p2 21) =
    p4 * 2 ^ 39 + p3 * 2 ^ 30 + p2 * 2 ^ 21.
Proof.
  intros. rewrite index_3 by done. by rewrite (lor_index _ _ _ (p4 * 512 + p3)) by pow_lia.
Qed.

Lemma index_1 p4 p3 p2 p1 :
  0 ≤ p3 < 512 → 0 ≤ p2 < 512 → 0 ≤ p1 < 512 →
  Z.lor (Z.lor (Z.lor (Z.shiftl p4 39) (Z.shiftl p3 30)) (Z.shiftl p2 21)) (Z.shiftl p1 12) =
    p4 * 2 ^ 39 + p3 * 2 ^ 30 + p2 * 2 ^ 21 + p1 * 2 ^ 12.
Proof.
  intros. rewrite index_2 by done.
  by rewrite (lor_index _ _ _ ((p4 * 512 + p3) * 512 + p2)) by pow_lia.
Qed.

Lemma discover_1_spec p4 p3 p2 ie v :
  0 ≤ p4 < 256 → 0 ≤ p3 < 512 → 0 ≤ p2 < 512 → 0 ≤ ie.1 < 512 →
  discover_1 p4 p3 p2 ie v =
    Ret (tt, foldl record_leaf v (leaves_1 (p4 * 2 ^ 39 + p3 * 2 ^ 30 + p2 * 2 ^ 21) ie)).
Proof.
  destruct ie as [p1 e]. cbn [fst]. intros Hi4 Hi3 Hi2 Hi1. unfold discover_1, leaves_1.
  destruct (contains (pte_flags e) PRESENT); [|done]. cbn [negb].
  rewrite index_1 by done.
  rewrite (record_boot_spec _ _ _ _ _ _ _) by (done || pow_lia). done.
Qed.

Lemma discover_2_spec pt p4 p3 ie v :
  0 ≤ p4 < 256 → 0 ≤ p3 < 512 → 0 ≤ ie.1 < 512 →
  discover_2 pt p4 p3 ie v = Ret (tt, foldl record_leaf v (leaves_2 pt (p4 * 2 ^ 39 + p3 * 2 ^ 30) ie)).
Proof.
  destruct ie as [p2 e]. cbn [fst]. intros Hi4 Hi3 Hi2. unfold discover_2, leaves_2.
  destruct (contains (pte_flags e) PRESENT); [|done]. cbn [negb].
  destruct (contains (pte_flags e) HUGE_PAGE).
  - rewrite index_2 by done.
    by rewrite (record_boot_spec _ _ _ _ _ _ _) by (done || pow_lia).
  - apply mfor_record. intros [p1 e1] v' Hx. apply discover_1_spec; [done..|by eapply enumerate_index].
Qed.

Lemma discover_3_spec pt p4 ie v :
  0 ≤ p4 < 256 → 0 ≤ ie.1 < 512 →
  discover_3 pt p4 ie v = Ret (tt, foldl record_leaf v (leaves_3 pt (p4 * 2 ^ 39) ie)).
Proof.
  destruct ie as [p3 e]. cbn [fst]. intros Hi4 Hi3. unfold discover_3, leaves_3.
  destruct (contains (pte_flags e) PRESENT); [|done]. cbn [negb].
  destruct (contains (pte_flags e) HUGE_PAGE).
  - rewrite index_3 by done.
    by rewrite (record_boot_spec _ _ _ _ _ _ _) by (done || pow_lia).
  - apply mfor_record. intros [p2 e2] v' Hx. apply discover_2_spec; [done..|by eapply enumerate_index].
Qed.

(** No table of the upper half is present. *)
Definition low_half pt : Prop :=
  ∀ i e, (i, e) ∈ enumerate (read_table pt (level_4_table pt)) → contains (pte_flags e) PRESENT = true → i < 256.

Lemma discover_4_spec pt ie v :
  low_half pt → ie ∈ enumerate (read_table pt (level_4_table pt)) →
  discover_4 pt ie v = Ret (tt, foldl record_leaf v (leaves_4 pt ie)).
Proof.
  destruct ie as [p4 e]. intros Hlow Hx. unfold discover_4, leaves_4. specialize (Hlow p4 e Hx).
  apply enumerate_index in Hx.
  destruct (contains (pte_flags e) PRESENT); [|done]. cbn [negb]. specialize (Hlow eq_refl).
  apply mfor_record. intros [p3 e3] v' Hx'. apply discover_3_spec; [lia|by eapply enumerate_index].
Qed.

Lemma record_leaves_eq ls v :
  0 ≤ total_mapped_pages (vmm_stats v) < 2 ^ 64 →
  foldl record_leaf v ls =
    mkVmm (mapped_regions v ++ (region_of boot_desc <$> ls))
      (add_pages (pages ls) (vmm_stats v)) (vmm_validation_enabled v).
Proof.
  revert v. induction ls as [|l ls IH]; intros v Hv.
  - destruct v as [rs [t b m u r f p] e]. cbn in *. rewrite app_nil_r. unfold add_pages. cbn.
    rewrite Z.add_0_r, wrap_small by done. done.
  - cbn [foldl]. rewrite IH by (cbn; apply wrap_range; lia).
    destruct v as [rs [t b m u r f p] e]. unfold record_leaf, add_pages. cbn.
    rewrite <- app_assoc, wrap_add, <- Z.add_assoc. done.
Qed.

Lemma vmm_init_spec pt :
  low_half pt →
  vmm_init pt = Ret (mkVmm (region_of boot_desc <$> leaves pt)
    (mkVmmStats (wrap 64 (pages (leaves pt))) (wrap 64 (wrap 64 (pages (leaves pt)) * PAGE_SIZE)) 0 0 0 0 0)
    true).
Proof.
  intros Hlow. unfold vmm_init, discover_existing_mappings.
  rewrite (bind_Ret_cont _ _ vmm_new).
  rewrite (mfor_record _ (leaves_4 pt) (discover_4 pt)) by (intros; by apply discover_4_spec).
  rewrite record_leaves_eq by (cbn; lia). done.
Qed.

(** Counting as [foldl] adds up the pages of the leaves. *)
Lemma count_fold {A} (l : list A) (f : Z * A → list Leaf) (count : Z → A → Z) :
  (∀ c i x, 0 ≤ c < 2 ^ 64 → x ∈ l → count c x = wrap 64 (c + pages (f (i, x)))) →
  ∀ c n, 0 ≤ c < 2 ^ 64 → foldl count c l = wrap 64 (c + pages (zip (range n (n + zlen l)) l ≫= f)).
Proof.
  induction l as [|x l IH]; intros Hc c n Hr.
  - cbn. rewrite zip_with_nil_r. cbn. by rewrite Z.add_0_r, wrap_small.
  - cbn [foldl]. rewrite zlen_cons, range_cons by (pose proof (zlen_nonneg l); lia).
    cbn [zip zip_with]. change (((n, x) :: ?k) ≫= f) with (f (n, x) ++ (k ≫= f)).
    replace (n + (1 + zlen l)) with (n + 1 + zlen l) by lia.
    rewrite (IH ltac:(intros; apply Hc; [done|by right]) _ (n + 1)) by
      (rewrite (Hc c n x Hr ltac:(left)); apply wrap_range; lia).
    rewrite (Hc c n x Hr ltac:(left)), wrap_add, pages_app. f_equal. lia.
Qed.
Lemma count_table (f : Z * PageTableEntry → list Leaf) (count : Z → PageTableEntry → Z) l c :
  (∀ c i x, 0 ≤ c < 2 ^ 64 → count c x = wrap 64 (c + pages (f (i, x)))) →
  0 ≤ c < 2 ^ 64 → foldl count c l = wrap 64 (c + pages (enumerate l ≫= f)).
Proof.
  intros Hc Hr. unfold enumerate.
  pose proof (count_fold l f count ltac:(intros; by apply Hc) c 0 Hr) as Hf.
  by rewrite Z.add_0_l in Hf.
Qed.

Lemma pages_one l : pages [l] = leaf_pages l.
Proof. unfold pages. simpl. lia. Qed.

Lemma count_none c : 0 ≤ c < 2 ^ 64 → c = wrap 64 (c + pages []).
Proof. intros. change (pages []) with 0. by rewrite Z.add_0_r, wrap_small. Qed.

Lemma count_1_spec base c i e :
  0 ≤ c < 2 ^ 64 → count_1 c e = wrap 64 (c + pages (leaves_1 base (i, e))).
Proof.
  intros Hc. unfold count_1, leaves_1. destruct (contains (pte_flags e) PRESENT); [|by apply count_none].
  by rewrite pages_one.
Qed.

Lemma count_2_spec pt base c i e :
  0 ≤ c < 2 ^ 64 → count_2 pt c e = wrap 64 (c + pages (leaves_2 pt base (i, e))).
Proof.
  intros Hc. unfold count_2, leaves_2.
  destruct (contains (pte_flags e) PRESENT); [|by apply count_none]. cbn [negb].
  destruct (contains (pte_flags e) HUGE_PAGE); [by rewrite pages_one|].
  apply count_table; [|done]. intros. by apply count_1_spec.
Qed.

Lemma count_3_spec pt base c i e :
  0 ≤ c < 2 ^ 64 → count_3 pt c e = wrap 64 (c + pages (leaves_3 pt base (i, e))).
Proof.
  intros Hc. unfold count_3, leaves_3.
  destruct (contains (pte_flags e) PRESENT); [|by apply count_none]. cbn [negb].
  destruct (contains (pte_flags e) HUGE_PAGE); [by rewrite pages_one|].
  apply count_table; [|done]. intros. by apply count_2_spec.
Qed.

Lemma count_4_spec pt c i e :
  0 ≤ c < 2 ^ 64 → count_4 pt c e = wrap 64 (c + pages (leaves_4 pt (i, e))).
Proof.
  intros Hc. unfold count_4, leaves_4.
  destruct (contains (pte_flags e) PRESENT); [|by apply count_none]. cbn [negb].
  apply count_table; [|done]. intros. by apply count_3_spec.
Qed.

Lemma count_mapped_pages_spec pt : count_mapped_pages pt = wrap 64 (pages (leaves pt)).
Proof.
  unfold count_mapped_pages, leaves. rewrite (count_table (leaves_4 pt)); [done| |lia].
  intros. by apply count_4_spec.
Qed.

(** ** Translation *)

Lemma translate_cases pt v :
  mapper_ok pt →
  (∃ l, l ∈ leaves pt ∧ covers l v ∧ translate_page pt v = Some (lf_phys l + (v - lf_virt l), lf_flags l)) ∨
  ((∀ l, l ∈ leaves pt → ¬ covers l v) ∧ translate_page pt v = None).
Proof.
  intros Hok. destruct (Exists_dec (λ l, covers l v) (leaves pt)) as [He|He].
  - apply Exists_exists in He as (l & Hl & Hc). left. exists l. split_and!; [done..|]. by apply translate_ok.
  - right. assert (Hn : ∀ l, l ∈ leaves pt → ¬ covers l v).
    { intros l Hl Hc. apply He, Exists_exists. by exists l. }
    split; [done|]. by apply translate_none.
Qed.

(** The leaves that cover an address determine its translation. *)
Lemma translate_same pt pt' v :
  mapper_ok pt → mapper_ok pt' →
  (∀ l, covers l v → l ∈ leaves pt ↔ l ∈ leaves pt') → translate_page pt v = translate_page pt' v.
Proof.
  intros Hok Hok' Hl. destruct (translate_cases pt v Hok) as [(l & Hin & Hc & ->)|[Hn ->]].
  - symmetry. apply translate_ok; [done| |done]. by apply Hl.
  - symmetry. apply translate_none; [done|]. intros l Hin Hc. apply (Hn l); [|done]. by apply Hl.
Qed.

Lemma translate_perm pt pt' :
  mapper_ok pt → mapper_ok pt' → leaves pt ≡ₚ leaves pt' →
  ∀ v, translate_page pt v = translate_page pt' v.
Proof. intros Hok Hok' Hp v. apply translate_same; [done..|]. intros l _. by rewrite Hp. Qed.

Lemma translate_other pt pt' l0 v :
  mapper_ok pt → mapper_ok pt' → leaves pt' ≡ₚ l0 :: leaves pt → ¬ covers l0 v →
  translate_page pt v = translate_page pt' v.
Proof.
  intros Hok Hok' Hp Hn. apply translate_same; [done..|]. intros l Hc. rewrite Hp, elem_of_cons.
  naive_solver.
Qed.

(** A leaf shares no address with the others. *)
Lemma leaf_alone pt l ls : mapper_ok pt → leaves pt ≡ₚ l :: ls → ∀ l' v, l' ∈ ls → covers l v → ¬ covers l' v.
Proof.
  intros Hok Hp l' v (ls1 & ls2 & ->)%list_elem_of_split Hc.
  eapply (leaves_disjoint pt l l' (ls1 ++ ls2)); [done| |done].
  rewrite Hp. f_equiv. symmetry. apply Permutation_middle.
Qed.

End Walk.

(** ** The frame allocator behind the mapper *)

Section Invariant.
Context `{PhysAddrApi} `{!PhysAddrLaws _} `{VirtAddrApi} `{!VirtAddrLaws _} `{PageMapperLaws T}.

(** The global frame allocator is initialised, and the frames of [X] are reserved. *)
Definition pmm_holds (g : Global) (X : gset Z) : Prop :=
  g_PMM_INIT g = true ∧
  ∃ p, g_PMM g = Some p ∧ frames_wf (ps_frames (mkPS (g_BITMAP g) p)) ∧
    ∀ f, f ∈ X → f / FRAME_SIZE ∈ reserved_frames (ps_frames (mkPS (g_BITMAP g) p)).

Lemma pmm_run {A} (m : M FrameState A) g p a fs :
  g_PMM_INIT g = true → g_PMM g = Some p → m (ps_frames (mkPS (g_BITMAP g) p)) = Ret (a, fs) →
  pmm (with_fa m) g =
    Ret (a, mkGlobal (BITMAP fs) (Some (mkPMM (pfa fs) (memory_map p) (reserved_regions p))) true).
Proof.
  intros Hi Hp Hm. unfold pmm. rewrite Hi, Hp. cbn [negb].
  rewrite (with_fa_Ret _ _ _ _ Hm). done.
Qed.

Lemma pmm_source_frames : frame_source pmm_source pmm_holds.
Proof.
  intros g X (Hi & p & Hp & Hwf & HX).
  assert (Hb : 0 ≤ next_free (pfa (ps_frames (mkPS (g_BITMAP g) p))) ≤
    total_frames (pfa (ps_frames (mkPS (g_BITMAP g) p)))) by by destruct Hwf.
  set (fs := ps_frames (mkPS (g_BITMAP g) p)) in *.
  destruct (decide (next_free (pfa fs) < total_frames (pfa fs))) as [Hlt|Hge].
  - destruct (allocate_frame_wf fs Hwf Hlt) as (fs' & Hrun & (Hwf' & Hn & Hr & Hv) & _).
    eexists _, _. split.
    { unfold pmm_source, g_allocate_frame, PMM_allocate_frame. rewrite (bind_Ret _ _ _ _ _ (pmm_run _ g p _ _ Hi Hp Hrun)).
      reflexivity. }
    cbn [fmap option_fmap option_map]. rewrite frame_containing_ok.
    assert (next_free (pfa fs) * FRAME_SIZE - (next_free (pfa fs) * FRAME_SIZE) mod 4096 =
      next_free (pfa fs) * FRAME_SIZE) as ->.
    { unfold FRAME_SIZE. rewrite Z.mod_mul by lia. lia. }
    assert (Hdiv : next_free (pfa fs) * FRAME_SIZE / FRAME_SIZE = next_free (pfa fs)).
    { apply Z.div_mul. done. }
    split.
    + intros Hin%HX. rewrite Hdiv in Hin. by apply (wf_next_free fs Hwf).
    + split; [done|]. eexists. split; [reflexivity|].
      destruct fs' as [bm' a']. split; [exact Hwf'|]. intros f Hf.
      change (f / FRAME_SIZE ∈ reserved_frames (mkFS bm' a')). rewrite Hr, elem_of_union.
      apply elem_of_union in Hf as [->%elem_of_singleton|Hf].
      * rewrite Hdiv. left. by apply elem_of_singleton.
      * right. by apply HX.
  - destruct (allocate_frame_none fs Hwf ltac:(lia)) as (fs' & Hrun & Hs).
    destruct (same_frames_wf _ _ Hs Hwf) as (Hwf' & Hr & _).
    eexists _, _. split.
    { unfold pmm_source, g_allocate_frame, PMM_allocate_frame. rewrite (bind_Ret _ _ _ _ _ (pmm_run _ g p _ _ Hi Hp Hrun)).
      reflexivity. }
    cbn [fmap option_fmap option_map]. split; [done|]. eexists. split; [reflexivity|].
    destruct fs' as [bm' a']. split; [exact Hwf'|]. intros f Hf.
    change (f / FRAME_SIZE ∈ reserved_frames (mkFS bm' a')). rewrite Hr. by apply HX.
Qed.

(** ** The invariant of the manager *)

Record vmm_ok (s : VmmState T) : Prop := {
  vo_tables : mapper_ok (vs_pt s);
  vo_frames : pmm_holds (vs_pmm s) (table_frames (vs_pt s));
  vo_regions : leaf_of <$> mapped_regions (vs_vmm s) ≡ₚ leaves (vs_pt s);
  vo_pages : total_mapped_pages (vmm_stats (vs_vmm s)) = pages (leaves (vs_pt s));
  vo_bytes : total_mapped_bytes (vmm_stats (vs_vmm s)) = pages (leaves (vs_pt s)) * PAGE_SIZE;
  vo_below : ∀ l, l ∈ leaves (vs_pt s) → lf_virt l + lf_size l < 2 ^ 64;
}.

(** One operation of the manager: the invariant holds after it, and every page whose
    translation changed has been invalidated in the TLB. *)
Definition vmm_moves (s s' : VmmState T) : Prop :=
  vmm_ok s' ∧ ∃ ops, vs_tlb s' = vs_tlb s ++ ops ∧
    ∀ v, translate_page (vs_pt s) v ≠ translate_page (vs_pt s') v → FlushPage (v - v mod 4096) ∈ ops.

Lemma moves_same s : vmm_ok s → vmm_moves s s.
Proof. intros Hs. split; [done|]. exists []. by rewrite app_nil_r. Qed.

Lemma moves_trans s1 s2 s3 : vmm_moves s1 s2 → vmm_moves s2 s3 → vmm_moves s1 s3.
Proof.
  intros [_ (o1 & Ht1 & Hf1)] [Hok (o2 & Ht2 & Hf2)]. split; [done|]. exists (o1 ++ o2).
  split; [by rewrite Ht2, Ht1, app_assoc|]. intros v Hv. rewrite elem_of_app.
  destruct (decide (translate_page (vs_pt s1) v = translate_page (vs_pt s2) v)) as [He|Hne]; [|left; by apply Hf1].
  right. apply Hf2. by rewrite <- He.
Qed.

(** [m] always returns, by a move. *)
Definition moving {A} (m : M (VmmState T) A) : Prop :=
  ∀ s, vmm_ok s → ∃ a s', m s = Ret (a, s') ∧ vmm_moves s s'.

Lemma moving_ret {A} (a : A) : moving (mret a).
Proof. intros s Hs. exists a, s. split; [done|]. by apply moves_same. Qed.

Lemma moving_bind {A B} (m : M (VmmState T) A) (k : A → M (VmmState T) B) :
  moving m → (∀ a, moving (k a)) → moving (m ≫= k).
Proof.
  intros Hm Hk s Hs. destruct (Hm s Hs) as (a & s1 & Hr & Hs1).
  destruct (Hk a s1 (proj1 Hs1)) as (b & s2 & Hr2 & Hs2).
  rewrite (bind_Ret _ _ _ _ _ Hr). exists b, s2. split; [done|]. by eapply moves_trans.
Qed.

Lemma moving_liftO {A} (o : outcome A) a : o = Ret a → moving (liftO o).
Proof. intros -> s Hs. exists a, s. split; [done|]. by apply moves_same. Qed.

(** A mapping the manager accepts: canonical, below the last page, present. *)
Record map_args (virt phys flags : Z) : Prop := {
  ma_virt : canonical virt;
  ma_below : virt + 4096 < 2 ^ 64;
  ma_phys : 0 ≤ phys < 2 ^ 52;
  ma_flags : contains flags PRESENT = true;
}.

Lemma page_frame_aligned a : a mod 4096 = 0 → page_containing a = a ∧ frame_containing a = a.
Proof. intros Ha. rewrite page_containing_ok, frame_containing_ok, Ha. lia. Qed.

(** What the mapper does to the state. *)
Lemma mapper_map_spec s virt phys flags :
  vmm_ok s → map_args virt phys flags → virt mod 4096 = 0 → phys mod 4096 = 0 →
  ∃ r pt' g', mapper_map virt phys flags s = Ret (r, mkVmmState (vs_vmm s) pt' g' (vs_tlb s)) ∧
    mapper_ok pt' ∧ pmm_holds g' (table_frames pt') ∧
    match r with
    | Ok _ => leaves pt' ≡ₚ mkLeaf virt phys 4096 flags :: leaves (vs_pt s)
    | Err e => leaves pt' ≡ₚ leaves (vs_pt s) ∧
        match e with
        | PageAlreadyMapped f => f = phys ∧ ∃ l, l ∈ leaves (vs_pt s) ∧ lf_virt l = virt ∧ lf_size l = 4096
        | MapParentEntryHugePage => ∃ l, l ∈ leaves (vs_pt s) ∧ covers l virt ∧ lf_size l ≠ 4096
        | FrameAllocationFailed => True
        end
    end.
Proof.
  intros [Ht Hf _ _ _ _] [Hv Hb Hp Hfl] Hva Hpa.
  destruct (map_to_ok pmm_source pmm_holds virt phys flags (vs_pt s) (vs_pmm s) pmm_source_frames Ht Hf
    Hv Hva Hpa Hp Hfl) as (r & pt' & g' & Hrun & Ht' & Hf' & Hr).
  exists r, pt', g'. split; [unfold mapper_map; by rewrite Hrun|]. split; [done|]. split; [done|].
  destruct r as [[]|[| |]]; naive_solver.
Qed.

End Invariant.
