(* ===== verification/VmmTheorems.v ===== *)
(** * Properties of the virtual memory manager

    The operations on states that satisfy [vmm_ok], and what they guarantee
    together. *)

From stdpp Require Import base numbers list gmap strings.
From S2P Require Import Prelude Regions FrameAllocator FrameSpec FrameInit PhysMem Paging Vmm VmmSpec.

#[local] Open Scope Z_scope.
#[local] Open Scope rust_scope.

Section Theorems.
Context `{PhysAddrApi} `{!PhysAddrLaws _} `{VirtAddrApi} `{!VirtAddrLaws _} `{PageMapperLaws T}.

Implicit Types s : VmmState T.

(** ** One page *)

Definition tracked (s : VmmState T) (pt' : T) (g' : Global) (virt phys flags : Z) (desc : string) :
    VmmState T :=
  mkVmmState
    (upd_stats count_map (upd_regions (λ l, l ++ [mkMapped virt phys PAGE_SIZE flags desc]) (vs_vmm s)))
    pt' g' (vs_tlb s ++ [FlushPage virt]).

Lemma covers_page virt phys flags v :
  virt mod 4096 = 0 → covers (mkLeaf virt phys 4096 flags) v → v - v mod 4096 = virt.
Proof. unfold covers. cbn. intros Ha Hc. dlia. Qed.

Lemma pages_cons l ls : pages (l :: ls) = leaf_pages l + pages ls.
Proof. done. Qed.

Lemma leaves_sizes pt : mapper_ok pt → Forall (λ l, 0 ≤ lf_size l) (leaves pt).
Proof.
  intros Hok. apply Forall_forall. intros l Hl. destruct (leaves_aligned pt l Hok Hl) as (_ & Hs & _).
  rewrite !elem_of_cons in Hs. destruct Hs as [->|[->|[->|Hs]]]; [lia..|by apply elem_of_nil in Hs].
Qed.

Lemma pages_range pt : mapper_ok pt → 0 ≤ pages (leaves pt) ≤ 2 ^ 36.
Proof.
  intros Hok. split; [|by apply leaves_bound]. by apply pages_nonneg, leaves_sizes.
Qed.

(** A mapping the mapper made and the manager recorded is a move. *)
Lemma tracked_moves s pt' g' virt phys flags desc :
  vmm_ok s → map_args virt phys flags → virt mod 4096 = 0 →
  mapper_ok pt' → pmm_holds g' (table_frames pt') →
  leaves pt' ≡ₚ mkLeaf virt phys 4096 flags :: leaves (vs_pt s) →
  vmm_moves s (tracked s pt' g' virt phys flags desc).
Proof.
  intros [Ht Hf Hr Hp Hb Hbelow] [Hv Hvb Hph Hfl] Ha Ht' Hf' Hl.
  pose proof (pages_range _ Ht') as Hbound. pose proof (pages_range _ Ht) as Hbound0.
  assert (Hpages : pages (leaves pt') = 1 + pages (leaves (vs_pt s))) by by rewrite Hl, pages_cons.
  split.
  - split; cbn; [done|done| | | |].
    + rewrite fmap_app, Hr, Hl. cbn. by rewrite Permutation_app_comm.
    + rewrite Hp, Hpages, wrap64_small by lia. lia.
    + rewrite Hb, Hpages. unfold PAGE_SIZE. rewrite wrap64_small by lia. lia.
    + intros l. rewrite Hl, elem_of_cons. intros [->|Hin]; [cbn; lia|by apply Hbelow].
  - exists [FlushPage virt]. split; [done|]. intros v Hv'. cbn [tracked vs_pt] in Hv'.
    destruct (decide (covers (mkLeaf virt phys 4096 flags) v)) as [Hc|Hn].
    + rewrite (covers_page _ _ _ _ Ha Hc). by left.
    + exfalso. apply Hv'. by eapply translate_other.
Qed.

(** An attempt the mapper refused changes nothing the manager sees. *)
Lemma refused_moves s pt' g' :
  vmm_ok s → mapper_ok pt' → pmm_holds g' (table_frames pt') → leaves pt' ≡ₚ leaves (vs_pt s) →
  vmm_moves s (mkVmmState (vs_vmm s) pt' g' (vs_tlb s)).
Proof.
  intros [Ht Hf Hr Hp Hb Hbelow] Ht' Hf' Hl. split.
  - split; cbn; [done|done|by rewrite Hl|by rewrite Hl|by rewrite Hl|]. intros l. rewrite Hl. by apply Hbelow.
  - exists []. split; [by rewrite app_nil_r|]. intros v Hv. cbn in Hv. exfalso. apply Hv.
    by apply translate_perm.
Qed.

(** What [map_page] answers. *)
Definition map_answer (s s' : VmmState T) (virt phys flags : Z) (r : result unit VmmError) : Prop :=
  match r with
  | Ok _ => leaves (vs_pt s') ≡ₚ mkLeaf virt phys 4096 flags :: leaves (vs_pt s)
  | Err e =>
      vs_vmm s' = vs_vmm s ∧ vs_tlb s' = vs_tlb s ∧ leaves (vs_pt s') ≡ₚ leaves (vs_pt s) ∧
      match e with
      | AlreadyMapped => ∃ l, l ∈ leaves (vs_pt s) ∧ lf_virt l = virt ∧ lf_size l = 4096
      | ParentEntryHugePage => ∃ l, l ∈ leaves (vs_pt s) ∧ covers l virt ∧ lf_size l ≠ 4096
      | OutOfMemory => True
      | _ => False
      end
  end.

Lemma aligned_args a : is_aligned a PAGE_SIZE = bool_decide (a mod 4096 = 0).
Proof.
  unfold PAGE_SIZE. rewrite is_aligned_ok. destruct (Z.eqb_spec (a mod 4096) 0); by case_bool_decide.
Qed.

Lemma map_page_misaligned s virt phys flags :
  virt mod 4096 ≠ 0 ∨ phys mod 4096 ≠ 0 → map_page virt phys flags s = Ret (Err InvalidAddress, s).
Proof.
  intros Hm. unfold map_page. rewrite !aligned_args. repeat case_bool_decide; try done. lia.
Qed.

Lemma map_page_run s virt phys flags :
  vmm_ok s → map_args virt phys flags → virt mod 4096 = 0 → phys mod 4096 = 0 →
  ∃ r s', map_page virt phys flags s = Ret (r, s') ∧ vmm_moves s s' ∧ map_answer s s' virt phys flags r.
Proof.
  intros Hs Ha Hv Hp. unfold map_page. rewrite !aligned_args, !bool_decide_true by done. cbn [negb orb].
  destruct (page_frame_aligned virt Hv) as [-> _]. destruct (page_frame_aligned phys Hp) as [_ ->].
  destruct (mapper_map_spec s virt phys flags Hs Ha Hv Hp) as (r & pt' & g' & Hrun & Ht & Hf & Hr).
  unfold map_err. rewrite bind_assoc, (bind_Ret _ _ _ _ _ Hrun), bind_mret. destruct r as [[]|e].
  - unfold issue, track, upd_vmm. rewrite ?bind_assoc. msteps. eexists _, _. split; [reflexivity|].
    split; [|exact Hr]. by apply (tracked_moves s pt' g' virt phys flags "user mapped").
  - eexists _, _. split; [reflexivity|]. destruct Hr as [Hl Hr]. split; [by apply refused_moves|].
    split_and!; [done..|]. destruct e; naive_solver.
Qed.

(** ** Removing a page *)

Lemma in_region_covers s r v :
  vmm_ok s → r ∈ mapped_regions (vs_vmm s) → in_region v r = bool_decide (covers (leaf_of r) v).
Proof.
  intros Hs Hr. assert (Hin : leaf_of r ∈ leaves (vs_pt s)).
  { rewrite <- (vo_regions s Hs). by apply list_elem_of_fmap_2. }
  pose proof (vo_below s Hs _ Hin) as Hb. destruct (leaves_aligned _ _ (vo_tables s Hs) Hin) as (_ & Hsz & Hc).
  cbn in Hb, Hsz, Hc. unfold in_region, covers. cbn [leaf_of lf_virt lf_size].
  assert (0 ≤ virtual_addr r + mapped_size r).
  { rewrite !elem_of_cons in Hsz. unfold canonical in Hc. destruct Hsz as [->|[->|[->|Hx]]]; [lia..|by apply elem_of_nil in Hx]. }
  rewrite wrap64_small by lia.
  destruct (Z.leb_spec (virtual_addr r) v), (Z.ltb_spec v (virtual_addr r + mapped_size r)); case_bool_decide; (done || lia).
Qed.

Definition untracked (s : VmmState T) (pt' : T) (virt : Z) : VmmState T :=
  mkVmmState
    (upd_stats count_unmap (upd_regions (filter (λ r, in_region virt r = false)) (vs_vmm s)))
    pt' (vs_pmm s) (vs_tlb s ++ [FlushPage virt]).

(** Dropping the tracked regions that contain the page drops exactly its leaf. *)
Lemma filter_regions rs (f : MappedRegion → bool) ls l :
  leaf_of <$> rs ≡ₚ l :: ls →
  (∀ r, r ∈ rs → f r = false ↔ leaf_of r ≠ l) → l ∉ ls →
  leaf_of <$> filter (λ r, f r = false) rs ≡ₚ ls.
Proof.
  intros Hp Hf Hl.
  assert (Hfil : leaf_of <$> filter (λ r, f r = false) rs = filter (λ x, x ≠ l) (leaf_of <$> rs)).
  { clear Hp. induction rs as [|r rs IH]; [done|]. rewrite fmap_cons, !filter_cons.
    specialize (IH ltac:(intros; apply Hf; by right)). pose proof (Hf r ltac:(left)).
    repeat case_decide; rewrite ?fmap_cons, ?IH; done || (exfalso; tauto). }
  rewrite Hfil, Hp, filter_cons, decide_False by naive_solver.
  rewrite filter_true; [done|]. apply Forall_forall. intros x Hx ->. done.
Qed.

Lemma untracked_moves s pt' virt phys flags :
  vmm_ok s → virt mod 4096 = 0 → mapper_ok pt' → table_frames pt' = table_frames (vs_pt s) →
  leaves (vs_pt s) ≡ₚ mkLeaf virt phys 4096 flags :: leaves pt' →
  vmm_moves s (untracked s pt' virt).
Proof.
  intros Hs Ha Ht' Hf' Hl. pose proof Hs as [Ht Hf Hr Hp Hb Hbelow]. set (l := mkLeaf virt phys 4096 flags) in *.
  pose proof (pages_range _ Ht') as Hbound.
  assert (Hpages : pages (leaves (vs_pt s)) = 1 + pages (leaves pt')) by by rewrite Hl, pages_cons.
  assert (Hc : covers l virt) by (unfold covers, l; cbn; lia).
  pose proof (leaf_alone _ l _ Ht Hl) as Halone.
  assert (Hin : ∀ r, r ∈ mapped_regions (vs_vmm s) → leaf_of r ∈ l :: leaves pt').
  { intros r Hr'. rewrite <- Hl, <- Hr. by apply list_elem_of_fmap_2. }
  split.
  - split; cbn; [done|by rewrite Hf'| | | |].
    + apply (filter_regions _ _ _ l); [by rewrite Hr, Hl| |].
      * intros r Hr'. rewrite (in_region_covers s r virt Hs Hr'). specialize (Hin r Hr').
        rewrite bool_decide_eq_false. split; [intros Hn He; apply Hn; by rewrite He|]. intros Hne Hcov.
        apply elem_of_cons in Hin as [?|Hin]; [done|]. by apply (Halone _ virt Hin Hc).
      * intros Hx. by apply (Halone l virt Hx Hc).
    + unfold sat_sub. rewrite Hp. lia.
    + unfold sat_sub, PAGE_SIZE in *. rewrite Hb. lia.
    + intros l' Hl'. apply Hbelow. rewrite Hl. by right.
  - exists [FlushPage virt]. split; [done|]. intros v Hv. cbn [untracked vs_pt] in Hv.
    destruct (decide (covers l v)) as [Hcv|Hn].
    + rewrite (covers_page _ _ _ _ Ha Hcv). by left.
    + exfalso. apply Hv. symmetry. by eapply translate_other.
Qed.

Definition unmap_answer (s s' : VmmState T) (virt : Z) (r : result Z VmmError) : Prop :=
  match r with
  | Ok phys => ∃ flags, leaves (vs_pt s) ≡ₚ mkLeaf virt phys 4096 flags :: leaves (vs_pt s')
  | Err e =>
      vs_vmm s' = vs_vmm s ∧ vs_tlb s' = vs_tlb s ∧ vs_pmm s' = vs_pmm s ∧
      leaves (vs_pt s') = leaves (vs_pt s) ∧
      match e with
      | NotMapped => ∀ l, l ∈ leaves (vs_pt s) → ¬ covers l virt
      | ParentEntryHugePage => ∃ l, l ∈ leaves (vs_pt s) ∧ covers l virt ∧ lf_size l ≠ 4096
      | UnmapFailed => ∃ l, l ∈ leaves (vs_pt s) ∧ covers l virt ∧ lf_phys l mod 4096 ≠ 0
      | _ => False
      end
  end.

Lemma unmap_page_run s virt :
  vmm_ok s → canonical virt → virt mod 4096 = 0 →
  ∃ r s', unmap_page virt s = Ret (r, s') ∧ vmm_moves s s' ∧ unmap_answer s s' virt r.
Proof.
  intros Hs Hc Ha. unfold unmap_page. rewrite aligned_args, bool_decide_true by done. cbn [negb].
  destruct (page_frame_aligned virt Ha) as [-> _].
  destruct (unmap_ok virt (vs_pt s) (vo_tables s Hs) Hc Ha) as (r & pt' & Hrun & Ht' & Hf' & Hr).
  assert (Hrun' : mapper_unmap virt s = Ret (r, mkVmmState (vs_vmm s) pt' (vs_pmm s) (vs_tlb s)))
    by (unfold mapper_unmap; by rewrite Hrun).
  unfold map_err. rewrite bind_assoc, (bind_Ret _ _ _ _ _ Hrun'), bind_mret. destruct r as [frame|e].
  - unfold issue, upd_vmm. msteps. destruct Hr as [flags Hl]. eexists _, _. split; [reflexivity|].
    split; [by apply (untracked_moves s pt' virt frame flags)|]. by exists flags.
  - eexists _, _. split; [reflexivity|].
    assert (Hl : leaves pt' = leaves (vs_pt s)) by (destruct e; naive_solver).
    split; [|split_and!; try done; destruct e; naive_solver].
    apply refused_moves; [done..| |by rewrite Hl]. rewrite Hf'. by destruct Hs.
Qed.


(** ** Sequences of operations *)



(** Changes of the counters the invariant does not speak about. *)
Lemma moving_stats f :
  (∀ t, total_mapped_pages (f t) = total_mapped_pages t ∧ total_mapped_bytes (f t) = total_mapped_bytes t) →
  moving (upd_vmm (T:=T) (upd_stats f)).
Proof.
  intros Hf s [Ht Hfr Hr Hp Hb Hbelow]. destruct (Hf (vmm_stats (vs_vmm s))) as [Hf1 Hf2].
  eexists _, _. split; [reflexivity|]. split; [split; cbn; rewrite ?Hf1, ?Hf2; done|].
  exists []. by rewrite app_nil_r.
Qed.






(** The [i]-th page of a range. *)
Lemma range_addr a i : 0 ≤ a → 0 ≤ i → a + i * 4096 < 2 ^ 64 → a +₆₄ i *₆₄ PAGE_SIZE = a + i * 4096.
Proof. intros. unfold PAGE_SIZE. rewrite (wrap64_small (i * 4096)) by lia. apply wrap64_small. lia. Qed.


(** A range of pages, none of which leaves the address space. *)
Definition range_args (virt phys count flags : Z) : Prop :=
  0 ≤ virt ∧ 0 ≤ phys ∧ ∀ i, 0 ≤ i < count → map_args (virt + i * 4096) (phys + i * 4096) flags.

Lemma range_addresses virt phys count flags i :
  range_args virt phys count flags → 0 ≤ i < count →
  VirtAddr_new (virt +₆₄ i *₆₄ PAGE_SIZE) = Ret (virt + i * 4096) ∧
  PhysAddr_new (phys +₆₄ i *₆₄ PAGE_SIZE) = Ret (phys + i * 4096).
Proof.
  intros (Hv & Hp & Ha) Hi. destruct (Ha i Hi) as [Hc Hb Hph _]. rewrite !range_addr by lia.
  split; [by apply VirtAddr_new_ok|by apply PhysAddr_new_ok].
Qed.










Lemma vmm_ok_valid s : vmm_ok s → vmm_validate s = true.
Proof.
  intros Hs. unfold vmm_validate. rewrite count_mapped_pages_spec, (vo_pages s Hs).
  pose proof (pages_range _ (vo_tables s Hs)). rewrite wrap_small by lia. apply Z.eqb_refl.
Qed.

(** ** Properties *)


(** What [map_page] answers, on translations. *)
Definition maps_page (s s' : VmmState T) (virt phys flags : Z) (r : result unit VmmError) : Prop :=
  match r with
  | Ok _ =>
      (∀ v, virt ≤ v < virt + 4096 → translate_page (vs_pt s') v = Some (phys + (v - virt), flags)) ∧
      (∀ v, ¬ virt ≤ v < virt + 4096 → translate_page (vs_pt s') v = translate_page (vs_pt s) v)
  | Err e =>
      vs_vmm s' = vs_vmm s ∧ (∀ v, translate_page (vs_pt s') v = translate_page (vs_pt s) v) ∧
      match e with
      | AlreadyMapped | ParentEntryHugePage => is_Some (translate_page (vs_pt s) virt)
      | OutOfMemory => True
      | _ => False
      end
  end.

Lemma map_answer_translates s s' virt phys flags r :
  vmm_ok s → vmm_ok s' → map_answer s s' virt phys flags r → maps_page s s' virt phys flags r.
Proof.
  intros Hs Hok Hr. pose proof (vo_tables s Hs) as Ht. pose proof (vo_tables s' Hok) as Ht'. destruct r as [[]|e].
  - split; intros v Hin.
    + rewrite (translate_ok (vs_pt s') v (mkLeaf virt phys 4096 flags)); [done|done| |done].
      rewrite Hr. by left.
    + symmetry. eapply translate_other; [done..|]. exact Hin.
  - destruct Hr as (Hvm & _ & Hl & Hr). split; [done|]. split; [intros v; by apply translate_perm|].
    destruct e; try done.
    + destruct Hr as (l & Hin & <- & Hsz). rewrite (translate_ok _ (lf_virt l) l); [done|done|done|].
      unfold covers. lia.
    + destruct Hr as (l & Hin & Hc & _). by rewrite (translate_ok _ virt l).
Qed.


(** A mapped 4 KiB page can be unmapped. *)
Lemma unmap_mapped s virt phys flags ls :
  vmm_ok s → canonical virt → virt mod 4096 = 0 → phys mod 4096 = 0 →
  leaves (vs_pt s) ≡ₚ mkLeaf virt phys 4096 flags :: ls →
  ∃ s', unmap_page virt s = Ret (Ok phys, s') ∧ vmm_moves s s' ∧ leaves (vs_pt s') ≡ₚ ls.
Proof.
  intros Hs Hc Hv Hp Hl. destruct (unmap_page_run s virt Hs Hc Hv) as (r & s' & Hrun & Hm & Hr).
  set (l := mkLeaf virt phys 4096 flags) in *.
  assert (Hcov : covers l virt) by (unfold covers, l; cbn; lia).
  assert (Hin : l ∈ leaves (vs_pt s)) by (rewrite Hl; by left).
  assert (Honly : ∀ l', l' ∈ leaves (vs_pt s) → covers l' virt → l' = l).
  { intros l' Hl' Hc'. rewrite Hl in Hl'. apply elem_of_cons in Hl' as [->|Hl']; [done|].
    exfalso. by apply (leaf_alone _ _ _ (vo_tables s Hs) Hl l' virt Hl' Hcov). }
  destruct r as [phys'|e].
  - destruct Hr as (flags' & Hl').
    assert (He : mkLeaf virt phys' 4096 flags' = l).
    { apply Honly; [rewrite Hl'; by left|]. unfold covers. cbn. lia. }
    exists s'. rewrite He in Hl'. injection He as -> ->. split; [done|]. split; [done|].
    rewrite Hl in Hl'. by apply (Permutation_cons_inv (a:=l)).
  - exfalso. destruct Hr as (_ & _ & _ & _ & Hr). destruct e; try done.
    + by apply (Hr l Hin).
    + destruct Hr as (l' & Hl' & Hc' & Hbad). rewrite (Honly l' Hl' Hc') in Hbad. done.
    + destruct Hr as (l' & Hl' & Hc' & Hbad). rewrite (Honly l' Hl' Hc') in Hbad. done.
Qed.

(** C23. Mapping a page and unmapping it is a round trip: [unmap_page] gives back the frame,
    and every translation, the tracked regions and the page counts are as before. *)
Theorem map_unmap_round_trip s s1 virt phys flags :
  vmm_ok s → map_args virt phys flags → virt mod 4096 = 0 → phys mod 4096 = 0 →
  map_page virt phys flags s = Ret (Ok tt, s1) →
  ∃ s2, unmap_page virt s1 = Ret (Ok phys, s2) ∧ vmm_ok s2 ∧
    (∀ v, translate_page (vs_pt s2) v = translate_page (vs_pt s) v) ∧
    leaf_of <$> mapped_regions (vs_vmm s2) ≡ₚ leaf_of <$> mapped_regions (vs_vmm s) ∧
    total_mapped_pages (vmm_stats (vs_vmm s2)) = total_mapped_pages (vmm_stats (vs_vmm s)).
Proof.
  intros Hs Ha Hv Hp Hmap. destruct (map_page_run s virt phys flags Hs Ha Hv Hp) as (r & s' & Hrun & [Hok _] & Hr).
  rewrite Hmap in Hrun. injection Hrun as <- <-.
  destruct (unmap_mapped s1 virt phys flags _ Hok (ma_virt _ _ _ Ha) Hv Hp Hr) as (s2 & Hrun & [Hok2 _] & Hl).
  exists s2. split; [done|]. split; [done|].
  split; [intros v; apply translate_perm; [by apply vo_tables..|done]|].
  rewrite (vo_regions s2 Hok2), (vo_regions s Hs), (vo_pages s2 Hok2), (vo_pages s Hs), Hl. done.
Qed.

(** C24. [remap_page] of a mapped page. With an aligned frame and no table to allocate, it
    answers the old frame and the page translates into the new one; with a misaligned
    address it has already unmapped the page when it refuses: the mapping is lost. *)
Theorem remap_page_outcomes s virt phys flags new_phys new_flags ls :
  vmm_ok s → map_args virt new_phys new_flags → virt mod 4096 = 0 → phys mod 4096 = 0 →
  leaves (vs_pt s) ≡ₚ mkLeaf virt phys 4096 flags :: ls →
  ∃ r s', remap_page virt new_phys new_flags s = Ret (r, s') ∧ vmm_ok s' ∧
    match r with
    | Ok old =>
        old = phys ∧ new_phys mod 4096 = 0 ∧
        ∀ v, virt ≤ v < virt + 4096 → translate_page (vs_pt s') v = Some (new_phys + (v - virt), new_flags)
    | Err e =>
        (e = InvalidAddress ↔ new_phys mod 4096 ≠ 0) ∧
        ∀ v, virt ≤ v < virt + 4096 → translate_page (vs_pt s') v = None
    end ∧
    ∀ v, ¬ virt ≤ v < virt + 4096 → translate_page (vs_pt s') v = translate_page (vs_pt s) v.
Proof.
  intros Hs Ha Hv Hp Hl. unfold remap_page.
  destruct (unmap_mapped s virt phys flags ls Hs (ma_virt _ _ _ Ha) Hv Hp Hl) as (s1 & Hrun & [Hok1 _] & Hl1).
  rewrite (bind_Ret _ _ _ _ _ Hrun).
  pose proof (vo_tables s Hs) as Ht. pose proof (vo_tables s1 Hok1) as Ht1.
  assert (Hgone : ∀ v, virt ≤ v < virt + 4096 → translate_page (vs_pt s1) v = None).
  { intros v Hin. apply translate_none; [done|]. intros l'. rewrite Hl1. intros Hl' Hc.
    by apply (leaf_alone _ _ _ Ht Hl l' v Hl'). }
  assert (Hother : ∀ v, ¬ virt ≤ v < virt + 4096 → translate_page (vs_pt s1) v = translate_page (vs_pt s) v).
  { intros v Hn. eapply (translate_other _ _ (mkLeaf virt phys 4096 flags)); [done..| |exact Hn].
    by rewrite Hl, Hl1. }
  destruct (decide (new_phys mod 4096 = 0)) as [Hnp|Hnp].
  - destruct (map_page_run s1 virt new_phys new_flags Hok1 Ha Hv Hnp) as (r & s2 & Hrun2 & [Hok2 _] & Hr).
    apply map_answer_translates in Hr; [|done..].
    rewrite (bind_Ret _ _ _ _ _ Hrun2). destruct r as [[]|e].
    + destruct Hr as [Hin Hout]. destruct (moving_stats count_remap ltac:(done) s2 Hok2) as ([] & s3 & Hrun3 & [Hok3 _]).
      rewrite (bind_Ret _ _ _ _ _ Hrun3). exists (Ok phys), s3. unfold upd_vmm, modify in Hrun3.
      injection Hrun3 as <-. split_and!; [done|done|done|done|exact Hin|].
      intros v Hn. cbn [vs_pt]. by rewrite Hout, Hother.
    + destruct Hr as (_ & Hsame & Hr). exists (Err e), s2. split_and!; [done|done|split| |].
      * intros ->. done.
      * done.
      * intros v Hin. rewrite Hsame. by apply Hgone.
      * intros v Hn. by rewrite Hsame, Hother.
  - rewrite (bind_Ret _ _ _ _ _ (map_page_misaligned s1 virt new_phys new_flags (or_intror Hnp))).
    exists (Err InvalidAddress), s1. by split_and!.
Qed.

(** ** Ranges and initialisation *)

(** The leaf of the [i]-th page of a range. *)
Definition page_leaf (virt phys flags i : Z) : Leaf :=
  mkLeaf (virt + i * 4096) (phys + i * 4096) 4096 flags.

Lemma map_loop_run virt phys count flags k s :
  range_args virt phys count flags → virt mod 4096 = 0 → phys mod 4096 = 0 → 0 ≤ k ≤ count → vmm_ok s →
  ∃ r s' n, mfor_res (range k count) (λ i,
      page_virt ← liftO (VirtAddr_new (virt +₆₄ i *₆₄ PAGE_SIZE));
      page_phys ← liftO (PhysAddr_new (phys +₆₄ i *₆₄ PAGE_SIZE));
      map_page page_virt page_phys flags) s = Ret (r, s') ∧
    vmm_moves s s' ∧ k ≤ n ≤ count ∧ (r = Ok tt ↔ n = count) ∧
    leaves (vs_pt s') ≡ₚ (page_leaf virt phys flags <$> range k n) ++ leaves (vs_pt s).
Proof.
  intros Ha Hv Hp Hk Hs. remember (Z.to_nat (count - k)) as m eqn:Hm.
  revert k s Hk Hs Hm. induction m as [|m IH]; intros k s Hk Hs Hm.
  - rewrite range_nil by lia. exists (Ok tt), s, k. split_and!; [done|by apply moves_same|lia|lia|split; [lia|done]|].
    by rewrite range_nil by lia.
  - rewrite range_cons by lia. cbn [mfor_res].
    destruct (range_addresses _ _ _ _ k Ha ltac:(lia)) as [Hvk Hpk].
    destruct (map_page_run s (virt + k * 4096) (phys + k * 4096) flags Hs) as (r & s1 & Hrun & Hm1 & Hr).
    { destruct Ha as (_ & _ & Ha). apply Ha. lia. } { rewrite Z.mod_add by lia. done. } { rewrite Z.mod_add by lia. done. }
    erewrite bind_Ret; [|rewrite (bind_Ret _ _ _ _ _ (liftO_Ret _ _ _ Hvk)), (bind_Ret _ _ _ _ _ (liftO_Ret _ _ _ Hpk)); exact Hrun].
    destruct r as [[]|e].
    + destruct (IH (k + 1) s1 ltac:(lia) (proj1 Hm1) ltac:(lia)) as (r & s' & n & Hloop & Hm2 & Hn & Hrn & Hl).
      exists r, s', n. split_and!; [done|by eapply moves_trans|lia|lia|done|].
      rewrite Hl, (range_cons k n) by lia. cbn [fmap list_fmap app]. rewrite Hr. symmetry. apply Permutation_middle.
    + exists (Err e), s1, k. split_and!; [done|done|lia|lia|split; [done|lia]|].
      destruct Hr as (_ & _ & Hl & _). by rewrite range_nil by lia.
Qed.

(** [map_region] maps a prefix of its range: it returns [Ok] exactly when every page was
    mapped, and when a page fails the pages before it stay mapped. *)
Theorem map_region_prefix s virt phys count flags :
  vmm_ok s → range_args virt phys count flags → virt mod 4096 = 0 → phys mod 4096 = 0 → 0 ≤ count →
  ∃ r s' n, map_region virt phys count flags s = Ret (r, s') ∧ vmm_ok s' ∧ 0 ≤ n ≤ count ∧
    (r = Ok tt ↔ n = count) ∧
    (∀ v, virt ≤ v < virt + n * 4096 → translate_page (vs_pt s') v = Some (phys + (v - virt), flags)) ∧
    (∀ v, ¬ virt ≤ v < virt + n * 4096 → translate_page (vs_pt s') v = translate_page (vs_pt s) v).
Proof.
  intros Hs Ha Hv Hp Hc. unfold map_region. rewrite !aligned_args, !bool_decide_true by done. cbn [negb orb].
  destruct (map_loop_run virt phys count flags 0 s Ha Hv Hp ltac:(lia) Hs) as (r & s' & n & Hrun & [Hok _] & Hn & Hr & Hl).
  exists r, s', n. split_and!; [done|done|lia|lia|exact Hr| |].
  - intros v Hin. set (i := (v - virt) / 4096).
    rewrite (translate_ok (vs_pt s') v (page_leaf virt phys flags i)).
    + cbn. do 2 f_equal. lia.
    + by apply vo_tables.
    + rewrite Hl. apply elem_of_app. left. apply list_elem_of_fmap_2, elem_of_range. unfold i. dlia.
    + unfold covers. cbn. unfold i. dlia.
  - intros v Hout. symmetry. apply translate_same; [by apply vo_tables..|]. intros l Hcov.
    rewrite Hl, elem_of_app. split; [by right|]. intros [(i & -> & Hi%elem_of_range)%list_elem_of_fmap|?]; [|done].
    exfalso. apply Hout. unfold covers in Hcov. cbn in Hcov. lia.
Qed.

Lemma leaves_low pt l : mapper_ok pt → low_half pt → l ∈ leaves pt → lf_virt l < 2 ^ 47.
Proof.
  intros Hok Hlow Hl. unfold leaves in Hl. apply list_elem_of_bind in Hl as ([i4 e4] & Hl & H4).
  pose proof (enumerate_index _ _ _ _ H4) as Hi4. specialize (Hlow i4 e4 H4). unfold leaves_4 in Hl.
  destruct (contains (pte_flags e4) PRESENT); [|by apply elem_of_nil in Hl]. specialize (Hlow eq_refl).
  apply list_elem_of_bind in Hl as ([i3 e3] & Hl & H3). pose proof (enumerate_index _ _ _ _ H3) as Hi3.
  assert (Hraw : ∀ raw size e, l ∈ [leaf_at raw size e] → raw < 2 ^ 47 → lf_virt l < 2 ^ 47).
  { intros raw size e ->%list_elem_of_singleton Hr. unfold leaf_at, virt_of. cbn [lf_virt].
    destruct (Z.ltb_spec raw (2 ^ 47)); lia. }
  unfold leaves_3 in Hl. destruct (contains (pte_flags e3) PRESENT); [|by apply elem_of_nil in Hl].
  destruct (contains (pte_flags e3) HUGE_PAGE); [apply (Hraw _ _ _ Hl); lia|].
  apply list_elem_of_bind in Hl as ([i2 e2] & Hl & H2'). pose proof (enumerate_index _ _ _ _ H2') as Hi2.
  unfold leaves_2 in Hl. destruct (contains (pte_flags e2) PRESENT); [|by apply elem_of_nil in Hl].
  destruct (contains (pte_flags e2) HUGE_PAGE); [apply (Hraw _ _ _ Hl); lia|].
  apply list_elem_of_bind in Hl as ([i1 e1] & Hl & H1'). pose proof (enumerate_index _ _ _ _ H1') as Hi1.
  unfold leaves_1 in Hl. destruct (contains (pte_flags e1) PRESENT); [|by apply elem_of_nil in Hl].
  apply (Hraw _ _ _ Hl). lia.
Qed.

(** The manager that [init] makes of the boot tables. *)
Lemma vmm_init_ok pt g :
  mapper_ok pt → low_half pt → pmm_holds g (table_frames pt) →
  ∃ v, vmm_init pt = Ret v ∧ mapped_regions v = region_of boot_desc <$> leaves pt ∧
    vmm_ok (mkVmmState v pt g []).
Proof.
  intros Hok Hlow Hg. rewrite vmm_init_spec by done. pose proof (pages_range _ Hok) as Hp.
  eexists. split; [reflexivity|]. split; [done|].
  split; cbn; [done|done| | | |].
  - rewrite <- list_fmap_compose. transitivity (id <$> leaves pt); [|by rewrite list_fmap_id].
    apply reflexive_eq, list_fmap_ext. intros _ [] _. done.
  - by rewrite wrap_small by lia.
  - rewrite (wrap_small 64 (pages (leaves pt))) by lia. unfold PAGE_SIZE. rewrite wrap_small by lia. done.
  - intros l Hl. pose proof (leaves_low pt l Hok Hlow Hl).
    destruct (leaves_aligned pt l Hok Hl) as (_ & Hs & _). rewrite !elem_of_cons in Hs.
    destruct Hs as [->|[->|[->|Hs]]]; [lia..|by apply elem_of_nil in Hs].
Qed.

(** C25. Taking over the boot tables: with no mapping in the upper half, the walk of [init]
    does not panic and records one region per mapping in table order, and its page count
    is the one the other walk, [validate]'s, computes. *)
Theorem vmm_init_discovers pt g :
  mapper_ok pt → low_half pt → pmm_holds g (table_frames pt) →
  ∃ v, vmm_init pt = Ret v ∧ mapped_regions v = region_of boot_desc <$> leaves pt ∧
    vmm_ok (mkVmmState v pt g []) ∧ vmm_validate (mkVmmState v pt g []) = true.
Proof.
  intros Hok Hlow Hg. destruct (vmm_init_ok pt g Hok Hlow Hg) as (v & Hv & Hr & Hs).
  exists v. split_and!; [done..|]. by apply vmm_ok_valid.
Qed.

End Theorems.
