(* ===== verification/VmmInstance.v ===== *)
(** * A concrete mapper, and the witnesses of the virtual memory manager

    A machine with one page table: the addresses below 2 MiB, in 4 KiB pages. Its
    mapper never needs a new table. It satisfies the laws of the mapper. *)

From stdpp Require Import base numbers list gmap strings.
From S2P Require Import Prelude Regions FrameAllocator FrameSpec FrameInit PhysMem FrameTheorems Paging Vmm VmmSpec VmmTheorems.

#[local] Open Scope Z_scope.

(** The page table entries that are in use: frame and flags by index. *)
Abbreviation SmallTables := (gmap Z (Z * Z)).

Definition no_entry : PageTableEntry := mkPte 0 0.

Definition small_entry (t : SmallTables) (i : Z) : PageTableEntry :=
  match t !! i with
  | Some (f, fl) => mkPte fl f
  | None => no_entry
  end.

(** A table whose first entry points to [child]. *)
Definition parent_table (child : Z) : list PageTableEntry :=
  mkPte (Z.lor PRESENT WRITABLE) child :: replicate 511 no_entry.

Definition small_read (t : SmallTables) (a : Z) : list PageTableEntry :=
  if a =? 0x1000 then parent_table 0x2000
  else if a =? 0x2000 then parent_table 0x3000
  else if a =? 0x3000 then parent_table 0x4000
  else if a =? 0x4000 then small_entry t <$> range 0 512
  else replicate 512 no_entry.

Definition below_2M (a : Z) : bool := (0 <=? a) && (a <? 2 ^ 21).

#[export] Instance small_mapper : PageMapper SmallTables := {
  level_4_table t := 0x1000;
  read_table := small_read;
  map_to A alloc page frame flags s :=
    if below_2M page then
      match s.1 !! (page / 4096) with
      | Some _ => Ret (Err (PageAlreadyMapped frame), s)
      | None => Ret (Ok tt, (<[page / 4096 := (frame, flags)]> s.1, s.2))
      end
    else Ret (Err FrameAllocationFailed, s);
  unmap page t :=
    if below_2M page then
      match t !! (page / 4096) with
      | Some (f, _) => Ret (Ok f, delete (page / 4096) t)
      | None => Ret (Err PageNotMapped, t)
      end
    else Ret (Err PageNotMapped, t);
  translate_page t v :=
    if below_2M v then
      match t !! (v / 4096) with
      | Some (f, fl) => Some (f + v mod 4096, fl)
      | None => None
      end
    else None;
}.

Definition small_ok (t : SmallTables) : Prop :=
  ∀ i f fl, t !! i = Some (f, fl) → 0 ≤ i < 512 ∧ contains fl PRESENT = true.

(** The leaves of an index. *)
Definition small_leaf (t : SmallTables) (i : Z) : list Leaf :=
  match t !! i with
  | Some (f, fl) => [mkLeaf (i * 4096) f 4096 fl]
  | None => []
  end.

Lemma bind_no_entries {A} (g : Z * PageTableEntry → list A) n k :
  (∀ i, g (i, no_entry) = []) → zip (range k (k + Z.of_nat n)) (replicate n no_entry) ≫= g = [].
Proof.
  intros Hg. revert k. induction n as [|n IH]; intros k; [by rewrite range_nil by lia|].
  rewrite range_cons by lia. cbn [replicate zip zip_with].
  change (((k, no_entry) :: ?l) ≫= g) with (g (k, no_entry) ++ (l ≫= g)). rewrite Hg.
  replace (k + Z.of_nat (S n)) with (k + 1 + Z.of_nat n) by lia. apply IH.
Qed.

Lemma bind_parent {A} (g : Z * PageTableEntry → list A) child :
  (∀ i, g (i, no_entry) = []) →
  enumerate (parent_table child) ≫= g = g (0, mkPte (Z.lor PRESENT WRITABLE) child).
Proof.
  intros Hg. unfold enumerate, parent_table. rewrite zlen_cons, range_cons by (unfold zlen; lia).
  cbn [zip zip_with]. change ((?x :: ?l) ≫= g) with (g x ++ (l ≫= g)).
  pose proof (bind_no_entries g 511 1 Hg) as Hz. unfold zlen. rewrite length_replicate.
  change (0 + 1) with 1. rewrite Hz. apply app_nil_r.
Qed.

Lemma small_leaves t : small_ok t → leaves t = range 0 512 ≫= small_leaf t.
Proof.
  intros Hok. unfold leaves. cbn [level_4_table read_table small_mapper].
  change (small_read t 0x1000) with (parent_table 0x2000).
  rewrite bind_parent by done. unfold leaves_4. cbn [pte_flags pte_addr].
  change (contains (Z.lor PRESENT WRITABLE) PRESENT) with true. cbn iota.
  change (read_table t 0x2000) with (parent_table 0x3000). rewrite bind_parent by done.
  unfold leaves_3. cbn [pte_flags pte_addr].
  change (contains (Z.lor PRESENT WRITABLE) PRESENT) with true.
  change (contains (Z.lor PRESENT WRITABLE) HUGE_PAGE) with false. cbn iota.
  change (read_table t 0x3000) with (parent_table 0x4000). rewrite bind_parent by done.
  unfold leaves_2. cbn [pte_flags pte_addr].
  change (contains (Z.lor PRESENT WRITABLE) PRESENT) with true.
  change (contains (Z.lor PRESENT WRITABLE) HUGE_PAGE) with false. cbn iota.
  change (read_table t 0x4000) with (small_entry t <$> range 0 512).
  unfold enumerate, zlen. rewrite length_fmap, length_range.
  change (Z.of_nat (Z.to_nat (512 - 0))) with 512.
  assert (Hi : ∀ i, i ∈ range 0 512 → 0 ≤ i < 512) by by intros i Hi%elem_of_range.
  induction (range 0 512) as [|i l IH]; [done|]. cbn [fmap list_fmap zip zip_with].
  change ((?x :: ?l) ≫= ?g) with (g x ++ (l ≫= g)). rewrite IH by (intros; apply Hi; by right). f_equal.
  specialize (Hi i ltac:(left)). unfold leaves_1, small_entry, small_leaf.
  destruct (t !! i) as [[f fl]|] eqn:Ht; [|done]. cbn [pte_flags].
  destruct (Hok i f fl Ht) as [_ ->]. unfold leaf_at, virt_of. cbn [pte_addr pte_flags].
  destruct (Z.ltb_spec (0 * 2 ^ 39 + 0 * 2 ^ 30 + 0 * 2 ^ 21 + i * 2 ^ 12) (2 ^ 47)); [|lia].
  do 2 f_equal.
Qed.

Lemma small_elem t l :
  small_ok t → l ∈ leaves t ↔ ∃ i f fl, t !! i = Some (f, fl) ∧ l = mkLeaf (i * 4096) f 4096 fl.
Proof.
  intros Hok. rewrite small_leaves by done. rewrite list_elem_of_bind. unfold small_leaf. split.
  - intros (i & Hl & _). destruct (t !! i) as [[f fl]|] eqn:Ht; [|by apply elem_of_nil in Hl].
    apply list_elem_of_singleton in Hl. by exists i, f, fl.
  - intros (i & f & fl & Ht & ->). exists i. rewrite Ht. split; [by left|].
    apply elem_of_range. by eapply Hok.
Qed.

(** Changing the entry [i] from nothing to one leaf. *)
Lemma small_change t t' i l :
  0 ≤ i < 512 → (∀ j, j ≠ i → small_leaf t' j = small_leaf t j) →
  small_leaf t i = [] → small_leaf t' i = [l] →
  range 0 512 ≫= small_leaf t' ≡ₚ l :: (range 0 512 ≫= small_leaf t).
Proof.
  intros Hi Hj Ht Ht'. rewrite (range_split 0 i 512), (range_cons i 512) by lia.
  rewrite !bind_app. change ((i :: ?k) ≫= ?g) with (g i ++ (k ≫= g)). rewrite Ht, Ht'.
  assert (Hsame : ∀ k : list Z, i ∉ k → k ≫= small_leaf t' = k ≫= small_leaf t).
  { induction k as [|x k IH]; [done|]. rewrite not_elem_of_cons. intros [Hx Hk].
    change ((x :: k) ≫= ?g) with (g x ++ (k ≫= g)). rewrite IH by done. rewrite Hj by congruence. done. }
  rewrite !Hsame by (rewrite elem_of_range; lia). cbn [app]. symmetry. apply Permutation_middle.
Qed.

Lemma small_nodup t : small_ok t → NoDup (leaves t).
Proof.
  intros Hok. rewrite small_leaves by done.
  assert (Hn : NoDup (range 0 512)) by apply NoDup_seqZ.
  induction Hn as [|i l Hi Hn IH]; [constructor|].
  change ((i :: l) ≫= ?g) with (g i ++ (l ≫= g)). apply NoDup_app. split_and!; [| |done].
  - unfold small_leaf. destruct (t !! i) as [[f fl]|]; [apply NoDup_singleton|constructor].
  - unfold small_leaf at 1. destruct (t !! i) as [[f fl]|] eqn:Ht; [|intros x Hx; by apply elem_of_nil in Hx].
    intros x ->%list_elem_of_singleton (j & Hx & Hj)%list_elem_of_bind. unfold small_leaf in Hx.
    destruct (t !! j) as [[f' fl']|]; [|by apply elem_of_nil in Hx].
    apply list_elem_of_singleton in Hx. injection Hx as He _ _. assert (i = j) as -> by lia. done.
Qed.

Lemma small_pages t : small_ok t → pages (leaves t) ≤ 512.
Proof.
  intros Hok. rewrite small_leaves by done.
  assert (Hl : ∀ l : list Z, pages (l ≫= small_leaf t) ≤ zlen l).
  { induction l as [|i l IH]; [done|]. change ((i :: l) ≫= ?g) with (g i ++ (l ≫= g)).
    rewrite pages_app, zlen_cons. unfold small_leaf at 1. destruct (t !! i) as [[f fl]|].
    - change (pages [mkLeaf (i * 4096) f 4096 fl]) with 1. lia.
    - change (pages []) with 0. lia. }
  specialize (Hl (range 0 512)). unfold zlen in Hl. rewrite length_range in Hl. lia.
Qed.

Lemma below_2M_spec a : below_2M a = true ↔ 0 ≤ a < 2 ^ 21.
Proof. unfold below_2M. lia. Qed.

Lemma small_covers t l v :
  small_ok t → l ∈ leaves t → covers l v →
  below_2M v = true ∧ t !! (v / 4096) = Some (lf_phys l, lf_flags l) ∧ lf_virt l = v - v mod 4096 ∧ lf_size l = 4096.
Proof.
  intros Hok (i & f & fl & Ht & ->)%small_elem Hc; [|done]. unfold covers in Hc. cbn in *.
  destruct (Hok i f fl Ht) as [Hi _]. assert (v / 4096 = i) as -> by dlia.
  rewrite below_2M_spec. split_and!; [lia|lia|done|dlia|done].
Qed.

#[local] Obligation Tactic := idtac.

#[export] Program Instance small_laws : PageMapperLaws SmallTables := {
  mapper_ok := small_ok;
  table_frames t := ∅;
}.
Next Obligation.
  intros pt a. cbn [read_table small_mapper]. unfold small_read, parent_table.
  repeat case_match; done.
Qed.
Next Obligation.
  intros pt l Hok (i & f & fl & Ht & ->)%small_elem; [|done]. destruct (Hok i f fl Ht) as [Hi _].
  cbn. split_and!; [by apply Z.mod_mul|by left|]. left. lia.
Qed.
Next Obligation.
  intros pt l l' ls v Hok Hp Hc Hc'.
  assert (Hin : l ∈ leaves pt) by (rewrite Hp; by left).
  assert (Hin' : l' ∈ leaves pt) by (rewrite Hp; right; by left).
  destruct (small_covers pt l v Hok Hin Hc) as (_ & Ht & Hv & Hs).
  destruct (small_covers pt l' v Hok Hin' Hc') as (_ & Ht' & Hv' & Hs').
  assert (l = l') as <- by (destruct l, l'; cbn in *; congruence).
  pose proof (small_nodup pt Hok) as Hn. rewrite Hp in Hn. apply NoDup_cons in Hn as [Hn _]. apply Hn. by left.
Qed.
Next Obligation. intros pt Hok. pose proof (small_pages pt Hok). lia. Qed.
Next Obligation.
  intros A alloc I page frame flags pt a Hsrc Hok HI Hc Hpa Hfa Hf Hfl.
  cbn [map_to small_mapper fst snd]. destruct (below_2M page) eqn:Hb.
  - apply below_2M_spec in Hb. set (i := page / 4096). assert (Hi : 0 ≤ i < 512) by (unfold i; dlia).
    assert (Hpage : page = i * 4096) by (unfold i; dlia).
    destruct (pt !! i) as [[f fl]|] eqn:Ht.
    + eexists _, _, _. split; [reflexivity|]. split_and!; [done|done|done|done|].
      exists (mkLeaf (i * 4096) f 4096 fl). split_and!; [|done|done].
      apply small_elem; [done|]. by exists i, f, fl.
    + eexists _, _, _. split; [reflexivity|].
      assert (Hok' : small_ok (<[i := (frame, flags)]> pt)).
      { intros j f fl. rewrite lookup_insert_Some. intros [[<- [= <- <-]]|[_ Hj]]; [done|by eapply Hok]. }
      split_and!; [done|done|]. rewrite !small_leaves by done. rewrite Hpage.
      apply (small_change _ _ i); [done| | |].
      * intros j Hj. unfold small_leaf. by rewrite lookup_insert_ne.
      * unfold small_leaf. by rewrite Ht.
      * unfold small_leaf. by rewrite lookup_insert_eq.
  - eexists _, _, _. split; [reflexivity|]. by split_and!.
Qed.
Next Obligation.
  intros page pt Hok Hc Hpa. cbn [unmap small_mapper]. destruct (below_2M page) eqn:Hb.
  - apply below_2M_spec in Hb. set (i := page / 4096). assert (Hi : 0 ≤ i < 512) by (unfold i; dlia).
    assert (Hpage : page = i * 4096) by (unfold i; dlia).
    destruct (pt !! i) as [[f fl]|] eqn:Ht.
    + eexists _, _. split; [reflexivity|].
      assert (Hok' : small_ok (delete i pt)).
      { intros j f' fl'. rewrite lookup_delete_Some. intros [_ Hj]. by eapply Hok. }
      split_and!; [done|done|]. exists fl. rewrite !small_leaves by done. rewrite Hpage.
      apply (small_change _ _ i); [done| | |].
      * intros j Hj. unfold small_leaf. by rewrite lookup_delete_ne.
      * unfold small_leaf. by rewrite lookup_delete_eq.
      * unfold small_leaf. by rewrite Ht.
    + eexists _, _. split; [reflexivity|]. split_and!; [done|done|done|].
      intros l Hl Hcv. destruct (small_covers pt l page Hok Hl Hcv) as (_ & Hx & _).
      fold i in Hx. by rewrite Hx in Ht.
  - eexists _, _. split; [reflexivity|]. split_and!; [done|done|done|].
    intros l Hl Hcv. destruct (small_covers pt l page Hok Hl Hcv) as (Hx & _). by rewrite Hx in Hb.
Qed.
Next Obligation.
  intros pt v l Hok Hl Hc. destruct (small_covers pt l v Hok Hl Hc) as (Hb & Ht & Hv & _).
  cbn [translate_page small_mapper]. rewrite Hb, Ht, Hv. do 2 f_equal. lia.
Qed.
Next Obligation.
  intros pt v Hok Hn. cbn [translate_page small_mapper]. destruct (below_2M v) eqn:Hb; [|done].
  destruct (pt !! (v / 4096)) as [[f fl]|] eqn:Ht; [|done]. exfalso.
  apply (Hn (mkLeaf (v / 4096 * 4096) f 4096 fl)); [apply small_elem; [done|]; by exists (v / 4096), f, fl|].
  unfold covers. cbn. dlia.
Qed.

(** ** Addresses *)

#[export] Instance virt48 : VirtAddrApi := {|
  VirtAddr_new a := if (a <? 2 ^ 47) || (2 ^ 64 - 2 ^ 47 <=? a) then Ret a else Panic;
  is_aligned a n := a mod n =? 0;
  page_containing a := a - a mod 4096;
  frame_containing a := a - a mod 4096;
|}.

#[export] Instance virt48_laws : VirtAddrLaws virt48.
Proof.
  split; try done; intros a Ha; unfold VirtAddr_new, virt48, canonical in *;
    destruct (Z.ltb_spec a (2 ^ 47)), (Z.leb_spec (2 ^ 64 - 2 ^ 47) a); cbn; (done || lia).
Qed.

#[local] Existing Instance phys52.
#[local] Existing Instance phys52_laws.

(** ** Witnesses *)

Definition w_pmm_global : Global := mkGlobal (ps_BITMAP (w_pmm 16)) (Some (ps_pmm (w_pmm 16))) true.

Definition w_vmm : VmmState SmallTables := mkVmmState vmm_new ∅ w_pmm_global [].

Lemma w_pmm_holds : pmm_holds w_pmm_global ∅.
Proof.
  split; [reflexivity|]. exists (ps_pmm (w_pmm 16)). split; [reflexivity|].
  split; [apply (w_pmm_wf 16); rewrite MAX_TRACKED_FRAMES_eq; lia|].
  intros f Hf. by apply not_elem_of_empty in Hf.
Qed.

Lemma small_empty_ok : small_ok ∅.
Proof. intros i f fl Hi. by rewrite lookup_empty in Hi. Qed.

Lemma small_empty_leaves : leaves (∅ : SmallTables) = [].
Proof.
  rewrite small_leaves by exact small_empty_ok.
  induction (range 0 512) as [|i l IH]; [done|]. change ((i :: l) ≫= ?g) with (g i ++ (l ≫= g)).
  rewrite IH. unfold small_leaf. by rewrite lookup_empty.
Qed.

Lemma w_vmm_ok : vmm_ok w_vmm.
Proof.
  split; cbn [w_vmm vs_pt vs_pmm vs_vmm vmm_new mapped_regions vmm_stats]; rewrite ?small_empty_leaves.
  - exact small_empty_ok.
  - exact w_pmm_holds.
  - done.
  - done.
  - done.
  - intros l Hl. by apply elem_of_nil in Hl.
Qed.

Definition rw_flags : Z := 3.

Lemma w_args : map_args 0x5000 0x9000 rw_flags.
Proof. split; [left; lia|lia|lia|reflexivity]. Qed.


(** The mapping of the witnesses succeeds. *)
Definition w_mapped : VmmState SmallTables :=
  mkVmmState
    (upd_stats count_map (upd_regions (λ l, l ++ [mkMapped 0x5000 0x9000 PAGE_SIZE rw_flags "user mapped"]) vmm_new))
    {[5 := (0x9000, rw_flags)]} w_pmm_global [FlushPage 0x5000].

Lemma w_map_run : map_page 0x5000 0x9000 rw_flags w_vmm = Ret (Ok tt, w_mapped).
Proof. reflexivity. Qed.

Lemma w_mapped_ok : vmm_ok w_mapped ∧ leaves (vs_pt w_mapped) ≡ₚ [mkLeaf 0x5000 0x9000 4096 rw_flags].
Proof.
  destruct (map_page_run w_vmm 0x5000 0x9000 rw_flags w_vmm_ok w_args) as (r & s' & Hrun & [Hok _] & Hr); [done|done|].
  rewrite w_map_run in Hrun. injection Hrun as <- <-. split; [exact Hok|].
  cbn [map_answer w_vmm vs_pt] in Hr. by rewrite small_empty_leaves in Hr.
Qed.


Lemma map_unmap_round_trip_witness :
  ∃ s2, unmap_page 0x5000 w_mapped = Ret (Ok 0x9000, s2) ∧ translate_page (vs_pt s2) 0x5123 = None.
Proof.
  destruct (map_unmap_round_trip w_vmm w_mapped 0x5000 0x9000 rw_flags w_vmm_ok w_args)
    as (s2 & Hrun & _ & Ht & _); [reflexivity|reflexivity|exact w_map_run|].
  exists s2. split; [exact Hrun|]. rewrite Ht. reflexivity.
Defined.

Lemma remap_page_outcomes_witness :
  ∃ s', remap_page 0x5000 0x9001 rw_flags w_mapped = Ret (Err InvalidAddress, s') ∧
    translate_page (vs_pt s') 0x5000 = None.
Proof.
  destruct w_mapped_ok as [Hok Hl].
  destruct (remap_page_outcomes w_mapped 0x5000 0x9000 rw_flags 0x9001 rw_flags [] Hok)
    as (r & s' & Hrun & _ & Hr & _); [split; [left; lia|lia|lia|reflexivity]|reflexivity|reflexivity|exact Hl|].
  destruct r as [old|e].
  - exfalso. destruct Hr as (_ & Hr & _). discriminate Hr.
  - destruct Hr as [He Hn]. assert (e = InvalidAddress) as -> by (apply He; discriminate).
    exists s'. split; [exact Hrun|]. apply Hn. lia.
Defined.

Lemma map_region_prefix_witness :
  ∃ r s' n, map_region 0x1FF000 0x9000 2 rw_flags w_vmm = Ret (r, s') ∧ 0 ≤ n ≤ 2 ∧ (r = Ok tt ↔ n = 2).
Proof.
  destruct (map_region_prefix w_vmm 0x1FF000 0x9000 2 rw_flags w_vmm_ok) as (r & s' & n & Hrun & _ & Hn & Hr & _).
  - split; [lia|]. split; [lia|]. intros i Hi. split; [left; lia|lia|lia|reflexivity].
  - reflexivity.
  - reflexivity.
  - lia.
  - exists r, s', n. split; [exact Hrun|]. split; [exact Hn|exact Hr].
Defined.

Lemma small_low (t : SmallTables) : low_half t.
Proof.
  intros i e He Hp. unfold enumerate in He. apply list_elem_of_lookup in He as (n & He).
  apply lookup_zip_with_Some in He as (i' & e' & [= -> ->] & Hi & He).
  unfold range in Hi. apply lookup_seqZ in Hi as [-> Hn]. destruct n as [|n]; [lia|].
  change (replicate 511 no_entry !! n = Some e') in He.
  apply lookup_replicate in He as [-> _]. discriminate Hp.
Qed.

Lemma vmm_init_discovers_witness :
  ∃ v, vmm_init (vs_pt w_mapped) = Ret v ∧
    vmm_validate (mkVmmState v (vs_pt w_mapped) w_pmm_global []) = true.
Proof.
  destruct (vmm_init_discovers (vs_pt w_mapped) w_pmm_global) as (v & Hrun & _ & _ & Hv).
  - exact (vo_tables _ (proj1 w_mapped_ok)).
  - apply small_low.
  - exact w_pmm_holds.
  - exists v. split; [exact Hrun|exact Hv].
Defined.
