(* ===== verification/Process.v ===== *)
(** * Processes (kernel/src/process/mod.rs, pcb.rs, syscall.rs, arch/gdt.rs)

    Process control blocks, the address space of a process, loading, entering and
    leaving it, and the system calls, on a kernel state with the physical memory. *)

From stdpp Require Import base numbers list gmap strings.
From S2P Require Import Prelude Regions FrameAllocator PhysMem Elf Paging Vmm Terminal Gdt Machine Context UserMode.

#[local] Open Scope Z_scope.
#[local] Open Scope rust_scope.

Definition MAX_PROCESSES : Z := 8.
Definition USER_STACK_SIZE : Z := 8 * 1024.
Definition KERNEL_STACK_SIZE : Z := 8 * 1024.
Definition USER_STACK_TOP : Z := 0x7FFFFFFFF000.

Inductive ProcessState :=
  | Unused
  | ProcReady
  | Running
  | Blocked
  | Sleeping
  | Exited.

#[export] Instance ProcessState_eq_dec : EqDecision ProcessState.
Proof. solve_decision. Defined.

Record ProcessControlBlock := mkPcb {
  pid : Z;
  proc_state : ProcessState;
  kernel_rsp : Z;
  user_rsp : Z;
  pml4_phys : Z;
  proc_entry : Z;
  exit_code : Z;
  kernel_stack_phys : Z;
  user_stack_phys : Z;
  sleep_until : Z;
}.

(** The [EMPTY] entry of the table. *)
Definition EMPTY : ProcessControlBlock := mkPcb 0 Unused 0 0 0 0 0 0 0 0.

(** [ProcessControlBlock::new]; the state is [NEXT_PID]. *)
Definition Pcb_new : M Z ProcessControlBlock :=
  pid ← get;
  _ ← put (pid +₃₂ 1);
  mret (mkPcb pid Unused 0 USER_STACK_TOP 0 0 0 0 0 0).

Definition set_kernel_rsp (v : Z) (p : ProcessControlBlock) : ProcessControlBlock :=
  mkPcb (pid p) (proc_state p) v (user_rsp p) (pml4_phys p) (proc_entry p) (exit_code p)
    (kernel_stack_phys p) (user_stack_phys p) (sleep_until p).
Definition set_pml4 (v : Z) (p : ProcessControlBlock) : ProcessControlBlock :=
  mkPcb (pid p) (proc_state p) (kernel_rsp p) (user_rsp p) v (proc_entry p) (exit_code p)
    (kernel_stack_phys p) (user_stack_phys p) (sleep_until p).
Definition set_user_stack (phys rsp : Z) (p : ProcessControlBlock) : ProcessControlBlock :=
  mkPcb (pid p) (proc_state p) (kernel_rsp p) rsp (pml4_phys p) (proc_entry p) (exit_code p)
    (kernel_stack_phys p) phys (sleep_until p).
Definition set_kernel_stack (phys rsp : Z) (p : ProcessControlBlock) : ProcessControlBlock :=
  mkPcb (pid p) (proc_state p) rsp (user_rsp p) (pml4_phys p) (proc_entry p) (exit_code p)
    phys (user_stack_phys p) (sleep_until p).
Definition set_entry (v : Z) (p : ProcessControlBlock) : ProcessControlBlock :=
  mkPcb (pid p) (proc_state p) (kernel_rsp p) (user_rsp p) (pml4_phys p) v (exit_code p)
    (kernel_stack_phys p) (user_stack_phys p) (sleep_until p).
Definition set_state (v : ProcessState) (p : ProcessControlBlock) : ProcessControlBlock :=
  mkPcb (pid p) v (kernel_rsp p) (user_rsp p) (pml4_phys p) (proc_entry p) (exit_code p)
    (kernel_stack_phys p) (user_stack_phys p) (sleep_until p).

(** [frame -= 8; write_volatile(frame as *mut u64, v)] *)
Definition push_word (fm : Z * Memory) (v : Z) : Z * Memory :=
  let frame := fm.1 -₆₄ 8 in (frame, wr64 fm.2 frame v).

(** SS, RSP, RFLAGS, CS and RIP, then RAX down to R15. *)
Definition initial_stack (p : ProcessControlBlock) : list Z :=
  [USER_SS; user_rsp p; 0x200; USER_CS; proc_entry p] ++ replicate 15 0.

Definition build_initial_kernel_stack (p : ProcessControlBlock) (m : Memory) :
    ProcessControlBlock * Memory :=
  let rsp := kernel_stack_phys p +₆₄ KERNEL_STACK_SIZE in
  let '(frame, m) := foldl push_word (rsp, m) (initial_stack p) in
  (set_kernel_rsp frame p, m).

(** ** Kernel state *)

Record Kernel := mkKernel {
  PROCESS_TABLE : list ProcessControlBlock;
  CURRENT_PID : Z;
  KERNEL_PML4_PHYS : Z;
  SHELL_RSP : Z;
  EXIT_REQUESTED : bool;
  EXIT_CODE : Z;
  k_mem : Memory;
  k_pmm : Global;
  k_cr3 : Z;
  k_rsp0 : Z;
  k_serial : list Z;
}.

Definition set_table (t : list ProcessControlBlock) (k : Kernel) : Kernel :=
  mkKernel t (CURRENT_PID k) (KERNEL_PML4_PHYS k) (SHELL_RSP k) (EXIT_REQUESTED k) (EXIT_CODE k)
    (k_mem k) (k_pmm k) (k_cr3 k) (k_rsp0 k) (k_serial k).
Definition set_current (v : Z) (k : Kernel) : Kernel :=
  mkKernel (PROCESS_TABLE k) v (KERNEL_PML4_PHYS k) (SHELL_RSP k) (EXIT_REQUESTED k) (EXIT_CODE k)
    (k_mem k) (k_pmm k) (k_cr3 k) (k_rsp0 k) (k_serial k).
Definition set_shell (rsp pml4 : Z) (k : Kernel) : Kernel :=
  mkKernel (PROCESS_TABLE k) (CURRENT_PID k) pml4 rsp (EXIT_REQUESTED k) (EXIT_CODE k)
    (k_mem k) (k_pmm k) (k_cr3 k) (k_rsp0 k) (k_serial k).
Definition set_exit (requested : bool) (code : Z) (k : Kernel) : Kernel :=
  mkKernel (PROCESS_TABLE k) (CURRENT_PID k) (KERNEL_PML4_PHYS k) (SHELL_RSP k) requested code
    (k_mem k) (k_pmm k) (k_cr3 k) (k_rsp0 k) (k_serial k).
Definition set_kmem (m : Memory) (k : Kernel) : Kernel :=
  mkKernel (PROCESS_TABLE k) (CURRENT_PID k) (KERNEL_PML4_PHYS k) (SHELL_RSP k) (EXIT_REQUESTED k)
    (EXIT_CODE k) m (k_pmm k) (k_cr3 k) (k_rsp0 k) (k_serial k).
Definition set_pmm (g : Global) (k : Kernel) : Kernel :=
  mkKernel (PROCESS_TABLE k) (CURRENT_PID k) (KERNEL_PML4_PHYS k) (SHELL_RSP k) (EXIT_REQUESTED k)
    (EXIT_CODE k) (k_mem k) g (k_cr3 k) (k_rsp0 k) (k_serial k).
Definition set_cr3 (v : Z) (k : Kernel) : Kernel :=
  mkKernel (PROCESS_TABLE k) (CURRENT_PID k) (KERNEL_PML4_PHYS k) (SHELL_RSP k) (EXIT_REQUESTED k)
    (EXIT_CODE k) (k_mem k) (k_pmm k) v (k_rsp0 k) (k_serial k).
Definition set_rsp0 (v : Z) (k : Kernel) : Kernel :=
  mkKernel (PROCESS_TABLE k) (CURRENT_PID k) (KERNEL_PML4_PHYS k) (SHELL_RSP k) (EXIT_REQUESTED k)
    (EXIT_CODE k) (k_mem k) (k_pmm k) (k_cr3 k) v (k_serial k).
Definition emit (b : list Z) (k : Kernel) : Kernel :=
  mkKernel (PROCESS_TABLE k) (CURRENT_PID k) (KERNEL_PML4_PHYS k) (SHELL_RSP k) (EXIT_REQUESTED k)
    (EXIT_CODE k) (k_mem k) (k_pmm k) (k_cr3 k) (k_rsp0 k) (k_serial k ++ b).

(** [PROCESS_TABLE] at boot. *)
Definition table_new : list ProcessControlBlock := zrepeat MAX_PROCESSES EMPTY.

Definition save_kernel_state (rsp : Z) : M Kernel unit := modify (λ k, set_shell rsp (k_cr3 k) k).

(** ** The crate's view of page tables in memory *)

(** [flags()] and [addr()] of an entry, the index of an address at a level, and
    [OffsetPageTable::new(table, 0).map_to(..)] on the tables in physical memory. *)
Class TableApi := {
  pte_of : Z → PageTableEntry;
  page_index : Z → Z → Z;
  raw_map_to : Z → M Global (option Z) → Z → Z → Z → M (Memory * Global) (result unit MapToError);
}.

Class TableLaws (T : TableApi) : Prop := {
  pte_contains : ∀ e f, f ∈ [PRESENT; WRITABLE; USER_ACCESSIBLE; HUGE_PAGE] →
    contains (pte_flags (pte_of e)) f = contains e f;
  pte_addr_ok : ∀ e, pte_addr (pte_of e) = Z.land e 0x000FFFFFFFFFF000;
  page_index_ok : ∀ level a, 1 ≤ level ≤ 4 → page_index level a = a / 2 ^ (12 + 9 * (level - 1)) mod 512;
}.

Section Process.
Context `{PhysAddrApi} `{VirtAddrApi} `{TableApi}.

Abbreviation K := (M Kernel).

Definition on_pmm {A} (m : M Global A) : K A := λ k,
  match m (k_pmm k) with
  | Ret (a, g) => Ret (a, set_pmm g k)
  | Panic => Panic
  | UB => UB
  | OutOfFuel => OutOfFuel
  end.

Definition allocate_page : K (option Z) := on_pmm g_allocate_frame.
Definition zero_page (phys : Z) : K unit := modify (λ k, set_kmem (zero_bytes (k_mem k) phys 4096) k).
Definition free_page (phys : Z) : K unit :=
  p ← liftO (PhysAddr_new phys);
  _ ← on_pmm (g_free_frame p);
  mret tt.

(** Entry [idx] of the table at [table]. *)
Definition entry_at (m : Memory) (table idx : Z) : PageTableEntry := pte_of (rd64 m (table + 8 * idx)).

(** ** Address spaces *)

(** [level] counts down from four; the table of level one has pages. *)
Fixpoint free_user_page_tables (level : nat) (table : Z) : K unit :=
  match level with
  | O => mret tt
  | S below =>
      let limit := if bool_decide (level = 4%nat) then 256 else 512 in
      mfor (range 0 limit) (λ idx,
        entry ← gets (λ k, entry_at (k_mem k) table idx);
        if negb (contains (pte_flags entry) PRESENT) then mret tt else
        if contains (pte_flags entry) HUGE_PAGE then mret tt else
        let child_phys := pte_addr entry in
        _ ← (if bool_decide (1 < level)%nat then free_user_page_tables below child_phys else mret tt);
        if bool_decide (level = 1%nat) then free_page child_phys else mret tt)
  end.

Definition free_process_address_space (pml4 : Z) : K unit :=
  if pml4 =? 0 then mret tt else
  _ ← free_user_page_tables 4 pml4;
  free_page pml4.

Definition create_user_page_tables : K (option Z) :=
  o ← allocate_page;
  match o with
  | None => mret None
  | Some new_pml4 =>
      _ ← zero_page new_pml4;
      current_pml4 ← gets KERNEL_PML4_PHYS;
      _ ← modify (λ k, set_kmem
        (store (k_mem k) (new_pml4 +₆₄ 256 * 8) (load (k_mem k) (current_pml4 +₆₄ 256 * 8) (256 * 8))) k);
      mret (Some new_pml4)
  end.

(** [mapper.map_to(page, frame, flags, &mut PmmFrameAllocator)] *)
Definition table_map_to (pml4 page frame flags : Z) : K (result unit MapToError) := λ k,
  match raw_map_to pml4 pmm_source page frame flags (k_mem k, k_pmm k) with
  | Ret (r, (m, g)) => Ret (r, set_kmem m (set_pmm g k))
  | Panic => Panic
  | UB => UB
  | OutOfFuel => OutOfFuel
  end.

Definition map_user_page (pml4 virt phys flags : Z) : K (result unit string) :=
  v ← liftO (VirtAddr_new virt);
  p ← liftO (PhysAddr_new phys);
  map_err (λ _, "Failed to map page"%string) (table_map_to pml4 (page_containing v) (frame_containing p) flags).

(** ** Launching *)

(** [table.iter().position(..)] *)
Definition find_state (st : ProcessState) (t : list ProcessControlBlock) : option nat :=
  fst <$> list_find (λ p, proc_state p = st) t.

Definition upd_proc (i : nat) (f : ProcessControlBlock → ProcessControlBlock) : K unit :=
  modify (λ k, set_table (alter f i (PROCESS_TABLE k)) k).

(** The copy of the file data into page [page_idx] of a segment. *)
Definition copy_page (elf_data : list Z) (seg : ElfSegment) (page_idx page_phys : Z) : K unit :=
  let data_offset := seg_data_offset seg +₆₄ page_idx *₆₄ 4096 in
  if data_offset <? seg_data_offset seg +₆₄ seg_filesz seg then
    let copy_start := page_idx *₆₄ 4096 in
    let copy_end := Z.min (copy_start +₆₄ 4096) (seg_filesz seg -₆₄ page_idx *₆₄ 4096) in
    if (copy_start <? seg_filesz seg) && (0 <? copy_end) then
      src ← liftO (zslice elf_data data_offset (data_offset +₆₄ (copy_end -₆₄ copy_start)));
      modify (λ k, set_kmem (store (k_mem k) page_phys src) k)
    else mret tt
  else mret tt.

Definition segment_flags (seg : ElfSegment) : Z :=
  let flags := Z.lor PRESENT USER_ACCESSIBLE in
  if seg_writable seg then Z.lor flags WRITABLE else flags.

Definition allocate_or (e : string) : K (result Z string) :=
  o ← allocate_page; mret (ok_or o e).

Definition load_page (elf_data : list Z) (pml4 : Z) (seg : ElfSegment) (page_idx : Z) : K (result unit string) :=
  page_phys ←? allocate_or "Out of memory for ELF";
  _ ← zero_page page_phys;
  let virt := seg_vaddr seg +₆₄ page_idx *₆₄ 4096 in
  _ ← copy_page elf_data seg page_idx page_phys;
  map_user_page pml4 virt page_phys (segment_flags seg).

Definition load_segment (elf_data : list Z) (pml4 : Z) (seg : ElfSegment) : K (result unit string) :=
  let page_count := (seg_memsz seg +₆₄ 4095) / 4096 in
  mfor_res (range 0 page_count) (load_page elf_data pml4 seg).

Definition user_page_flags : Z := Z.lor (Z.lor PRESENT WRITABLE) USER_ACCESSIBLE.
Definition kernel_page_flags : Z := Z.lor PRESENT WRITABLE.

(** The stacks, the entry point and the initial context of slot [i]. *)
Definition launch_stacks (i : nat) (pml4 entry : Z) : K (result unit string) :=
  user_stack ←? allocate_or "Out of memory for user stack";
  _ ← zero_page user_stack;
  let user_stack_virt := USER_STACK_TOP - USER_STACK_SIZE in
  _ ←? map_user_page pml4 user_stack_virt user_stack user_page_flags;
  _ ← upd_proc i (set_user_stack user_stack USER_STACK_TOP);
  kernel_stack ←? allocate_or "Out of memory for kernel stack";
  _ ← zero_page kernel_stack;
  _ ← upd_proc i (set_kernel_stack kernel_stack (kernel_stack +₆₄ KERNEL_STACK_SIZE));
  _ ←? map_user_page pml4 kernel_stack kernel_stack kernel_page_flags;
  _ ← upd_proc i (set_entry entry);
  _ ← modify (λ k,
    match PROCESS_TABLE k !! i with
    | Some p =>
        let '(p, m) := build_initial_kernel_stack p (k_mem k) in
        set_kmem m (set_table (<[i := p]> (PROCESS_TABLE k)) k)
    | None => k
    end);
  _ ← upd_proc i (set_state Running);
  _ ← modify (λ k, set_current (match PROCESS_TABLE k !! i with Some p => pid p | None => CURRENT_PID k end) k);
  mret (Ok tt).

Definition launch_init_process (elf_data : list Z) : K (result unit string) :=
  elf_info ←? liftO (parse_elf elf_data);
  table ← gets PROCESS_TABLE;
  match find_state Unused table with
  | None => mret (Err "No free process slot"%string)
  | Some i =>
      o ← create_user_page_tables;
      pml4 ←? mret (ok_or o "Failed to create page tables"%string);
      _ ← upd_proc i (set_pml4 pml4);
      _ ←? mfor_res (take (Z.to_nat (li_segment_count elf_info)) (li_segments elf_info)) (load_segment elf_data pml4);
      launch_stacks i pml4 (li_entry elf_info)
  end.

(** ** Entering and leaving *)

Definition set_tss_rsp0 (rsp : Z) : K unit :=
  v ← liftO (VirtAddr_new rsp);
  modify (set_rsp0 v).

(** [Cr3::write(PhysFrame::containing_address(PhysAddr::new(pml4)), ..)] *)
Definition write_cr3 (pml4 : Z) : K unit :=
  p ← liftO (PhysAddr_new pml4);
  modify (set_cr3 (frame_containing p)).

(** From the write of CR3 on, the tables are those of the process. *)
Definition enter_user_mode (j : Jump) : K landing :=
  table ← gets PROCESS_TABLE;
  match list_find (λ p, proc_state p = Running) table with
  | None => liftO Panic
  | Some (_, proc) =>
      _ ← set_tss_rsp0 (kernel_rsp proc);
      _ ← write_cr3 (pml4_phys proc);
      k ← get;
      '(r, c) ← liftO (enter_ring3 j (k_cr3 k) (kernel_rsp proc) (mkCpu (j_regs j) (k_mem k)));
      mret (match r with Ok f => Landed f c | Err e => Faulted e end)
  end.

Definition retire (code : Z) (p : ProcessControlBlock) : ProcessControlBlock :=
  mkPcb (pid p) Exited 0 (user_rsp p) (pml4_phys p) (proc_entry p) code 0 0 (sleep_until p).

(** Marks the running process and takes its resources. *)
Definition mark_exited (code : Z) : K (Z * Z * Z) :=
  table ← gets PROCESS_TABLE;
  match list_find (λ p, proc_state p = Running) table with
  | Some (i, proc) =>
      _ ← upd_proc i (retire code);
      mret (pml4_phys proc, kernel_stack_phys proc, user_stack_phys proc)
  | None => mret (0, 0, 0)
  end.

(** Back to the tables and the stack of the shell. *)
Definition back_to_shell (g : reg → Z) (code : Z) : K transfer :=
  kernel_pml4 ← gets KERNEL_PML4_PHYS;
  _ ← write_cr3 kernel_pml4;
  _ ← set_tss_rsp0 0x80000;
  _ ← modify (set_current 0);
  _ ← modify (set_exit true code);
  gets (λ k, ret (set_reg RSP (SHELL_RSP k) (mkCpu g (k_mem k)))).

Definition exit_process (g : reg → Z) (code : Z) : K transfer :=
  '(pml4, kernel_stack, user_stack) ← mark_exited code;
  _ ← free_process_address_space pml4;
  _ ← (if negb (user_stack =? 0) then free_page user_stack else mret tt);
  _ ← (if negb (kernel_stack =? 0) then free_page kernel_stack else mret tt);
  back_to_shell g code.

(** ** User pointers *)

(** What the checks of one address decide: the size of the block they cover. *)
Definition check_page (m : Memory) (pml4 addr : Z) : option Z :=
  let p4_entry := entry_at m pml4 (page_index 4 addr) in
  if negb (contains (pte_flags p4_entry) PRESENT) then None else
  let p3_entry := entry_at m (pte_addr p4_entry) (page_index 3 addr) in
  if negb (contains (pte_flags p3_entry) PRESENT) then None else
  if contains (pte_flags p3_entry) HUGE_PAGE then Some (2 ^ 30) else
  let p2_entry := entry_at m (pte_addr p3_entry) (page_index 2 addr) in
  if negb (contains (pte_flags p2_entry) PRESENT) then None else
  if contains (pte_flags p2_entry) HUGE_PAGE then Some (2 ^ 21) else
  let p1_entry := entry_at m (pte_addr p2_entry) (page_index 1 addr) in
  if negb (contains (pte_flags p1_entry) PRESENT) then None else
  if negb (contains (pte_flags p1_entry) USER_ACCESSIBLE) then None else
  Some 4096.

(** [(addr & !(size - 1)) + size] *)
Definition next_block (addr size : Z) : Z := (addr - addr mod size) +₆₄ size.

(** The loop from [addr]; each round passes at least one page. *)
Fixpoint validate_loop (fuel : nat) (m : Memory) (pml4 addr end_page : Z) : outcome bool :=
  if addr <=? end_page then
    match fuel with
    | O => OutOfFuel
    | S fuel =>
        virt ← VirtAddr_new addr;
        match check_page m pml4 virt with
        | None => mret false
        | Some size => validate_loop fuel m pml4 (next_block addr size) end_page
        end
    end
  else mret true.

Definition KERNEL_HALF : Z := 0xFFFF800000000000.

(** [ptr & !0xFFF] *)
Definition page_floor (a : Z) : Z := a - a mod 4096.

Definition validate_user_ptr (m : Memory) (pml4 ptr len : Z) : outcome bool :=
  if (ptr =? 0) || (len =? 0) then mret false else
  if KERNEL_HALF <=? ptr then mret false else
  let end_ := Z.min (ptr + len) (2 ^ 64 - 1) in
  if (end_ <? ptr) || (KERNEL_HALF <? end_) then mret false else
  let addr := page_floor ptr in
  let end_page := page_floor (end_ - 1) in
  validate_loop (Z.to_nat ((end_page - addr) / 4096 + 1)) m pml4 addr end_page.

(** Where the tables send a virtual address; a fault is undefined behaviour here. *)
Definition user_address (m : Memory) (pml4 addr : Z) : outcome Z :=
  let p4_entry := entry_at m pml4 (page_index 4 addr) in
  if negb (contains (pte_flags p4_entry) PRESENT) then UB else
  let p3_entry := entry_at m (pte_addr p4_entry) (page_index 3 addr) in
  if negb (contains (pte_flags p3_entry) PRESENT) then UB else
  if contains (pte_flags p3_entry) HUGE_PAGE then Ret (pte_addr p3_entry + addr mod 2 ^ 30) else
  let p2_entry := entry_at m (pte_addr p3_entry) (page_index 2 addr) in
  if negb (contains (pte_flags p2_entry) PRESENT) then UB else
  if contains (pte_flags p2_entry) HUGE_PAGE then Ret (pte_addr p2_entry + addr mod 2 ^ 21) else
  let p1_entry := entry_at m (pte_addr p2_entry) (page_index 1 addr) in
  if negb (contains (pte_flags p1_entry) PRESENT) then UB else
  Ret (pte_addr p1_entry + addr mod 4096).

(** [read_volatile(a as *const u8)] under the tables of CR3. *)
Definition read_user (a : Z) : K Z := λ k,
  match user_address (k_mem k) (k_cr3 k) a with
  | Ret p => Ret (k_mem k p, k)
  | Panic => Panic
  | UB => UB
  | OutOfFuel => OutOfFuel
  end.

(** ** System calls *)

Definition ENOSYS : Z := 2 ^ 64 - 1.
Definition EFAULT : Z := 2 ^ 64 - 1.

Definition sys_write (buf len : Z) : K Z :=
  if len =? 0 then mret 0 else
  k ← get;
  valid ← liftO (validate_user_ptr (k_mem k) (k_cr3 k) buf len);
  if negb valid then mret EFAULT else
  _ ← mfor (range 0 len) (λ i,
    byte ← read_user (buf +₆₄ i);
    modify (emit (utf8_char byte)));
  mret len.

(** [code as i32] *)
Definition as_i32 (v : Z) : Z := let w := wrap 32 v in if w <? 2 ^ 31 then w else w - 2 ^ 32.

Definition sys_exit (g : reg → Z) (code : Z) : K transfer :=
  _ ← modify (λ k, set_exit true (EXIT_CODE k) k);
  exit_process g (as_i32 code).

Definition sys_yield : K Z := mret 0.

(** The result for [rax], or the jump to the shell. *)
Definition syscall_dispatch (g : reg → Z) (syscall_num arg0 arg1 : Z) : K (Z + transfer) :=
  if syscall_num =? SYS_WRITE then v ← sys_write arg0 arg1; mret (inl v)
  else if syscall_num =? SYS_EXIT then t ← sys_exit g arg0; mret (inr t)
  else if syscall_num =? SYS_YIELD then v ← sys_yield; mret (inl v)
  else mret (inl ENOSYS).

End Process.
