(* ===== verification/ProcessTheorems.v ===== *)
(** * Properties of processes

    The initial context of a process, its address space, the check of user pointers
    and the system calls, the loading of segments, and the slots of the table. *)

From stdpp Require Import base numbers list gmap strings.
From S2P Require Import Prelude Regions FrameAllocator PhysMem Elf Paging Vmm Terminal Gdt Machine Context UserMode Process.

#[local] Open Scope Z_scope.
#[local] Open Scope rust_scope.

(** ** The initial context *)

Lemma push_words_spec l rsp m :
  (∀ v, v ∈ l → u64 v) → 8 * zlen l ≤ rsp < 2 ^ 64 →
  let '(frame, m') := foldl push_word (rsp, m) l in
  frame = rsp - 8 * zlen l ∧ words_at m' frame (rev l) ∧
  (∀ x, x < frame ∨ rsp ≤ x → m' x = m x).
Proof.
  revert rsp m. induction l as [|v l IH] using rev_ind; intros rsp m Hv Hr.
  { cbn [foldl]. change (zlen []) with 0. split_and!; [lia|exact I|done]. }
  rewrite zlen_app in Hr |- *. change (zlen [v]) with 1 in *. rewrite foldl_snoc.
  specialize (IH rsp m). destruct (foldl push_word (rsp, m) l) as [frame m'].
  destruct IH as (-> & Hw & Hout); [intros w Hw; apply Hv; apply elem_of_app; by left|lia|].
  unfold push_word. cbn [fst snd]. pose proof (zlen_nonneg l). nowrap. split_and!.
  - lia.
  - rewrite rev_unit. apply words_at_push; [|done]. apply Hv, elem_of_app. right. by apply list_elem_of_singleton.
  - intros x Hx. rewrite wr64_other by lia. apply Hout. lia.
Qed.

(** The context [build_initial_kernel_stack] describes: the entry point in ring 3 with
    interrupts enabled, the user stack, and cleared registers. *)
Definition initial_context (p : ProcessControlBlock) : Context :=
  context_of (λ _, 0) (mkFrame (proc_entry p) USER_CS 0x200 (user_rsp p) USER_SS).

Lemma build_initial_spec p m :
  u64 (proc_entry p) → u64 (user_rsp p) → 0 ≤ kernel_stack_phys p < 2 ^ 63 →
  let '(p', m') := build_initial_kernel_stack p m in
  p' = set_kernel_rsp (kernel_stack_phys p + 8032) p ∧
  words_at m' (kernel_stack_phys p + 8032) (context_words (initial_context p)) ∧
  (∀ x, x < kernel_stack_phys p + 8032 ∨ kernel_stack_phys p + 8192 ≤ x → m' x = m x).
Proof.
  intros He Hu Hs. unfold build_initial_kernel_stack, KERNEL_STACK_SIZE.
  change (8 * 1024) with 8192. rewrite wrap64_small by lia.
  assert (Hl : ∀ v, v ∈ initial_stack p → u64 v).
  { apply Forall_forall. unfold initial_stack. apply Forall_app. split.
    - repeat constructor; (done || apply He || apply Hu || (unfold u64, USER_SS, USER_CS; lia)).
    - apply Forall_replicate. unfold u64. lia. }
  pose proof (push_words_spec (initial_stack p) (kernel_stack_phys p + 8192) m Hl) as Hp.
  change (zlen (initial_stack p)) with 20 in Hp. specialize (Hp ltac:(lia)).
  destruct (foldl _ _ _) as [frame m']. destruct Hp as (-> & Hw & Hout).
  replace (kernel_stack_phys p + 8192 - 8 * 20) with (kernel_stack_phys p + 8032) in * by lia.
  split_and!; [done|exact Hw|exact Hout].
Qed.

Section Enter.
Context `{PhysAddrApi} `{!PhysAddrLaws _} `{VirtAddrApi} `{!VirtAddrLaws _} `{TableApi}.

(** The steps before the jump: the stack for interrupts, and the tables of the process. *)
Lemma enter_user_mode_run j k i p r c :
  list_find (λ p, proc_state p = Running) (PROCESS_TABLE k) = Some (i, p) →
  canonical (kernel_rsp p) → 0 ≤ pml4_phys p < 2 ^ 52 → pml4_phys p mod 4096 = 0 →
  enter_ring3 j (pml4_phys p) (kernel_rsp p) (mkCpu (j_regs j) (k_mem k)) = Ret (r, c) →
  enter_user_mode j k =
    Ret (match r with Ok f => Landed f c | Err e => Faulted e end, set_cr3 (pml4_phys p) (set_rsp0 (kernel_rsp p) k)).
Proof.
  intros Hrun Hrsp Hp Hal He. unfold enter_user_mode. rewrite bind_gets, Hrun. cbn beta match.
  assert (Hrsp0 : set_tss_rsp0 (kernel_rsp p) k = Ret (tt, set_rsp0 (kernel_rsp p) k)).
  { unfold set_tss_rsp0. rewrite VirtAddr_new_ok by done. rewrite (bind_Ret _ _ k _ k eq_refl). done. }
  assert (Hcr3 : write_cr3 (pml4_phys p) (set_rsp0 (kernel_rsp p) k) =
    Ret (tt, set_cr3 (pml4_phys p) (set_rsp0 (kernel_rsp p) k))).
  { unfold write_cr3. rewrite PhysAddr_new_ok by lia. set (k1 := set_rsp0 _ _). rewrite (bind_Ret _ _ k1 _ k1 eq_refl).
    unfold modify. by rewrite frame_containing_ok, Hal, Z.sub_0_r. }
  rewrite (bind_Ret _ _ _ _ _ Hrsp0), (bind_Ret _ _ _ _ _ Hcr3), bind_get. cbn beta.
  cbn [k_cr3 set_cr3 k_mem set_rsp0]. rewrite He. erewrite (bind_Ret (liftO _)); [|reflexivity]. reflexivity.
Qed.

(** The selectors of the initial frame, once the context is popped. *)
Lemma initial_frame_loads j root p c sp :
  0 ≤ sp → sp + 160 < 2 ^ 64 → sees (memory c) root (j_text j) 28 → sees (memory c) root sp 160 →
  words_at (memory c) sp (context_words (initial_context p)) →
  ∃ c', memory c' = memory c ∧ (∀ r, r ≠ RSP → regs c' r = 0) ∧
    enter_ring3 j root sp c =
      (_ ←? load_selector j root is_code USER_CS;
       _ ←? load_selector j root is_data USER_SS;
       if negb (bool_decide (canonical (proc_entry p))) then stop (GeneralProtection 0) else
       _ ← modify (set_reg RSP (user_rsp p));
       mret (Ok (mkFrame (proc_entry p) USER_CS 0x200 (user_rsp p) USER_SS))) c'.
Proof.
  intros Hlo Hhi Htext Hst Hw.
  destruct (enter_pops j root sp c (initial_context p)) as (c1 & Hr & Hm & Hsp & Hg & Hf); [done..|].
  exists c1. split; [done|]. split.
  - intros r Hr'. unfold initial_context in Hg. rewrite ctx_gprs_of in Hg. exact (gprs_ext _ _ Hg r Hr').
  - rewrite Hr. rewrite (iretq_frame_virtual j root _ c1 (ctx_frame (initial_context p))); rewrite ?Hsp, ?Hm;
      [done|lia|lia|eapply sees_sub; [exact Htext|lia|lia]|eapply sees_sub; [exact Hst|lia|lia]|by rewrite <- Hm].
Qed.

(** A user selector of the frame, by what is at its index. *)
Lemma user_selector_loads j root kind sel c :
  55 ≤ j_limit j → sel ∈ [USER_CS; USER_SS] → sees (memory c) root (j_gdt j) 56 →
  load_selector j root kind sel c =
    Ret (match j_entry j (sel / 8) with
         | Some d => if kind d && (ring_of d =? sel mod 4) then Ok tt else Err (GeneralProtection (sel - sel mod 4))
         | None => Err (GeneralProtection (sel - sel mod 4))
         end, c).
Proof.
  intros Hl Hin Hgdt. assert (sel_local sel = false ∧ 0 ≤ sel_index sel ≤ 6) as [Hloc Hidx].
  { repeat (apply elem_of_cons in Hin as [->|Hin]; [by vm_compute|]). by apply elem_of_nil in Hin. }
  apply load_selector_entry; [done|lia|]. eapply sees_sub; [exact Hgdt|lia|lia].
Qed.

(** C30. Entering a process whose initial stack was just built. The stack for interrupts and
    CR3 are set first, so that everything after that goes through the tables of the process:
    - where they do not map the code of the kernel, the next instruction faults;
    - where they do not map the page of the saved context, the first pop faults. The context
      is 8032 bytes above the start of the kernel stack, past the 4096 bytes that were
      allocated and mapped for it, and that is where all of it was written;
    - where all that is mapped, the registers and the frame are popped, and [iretq] faults,
      for the [USER_CS] of the frame selects a data segment in the table of [gdt::init];
    - with user segments at the selectors of the frame, the process would start in ring 3 at
      the entry point of the file, on the user stack, with all registers cleared. *)
Theorem initial_context_entered `{GdtEntries G} j k i p0 m p :
  u64 (proc_entry p0) → u64 (user_rsp p0) → 0 ≤ kernel_stack_phys p0 < 2 ^ 46 →
  build_initial_kernel_stack p0 m = (p, k_mem k) →
  list_find (λ p, proc_state p = Running) (PROCESS_TABLE k) = Some (i, p) →
  0 ≤ pml4_phys p < 2 ^ 52 → pml4_phys p mod 4096 = 0 →
  let stack := kernel_stack_phys p0 in
  let mapped := sees (k_mem k) (pml4_phys p) in
  let absent a := walk FOR_READ (k_mem k) (pml4_phys p) a = None in
  let enters o := enter_user_mode j k = Ret (o, set_cr3 (pml4_phys p) (set_rsp0 (stack + 8032) k)) in
  kernel_rsp p = stack + 8032 ∧ (∀ x, k_mem k x ≠ m x → stack + 4096 ≤ x) ∧
  (absent (j_text j) → enters (Faulted (PageFault (j_text j)))) ∧
  (mapped (j_text j) 28 → absent (stack + 8032) → enters (Faulted (PageFault (stack + 8032)))) ∧
  (mapped (j_text j) 28 → mapped (stack + 8032) 160 → mapped (j_gdt j) 56 →
   (∀ t, GDT (G := G) = Ret t → j_entry j = gdt_at (gdt t) → j_limit j = 8 * gdt_len (gdt t) - 1 →
      enters (Faulted (GeneralProtection 0x28))) ∧
   (canonical (proc_entry p0) → 55 ≤ j_limit j →
      j_entry j (USER_CS / 8) = Some user_code_segment → j_entry j (USER_SS / 8) = Some user_data_segment →
      ∃ c, enters (Landed (mkFrame (proc_entry p0) USER_CS 0x200 (user_rsp p0) USER_SS) c) ∧
        regs c RSP = user_rsp p0 ∧ ∀ r, r ≠ RSP → regs c r = 0)).
Proof.
  intros He Hu Hs Hb Hrun Hp Hal stack mapped absent enters.
  pose proof (build_initial_spec p0 m He Hu ltac:(lia)) as Hspec. rewrite Hb in Hspec. destruct Hspec as (-> & Hw & Hout).
  set (p := set_kernel_rsp _ p0) in *. change (kernel_stack_phys p0 + 8032) with (stack + 8032) in *.
  set (c := mkCpu (j_regs j) (k_mem k)).
  assert (Henter : ∀ r c', enter_ring3 j (pml4_phys p) (stack + 8032) c = Ret (r, c') →
    enters (match r with Ok f => Landed f c' | Err e => Faulted e end)).
  { intros r c' Hr. by apply (enter_user_mode_run j k i p); [|left; cbn; unfold stack; lia|..]. }
  split_and!; [done| | | |].
  - intros x Hx. destruct (Z.lt_ge_cases x (stack + 4096)) as [|]; [|done]. exfalso. apply Hx, Hout. fold stack. lia.
  - intros Hno. exact (Henter _ _ (enter_no_text j (pml4_phys p) _ c Hno)).
  - intros Htext Hno. exact (Henter _ _ (enter_no_stack j (pml4_phys p) _ c Htext Hno)).
  - intros Htext Hst Hgdt.
    destruct (initial_frame_loads j (pml4_phys p) p0 c (stack + 8032)) as (c1 & Hm & Hg & Hr);
      [unfold stack; lia|unfold stack; lia|exact Htext|exact Hst|exact Hw|].
    assert (Hgdt1 : sees (memory c1) (pml4_phys p) (j_gdt j) 56) by (rewrite Hm; exact Hgdt). split.
    + intros t Ht Hent Hlim. destruct (user_cs_entry (G := G)) as (t' & Ht' & Hlen & Hat).
      rewrite Ht in Ht'. injection Ht' as <-. rewrite Hlen in Hlim.
      pose proof (user_selector_loads j _ is_code USER_CS c1 ltac:(lia) ltac:(by left) Hgdt1) as Hcs.
      rewrite Hent, Hat in Hcs. rewrite (bind_Ret _ _ _ _ _ Hcs) in Hr. exact (Henter _ _ Hr).
    + intros Hcan Hlim Hent Hent'.
      pose proof (user_selector_loads j _ is_code USER_CS c1 Hlim ltac:(by left) Hgdt1) as Hcs.
      pose proof (user_selector_loads j _ is_data USER_SS c1 Hlim ltac:(by right; left) Hgdt1) as Hss.
      rewrite Hent in Hcs. rewrite Hent' in Hss. rewrite (bind_Ret _ _ _ _ _ Hcs) in Hr. cbn match in Hr.
      rewrite (bind_Ret _ _ _ _ _ Hss) in Hr. cbn match in Hr.
      rewrite bool_decide_eq_true_2 in Hr by done. cbn [negb] in Hr. rewrite bind_modify in Hr.
      eexists. split; [exact (Henter _ _ Hr)|]. split; [apply regs_set_same|].
      intros r Hr'. rewrite regs_set_other by done. by apply Hg.
Qed.

End Enter.

(** ** Loading a segment *)

(** C29. What is copied into page [i] of a segment that lies in the file: the end of the copy is
    computed from the start of the segment a second time, so page [i] gets
    [filesz - 2 * 4096 * i] bytes at most, and a segment whose data end before that makes
    the slice panic. Only the first page gets the bytes of the file that belong there. *)
Theorem segment_page_copied data seg i phys k :
  0 ≤ i → 0 ≤ seg_data_offset seg → 0 ≤ seg_filesz seg → zlen data < 2 ^ 62 → i < 2 ^ 50 →
  seg_data_offset seg + seg_filesz seg ≤ zlen data →
  let file := drop (Z.to_nat (seg_data_offset seg + i * 4096)) data in
  copy_page data seg i phys k =
    if seg_filesz seg <=? i * 4096 then Ret (tt, k)
    else if seg_filesz seg <? 2 * (i * 4096) then Panic
    else Ret (tt, set_kmem (store (k_mem k) phys
      (take (Z.to_nat (Z.min 4096 (seg_filesz seg - 2 * (i * 4096)))) file)) k).
Proof.
  intros Hi Hoff Hsz Hlen Hib Hfit file. unfold copy_page.
  rewrite (wrap64_small (i * 4096)) by lia.
  rewrite (wrap64_small (seg_data_offset seg + i * 4096)), (wrap64_small (seg_data_offset seg + seg_filesz seg)),
    (wrap64_small (i * 4096 + 4096)) by lia.
  destruct (Z.leb_spec (seg_filesz seg) (i * 4096)).
  { destruct (Z.ltb_spec (seg_data_offset seg + i * 4096) (seg_data_offset seg + seg_filesz seg)); [lia|done]. }
  destruct (Z.ltb_spec (seg_data_offset seg + i * 4096) (seg_data_offset seg + seg_filesz seg)); [|lia].
  rewrite (wrap64_small (seg_filesz seg - i * 4096)) by lia.
  destruct (Z.ltb_spec (i * 4096) (seg_filesz seg)); [|lia].
  destruct (Z.ltb_spec 0 (Z.min (i * 4096 + 4096) (seg_filesz seg - i * 4096))); [|lia]. cbn [andb].
  destruct (Z.ltb_spec (seg_filesz seg) (2 * (i * 4096))) as [Hlt|Hge].
  - set (n := Z.min (i * 4096 + 4096) (seg_filesz seg - i * 4096) - i * 4096).
    assert (Hn : wrap 64 n = n + 2 ^ 64).
    { unfold wrap. symmetry. apply (Zmod_unique n (2 ^ 64) (-1) (n + 2 ^ 64)); unfold n; lia. }
    rewrite Hn. assert (Hw : wrap 64 (seg_data_offset seg + i * 4096 + (n + 2 ^ 64)) = seg_data_offset seg + i * 4096 + n).
    { unfold wrap. symmetry. apply (Zmod_unique _ (2 ^ 64) 1); unfold n; lia. }
    rewrite Hw. unfold zslice.
    destruct (Z.leb_spec 0 (seg_data_offset seg + i * 4096)); [|lia].
    destruct (Z.leb_spec (seg_data_offset seg + i * 4096) (seg_data_offset seg + i * 4096 + n)); [unfold n in *; lia|done].
  - replace (Z.min (i * 4096 + 4096) (seg_filesz seg - i * 4096) - i * 4096)
      with (Z.min 4096 (seg_filesz seg - 2 * (i * 4096))) by lia.
    rewrite (wrap64_small (Z.min _ _)) by lia. rewrite wrap64_small by lia.
    rewrite zslice_ok by lia. rewrite (bind_Ret _ _ k _ k eq_refl).
    unfold modify. do 4 f_equal. f_equal. lia.
Qed.

Section Spaces.
Context `{PhysAddrApi} `{VirtAddrApi} `{TableApi}.

(** ** The frames a process gives back *)

Lemma free_page_mem p k k' : free_page p k = Ret (tt, k') → k_mem k' = k_mem k ∧ PROCESS_TABLE k' = PROCESS_TABLE k.
Proof.
  unfold free_page. rewrite bind_Ret_cont. destruct (liftO (PhysAddr_new p) k) as [[q k1]| | |] eqn:Hq; try done.
  assert (k1 = k) as -> by (unfold liftO in Hq; by destruct (PhysAddr_new p); simplify_eq).
  rewrite bind_Ret_cont. unfold on_pmm. destruct (g_free_frame q (k_pmm k)) as [[r g]| | |]; try done.
  intros [= <-]. done.
Qed.

Lemma mfor_free_mem l k k' : mfor l free_page k = Ret (tt, k') → k_mem k' = k_mem k.
Proof.
  revert k. induction l as [|p l IH]; intros k; cbn [mfor]; [by intros [= ->]|].
  rewrite bind_Ret_cont. destruct (free_page p k) as [[[] k1]| | |] eqn:Hp; try done.
  intros Hk. rewrite (IH k1 Hk). by apply free_page_mem in Hp as [-> _].
Qed.

(** The pages that the tables below [table] map, in order. *)
Fixpoint table_leaves (level : nat) (m : Memory) (table : Z) : list Z :=
  match level with
  | O => []
  | S below =>
      range 0 (if bool_decide (level = 4%nat) then 256 else 512) ≫= λ idx,
        let e := entry_at m table idx in
        if contains (pte_flags e) PRESENT && negb (contains (pte_flags e) HUGE_PAGE) then
          (if bool_decide (level = 1%nat) then [pte_addr e] else table_leaves below m (pte_addr e))
        else []
  end.

(** A loop whose body frees the pages [f] lists frees their concatenation. *)
Lemma mfor_frees (f : Memory → Z → list Z) (body : Z → M Kernel unit) l k :
  (∀ x k, body x k = mfor (f (k_mem k) x) free_page k) →
  mfor l body k = mfor (l ≫= f (k_mem k)) free_page k.
Proof.
  intros Hb. revert k. induction l as [|x l IH]; intros k; [done|]. cbn [mfor].
  change ((x :: l) ≫= ?f) with (f x ++ (l ≫= f)). rewrite mfor_app, !bind_Ret_cont, Hb.
  destruct (mfor (f (k_mem k) x) free_page k) as [[[] k1]| | |] eqn:Hk; [|done..].
  by rewrite IH, (mfor_free_mem _ _ _ Hk).
Qed.

Lemma free_tables_leaves level table k :
  free_user_page_tables level table k = mfor (table_leaves level (k_mem k) table) free_page k.
Proof.
  revert table k. induction level as [|below IH]; intros table k; [done|].
  cbn [free_user_page_tables table_leaves].
  apply (mfor_frees (λ m idx, let e := entry_at m table idx in
    if contains (pte_flags e) PRESENT && negb (contains (pte_flags e) HUGE_PAGE) then
      (if bool_decide (S below = 1%nat) then [pte_addr e] else table_leaves below m (pte_addr e))
    else [])).
  clear k. intros i k. rewrite bind_gets. cbn beta zeta.
  destruct (contains (pte_flags (entry_at (k_mem k) table i)) PRESENT); cbn [negb andb]; [|done].
  destruct (contains (pte_flags (entry_at (k_mem k) table i)) HUGE_PAGE); cbn [negb]; [done|].
  destruct below as [|below].
  - rewrite (bool_decide_eq_false_2 (1 < 1)%nat) by lia. rewrite bind_mret. cbn beta.
    rewrite (bool_decide_eq_true_2 (1 = 1)%nat) by done. cbn [mfor]. rewrite bind_Ret_cont.
    by destruct (free_page _ k) as [[[] ?]| | |].
  - rewrite (bool_decide_eq_true_2 (1 < S (S below))%nat) by lia.
    rewrite (bool_decide_eq_false_2 (S (S below) = 1)%nat) by done.
    rewrite bind_Ret_cont, IH. by destruct (mfor _ _ k) as [[[] ?]| | |].
Qed.

Definition unless_zero (p : Z) : list Z := if negb (p =? 0) then [p] else [].

(** The frames that leaving a process frees. *)
Definition released (m : Memory) (p : ProcessControlBlock) : list Z :=
  (if pml4_phys p =? 0 then [] else table_leaves 4 m (pml4_phys p) ++ [pml4_phys p]) ++
  unless_zero (user_stack_phys p) ++ unless_zero (kernel_stack_phys p).

Lemma unless_zero_run p k {A} (c : M Kernel A) :
  (_ ← (if negb (p =? 0) then free_page p else mret tt); c) k = (_ ← mfor (unless_zero p) free_page; c) k.
Proof.
  unfold unless_zero. destruct (p =? 0); cbn [negb mfor]; [done|]. rewrite bind_assoc. apply bind_Ret_cont.
Qed.

(** Leaving a process marks its slot, frees the pages its lower half maps, its top table and
    its two stacks, in this order, and jumps back to the shell with the tables of the kernel.
    The tables in between are never freed, although the comment says they are; and the
    stacks, which the lower half maps, are freed twice. *)
Theorem exit_process_frees g code k i p :
  list_find (λ p, proc_state p = Running) (PROCESS_TABLE k) = Some (i, p) →
  exit_process g code k =
    (_ ← upd_proc i (retire code);
     _ ← mfor (released (k_mem k) p) free_page;
     back_to_shell g code) k.
Proof.
  intros Hrun. unfold exit_process, released, mark_exited. rewrite bind_assoc, bind_gets, Hrun. unfold upd_proc.
  rewrite bind_assoc, !bind_modify. cbn beta. rewrite bind_mret. cbn beta match. set (k1 := set_table _ k).
  assert (Hmem : k_mem k1 = k_mem k) by done. rewrite <- Hmem. clearbody k1. clear Hmem Hrun.
  unfold free_process_address_space. destruct (pml4_phys p =? 0).
  - cbn [app]. rewrite bind_mret. cbn beta. rewrite unless_zero_run.
    rewrite (bind_Ret_cont (mfor (_ ++ _) free_page)), mfor_app, <- bind_Ret_cont, bind_assoc.
    rewrite !bind_Ret_cont. destruct (mfor _ _ k1) as [[[] k2]| | |]; [|done..]. apply unless_zero_run.
  - rewrite (bind_Ret_cont (mfor (_ ++ _) free_page)), mfor_app, <- bind_Ret_cont, !bind_assoc.
    rewrite (bind_Ret_cont (mfor (_ ++ _) free_page)), mfor_app, <- bind_Ret_cont, !bind_assoc.
    rewrite (bind_Ret_cont (free_user_page_tables _ _)), free_tables_leaves, <- bind_Ret_cont.
    rewrite !bind_Ret_cont. destruct (mfor (table_leaves _ _ _) free_page k1) as [[[] k2]| | |]; [|done..].
    cbn [mfor]. rewrite bind_assoc, !bind_Ret_cont. destruct (free_page (pml4_phys p) k2) as [[[] k3]| | |]; [|done..].
    rewrite bind_mret. cbn beta. rewrite unless_zero_run.
    rewrite (bind_Ret_cont (mfor (_ ++ _) free_page)), mfor_app, <- bind_Ret_cont, bind_assoc.
    rewrite !bind_Ret_cont. destruct (mfor _ _ k3) as [[[] k4]| | |]; [|done..]. apply unless_zero_run.
Qed.

End Spaces.
