(* ===== verification/ProcessSlots.v ===== *)
(** * The process table over time (kernel/src/process/mod.rs)

    Launches and exits as steps of the kernel, and what stays true of the table. *)

From stdpp Require Import base numbers list gmap strings.
From S2P Require Import Prelude Regions FrameAllocator PhysMem Elf Paging Vmm Terminal Machine Context Process.

#[local] Open Scope Z_scope.
#[local] Open Scope rust_scope.

Lemma alter_insert {A} (f : A → A) i (l : list A) x : l !! i = Some x → alter f i l = <[i := f x]> l.
Proof.
  intros Hx. apply list_eq. intros j. destruct (decide (i = j)) as [<-|].
  - rewrite list_lookup_alter_eq, Hx, list_lookup_insert_eq; [done|]. by eapply lookup_lt_Some.
  - by rewrite list_lookup_alter_ne, list_lookup_insert_ne.
Qed.

Section Slots.
Context `{PhysAddrApi} `{VirtAddrApi} `{TableApi}.

(** What the table says of its slots. *)
Definition slots (k : Kernel) : list (Z * ProcessState) := (λ p, (pid p, proc_state p)) <$> PROCESS_TABLE k.

Definition same_slots (k k' : Kernel) : Prop := slots k' = slots k ∧ CURRENT_PID k' = CURRENT_PID k.

#[export] Instance same_slots_equiv : PreOrder same_slots.
Proof. split; [done|]. intros k1 k2 k3 [] []. split; congruence. Qed.

(** Code that leaves the slots as they are. *)
Definition keeps {A} (c : M Kernel A) : Prop := ∀ k a k', c k = Ret (a, k') → same_slots k k'.

Lemma kept_ret {A} (a : A) : keeps (mret a).
Proof. by intros k b k' [= _ <-]. Qed.

Lemma kept_bind {A B} (m : M Kernel A) (f : A → M Kernel B) : keeps m → (∀ a, keeps (f a)) → keeps (m ≫= f).
Proof.
  intros Hm Hf k b k' Hk. rewrite bind_Ret_cont in Hk. destruct (m k) as [[a k1]| | |] eqn:Ha; try done.
  etrans; [by eapply Hm|by eapply Hf].
Qed.

Lemma kept_liftO {A} (o : outcome A) : keeps (liftO o).
Proof. intros k a k'. unfold liftO. destruct o; try done. by intros [= _ <-]. Qed.

Lemma kept_gets {A} (f : Kernel → A) : keeps (gets f).
Proof. by intros k a k' [= _ <-]. Qed.

Lemma kept_modify f : (∀ k, same_slots k (f k)) → keeps (modify f).
Proof. by intros Hf k a k' [= _ <-]. Qed.

Lemma kept_on_pmm {A} (m : M Global A) : keeps (on_pmm m).
Proof. intros k a k'. unfold on_pmm. destruct (m (k_pmm k)) as [[b g]| | |]; try done. by intros [= _ <-]. Qed.

Lemma kept_map_to pml4 page frame flags : keeps (table_map_to pml4 page frame flags).
Proof. intros k a k'. unfold table_map_to. destruct (raw_map_to _ _ _ _ _ _) as [[r [m g]]| | |]; try done. by intros [= _ <-]. Qed.

Lemma kept_upd i f : (∀ p, pid (f p) = pid p ∧ proc_state (f p) = proc_state p) → keeps (upd_proc i f).
Proof.
  intros Hf. apply kept_modify. intros k. split; [|done]. unfold slots. cbn [set_table PROCESS_TABLE].
  apply list_eq. intros j. rewrite !list_lookup_fmap. destruct (decide (i = j)) as [->|].
  - rewrite list_lookup_alter_eq. destruct (PROCESS_TABLE k !! j) as [p|]; [|done]. cbn.
    destruct (Hf p) as [-> ->]. done.
  - by rewrite list_lookup_alter_ne.
Qed.

Lemma kept_mfor {A} (l : list A) (body : A → M Kernel unit) : (∀ x, keeps (body x)) → keeps (mfor l body).
Proof. intros Hb. induction l as [|x l IH]; [apply kept_ret|]. apply kept_bind; [apply Hb|by intros]. Qed.

Lemma kept_mfor_res {A E} (l : list A) (body : A → M Kernel (result unit E)) :
  (∀ x, keeps (body x)) → keeps (mfor_res l body).
Proof.
  intros Hb. induction l as [|x l IH]; [apply kept_ret|]. apply kept_bind; [apply Hb|].
  intros [[]|e]; [exact IH|apply kept_ret].
Qed.

(** [keeping] goes through a body, statement by statement. *)
Ltac keeping :=
  repeat first
    [ apply kept_ret | apply kept_liftO | apply kept_gets | apply kept_on_pmm | apply kept_map_to
    | apply kept_bind; [|intros] | apply kept_mfor; intros | apply kept_mfor_res; intros
    | apply kept_modify; done | apply kept_upd; done
    | match goal with |- keeps (match ?x with _ => _ end) => destruct x end ].

Lemma kept_zero p : keeps (zero_page p).
Proof. unfold zero_page. keeping. Qed.

Lemma kept_free p : keeps (free_page p).
Proof. unfold free_page. keeping. Qed.

Lemma kept_allocate_or e : keeps (allocate_or e).
Proof. unfold allocate_or, allocate_page. keeping. Qed.

Lemma kept_map pml4 virt phys flags : keeps (map_user_page pml4 virt phys flags).
Proof. unfold map_user_page, map_err. keeping. Qed.

Lemma kept_create : keeps create_user_page_tables.
Proof. unfold create_user_page_tables, allocate_page, zero_page. keeping. Qed.

Lemma kept_load_segment data pml4 seg : keeps (load_segment data pml4 seg).
Proof.
  unfold load_segment. apply kept_mfor_res. intros i. unfold load_page, copy_page.
  apply kept_bind; [apply kept_allocate_or|]. intros [p|e]; [|keeping].
  apply kept_bind; [apply kept_zero|]. intros _. apply kept_bind; [keeping|].
  intros _. apply kept_map.
Qed.

Lemma kept_free_tables level table : keeps (free_user_page_tables level table).
Proof.
  revert table. induction level as [|below IH]; intros table; cbn [free_user_page_tables]; [keeping|].
  apply kept_mfor. intros i. apply kept_bind; [keeping|]. intros e.
  destruct (negb _); [keeping|]. destruct (contains _ HUGE_PAGE); [keeping|].
  apply kept_bind; [destruct (bool_decide _); [apply IH|keeping]|]. intros _.
  destruct (bool_decide _); [apply kept_free|keeping].
Qed.

Lemma kept_build i :
  keeps (modify (λ k,
    match PROCESS_TABLE k !! i with
    | Some p =>
        let '(p, m) := build_initial_kernel_stack p (k_mem k) in
        set_kmem m (set_table (<[i := p]> (PROCESS_TABLE k)) k)
    | None => k
    end)).
Proof.
  apply kept_modify. intros k. destruct (PROCESS_TABLE k !! i) as [p|] eqn:Hp; [|done].
  unfold build_initial_kernel_stack. destruct (foldl _ _ _) as [frame m]. split; [|done].
  unfold slots. cbn [set_kmem set_table PROCESS_TABLE]. rewrite list_fmap_insert. cbn.
  apply list_insert_id. rewrite list_lookup_fmap, Hp. done.
Qed.

(** ** Launching *)

(** What a launch into slot [i] does to the slots. *)
Definition launched (i : nat) (r : result unit string) (k k' : Kernel) : Prop :=
  match r with
  | Ok _ =>
      slots k' = alter (λ x, (x.1, Running)) i (slots k) ∧
      (∀ x, slots k !! i = Some x → CURRENT_PID k' = x.1)
  | Err _ => same_slots k k'
  end.

Definition launches (i : nat) (c : M Kernel (result unit string)) : Prop :=
  ∀ k r k', c k = Ret (r, k') → launched i r k k'.

Lemma launches_bind {A} i (m : M Kernel A) (f : A → M Kernel (result unit string)) :
  keeps m → (∀ a, launches i (f a)) → launches i (m ≫= f).
Proof.
  intros Hm Hf k r k' Hk. rewrite bind_Ret_cont in Hk. destruct (m k) as [[a k1]| | |] eqn:Ha; try done.
  apply Hm in Ha as Hs. apply Hf in Hk. destruct r as [u|e].
  - destruct Hs as [Hs Hc]. destruct Hk as [Hk1 Hk2]. unfold launched. by rewrite <- Hs.
  - cbn in *. by etrans.
Qed.

Lemma launches_bind_res {A} i (m : M Kernel (result A string)) (f : A → M Kernel (result unit string)) :
  keeps m → (∀ a, launches i (f a)) → launches i (x ←? m; f x).
Proof.
  intros Hm Hf. apply launches_bind; [done|]. intros [a|e]; [apply Hf|]. by intros k r k' [= <- <-].
Qed.

Lemma launches_stacks i pml4 entry : launches i (launch_stacks i pml4 entry).
Proof.
  unfold launch_stacks.
  apply launches_bind_res; [apply kept_allocate_or|]. intros user_stack.
  apply launches_bind; [apply kept_zero|]. intros _.
  apply launches_bind_res; [apply kept_map|]. intros _.
  apply launches_bind; [keeping|]. intros _.
  apply launches_bind_res; [apply kept_allocate_or|]. intros kernel_stack.
  apply launches_bind; [apply kept_zero|]. intros _.
  apply launches_bind; [keeping|]. intros _.
  apply launches_bind_res; [apply kept_map|]. intros _.
  apply launches_bind; [keeping|]. intros _.
  apply launches_bind; [apply kept_build|]. intros _.
  intros k r k' [= <- <-]. split.
  - unfold slots. cbn [set_current set_table PROCESS_TABLE]. apply list_eq. intros j.
    rewrite list_lookup_fmap. destruct (decide (i = j)) as [->|].
    + rewrite !list_lookup_alter_eq, list_lookup_fmap. by destruct (PROCESS_TABLE k !! j).
    + by rewrite !list_lookup_alter_ne, list_lookup_fmap.
  - intros x. unfold slots. rewrite list_lookup_fmap. cbn [set_current set_table PROCESS_TABLE CURRENT_PID].
    rewrite list_lookup_alter_eq. destruct (PROCESS_TABLE k !! i); [|done]. cbn. by intros [= <-].
Qed.

(** A launch takes the first unused slot, or fails and leaves the slots alone. *)
Lemma launch_slots data k r k' :
  launch_init_process data k = Ret (r, k') →
  match find_state Unused (PROCESS_TABLE k) with
  | Some i => launched i r k k'
  | None => (∃ e, r = Err e) ∧ same_slots k k'
  end.
Proof.
  unfold launch_init_process. rewrite bind_Ret_cont.
  destruct (liftO (parse_elf data) k) as [[[info|e] k1]| | |] eqn:Hp; try done;
    (assert (k1 = k) as -> by (unfold liftO in Hp; by destruct (parse_elf data); simplify_eq)).
  2: { intros [= <- <-]. destruct (find_state _ _); [done|split; [eauto|done]]. }
  rewrite bind_gets. cbn beta. destruct (find_state Unused (PROCESS_TABLE k)) as [i|].
  2: { intros [= <- <-]. split; [eauto|done]. }
  enough (launches i (o ← create_user_page_tables;
    pml4 ←? mret (ok_or o "Failed to create page tables"%string);
    _ ← upd_proc i (set_pml4 pml4);
    _ ←? mfor_res (take (Z.to_nat (li_segment_count info)) (li_segments info)) (load_segment data pml4);
    launch_stacks i pml4 (li_entry info))) as Hl by apply Hl.
  apply launches_bind; [apply kept_create|]. intros o.
  apply launches_bind_res; [keeping|]. intros pml4.
  apply launches_bind; [keeping|]. intros _.
  apply launches_bind_res; [apply kept_mfor_res; intros; apply kept_load_segment|]. intros _.
  apply launches_stacks.
Qed.

(** ** Exiting *)

Lemma kept_release pml4 : keeps (free_process_address_space pml4).
Proof.
  unfold free_process_address_space. destruct (pml4 =? 0); [keeping|].
  apply kept_bind; [apply kept_free_tables|]. intros _. apply kept_free.
Qed.

Definition exited (k k' : Kernel) : Prop :=
  CURRENT_PID k' = 0 ∧
  match list_find (λ p, proc_state p = Running) (PROCESS_TABLE k) with
  | Some (i, p) => slots k' = <[i := (pid p, Exited)]> (slots k)
  | None => slots k' = slots k
  end.

Lemma mark_exited_slots code k a k' :
  mark_exited code k = Ret (a, k') →
  match list_find (λ p, proc_state p = Running) (PROCESS_TABLE k) with
  | Some (i, p) => slots k' = <[i := (pid p, Exited)]> (slots k)
  | None => slots k' = slots k
  end.
Proof.
  unfold mark_exited. rewrite bind_gets. cbn beta.
  destruct (list_find _ (PROCESS_TABLE k)) as [[i p]|] eqn:Hf; [|by intros [= _ <-]].
  apply list_find_Some in Hf as (Hi & _ & _). unfold upd_proc. rewrite bind_modify. intros [= _ <-].
  unfold slots. cbn [set_table PROCESS_TABLE].
  rewrite (alter_insert (retire code) i _ p) by done. by rewrite list_fmap_insert.
Qed.

Lemma back_to_shell_slots g code k t k' :
  back_to_shell g code k = Ret (t, k') → CURRENT_PID k' = 0 ∧ slots k' = slots k.
Proof.
  unfold back_to_shell. rewrite bind_gets. cbn beta. rewrite bind_Ret_cont.
  destruct (write_cr3 _ k) as [[[] k1]| | |] eqn:H2; try done.
  assert (same_slots k k1) as [Hs1 _] by (revert H2; apply (kept_bind (liftO _)); [keeping|intros; keeping]).
  rewrite bind_Ret_cont. destruct (set_tss_rsp0 _ k1) as [[[] k2]| | |] eqn:H3; try done.
  assert (same_slots k1 k2) as [Hs2 _] by (revert H3; apply (kept_bind (liftO _)); [keeping|intros; keeping]).
  intros [= _ <-]. split; [done|]. change (slots (set_exit _ _ _)) with (slots k2). congruence.
Qed.

Lemma kept_unless_zero p : keeps (if negb (p =? 0) then free_page p else mret tt).
Proof. destruct (negb _); [apply kept_free|keeping]. Qed.

Lemma exit_slots g code k t k' : exit_process g code k = Ret (t, k') → exited k k'.
Proof.
  unfold exit_process, exited. rewrite bind_Ret_cont.
  destruct (mark_exited code k) as [[[[pml4 ks] us] k1]| | |] eqn:Hm; try done.
  apply mark_exited_slots in Hm.
  assert (Hpre : keeps (_ ← free_process_address_space pml4;
    _ ← (if negb (us =? 0) then free_page us else mret tt);
    if negb (ks =? 0) then free_page ks else mret tt)).
  { apply kept_bind; [apply kept_release|]. intros _. apply kept_bind; [|intros _]; apply kept_unless_zero. }
  intros Hrun. assert (Hsplit : ((_ ← (_ ← free_process_address_space pml4;
    _ ← (if negb (us =? 0) then free_page us else mret tt);
    if negb (ks =? 0) then free_page ks else mret tt); back_to_shell g code) k1) = Ret (t, k')).
  { rewrite <- Hrun, bind_assoc, !bind_Ret_cont.
    destruct (free_process_address_space pml4 k1) as [[[] k2]| | |]; [|done..]. apply bind_assoc. }
  clear Hrun. rewrite bind_Ret_cont in Hsplit.
  destruct ((_ ← free_process_address_space pml4; _) k1) as [[[] k2]| | |] eqn:H2; try done.
  apply Hpre in H2 as [Hs _]. apply back_to_shell_slots in Hsplit as [Hc Hs2]. split; [done|].
  rewrite Hs2, Hs. by destruct (list_find _ _) as [[i p]|].
Qed.

(** ** Runs *)

(** The kernel after some launches and exits, [n] of the launches successful. *)
Inductive kernel_run : nat → Kernel → Prop :=
  | run_boot k : PROCESS_TABLE k = table_new → CURRENT_PID k = 0 → kernel_run 0 k
  | run_launch n k data r k' :
      kernel_run n k → launch_init_process data k = Ret (r, k') →
      kernel_run (match r with Ok _ => S n | Err _ => n end) k'
  | run_exit n k g code t k' :
      kernel_run n k → exit_process g code k = Ret (t, k') → kernel_run n k'.

Definition unused (l : list (Z * ProcessState)) : nat := length (filter (λ x, x.2 = Unused) l).

Lemma filter_insert_length {A} (P : A → Prop) `{∀ x, Decision (P x)} (l : list A) i x y :
  l !! i = Some x →
  (length (filter P (<[i := y]> l)) + (if decide (P x) then 1 else 0) =
   length (filter P l) + (if decide (P y) then 1 else 0))%nat.
Proof.
  intros Hx. apply list_elem_of_split_length in Hx as (l1 & l2 & -> & ->).
  rewrite insert_app_r_alt, Nat.sub_diag by lia. cbn [insert list_insert].
  rewrite !filter_app, !filter_cons, !length_app. destruct (decide (P x)), (decide (P y)); cbn [length]; lia.
Qed.

Lemma unused_set l i x st :
  l !! i = Some x → st ≠ Unused →
  (unused (<[i := (x.1, st)]> l) + (if decide (x.2 = Unused) then 1 else 0) = unused l)%nat.
Proof.
  intros Hx Hst. unfold unused. pose proof (filter_insert_length (λ x, x.2 = Unused) l i x (x.1, st) Hx) as Hl.
  cbn [snd] in Hl. destruct (decide (st = Unused)); [done|]. lia.
Qed.

(** C26. The slots of the table are used up: after [n] successful launches, with any exits and
    failed launches in between, [8 - n] slots are unused, for an exited process keeps its
    slot; and every process has pid 0, so that the current pid is 0 whether a process runs
    or not. *)
Theorem process_slots_used_up n k :
  kernel_run n k →
  (n + unused (slots k) = 8)%nat ∧ Forall (λ x, x.1 = 0) (slots k) ∧ CURRENT_PID k = 0.
Proof.
  induction 1 as [k Ht Hc|n k data r k' _ IH Hl|n k g code t k' _ IH He].
  - unfold slots. rewrite Ht. split_and!; [done| |done]. by apply (bool_decide_unpack _).
  - apply launch_slots in Hl. destruct IH as (Hn & Hp & Hc).
    destruct (find_state Unused (PROCESS_TABLE k)) as [i|] eqn:Hf.
    + destruct r as [[]|e]; [|destruct Hl as [Hs Hc']; rewrite Hs, Hc'; by split_and!].
      destruct Hl as [Hs Hcur]. unfold find_state in Hf. apply fmap_Some in Hf as ([j p] & Hf & ->).
      apply list_find_Some in Hf as (Hj & Hu & _). cbn [fst] in *.
      assert (Hx : slots k !! j = Some (pid p, Unused)) by (unfold slots; rewrite list_lookup_fmap, Hj; cbn; by rewrite Hu).
      rewrite (alter_insert _ j _ _ Hx) in Hs. rewrite Hs.
      pose proof (unused_set _ j _ Running Hx ltac:(done)) as Hcount. cbn [fst snd] in *.
      rewrite decide_True in Hcount by done. split_and!; [lia| |].
      * apply Forall_insert; [done|]. cbn. by apply (Forall_lookup_1 _ _ _ _ Hp Hx).
      * rewrite (Hcur _ Hx). by apply (Forall_lookup_1 _ _ _ _ Hp Hx).
    + destruct Hl as ((e & ->) & Hs & Hc'). rewrite Hs, Hc'. by split_and!.
  - apply exit_slots in He as (Hc & Hs). destruct IH as (Hn & Hp & _). split_and!; [| |done].
    + destruct (list_find _ _) as [[i p]|] eqn:Hf; [|by rewrite Hs].
      apply list_find_Some in Hf as (Hi & Hr & _).
      assert (Hx : slots k !! i = Some (pid p, Running)) by (unfold slots; rewrite list_lookup_fmap, Hi; cbn; by rewrite Hr).
      pose proof (unused_set _ i _ Exited Hx ltac:(done)) as Hcount. cbn [fst snd] in Hcount.
      rewrite decide_False in Hcount by done. rewrite Hs. lia.
    + destruct (list_find _ _) as [[i p]|] eqn:Hf; [|by rewrite Hs].
      apply list_find_Some in Hf as (Hi & _). rewrite Hs. apply Forall_insert; [done|]. cbn.
      apply (Forall_lookup_1 _ _ i (pid p, proc_state p) Hp). unfold slots. by rewrite list_lookup_fmap, Hi.
Qed.

End Slots.
