(* ===== verification/UserMemory.v ===== *)
(** * User address spaces (kernel/src/process/mod.rs, syscall.rs)

    The tables a new process starts with, what the check of a user pointer decides,
    and the write system call that relies on it. *)

From stdpp Require Import base numbers list gmap strings.
From S2P Require Import Prelude Regions FrameAllocator PhysMem Elf Paging Vmm Terminal Machine Context Process.

#[local] Open Scope Z_scope.
#[local] Open Scope rust_scope.

(** The blocks of the three page sizes. *)
Definition page_size (sz : Z) : Prop := sz = 2 ^ 12 ∨ sz = 2 ^ 21 ∨ sz = 2 ^ 30.

Definition same_block (sz a b : Z) : Prop := a / sz = b / sz.

Lemma block_coarser s n a b : 0 ≤ s ≤ n → same_block (2 ^ s) a b → same_block (2 ^ n) a b.
Proof.
  unfold same_block. intros Hs Hab. replace (2 ^ n) with (2 ^ s * 2 ^ (n - s)).
  - rewrite <- !Z.div_div by lia. by rewrite Hab.
  - rewrite <- Z.pow_add_r by lia. f_equal. lia.
Qed.

(** ** What the tables allow

    Read off the words in memory as the processor does: the word for an address at a
    level, its present bit (0), its user bit (2) and its page size bit (7). *)
Definition word_at (m : Memory) (level table a : Z) : Z :=
  rd64 m (table + 8 * (a / 2 ^ (12 + 9 * (level - 1)) mod 512)).

Definition next_table (e : Z) : Z := Z.land e 0x000FFFFFFFFFF000.

(** A 4 KiB page with the user bit, or any page of 2 MiB or 1 GiB. *)
Definition allowed (m : Memory) (pml4 a : Z) : Prop :=
  let e4 := word_at m 4 pml4 a in
  let e3 := word_at m 3 (next_table e4) a in
  let e2 := word_at m 2 (next_table e3) a in
  let e1 := word_at m 1 (next_table e2) a in
  Z.testbit e4 0 = true ∧ Z.testbit e3 0 = true ∧
  (Z.testbit e3 7 = true ∨ Z.testbit e2 0 = true ∧
   (Z.testbit e2 7 = true ∨ Z.testbit e1 0 = true ∧ Z.testbit e1 2 = true)).

#[export] Instance allowed_dec m pml4 a : Decision (allowed m pml4 a).
Proof. unfold allowed. apply _. Defined.

Lemma contains_bit e n : 0 ≤ n → contains e (2 ^ n) = Z.testbit e n.
Proof.
  intros Hn. rewrite <- bit_set_testbit by done. unfold contains, bit_set. rewrite Z.shiftl_1_l.
  assert (Z.land e (2 ^ n) = 0 ∨ Z.land e (2 ^ n) = 2 ^ n) as Hl.
  { destruct (Z.testbit e n) eqn:He; [right|left]; apply Z.bits_inj'; intros i Hi;
      rewrite Z.land_spec, Z.pow2_bits_eqb, ?Z.bits_0 by done; destruct (Z.eqb_spec n i) as [<-|];
      rewrite ?He; try done; by rewrite ?andb_false_r. }
  assert (0 < 2 ^ n) by (apply Z.pow_pos_nonneg; lia). destruct Hl as [->| ->]; lia.
Qed.

Section UserMemory.
Context `{PhysAddrApi} `{VirtAddrApi} `{TableApi} {VL : VirtAddrLaws _} {TL : TableLaws _}.

(** ** A new address space *)

Lemma entry_ext m m' t t' i :
  (∀ x, 0 ≤ x < 8 → m (t + 8 * i + x) = m' (t' + 8 * i + x)) → entry_at m t i = entry_at m' t' i.
Proof.
  intros Hm. unfold entry_at. f_equal. rewrite !rd64_load. f_equal. unfold load.
  apply list_eq. intros n. rewrite !list_lookup_fmap. destruct (decide (n < 8)%nat) as [Hn|Hn].
  - unfold range. rewrite !lookup_seqZ_lt by lia. cbn [fmap option_fmap option_map]. f_equal.
    apply Hm. lia.
  - unfold range. by rewrite !lookup_seqZ_ge by lia.
Qed.

Lemma zero_entry m t i : (∀ x, t + 8 * i ≤ x < t + 8 * i + 8 → m x = 0) → contains (pte_flags (entry_at m t i)) PRESENT = false.
Proof.
  intros Hm. unfold entry_at. rewrite pte_contains by (by left).
  assert (rd64 m (t + 8 * i) = 0) as ->; [|done]. rewrite rd64_load.
  unfold load. assert (∀ l, (∀ x, x ∈ l → m x = 0) → le_val (m <$> l) = 0) as Hle.
  { induction l as [|x l IH]; intros Hx; [done|]. cbn [fmap list_fmap le_val].
    rewrite Hx by left. rewrite IH; [done|]. intros. apply Hx. by right. }
  apply Hle. intros x Hx%elem_of_range. by apply Hm.
Qed.

Lemma allocate_page_same k o k1 :
  allocate_page k = Ret (o, k1) → k_mem k1 = k_mem k ∧ KERNEL_PML4_PHYS k1 = KERNEL_PML4_PHYS k.
Proof. unfold allocate_page, on_pmm. destruct (g_allocate_frame _) as [[o' g]| | |]; try done. by intros [= _ <-]. Qed.

(** C27. A new address space has an empty lower half, so that no user address is mapped, and
    shares the upper half of the kernel's tables; no other memory changes. The image of
    the kernel, linked at 1 MiB, is in the lower half: it is not mapped there either. *)
Theorem create_user_page_tables_halves k f k1 :
  allocate_page k = Ret (Some f, k1) →
  let pml4 := KERNEL_PML4_PHYS k in
  0 ≤ f < 2 ^ 52 → 0 ≤ pml4 < 2 ^ 52 → f + 4096 ≤ pml4 ∨ pml4 + 4096 ≤ f →
  ∃ k', create_user_page_tables k = Ret (Some f, k') ∧
    (∀ idx, 0 ≤ idx < 256 → contains (pte_flags (entry_at (k_mem k') f idx)) PRESENT = false) ∧
    (∀ idx, 256 ≤ idx < 512 → entry_at (k_mem k') f idx = entry_at (k_mem k) pml4 idx) ∧
    (∀ x, x < f ∨ f + 4096 ≤ x → k_mem k' x = k_mem k x) ∧
    (∀ a, 0 ≤ a < 2 ^ 47 → ¬ allowed (k_mem k') f a).
Proof.
  intros Ha pml4 Hf Hp Hdis. unfold create_user_page_tables. mrun Ha. cbn match.
  destruct (allocate_page_same _ _ _ Ha) as [Hm Hk]. unfold zero_page. rewrite bind_modify, bind_gets, bind_modify.
  cbn beta. cbn [set_kmem KERNEL_PML4_PHYS k_mem]. rewrite Hk, Hm. fold pml4. rewrite !wrap64_small by lia.
  eexists. split; [reflexivity|]. cbn [set_kmem k_mem].
  set (m := store _ _ _).
  assert (Hz : zlen (zrepeat 4096 0) = 4096) by (apply zlen_repeat; lia).
  assert (Hl : ∀ mm, zlen (load mm (pml4 + 256 * 8) (256 * 8)) = 2048).
  { intros mm. unfold load, zlen. rewrite length_fmap, length_range. lia. }
  assert (Hout : ∀ x, x < f ∨ f + 4096 ≤ x → m x = k_mem k x).
  { intros x Hx. unfold m. rewrite store_other by (rewrite Hl; lia). apply store_other. lia. }
  assert (Hlow : ∀ x, f ≤ x < f + 2048 → m x = 0).
  { intros x Hx. unfold m. rewrite store_other by (rewrite Hl; lia). unfold zero_bytes.
    rewrite store_at by lia. apply lookup_total_replicate_2. lia. }
  assert (Hhigh : ∀ x, 2048 ≤ x < 4096 → m (f + x) = k_mem k (pml4 + x)).
  { intros x Hx. unfold m. rewrite store_at by (rewrite Hl; lia). unfold load.
    rewrite list_lookup_total_alt, list_lookup_fmap. unfold range. rewrite lookup_seqZ_lt by lia.
    cbn [fmap option_fmap option_map default]. unfold zero_bytes. rewrite store_other by lia.
    change (id ?v) with v. f_equal. lia. }
  assert (Hempty : ∀ idx, 0 ≤ idx < 256 → contains (pte_flags (entry_at m f idx)) PRESENT = false).
  { intros idx Hi. apply zero_entry. intros x Hx. apply Hlow. lia. }
  split_and!; [exact Hempty| |exact Hout|].
  - intros idx Hi. apply entry_ext. intros x Hx. rewrite <- !Z.add_assoc. apply Hhigh. lia.
  - intros a Hlt (H4 & _). assert (0 ≤ a / 2 ^ 39 < 256) as Hi by dlia.
    specialize (Hempty _ Hi). unfold entry_at in Hempty. rewrite pte_contains in Hempty by (by left).
    change PRESENT with (2 ^ 0) in Hempty. rewrite contains_bit in Hempty by done. unfold word_at in H4.
    change (12 + 9 * (4 - 1)) with 39 in H4. rewrite Z.mod_small in H4 by lia. congruence.
Qed.

(** ** Checking a pointer *)

Lemma index_block level s a b :
  1 ≤ level ≤ 4 → 0 ≤ s ≤ 12 + 9 * (level - 1) → same_block (2 ^ s) a b → page_index level a = page_index level b.
Proof.
  intros Hl Hs Hab. rewrite !page_index_ok by done. f_equal. by apply (block_coarser s).
Qed.

(** The check of one address is this test. *)
Lemma check_page_allowed m pml4 a : is_Some (check_page m pml4 a) ↔ allowed m pml4 a.
Proof.
  assert (Hf : ∀ e f n, f ∈ [PRESENT; WRITABLE; USER_ACCESSIBLE; HUGE_PAGE] → f = 2 ^ n → 0 ≤ n →
    contains (pte_flags (pte_of e)) f = Z.testbit e n).
  { intros e f n Hin -> Hn. rewrite pte_contains by done. by apply contains_bit. }
  assert (Hp : ∀ e, contains (pte_flags (pte_of e)) PRESENT = Z.testbit e 0)
    by (intros; apply Hf; [by repeat constructor|done|done]).
  assert (Hu : ∀ e, contains (pte_flags (pte_of e)) USER_ACCESSIBLE = Z.testbit e 2)
    by (intros; apply Hf; [by repeat constructor|done|done]).
  assert (Hh : ∀ e, contains (pte_flags (pte_of e)) HUGE_PAGE = Z.testbit e 7)
    by (intros; apply Hf; [by repeat constructor|done|done]).
  unfold check_page, allowed, entry_at, next_table, word_at. rewrite !Hp, !Hu, !Hh, !pte_addr_ok, !page_index_ok by lia.
  repeat match goal with |- context [Z.testbit ?e ?n] => destruct (Z.testbit e n) end; cbn [negb];
    (split; [intros [? [=]]|intros Hall]; [tauto..|first [by eexists|exfalso; intuition discriminate]]).
Qed.

Lemma check_page_size m pml4 a sz : check_page m pml4 a = Some sz → page_size sz.
Proof. unfold check_page, page_size. repeat case_match; intros; simplify_eq; auto. Qed.

(** A check speaks for the whole block. *)
Lemma check_page_block m pml4 a b sz :
  check_page m pml4 a = Some sz → same_block sz a b → check_page m pml4 b = Some sz.
Proof.
  intros Hc Hab. assert (∃ s, sz = 2 ^ s ∧ 12 ≤ s ≤ 30 ∧ (sz = 2 ^ 12 → s = 12) ∧ (sz = 2 ^ 21 → s = 21)) as
    (s & -> & Hs & H12 & H21).
  { destruct (check_page_size _ _ _ _ Hc) as [->|[->| ->]]; [exists 12|exists 21|exists 30]; lia. }
  rewrite <- Hc. unfold check_page in *.
  rewrite <- (index_block 4 s a b), <- (index_block 3 s a b) by (done || lia).
  destruct (negb _); [done|]. destruct (negb _); [done|]. destruct (contains _ HUGE_PAGE) eqn:H3; [done|].
  assert (Hs2 : s ≤ 21).
  { assert (2 ^ s = 2 ^ 21 ∨ 2 ^ s = 2 ^ 12) as [Hx|Hx]; [|rewrite H21 by done; lia|rewrite H12 by done; lia].
    revert Hc. repeat case_match; intros Hc; try discriminate Hc; injection Hc; auto. }
  clear H3. rewrite <- (index_block 2 s a b) by (done || lia).
  destruct (negb _); [done|]. destruct (contains _ HUGE_PAGE) eqn:H2; [done|].
  assert (s = 12) as ->.
  { apply H12. revert Hc. repeat case_match; intros Hc; try discriminate Hc; injection Hc; auto. }
  by rewrite <- (index_block 1 12 a b) by (done || lia).
Qed.

Lemma page_floor_block a : same_block (2 ^ 12) (page_floor a) a.
Proof. unfold same_block, page_floor. change (2 ^ 12) with 4096. dlia. Qed.

Lemma check_floor m pml4 a : is_Some (check_page m pml4 (page_floor a)) ↔ is_Some (check_page m pml4 a).
Proof.
  pose proof (page_floor_block a) as Hb.
  assert (∀ x y, same_block (2 ^ 12) x y → is_Some (check_page m pml4 x) → is_Some (check_page m pml4 y)) as Hgo.
  { intros x y Hxy [sz Hsz]. exists sz. eapply check_page_block; [exact Hsz|].
    destruct (check_page_size _ _ _ _ Hsz) as [->|[->| ->]]; [done|by apply (block_coarser 12)..]. }
  split; apply Hgo; [done|]. unfold same_block in *. done.
Qed.

Lemma next_block_ge sz a :
  page_size sz → 0 ≤ a < 2 ^ 47 → a mod 4096 = 0 →
  let n := next_block a sz in
  n mod 4096 = 0 ∧ a + 4096 ≤ n < 2 ^ 48 ∧ ∀ b, a ≤ b < n → same_block sz a b.
Proof.
  intros Hsz Ha Hm. unfold next_block, same_block.
  destruct Hsz as [->|[->| ->]]; cbn zeta; rewrite wrap64_small by dlia; split_and!;
    try (intros b Hb); dlia.
Qed.

Lemma validate_loop_correct m pml4 fuel addr end_page :
  0 ≤ addr → addr mod 4096 = 0 → end_page mod 4096 = 0 → end_page < 2 ^ 47 →
  (end_page - addr) / 4096 + 1 ≤ Z.of_nat fuel →
  ∃ b, validate_loop fuel m pml4 addr end_page = Ret b ∧
    (b = true ↔ ∀ a, addr ≤ a < end_page + 4096 → is_Some (check_page m pml4 a)).
Proof.
  revert addr. induction fuel as [|fuel IH]; intros addr Hnn Ha He Hhi Hf; cbn [validate_loop].
  - destruct (Z.leb_spec addr end_page); [dlia|]. exists true. split; [done|]. split; [|done].
    intros _ a Hin. dlia.
  - destruct (Z.leb_spec addr end_page) as [Hle|Hgt].
    2: { exists true. split; [done|]. split; [|done]. intros _ a Hin. dlia. }
    rewrite VirtAddr_new_ok by (left; lia). cbn [mbind outcome_bind].
    destruct (check_page m pml4 addr) as [sz|] eqn:Hc.
    + pose proof (check_page_size _ _ _ _ Hc) as Hsz.
      destruct (next_block_ge sz addr Hsz ltac:(lia) Ha) as (Hn & [Hlo Hhi2] & Hblk). cbn zeta in *.
      destruct (IH (next_block addr sz)) as (b & Hrun & Hb); [lia|done|done|done|dlia|].
      exists b. split; [done|]. rewrite Hb. split; intros Hall a Hin; [|apply Hall; lia].
      destruct (Z.lt_ge_cases a (next_block addr sz)) as [Hlt|Hge]; [|apply Hall; lia].
      exists sz. eapply check_page_block; [exact Hc|]. apply Hblk. lia.
    + exists false. split; [done|]. split; [done|]. intros Hall. destruct (Hall addr) as [? Hx]; [dlia|congruence].
Qed.

Lemma validate_low m pml4 ptr len :
  0 < ptr → 0 < len → ptr + len ≤ 2 ^ 47 →
  ∃ b, validate_user_ptr m pml4 ptr len = Ret b ∧ (b = true ↔ ∀ a, ptr ≤ a < ptr + len → allowed m pml4 a).
Proof.
  intros Hpos Hlpos Hhi. unfold validate_user_ptr, KERNEL_HALF. cbn zeta.
  destruct (Z.eqb_spec ptr 0); [lia|]. destruct (Z.eqb_spec len 0); [lia|]. cbn [orb].
  destruct (Z.leb_spec 0xFFFF800000000000 ptr); [lia|]. rewrite Z.min_l by lia.
  destruct (Z.ltb_spec (ptr + len) ptr); [lia|]. destruct (Z.ltb_spec 0xFFFF800000000000 (ptr + len)); [lia|]. cbn [orb].
  destruct (validate_loop_correct m pml4 (Z.to_nat ((page_floor (ptr + len - 1) - page_floor ptr) / 4096 + 1))
    (page_floor ptr) (page_floor (ptr + len - 1))) as (b & Hrun & Hb);
    [unfold page_floor; dlia|unfold page_floor; dlia|unfold page_floor; dlia|unfold page_floor; dlia| |].
  { rewrite Z2Nat.id; [lia|]. unfold page_floor. dlia. }
  exists b. split; [done|]. rewrite Hb. setoid_rewrite <- check_page_allowed. split; intros Hall a Ha.
  - apply Hall. unfold page_floor. dlia.
  - apply (proj1 (check_floor m pml4 a)). destruct (Z.lt_ge_cases a ptr) as [Hlt|Hge].
    + assert (page_floor a = page_floor ptr) as -> by (unfold page_floor in *; dlia). apply check_floor, Hall. lia.
    + destruct (Z.lt_ge_cases a (ptr + len)) as [|Hge2]; [apply check_floor, Hall; lia|].
      assert (page_floor a = page_floor (ptr + len - 1)) as -> by (unfold page_floor in *; dlia).
      apply check_floor, Hall. lia.
Qed.

(** C13. The check of a user pointer always ends. Null and empty ranges, and ranges that reach
    the kernel half, are refused. In the lower half the answer is whether every byte of
    the range is on a page that the words of the tables allow: a present 4 KiB page with
    the user bit, or any present page of 2 MiB or 1 GiB, whatever its user bit. A range
    that starts between the halves makes the kernel panic. *)
Theorem validate_user_ptr_correct m pml4 ptr len :
  u64 ptr → u64 len →
  (ptr = 0 ∨ len = 0 ∨ KERNEL_HALF < ptr + len → validate_user_ptr m pml4 ptr len = Ret false) ∧
  (0 < ptr → 0 < len → ptr + len ≤ 2 ^ 47 →
   ∃ b, validate_user_ptr m pml4 ptr len = Ret b ∧
     (b = true ↔ ∀ a, ptr ≤ a < ptr + len → allowed m pml4 a)) ∧
  (2 ^ 47 ≤ ptr → 0 < len → ptr + len ≤ KERNEL_HALF → validate_user_ptr m pml4 ptr len = Panic).
Proof.
  unfold u64, KERNEL_HALF. intros Hp Hl. split; [|split; [by apply validate_low|]];
    unfold validate_user_ptr, KERNEL_HALF; cbn zeta.
  - intros Hbad. destruct (Z.eqb_spec ptr 0); [done|]. destruct (Z.eqb_spec len 0); [done|]. cbn [orb].
    destruct (Z.leb_spec 0xFFFF800000000000 ptr); [done|].
    destruct (Z.ltb_spec 0xFFFF800000000000 (Z.min (ptr + len) (2 ^ 64 - 1))); [|lia]. by rewrite orb_true_r.
  - intros Hpos Hlpos Hhi. destruct (Z.eqb_spec ptr 0); [lia|]. destruct (Z.eqb_spec len 0); [lia|]. cbn [orb].
    destruct (Z.leb_spec 0xFFFF800000000000 ptr); [lia|]. rewrite Z.min_l by lia.
    destruct (Z.ltb_spec (ptr + len) ptr); [lia|]. destruct (Z.ltb_spec 0xFFFF800000000000 (ptr + len)); [lia|]. cbn [orb].
    assert (Hle : page_floor ptr ≤ page_floor (ptr + len - 1)) by (unfold page_floor; dlia).
    assert (Hfuel : ∃ fuel, Z.to_nat ((page_floor (ptr + len - 1) - page_floor ptr) / 4096 + 1) = S fuel).
    { exists (Z.to_nat ((page_floor (ptr + len - 1) - page_floor ptr) / 4096)). dlia. }
    destruct Hfuel as [fuel ->]. cbn [validate_loop]. destruct (Z.leb_spec (page_floor ptr) (page_floor (ptr + len - 1))); [|lia].
    rewrite VirtAddr_new_bad; [done|]. unfold page_floor. dlia.
Qed.

(** ** Writing to the serial port *)

Lemma check_mapped m pml4 a : is_Some (check_page m pml4 a) → ∃ p, user_address m pml4 a = Ret p.
Proof. intros [sz Hc]. unfold check_page, user_address in *. repeat case_match; simplify_eq; eauto. Qed.

(** The byte a user address holds. *)
Definition user_byte (m : Memory) (pml4 a : Z) : Z :=
  match user_address m pml4 a with Ret p => m p | _ => 0 end.

Lemma emit_app b c k : emit c (emit b k) = emit (b ++ c) k.
Proof. unfold emit. cbn. by rewrite app_assoc. Qed.

(** C28. The write system call prints exactly the bytes of the buffer, each as the character with
    its code, and returns their number; a buffer the process cannot read is refused with
    nothing printed, and no access faults. *)
Theorem sys_write_prints k buf len :
  0 < buf → 0 < len → buf + len ≤ 2 ^ 47 →
  sys_write buf len k =
    if decide (Forall (allowed (k_mem k) (k_cr3 k)) (range buf (buf + len))) then
      Ret (len, emit ((user_byte (k_mem k) (k_cr3 k) <$> range buf (buf + len)) ≫= utf8_char) k)
    else Ret (EFAULT, k).
Proof.
  intros Hb Hl Hhi. unfold sys_write. destruct (Z.eqb_spec len 0) as [|Hlne]; [lia|]. rewrite bind_get. cbn beta.
  destruct (validate_low (k_mem k) (k_cr3 k) buf len Hb Hl Hhi) as (b & Hrun & Hiff).
  rewrite Hrun. rewrite (bind_Ret _ _ k _ k eq_refl). cbn beta.
  assert (Hall : (∀ a, buf ≤ a < buf + len → allowed (k_mem k) (k_cr3 k) a) ↔
    Forall (allowed (k_mem k) (k_cr3 k)) (range buf (buf + len))).
  { rewrite Forall_forall. split; intros Ha a Hin; apply Ha; by apply elem_of_range. }
  rewrite Hall in Hiff. destruct b; cbn [negb].
  2: { rewrite decide_False; [done|]. intros Hf. by apply Hiff in Hf. }
  rewrite decide_True by (by apply Hiff). assert (Hok := proj1 Hiff eq_refl). rewrite Forall_forall in Hok.
  clear Hiff Hall Hrun.
  assert (Hloop : ∀ n : nat, Z.of_nat n ≤ len →
    mfor (range 0 (Z.of_nat n)) (λ i, byte ← read_user (buf +₆₄ i); modify (emit (utf8_char byte))) k =
    Ret (tt, emit ((user_byte (k_mem k) (k_cr3 k) <$> range buf (buf + Z.of_nat n)) ≫= utf8_char) k)).
  { induction n as [|n IH]; intros Hn.
    { rewrite !range_nil by lia. cbn. unfold emit. rewrite app_nil_r. by destruct k. }
    replace (Z.of_nat (S n)) with (Z.of_nat n + 1) by lia. rewrite Z.add_assoc, !range_snoc by lia.
    rewrite fmap_app, bind_app. set (body := λ i, _) in *.
    rewrite mfor_app, (bind_Ret _ _ _ _ _ (IH ltac:(lia))). cbn [mfor]. unfold body.
    rewrite wrap64_small by lia. unfold read_user.
    destruct (check_mapped (k_mem k) (k_cr3 k) (buf + Z.of_nat n)) as (p & Hp).
    { apply check_page_allowed, Hok, elem_of_range. lia. }
    rewrite bind_assoc, bind_Ret_cont. cbn [emit k_mem k_cr3]. rewrite Hp. rewrite bind_modify, emit_app.
    cbn [fmap list_fmap mbind list_bind]. rewrite app_nil_r. unfold user_byte at 3. by rewrite Hp. }
  specialize (Hloop (Z.to_nat len)). rewrite Z2Nat.id in Hloop by lia.
  by rewrite (bind_Ret _ _ _ _ _ (Hloop ltac:(lia))).
Qed.

End UserMemory.
