(* ===== verification/ProcessInstance.v ===== *)
(** * A concrete table walker, and the witnesses of the process theorems *)

From stdpp Require Import base numbers list gmap strings.
From S2P Require Import Prelude ByteStr Regions FrameAllocator PhysMem Elf Paging Vmm VmmInstance Terminal Gdt Machine Context UserMode Process ProcessTheorems ProcessSlots UserMemory.

#[local] Open Scope Z_scope.
#[local] Existing Instance phys52.
#[local] Existing Instance phys52_laws.

(** ** The hardware format, and a mapper over it *)

Definition w_pte_of (e : Z) : PageTableEntry := mkPte e (Z.land e 0x000FFFFFFFFFF000).
Definition w_page_index (level a : Z) : Z := a / 2 ^ (12 + 9 * (level - 1)) mod 512.

(** The table below entry [slot], allocated and cleared when there is none. *)
Definition w_child (alloc : M Global (option Z)) (slot : Z) : M (Memory * Global) (result Z MapToError) := λ s,
  let '(m, g) := s in
  let e := rd64 m slot in
  if contains e PRESENT then
    Ret ((if contains e HUGE_PAGE then Err MapParentEntryHugePage else Ok (Z.land e 0x000FFFFFFFFFF000)), s)
  else
    match alloc g with
    | Ret (Some f, g) => Ret (Ok f, (wr64 (zero_bytes m f 4096) slot (Z.lor f 7), g))
    | Ret (None, g) => Ret (Err FrameAllocationFailed, (m, g))
    | Panic => Panic
    | UB => UB
    | OutOfFuel => OutOfFuel
    end.

#[local] Open Scope rust_scope.

Definition w_map_to (pml4 : Z) (alloc : M Global (option Z)) (page frame flags : Z) :
    M (Memory * Global) (result unit MapToError) :=
  let slot table level := table + 8 * w_page_index level page in
  pdp ←? w_child alloc (slot pml4 4);
  pd ←? w_child alloc (slot pdp 3);
  pt ←? w_child alloc (slot pd 2);
  s ← get;
  let e := rd64 s.1 (slot pt 1) in
  if contains e PRESENT then mret (Err (PageAlreadyMapped frame)) else
  _ ← put (wr64 s.1 (slot pt 1) (Z.lor frame flags), s.2);
  mret (Ok tt).

#[export] Instance walker : TableApi := {| pte_of := w_pte_of; page_index := w_page_index; raw_map_to := w_map_to |}.

#[export] Instance walker_laws : TableLaws walker.
Proof. by split. Qed.

(** ** A kernel with sixteen free frames *)

Definition w_kernel : Kernel := mkKernel table_new 0 0x100000 0 false 0 (λ _, 0) w_pmm_global 0x100000 0 [].

(** A file with one segment of 16 bytes at 0x400000. *)
Definition w_init : list Z :=
  w_elf_header 64 56 1 ++ le_bytes 4 1 ++ le_bytes 4 5 ++ le_bytes 8 0 ++ le_bytes 8 0x400000 ++
  le_bytes 8 0 ++ le_bytes 8 16 ++ le_bytes 8 32 ++ le_bytes 8 4096.

Definition ok_result {A B} (o : outcome (result A B * Kernel)) : bool :=
  match o with Ret (Ok _, _) => true | _ => false end.

Lemma ok_result_inv {B} (o : outcome (result unit B * Kernel)) : ok_result o = true → ∃ k, o = Ret (Ok tt, k).
Proof. destruct o as [[[[]|] k]| | |]; try done. eauto. Qed.

Lemma process_slots_used_up_witness :
  ∃ k, launch_init_process w_init w_kernel = Ret (Ok tt, k) ∧ unused (slots k) = 7%nat ∧ CURRENT_PID k = 0.
Proof.
  assert (ok_result (launch_init_process w_init w_kernel) = true) as Hok by (vm_compute; reflexivity).
  destruct (ok_result_inv _ Hok) as [k Hk]. exists k. split; [exact Hk|].
  destruct (process_slots_used_up 1 k) as (Hn & _ & Hc); [|split; [lia|exact Hc]].
  exact (run_launch 0 w_kernel w_init (Ok tt) k (run_boot w_kernel eq_refl eq_refl) Hk).
Defined.

(** A segment of 6000 bytes: its second page makes the slice panic. *)
Definition w_data : list Z := zrepeat 6000 7.
Definition w_segment : ElfSegment := mkSegment 0x400000 6000 6000 0 false true.

Lemma segment_page_copied_witness : copy_page w_data w_segment 1 0x5000 w_kernel = Panic.
Proof.
  rewrite (segment_page_copied w_data w_segment 1 0x5000 w_kernel); [reflexivity|lia|done|done|..];
    vm_compute; (discriminate || reflexivity).
Defined.

Definition w_proc : ProcessControlBlock := mkPcb 0 Running 0x9F60 USER_STACK_TOP 0 0x400000 0 0x8000 0x7000 0.

(** Tables that map the page of the context, the kernel's code and the descriptor table where
    they lie, and a process with these tables. *)
Definition w_mapped_stack : Memory :=
  w_words (w_words (w_words (w_words (w_words (λ _, 0) 0x1000 [0x2003]) 0x2000 [0x3003]) 0x3000 [0x4003]) 0x4048 [0x9003])
    0x4800 [0x100003; 0x101003].
Definition w_new_proc : ProcessControlBlock := set_pml4 0x1000 w_proc.

Definition w_entering : Kernel :=
  let '(p, m) := build_initial_kernel_stack w_new_proc w_mapped_stack in
  set_kmem m (set_table (<[0%nat := p]> table_new) w_kernel).

(** The jump from [text], with the descriptor table that the kernel builds. *)
Definition w_gdt : list (option Descriptor) :=
  [None; Some kernel_code_segment; Some kernel_data_segment; Some tss_segment; None;
   Some user_data_segment; Some user_code_segment].
Definition w_jump (text : Z) : Jump := mkJump (λ _, 5) text 0x101000 55 (gdt_at w_gdt).

Lemma w_sees a n :
  bool_decide (Forall (λ x, walk FOR_READ (k_mem w_entering) 0x1000 x = Some x) (range a (a + n))) = true →
  sees (k_mem w_entering) 0x1000 a n.
Proof. intros Hall%bool_decide_eq_true_1 x Hx. rewrite Forall_forall in Hall. apply Hall, elem_of_range. lia. Qed.

Lemma initial_context_entered_witness :
  let k' := set_cr3 0x1000 (set_rsp0 0x9F60 w_entering) in
  enter_user_mode (w_jump 0x200000) w_entering = Ret (Faulted (PageFault 0x200000), k') ∧
  enter_user_mode (w_jump 0x100000) w_entering = Ret (Faulted (GeneralProtection 0x28), k').
Proof.
  pose proof (λ text, initial_context_entered (G := list (option Descriptor)) (w_jump text)
    w_entering 0 w_new_proc w_mapped_stack (build_initial_kernel_stack w_new_proc w_mapped_stack).1
    ltac:(unfold u64; cbn; lia) ltac:(unfold u64; cbn; unfold USER_STACK_TOP; lia) ltac:(cbn; lia) eq_refl eq_refl
    ltac:(cbn; lia) eq_refl) as Hall.
  split.
  - destruct (Hall 0x200000) as (_ & _ & Hno & _). apply Hno. vm_compute. reflexivity.
  - destruct (Hall 0x100000) as (_ & _ & _ & _ & Hyes).
    refine (proj1 (Hyes _ _ _) (mkKernelGdt w_gdt 0x08 0x10 0x18 0x33 0x2B) eq_refl eq_refl eq_refl);
      apply w_sees; vm_compute; reflexivity.
Defined.

Definition w_running : Kernel := set_table (<[0%nat := w_proc]> table_new) w_kernel.

Lemma exit_process_frees_witness :
  exit_process (λ _, 0) 3 w_running =
    (_ ← upd_proc 0 (retire 3); _ ← mfor [0x7000; 0x8000] free_page; back_to_shell (λ _, 0) 3) w_running.
Proof. exact (exit_process_frees (λ _, 0) 3 w_running 0 w_proc eq_refl). Defined.

Lemma w_allocate : ∃ k, allocate_page w_kernel = Ret (Some 0, k).
Proof.
  assert (match allocate_page w_kernel with Ret (Some 0, _) => true | _ => false end = true) as Hok
    by (vm_compute; reflexivity).
  destruct (allocate_page w_kernel) as [[[[]|] k]| | |]; try done. by exists k.
Qed.

Lemma create_user_page_tables_halves_witness :
  ∃ k', create_user_page_tables w_kernel = Ret (Some 0, k') ∧ ¬ allowed (k_mem k') 0 0x100000.
Proof.
  destruct w_allocate as [k1 Hk1].
  destruct (create_user_page_tables_halves (TL := walker_laws) w_kernel 0 k1 Hk1) as (k' & Hrun & _ & _ & _ & Hnone).
  - lia.
  - cbn [KERNEL_PML4_PHYS w_kernel]. lia.
  - cbn [KERNEL_PML4_PHYS w_kernel]. lia.
  - exists k'. split; [exact Hrun|]. apply Hnone. lia.
Defined.

(** One user page: 0x400000 at frame 0x5000, which holds "Hi". *)
Definition w_memory : Memory :=
  store (w_words (w_words (w_words (w_words (λ _, 0) 0x1000 [0x2007]) 0x2000 [0x3007]) 0x3010 [0x4007]) 0x4000 [0x5007])
    0x5000 [72; 105].

Lemma w_checked n : 0 ≤ n ≤ 16 → ∀ a, 0x400000 ≤ a < 0x400000 + n → allowed w_memory 0x1000 a.
Proof.
  intros Hn. assert (Forall (λ a, allowed w_memory 0x1000 a) (range 0x400000 (0x400000 + 16))) as Hall.
  { apply (bool_decide_unpack _). vm_compute. reflexivity. }
  rewrite Forall_forall in Hall. intros a Ha. apply Hall, elem_of_range. lia.
Qed.

Lemma validate_user_ptr_correct_witness : validate_user_ptr w_memory 0x1000 0x400000 16 = Ret true.
Proof.
  destruct (validate_user_ptr_correct w_memory 0x1000 0x400000 16) as (_ & Hok & _).
  - unfold u64. lia.
  - unfold u64. lia.
  - destruct Hok as (b & Hrun & Hb); [lia|lia|lia|]. rewrite Hrun. f_equal. apply Hb. apply w_checked. lia.
Defined.

Definition w_writer : Kernel := set_kmem w_memory (set_cr3 0x1000 w_kernel).

Lemma sys_write_prints_witness : sys_write 0x400000 2 w_writer = Ret (2, emit (bytes_of "Hi") w_writer).
Proof.
  rewrite (sys_write_prints w_writer 0x400000 2); [|lia|lia|lia]. rewrite decide_True.
  - f_equal.
  - apply Forall_forall. intros a Ha%elem_of_range. apply (w_checked 2); [lia|exact Ha].
Defined.

(** Launching the file and entering it: the tables of the process do not map the code of the
    kernel, wherever it is below the page of the file. *)
Definition w_launch_enter (text : Z) : M Kernel landing :=
  r ← launch_init_process w_init;
  match r with
  | Ok _ => enter_user_mode (w_jump text)
  | Err _ => liftO Panic
  end.

Example launched_faults :
  match w_launch_enter 0x100000 w_kernel with Ret (Faulted (PageFault a), _) => Some a | _ => None end = Some 0x100000.
Proof. vm_compute. reflexivity. Qed.
