(* ===== verification/Shell.v ===== *)
(** * The file commands of the shell (kernel/src/terminal/mod.rs)

    [mount], [ls], [cat], [touch], [mkdir], [write], [rm], [cd] and [pwd] over the
    virtual file system: what they print and what they do to the volume. An
    argument is the list of its UTF-8 bytes. *)

From stdpp Require Import base numbers list gmap strings.
From S2P Require Import Prelude ByteStr Text Block Bpb Fat32 Volume Files Dir DirSpec Vfs VfsSpec VfsFiles VfsTheorems VfsFds FatTheorems Terminal.

#[local] Open Scope Z_scope.
#[local] Open Scope rust_scope.

(** The serial output, the global VFS and the device of the volume. *)
Record ShellState (D : Type) := mkShell {
  sh_out : list Z;
  sh_vfs : option VfsManager;
  sh_dev : D;
}.
Arguments mkShell {D} _ _ _.
Arguments sh_out {D} _.
Arguments sh_vfs {D} _.
Arguments sh_dev {D} _.

(** ** Text *)

(** The characters of valid UTF-8 text. *)
Fixpoint utf8_decode (fuel : nat) (l : list Z) : list Z :=
  match fuel, l with
  | S fuel, b :: l =>
      if b <? 0x80 then b :: utf8_decode fuel l
      else if b <? 0xE0 then
        match l with
        | b1 :: l => ((b - 0xC0) * 64 + (b1 - 0x80)) :: utf8_decode fuel l
        | _ => []
        end
      else if b <? 0xF0 then
        match l with
        | b1 :: b2 :: l => ((b - 0xE0) * 4096 + (b1 - 0x80) * 64 + (b2 - 0x80)) :: utf8_decode fuel l
        | _ => []
        end
      else
        match l with
        | b1 :: b2 :: b3 :: l =>
            ((b - 0xF0) * 262144 + (b1 - 0x80) * 4096 + (b2 - 0x80) * 64 + (b3 - 0x80)) :: utf8_decode fuel l
        | _ => []
        end
  | _, _ => []
  end.

(** [volume_label_str]: the label, trimmed; blank when it is not UTF-8. *)
Definition volume_label_str (b : Fat32Bpb) : list Z :=
  let s := if utf8_valid (volume_label b) then volume_label b else bytes_of "           " in
  utf8 (str_trim (utf8_decode (length s) s)).

(** [s.trim_end_matches('/')] *)
Definition trim_end (c : Z) (s : list Z) : list Z := rev (trim_start c (rev s)).

Section Shell.
Context `{BlockDevice D}.

Abbreviation Sh A := (M (ShellState D) A).

Definition sh_print (b : list Z) : Sh unit := modify (λ s, mkShell (sh_out s ++ b) (sh_vfs s) (sh_dev s)).
Definition sh_println (b : list Z) : Sh unit := sh_print (b ++ [10]).

(** [vfs().as_mut().expect("VFS not initialized")], and a method of it. *)
Definition with_vfs {A} (m : M (VfsState D) A) : Sh A := λ s,
  match sh_vfs s with
  | None => Panic
  | Some mg =>
      match m (mkVS mg (sh_dev s)) with
      | Ret (a, vs) => Ret (a, mkShell (sh_out s) (Some (vm vs)) (dev vs))
      | Panic => Panic
      | UB => UB
      | OutOfFuel => OutOfFuel
      end
  end.

Definition manager : Sh VfsManager := with_vfs (gets vm).

Definition print_error (cmd : string) (e : VfsError) : Sh unit :=
  sh_println (bytes_of cmd ++ bytes_of " error: " ++ bytes_of (VfsError_display e)).

(** ** The commands *)

Definition cmd_mount : Sh unit :=
  vfs ← manager;
  if negb (is_mounted vfs) then sh_println (bytes_of "No filesystem mounted.") else
  _ ← sh_println (bytes_of "Mounted: FAT32 on /");
  _ ← sh_println (bytes_of "  Root cluster: " ++ dec (vfs_root_cluster vfs));
  match fat_fs vfs with
  | Some fs =>
      _ ← sh_println (bytes_of "  Volume label: " ++ volume_label_str (bpb fs));
      _ ← sh_println (bytes_of "  Cluster size: " ++ dec (cluster_size_bytes (bpb fs)) ++ bytes_of " bytes");
      let total_sectors := total_sectors_32 (bpb fs) in
      sh_println (bytes_of "  Total sectors: " ++ dec total_sectors ++ bytes_of " (" ++
        dec (total_sectors / 2048) ++ bytes_of " MiB)")
  | None => mret tt
  end.

(** [println!("  {:<20} {:>8}  {}", a, b, c)] *)
Definition ls_line (a b c : list Z) : list Z :=
  bytes_of "  " ++ pad_right 20 a ++ bytes_of " " ++ pad_left 8 b ++ bytes_of "  " ++ c.

Definition ls_entry (entry : VfsNode) : list Z :=
  let kind := if node_is_dir entry then "dir"%string else "file"%string in
  ls_line (node_path entry) (dec (node_size entry)) (bytes_of kind).

Definition cmd_ls (args : list (list Z)) : Sh unit :=
  vfs ← manager;
  let path := match args with [] => cwd vfs | a :: _ => a end in
  r ← with_vfs (list_dir path);
  match r with
  | Ok entries =>
      match entries with
      | [] => sh_println (bytes_of "(empty)")
      | _ =>
          _ ← sh_println (bytes_of "Directory: " ++ path);
          _ ← sh_println (ls_line (bytes_of "Name") (bytes_of "Size") (bytes_of "Type"));
          _ ← sh_println (ls_line (bytes_of "----") (bytes_of "----") (bytes_of "----"));
          _ ← mfor entries (λ entry, sh_println (ls_entry entry));
          sh_println (dec (zlen entries) ++ bytes_of " item(s)")
      end
  | Err e => print_error "ls" e
  end.

Definition cmd_cat (args : list (list Z)) : Sh unit :=
  match args with
  | [] => sh_println (bytes_of "Usage: cat <file>")
  | file :: _ =>
      r ← with_vfs (read_file_content file);
      match r with
      | Ok data =>
          _ ← mfor data (λ byte, if byte =? 13 then mret tt else sh_print (utf8_char byte));
          if bool_decide (last data = Some 10) then mret tt else sh_println []
      | Err e => print_error "cat" e
      end
  end.

Definition cmd_touch (args : list (list Z)) : Sh unit :=
  match args with
  | [] => sh_println (bytes_of "Usage: touch <file>")
  | file :: _ =>
      r ← with_vfs (stat file);
      match r with
      | Ok _ => sh_println (bytes_of "Exists: " ++ file)
      | Err NotFound =>
          r ← with_vfs (create_file file []);
          match r with
          | Ok _ => sh_println (bytes_of "Created: " ++ file)
          | Err e => print_error "touch" e
          end
      | Err e => print_error "touch" e
      end
  end.

Definition cmd_mkdir (args : list (list Z)) : Sh unit :=
  match args with
  | [] => sh_println (bytes_of "Usage: mkdir <directory>")
  | dir :: _ =>
      r ← with_vfs (mkdir dir);
      match r with
      | Ok _ => sh_println (bytes_of "Created directory: " ++ dir)
      | Err e => print_error "mkdir" e
      end
  end.

Definition cmd_write (args : list (list Z)) : Sh unit :=
  match args with
  | path :: (_ :: _) as words =>
      let data := join_words words in
      r ← with_vfs (create_file path data);
      match r with
      | Ok _ => sh_println (bytes_of "Wrote " ++ dec (zlen data) ++ bytes_of " bytes to " ++ path)
      | Err e => print_error "write" e
      end
  | _ => sh_println (bytes_of "Usage: write <file> <data>")
  end.

Definition cmd_rm (args : list (list Z)) : Sh unit :=
  match args with
  | [] => sh_println (bytes_of "Usage: rm <file>")
  | file :: _ =>
      r ← with_vfs (stat file);
      match r with
      | Ok node =>
          if node_is_dir node then sh_println (bytes_of "rm error: cannot remove directory (use rmdir)") else
          r ← with_vfs (delete file);
          match r with
          | Ok _ => sh_println (bytes_of "Deleted: " ++ file)
          | Err e => print_error "rm" e
          end
      | Err _ => print_error "rm" NotFound
      end
  end.

(** The new working directory. *)
Definition cd_target (cwd target : list Z) : list Z :=
  if head_is (λ b, b =? slash) target then target
  else if bool_decide (target = bytes_of "..") then
    match split_last slash (trim_end slash cwd) with
    | Some (before, _) => if is_empty before then [slash] else before
    | None => [slash]
    end
  else (if ends_with slash cwd then cwd else cwd ++ [slash]) ++ target.

Definition set_cwd (p : list Z) (m : VfsManager) : VfsManager :=
  mkVfs (mount_point m) (fat_fs m) (vfs_root_cluster m) (file_table m) (next_fd m) p.

Definition cmd_cd (args : list (list Z)) : Sh unit :=
  vfs ← manager;
  match args with
  | [] => sh_println (cwd vfs)
  | target :: _ =>
      let new_path := cd_target (cwd vfs) target in
      r ← with_vfs (resolve_path new_path);
      match r with
      | Ok _ =>
          _ ← with_vfs (upd_vm (set_cwd new_path));
          sh_println new_path
      | Err e => print_error "cd" e
      end
  end.

Definition cmd_pwd : Sh unit :=
  vfs ← manager;
  sh_println (cwd vfs).

(** ** Properties *)

Definition cat_text (data : list Z) : list Z :=
  (filter (λ b, b ≠ 13) data ≫= utf8_char) ++ (if bool_decide (last data = Some 10) then [] else [10]).

Lemma cat_loop data s :
  mfor data (λ byte, if byte =? 13 then mret tt else sh_print (utf8_char byte)) s =
  Ret (tt, mkShell (sh_out s ++ (filter (λ b, b ≠ 13) data ≫= utf8_char)) (sh_vfs s) (sh_dev s)).
Proof.
  revert s. induction data as [|b data IH]; intros s; cbn [mfor].
  - rewrite filter_nil. cbn. rewrite app_nil_r. by destruct s.
  - rewrite filter_cons. destruct (Z.eqb_spec b 13) as [->|Hb].
    + rewrite decide_False by (by intros ?). rewrite bind_mret. apply IH.
    + rewrite decide_True by done. change ((b :: ?l) ≫= ?f) with (f b ++ (l ≫= f)).
      rewrite bind_Ret_cont. unfold sh_print at 1, modify. rewrite IH. cbn [sh_out sh_vfs sh_dev].
      by rewrite <- app_assoc.
Qed.

(** C5. [write f words] followed by [cat g], for a name [g] that differs from [f] in case at
    most: the first reports the length, the second prints the words with single spaces,
    without carriage returns and with a final line feed. *)
Theorem write_then_cat `{!BlockDeviceLaws D} fs mg d v cs j path name words out :
  let data := join_words words in
  geometry fs → working d → abs fs (content d) v → fat_fs mg = Some fs →
  chain_ok v (vfs_root_cluster mg :: cs) → first_free fs v j →
  words ≠ [] → bytes data → zlen data ≤ csize fs → plain_name name → trim_start slash path = name →
  dir_lookup (to_upper_byte <$> name) (dir_entries v (vfs_root_cluster mg :: cs)) = None →
  Exists (λ x, is_slot x = true) (dir_entries v (vfs_root_cluster mg :: cs)) →
  let reply := bytes_of "Wrote " ++ dec (zlen data) ++ bytes_of " bytes to " ++ path ++ [10] in
  ∃ d', cmd_write (path :: words) (mkShell out (Some mg) d) = Ret (tt, mkShell (out ++ reply) (Some mg) d') ∧
    ∀ path', to_upper_byte <$> trim_start slash path' = to_upper_byte <$> name →
      slash ∉ trim_start slash path' → Forall (λ b, 0 ≤ b < 128) (trim_start slash path') →
      ∃ d'', cmd_cat [path'] (mkShell (out ++ reply) (Some mg) d') =
        Ret (tt, mkShell (out ++ reply ++ cat_text data) (Some mg) d'').
Proof.
  intros data G Hw Habs Hfs Hch Hj Hne Hb Hlen Hname Hpath Hnone Hslot reply.
  destruct (create_then_read fs mg d v cs j path name data G Hw Habs Hfs Hch Hj Hb Hlen Hname Hpath Hnone Hslot)
    as (d' & Hcreate & Hread).
  exists d'. split.
  - destruct words as [|w words]; [done|]. unfold cmd_write. fold data. rewrite bind_Ret_cont. unfold with_vfs.
    cbn [sh_vfs sh_dev sh_out]. rewrite Hcreate. cbn [vm dev]. unfold sh_println, sh_print, modify.
    cbn [sh_vfs sh_dev sh_out]. unfold reply. by rewrite <- !app_assoc.
  - intros path' Hsame Hns Hascii. destruct (Hread path' Hsame Hns Hascii) as (d'' & Hd''). exists d''.
    unfold cmd_cat. rewrite bind_Ret_cont. unfold with_vfs. cbn [sh_vfs sh_dev sh_out]. rewrite Hd''. cbn [vm dev].
    rewrite bind_Ret_cont, cat_loop. cbn [sh_vfs sh_dev sh_out]. unfold cat_text.
    rewrite <- !app_assoc. case_bool_decide; [by rewrite app_nil_r|].
    unfold sh_println, sh_print, modify. cbn [sh_vfs sh_dev sh_out]. by rewrite <- !app_assoc.
Qed.

(** *** The working directory *)

(** A directory as [cd] keeps it: absolute, and without a final slash but for the root. *)
Definition dir_path (p : list Z) : Prop :=
  p = [slash] ∨ (head_is (λ b, b =? slash) p = true ∧ ends_with slash p = false).

Lemma ends_with_snoc c l x : ends_with c (l ++ [x]) = (x =? c).
Proof. unfold ends_with. by rewrite last_snoc. Qed.

Lemma trim_end_other c l : ends_with c l = false → trim_end c l = l.
Proof.
  unfold trim_end. destruct l as [|x l _] using rev_ind; [done|]. rewrite ends_with_snoc, rev_unit. intros Hx.
  cbn [trim_start]. rewrite Hx. by rewrite <- rev_unit, rev_involutive.
Qed.

Lemma split_last_child p t :
  slash ∉ t → split_last slash (p ++ [slash] ++ t) = Some (p, t).
Proof.
  intros Ht. destruct (split_last slash (p ++ [slash] ++ t)) as [[x y]|] eqn:Hs.
  - destruct (split_last_Some _ _ _ _ Hs) as [Heq Hy].
    assert (∀ a b c d : list Z, slash ∉ b → slash ∉ d → a ++ slash :: b = c ++ slash :: d → a = c ∧ b = d) as Huniq.
    { induction a as [|u a IH]; intros b c e Hbn Hen He.
      - destruct c as [|w c]; cbn in He; [by injection He|]. injection He as <- He. exfalso. apply Hbn.
        rewrite He. apply elem_of_app. right. by left.
      - destruct c as [|w c]; cbn in He.
        + injection He as -> He. exfalso. apply Hen. rewrite <- He. apply elem_of_app. right. by left.
        + injection He as -> He. by destruct (IH b c e Hbn Hen He) as [-> ->]. }
    destruct (Huniq p t x y) as [-> ->]; [done|done|done|done].
  - exfalso. revert Hs. clear. induction p as [|u p IH]; cbn [app split_last].
    + destruct (split_last slash t) as [[? ?]|]; [done|]. by rewrite Z.eqb_refl.
    + cbn in IH. destruct (split_last slash (p ++ slash :: t)) as [[? ?]|]; [done|by destruct IH].
Qed.

Lemma trim_end_prefix c l : ∃ k, l = trim_end c l ++ k.
Proof.
  unfold trim_end. induction l as [|x l [k Hk]] using rev_ind; [by exists []|]. rewrite rev_unit. cbn [trim_start].
  destruct (x =? c).
  - exists (k ++ [x]). by rewrite app_assoc, <- Hk.
  - exists []. by rewrite app_nil_r, <- rev_unit, rev_involutive.
Qed.

Definition absolute (p : list Z) : Prop := head_is (λ b, b =? slash) p = true.

Lemma absolute_app p q : absolute p → absolute (p ++ q).
Proof. by destruct p. Qed.

Lemma absolute_prefix p q : absolute (p ++ q) → p ≠ [] → absolute p.
Proof. by destruct p. Qed.

Lemma cd_target_absolute p t : absolute p → absolute (cd_target p t).
Proof.
  intros Hp. unfold cd_target. destruct (head_is _ t) eqn:Ht; [done|]. case_bool_decide.
  - destruct (split_last slash (trim_end slash p)) as [[before y]|] eqn:Hs; [|done].
    apply split_last_Some in Hs as [Hs _]. destruct (trim_end_prefix slash p) as [k Hk].
    destruct before as [|b before]; [done|]. cbn [is_empty]. rewrite Hs, <- app_assoc in Hk.
    rewrite Hk in Hp. by eapply absolute_prefix.
  - apply absolute_app. destruct (ends_with slash p); [done|by apply absolute_app].
Qed.

(** Up again from a child. *)
Lemma cd_target_parent p t :
  dir_path p → t ≠ [] → t ≠ bytes_of ".." → slash ∉ t → cd_target (cd_target p t) (bytes_of "..") = p.
Proof.
  intros Hp Hne Hdd Hns.
  assert (Hh : head_is (λ b, b =? slash) t = false).
  { destruct t as [|b t]; [done|]. cbn. apply Z.eqb_neq. intros ->. apply Hns. by left. }
  assert (He : ∀ q, ends_with slash (q ++ t) = false).
  { destruct t as [|b t _] using rev_ind; [done|]. intros q. rewrite app_assoc, ends_with_snoc. apply Z.eqb_neq.
    intros ->. apply Hns, elem_of_app. right. by left. }
  assert (Hin : cd_target p t = (if ends_with slash p then p else p ++ [slash]) ++ t).
  { unfold cd_target. rewrite Hh. by rewrite bool_decide_eq_false_2. }
  rewrite Hin. set (q := (if ends_with slash p then p else p ++ [slash]) ++ t).
  assert (Hq : cd_target q (bytes_of "..") =
    match split_last slash (trim_end slash q) with
    | Some (before, _) => if is_empty before then [slash] else before
    | None => [slash]
    end) by done.
  rewrite Hq. unfold q. rewrite trim_end_other by apply He. destruct Hp as [->|[Habs Hend]].
  - change (if ends_with slash [slash] then [slash] else [slash] ++ [slash]) with ([] ++ [slash]).
    rewrite <- app_assoc, split_last_child by done. done.
  - rewrite Hend, <- app_assoc, split_last_child by done. by destruct p.
Qed.

(** Resolving a path does not touch the manager. *)
Definition keeps_vm {A} (m : M (VfsState D) A) : Prop := ∀ s a s', m s = Ret (a, s') → vm s' = vm s.

Lemma keeps_vm_ret {A} (a : A) : keeps_vm (mret a).
Proof. by intros s b s' [= _ <-]. Qed.

Lemma keeps_vm_bind {A B} (m : M (VfsState D) A) (k : A → M (VfsState D) B) :
  keeps_vm m → (∀ a, keeps_vm (k a)) → keeps_vm (m ≫= k).
Proof.
  intros Hm Hk s b s' Hr. rewrite bind_Ret_cont in Hr. destruct (m s) as [[a s1]| | |] eqn:Ha; try done.
  rewrite (Hk _ _ _ _ Hr). by eapply Hm.
Qed.

Lemma keeps_vm_get : keeps_vm get.
Proof. by intros s a s' [= _ <-]. Qed.

Lemma keeps_vm_dev {A} (m : M D (result A string)) e : keeps_vm (dev_err e m).
Proof.
  unfold dev_err, map_err. apply keeps_vm_bind; [|intros; apply keeps_vm_ret].
  intros s a s'. unfold on_dev. destruct (m (dev s)) as [[r d]| | |]; try done. by intros [= _ <-].
Qed.

Lemma keeps_vm_resolve_loop fs fuel c rest : keeps_vm (resolve_loop fs fuel c rest).
Proof.
  revert c rest. induction fuel as [|fuel IH]; intros c rest; cbn [resolve_loop];
    (destruct (is_empty rest); [apply keeps_vm_ret|]); [by intros s a s'|].
  destruct (match split_first slash rest with Some (c0, r) => _ | None => _ end) as [comp rest'].
  destruct (is_empty comp || _); [apply IH|]. destruct (bytes_eqb comp _).
  - apply keeps_vm_bind; [apply keeps_vm_get|]. intros s. destruct (_ =? _); [apply IH|].
    apply keeps_vm_bind; [apply keeps_vm_dev|]. intros [es|e]; [|apply keeps_vm_ret].
    destruct (find_info _ es); apply IH.
  - apply keeps_vm_bind; [apply keeps_vm_dev|]. intros [es|e]; [|apply keeps_vm_ret].
    destruct (find_info _ es); [apply IH|apply keeps_vm_ret].
Qed.

Lemma keeps_vm_resolve path : keeps_vm (resolve_path path).
Proof.
  unfold resolve_path, get_fs. apply keeps_vm_bind.
  { apply keeps_vm_bind; [apply keeps_vm_get|]. intros. apply keeps_vm_ret. }
  intros [fs|e]; [|apply keeps_vm_ret]. apply keeps_vm_bind; [apply keeps_vm_get|]. intros s.
  destruct (_ || _); [apply keeps_vm_ret|apply keeps_vm_resolve_loop].
Qed.

(** [cd] keeps the working directory absolute and leaves the rest of the manager alone:
    the directory is the old one, or the target when it resolves; and [cd ..] after
    [cd name] is back where it was. *)
Theorem cd_keeps_directory args s s' mg :
  sh_vfs s = Some mg → absolute (cwd mg) → cmd_cd args s = Ret (tt, s') →
  ∃ p, sh_vfs s' = Some (set_cwd p mg) ∧ absolute p ∧
    (p = cwd mg ∨ ∃ t d, head args = Some t ∧ p = cd_target (cwd mg) t ∧
       ∃ c r vs, resolve_path p (mkVS mg d) = Ret (Ok (c, r), vs)) ∧
    (∀ t, dir_path p → t ≠ [] → t ≠ bytes_of ".." → slash ∉ t → cd_target (cd_target p t) (bytes_of "..") = p).
Proof.
  intros Hvfs Habs Hrun.
  assert (Hself : ∃ p, Some mg = Some (set_cwd p mg) ∧ absolute p ∧ p = cwd mg) by (exists (cwd mg); by destruct mg).
  assert (Hm : manager s = Ret (mg, s)).
  { unfold manager, with_vfs. rewrite Hvfs. cbn. rewrite <- Hvfs. by destruct s. }
  unfold cmd_cd in Hrun. rewrite (bind_Ret _ _ _ _ _ Hm) in Hrun.
  enough (∃ p, sh_vfs s' = Some (set_cwd p mg) ∧ absolute p ∧
    (p = cwd mg ∨ ∃ t d, head args = Some t ∧ p = cd_target (cwd mg) t ∧
       ∃ c r vs, resolve_path p (mkVS mg d) = Ret (Ok (c, r), vs))) as (p & ? & ? & ?).
  { exists p. split_and!; [done..|]. intros. by apply cd_target_parent. }
  destruct args as [|t args].
  { injection Hrun as <-. cbn [sh_vfs]. rewrite Hvfs. destruct Hself as (p & ? & ? & ?). exists p. auto. }
  cbn zeta in Hrun. set (q := cd_target (cwd mg) t) in *. rewrite bind_Ret_cont in Hrun.
  destruct (with_vfs (resolve_path q) s) as [[r s1]| | |] eqn:Hr; try done.
  unfold with_vfs in Hr. rewrite Hvfs in Hr.
  destruct (resolve_path q (mkVS mg (sh_dev s))) as [[r' vs]| | |] eqn:Hq; try done.
  injection Hr as -> <-. pose proof (keeps_vm_resolve q _ _ _ Hq) as Hvm. cbn [vm] in Hvm.
  destruct r as [[c rest]|e].
  - injection Hrun as <-. cbn [sh_vfs vm]. rewrite Hvm. exists q. split_and!; [done|by apply cd_target_absolute|].
    right. exists t, (sh_dev s). split_and!; [done|done|]. by exists c, rest, vs.
  - injection Hrun as <-. cbn [sh_vfs]. rewrite Hvm. destruct Hself as (p & ? & ? & ?). exists p. auto.
Qed.

End Shell.

(** ** Witnesses *)

Lemma write_then_cat_witness :
  ∃ d' d'' : RamDisk,
    cmd_write [bytes_of "/Readme.txt"; bytes_of "a"; bytes_of "b"] (mkShell [] (Some (w_mgr w_fs [])) w_disk) =
      Ret (tt, mkShell (bytes_of "Wrote 3 bytes to /Readme.txt" ++ [10]) (Some (w_mgr w_fs [])) d') ∧
    cmd_cat [bytes_of "README.TXT"]
      (mkShell (bytes_of "Wrote 3 bytes to /Readme.txt" ++ [10]) (Some (w_mgr w_fs [])) d') =
      Ret (tt, mkShell (bytes_of "Wrote 3 bytes to /Readme.txt" ++ [10] ++ bytes_of "a b" ++ [10])
        (Some (w_mgr w_fs [])) d'').
Proof.
  destruct (write_then_cat w_fs (w_mgr w_fs []) w_disk w_vol [3] 4 (bytes_of "/Readme.txt")
    (bytes_of "Readme.txt") [bytes_of "a"; bytes_of "b"] [] w_geometry w_working w_abs eq_refl w_chain w_free)
    as (d' & Hd' & Hread).
  - discriminate.
  - apply (bool_decide_unpack _). vm_compute. reflexivity.
  - vm_compute. discriminate.
  - exact w_plain.
  - reflexivity.
  - vm_compute. reflexivity.
  - constructor. vm_compute. reflexivity.
  - destruct (Hread (bytes_of "README.TXT")) as (d'' & Hd'');
      [vm_compute; reflexivity|apply (bool_decide_unpack _); vm_compute; reflexivity..|].
    exists d', d''. split; [exact Hd'|exact Hd''].
Defined.

Lemma cd_keeps_directory_witness :
  ∃ p, cwd (w_mgr w_fs []) = bytes_of "/" ∧
    sh_vfs (mkShell (bytes_of "/./" ++ [10]) (Some (set_cwd (bytes_of "/./") (w_mgr w_fs []))) w_disk) =
      Some (set_cwd p (w_mgr w_fs [])) ∧ absolute p.
Proof.
  destruct (cd_keeps_directory (D := RamDisk) [bytes_of "./"] (mkShell [] (Some (w_mgr w_fs [])) w_disk)
    (mkShell (bytes_of "/./" ++ [10]) (Some (set_cwd (bytes_of "/./") (w_mgr w_fs []))) w_disk)
    (w_mgr w_fs [])) as (p & Hp & Ha & _); [reflexivity|reflexivity|reflexivity|].
  exists p. split; [reflexivity|]. split; [exact Hp|exact Ha].
Defined.
