(* ===== verification/Commands.v ===== *)
(** * The other commands of the shell (kernel/src/terminal/mod.rs, version.rs)

    What the information commands print, as text; the raw disk commands over the ATA
    driver; the process commands; and the dispatch of a command line. *)

From stdpp Require Import base numbers list gmap strings.
From S2P Require Import Prelude ByteStr Regions FrameAllocator PhysMem Block Ports Ata AtaSpec Mbr Text Vga CpuInfo SysInfo Time Paging Vmm Terminal Machine Context Process Shell.

#[local] Open Scope Z_scope.
#[local] Open Scope rust_scope.

(** ** Version *)

Definition STAGE : list Z := bytes_of "Alpha".
Definition VERSION : list Z := bytes_of "0.2.0 Alpha".
Definition OS_NAME : list Z := bytes_of "Arcadia OS".
Definition KERNEL_NAME : list Z := bytes_of "arcadia-kernel".
Definition ARCH : list Z := bytes_of "x86_64".
Definition BANNER_VERSION : list Z := bytes_of "Arcadia OS v0.2 Alpha".

(** [serial_println!] of the parts. *)
Definition line (l : list (list Z)) : list Z := concat l ++ [10].
Definition str (s : string) : list Z := bytes_of s.

(** ** Texts *)

Definition banner_text : list Z :=
  line [] ++ line [str "+======================================+"] ++
  line [str "|     "; BANNER_VERSION; str "    |"] ++
  line [str "|     Terminal Ready                    |"] ++
  line [str "+======================================+"] ++ line [] ++
  line [str "Type 'help' for available commands."] ++ line [].

Definition help_lines : list string :=
  ["Available commands:";
   "  help          - Show this help message";
   "  clear         - Clear the screen";
   "  version       - Show system version";
   "  uname         - Show system information";
   "  mem           - Show physical memory information";
   "  vmm           - Show virtual memory manager statistics";
   "  cpuinfo       - Show CPU information";
   "  meminfo       - Show memory information";
   "  sysinfo       - Show complete system information";
   "  echo [text]   - Print text";
   "  hostname      - Show hostname";
   "  whoami        - Show current user";
   "  neofetch      - Show system info";
   "  uptime        - Show system uptime";
   "  ticks         - Show raw tick count";
   "  disk [r|w]    - Disk info, read/write sectors";
   "  partitions    - Show MBR partition table";
   "  ls [path]     - List directory contents";
   "  cat <file>    - Read file contents";
   "  touch <file>  - Create empty file";
   "  mkdir <dir>   - Create directory";
   "  write <f> <s> - Write string to file";
   "  rm <file>     - Delete file";
   "  mount         - Show filesystem info";
   "  cd <path>     - Change directory";
   "  pwd           - Print working directory";
   "  run           - Run init process in Ring 3";
   "  ps            - List processes";
   "  reboot        - Reboot the system";
   "  halt          - Halt the system";
   "  exit          - Shut down"]%string.

Definition cmd_help : list Z := help_lines ≫= λ l, line [str l].

Definition cmd_version : list Z :=
  line [OS_NAME; str " ("; BANNER_VERSION; str ")"] ++
  line [str "Kernel: "; KERNEL_NAME; str " "; VERSION] ++
  line [str "Architecture: "; ARCH].

(** [cmd_memory], from the statistics of the physical memory manager. *)
Definition memory_text (stats : FrameAllocator.MemoryStatistics) : list Z :=
  line [str "[MEMORY] Total: "; dec (st_total_bytes stats / (1024 * 1024)); str " MiB (";
        dec (st_total_bytes stats); str " bytes)"] ++
  line [str "[MEMORY] Usable: "; dec (st_usable_bytes stats / (1024 * 1024)); str " MiB"] ++
  line [str "[MEMORY] Reserved: "; dec (st_reserved_bytes stats / (1024 * 1024)); str " MiB"] ++
  line [str "[MEMORY] Allocated: "; dec (st_allocated_frames stats); str " frames"] ++
  line [str "[MEMORY] Free: "; dec (st_free_frames stats); str " frames"] ++
  line [str "[MEMORY] Total frames: "; dec (st_total_frames stats)].

Definition cmd_memory : M Global (list Z) :=
  g ← get;
  if is_initialized g then stats ← g_statistics; mret (memory_text stats)
  else mret (line [str "[MEMORY] Physical Memory Manager not initialized."]).

Definition region_line (r : MappedRegion) : list Z :=
  line [str "  0x"; pad_zero 12 (hex (virtual_addr r)); str " -> 0x"; pad_zero 12 (hex (physical_addr r));
        str "  "; dec (mapped_size r / 1024); str " KiB  "; bytes_of (description r)].

Definition cmd_vmm `{PageMapper T} (g : VmmGlobal) (pt : T) : outcome (list Z) :=
  if vmm_is_initialized g then
    v ← vmm g;
    let stats := vmm_stats v in
    let ok := count_mapped_pages pt =? total_mapped_pages stats in
    mret (
      line [str "[VMM] Virtual Memory Manager Statistics:"] ++
      line [str "[VMM] Mapped pages: "; dec (total_mapped_pages stats); str " (";
            dec (total_mapped_bytes stats); str " bytes)"] ++
      line [str "[VMM] Map operations: "; dec (map_count stats)] ++
      line [str "[VMM] Unmap operations: "; dec (unmap_count stats)] ++
      line [str "[VMM] Remap operations: "; dec (remap_count stats)] ++
      line [str "[VMM] TLB flushes: "; dec (tlb_flush_count stats)] ++
      line [str "[VMM] Page table frames: "; dec (page_table_frames stats)] ++
      line [str "[VMM] Validation: "; str (if ok then "PASS" else "FAIL")%string] ++
      line [str "[VMM] Mapped regions:"] ++
      (mapped_regions v ≫= region_line))
  else mret (line [str "[VMM] Virtual Memory Manager not initialized."]).

(** The lines [cmd_cpuinfo] and [cmd_sysinfo] share. *)
Definition cpu_lines (cpu : CpuInfo) : list Z :=
  line [str "  Vendor: "; bytes_of (vendor_as_str (vendor cpu))] ++
  line [str "  Brand: "; brand_as_str (brand_string cpu)] ++
  line [str "  Family: "; dec (full_family (signature cpu)); str " Model: "; dec (full_model (signature cpu));
        str " Stepping: "; dec (stepping (signature cpu))] ++
  line [str "  Cores: "; dec (physical_cores cpu); str " physical, "; dec (logical_cores cpu); str " logical"].

Definition memory_lines (mem : MemoryInfo) : list Z :=
  line [str "  Total: "; dec (mi_total_mib mem); str " MiB"] ++
  line [str "  Usable: "; dec (mi_usable_mib mem); str " MiB"] ++
  line [str "  Reserved: "; dec (mi_reserved_mib mem); str " MiB"].

Definition cmd_cpuinfo (g : option CpuInfo) : outcome (list Z) :=
  if cpu_is_initialized g then
    cpu ← cpu_info g;
    mret (
      line [str "CPU Information:"] ++ cpu_lines cpu ++
      line [str "  Frequency: "; dec (frequency_mhz cpu); str " MHz"] ++
      line [str "  Cache: L1="; dec (cache_l1 cpu); str " KB, L2="; dec (cache_l2 cpu); str " KB, L3=";
            dec (cache_l3 cpu); str " KB"] ++
      line [str "  Features: "; dec (feature_count cpu)])
  else mret (line [str "CPU information not available. System detection not initialized."]).

Definition cmd_meminfo (g : option MemoryInfo) : outcome (list Z) :=
  if memory_is_initialized g then
    mem ← memory_info g;
    mret (
      line [str "Memory Information:"] ++ memory_lines mem ++
      line [str "  Memory Regions: "; dec (zlen (mi_memory_map mem))])
  else mret (line [str "Memory information not available. System detection not initialized."]).

Definition cmd_sysinfo (g : SysGlobals) : outcome (list Z) :=
  if sys_is_initialized g then
    cpu ← cpu_info (g_CPU_INFO g);
    mem ← memory_info (g_MEMORY_INFO g);
    mret (
      line [str "System Information:"] ++ line [str "  ==== CPU ===="] ++ cpu_lines cpu ++
      line [str "  ==== Memory ===="] ++ memory_lines mem)
  else mret (line [str "System information not available. System detection not initialized."]).

(** The logo; the backslashes are those of the Rust strings, unescaped. *)
Definition logo_text : list Z :=
  line [str "       _              "] ++ line [str "      / \   Arcadia   "] ++
  line [str "     /   \  --------  "] ++ line [str "    / Arc \  OS v0.2  "] ++
  line [str "   /       \  x86_64  "] ++ line [str "  /_________\          "] ++ line [].

Definition cmd_neofetch (g : SysGlobals) : outcome (list Z) :=
  cpu_text ← (if cpu_is_initialized (g_CPU_INFO g) then
      cpu ← cpu_info (g_CPU_INFO g);
      mret (line [str "  CPU:    "; bytes_of (vendor_as_str (vendor cpu)); str " ("; dec (logical_cores cpu);
                  str " cores)"])
    else mret (line [str "  CPU:    x86_64"]));
  mem_text ← (if memory_is_initialized (g_MEMORY_INFO g) then
      mem ← memory_info (g_MEMORY_INFO g);
      mret (line [str "  Memory: "; dec (mi_total_mib mem); str " MiB"])
    else mret (line [str "  Memory: 128 KiB heap"]));
  mret (
    logo_text ++ line [str "  OS:     Arcadia "; VERSION; str " ("; STAGE; str ")"] ++
    line [str "  Kernel: arcadia-kernel"] ++ line [str "  Shell:  arcadia-sh"] ++ cpu_text ++ mem_text).

Definition cmd_uptime (c : Clock) : list Z :=
  let ms := uptime_ms c in
  let secs := ms / 1000 in
  let mins := secs / 60 in
  let hours := mins / 60 in
  let days := hours / 24 in
  line [str "Uptime: "; dec days; str "d "; pad_zero 2 (dec (hours mod 24)); str ":";
        pad_zero 2 (dec (mins mod 60)); str ":"; pad_zero 2 (dec (secs mod 60)); str ".";
        pad_zero 3 (dec (ms mod 1000)); str " ("; dec ms; str " ms, "; dec (ticks c); str " ticks @ ";
        dec tick_rate; str " Hz)"].

Definition cmd_ticks (c : Clock) : list Z :=
  line [str "Ticks: "; dec (ticks c); str " ("; dec tick_rate; str " Hz, "; dec (uptime_ms c); str " ms elapsed)"].

Definition state_text (s : ProcessState) : list Z :=
  str match s with
      | Unused => "unused" | ProcReady => "ready" | Running => "running"
      | Blocked => "blocked" | Sleeping => "sleeping" | Exited => "exited "
      end%string.

(** [{}] of an [i32] *)
Definition dec_signed (v : Z) : list Z := if v <? 0 then 45 :: dec (- v) else dec v.

Definition ps_line (p : ProcessControlBlock) : list Z :=
  line [pad_left 3 (dec (pid p)); str "  "; pad_right 9 (state_text (proc_state p)); str "  0x";
        pad_zero 14 (hex (proc_entry p)); str "  "; dec_signed (exit_code p)].

Definition cmd_ps (table : list ProcessControlBlock) : list Z :=
  line [str "PID  STATE      ELF_ENTRY       EXIT_CODE"] ++
  line [str "---  ---------  --------------- ----------"] ++
  (filter (λ p, proc_state p ≠ Unused) table ≫= ps_line) ++
  line [str "Processes active."].

(** ** The partition table *)

Section Partitions.

(** [PartitionEntry::size_human] formats a floating point number; it is a parameter. *)
Context (size_human : PartitionEntry → list Z).

Definition partition_line (ip : Z * PartitionEntry) : list Z :=
  let '(i, part) := ip in
  let status := if is_active part then "Active"%string
                else if is_empty_partition part then "---"%string else "     "%string in
  line [str "  "; dec (i + 1); str "   "; pad_right 16 (bytes_of (type_name (partition_type part))); str " ";
        pad_right 10 (str status); str " "; pad_left 11 (dec (lba_first part)); str " ";
        pad_left 13 (dec (lba_last part)); str " "; pad_left 13 (dec (sector_count part)); str " ";
        size_human part].

Definition partitions_text (r : result MbrTable string) : list Z :=
  match r with
  | Err e => line [str "Failed to read MBR: "; str e]
  | Ok mbr =>
      if negb (valid mbr) then line [str "Invalid MBR (missing 0xAA55 boot signature)."] else
      let count := partition_count mbr in
      line [str "MBR Partition Table:"] ++
      line [str "  Boot Sig: 0x"; pad_zero 4 (hex (boot_sig mbr))] ++ line [] ++
      line [str "  #   Type             Status     LBA Start   LBA End       Sectors       Size"] ++
      line [str "  --- ---------------- ---------- ----------- ------------- ------------- ----------"] ++
      (enumerate (partitions mbr) ≫= partition_line) ++ line [] ++
      (if count =? 0 then line [str "No partitions found."]
       else line [dec count; str " partition(s) found."])
  end.

Definition cmd_partitions `{PortIO P} : M (AtaSystem P) (list Z) :=
  r ← read_mbr;
  mret (partitions_text r).

End Partitions.

(** ** Raw disk access *)

Section Disk.
Context `{PortIO P}.

(** [str::from_utf8(s).unwrap_or("Unknown")] *)
Definition utf8_or_unknown (s : list Z) : list Z := if utf8_valid s then s else str "Unknown".

Definition device_text (info : AtaDeviceInfo) : list Z :=
  if present info && is_ata info then
    line [str "ATA Primary Master:"] ++
    line [str "  Model:    "; utf8_or_unknown (model info)] ++
    line [str "  Serial:   "; utf8_or_unknown (serial info)] ++
    line [str "  Firmware: "; utf8_or_unknown (firmware info)] ++
    line [str "  Sectors:  "; dec (sectors_28 info); str " ("; dec (sectors_28 info / 2048); str " MiB)"] ++
    line [str "  LBA48:    "; str (if lba48 info then "Yes" else "No")%string]
  else line [str "No ATA device on primary master."].

(** [match args.get(i) { Some(a) => u32::from_str_radix(a, 10).map_or(1, |v| v.min(4)), None => 1 }] *)
Definition disk_count (arg : option (list Z)) : Z :=
  match arg with
  | Some a => match from_str_radix 10 (2 ^ 32) a with Some v => Z.min v 4 | None => 1 end
  | None => 1
  end.

(** The first 64 bytes of each sector read. *)
Definition dump_line (buf : list Z) (lba sec : Z) : outcome (list Z) :=
  let off := sec * SECTOR_SIZE in
  let end_ := Z.min (off + 64) (zlen buf) in
  bs ← zslice buf off (Z.max off end_);
  mret (line [str "  LBA "; dec (lba +₃₂ sec); str ": "; bs ≫= λ b, pad_zero 2 (hex b) ++ [space]]).

Fixpoint dump_lines (buf : list Z) (lba : Z) (secs : list Z) : outcome (list Z) :=
  match secs with
  | [] => mret []
  | sec :: secs =>
      l ← dump_line buf lba sec;
      ls ← dump_lines buf lba secs;
      mret (l ++ ls)
  end.

Definition disk_read (args : list (list Z)) : M (AtaSystem P) (list Z) :=
  match args with
  | a :: rest =>
      match from_str_radix 10 (2 ^ 32) a with
      | None => mret (line [str "Invalid LBA."])
      | Some lba =>
          let count := disk_count (head rest) in
          '(r, buf) ← on_machine (read_sectors PRIMARY_BASE false lba count (zrepeat (count * SECTOR_SIZE) 0));
          match r with
          | Ok _ =>
              d ← liftO (dump_lines buf lba (range 0 count));
              mret (line [str "Read "; dec count; str " sector(s) from LBA "; dec lba; str ":"] ++ d)
          | Err e => mret (line [str "Read error: "; bytes_of (DriverError_display e)])
          end
      end
  | [] => mret (line [str "Usage: disk r <lba> [count]"])
  end.

Definition disk_write (args : list (list Z)) : M (AtaSystem P) (list Z) :=
  match args with
  | a :: b :: rest =>
      match from_str_radix 10 (2 ^ 32) a with
      | None => mret (line [str "Invalid LBA."])
      | Some lba =>
          match from_str_radix 16 (2 ^ 8) b with
          | None => mret (line [str "Invalid hex byte."])
          | Some byte_val =>
              let count := disk_count (head rest) in
              r ← on_machine (write_sectors PRIMARY_BASE false lba count (zrepeat (count * SECTOR_SIZE) byte_val));
              mret match r with
                   | Ok _ => line [str "Wrote "; dec count; str " sector(s) to LBA "; dec lba; str "."]
                   | Err e => line [str "Write error: "; bytes_of (DriverError_display e)]
                   end
          end
      end
  | _ => mret (line [str "Usage: disk w <lba> <hex-byte> [count]"])
  end.

(** [AtaBlockDevice::device_info]: model, serial number and sectors of a drive. *)
Definition trimmed (raw : list Z) : list Z :=
  let s := from_utf8_lossy raw in utf8 (str_trim (utf8_decode (length s) s)).

Definition abd_device_info (d : AtaBlockDevice) (s : AtaSystem P) : option (list Z * list Z * Z) :=
  driver ← ata s;
  let info := device_info driver (abd_base_port d) (abd_slave d) in
  if negb (present info) then None else
  Some (trimmed (model info), trimmed (serial info), sectors_28 info).

Definition cmd_disk (args : list (list Z)) : M (AtaSystem P) (list Z) :=
  s ← get;
  match ata s with
  | None => mret (line [str "No ATA driver initialized."])
  | Some driver =>
      match args with
      | [] => mret (device_text (device_info driver PRIMARY_BASE false))
      | a :: rest =>
          if bool_decide (a = str "r") then disk_read rest
          else if bool_decide (a = str "w") then disk_write rest
          else mret (line [str "Usage: disk [r <lba> [count] | w <lba> <byte> [count]]"])
      end
  end.

End Disk.
