(* ===== verification/Console.v ===== *)
(** * The dispatch of a command line (kernel/src/terminal/mod.rs, [process_command])

    The state every command works on, [run], and the [match] over the command word.
    The commands themselves are in Shell.v (files) and Commands.v (the others). *)

From stdpp Require Import base numbers list gmap strings.
From S2P Require Import Prelude ByteStr Regions FrameAllocator FrameTheorems Block Ports Ata AtaSpec AtaTheorems Mbr Text Vga CpuInfo SysInfo Time Paging Vmm VmmInstance PhysMem Terminal TerminalTheorems Machine Scancodes Context UserMode Process ProcessInstance Vfs VfsFds Shell Commands.

#[local] Open Scope Z_scope.
#[local] Open Scope rust_scope.

(** ** Command words *)

Inductive Command :=
  | CHelp | CClear | CVersion | CMem | CVmm | CReboot | CHalt | CEcho | CHostname | CWhoami
  | CUname | CCpuinfo | CMeminfo | CSysinfo | CNeofetch | CUptime | CTicks | CDisk | CPartitions
  | CLs | CCat | CTouch | CMkdir | CWrite | CRm | CMount | CCd | CPwd | CRun | CPs | CExit.

(** The arms of [match cmd], in order. *)
Definition command_table : list (string * Command) :=
  [("help", CHelp); ("clear", CClear); ("version", CVersion); ("mem", CMem); ("vmm", CVmm);
   ("reboot", CReboot); ("halt", CHalt); ("echo", CEcho); ("hostname", CHostname);
   ("whoami", CWhoami); ("uname", CUname); ("cpuinfo", CCpuinfo); ("meminfo", CMeminfo);
   ("sysinfo", CSysinfo); ("neofetch", CNeofetch); ("uptime", CUptime); ("ticks", CTicks);
   ("disk", CDisk); ("partitions", CPartitions); ("parts", CPartitions); ("ls", CLs);
   ("cat", CCat); ("touch", CTouch); ("mkdir", CMkdir); ("write", CWrite); ("rm", CRm);
   ("mount", CMount); ("cd", CCd); ("pwd", CPwd); ("run", CRun); ("ps", CPs);
   ("exit", CExit)]%string.

Definition command_of (w : list Z) : option Command :=
  snd <$> find (λ nc, bool_decide (str nc.1 = w)) command_table.

(** How a command ends: it returns to the prompt, stops the processor, or leaves for
    user mode. *)
Inductive Control :=
  | Returned
  | Halted
  | Left (t : landing).

(** ** The state *)

Record Console (P T : Type) := mkConsole {
  c_kernel : Kernel;
  c_vfs : option VfsManager;
  c_system : AtaSystem P;
  c_clock : Clock;
  c_sys : SysGlobals;
  c_vmm : VmmGlobal;
  c_tables : T;
  c_vga : Writer;
}.
Arguments mkConsole {P T} _ _ _ _ _ _ _ _.
Arguments c_kernel {P T} _.
Arguments c_vfs {P T} _.
Arguments c_system {P T} _.
Arguments c_clock {P T} _.
Arguments c_sys {P T} _.
Arguments c_vmm {P T} _.
Arguments c_tables {P T} _.
Arguments c_vga {P T} _.

Definition out {P T} (c : Console P T) : list Z := k_serial (c_kernel c).

(** The serial output replaced. *)
Definition set_serial (o : list Z) (k : Kernel) : Kernel :=
  mkKernel (PROCESS_TABLE k) (CURRENT_PID k) (KERNEL_PML4_PHYS k) (SHELL_RSP k) (EXIT_REQUESTED k)
    (EXIT_CODE k) (k_mem k) (k_pmm k) (k_cr3 k) (k_rsp0 k) o.

Definition set_kernel {P T} (k : Kernel) (c : Console P T) : Console P T :=
  mkConsole k (c_vfs c) (c_system c) (c_clock c) (c_sys c) (c_vmm c) (c_tables c) (c_vga c).
Definition set_system {P T} (s : AtaSystem P) (c : Console P T) : Console P T :=
  mkConsole (c_kernel c) (c_vfs c) s (c_clock c) (c_sys c) (c_vmm c) (c_tables c) (c_vga c).
Definition set_vga {P T} (w : Writer) (c : Console P T) : Console P T :=
  mkConsole (c_kernel c) (c_vfs c) (c_system c) (c_clock c) (c_sys c) (c_vmm c) (c_tables c) w.
Definition set_files {P T} (v : option VfsManager) (c : Console P T) : Console P T :=
  mkConsole (c_kernel c) v (c_system c) (c_clock c) (c_sys c) (c_vmm c) (c_tables c) (c_vga c).

(** The terminal with its ring, and what its commands work on. *)
Record Session (P T : Type) := mkSession {
  se_term : Terminal;
  se_ring : Scancodes;
  se_console : Console P T;
}.
Arguments mkSession {P T} _ _ _.
Arguments se_term {P T} _.
Arguments se_ring {P T} _.
Arguments se_console {P T} _.

(** A computation on a part of a state. *)
Definition zoom {S S' A} (get_ : S → S') (set_ : S' → S → S) (m : M S' A) : M S A := λ s,
  match m (get_ s) with
  | Ret (a, s') => Ret (a, set_ s' s)
  | Panic => Panic
  | UB => UB
  | OutOfFuel => OutOfFuel
  end.

Section Console.
Context `{PhysAddrApi} `{VirtAddrApi} `{TableApi} `{PortIO P} `{PageMapper T}.

(** [PartitionEntry::size_human], the bytes of the embedded program, the stack
    pointer where [cmd_run] calls, and the processor where it leaves for user mode. *)
Context (size_human : PartitionEntry → list Z) (INIT_ELF : list Z) (rsp : Z) (jump : Jump).

Abbreviation C A := (M (Console P T) A).

Definition on_kernel {A} : M Kernel A → C A := zoom c_kernel set_kernel.
Definition on_system {A} : M (AtaSystem P) A → C A := zoom c_system set_system.
Definition on_vga {A} : M Writer A → C A := zoom c_vga set_vga.

(** A file command works on the serial output, the file system and the device. *)
Definition on_shell {A} : M (ShellState (AtaSystem P)) A → C A :=
  zoom (λ c, mkShell (out c) (c_vfs c) (c_system c))
    (λ s c, set_kernel (set_serial (sh_out s) (c_kernel c)) (set_files (sh_vfs s) (set_system (sh_dev s) c))).

Definition print (b : list Z) : C unit := modify (λ c, set_kernel (emit b (c_kernel c)) c).

(** Text that depends on the state only. *)
Definition print_of (f : Console P T → outcome (list Z)) : C unit :=
  c ← get; b ← liftO (f c); print b.

Definition on_pmm_global {A} : M PhysMem.Global A → C A :=
  zoom (k_pmm ∘ c_kernel) (λ g c, set_kernel (set_pmm g (c_kernel c)) c).

(** ** [run] *)

Definition cmd_run : C Control :=
  _ ← on_kernel (modify (λ k, set_exit false (EXIT_CODE k) k));
  _ ← print (line [str "Preparing to launch init process..."]);
  _ ← on_kernel (save_kernel_state rsp);
  k ← gets c_kernel;
  if EXIT_REQUESTED k then mret Returned else
  _ ← print (line [str "Loaded init binary ("; dec (zlen INIT_ELF); str " bytes)"]);
  r ← on_kernel (launch_init_process INIT_ELF);
  match r with
  | Ok _ =>
      _ ← print (line [str "Init process created. Entering Ring 3..."]);
      t ← on_kernel (enter_user_mode jump);
      mret (Left t)
  | Err e =>
      _ ← print (line [str "Failed to launch process: "; str e]);
      mret Returned
  end.

(** ** Dispatch *)

(** The arm of a command that returns to the prompt. *)
Definition simple_command (c : Command) (args : list (list Z)) : C unit :=
  match c with
  | CHelp => print cmd_help
  | CClear => _ ← on_vga clear_screen; print (line [str "Screen cleared."])
  | CVersion => print cmd_version
  | CMem => b ← on_pmm_global cmd_memory; print b
  | CVmm => print_of (λ c, cmd_vmm (c_vmm c) (c_tables c))
  | CReboot => _ ← print (line [str "Rebooting..."]); on_system (on_machine (outb 0x64 0xFE))
  | CEcho => print (line [join_words args])
  | CHostname => print (line [str "arcadia"])
  | CWhoami => print (line [str "root"])
  | CUname => print (line [OS_NAME; str " "; VERSION; str " "; ARCH])
  | CCpuinfo => print_of (λ c, cmd_cpuinfo (g_CPU_INFO (c_sys c)))
  | CMeminfo => print_of (λ c, cmd_meminfo (g_MEMORY_INFO (c_sys c)))
  | CSysinfo => print_of (λ c, cmd_sysinfo (c_sys c))
  | CNeofetch => print_of (λ c, cmd_neofetch (c_sys c))
  | CUptime => print_of (λ c, mret (cmd_uptime (c_clock c)))
  | CTicks => print_of (λ c, mret (cmd_ticks (c_clock c)))
  | CDisk => b ← on_system (cmd_disk args); print b
  | CPartitions => b ← on_system (cmd_partitions size_human); print b
  | CLs => on_shell (cmd_ls args)
  | CCat => on_shell (cmd_cat args)
  | CTouch => on_shell (cmd_touch args)
  | CMkdir => on_shell (cmd_mkdir args)
  | CWrite => on_shell (cmd_write args)
  | CRm => on_shell (cmd_rm args)
  | CMount => on_shell cmd_mount
  | CCd => on_shell (cmd_cd args)
  | CPwd => on_shell cmd_pwd
  | CPs => print_of (λ c, mret (cmd_ps (PROCESS_TABLE (c_kernel c))))
  | CHalt | CRun | CExit => mret tt
  end.

Definition run_command (c : Command) (args : list (list Z)) : C Control :=
  match c with
  | CHalt => _ ← print (line [str "System halted."]); mret Halted
  | CExit => _ ← print (line [str "Shutting down..."]); mret Halted
  | CRun => cmd_run
  | _ => _ ← simple_command c args; mret Returned
  end.

(** [process_command] on the line [input]. *)
Definition process_command (input : list Z) : C Control :=
  match split_whitespace (str_trim input) with
  | [] => mret Returned
  | cmd :: args =>
      match command_of (utf8 cmd) with
      | Some c => run_command c (utf8 <$> args)
      | None =>
          _ ← print (line [str "Unknown command: '"; utf8 cmd; str "'. Type 'help' for commands."]);
          mret Returned
      end
  end.

(** ** The loop of the terminal *)

(** [Terminal::run] after the banner, one turn: the prompt, a line, its command. *)
Definition on_terminal {A} : M (TermState P) A → M (Session P T) A :=
  zoom (λ s, mkTS (se_term s) (se_ring s) (machine (c_system (se_console s))) (out (se_console s)))
    (λ t s, mkSession (ts_term t) (ts_ring t)
       (set_kernel (set_serial (ts_out t) (c_kernel (se_console s)))
         (set_system (mkAtaSystem (ata (c_system (se_console s))) (ts_ports t)) (se_console s)))).

Definition on_console {A} : M (Console P T) A → M (Session P T) A :=
  zoom se_console (λ c s, mkSession (se_term s) (se_ring s) c).

Definition round `{Keyboard KB E} (arrivals : list (list Z)) : M (Session P T) Control :=
  s ← get;
  _ ← on_terminal (Terminal.print (prompt (se_term s)));
  _ ← on_terminal (read_line (K := KB) (E := E) arrivals);
  s ← get;
  on_console (process_command (input_buffer (se_term s))).
End Console.

(** ** Dispatch properties *)

Lemma utf8_app s t : utf8 (s ++ t) = utf8 s ++ utf8 t.
Proof. apply bind_app. Qed.

Lemma utf8_join ws : utf8 (join_words ws) = join_words (utf8 <$> ws).
Proof.
  induction ws as [|w [|w' ws] IH]; [done|done|].
  change (join_words (w :: w' :: ws)) with (w ++ [space] ++ join_words (w' :: ws)).
  rewrite !utf8_app, IH. reflexivity.
Qed.

(** The words the help text offers: the first of each line after the heading. *)
Definition help_words : list (list Z) :=
  omap (λ l, head (split_whitespace (str l))) (tail help_lines).

Lemma command_of_None w : command_of w = None ↔ w ∉ (str ∘ fst <$> command_table).
Proof.
  unfold command_of. rewrite fmap_None.
  induction command_table as [|[n c] l IH]; [by split; [intros _; apply not_elem_of_nil|]|].
  cbn [find fst fmap list_fmap compose]. rewrite not_elem_of_cons. case_bool_decide.
  - split; [done|]. by intros [? _].
  - rewrite IH. naive_solver.
Qed.

(** The dispatch and the help text agree, but for the short name of [partitions]. *)
Lemma command_table_help w : w ∈ (str ∘ fst <$> command_table) ↔ w ∈ str "parts" :: help_words.
Proof.
  assert (Forall (λ w, w ∈ str "parts" :: help_words) (str ∘ fst <$> command_table) ∧
          Forall (λ w, w ∈ (str ∘ fst <$> command_table)) (str "parts" :: help_words)) as [H1 H2]
    by (split; refine (bool_decide_unpack _ _); vm_compute; exact I).
  rewrite Forall_forall in H1, H2. naive_solver.
Qed.

Section Dispatch.
Context `{PhysAddrApi} `{VirtAddrApi} `{TableApi} `{PortIO P} `{PageMapper T}.
Context (size_human : PartitionEntry → list Z) (INIT_ELF : list Z) (rsp : Z) (jump : Jump).

Abbreviation process := (process_command (P := P) (T := T) size_human INIT_ELF rsp jump).

(** C32. What a command line does before any handler: a blank line does nothing; a line whose
    first word is no command prints the reply to it and changes nothing else; the commands
    are the words of the help text and [parts], no other; and the words after [echo] are
    printed with single spaces between them. *)
Theorem command_dispatch input c :
  (split_whitespace input = [] → process input c = Ret (Returned, c)) ∧
  (∀ cmd args, split_whitespace input = cmd :: args →
    (utf8 cmd ∉ str "parts" :: help_words →
       process input c = Ret (Returned, set_kernel (emit
         (str "Unknown command: '" ++ utf8 cmd ++ str "'. Type 'help' for commands." ++ [10]) (c_kernel c)) c)) ∧
    (utf8 cmd ∈ str "parts" :: help_words →
       ∃ k, command_of (utf8 cmd) = Some k ∧
         process input c = run_command size_human INIT_ELF rsp jump k (utf8 <$> args) c) ∧
    (utf8 cmd = str "echo" →
       process input c = Ret (Returned, set_kernel (emit (utf8 (join_words args) ++ [10]) (c_kernel c)) c))).
Proof.
  destruct (command_words input []) as (_ & Htrim & _).
  unfold process_command. rewrite Htrim. split; [by intros ->|]. intros cmd args ->.
  rewrite <- command_table_help, <- command_of_None. split_and!.
  - intros ->. unfold line. cbn [concat]. by rewrite app_nil_r, <- !app_assoc.
  - intros Hin. destruct (command_of (utf8 cmd)) as [k|] eqn:Hk; [by exists k|].
    exfalso. apply command_of_None in Hk. by apply Hk, command_table_help.
  - intros ->. change (command_of (str "echo")) with (Some CEcho). rewrite utf8_join.
    unfold run_command, simple_command, print, line. cbn [concat]. by rewrite app_nil_r.
Qed.

End Dispatch.

(** ** One turn of the loop *)

Section Round.
Context `{PhysAddrApi} `{VirtAddrApi} `{TableApi} `{SerialPort P} `{PageMapper T} `{Keyboard KB E}.
Context (size_human : PartitionEntry → list Z) (INIT_ELF : list Z) (rsp : Z) (jump : Jump).

(** The console with the ports at [p] and the serial output [o]. *)
Definition at_ports (p : P) (o : list Z) (c : Console P T) : Console P T :=
  set_kernel (set_serial o (c_kernel c)) (set_system (mkAtaSystem (ata (c_system c)) p) c).

Lemma zoom_Ret {S S' A} (g : S → S') (f : S' → S → S) (m : M S' A) s a s' :
  m (g s) = Ret (a, s') → zoom g f m s = Ret (a, f s' s).
Proof. intros Hm. unfold zoom. by rewrite Hm. Qed.

(** C9. A line typed on the serial port is served: the prompt and the echo of the bytes are
    sent, and the command that runs is the one of the line as edited (backspaces applied,
    control bytes left out, at most 256 characters), on the console that the reading
    changed in nothing but the bytes read and sent. The line goes to the history when it is
    not empty, and the bytes after its end wait for the next turn. *)
Theorem round_serves_line s bs e rest :
  ring_wf (se_ring s) → ring_queue (se_ring s) = [] → Forall (λ b, ¬ is_eol b) bs → is_eol e →
  received (machine (c_system (se_console s))) = bs ++ e :: rest →
  let line := foldl edit [] bs in
  let sent := prompt (se_term s) ++ echoes [] bs ++ [10] in
  ∃ t r p,
    round size_human INIT_ELF rsp jump (KB := KB) (replicate (length bs + 1) []) s =
      on_console (process_command size_human INIT_ELF rsp jump line)
        (mkSession t r (at_ports p (out (se_console s) ++ sent) (se_console s))) ∧
    history t = (if decide (line = []) then history (se_term s) else push_history line (history (se_term s))) ∧
    prompt t = prompt (se_term s) ∧ ring_wf r ∧ ring_queue r = [] ∧ received p = rest.
Proof.
  intros Hr Hq Hbs He Hp line sent. set (c := se_console s).
  set (o := out c ++ prompt (se_term s)).
  destruct (serial_line_read (K := KB)
    (mkTS (se_term s) (se_ring s) (machine (c_system c)) o) bs e rest Hr Hq Hbs He Hp)
    as (t & r & p & Hread & Hin & Hh & Hpr & Hr' & Hq' & Hp').
  exists t, r, p. split_and!; [|done..]. unfold round. rewrite bind_get. unfold on_terminal.
  erewrite (bind_Ret _ _ s); [|apply zoom_Ret; reflexivity].
  erewrite (bind_Ret _ _ _); [|apply zoom_Ret; cbn [ts_term ts_ring ts_ports ts_out]; exact Hread].
  rewrite bind_get. cbn [ts_term ts_ring ts_ports ts_out se_term se_ring se_console]. rewrite Hin. fold line.
  f_equal. unfold at_ports, sent. subst o. by rewrite <- !app_assoc.
Qed.

End Round.

(** ** Raw disk access *)

Section RawDisk.
Context `{AtaHardware P}.

Lemma parse_dec z : 0 ≤ z < 2 ^ 32 → from_str_radix 10 (2 ^ 32) (dec z) = Some z.
Proof. intros. by apply parse_printed. Qed.

Lemma zrepeat_slice n k (x : Z) : 0 ≤ k ≤ n → zslice (zrepeat n x) 0 k = Ret (zrepeat k x).
Proof.
  intros Hk. rewrite zslice_ok by (rewrite ?zlen_repeat; lia). unfold zrepeat.
  rewrite drop_0, Z.sub_0_r, take_replicate. do 2 f_equal. lia.
Qed.

Lemma dump_filled lba b :
  0 ≤ lba < 2 ^ 28 →
  dump_lines (zrepeat 512 b) lba [0] =
  Ret (str "  LBA " ++ dec lba ++ str ": " ++ (zrepeat 64 b ≫= λ x, pad_zero 2 (hex x) ++ [space]) ++ [10]).
Proof.
  intros Hl. cbn [dump_lines]. unfold dump_line. change (0 * SECTOR_SIZE) with 0. rewrite zlen_repeat by lia.
  change (Z.max 0 (Z.min (0 + 64) 512)) with 64. rewrite zrepeat_slice by lia.
  assert (lba +₃₂ 0 = lba) as -> by (unfold wrap; rewrite Z.add_0_r, Z.mod_small; lia).
  cbv beta iota delta [mbind mret outcome_bind outcome_ret].
  unfold line. cbn [concat]. by rewrite !app_nil_r, <- !app_assoc.
Qed.

(** [disk w lba hh] followed by [disk r lba] on a drive: the first fills the sector with
    the byte and reports it, the second prints the first 64 bytes of that sector; no other
    sector changes. The numbers are typed as the kernel prints them. *)
Theorem disk_write_then_read s lba b :
  ata_working s → 0 ≤ lba < 2 ^ 28 → 0 ≤ b < 256 →
  ∃ s1 s2,
    cmd_disk [str "w"; dec lba; hex b] s = Ret (str "Wrote 1 sector(s) to LBA " ++ dec lba ++ str "." ++ [10], s1) ∧
    hw_sectors (hw (machine s1)) = <[lba := zrepeat 512 b]> (hw_sectors (hw (machine s))) ∧
    cmd_disk [str "r"; dec lba] s1 =
      Ret (str "Read 1 sector(s) from LBA " ++ dec lba ++ str ":" ++ [10] ++
           str "  LBA " ++ dec lba ++ str ": " ++ (zrepeat 64 b ≫= λ x, pad_zero 2 (hex x) ++ [space]) ++ [10], s2) ∧
    hw_sectors (hw (machine s2)) = hw_sectors (hw (machine s1)).
Proof.
  intros [[drv Hdrv] Hrd] Hl Hb. pose proof (w_sector_ok b Hb) as Hok.
  destruct (write_sectors_spec lba (zrepeat 512 b) (hw (machine s)) Hrd Hl Hok) as (h1 & Hw & Hrd1 & Hh1).
  destruct (on_machine_run _ s _ _ Hw) as (s1 & Hs1 & Ha1 & Hm1).
  destruct (read_sectors_spec lba (zrepeat 512 b) (zrepeat 512 0) h1 Hrd1 Hl) as (h2 & Hr & _ & Hh2);
    [rewrite Hh1; apply lookup_insert_eq|done|by apply zlen_repeat|].
  rewrite <- Hm1 in Hr. destruct (on_machine_run _ s1 _ _ Hr) as (s2 & Hs2 & Ha2 & Hm2).
  exists s1, s2. split_and!.
  - unfold cmd_disk. rewrite bind_get, Hdrv. change (bool_decide (str "w" = str "r")) with false.
    change (bool_decide (str "w" = str "w")) with true. cbn iota. unfold disk_write.
    rewrite parse_dec by lia. unfold hex at 1. rewrite parse_printed by lia.
    change (disk_count (head [])) with 1. change (1 * SECTOR_SIZE) with 512.
    rewrite (bind_Ret _ _ _ _ _ Hs1). unfold line. cbn [concat]. rewrite app_nil_r, <- !app_assoc. reflexivity.
  - by rewrite Hm1, Hh1.
  - unfold cmd_disk. rewrite bind_get, Ha1, Hdrv. change (bool_decide (str "r" = str "r")) with true. cbn iota.
    unfold disk_read. rewrite parse_dec by lia. change (disk_count (head [])) with 1.
    change (1 * SECTOR_SIZE) with 512. rewrite (bind_Ret _ _ _ _ _ Hs2). change (range 0 1) with [0].
    rewrite dump_filled by done. change (liftO (Ret ?d) ≫= ?k) with (mret d ≫= k). rewrite bind_mret.
    unfold line. cbn [concat]. rewrite app_nil_r, <- !app_assoc. reflexivity.
  - by rewrite Hm2, Hh2, Hm1.
Qed.

End RawDisk.

(** ** Witnesses *)

Lemma disk_write_then_read_witness :
  ∃ s1 s2 : AtaSystem AtaHw,
    cmd_disk [str "w"; dec 5; hex 0xAB] w_system = Ret (str "Wrote 1 sector(s) to LBA 5." ++ [10], s1) ∧
    cmd_disk [str "r"; dec 5] s1 =
      Ret (str "Read 1 sector(s) from LBA 5:" ++ [10] ++
           str "  LBA 5: " ++ (zrepeat 64 0xAB ≫= λ _, str "AB ") ++ [10], s2).
Proof.
  destruct (disk_write_then_read w_system 5 0xAB) as (s1 & s2 & Hw & _ & Hr & _); [split; [by eexists|done]|done|done|].
  exists s1, s2. split; [exact Hw|exact Hr].
Defined.

#[local] Existing Instance phys52.

Definition w_console : Console AtaHw SmallTables :=
  mkConsole w_kernel None w_system Clock_new (mkSys None None None) (mkVmmGlobal None false) ∅
    Vga.w_writer.

Lemma command_dispatch_witness :
  process_command (λ _, []) [] 0 (w_jump 0x100000) (bytes_of " echo  a b ") w_console =
    Ret (Returned, set_kernel (emit (bytes_of "a b" ++ [10]) w_kernel) w_console) ∧
  process_command (λ _, []) [] 0 (w_jump 0x100000) (bytes_of "dir") w_console =
    Ret (Returned, set_kernel (emit (bytes_of "Unknown command: 'dir'. Type 'help' for commands." ++ [10]) w_kernel)
      w_console).
Proof.
  split.
  - exact (proj2 (proj2 (proj2 (command_dispatch (λ _, []) [] 0 (w_jump 0x100000) (bytes_of " echo  a b ") w_console)
      (bytes_of "echo") [bytes_of "a"; bytes_of "b"] eq_refl)) eq_refl).
  - apply (proj1 (proj2 (command_dispatch (λ _, []) [] 0 (w_jump 0x100000) (bytes_of "dir") w_console)
      (bytes_of "dir") [] eq_refl)).
    apply (bool_decide_unpack _). vm_compute. exact I.
Defined.

Definition w_session : Session (list Z) SmallTables :=
  mkSession Terminal_new Scancodes_new
    (mkConsole w_kernel None (mkAtaSystem None (bytes_of "pwx" ++ [8; 100; 13; 108])) Clock_new
      (mkSys None None None) (mkVmmGlobal None false) ∅ Vga.w_writer).

Lemma round_serves_line_witness :
  ∃ t r p, received p = [108] ∧
    round (λ _, []) [] 0 (w_jump 0x100000) (KB := unit) (replicate 6 []) w_session =
    on_console (process_command (λ _, []) [] 0 (w_jump 0x100000) (bytes_of "pwd"))
      (mkSession t r (at_ports p (bytes_of "arcadia> pwx" ++ [8; 32; 8; 100; 10]) (se_console w_session))).
Proof.
  destruct (round_serves_line (KB := unit) (λ _, []) [] 0 (w_jump 0x100000) w_session (bytes_of "pwx" ++ [8; 100]) 13 [108])
    as (t & r & p & Hrun & _ & _ & _ & _ & Hp).
  - apply Scancodes_new_wf.
  - reflexivity.
  - unfold is_eol. repeat constructor; cbn; lia.
  - left. reflexivity.
  - reflexivity.
  - exists t, r, p. split; [exact Hp|exact Hrun].
Defined.
