(* ===== verification/Interrupts.v ===== *)
(** * Interrupt descriptors, exceptions and the panic handler
    (kernel/src/arch/idt.rs, interrupts/mod.rs, panic.rs, serial.rs, vga_buffer.rs)

    The descriptor table as the kernel fills it, the handlers of the exceptions, what a
    panic prints, and the programming of the interrupt controllers. *)

From stdpp Require Import base numbers list gmap strings.
From S2P Require Import Prelude ByteStr Ports Regions FrameAllocator FrameSpec FrameInit Scancodes Time Vga Paging Process Gdt.

#[local] Open Scope Z_scope.
#[local] Open Scope rust_scope.

(** ** The table *)

Inductive Handler :=
  | DoubleFaultHandler
  | BreakpointHandler
  | PageFaultHandler
  | NmiHandler
  | TimerHandler
  | KeyboardHandler
  | SerialHandler
  | SyscallEntry.

(** A gate: its handler, the stack of the task state segment it switches to, and the
    least privileged ring that may raise it with [int]. *)
Record Gate := mkGate { gate_handler : Handler; gate_stack : option Z; gate_ring : Z }.

(** [entry.set_handler_fn(h)]: no stack switch, ring 0. *)
Definition set_handler_fn (h : Handler) : Gate := mkGate h None 0.
Definition set_stack_index (i : Z) (g : Gate) : Gate := mkGate (gate_handler g) (Some i) (gate_ring g).
Definition set_privilege_level (r : Z) (g : Gate) : Gate := mkGate (gate_handler g) (gate_stack g) r.

Definition IST_DF : Z := 0.
Definition IST_NMI : Z := 1.

(** The vectors of [breakpoint], [non_maskable_interrupt], [double_fault] and
    [page_fault] are those of the architecture. *)
Definition NMI_VECTOR : Z := 2.
Definition BREAKPOINT_VECTOR : Z := 3.
Definition DOUBLE_FAULT_VECTOR : Z := 8.
Definition PAGE_FAULT_VECTOR : Z := 14.

Definition IDT : gmap Z Gate :=
  let idt := ∅ in
  let idt := <[DOUBLE_FAULT_VECTOR := set_stack_index IST_DF (set_handler_fn DoubleFaultHandler)]> idt in
  let idt := <[BREAKPOINT_VECTOR := set_handler_fn BreakpointHandler]> idt in
  let idt := <[PAGE_FAULT_VECTOR := set_handler_fn PageFaultHandler]> idt in
  let idt := <[NMI_VECTOR := set_stack_index IST_NMI (set_handler_fn NmiHandler)]> idt in
  let idt := <[32 := set_handler_fn TimerHandler]> idt in
  let idt := <[33 := set_handler_fn KeyboardHandler]> idt in
  let idt := <[36 := set_handler_fn SerialHandler]> idt in
  <[0x80 := set_privilege_level 3 (set_handler_fn SyscallEntry)]> idt.

(** [idt::init]; the state is what the processor has loaded. *)
Definition idt_init : M (option (gmap Z Gate)) unit := put (Some IDT).

(** ** Output macros *)

(** The screen and the serial line behind [print!] and [serial_print!]; both run with
    interrupts disabled, which are restored afterwards. *)
Record Screen := mkScreen { sc_enabled : bool; sc_writer : Writer; sc_serial : list Z }.

(** The lazy initialiser of [WRITER], on the cells of the buffer. *)
Definition WRITER (cells : Buffer) : outcome Writer :=
  '(_, w) ← clear_screen (mkWriter 0 (ColorCode_new LightGreen Black) cells);
  mret w.

Definition without_interrupts (m : M Screen unit) : M Screen unit :=
  s ← get;
  _ ← modify (λ s, mkScreen false (sc_writer s) (sc_serial s));
  _ ← m;
  modify (λ t, mkScreen (sc_enabled s) (sc_writer t) (sc_serial t)).

Definition on_writer (m : M Writer unit) : M Screen unit := λ s,
  match m (sc_writer s) with
  | Ret (_, w) => Ret (tt, mkScreen (sc_enabled s) w (sc_serial s))
  | Panic => Panic
  | UB => UB
  | OutOfFuel => OutOfFuel
  end.

Definition vga_print (text : list Z) : M Screen unit := without_interrupts (on_writer (write_str text)).
Definition vga_println (text : list Z) : M Screen unit := vga_print (text ++ [10]).
Definition vga_clear_screen : M Screen unit := without_interrupts (on_writer clear_screen).

Definition serial_print (text : list Z) : M Screen unit :=
  without_interrupts (modify (λ s, mkScreen (sc_enabled s) (sc_writer s) (sc_serial s ++ text))).
Definition serial_println (text : list Z) : M Screen unit := serial_print (text ++ [10]).

(** ** Panics and exceptions *)

(** [panic_handler], up to the [hlt] loop it ends in. *)
Definition panic_handler (info : list Z) : M Screen unit :=
  _ ← modify (λ s, mkScreen false (sc_writer s) (sc_serial s));
  _ ← vga_println (bytes_of "[KERNEL PANIC]");
  _ ← vga_println info;
  _ ← serial_println (bytes_of "[KERNEL PANIC]");
  serial_println info.

(** What follows an exception: the interrupted code goes on, or the processor stops. *)
Inductive ExceptionEnd := Resumes | Stops.

Section Exceptions.

(** The formatted stack frame, page fault address and error code, and the text
    [PanicInfo] adds around a message, are those of the libraries. *)
Context (frame_text cr2_text code_text : list Z) (panic_info : list Z → list Z).

Definition breakpoint_handler : M Screen ExceptionEnd :=
  _ ← serial_println (bytes_of "EXCEPTION: BREAKPOINT" ++ [10] ++ frame_text);
  mret Resumes.

Definition double_fault_handler : M Screen ExceptionEnd :=
  _ ← panic_handler (panic_info (bytes_of "EXCEPTION: DOUBLE FAULT" ++ [10] ++ frame_text));
  mret Stops.

Definition nmi_handler : M Screen ExceptionEnd :=
  _ ← serial_println (bytes_of "EXCEPTION: NMI" ++ [10] ++ frame_text);
  mret Resumes.

Definition page_fault_handler : M Screen ExceptionEnd :=
  _ ← serial_println (bytes_of "EXCEPTION: PAGE FAULT");
  _ ← serial_println (bytes_of "Accessed Address: " ++ cr2_text);
  _ ← serial_println (bytes_of "Error Code: " ++ code_text);
  _ ← serial_println frame_text;
  _ ← panic_handler (panic_info (bytes_of "PAGE FAULT"));
  mret Stops.

End Exceptions.

(** ** The controllers *)

Definition PIC_2_OFFSET : Z := PIC_1_OFFSET + 8.
Definition PIC_1_MASK : Z := 0xFC.
Definition PIC_2_MASK : Z := 0xFF.

Section Controllers.
Context `{PortIO P} `{Pics P}.

(** [interrupts::init]: the timer, the controllers, the masks, and the interrupt flag. *)
Definition interrupts_init : M (Clock * P * bool) unit := λ s,
  let '(c, p, enabled) := s in
  match pit_init (c, p) with
  | Ret (_, (c, p)) =>
      match (_ ← pics_initialize; _ ← outb 0x21 PIC_1_MASK; outb 0xA1 PIC_2_MASK) p with
      | Ret (_, p) => Ret (tt, (c, p, true))
      | Panic => Panic
      | UB => UB
      | OutOfFuel => OutOfFuel
      end
  | Panic => Panic
  | UB => UB
  | OutOfFuel => OutOfFuel
  end.

End Controllers.

(** ** How the processor uses them *)

(** [int v] in ring [cpl]: the gate it enters, when it may. *)
Definition int_gate (cpl v : Z) : option Gate :=
  g ← IDT !! v; if decide (cpl ≤ gate_ring g) then Some g else None.

(** The stack an interrupt starts on: the one the gate names; otherwise that of the task
    state segment for ring 0, coming from ring 3; otherwise the current one. *)
Definition entry_stack (tss : Tss) (cpl rsp : Z) (g : Gate) : Z :=
  match gate_stack g with
  | Some i => if i =? 0 then interrupt_stack_0 tss else interrupt_stack_1 tss
  | None => if cpl =? 3 then privilege_stack_0 tss else rsp
  end.

(** An interrupt line of the first controller that the mask lets through. *)
Definition line_enabled (mask n : Z) : Prop := 0 ≤ n < 8 ∧ Z.testbit mask n = false.

(** The gates of the table. *)
Lemma idt_gates v g :
  IDT !! v = Some g →
  (v = 0x80 ∧ g = mkGate SyscallEntry None 3) ∨
  (gate_ring g = 0 ∧
   (v = DOUBLE_FAULT_VECTOR ∨ v = NMI_VECTOR ∨ gate_stack g = None)).
Proof.
  unfold IDT. intros Hg.
  repeat (apply lookup_insert_Some in Hg as [[<- <-]|[_ Hg]]; [(by left) || (right; cbn; tauto)|]).
  by rewrite lookup_empty in Hg.
Qed.

(** C39. The interrupts are wired. The only gate that user code can enter with [int] is that
    of the system calls. Every interrupt line that the mask leaves enabled has a gate at the vector
    of its controller, and the gates of the timer, the keyboard and the serial line are at
    the vectors their handlers acknowledge. Double faults and non-maskable interrupts
    run on the stacks that [gdt::init] sets, in whatever state the interrupted code left
    its own stack; below their tops are 20 KiB of memory that the frame allocator never
    hands out, and every other interrupt of user code runs on the stack of its process. *)
Theorem interrupts_wired `{!VirtAddrApi} `{!VirtAddrLaws _} `{GdtLaws G} tss rsp n :
  2 ^ 21 / 4096 ≤ n →
  (∀ v g, int_gate 3 v = Some g ↔ v = 0x80 ∧ g = mkGate SyscallEntry None 3) ∧
  (∀ l, line_enabled PIC_1_MASK l → is_Some (IDT !! (PIC_1_OFFSET + l))) ∧
  (gate_handler <$> IDT !! as_u8 Timer) = Some TimerHandler ∧
  (gate_handler <$> IDT !! as_u8 Keyboard) = Some KeyboardHandler ∧
  (gate_handler <$> IDT !! as_u8 Serial1) = Some SerialHandler ∧
  ∃ tss' segs df nmi, gdt_init (G := G) tss = Ret (tss', segs) ∧
    IDT !! DOUBLE_FAULT_VECTOR = Some df ∧ gate_handler df = DoubleFaultHandler ∧
    IDT !! NMI_VECTOR = Some nmi ∧ gate_handler nmi = NmiHandler ∧
    (∀ cpl, entry_stack tss' cpl rsp df = 0x65000 ∧ entry_stack tss' cpl rsp nmi = 0x6A000) ∧
    (∀ a, 0x60000 ≤ a < 0x6A000 → a / 4096 ∈ standard_frames n) ∧
    (∀ v g, IDT !! v = Some g → v ≠ DOUBLE_FAULT_VECTOR → v ≠ NMI_VECTOR →
       entry_stack tss' 3 rsp g = privilege_stack_0 tss).
Proof.
  intros Hn. split; [|split].
  - intros v g. unfold int_gate. split.
    + destruct (IDT !! v) as [g'|] eqn:Hv; [|done]. cbn [mbind option_bind].
      case_decide; [|done]. intros [= <-].
      destruct (idt_gates v g' Hv) as [?|[Hr _]]; [done|lia].
    + intros [-> ->]. reflexivity.
  - intros l [Hl Hbit]. assert (l = 0 ∨ l = 1) as [->| ->]; [|by eexists..].
    assert (l ∈ range 0 8) as Hin by (apply elem_of_range; lia). clear Hl.
    repeat (apply elem_of_cons in Hin as [->|Hin]; [by auto|]). by apply elem_of_nil in Hin.
  - split_and!; [reflexivity..|].
    destruct (user_selectors_differ (G := G)) as (g & Hg & _).
    unfold gdt_init. rewrite !VirtAddr_new_ok by (left; lia). cbn [mbind outcome_bind]. rewrite Hg.
    eexists _, _, _, _. split; [reflexivity|]. split_and!; [reflexivity..|done| |].
    + intros a Ha. unfold standard_frames. rewrite elem_of_filter, elem_of_union, elem_of_block.
      change (2 ^ 21 / 4096) with 512 in Hn. split; [dlia|]. left. dlia.
    + intros v gv Hv Hdf Hnmi. unfold entry_stack. destruct (idt_gates v gv Hv) as [[-> ->]|[_ [?|[?| ->]]]]; done.
Qed.

(** ** A panic on the screen *)

Lemma vga_print_shows text s l :
  shows (sc_writer s) l →
  ∃ w, vga_print text s = Ret (tt, mkScreen (sc_enabled s) w (sc_serial s)) ∧
    shows w (foldl type_byte l (shown <$> text)).
Proof.
  intros Hs. destruct (write_str_shows text _ l Hs) as (w & Hrun & Hw & _). exists w. split; [|done].
  unfold vga_print, without_interrupts. rewrite bind_get, bind_modify.
  rewrite (bind_Ret _ _ _ tt (mkScreen false w (sc_serial s))); [done|].
  unfold on_writer. cbn [sc_writer]. by rewrite Hrun.
Qed.

Lemma serial_print_eq text s :
  serial_print text s = Ret (tt, mkScreen (sc_enabled s) (sc_writer s) (sc_serial s ++ text)).
Proof. done. Qed.

(** A page fault stops the kernel with interrupts disabled; the report goes to the serial
    line, and the text of the panic to the screen as well. *)
Theorem page_fault_stops frame cr2 code info s l :
  shows (sc_writer s) l →
  let msg := bytes_of "[KERNEL PANIC]" ++ [10] ++ info (bytes_of "PAGE FAULT") ++ [10] in
  ∃ w, page_fault_handler frame cr2 code info s =
    Ret (Stops, mkScreen false w (sc_serial s ++
      bytes_of "EXCEPTION: PAGE FAULT" ++ [10] ++ bytes_of "Accessed Address: " ++ cr2 ++ [10] ++
      bytes_of "Error Code: " ++ code ++ [10] ++ frame ++ [10] ++ msg)) ∧
    shows w (foldl type_byte l (shown <$> msg)).
Proof.
  intros Hs msg. unfold page_fault_handler, serial_println.
  do 4 (erewrite (bind_Ret (serial_print _)); [|apply serial_print_eq]). cbn [sc_enabled sc_writer sc_serial].
  unfold panic_handler, vga_println. rewrite bind_assoc, bind_modify. cbn [sc_enabled sc_writer sc_serial].
  match goal with |- context [mkScreen false (sc_writer s) ?o] => set (o1 := o) end.
  destruct (vga_print_shows (bytes_of "[KERNEL PANIC]" ++ [10]) (mkScreen false (sc_writer s) o1) l Hs) as (w1 & H1 & Hs1).
  destruct (vga_print_shows (info (bytes_of "PAGE FAULT") ++ [10]) (mkScreen false w1 o1) _ Hs1) as (w2 & H2 & Hs2).
  rewrite bind_assoc, (bind_Ret _ _ _ _ _ H1). cbn [sc_enabled sc_serial].
  rewrite bind_assoc, (bind_Ret _ _ _ _ _ H2). cbn [sc_enabled sc_serial].
  unfold serial_println. rewrite bind_assoc. do 2 (erewrite (bind_Ret (serial_print _)); [|apply serial_print_eq]).
  cbn [sc_enabled sc_writer sc_serial]. exists w2. split.
  - unfold o1, msg. by rewrite <- !app_assoc.
  - unfold msg. rewrite <- foldl_app, <- fmap_app in Hs2. by rewrite <- app_assoc in Hs2.
Qed.
