(* ===== verification/Serial.v ===== *)
(** * The serial port of the kernel (kernel/src/serial.rs)

    [SERIAL1], initialised by its first use, and [_print], over the driver of the crate
    uart_16550; they refine the serial output of the handlers' view of the screen. *)

From stdpp Require Import base numbers list gmap strings.
From S2P Require Import Prelude ByteStr Vga Interrupts.

#[local] Open Scope Z_scope.
#[local] Open Scope rust_scope.

(** The crate: [SerialPort::new(base)], [init] and [write_fmt], on devices [P]. *)
Class Uart (P : Type) := {
  SerialPort : Type;
  SerialPort_new : Z → SerialPort;
  serial_init : SerialPort → M P SerialPort;
  serial_write_fmt : list Z → SerialPort → M P (result unit unit * SerialPort);
}.

(** [SERIAL1], the interrupt flag and the devices. *)
Record Serial (P : Type) `{Uart P} := mkSerial { SERIAL1 : option SerialPort; s_enabled : bool; s_ports : P }.
Arguments mkSerial {P _} _ _ _.
Arguments SERIAL1 {P _} _.
Arguments s_enabled {P _} _.
Arguments s_ports {P _} _.

Section Serial.
Context `{Uart P}.

Definition on_devices {A} (m : M P A) : M (Serial P) A := λ s,
  match m (s_ports s) with
  | Ret (a, p) => Ret (a, mkSerial (SERIAL1 s) (s_enabled s) p)
  | Panic => Panic
  | UB => UB
  | OutOfFuel => OutOfFuel
  end.

Definition COM_PORTS : list Z := [0x3F8; 0x2F8; 0x3E8; 0x2E8].

(** The loop over the addresses, with its [break] at the end of the first round. *)
Definition probe_ports (ports : list Z) (found_port : Z) : M P Z :=
  match ports with
  | [] => mret found_port
  | port_addr :: _ =>
      _ ← serial_init (SerialPort_new port_addr);
      mret port_addr
  end.

(** The initialiser of [SERIAL1]: a second driver object, for the port found. *)
Definition serial1_new : M P SerialPort :=
  found_port ← probe_ports COM_PORTS 0x3F8;
  mret (SerialPort_new found_port).

(** [SERIAL1.lock()] *)
Definition serial1 : M (Serial P) SerialPort :=
  s ← get;
  match SERIAL1 s with
  | Some port => mret port
  | None =>
      port ← on_devices serial1_new;
      _ ← modify (λ s, mkSerial (Some port) (s_enabled s) (s_ports s));
      mret port
  end.

Definition set_flag (b : bool) : M (Serial P) unit := modify (λ s, mkSerial (SERIAL1 s) b (s_ports s)).

(** [interrupts::without_interrupts] *)
Definition serial_without_interrupts (m : M (Serial P) unit) : M (Serial P) unit :=
  s ← get;
  _ ← (if s_enabled s then set_flag false else mret tt);
  _ ← m;
  if s_enabled s then set_flag true else mret tt.

(** [SERIAL1.lock().write_fmt(args).unwrap()] *)
Definition write_locked (text : list Z) : M (Serial P) unit :=
  port ← serial1;
  r ← on_devices (serial_write_fmt text port);
  _ ← modify (λ s, mkSerial (Some r.2) (s_enabled s) (s_ports s));
  match r.1 with
  | Ok _ => mret tt
  | Err _ => liftO Panic
  end.

Definition _print (text : list Z) : M (Serial P) unit := serial_without_interrupts (write_locked text).

End Serial.

(** What the crate sends for a text, byte by byte: a backspace or a delete erases the
    character on the other side. *)
Definition on_wire (text : list Z) : list Z :=
  text ≫= λ b, if (b =? 8) || (b =? 0x7F) then [8; 32; 8] else [b].

Lemma on_wire_app s t : on_wire (s ++ t) = on_wire s ++ on_wire t.
Proof. apply bind_app. Qed.

(** The documented behaviour: [transmitted p base] is what left the port at [base]. A driver
    object knows its base; [init] sends nothing, and after it writing sends the text. *)
Class UartLaws (P : Type) `{Uart P} := {
  base_of : SerialPort → Z;
  transmitted : P → Z → list Z;
  configured : P → Z → Prop;
  base_of_new : ∀ b, base_of (SerialPort_new b) = b;
  init_ok : ∀ port p, ∃ port' p', serial_init port p = Ret (port', p') ∧ base_of port' = base_of port ∧
    (∀ b, transmitted p' b = transmitted p b) ∧ configured p' (base_of port) ∧
    (∀ b, b ≠ base_of port → configured p' b ↔ configured p b);
  write_ok : ∀ text port p, configured p (base_of port) →
    ∃ port' p', serial_write_fmt text port p = Ret ((Ok tt, port'), p') ∧ base_of port' = base_of port ∧
      (∀ b, configured p' b ↔ configured p b) ∧
      ∀ b, transmitted p' b = transmitted p b ++ (if decide (b = base_of port) then on_wire text else []);
}.

Section Theorems.
Context `{UartLaws P}.

(** [SERIAL1] is not initialised yet, or drives the first port, which is configured. *)
Definition serial_ok (s : Serial P) : Prop :=
  match SERIAL1 s with None => True | Some port => base_of port = 0x3F8 ∧ configured (s_ports s) 0x3F8 end.

Lemma serial1_ok s :
  serial_ok s →
  ∃ port s', serial1 s = Ret (port, s') ∧ base_of port = 0x3F8 ∧ configured (s_ports s') 0x3F8 ∧
    s_enabled s' = s_enabled s ∧ (∀ b, transmitted (s_ports s') b = transmitted (s_ports s) b) ∧
    (∀ b, b ≠ 0x3F8 → configured (s_ports s') b ↔ configured (s_ports s) b).
Proof.
  intros Hs. unfold serial1. rewrite bind_get. unfold serial_ok in Hs. destruct (SERIAL1 s) as [port|].
  - destruct Hs as [Hb Hc]. exists port, s. by split_and!.
  - destruct (init_ok (SerialPort_new 0x3F8) (s_ports s)) as (port' & p' & Hr & _ & Ht & Hc & Ho).
    rewrite base_of_new in Hc, Ho.
    assert (Hn : serial1_new (s_ports s) = Ret (SerialPort_new 0x3F8, p')).
    { unfold serial1_new, probe_ports, COM_PORTS. by rewrite bind_assoc, (bind_Ret _ _ _ _ _ Hr). }
    eexists (SerialPort_new 0x3F8), _. split; [|split; [apply base_of_new|]].
    + erewrite bind_Ret; [|unfold on_devices; rewrite Hn; reflexivity]. reflexivity.
    + cbn [s_ports s_enabled]. by split_and!.
Qed.

(** What [_print] does, from a state before or after the first use: the text leaves the first
    serial port, after the port was configured once; the other ports see nothing, whatever
    the loop over four addresses suggests; the interrupt flag is as before. *)
Theorem serial_print_sends text s :
  serial_ok s →
  ∃ s', _print text s = Ret (tt, s') ∧ serial_ok s' ∧ is_Some (SERIAL1 s') ∧ s_enabled s' = s_enabled s ∧
    transmitted (s_ports s') 0x3F8 = transmitted (s_ports s) 0x3F8 ++ on_wire text ∧
    ∀ b, b ≠ 0x3F8 → transmitted (s_ports s') b = transmitted (s_ports s) b ∧
      (configured (s_ports s') b ↔ configured (s_ports s) b).
Proof.
  intros Hs. unfold _print, serial_without_interrupts. rewrite bind_get.
  set (s0 := mkSerial (SERIAL1 s) false (s_ports s)).
  assert (Hflag : (if s_enabled s then set_flag false else mret tt) s = Ret (tt, s0)).
  { unfold s0. destruct s as [o [] p]; done. }
  rewrite (bind_Ret _ _ _ _ _ Hflag).
  destruct (serial1_ok s0 Hs) as (port & s1 & Hr & Hb & Hc & He & Ht & Ho).
  destruct (write_ok text port (s_ports s1)) as (port' & p' & Hw & Hb' & Hc' & Ht'); [by rewrite Hb|].
  assert (Hwl : write_locked text s0 = Ret (tt, mkSerial (Some port') (s_enabled s1) p')).
  { unfold write_locked. rewrite (bind_Ret _ _ _ _ _ Hr).
    erewrite bind_Ret; [|unfold on_devices; rewrite Hw; reflexivity]. reflexivity. }
  rewrite (bind_Ret _ _ _ _ _ Hwl). exists (mkSerial (Some port') (s_enabled s) p').
  split.
  { rewrite He. cbn [s_enabled s0]. by destruct (s_enabled s). }
  unfold serial_ok. cbn [SERIAL1 s_ports s_enabled]. rewrite Hb in Ht'. split_and!.
  - by rewrite Hb'.
  - by apply Hc'.
  - done.
  - done.
  - by rewrite Ht', Ht, decide_True.
  - intros b Hne. by rewrite Ht', Ht, decide_False, app_nil_r, Hc', Ho by done.
Qed.

(** The screen that the handlers print to stands for this port: what left the port since
    [before] is what the crate sends for the text printed so far. *)
Definition screen_view (before : list Z) (sc : Screen) (s : Serial P) : Prop :=
  serial_ok s ∧ sc_enabled sc = s_enabled s ∧ transmitted (s_ports s) 0x3F8 = before ++ on_wire (sc_serial sc).

(** [Interrupts.serial_print] is [_print] seen through [screen_view]. *)
Theorem serial_print_refines before text sc s :
  screen_view before sc s →
  ∃ sc' s', _print text s = Ret (tt, s') ∧ Interrupts.serial_print text sc = Ret (tt, sc') ∧
    screen_view before sc' s'.
Proof.
  intros (Hs & He & Ht). destruct (serial_print_sends text s Hs) as (s' & Hr & Hok & _ & He' & Ht' & _).
  exists (mkScreen (sc_enabled sc) (sc_writer sc) (sc_serial sc ++ text)), s'.
  split; [done|]. split; [by destruct sc as [[] ? ?]|].
  split; [done|]. split; [by rewrite He'|]. cbn [sc_serial]. by rewrite Ht', Ht, on_wire_app, app_assoc.
Qed.

End Theorems.

(** ** Four ports that log what they send *)

Record Com := mkCom { com_sent : Z → list Z; com_ready : Z → bool }.

#[export] Instance com_uart : Uart Com := {
  SerialPort := Z;
  SerialPort_new b := b;
  serial_init b c := Ret (b, mkCom (com_sent c) (λ x, if decide (x = b) then true else com_ready c x));
  serial_write_fmt text b c :=
    Ret ((Ok tt, b), mkCom (λ x, com_sent c x ++ (if decide (x = b) then on_wire text else [])) (com_ready c));
}.

#[export] Program Instance com_laws : UartLaws Com := {
  base_of b := b;
  transmitted := com_sent;
  configured c b := com_ready c b = true;
}.
Next Obligation. done. Qed.
Next Obligation.
  intros b c. eexists _, _. split; [reflexivity|]. split_and!; [done|done|cbn; by rewrite decide_True|].
  intros x Hx. cbn. by rewrite decide_False.
Qed.
Next Obligation. intros text b c _. eexists _, _. split; [reflexivity|]. by split_and!. Qed.

(** The first message configures the first port and leaves by it. *)
Example serial_first :
  match _print (bytes_of "Hi") (mkSerial None true (mkCom (λ _, []) (λ _, false))) with
  | Ret (_, s) => (s_enabled s, com_sent (s_ports s) <$> COM_PORTS, com_ready (s_ports s) <$> COM_PORTS)
  | _ => (false, [], [])
  end = (true, [bytes_of "Hi"; []; []; []], [true; false; false; false]).
Proof. reflexivity. Qed.
