(* ===== verification/Answers.v ===== *)
(** * Computations on ports that always answer

    A port access of real hardware always completes, with some value. The initialisation
    code only reads ports a bounded number of times and never indexes by what it reads, so
    it completes whatever the answers are. *)

From stdpp Require Import base numbers list gmap strings.
From S2P Require Import Prelude ByteStr Text Ports Ata Pci Boot Time.

#[local] Open Scope Z_scope.
#[local] Open Scope rust_scope.

(** Ports whose accesses complete, and interrupt controllers whose programming does. *)
Class PortsAnswer (P : Type) `{PortIO P} := {
  inb_answers : ∀ port p, ∃ v p', inb port p = Ret (v, p');
  outb_answers : ∀ port v p, ∃ p', outb port v p = Ret (tt, p');
  inw_answers : ∀ port p, ∃ v p', inw port p = Ret (v, p');
  outw_answers : ∀ port v p, ∃ p', outw port v p = Ret (tt, p');
  inl_answers : ∀ port p, ∃ v p', inl port p = Ret (v, p');
  outl_answers : ∀ port v p, ∃ p', outl port v p = Ret (tt, p');
}.

Class PicsAnswer (P : Type) `{Pics P} := {
  pics_initialize_answers : ∀ p, ∃ p', pics_initialize p = Ret (tt, p');
}.

(** [m] completes from every state, with a value in [Q]. *)
Definition answers_with {S A} (m : M S A) (Q : A → Prop) : Prop := ∀ s, ∃ a s', m s = Ret (a, s') ∧ Q a.
Abbreviation answers m := (answers_with m (λ _, True)).

Create HintDb answers.
#[export] Hint Constants Opaque : answers.

Section Rules.
Context {S : Type}.

Lemma answers_ret {A} (a : A) (Q : A → Prop) : Q a → answers_with (S := S) (mret a) Q.
Proof. intros Ha s. by exists a, s. Qed.

Lemma answers_bind {A B} (m : M S A) (k : A → M S B) Q R :
  answers_with m Q → (∀ a, Q a → answers_with (k a) R) → answers_with (m ≫= k) R.
Proof.
  intros Hm Hk s. destruct (Hm s) as (a & s1 & H1 & Ha). destruct (Hk a Ha s1) as (b & s2 & H2 & Hb).
  exists b, s2. by rewrite (bind_Ret _ _ _ _ _ H1).
Qed.

Lemma answers_then {A B} (m : M S A) (k : A → M S B) R :
  answers m → (∀ a, answers_with (k a) R) → answers_with (m ≫= k) R.
Proof. intros Hm Hk. apply (answers_bind _ _ _ _ Hm). auto. Qed.

Lemma answers_weaken {A} (m : M S A) (Q R : A → Prop) :
  answers_with m Q → (∀ a, Q a → R a) → answers_with m R.
Proof. intros Hm HR s. destruct (Hm s) as (a & s' & ? & ?). exists a, s'. auto. Qed.

Lemma answers_liftO {A B} (o : outcome A) a (k : A → M S B) R :
  o = Ret a → answers_with (k a) R → answers_with (liftO o ≫= k) R.
Proof. intros -> Hk s. exact (Hk s). Qed.

Lemma answers_mfor {A} (l : list A) (body : A → M S unit) :
  (∀ x, x ∈ l → answers (body x)) → answers (mfor l body).
Proof.
  induction l as [|x l IH]; intros Hb; [by apply answers_ret|]. cbn [mfor].
  apply answers_then; [apply Hb; by left|]. intros _. apply IH. intros y Hy. apply Hb. by right.
Qed.

Lemma answers_if {A} (b : bool) (m k : M S A) Q :
  answers_with m Q → answers_with k Q → answers_with (if b then m else k) Q.
Proof. by destruct b. Qed.

End Rules.

(** Walk a computation, a step at a time. *)
Ltac answer :=
  repeat match goal with
    | |- answers_with (_ ≫= _) _ => apply answers_then; [|intros ?; cbn beta]
    | |- answers_with (if _ then _ else _) _ => apply answers_if
    | |- answers_with (mret _) _ => apply answers_ret; exact I
    | |- answers_with _ _ => solve [auto with answers nocore]
    end.

(** ** The initialisation of the devices *)

Section Devices.
Context `{PortsAnswer P}.

Lemma inb_answer port : answers (inb (P := P) port).
Proof. intros p. destruct (inb_answers port p) as (v & p' & ?). by exists v, p'. Qed.
Lemma outb_answer port v : answers (outb (P := P) port v).
Proof. intros p. destruct (outb_answers port v p) as (p' & ?). by exists tt, p'. Qed.
Lemma inw_answer port : answers (inw (P := P) port).
Proof. intros p. destruct (inw_answers port p) as (v & p' & ?). by exists v, p'. Qed.
Lemma inl_answer port : answers (inl (P := P) port).
Proof. intros p. destruct (inl_answers port p) as (v & p' & ?). by exists v, p'. Qed.
Lemma outl_answer port v : answers (outl (P := P) port v).
Proof. intros p. destruct (outl_answers port v p) as (p' & ?). by exists tt, p'. Qed.
#[local] Hint Resolve inb_answer outb_answer inw_answer inl_answer outl_answer : answers.

(** The early serial output. *)
Lemma wait_answer n : answers (wait_transmit (P := P) n).
Proof. induction n; cbn [wait_transmit]; answer. Qed.
#[local] Hint Resolve wait_answer : answers.

Lemma write_answer b : answers (early_serial_write (P := P) b).
Proof. unfold early_serial_write. answer. Qed.
#[local] Hint Resolve write_answer : answers.

Lemma print_answer s : answers (early_serial_print (P := P) s).
Proof. apply answers_mfor. intros b _. answer. Qed.
#[local] Hint Resolve print_answer : answers.

Lemma say_answer l : answers (mfor l (early_serial_print (P := P))).
Proof. apply answers_mfor. intros s _. apply print_answer. Qed.

Lemma reversed_answer (l rest : list Z) : answers (write_reversed (P := P) (zlen l) (l ++ rest)).
Proof.
  apply answers_mfor. intros j Hj. rewrite list_elem_of_In, <- in_rev, <- list_elem_of_In, elem_of_range in Hj.
  eapply answers_liftO; [|apply write_answer].
  apply zget_total. rewrite zlen_app. pose proof (zlen_nonneg rest). lia.
Qed.

Lemma number_answer low next b val cap :
  2 ≤ b → (∀ v, 0 ≤ v → low v = digit_char (v mod b) ∧ next v = v / b) →
  0 < val < 2 ^ 64 → 2 ^ 64 ≤ b ^ cap → 1 ≤ cap →
  answers ('(i, buf) ← liftO (fill_digits low next 64 val 0 (zrepeat cap 0)); write_reversed (P := P) i buf).
Proof.
  intros Hb Hstep Hv Hcap Hc. pose proof (pow_64 b Hb).
  destruct (fill_digits_spec low next b Hb Hstep 64 val [] (zrepeat cap 0)) as (rest & Hr); [lia| |].
  - rewrite zlen_repeat by lia. replace cap with (Z.of_nat (Z.to_nat cap)) by lia.
    apply digits_acc_length; [done| |lia]. rewrite Z2Nat.id by lia. lia.
  - eapply answers_liftO; [exact Hr|]. change (zlen []) with 0. cbn beta match. cbn [app]. set (l := rev _).
    replace (0 + _) with (zlen l); [apply reversed_answer|].
    unfold l, zlen. by rewrite length_rev, length_fmap.
Qed.

Lemma write_hex_answer v : 0 ≤ v < 2 ^ 64 → answers (early_serial_write_hex (P := P) v).
Proof.
  intros Hv. unfold early_serial_write_hex. destruct (Z.eqb_spec v 0); [apply write_answer|].
  apply (number_answer _ _ 16); [lia|apply hex_low_spec|lia..].
Qed.

Lemma write_dec_answer v : 0 ≤ v < 2 ^ 64 → answers (early_serial_write_dec (P := P) v).
Proof.
  intros Hv. unfold early_serial_write_dec. destruct (Z.eqb_spec v 0); [apply write_answer|].
  apply (number_answer _ _ 10); [lia|apply dec_low_spec|lia..].
Qed.

Lemma progress_serial_answer phase pct : answers (progress_serial (P := P) phase pct).
Proof. unfold progress_serial. answer. apply answers_mfor. intros i _. answer. Qed.

(** The PCI scan. *)
Lemma pci_u16_answer b d f o : answers (pci_read_u16 (P := P) b d f o).
Proof. unfold pci_read_u16. answer. Qed.
Lemma pci_u32_answer b d f o : answers (pci_read_u32 (P := P) b d f o).
Proof. unfold pci_read_u32. answer. Qed.
Lemma pci_u8_answer b d f o : answers (pci_read_u8 (P := P) b d f o).
Proof. unfold pci_read_u8. answer. Qed.
#[local] Hint Resolve pci_u16_answer pci_u32_answer pci_u8_answer : answers.

Lemma pci_new_answer b d f : answers (PciDevice_new (P := P) b d f).
Proof. unfold PciDevice_new. answer. Qed.
#[local] Hint Resolve pci_new_answer : answers.

Lemma push_found_answer l probe devices :
  (∀ x, answers (probe x)) → answers (push_found (P := P) l probe devices).
Proof.
  intros Hp. revert devices. induction l as [|x l IH]; intros devices; cbn [push_found]; [by apply answers_ret|].
  apply answers_then; [apply Hp|]. intros o. apply IH.
Qed.

Lemma scan_device_answer b d devices : answers (scan_device (P := P) b d devices).
Proof.
  unfold scan_device. apply answers_then; [auto with answers|]. intros [dev|]; [|by apply answers_ret].
  cbv zeta. answer; apply push_found_answer; auto with answers.
Qed.

Lemma scan_pci_answer : answers (scan_pci_bus (P := P)).
Proof.
  unfold scan_pci_bus. generalize (@nil PciDevice).
  induction (range 0 256 ≫= _) as [|[b d] l IH]; intros devices; cbn [scan_devices]; [by apply answers_ret|].
  apply answers_then; [apply scan_device_answer|]. intros ?. apply IH.
Qed.

(** The probing of the drives. *)
Lemma delay_answer ch : answers (delay_400ns (P := P) ch).
Proof. apply answers_mfor. intros i _. unfold read_alt_status. answer. Qed.
#[local] Hint Resolve delay_answer : answers.

Lemma reset_answer ch : answers (software_reset (P := P) ch).
Proof. unfold software_reset, write_control. answer. Qed.

Lemma poll_answer ch n done_ : answers (poll_loop (P := P) ch n done_).
Proof.
  induction n as [|n IH]; cbn [poll_loop]; [by apply answers_ret|].
  apply answers_then; [apply inb_answer|]. intros status.
  destruct (done_ status); [by apply answers_ret|apply IH].
Qed.

Lemma read_words_answer ch n : answers_with (read_words (P := P) ch n) (λ l, zlen l = Z.of_nat n).
Proof.
  induction n as [|n IH]; cbn [read_words]; [by apply answers_ret|].
  apply answers_then; [apply inw_answer|]. intros w. eapply answers_bind; [exact IH|].
  intros l Hl. cbn beta in Hl. apply answers_ret. rewrite zlen_cons. lia.
Qed.

Lemma extract_words_ok data idx :
  (∀ i, i ∈ idx → 0 ≤ i < zlen data) → ∃ l, extract_words data idx = Ret l.
Proof.
  induction idx as [|i idx IH]; intros Hi; [by eexists|]. cbn [extract_words].
  rewrite zget_total by (apply Hi; by left). destruct IH as (l & ->); [intros; apply Hi; by right|]. by eexists.
Qed.

Lemma extract_string_ok data a b : 0 ≤ a → b < zlen data → ∃ l, extract_string data a b = Ret l.
Proof.
  intros Ha Hb. unfold extract_string. destruct (extract_words_ok data (range a (b + 1))) as (l & ->); [|by eexists].
  intros i Hi%elem_of_range. lia.
Qed.

Lemma identify_answer ch : answers (identify (P := P) ch).
Proof.
  unfold identify. eapply answers_bind; [apply read_words_answer|]. intros data Hd. cbn beta in Hd.
  apply answers_then; [apply poll_answer|]. intros [[]|e]; [|by apply answers_ret].
  destruct (extract_string_ok data 10 19) as (s & ->); [lia..|].
  destruct (extract_string_ok data 23 26) as (f & ->); [lia..|].
  destruct (extract_string_ok data 27 46) as (m & ->); [lia..|].
  rewrite !zget_total by lia.
  repeat (eapply answers_liftO; [reflexivity|]). by apply answers_ret.
Qed.

Lemma probe_answer ch slave : answers (probe_device (P := P) ch slave).
Proof.
  unfold probe_device, select_device, write_reg, read_reg, poll_bsy, poll_drq. answer.
  - apply answers_mfor. intros r _. answer.
  - apply poll_answer.
  - case_match; answer; [apply poll_answer|]. case_match; answer. apply identify_answer.
Qed.

Lemma ata_init_answer d : answers (AtaDriver_init (P := P) d).
Proof.
  unfold AtaDriver_init. apply answers_then; [|intros [[[pm ps] sm] ss]; answer].
  unfold probe_all. answer; (apply reset_answer || apply probe_answer).
Qed.

(** The timer. *)
Lemma pit_init_answer : answers (pit_init (P := P)).
Proof.
  intros [c p]. unfold pit_init. destruct (PIT_INITIALIZED c); [by eexists _, _|].
  assert (Ho : answers (_ ← outb (P := P) PIT_COMMAND_PORT 0x34;
    _ ← outb PIT_CHANNEL0_PORT (wrap 8 (Z.land (wrap 16 PIT_DIVISOR) 255));
    outb PIT_CHANNEL0_PORT (wrap 8 (Z.land (Z.shiftr (wrap 16 PIT_DIVISOR) 8) 255)))) by answer.
  destruct (Ho p) as ([] & p' & Hp & _). rewrite Hp. by eexists _, _.
Qed.

End Devices.
