(* ===== verification/AtaInit.v ===== *)
(** * Initialisation finds the drive (kernel/src/drivers/ata/mod.rs, [init])

    On a machine whose primary master is a drive that answers IDENTIFY, and whose other
    ports have nothing to do with it, the driver comes up with that drive, when the drive is
    done with its reset by the time the driver addresses it, and without it when it is
    not: the driver does not wait. The first part is a logic of what a computation leaves
    alone, which the boot uses too. *)

From stdpp Require Import base numbers list gmap strings fin_maps.
From S2P Require Import Prelude ByteStr Text Block Ports Ata AtaSpec AtaTheorems Pci Boot Time Answers.

#[local] Open Scope Z_scope.
#[local] Open Scope rust_scope.

(** ** What a computation leaves alone *)

(** Whenever [m] completes, what [obs] sees of the state is as before. *)
Definition spares {S X A} (obs : S → X) (m : M S A) : Prop := ∀ s a s', m s = Ret (a, s') → obs s' = obs s.

Create HintDb spares.
#[export] Hint Constants Opaque : spares.

Section Spares.
Context {S X : Type} (obs : S → X).

Lemma bind_inv {A B} (m : M S A) (k : A → M S B) s b s' :
  (m ≫= k) s = Ret (b, s') → ∃ a s1, m s = Ret (a, s1) ∧ k a s1 = Ret (b, s').
Proof. unfold mbind, M_bind. destruct (m s) as [[a s1]| | |]; [|done..]. by exists a, s1. Qed.

Lemma spares_ret {A} (a : A) : spares obs (mret a).
Proof. by intros s ? ? [= _ <-]. Qed.

Lemma spares_bind {A B} (m : M S A) (k : A → M S B) :
  spares obs m → (∀ a, spares obs (k a)) → spares obs (m ≫= k).
Proof.
  intros Hm Hk s b s' (a & s1 & H1 & H2)%bind_inv. by rewrite (Hk _ _ _ _ H2), (Hm _ _ _ H1).
Qed.

Lemma spares_get : spares obs get.
Proof. by intros s ? ? [= _ <-]. Qed.

Lemma spares_gets {A} (f : S → A) : spares obs (gets f).
Proof. by intros s ? ? [= _ <-]. Qed.

Lemma spares_modify f : (∀ s, obs (f s) = obs s) → spares obs (modify f).
Proof. intros Hf s ? ? [= _ <-]. apply Hf. Qed.

Lemma spares_liftO {A} (o : outcome A) : spares obs (liftO o).
Proof. intros s a s'. unfold liftO. destruct o; [|done..]. by intros [= _ <-]. Qed.

Lemma spares_if {A} (b : bool) (m k : M S A) : spares obs m → spares obs k → spares obs (if b then m else k).
Proof. by destruct b. Qed.

Lemma spares_mfor {A} (l : list A) (body : A → M S unit) : (∀ x, spares obs (body x)) → spares obs (mfor l body).
Proof.
  intros Hb. induction l as [|x l IH]; [apply spares_ret|]. cbn [mfor]. by apply spares_bind.
Qed.

End Spares.

(** Walk a computation, a step at a time. *)
Ltac spare :=
  repeat match goal with
    | |- spares _ (_ ≫= _) => apply spares_bind; [|intros ?; cbn beta]
    | |- spares _ (if _ then _ else _) => apply spares_if
    | |- spares _ (match ?x with _ => _ end) => destruct x
    | |- spares _ (mret _) => apply spares_ret
    | |- spares _ (liftO _) => apply spares_liftO
    | |- spares _ get => apply spares_get
    | |- spares _ (gets _) => apply spares_gets
    | |- spares _ (mfor _ _) => apply spares_mfor; intros ?; cbn beta
    | |- spares _ _ => solve [auto with spares nocore]
    end.

(** The ports of the drive's channel. *)
Definition drive_port (port : Z) : Prop := PRIMARY_BASE ≤ port ≤ PRIMARY_BASE + 7 ∨ port = PRIMARY_CONTROL.

(** The other ports do not reach the drive. *)
Class DriveAlone (P : Type) `{AtaHardware P} := {
  alone_inb : ∀ port, ¬ drive_port port → spares hw (inb (P := P) port);
  alone_outb : ∀ port v, ¬ drive_port port → spares hw (outb (P := P) port v);
  alone_inw : ∀ port, ¬ drive_port port → spares hw (inw (P := P) port);
  alone_inl : ∀ port, ¬ drive_port port → spares hw (inl (P := P) port);
  alone_outl : ∀ port v, ¬ drive_port port → spares hw (outl (P := P) port v);
}.

(** ** The probe of the drive *)

Section Probe.
Context `{AtaHardware P}.

Lemma read_words_spec (n : nat) ws h :
  length ws = n → hw_phase h = DataIn ws →
  hw_busy h = 0%nat → hruns (read_words primary n) h ws (set_phase (DataIn []) 0 h).
Proof.
  revert ws h. induction n as [|n IH]; intros ws h Hl Hph Hb; cbn [read_words].
  - apply nil_length_inv in Hl as ->. rewrite (set_phase_same h (DataIn [])) by done. apply hruns_ret.
  - destruct ws as [|w ws]; [done|]. eapply hruns_bind; [apply hruns_in|].
    rewrite (hw_data_in_word h w ws) by done.
    cbn [fst snd]. eapply hruns_bind; [apply (IH ws); [by injection Hl|done..]|]. apply hruns_ret.
Qed.

(** Polling for what never comes. *)
Lemma poll_stuck done_ n h :
  hw_busy h = 0%nat → done_ (hw_status h) = None → hruns (poll_loop primary n done_) h (Err Timeout) h.
Proof.
  intros Hb Hd. induction n as [|n IH]; cbn [poll_loop]; [apply hruns_ret|].
  eapply hruns_bind; [apply hruns_status|].
  assert (hw_poll h = h) as -> by (unfold hw_poll; rewrite Hb; destruct h; cbn in *; by subst).
  by rewrite Hd.
Qed.

Lemma hruns_control v h : hruns (write_control primary v) h tt (hw_control hw_reset_latency v h).
Proof. intros p <-. apply hw_outb_control. Qed.

(** The drive when the reset routine returns: it may still be busy. *)
Definition reset_hw (h : AtaHw) : AtaHw := mkHw 1 0 0 0 Idle (hw_reset_latency - 4) (hw_sectors h).

Lemma reset_spec h : hruns (software_reset primary) h tt (reset_hw h).
Proof.
  unfold software_reset. eapply hruns_bind; [apply hruns_control|]. eapply hruns_bind; [apply hruns_delay|].
  eapply hruns_bind; [apply hruns_control|]. apply hruns_delay.
Qed.

(** The registers that the probe writes. *)
Definition probed (head : Z) (h : AtaHw) : AtaHw := mkHw 0 0 0 head (hw_phase h) 0 (hw_sectors h).
Definition probe_head (slave : bool) : Z := if slave then 0xB0 else 0xA0.

Lemma hruns_cons_mfor {A} x (l : list A) (body : A → M P unit) h h1 h2 :
  hruns (body x) h tt h1 → hruns (mfor l body) h1 tt h2 → hruns (mfor (x :: l) body) h tt h2.
Proof. intros Hb Hl. cbn [mfor]. eapply hruns_bind; [exact Hb|exact Hl]. Qed.

(** A drive that is done with its reset after the delay of the selection misses the
    selection, but takes what follows. *)
Lemma probe_registers (slave : bool) h :
  hw_phase h ≠ Resetting → (hw_busy h ≤ 4)%nat →
  hruns (_ ← select_device primary slave; mfor (range 1 6) (λ r, write_reg primary r 0x00)) h tt
    (probed (if busy h then hw_head h else probe_head slave) h).
Proof.
  intros Hp Hb. unfold select_device. eapply hruns_bind; [eapply hruns_bind; [apply hruns_set; lia|apply hruns_delay]|].
  set (h1 := later 4 (hw_set 6 _ h)).
  assert (Hh1 : h1 = mkHw (hw_low h) (hw_mid h) (hw_high h) (if busy h then hw_head h else probe_head slave)
    (hw_phase h) 0 (hw_sectors h)).
  { unfold h1, hw_set. destruct (busy h); unfold later; cbn; by replace (hw_busy h - 4)%nat with 0%nat by lia. }
  rewrite Hh1. clear h1 Hh1. change (range 1 6) with [1; 2; 3; 4; 5].
  do 5 (eapply hruns_cons_mfor; [apply hruns_store; [lia|by split]|]). exact (hruns_ret tt _).
Qed.

(** One that is not misses everything. *)
Lemma probe_registers_missed (slave : bool) h :
  (4 < hw_busy h)%nat →
  hruns (_ ← select_device primary slave; mfor (range 1 6) (λ r, write_reg primary r 0x00)) h tt (later 4 h).
Proof.
  intros Hb. assert (Hset : ∀ r v h, 1 ≤ r ≤ 6 → hw_busy h ≠ 0%nat → hruns (write_reg primary r v) h tt h).
  { intros r v h' Hr Hn. assert (hw_set r v h' = h') as Hs; [|rewrite <- Hs at 2; by apply hruns_set].
    unfold hw_set, busy. by destruct (hw_phase h'), (hw_busy h'). }
  unfold select_device. eapply hruns_bind; [eapply hruns_bind; [apply Hset; lia|apply hruns_delay]|].
  change (range 1 6) with [1; 2; 3; 4; 5].
  do 5 (eapply hruns_cons_mfor; [apply Hset; [lia|cbn; lia]|]). exact (hruns_ret tt _).
Qed.

Lemma mid_high h b (k : M P AtaDeviceInfo) r h' :
  hw_mid h = 0 → hw_high h = 0 → hruns k h r h' →
  hruns (mid ← read_reg primary 4; high ← read_reg primary 5;
         if negb (mid =? 0) || negb (high =? 0) then mret b else k) h r h'.
Proof.
  intros Hm Hh Hk. eapply (hruns_bind _ _ _ 0 h).
  { intros p <-. unfold read_reg. rewrite reg_port by lia. destruct (hw_inb_mid p) as (p' & Hr & ?). exists p'. by rewrite Hr, Hm. }
  eapply (hruns_bind _ _ _ 0 h); [|exact Hk].
  intros p <-. unfold read_reg. rewrite reg_port by lia. destruct (hw_inb_high p) as (p' & Hr & ?). exists p'. by rewrite Hr, Hh.
Qed.

Lemma hruns_then {A} (m m' : M P unit) (k : M P A) h h1 b h2 :
  hruns (_ ← m; m') h tt h1 → hruns k h1 b h2 → hruns (_ ← m; _ ← m'; k) h b h2.
Proof.
  intros Hm Hk p Hp. destruct (Hm p Hp) as (p1 & Hr & Hp1). destruct (Hk p1 Hp1) as (p2 & Hr2 & Hp2).
  exists p2. split; [|done]. apply bind_inv in Hr as ([] & p0 & H0' & H1').
  by rewrite (bind_Ret _ _ _ _ _ H0'), (bind_Ret _ _ _ _ _ H1').
Qed.

(** What the words of IDENTIFY say of the drive. *)
Definition identified (d : AtaDeviceInfo) : Prop :=
  present d = true ∧ is_ata d = true ∧
  sectors_28 d = Z.lor (Z.shiftl (hw_identity !!! 61%nat) 16) (hw_identity !!! 60%nat) ∧
  lba48 d = any_bit (hw_identity !!! 83%nat) (Z.shiftl 1 10) ∧
  extract_string hw_identity 10 19 = Ret (serial d) ∧ extract_string hw_identity 23 26 = Ret (firmware d) ∧
  extract_string hw_identity 27 46 = Ret (model d).

Lemma identify_spec h :
  slave_selected h = false → hw_phase h = DataIn hw_identity → hw_busy h = 0%nat →
  ∃ d, hruns (identify primary) h d (set_phase (DataIn []) 0 h) ∧ identified d.
Proof.
  intros Hm0 Hph Hbusy. pose proof hw_identity_len as Hl.
  destruct (extract_string_ok hw_identity 10 19) as (s & Hs); [lia..|].
  destruct (extract_string_ok hw_identity 23 26) as (f & Hf); [lia..|].
  destruct (extract_string_ok hw_identity 27 46) as (m & Hm); [lia..|].
  eexists. split.
  - unfold identify. eapply hruns_bind; [apply (read_words_spec 256 hw_identity h); [unfold zlen in Hl; lia|done|done]|].
    eapply hruns_bind; [apply poll_not_busy_spec; [done|done|cbn; unfold POLL_TIMEOUT; lia]|]. cbn iota.
    eapply hruns_liftO; [exact Hs|]. eapply hruns_liftO; [exact Hf|]. eapply hruns_liftO; [exact Hm|].
    do 3 (eapply hruns_liftO; [apply zget_total; lia|]). apply hruns_ret.
  - unfold identified. cbn. by rewrite Hs, Hf, Hm.
Qed.

(** The master answers. *)
Lemma probe_master h :
  hw_phase h ≠ Resetting → (hw_busy h ≤ 4)%nat → slave_selected h = false →
  ∃ d h', hruns (probe_device primary false) h d h' ∧ identified d ∧ ready h' ∧ hw_sectors h' = hw_sectors h.
Proof.
  intros Hp Hb Hsel. pose proof hw_latency_ok as Hlat. pose proof hw_identity_len as Hl.
  destruct hw_identity as [|w ws] eqn:Hident; [done|].
  set (hd := if busy h then hw_head h else probe_head false).
  assert (Hhd : slave_selected (probed hd h) = false) by (unfold slave_selected, hd in *; cbn [hw_head probed]; by destruct (busy h)).
  set (h1 := set_phase (DataIn hw_identity) hw_latency (probed hd h)).
  set (h2 := set_phase (DataIn hw_identity) 0 (probed hd h)).
  destruct (identify_spec h2) as (d & Hid & Hd); [done|done|done|]. exists d, (set_phase (DataIn []) 0 h2). split; [|split; [exact Hd|by repeat split]].
  unfold probe_device. cbv zeta. eapply hruns_then; [by apply probe_registers|]. fold hd.
  eapply hruns_bind; [apply hruns_command|].
  assert (hw_command hw_latency hw_identity CMD_IDENTIFY_DRIVE (probed hd h) = h1) as ->.
  { unfold hw_command. rewrite Hhd. unfold busy. cbn [hw_busy hw_phase probed]. by destruct (hw_phase h). }
  eapply hruns_bind; [apply hruns_status|].
  assert (Hst : (hw_status h1 =? 0) = false).
  { destruct (decide (hw_latency = 0%nat)) as [Hz|Hz]; [|by rewrite hw_status_busy].
    assert (h1 = set_phase (hw_phase h1) 0 h1) as -> by (unfold h1; by rewrite Hz).
    rewrite hw_status_done by done. unfold h1. cbn [hw_phase set_phase]. by rewrite Hident. }
  rewrite Hst. unfold poll_bsy. eapply hruns_bind.
  { apply poll_spec; [done| |unfold h1, hw_poll; cbn; lia]. rewrite hw_status_done by done.
    unfold h1, hw_poll. cbn [hw_phase set_phase]. by rewrite Hident. }
  cbn iota. change (set_phase (hw_phase (hw_poll h1)) 0 (hw_poll h1)) with h2.
  apply mid_high; [done|done|].
  eapply hruns_bind; [apply poll_drq_spec; [done|by unfold h2; cbn; rewrite Hident|unfold h2, POLL_TIMEOUT; cbn; lia]|]. exact Hid.
Qed.

(** A drive that was still busy does not: it never has the data of the command it missed. *)
Lemma probe_missed h :
  hw_phase h = Idle → (4 < hw_busy h < POLL_TIMEOUT)%nat → slave_selected h = false → hw_mid h = 0 → hw_high h = 0 →
  hruns (probe_device primary false) h AtaDeviceInfo_new (set_phase Idle 0 h).
Proof.
  intros Hp Hb Hsel Hm Hh. unfold probe_device. cbv zeta. eapply hruns_then; [apply probe_registers_missed; lia|].
  assert (Hbl : hw_busy (later 4 h) ≠ 0%nat) by (cbn; lia).
  eapply hruns_bind; [apply hruns_command|].
  assert (hw_command hw_latency hw_identity CMD_IDENTIFY_DRIVE (later 4 h) = later 4 h) as ->.
  { unfold hw_command, busy. by destruct (hw_phase (later 4 h)), (hw_busy (later 4 h)). }
  eapply hruns_bind; [apply hruns_status|]. rewrite hw_status_busy by done. cbn [Z.eqb].
  assert (Hst : hw_status (set_phase Idle 0 h) = 0x50).
  { pose proof (hw_status_done h) as Hd. rewrite Hp in Hd. by apply Hd. }
  eapply hruns_bind.
  { apply poll_spec; [done| |cbn; lia]. cbn [hw_phase hw_poll later set_phase]. rewrite Hp.
    change (set_phase Idle 0 _) with (set_phase Idle 0 h). rewrite Hst. reflexivity. }
  cbn iota. cbn [hw_phase hw_poll later set_phase]. rewrite Hp. change (set_phase Idle 0 _) with (set_phase Idle 0 h).
  apply mid_high; [done|done|].
  eapply hruns_bind; [apply poll_stuck; [done|by rewrite Hst]|]. apply hruns_ret.
Qed.

(** There is no slave. *)
Lemma probe_slave h : ready h → hruns (probe_device primary true) h AtaDeviceInfo_new (probed 0xB0 h).
Proof.
  intros Hr. assert (Hr1 : ready (probed 0xB0 h)) by (split; [done|apply Hr]).
  unfold probe_device. cbv zeta. eapply hruns_then; [apply (probe_registers true); [apply Hr|destruct Hr; lia]|].
  rewrite (ready_busy _ Hr). change (probe_head true) with 0xB0. eapply hruns_bind; [apply hruns_command|].
  assert (Hst : hw_status (probed 0xB0 h) = 0) by (unfold hw_status; by rewrite (ready_busy _ Hr1)).
  assert (hw_command hw_latency hw_identity CMD_IDENTIFY_DRIVE (probed 0xB0 h) = probed 0xB0 h) as ->.
  { unfold hw_command. by rewrite (ready_busy _ Hr1). }
  eapply hruns_bind; [apply hruns_status|]. rewrite Hst. cbn [Z.eqb]. apply hruns_ret.
Qed.

End Probe.

(** ** The driver *)

Section Init.
Context `{DriveAlone P} `{!PortsAnswer P}.

Definition secondary : AtaChannel := mkChannel SECONDARY_BASE SECONDARY_CONTROL.

Lemma secondary_port r : 0 ≤ r ≤ 7 → ¬ drive_port (wrap 16 (base_port secondary + r)).
Proof.
  intros Hr. rewrite wrap_small by (cbn; unfold SECONDARY_BASE; lia).
  unfold drive_port, PRIMARY_BASE, PRIMARY_CONTROL. cbn. unfold SECONDARY_BASE. lia.
Qed.

Lemma spares_read_reg r : 0 ≤ r ≤ 7 → spares hw (read_reg (P := P) secondary r).
Proof. intros Hr. by apply alone_inb, secondary_port. Qed.

Lemma spares_write_reg r v : 0 ≤ r ≤ 7 → spares hw (write_reg (P := P) secondary r v).
Proof. intros Hr. by apply alone_outb, secondary_port. Qed.

Lemma secondary_control_port : ¬ drive_port SECONDARY_CONTROL.
Proof. unfold drive_port, PRIMARY_BASE, PRIMARY_CONTROL, SECONDARY_CONTROL. lia. Qed.

Lemma spares_delay : spares hw (delay_400ns (P := P) secondary).
Proof. unfold delay_400ns. spare. apply alone_inb, secondary_control_port. Qed.
#[local] Hint Resolve spares_delay : spares.

Lemma spares_reset : spares hw (software_reset (P := P) secondary).
Proof. unfold software_reset, write_control. spare; apply alone_outb, secondary_control_port. Qed.

Lemma spares_poll n done_ : spares hw (poll_loop (P := P) secondary n done_).
Proof.
  induction n as [|n IH]; cbn [poll_loop]; [apply spares_ret|].
  apply spares_bind; [by apply spares_read_reg|]. intros st. destruct (done_ st); [apply spares_ret|exact IH].
Qed.
#[local] Hint Resolve spares_poll : spares.

Lemma spares_identify : spares hw (identify (P := P) secondary).
Proof.
  assert (Hw : ∀ n, spares hw (read_words (P := P) secondary n)).
  { induction n as [|n IH]; cbn [read_words]; [apply spares_ret|].
    apply spares_bind; [|intros w; apply spares_bind; [exact IH|intros l; apply spares_ret]].
    apply alone_inw. unfold drive_port, PRIMARY_BASE, PRIMARY_CONTROL. cbn. unfold SECONDARY_BASE. lia. }
  unfold identify, poll_not_busy. spare.
Qed.

Lemma spares_probe slave : spares hw (probe_device (P := P) secondary slave).
Proof.
  unfold probe_device, select_device, poll_bsy, poll_drq. cbv zeta.
  apply spares_bind; [apply spares_bind; [by apply spares_write_reg|auto with spares]|intros _].
  apply spares_bind.
  { change (range 1 6) with [1; 2; 3; 4; 5]. cbn [mfor]. spare; by apply spares_write_reg. }
  intros _. spare; first [by apply spares_read_reg|by apply spares_write_reg|apply spares_identify].
Qed.

(** What answers and leaves the drive alone can run between the steps on the drive. *)
Lemma aside {A} (m : M P A) h : answers m → spares hw m → ∀ p, hw p = h → ∃ a p', m p = Ret (a, p') ∧ hw p' = h.
Proof. intros Hm Hk p Hp. destruct (Hm p) as (a & p' & Hr & _). exists a, p'. split; [done|]. by rewrite (Hk _ _ _ Hr). Qed.

(** The two channels do not disturb each other: what the probe of the drive answers is what
    initialisation keeps of it. *)
Lemma probe_all_drive (p : P) pm h1 :
  hruns (probe_device primary false) (reset_hw (hw p)) pm h1 → ready h1 →
  ∃ sm ss p', probe_all p = Ret ((pm, AtaDeviceInfo_new, sm, ss), p') ∧ ready (hw p') ∧
    hw_sectors (hw p') = hw_sectors h1.
Proof.
  intros Hpm Hr. unfold probe_all. change (get_channel PRIMARY_BASE) with primary.
  change (get_channel SECONDARY_BASE) with secondary. cbv zeta.
  destruct (reset_spec (hw p) p eq_refl) as (p1 & Hr1 & Hp1).
  destruct (aside _ _ (reset_answer secondary) spares_reset p1 Hp1) as ([] & p2 & Hr2 & Hp2).
  destruct (Hpm p2 Hp2) as (p3 & Hr3 & Hp3). destruct (probe_slave _ Hr p3 Hp3) as (p4 & Hr4 & Hp4).
  destruct (aside _ _ (probe_answer secondary false) (spares_probe false) p4 Hp4) as (sm & p5 & Hr5 & Hp5).
  destruct (aside _ _ (probe_answer secondary true) (spares_probe true) p5 Hp5) as (ss & p6 & Hr6 & Hp6).
  exists sm, ss, p6. rewrite Hp6. split; [|split; [split; [done|apply Hr]|done]].
  rewrite (bind_Ret _ _ _ _ _ Hr1), (bind_Ret _ _ _ _ _ Hr2), (bind_Ret _ _ _ _ _ Hr3),
    (bind_Ret _ _ _ _ _ Hr4), (bind_Ret _ _ _ _ _ Hr5), (bind_Ret _ _ _ _ _ Hr6). reflexivity.
Qed.

(** Initialisation finds a drive that is done with its reset within the eight status reads that
    the driver makes before it addresses it: its four answers are what IDENTIFY said for
    the primary master, nothing for the slave, and whatever the other channel says; the
    drive is ready and its sectors are untouched. *)
Theorem AtaDriver_init_finds (self : AtaDriver) (p : P) :
  (hw_reset_latency ≤ 8)%nat →
  ∃ d p', AtaDriver_init self p = Ret ((Ok tt, d), p') ∧ ata_status d = Ready ∧
    identified (primary_master d) ∧ primary_slave d = AtaDeviceInfo_new ∧
    ready (hw p') ∧ hw_sectors (hw p') = hw_sectors (hw p).
Proof.
  intros Hlat. destruct (probe_master (reset_hw (hw p))) as (pm & h1 & Hpm & Hid & Hr & Hs); [done|cbn; lia|done|].
  destruct (probe_all_drive p pm h1 Hpm Hr) as (sm & ss & p' & Hall & Hr' & Hs').
  exists (mkAtaDriver Ready pm AtaDeviceInfo_new sm ss), p'. split; [|by rewrite Hs', Hs].
  unfold AtaDriver_init. rewrite (bind_Ret _ _ _ _ _ Hall). destruct Hid as (Hpr & Hata & _).
  unfold usable at 1. by rewrite Hpr, Hata.
Qed.

(** A drive that takes longer is not found, although it would be ready soon: the driver does
    not wait for the end of the reset, and the drive misses the command. *)
Theorem AtaDriver_init_misses (self : AtaDriver) (p : P) :
  (8 < hw_reset_latency < POLL_TIMEOUT)%nat →
  ∃ r d p', AtaDriver_init self p = Ret ((r, d), p') ∧
    primary_master d = AtaDeviceInfo_new ∧ primary_slave d = AtaDeviceInfo_new ∧
    (usable (secondary_master d) = false → usable (secondary_slave d) = false → r = Err DriverDeviceNotFound) ∧
    ready (hw p') ∧ hw_sectors (hw p') = hw_sectors (hw p).
Proof.
  intros Hlat. pose proof (probe_missed (reset_hw (hw p)) eq_refl) as Hpm. cbn [hw_busy reset_hw] in Hpm.
  specialize (Hpm ltac:(lia) eq_refl eq_refl eq_refl).
  destruct (probe_all_drive p _ _ Hpm) as (sm & ss & p' & Hall & Hr' & Hs'); [done|].
  unfold AtaDriver_init. rewrite (bind_Ret _ _ _ _ _ Hall). change (usable AtaDeviceInfo_new) with false. cbn [orb].
  destruct (usable sm) eqn:Hsm, (usable ss) eqn:Hss; cbn [orb]; eexists _, _, p'; (split; [reflexivity|]);
    cbn [primary_master primary_slave secondary_master secondary_slave]; rewrite Hsm, Hss; by split_and!.
Qed.

End Init.
