(* ===== verification/KernelMain.v ===== *)
(** * The kernel's entry point (kernel/src/arch/boot_entry.rs, memory/mod.rs)

    [arcadia_kernel_main]: the whole sequence from the loader's jump to the shell, on the
    state that the components share. It is straight-line code over the init functions of
    the other files, with the boot messages between them. *)

From stdpp Require Import base numbers list gmap strings.
From S2P Require Import Prelude ByteStr Regions Block Ports Ata Pci Text Vga CpuInfo SysInfo Boot Time Scancodes Terminal Paging PhysMem Vmm Gdt UserMode Process Vfs Shell Commands Console Interrupts.

#[local] Open Scope Z_scope.
#[local] Open Scope rust_scope.

(** ** The state *)

(** The console of the shell, as its components' init functions fill it, with what only
    the boot touches: the VGA memory as bytes (until the writer takes it over), the task
    state segment, the segment registers, the loaded interrupt table and the interrupt
    flag. *)
Record BootState (P T : Type) := mkBoot {
  bs_console : Console P T;
  bs_window : list Z;
  bs_tss : Tss;
  bs_segments : option Segments;
  bs_idt : option (gmap Z Gate);
  bs_enabled : bool;
  bs_heap : option (Z * Z); (* the memory given to the heap: start and size *)
}.
Arguments mkBoot {P T} _ _ _ _ _ _ _.
Arguments bs_console {P T} _.
Arguments bs_window {P T} _.
Arguments bs_tss {P T} _.
Arguments bs_segments {P T} _.
Arguments bs_idt {P T} _.
Arguments bs_enabled {P T} _.
Arguments bs_heap {P T} _.

Section Setters.
Context {P T : Type}.

Definition set_clock (t : Clock) (c : Console P T) : Console P T :=
  mkConsole (c_kernel c) (c_vfs c) (c_system c) t (c_sys c) (c_vmm c) (c_tables c) (c_vga c).
Definition set_sys (g : SysGlobals) (c : Console P T) : Console P T :=
  mkConsole (c_kernel c) (c_vfs c) (c_system c) (c_clock c) g (c_vmm c) (c_tables c) (c_vga c).
Definition set_vmm (v : VmmGlobal) (c : Console P T) : Console P T :=
  mkConsole (c_kernel c) (c_vfs c) (c_system c) (c_clock c) (c_sys c) v (c_tables c) (c_vga c).
Definition set_ports (p : P) (c : Console P T) : Console P T :=
  set_system (mkAtaSystem (ata (c_system c)) p) c.

Definition set_console (c : Console P T) (b : BootState P T) : BootState P T :=
  mkBoot c (bs_window b) (bs_tss b) (bs_segments b) (bs_idt b) (bs_enabled b) (bs_heap b).
Definition set_window (w : list Z) (b : BootState P T) : BootState P T :=
  mkBoot (bs_console b) w (bs_tss b) (bs_segments b) (bs_idt b) (bs_enabled b) (bs_heap b).
Definition set_gdt (t : Tss) (r : Segments) (b : BootState P T) : BootState P T :=
  mkBoot (bs_console b) (bs_window b) t (Some r) (bs_idt b) (bs_enabled b) (bs_heap b).
Definition set_idt (i : option (gmap Z Gate)) (b : BootState P T) : BootState P T :=
  mkBoot (bs_console b) (bs_window b) (bs_tss b) (bs_segments b) i (bs_enabled b) (bs_heap b).
Definition set_enabled (e : bool) (b : BootState P T) : BootState P T :=
  mkBoot (bs_console b) (bs_window b) (bs_tss b) (bs_segments b) (bs_idt b) e (bs_heap b).

Definition set_heap (h : Z * Z) (b : BootState P T) : BootState P T :=
  mkBoot (bs_console b) (bs_window b) (bs_tss b) (bs_segments b) (bs_idt b) (bs_enabled b) (Some h).

Definition boot_ports (b : BootState P T) : P := machine (c_system (bs_console b)).
Definition set_boot_ports (p : P) (b : BootState P T) : BootState P T :=
  set_console (set_ports p (bs_console b)) b.

End Setters.

Definition CRLF : list Z := [13; 10].

(** [heap::init_heap] gives the allocator of the crate [linked_list_allocator] its memory. *)
Definition HEAP_START : Z := 0x400000.
Definition HEAP_SIZE : Z := 128 * 1024.
Definition init_heap {P T} : M (BootState P T) unit := modify (set_heap (HEAP_START, HEAP_SIZE)).

Section Main.
Context `{PhysAddrApi} `{VirtAddrApi} `{GdtApi G} `{PortIO P} `{Pics P} `{PageMapper T}.
Context (cpuid : Z → CpuidResult).

Abbreviation B A := (M (BootState P T) A).

Definition on_ports {A} : M P A → B A := zoom boot_ports set_boot_ports.
Definition on_window {A} : M (list Z) A → B A := zoom bs_window set_window.
Definition in_console {A} : M (Console P T) A → B A := zoom bs_console set_console.

Definition say (l : list (list Z)) : B unit := on_ports (mfor l early_serial_print).

Definition progress (phase : string) (pct : Z) : B unit :=
  zoom (λ b, (boot_ports b, bs_window b)) (λ pm b, set_window pm.2 (set_boot_ports pm.1 b))
    (boot_progress true true (bytes_of phase) pct).

(** ** The memory subsystem: [memory::init] and [memory::init_with_memmap] *)

Definition vmm_boot : M (Console P T) unit :=
  c ← get;
  v ← liftO (vmm_global_init (c_tables c));
  modify (set_vmm v).

Definition mem_init (total_memory : Z) : M (Console P T) unit :=
  _ ← on_pmm_global (PhysMem.init total_memory);
  vmm_boot.

Definition mem_init_with_memmap (total_memory : Z) (entries : list MemoryRegion) : M (Console P T) unit :=
  _ ← on_pmm_global (PhysMem.init_with_memmap total_memory entries);
  vmm_boot.

(** ** The messages *)

Definition early_uart : M P unit :=
  mfor [(0x3FB, 0x80); (0x3F8, 0x03); (0x3F9, 0x00); (0x3FB, 0x03); (0x3FC, 0x00); (0x3F9, 0x00)]
    (λ pv, outb pv.1 pv.2).

Definition boot_banner : list (list Z) :=
  [CRLF; bytes_of "========================================" ++ CRLF;
   bytes_of "  "; BANNER_VERSION; CRLF;
   bytes_of "  Kernel: "; KERNEL_NAME; CRLF;
   bytes_of "  Arch:  "; ARCH; bytes_of " " ++ CRLF;
   bytes_of "========================================" ++ CRLF; CRLF].

Definition clear_window : M (list Z) unit :=
  mfor (range 0 (80 * 25 * 2)) (λ i, vga_poke i (if i mod 2 =? 0 then 32 else 0x07)).

Definition window_header : M (list Z) unit :=
  mfor (zip (range 0 (zlen BANNER_VERSION)) BANNER_VERSION) (λ ich,
    _ ← vga_poke (ich.1 * 2) ich.2;
    vga_poke (ich.1 * 2 + 1) 0x0B).

Definition report_region (r : MemoryRegion) : M P unit :=
  _ ← early_serial_print (bytes_of "  0x");
  _ ← early_serial_write_hex (mr_base r);
  _ ← early_serial_print (bytes_of " - 0x");
  _ ← early_serial_write_hex (mr_base r +₆₄ mr_size r);
  _ ← early_serial_print (bytes_of "  ");
  _ ← early_serial_print (bytes_of (type_as_str (mr_type r)));
  _ ← early_serial_print (bytes_of " (");
  _ ← early_serial_write_dec (mr_size r / (1024 * 1024));
  early_serial_print (bytes_of " MiB)" ++ CRLF).

Definition report_map (regions : list MemoryRegion) : M P unit :=
  _ ← early_serial_print (bytes_of "[BOOT] Memory map: ");
  _ ← early_serial_write_dec (zlen regions);
  _ ← early_serial_print (bytes_of " region(s)" ++ CRLF);
  mfor regions report_region.

Definition pci_line (d : PciDevice) : list Z :=
  bytes_of "  PCI " ++ pad_zero 2 (hex (pci_bus d)) ++ bytes_of ":" ++ pad_zero 2 (hex (pci_device d)) ++
  bytes_of "." ++ dec (pci_function d) ++ bytes_of " - Vendor: 0x" ++ pad_zero 4 (hex (vendor_id d)) ++
  bytes_of " Device: 0x" ++ pad_zero 4 (hex (device_id d)) ++ bytes_of " Class: " ++
  pad_zero 2 (hex (pci_class d)) ++ bytes_of ":" ++ pad_zero 2 (hex (subclass d)) ++ CRLF.

Definition report_pci (devices : list PciDevice) : list (list Z) :=
  if 0 <? zlen devices
  then (bytes_of "[BOOT] Found " ++ dec (zlen devices) ++ bytes_of " PCI device(s)" ++ CRLF) :: (pci_line <$> devices)
  else [bytes_of "[BOOT] No PCI devices found" ++ CRLF].

Definition report_ata (r : result unit DriverError) : list (list Z) :=
  match r with
  | Ok _ => [bytes_of "[BOOT] ATA driver initialized." ++ CRLF]
  | Err e => [bytes_of "[BOOT] ATA: "; bytes_of (DriverError_display e); bytes_of " (no disk)" ++ CRLF]
  end.

(** ** The phases of [arcadia_kernel_main] *)

(** Phase 1: the serial port, the banner, the screen. *)
Definition phase_output : B unit :=
  _ ← on_ports early_uart;
  _ ← say boot_banner;
  _ ← on_window clear_window;
  on_window window_header.

(** The regions of the start info that the loader passed, if any. *)
Definition read_memory_map (hvm_info_paddr : Z) : B (list MemoryRegion) :=
  if negb (hvm_info_paddr =? 0) then
    _ ← say [bytes_of "[BOOT] HVM start info at 0x"];
    _ ← on_ports (early_serial_write_hex hvm_info_paddr);
    _ ← say [CRLF];
    b ← get;
    liftO (parse_hvm_start_info (k_mem (c_kernel (bs_console b))) hvm_info_paddr)
  else
    _ ← say [bytes_of "[BOOT] No HVM start info - using CPUID fallback" ++ CRLF];
    mret [].

(** Phase 2: memory. *)
Definition phase_memory (hvm_info_paddr : Z) : B unit :=
  _ ← progress "Memory" 15;
  let total_memory := detect_total_memory cpuid in
  _ ← init_heap;
  hvm_regions ← read_memory_map hvm_info_paddr;
  _ ← match hvm_regions with
      | _ :: _ =>
          _ ← on_ports (report_map hvm_regions);
          in_console (mem_init_with_memmap total_memory hvm_regions)
      | [] => in_console (mem_init total_memory)
      end;
  progress "Memory" 25.

(** Phase 2.5: the reports on the processor and the memory. *)
Definition phase_sysinfo : B unit :=
  _ ← progress "System Info" 28;
  _ ← in_console (zoom c_sys set_sys (sys_init cpuid (detect_total_memory cpuid)));
  progress "System Info" 30.

Definition boot_interrupts : B unit :=
  zoom (λ b, (c_clock (bs_console b), boot_ports b, bs_enabled b))
    (λ cpe b, let '(c, p, e) := cpe in
       set_enabled e (set_console (set_clock c (set_ports p (bs_console b))) b))
    interrupts_init.

(** Phases 3 and 4: segments and interrupts. *)
Definition phase_cpu : B unit :=
  b ← get;
  '(tss, segments) ← liftO (gdt_init (G := G) (bs_tss b));
  _ ← modify (set_gdt tss segments);
  _ ← progress "CPU" 40;
  _ ← zoom bs_idt set_idt idt_init;
  _ ← progress "Interrupts" 55;
  _ ← boot_interrupts;
  progress "Interrupts" 65.

(** Phase 5: the PCI bus. *)
Definition phase_pci : B unit :=
  pci_devices ← on_ports scan_pci_bus;
  _ ← progress "PCI" 75;
  say (report_pci pci_devices).

(** Phase 6: the disk. *)
Definition phase_storage : B unit :=
  _ ← progress "Storage" 85;
  r ← in_console (on_system init_ata_driver);
  say (report_ata r).

(** Phase 6.5: the file system, on the primary master. *)
Definition phase_vfs : B unit :=
  m ← in_console (on_system init_vfs);
  in_console (modify (set_files (Some m))).

(** The VGA memory as the cells that the writer takes over. *)
Definition cells_of (w : list Z) : Buffer :=
  (λ row, (λ col, mkScreenChar (w !!! Z.to_nat ((row * 80 + col) * 2))
                    (w !!! Z.to_nat ((row * 80 + col) * 2 + 1))) <$> range 0 80) <$> range 0 25.

(** [vga_buffer::clear_screen]: its first use of the writer initialises it. *)
Definition boot_clear_screen : B unit :=
  b ← get;
  w ← liftO (WRITER (cells_of (bs_window b)));
  zoom (λ b, mkScreen (bs_enabled b) w (out (bs_console b)))
    (λ s b, set_enabled (sc_enabled s) (set_console (set_vga (sc_writer s)
       (set_kernel (set_serial (sc_serial s) (c_kernel (bs_console b))) (bs_console b))) b))
    vga_clear_screen.

(** Phase 7: up to the terminal. *)
Definition phase_shell : B Terminal :=
  _ ← progress "ArcShell" 95;
  _ ← boot_clear_screen;
  _ ← say [bytes_of "[BOOT] Arcadia OS ready." ++ CRLF; CRLF];
  mret Terminal_new.

(** Everything before the file system. *)
Definition boot_devices (hvm_info_paddr : Z) : B unit :=
  _ ← phase_output;
  _ ← phase_memory hvm_info_paddr;
  _ ← phase_sysinfo;
  _ ← phase_cpu;
  _ ← phase_pci;
  phase_storage.

(** [arcadia_kernel_main], up to the call of [terminal.run]; the second argument of the
    entry point is unused. *)
Definition arcadia_kernel_main (hvm_info_paddr _rsi : Z) : B Terminal :=
  _ ← boot_devices hvm_info_paddr;
  _ ← phase_vfs;
  phase_shell.

End Main.

(** ** The loop of the terminal *)

Section Run.
Context `{PhysAddrApi} `{VirtAddrApi} `{TableApi} `{PortIO P} `{PageMapper T} `{Keyboard KB E}.
Context (size_human : Mbr.PartitionEntry → list Z) (INIT_ELF : list Z) (rsp : Z) (jump : Jump).

(** The [loop] of [Terminal::run], for as many lines as [arrivals] gives keyboard input
    for; it ends earlier when a command does not return. *)
Fixpoint run_loop (arrivals : list (list (list Z))) : M (Session P T) Control :=
  match arrivals with
  | [] => mret Returned
  | a :: arrivals =>
      c ← round size_human INIT_ELF rsp jump (KB := KB) (E := E) a;
      match c with
      | Returned => run_loop arrivals
      | _ => mret c
      end
  end.

Definition Terminal_run (arrivals : list (list (list Z))) : M (Session P T) Control :=
  _ ← on_console (print banner_text);
  run_loop arrivals.
End Run.
