(* ===== verification/BootTheorems.v ===== *)
(** * The boot reaches the prompt

    The phases of [arcadia_kernel_main], one after the other, on a state seen through what
    they establish: everything but the ports and the contents of the VGA memory. *)

From stdpp Require Import base numbers list gmap strings.
From S2P Require Import Prelude ByteStr Regions FrameAllocator FrameSpec FrameInit PhysMem FrameTheorems Block Ports Ata Pci Text Vga CpuInfo SysInfo Boot Time Scancodes Terminal Paging Vmm VmmSpec VmmTheorems VmmInstance Process Gdt ProcessInstance AtaSpec AtaTheorems Bpb Fat32 Vfs VfsTheorems Shell Commands Console Interrupts Answers KernelMain.

#[local] Open Scope Z_scope.
#[local] Open Scope rust_scope.

(** ** The view of the state *)

Record View (T : Type) := mkView {
  v_kernel : Kernel;
  v_vfs : option VfsManager;
  v_ata : option AtaDriver;
  v_clock : Clock;
  v_sys : SysGlobals;
  v_vmm : VmmGlobal;
  v_tables : T;
  v_vga : Writer;
  v_tss : Tss;
  v_segments : option Segments;
  v_idt : option (gmap Z Gate);
  v_enabled : bool;
  v_width : Z;
  v_heap : option (Z * Z);
}.
Arguments mkView {T} _ _ _ _ _ _ _ _ _ _ _ _ _ _.
Arguments v_kernel {T} _.
Arguments v_vfs {T} _.
Arguments v_ata {T} _.
Arguments v_clock {T} _.
Arguments v_sys {T} _.
Arguments v_vmm {T} _.
Arguments v_tables {T} _.
Arguments v_vga {T} _.
Arguments v_tss {T} _.
Arguments v_segments {T} _.
Arguments v_idt {T} _.
Arguments v_enabled {T} _.
Arguments v_width {T} _.
Arguments v_heap {T} _.

Definition view {P T} (b : BootState P T) : View T :=
  let c := bs_console b in
  mkView (c_kernel c) (c_vfs c) (ata (c_system c)) (c_clock c) (c_sys c) (c_vmm c) (c_tables c) (c_vga c)
    (bs_tss b) (bs_segments b) (bs_idt b) (bs_enabled b) (zlen (bs_window b)) (bs_heap b).

(** From a state with view [V], [m] completes, with a value and a view in [Q]. *)
Definition steps {P T A} (m : M (BootState P T) A) (V : View T) (Q : A → View T → Prop) : Prop :=
  ∀ b, view b = V → ∃ a b', m b = Ret (a, b') ∧ Q a (view b').

(** The view stays. *)
Abbreviation same V := (λ _ V', V' = V).

Section Rules.
Context {P T : Type}.

Lemma steps_ret {A} (a : A) V (Q : A → View T → Prop) : Q a V → steps (P := P) (mret a) V Q.
Proof. intros Ha b <-. by exists a, b. Qed.

Lemma steps_bind {A B} (m : M (BootState P T) A) (k : A → M (BootState P T) B) V Q R :
  steps m V Q → (∀ a V', Q a V' → steps (k a) V' R) → steps (m ≫= k) V R.
Proof.
  intros Hm Hk b Hb. destruct (Hm b Hb) as (a & b1 & H1 & Ha). destruct (Hk a _ Ha b1 eq_refl) as (r & b2 & H2 & Hr).
  exists r, b2. by rewrite (bind_Ret _ _ _ _ _ H1).
Qed.

Lemma steps_then {A B} (m : M (BootState P T) A) (k : A → M (BootState P T) B) V R :
  steps m V (same V) → (∀ a, steps (k a) V R) → steps (m ≫= k) V R.
Proof. intros Hm Hk. apply (steps_bind _ _ _ _ _ Hm). intros a V' ->. apply Hk. Qed.

Lemma steps_get {B} (k : BootState P T → M (BootState P T) B) V R :
  (∀ b, view b = V → steps (k b) V R) → steps (get ≫= k) V R.
Proof. intros Hk b Hb. destruct (Hk b Hb b Hb) as (r & b2 & ? & ?). by exists r, b2. Qed.

Lemma steps_liftO {A B} (o : outcome A) a (k : A → M (BootState P T) B) V R :
  o = Ret a → steps (k a) V R → steps (liftO o ≫= k) V R.
Proof. intros -> Hk b Hb. exact (Hk b Hb). Qed.

Lemma steps_weaken {A} (m : M (BootState P T) A) V (Q R : A → View T → Prop) :
  steps m V Q → (∀ a V', Q a V' → R a V') → steps m V R.
Proof. intros Hm HR b Hb. destruct (Hm b Hb) as (a & b' & ? & ?). exists a, b'. auto. Qed.

End Rules.

(** ** Messages *)

Section Messages.
Context `{PortsAnswer P} {T : Type}.

Lemma steps_ports {A} (m : M P A) V : answers m → steps (T := T) (on_ports m) V (same V).
Proof.
  intros Hm b <-. destruct (Hm (boot_ports b)) as (a & p & Hr & _).
  exists a, (set_boot_ports p b). split; [|done]. unfold on_ports. by rewrite (zoom_Ret _ _ _ _ _ _ Hr).
Qed.

Lemma steps_say l V : steps (P := P) (T := T) (say l) V (same V).
Proof. apply steps_ports, say_answer. Qed.

(** A write inside the VGA memory. *)
Lemma poke_ok w off b : 0 ≤ off < zlen w → ∃ w', vga_poke off b w = Ret (tt, w') ∧ zlen w' = zlen w.
Proof.
  intros Hoff. unfold vga_poke. rewrite zset_ok by done. destruct (Z.leb_spec 0 off); [|lia].
  eexists. split; [done|]. unfold zlen. by rewrite length_insert.
Qed.

(** [m] stays inside a VGA memory of the right size. *)
Definition draws (m : M (list Z) unit) : Prop :=
  ∀ w, zlen w = VGA_WINDOW → ∃ w', m w = Ret (tt, w') ∧ zlen w' = VGA_WINDOW.

Lemma draws_then (m : M (list Z) unit) (k : unit → M (list Z) unit) : draws m → draws (k tt) → draws (m ≫= k).
Proof.
  intros Hm Hk w Hw. destruct (Hm w Hw) as (w1 & H1 & Hw1). rewrite (bind_Ret _ _ _ _ _ H1). by apply Hk.
Qed.

Lemma draws_mfor {A} (l : list A) body : (∀ x, x ∈ l → draws (body x)) → draws (mfor l body).
Proof.
  induction l as [|x l IH]; intros Hb; [intros w Hw; by exists w|]. cbn [mfor].
  apply draws_then; [apply Hb; by left|]. apply IH. intros y Hy. apply Hb. by right.
Qed.

Lemma draws_poke off b : 0 ≤ off < VGA_WINDOW → draws (vga_poke off b).
Proof. intros Hoff w Hw. destruct (poke_ok w off b) as (w' & Hr & Hl); [by rewrite Hw|]. exists w'. by rewrite Hl. Qed.

Lemma draws_cell col ch color : 0 ≤ col < 14000 → draws (vga_cell col ch color).
Proof. intros Hc. unfold vga_cell, VGA_WINDOW. apply draws_then; apply draws_poke; unfold VGA_WINDOW; lia. Qed.

Lemma draws_text col color l : 0 ≤ col → col + zlen l < 14000 → draws (vga_text col color l).
Proof.
  intros Hc Hl. apply draws_mfor. intros [i ch] Hi. apply draws_cell. cbn [fst snd].
  apply list_elem_of_lookup in Hi as (n & Hi). apply lookup_zip_with_Some in Hi as (i' & ch' & [= <- <-] & Hi & _).
  apply list_elem_of_lookup_2, elem_of_range in Hi. lia.
Qed.

Lemma draws_progress phase pct : zlen phase < 10000 → draws (progress_vga phase pct).
Proof.
  intros Hp. pose proof (zlen_nonneg phase). unfold progress_vga. cbv zeta.
  change (zlen (bytes_of "[BOOT] ")) with 7.
  apply draws_then; [apply draws_mfor; intros i Hi%elem_of_range; apply draws_cell; lia|].
  apply draws_then; [apply draws_text; [lia|]; change (zlen (bytes_of "[BOOT] ")) with 7; lia|].
  apply draws_then.
  { apply draws_text; [lia|]. assert (zlen (take 40 phase) ≤ 40) by (unfold zlen; rewrite length_take; lia). lia. }
  apply draws_then; [apply draws_cell; lia|].
  apply draws_then; [apply draws_mfor; intros i Hi%elem_of_range; apply draws_cell; lia|]. apply draws_cell. lia.
Qed.

Lemma steps_window m V : v_width V = VGA_WINDOW → draws m → steps (P := P) (T := T) (on_window m) V (same V).
Proof.
  intros HV Hm b Hb. destruct (Hm (bs_window b)) as (w & Hr & Hw); [by rewrite <- HV, <- Hb|].
  exists tt, (set_window w b). split; [unfold on_window; by rewrite (zoom_Ret _ _ _ _ _ _ Hr)|].
  rewrite <- Hb. unfold view. cbn [set_window bs_console bs_window bs_tss bs_segments bs_idt bs_enabled].
  f_equal. rewrite Hw, <- HV, <- Hb. done.
Qed.

Lemma steps_progress phase pct V :
  v_width V = VGA_WINDOW → zlen (bytes_of phase) < 10000 →
  steps (P := P) (T := T) (progress phase pct) V (same V).
Proof.
  intros HV Hp b Hb. destruct (progress_serial_answer (bytes_of phase) pct (boot_ports b)) as ([] & p & Hs & _).
  destruct (draws_progress (bytes_of phase) pct Hp (bs_window b)) as (w & Hw & Hl); [by rewrite <- HV, <- Hb|].
  exists tt, (set_window w (set_boot_ports p b)). split.
  - unfold progress. erewrite zoom_Ret; [|unfold boot_progress; cbn [fst snd]; rewrite Hs, Hw; reflexivity]. done.
  - rewrite <- Hb. unfold view. cbn. f_equal. by rewrite Hl, <- HV, <- Hb.
Qed.

End Messages.

(** ** Memory *)

Section Memory.
Context `{PhysAddrApi} `{!PhysAddrLaws _} `{VirtAddrApi} `{!VirtAddrLaws _} `{PageMapperLaws T} {P : Type}.

(** The frames that the manager of [total] bytes reserves, given the regions of the
    memory map. *)
Definition tracked_frames (total : Z) : Z := Z.min (total / FRAME_SIZE) MAX_TRACKED_FRAMES.
Definition boot_reserved (total : Z) (regions : list MemoryRegion) : gset Z :=
  standard_frames (tracked_frames total) ∪ (memmap_effect (tracked_frames total) ∅ regions).1.

(** The manager is initialised, with the frames [X] reserved. *)
Definition pmm_ready (g : Global) (X : gset Z) : Prop :=
  is_initialized g = true ∧ ∃ fs, global_frames g = Some fs ∧ frames_wf fs ∧ reserved_frames fs = X.

Lemma pmm_ready_holds g X (F : gset Z) :
  pmm_ready g X → (∀ f, f ∈ F → f / FRAME_SIZE ∈ X) → pmm_holds g F.
Proof.
  intros (Hi & fs & Hfs & Hwf & HX) HF. split; [exact Hi|]. unfold global_frames in Hfs.
  apply fmap_Some in Hfs as (p & Hp & ->). exists p. split; [done|]. split; [exact Hwf|].
  intros f Hf%HF. by rewrite <- HX in Hf.
Qed.

Lemma init_ready total g :
  0 ≤ total → bitmap_static (g_BITMAP g) →
  ∃ g', PhysMem.init total g = Ret (tt, g') ∧ pmm_ready g' (boot_reserved total []).
Proof.
  intros Ht Hb. destruct (init_reserves_standard total g Ht Hb) as (g' & fs & Hr & Hi & Hfs & Hwf & Hn & HX).
  exists g'. split; [done|]. split; [done|]. exists fs. split_and!; [done..|].
  rewrite HX, Hn. unfold boot_reserved, memmap_effect, tracked_frames. cbn [foldl fst]. symmetry. apply union_empty_r_L.
Qed.

Lemma init_with_memmap_ready total regions g :
  0 ≤ total → bitmap_static (g_BITMAP g) → Forall entry_ok regions → zlen regions < 2 ^ 32 →
  (memmap_effect (tracked_frames total) ∅ regions).2 = 0 →
  ∃ g', init_with_memmap total regions g = Ret (tt, g') ∧ pmm_ready g' (boot_reserved total regions).
Proof.
  intros Ht Hb Hall Hlen Hd. destruct (PMM_new_spec total _ Ht Hb) as (s & Hnew & Hwf & Hempty & Hn & _).
  destruct (init_from_memmap_spec s regions Hwf Hall Hlen) as (s' & Hrun & Hoff & _ & Hn' & HX & _).
  unfold init_with_memmap, init_global. rewrite Hnew. cbn [mbind outcome_bind]. rewrite Hrun.
  eexists. split; [reflexivity|]. split; [done|]. exists (ps_frames s').
  rewrite Hempty, Hn in *. split; [done|]. split; [|exact HX].
  apply frames_off_0. unfold tracked_frames in Hd. by rewrite Hd in Hoff.
Qed.

(** No frame of the heap is ever handed out. *)
Theorem heap_reserved total regions a :
  HEAP_START ≤ a < HEAP_START + HEAP_SIZE → a / FRAME_SIZE < tracked_frames total →
  a / FRAME_SIZE ∈ boot_reserved total regions.
Proof.
  unfold HEAP_START, HEAP_SIZE, FRAME_SIZE, boot_reserved, standard_frames. intros Ha Ht.
  rewrite elem_of_union, elem_of_filter, elem_of_union, (elem_of_block 0x400). left. split; [done|right]. dlia.
Qed.

(** What the memory subsystem needs of the loader's page tables: valid, in the lower half,
    and in frames that the allocator never hands out. *)
Record tables_ready (total : Z) (pt : T) : Prop := {
  tr_ok : mapper_ok pt;
  tr_low : low_half pt;
  tr_reserved : ∀ f, f ∈ table_frames pt → f / FRAME_SIZE ∈ standard_frames (tracked_frames total);
}.

(** The memory managers after the boot. *)
Definition memory_ready (total : Z) (regions : list MemoryRegion) (g : Global) (v : VmmGlobal) (pt : T) : Prop :=
  pmm_ready g (boot_reserved total regions) ∧
  ∃ m, v = mkVmmGlobal (Some m) true ∧ vmm_ok (mkVmmState m pt g []) ∧
    mapped_regions m = region_of boot_desc <$> leaves pt.

Lemma mem_boot (m : M Global unit) total regions g' (c : Console P T) :
  tables_ready total (c_tables c) →
  m (k_pmm (c_kernel c)) = Ret (tt, g') → pmm_ready g' (boot_reserved total regions) →
  ∃ v, (_ ← on_pmm_global m; vmm_boot) c =
      Ret (tt, set_vmm v (set_kernel (set_pmm g' (c_kernel c)) c)) ∧
    memory_ready total regions g' v (c_tables c).
Proof.
  intros [Hok Hlow Hres] Hm Hg.
  assert (Hh : pmm_holds g' (table_frames (c_tables c))).
  { apply (pmm_ready_holds _ _ _ Hg). intros f Hf%Hres. unfold boot_reserved. apply elem_of_union. by left. }
  destruct (vmm_init_ok _ _ Hok Hlow Hh) as (vm & Hv & Hr & Hs).
  exists (mkVmmGlobal (Some vm) true). split; [|split; [done|by exists vm]].
  unfold on_pmm_global. erewrite bind_Ret; [|apply zoom_Ret; exact Hm].
  unfold vmm_boot. rewrite bind_get. cbn [c_tables set_kernel]. unfold vmm_global_init. by rewrite Hv.
Qed.

Lemma mem_init_boot total (c : Console P T) :
  0 ≤ total → bitmap_static (g_BITMAP (k_pmm (c_kernel c))) → tables_ready total (c_tables c) →
  ∃ g v, mem_init total c = Ret (tt, set_vmm v (set_kernel (set_pmm g (c_kernel c)) c)) ∧
    memory_ready total [] g v (c_tables c).
Proof.
  intros Ht Hb Hpt. destruct (init_ready total _ Ht Hb) as (g & Hr & Hg).
  destruct (mem_boot _ total [] g c Hpt Hr Hg) as (v & ? & ?). by exists g, v.
Qed.

Lemma mem_init_with_memmap_boot total regions (c : Console P T) :
  0 ≤ total → bitmap_static (g_BITMAP (k_pmm (c_kernel c))) → tables_ready total (c_tables c) →
  Forall entry_ok regions → zlen regions < 2 ^ 32 → (memmap_effect (tracked_frames total) ∅ regions).2 = 0 →
  ∃ g v, mem_init_with_memmap total regions c = Ret (tt, set_vmm v (set_kernel (set_pmm g (c_kernel c)) c)) ∧
    memory_ready total regions g v (c_tables c).
Proof.
  intros Ht Hb Hpt Hall Hlen Hd. destruct (init_with_memmap_ready total regions _ Ht Hb Hall Hlen Hd) as (g & Hr & Hg).
  destruct (mem_boot _ total regions g c Hpt Hr Hg) as (v & ? & ?). by exists g, v.
Qed.

End Memory.

(** ** The phases *)

Section Phases.
Context `{PhysAddrApi} `{!PhysAddrLaws _} `{VirtAddrApi} `{!VirtAddrLaws _} `{PageMapperLaws T}.
Context `{GdtLaws G} `{PortsAnswer P} `{!Pics P} `{!PicsAnswer P}.
Context (cpuid : Z → CpuidResult).

Abbreviation steps := (steps (P := P) (T := T)).

Definition view_memory (g : Global) (v : VmmGlobal) (V : View T) : View T :=
  mkView (set_pmm g (v_kernel V)) (v_vfs V) (v_ata V) (v_clock V) (v_sys V) v (v_tables V) (v_vga V)
    (v_tss V) (v_segments V) (v_idt V) (v_enabled V) (v_width V) (Some (HEAP_START, HEAP_SIZE)).
Definition view_heap (V : View T) : View T :=
  mkView (v_kernel V) (v_vfs V) (v_ata V) (v_clock V) (v_sys V) (v_vmm V) (v_tables V) (v_vga V)
    (v_tss V) (v_segments V) (v_idt V) (v_enabled V) (v_width V) (Some (HEAP_START, HEAP_SIZE)).
Definition view_sys (g : SysGlobals) (V : View T) : View T :=
  mkView (v_kernel V) (v_vfs V) (v_ata V) (v_clock V) g (v_vmm V) (v_tables V) (v_vga V)
    (v_tss V) (v_segments V) (v_idt V) (v_enabled V) (v_width V) (v_heap V).
Definition view_cpu (c : Clock) (t : Tss) (r : Segments) (V : View T) : View T :=
  mkView (v_kernel V) (v_vfs V) (v_ata V) c (v_sys V) (v_vmm V) (v_tables V) (v_vga V)
    t (Some r) (Some IDT) true (v_width V) (v_heap V).
Definition view_ata (a : option AtaDriver) (V : View T) : View T :=
  mkView (v_kernel V) (v_vfs V) a (v_clock V) (v_sys V) (v_vmm V) (v_tables V) (v_vga V)
    (v_tss V) (v_segments V) (v_idt V) (v_enabled V) (v_width V) (v_heap V).
Definition view_vga (w : Writer) (V : View T) : View T :=
  mkView (v_kernel V) (v_vfs V) (v_ata V) (v_clock V) (v_sys V) (v_vmm V) (v_tables V) w
    (v_tss V) (v_segments V) (v_idt V) (v_enabled V) (v_width V) (v_heap V).

Lemma steps_output V : v_width V = VGA_WINDOW → steps phase_output V (same V).
Proof.
  intros HV. unfold phase_output.
  apply steps_then; [apply steps_ports, answers_mfor; intros pv _; apply outb_answer|intros _].
  apply steps_then; [apply steps_say|intros _].
  apply steps_then; [apply steps_window; [done|]|intros _; apply steps_window; [done|]].
  - apply draws_mfor. intros i Hi%elem_of_range. apply draws_poke. unfold VGA_WINDOW. lia.
  - change (zlen BANNER_VERSION) with 21. apply draws_mfor. intros [i ch] Hi. cbn [fst snd].
    apply list_elem_of_lookup in Hi as (n & Hi). apply lookup_zip_with_Some in Hi as (i' & ch' & [= <- <-] & Hi & _).
    apply list_elem_of_lookup_2, elem_of_range in Hi. change (zlen BANNER_VERSION) with 21 in Hi.
    apply draws_then; apply draws_poke; unfold VGA_WINDOW; lia.
Qed.

Lemma steps_read_map hvm regions V :
  0 ≤ hvm < 2 ^ 64 → parse_hvm_start_info (k_mem (v_kernel V)) hvm = Ret regions →
  steps (read_memory_map hvm) V (λ r V', r = regions ∧ V' = V).
Proof.
  intros Hhvm Hp. unfold read_memory_map. destruct (Z.eqb_spec hvm 0) as [->|Hne]; cbn [negb].
  - apply steps_then; [apply steps_say|intros _]. apply steps_ret. split; [|done].
    change (parse_hvm_start_info (k_mem (v_kernel V)) 0) with (@Ret (list MemoryRegion) []) in Hp. by injection Hp.
  - apply steps_then; [apply steps_say|intros _].
    apply steps_then; [by apply steps_ports, write_hex_answer|intros _].
    apply steps_then; [apply steps_say|intros _].
    apply steps_get. intros b Hb b1 Hb1. exists regions, b1. split; [|done].
    assert (k_mem (c_kernel (bs_console b)) = k_mem (v_kernel V)) as -> by (by rewrite <- Hb). by rewrite Hp.
Qed.

#[local] Hint Resolve print_answer : answers.

Lemma report_map_answer regions :
  Forall entry_ok regions → zlen regions < 2 ^ 32 → answers (report_map (P := P) regions).
Proof.
  intros Hall Hlen. pose proof (zlen_nonneg regions). unfold report_map.
  assert (Hn : answers (early_serial_write_dec (P := P) (zlen regions))) by (apply write_dec_answer; lia).
  answer. apply answers_mfor. intros r Hr. rewrite Forall_forall in Hall. destruct (Hall r Hr) as (? & ? & ?).
  assert (H1' : answers (early_serial_write_hex (P := P) (mr_base r))) by (apply write_hex_answer; lia).
  assert (H2' : answers (early_serial_write_hex (P := P) (mr_base r +₆₄ mr_size r)))
    by (apply write_hex_answer, wrap_range; lia).
  assert (H3' : answers (early_serial_write_dec (P := P) (mr_size r / (1024 * 1024))))
    by (apply write_dec_answer; dlia).
  unfold report_region. answer.
Qed.

Lemma view_after_memory (b : BootState P T) V g v :
  view b = view_heap V →
  view (set_console (set_vmm v (set_kernel (set_pmm g (c_kernel (bs_console b))) (bs_console b))) b) = view_memory g v V ∧
  c_tables (bs_console b) = v_tables V.
Proof.
  intros Hv. split; [|exact (f_equal v_tables Hv)]. destruct V. injection Hv as <- <- <- <- <- _ <- <- <- <- <- <- <- Hh.
  unfold view, view_memory. cbn. by rewrite Hh.
Qed.

Lemma steps_memory hvm regions V :
  let total := detect_total_memory cpuid in
  v_width V = VGA_WINDOW → 0 ≤ hvm < 2 ^ 64 → parse_hvm_start_info (k_mem (v_kernel V)) hvm = Ret regions →
  Forall entry_ok regions → zlen regions < 2 ^ 32 → (memmap_effect (tracked_frames total) ∅ regions).2 = 0 →
  bitmap_static (g_BITMAP (k_pmm (v_kernel V))) → tables_ready total (v_tables V) →
  steps (phase_memory cpuid hvm) V
    (λ _ V', ∃ g v, V' = view_memory g v V ∧ memory_ready total regions g v (v_tables V)).
Proof.
  intros total HV Hhvm Hp Hall Hlen Hd Hb Ht. unfold phase_memory. fold total.
  assert (Htotal : 0 ≤ total).
  { unfold total, detect_total_memory. repeat case_match; (lia || by apply Z.shiftl_nonneg). }
  apply steps_then; [by apply steps_progress|intros _].
  eapply (steps_bind _ _ _ (λ _ V', V' = view_heap V)); [by intros b <-; eexists tt, _|]. intros _ V' ->.
  eapply steps_bind; [by apply (steps_read_map hvm regions)|]. intros r V' [-> ->].
  assert (Hlast : ∀ g v, memory_ready total regions g v (v_tables V) →
    steps (progress "Memory" 25) (view_memory g v V)
      (λ _ V', ∃ g v, V' = view_memory g v V ∧ memory_ready total regions g v (v_tables V))).
  { intros g v Hm. eapply steps_weaken; [by apply steps_progress|]. intros _ V' ->. by exists g, v. }
  eapply (steps_bind _ _ _ (λ _ V', ∃ g v, V' = view_memory g v V ∧ memory_ready total regions g v (v_tables V)));
    [|intros _ V' (g & v & -> & Hm); by apply Hlast].
  assert (Hfields : ∀ b : BootState P T, view b = view_heap V →
    bitmap_static (g_BITMAP (k_pmm (c_kernel (bs_console b)))) ∧ tables_ready total (c_tables (bs_console b))).
  { intros b Hv. split; [by rewrite (f_equal v_kernel Hv : c_kernel (bs_console b) = _)|].
    by rewrite (f_equal v_tables Hv : c_tables (bs_console b) = _). }
  destruct regions as [|r regions].
  - intros b Hv. destruct (Hfields b Hv) as [Hb' Ht'].
    destruct (mem_init_boot total (bs_console b) Htotal Hb' Ht') as (g & v & Hr & Hm).
    eexists tt, _. split; [unfold in_console; by rewrite (zoom_Ret _ _ _ _ _ _ Hr)|].
    exists g, v. destruct (view_after_memory b V g v Hv) as [? <-]. done.
  - apply steps_then; [by apply steps_ports, report_map_answer|intros _].
    intros b Hv. destruct (Hfields b Hv) as [Hb' Ht'].
    destruct (mem_init_with_memmap_boot total (r :: regions) (bs_console b) Htotal Hb' Ht' Hall Hlen Hd)
      as (g & v & Hr & Hm).
    eexists tt, _. split; [unfold in_console; by rewrite (zoom_Ret _ _ _ _ _ _ Hr)|].
    exists g, v. destruct (view_after_memory b V g v Hv) as [? <-]. done.
Qed.

Lemma CpuInfo_new_ok : ∃ c, CpuInfo_new cpuid = Ret c.
Proof.
  destruct (vendor_round_trip cpuid) as (v & Hv & _). unfold CpuInfo_new. rewrite Hv.
  assert (∃ s, detect_brand_string cpuid = Ret s) as (s & ->); [|by eexists].
  unfold detect_brand_string. destruct (cpuid _) as [a b c d]. cbn. by eexists.
Qed.

Lemma steps_sysinfo V :
  v_width V = VGA_WINDOW →
  steps (phase_sysinfo cpuid) V (λ _ V', ∃ g, V' = view_sys g V ∧ sys_is_initialized g = true).
Proof.
  intros HV. unfold phase_sysinfo. apply steps_then; [by apply steps_progress|intros _].
  eapply (steps_bind _ _ _ (λ _ V', ∃ g, V' = view_sys g V ∧ sys_is_initialized g = true)).
  - intros b <-. destruct CpuInfo_new_ok as (c & Hc).
    assert (∃ m, new_with_total (detect_total_memory cpuid) = Ret m) as (m & Hm).
    { unfold new_with_total. rewrite !PhysAddr_new_ok by lia. cbn. case_match; by eexists. }
    eexists tt, _. split.
    + unfold in_console. erewrite zoom_Ret; [reflexivity|]. apply zoom_Ret.
      unfold sys_init, cpu_init, memory_init. rewrite Hc, Hm. reflexivity.
    + by eexists.
  - intros _ V' (g & -> & Hg). eapply steps_weaken; [by apply steps_progress|]. intros _ V' ->. by exists g.
Qed.

(** Segments and interrupts, as the boot leaves them. *)
Record cpu_ready (c c' : Clock) (t t' : Tss) (r : Segments) : Prop := {
  cr_clock : c' = mkClock (TICK_COUNT c) (UPTIME_MS c) true;
  cr_tss : t' = mkTss 0x65000 0x6A000 (privilege_stack_0 t);
  cr_segments : r = mkSegments 0x08 0x10 0x18;
}.

Lemma steps_interrupts V :
  steps boot_interrupts V (λ _ V',
    V' = mkView (v_kernel V) (v_vfs V) (v_ata V) (mkClock (TICK_COUNT (v_clock V)) (UPTIME_MS (v_clock V)) true)
      (v_sys V) (v_vmm V) (v_tables V) (v_vga V) (v_tss V) (v_segments V) (v_idt V) true (v_width V) (v_heap V)).
Proof.
  intros b <-. destruct (pit_init_answer (c_clock (bs_console b), boot_ports b)) as ([] & [c1 p1] & Hpit & _).
  assert (Hc1 : c1 = mkClock (TICK_COUNT (c_clock (bs_console b))) (UPTIME_MS (c_clock (bs_console b))) true).
  { revert Hpit. unfold pit_init. destruct (PIT_INITIALIZED _) eqn:Hi.
    - intros [= <- _]. revert Hi. destruct (c_clock (bs_console b)). by intros [= ->].
    - case_match; [case_match|..]; by intros [= <- _]. }
  destruct (pics_initialize_answers p1) as (p2 & Hp2).
  destruct (outb_answers 0x21 PIC_1_MASK p2) as (p3 & Hp3).
  destruct (outb_answers 0xA1 PIC_2_MASK p3) as (p4 & Hp4).
  eexists tt, _. split.
  - unfold boot_interrupts. apply zoom_Ret. unfold interrupts_init. rewrite Hpit.
    rewrite (bind_Ret _ _ _ _ _ Hp2), (bind_Ret _ _ _ _ _ Hp3), Hp4. reflexivity.
  - by rewrite Hc1.
Qed.

Lemma steps_cpu V :
  v_width V = VGA_WINDOW →
  steps (phase_cpu (G := G)) V (λ _ V', ∃ c t r, V' = view_cpu c t r V ∧ cpu_ready (v_clock V) c (v_tss V) t r).
Proof.
  intros HV. destruct (user_selectors_differ (G := G)) as (g & Hg & Hcode & Hdata & Htss & _).
  unfold phase_cpu. apply steps_get. intros b Hb.
  assert (Ht : bs_tss b = v_tss V) by (by rewrite <- Hb).
  assert (gdt_init (G := G) (bs_tss b) =
    Ret (mkTss 0x65000 0x6A000 (privilege_stack_0 (v_tss V)), mkSegments 0x08 0x10 0x18)) as Hgdt.
  { unfold gdt_init. rewrite !VirtAddr_new_ok by (left; lia). cbn [mbind outcome_bind]. rewrite Hg.
    cbn [mbind outcome_bind]. by rewrite Hcode, Hdata, Htss, Ht. }
  eapply steps_liftO; [exact Hgdt|]. cbn beta match. clear b Hb Ht Hgdt.
  eapply (steps_bind _ _ _ (λ _ V', V' = mkView (v_kernel V) (v_vfs V) (v_ata V) (v_clock V) (v_sys V) (v_vmm V)
    (v_tables V) (v_vga V) (mkTss 0x65000 0x6A000 (privilege_stack_0 (v_tss V)))
    (Some (mkSegments 0x08 0x10 0x18)) (v_idt V) (v_enabled V) (v_width V) (v_heap V))).
  { intros b <-. by eexists tt, _. }
  intros _ V' ->. apply steps_then; [by apply steps_progress|intros _].
  eapply (steps_bind _ _ _ (λ _ V', V' = mkView (v_kernel V) (v_vfs V) (v_ata V) (v_clock V) (v_sys V) (v_vmm V)
    (v_tables V) (v_vga V) (mkTss 0x65000 0x6A000 (privilege_stack_0 (v_tss V)))
    (Some (mkSegments 0x08 0x10 0x18)) (Some IDT) (v_enabled V) (v_width V) (v_heap V))).
  { intros b Hb. eexists tt, _. split; [apply zoom_Ret; reflexivity|].
    injection Hb as <- <- <- <- <- <- <- <- H1' H2' H3' H4' H5' H6'. unfold view. cbn. by rewrite H1', H2', H4', H5', H6'. }
  intros _ V' ->. apply steps_then; [by apply steps_progress|intros _].
  eapply steps_bind; [apply steps_interrupts|]. intros _ V' ->.
  eapply steps_weaken; [by apply steps_progress|]. intros _ V' ->. eexists _, _, _. split; [reflexivity|]. by split.
Qed.

Lemma steps_pci V : v_width V = VGA_WINDOW → steps phase_pci V (same V).
Proof.
  intros HV. unfold phase_pci. apply steps_then; [apply steps_ports, scan_pci_answer|intros devices].
  apply steps_then; [by apply steps_progress|intros _]. apply steps_say.
Qed.

(** The driver is installed when its initialisation finds a drive. *)
Definition ata_found (a a' : option AtaDriver) : Prop :=
  ∃ p p' r d, AtaDriver_init (P := P) AtaDriver_new p = Ret ((r, d), p') ∧
    a' = match r with Ok _ => Some d | Err _ => a end.

Lemma steps_storage V :
  v_width V = VGA_WINDOW →
  steps phase_storage V (λ _ V', ∃ a, V' = view_ata a V ∧ ata_found (v_ata V) a).
Proof.
  intros HV. unfold phase_storage. apply steps_then; [by apply steps_progress|intros _].
  eapply (steps_bind _ _ _ (λ _ V', ∃ a, V' = view_ata a V ∧ ata_found (v_ata V) a)).
  - intros b <-. destruct (ata_init_answer AtaDriver_new (boot_ports b)) as ([r d] & p & Hd & _).
    unfold in_console, on_system. destruct r as [[]|e].
    + eexists (Ok tt), _. split.
      * apply zoom_Ret, zoom_Ret. unfold init_ata_driver, on_machine. unfold boot_ports in Hd.
        erewrite bind_Ret; [|by rewrite Hd]. cbn beta match. by rewrite bind_modify.
      * exists (Some d). split; [done|]. by exists (boot_ports b), p, (Ok tt), d.
    + eexists (Err e), _. split.
      * apply zoom_Ret, zoom_Ret. unfold init_ata_driver, on_machine. unfold boot_ports in Hd.
        erewrite bind_Ret; [|by rewrite Hd]. reflexivity.
      * exists (ata (c_system (bs_console b))). split; [done|]. by exists (boot_ports b), p, (Err e), d.
  - intros r V' (a & -> & Ha). eapply steps_weaken; [apply steps_say|]. intros _ V' ->. by exists a.
Qed.

Lemma cells_shape w : shape (cells_of w).
Proof.
  unfold cells_of. split; [by rewrite length_fmap, length_range|].
  apply Forall_fmap, Forall_true. intros row. cbn [compose]. by rewrite length_fmap, length_range.
Qed.

Lemma cleared_shows c : shows (mkWriter 0 c (replicate 25 (blank_row c))) ([], []).
Proof. split; [reflexivity|reflexivity|cbn; lia|constructor]. Qed.

Lemma view_screen (b : BootState P T) w :
  view (set_enabled (bs_enabled b) (set_console (set_vga w
    (set_kernel (set_serial (out (bs_console b)) (c_kernel (bs_console b))) (bs_console b))) b)) = view_vga w (view b).
Proof. unfold view, view_vga, set_serial, out, set_vga, set_kernel, set_enabled, set_console. cbn. by destruct (c_kernel _). Qed.

Lemma steps_shell V :
  v_width V = VGA_WINDOW →
  steps phase_shell V (λ t V', t = Terminal_new ∧ ∃ w, V' = view_vga w V ∧ shows w ([], [])).
Proof.
  intros HV. unfold phase_shell. apply steps_then; [by apply steps_progress|intros _].
  eapply (steps_bind _ _ _ (λ _ V', ∃ w, V' = view_vga w V ∧ shows w ([], []))).
  - unfold boot_clear_screen. apply steps_get. intros b0 Hb0.
    set (c := ColorCode_new LightGreen Black). set (w := mkWriter 0 c (replicate 25 (blank_row c))).
    assert (WRITER (cells_of (bs_window b0)) = Ret w) as Hw.
    { unfold WRITER. rewrite clear_screen_spec by apply cells_shape. reflexivity. }
    eapply steps_liftO; [exact Hw|]. intros b <-. eexists tt, _. split.
    + apply zoom_Ret. unfold vga_clear_screen, without_interrupts. rewrite bind_get, bind_modify.
      erewrite bind_Ret; [reflexivity|]. unfold on_writer. cbn [sc_writer].
      rewrite clear_screen_spec; [reflexivity|]. exact (shows_shape _ _ (cleared_shows c)).
    + exists w. split; [exact (view_screen b w)|apply cleared_shows].
  - intros _ V' (w & -> & Hw). apply steps_then; [apply steps_say|intros _]. apply steps_ret. split; [done|]. by exists w.
Qed.

(** ** The whole boot *)

(** What the boot has established, in [b'], starting from [b]. *)
Record booted (total : Z) (regions : list MemoryRegion) (b b' : BootState P T) : Prop := {
  bo_memory : memory_ready total regions (k_pmm (c_kernel (bs_console b'))) (c_vmm (bs_console b'))
    (c_tables (bs_console b'));
  bo_kernel : c_kernel (bs_console b') = set_pmm (k_pmm (c_kernel (bs_console b'))) (c_kernel (bs_console b));
  bo_tables : c_tables (bs_console b') = c_tables (bs_console b);
  bo_sys : sys_is_initialized (c_sys (bs_console b')) = true;
  bo_cpu : ∃ r, bs_segments b' = Some r ∧
    cpu_ready (c_clock (bs_console b)) (c_clock (bs_console b')) (bs_tss b) (bs_tss b') r;
  bo_idt : bs_idt b' = Some IDT;
  bo_enabled : bs_enabled b' = true;
  bo_heap : bs_heap b' = Some (HEAP_START, HEAP_SIZE);
}.

(** What the boot needs: a VGA memory, the bitmap, a memory map whose usable regions do
    not take back what earlier ones reserved, and the loader's page tables. *)
Record bootable (hvm : Z) (regions : list MemoryRegion) (b : BootState P T) : Prop := {
  ba_window : zlen (bs_window b) = VGA_WINDOW;
  ba_bitmap : bitmap_static (g_BITMAP (k_pmm (c_kernel (bs_console b))));
  ba_hvm : 0 ≤ hvm < 2 ^ 64;
  ba_map : parse_hvm_start_info (k_mem (c_kernel (bs_console b))) hvm = Ret regions;
  ba_regions : Forall entry_ok regions;
  ba_count : zlen regions < 2 ^ 32;
  ba_clean : (memmap_effect (tracked_frames (detect_total_memory cpuid)) ∅ regions).2 = 0;
  ba_tables : tables_ready (detect_total_memory cpuid) (c_tables (bs_console b));
}.

Lemma devices_steps hvm regions b :
  bootable hvm regions b →
  ∃ b1 g v y c t r a, boot_devices (G := G) cpuid hvm b = Ret (tt, b1) ∧
    view b1 = view_ata a (view_cpu c t r (view_sys y (view_memory g v (view b)))) ∧
    memory_ready (detect_total_memory cpuid) regions g v (v_tables (view b)) ∧
    sys_is_initialized y = true ∧ cpu_ready (v_clock (view b)) c (v_tss (view b)) t r ∧
    ata_found (v_ata (view b)) a.
Proof.
  intros [Hw Hb Hhvm Hp Hall Hlen Hd Ht]. unfold boot_devices.
  enough (Hs : steps (boot_devices (G := G) cpuid hvm) (view b) (λ _ V', ∃ g v y c t r a,
    V' = view_ata a (view_cpu c t r (view_sys y (view_memory g v (view b)))) ∧
    memory_ready (detect_total_memory cpuid) regions g v (v_tables (view b)) ∧
    sys_is_initialized y = true ∧ cpu_ready (v_clock (view b)) c (v_tss (view b)) t r ∧
    ata_found (v_ata (view b)) a)).
  { destruct (Hs b eq_refl) as ([] & b1 & Hr & g & v & y & c & t & r & a & H1' & H2').
    by exists b1, g, v, y, c, t, r, a. }
  unfold boot_devices. apply steps_then; [by apply steps_output|intros _].
  eapply steps_bind; [by apply (steps_memory hvm regions)|]. intros _ V1 (g & v & -> & Hm).
  eapply steps_bind; [by apply steps_sysinfo|]. intros _ V2 (y & -> & Hy).
  eapply steps_bind; [by apply steps_cpu|]. intros _ V3 (c & t & r & -> & Hc).
  apply steps_then; [by apply steps_pci|intros _].
  eapply steps_weaken; [by apply steps_storage|]. intros _ V4 (a & -> & Ha). by exists g, v, y, c, t, r, a.
Qed.

(** What [init_vfs] leaves when there is no file system. *)
Definition unmounted : VfsManager := mkVfs (bytes_of "/") None 0 [] 3 (bytes_of "/").

Lemma init_vfs_no_disk (d : AtaSystem P) : ata d = None → init_vfs d = Ret (unmounted, d).
Proof.
  intros Hd. assert (Hr : read_sector 0 512 d = Ret (Err DeviceNotFound, d)).
  { cbn [read_sector ata_block_device]. unfold ata_read_sector. by rewrite bind_get, Hd. }
  assert (Hm : mount 0 d = Ret (Err "Failed to read boot sector"%string, d)).
  { unfold mount, map_err. by rewrite bind_assoc, (bind_Ret _ _ _ _ _ Hr). }
  unfold init_vfs. by rewrite (bind_Ret _ _ _ _ _ Hm).
Qed.

Lemma booted_views total regions b b' g v y c t r a vfs w :
  view b' = mkView (set_pmm g (c_kernel (bs_console b))) vfs a c y v (c_tables (bs_console b)) w t (Some r) (Some IDT)
    true (zlen (bs_window b)) (Some (HEAP_START, HEAP_SIZE)) →
  memory_ready total regions g v (c_tables (bs_console b)) → sys_is_initialized y = true →
  cpu_ready (c_clock (bs_console b)) c (bs_tss b) t r →
  booted total regions b b'.
Proof.
  intros [= Hk Hv Ha Hc Hy Hm Ht Hw Hts Hr Hi He _ Hh] ? ? ?. split; rewrite ?Hk, ?Hm, ?Ht, ?Hy, ?Hc, ?Hts; [done..| |done|done|done].
  by exists r.
Qed.

(** From the file system on: when the mount completes, so does the boot. *)
Lemma main_finishes hvm rsi regions b b1 m d :
  bootable hvm regions b → boot_devices (G := G) cpuid hvm b = Ret (tt, b1) →
  init_vfs (c_system (bs_console b1)) = Ret (m, d) →
  ∃ b2, arcadia_kernel_main (G := G) cpuid hvm rsi b = Ret (Terminal_new, b2) ∧
    booted (detect_total_memory cpuid) regions b b2 ∧
    c_vfs (bs_console b2) = Some m ∧ shows (c_vga (bs_console b2)) ([], []).
Proof.
  intros Hb Hdev Hvfs.
  destruct (devices_steps hvm regions b Hb) as (b1' & g & v & y & c & t & r & a & Hrun & Hv & Hm & Hy & Hc & _).
  rewrite Hdev in Hrun. injection Hrun as <-.
  set (b1' := set_console (set_files (Some m) (set_system d (bs_console b1))) b1).
  assert (Hw : v_width (view b1') = VGA_WINDOW).
  { cbn. rewrite <- (ba_window _ _ _ Hb). exact (f_equal v_width Hv). }
  destruct (steps_shell _ Hw b1' eq_refl) as (te & b2 & Hshell & -> & w & Hv2 & Hs).
  exists b2. split.
  - unfold arcadia_kernel_main. rewrite (bind_Ret _ _ _ _ _ Hdev). unfold phase_vfs. rewrite bind_assoc.
    erewrite bind_Ret; [|apply zoom_Ret, zoom_Ret; exact Hvfs].
    erewrite bind_Ret; [exact Hshell|]. reflexivity.
  - split; [|split].
    + eapply (booted_views _ _ _ _ g v y c t r (ata d) (Some m) w); [|done..].
      rewrite Hv2. injection Hv as H1' H2' H3' H4' H5' H6' H7' H8' H9' H10' H11' H12' H13' H14'.
      unfold view, view_vga, b1'. cbn. by rewrite H1', H4', H5', H6', H7', H9', H10', H11', H12', H13', H14'.
    + by rewrite (f_equal v_vfs Hv2 : c_vfs (bs_console b2) = _).
    + by rewrite (f_equal v_vga Hv2 : c_vga (bs_console b2) = _).
Qed.

(** C6. The boot reaches the prompt. On ports that answer anything, with a memory map whose
    regions are inside the physical address space and page tables inside the standard
    reservations, every phase up to the disk completes: no panic, no write outside the VGA
    memory, no endless wait.
    It leaves the frame allocator with the standard reservations and those of the map, the
    manager of virtual memory in its invariant over the loader's tables, the reports, the
    segments and the interrupt table loaded, the timer running and interrupts enabled.
    When the mount of the disk completes, so does the boot, with a cleared screen and a
    fresh terminal; without a drive it does, and no file system is mounted. *)
Theorem boot_reaches_prompt hvm rsi regions b :
  bootable hvm regions b →
  let total := detect_total_memory cpuid in
  ∃ b1, boot_devices (G := G) cpuid hvm b = Ret (tt, b1) ∧ booted total regions b b1 ∧
    ata_found (ata (c_system (bs_console b))) (ata (c_system (bs_console b1))) ∧
    (∀ m d, init_vfs (c_system (bs_console b1)) = Ret (m, d) →
       ∃ b2, arcadia_kernel_main (G := G) cpuid hvm rsi b = Ret (Terminal_new, b2) ∧ booted total regions b b2 ∧
         c_vfs (bs_console b2) = Some m ∧ shows (c_vga (bs_console b2)) ([], [])) ∧
    (ata (c_system (bs_console b1)) = None →
       init_vfs (c_system (bs_console b1)) = Ret (unmounted, c_system (bs_console b1))).
Proof.
  intros Hb total. destruct (devices_steps hvm regions b Hb) as (b1 & g & v & y & c & t & r & a & Hrun & Hv & Hm & Hy & Hc & Ha).
  exists b1. split; [done|]. split; [eapply booted_views; [exact Hv|done..]|]. split; [|split; [|apply init_vfs_no_disk]].
  - pose proof (f_equal v_ata Hv) as Hva. cbn in Hva. by rewrite Hva.
  - intros m d Hvfs. by apply (main_finishes hvm rsi regions b b1 m d).
Qed.

End Phases.

(** ** A machine without a drive *)

#[local] Existing Instance phys52.
#[local] Existing Instance phys52_laws.

#[export] Instance list_answer : PortsAnswer (list Z).
Proof. split; intros; by repeat eexists. Qed.

#[export] Instance list_pics : Pics (list Z) := {
  notify_end_of_interrupt _ l := Ret (tt, l);
  pics_initialize l := Ret (tt, l);
}.

#[export] Instance list_pics_answer : PicsAnswer (list Z).
Proof. split. intros l. by exists l. Qed.

(** A processor with 36 address bits, the start info of [w_mem] at 32, and tables with one
    mapping. *)
Definition w_cpuid (leaf : Z) : CpuidResult :=
  if leaf =? 0x80000000 then mkCpuid 0x80000008 0 0 0 else if leaf =? 0x80000008 then mkCpuid 36 0 0 0
  else mkCpuid 0 0 0 0.

Definition w_boot : BootState (list Z) SmallTables :=
  mkBoot
    (mkConsole (mkKernel table_new 0 0 0 false 0 w_mem w_global 0x100000 0 []) None (mkAtaSystem None [])
      Clock_new (mkSys None None None) (mkVmmGlobal None false) (vs_pt w_mapped) Vga.w_writer)
    (zrepeat VGA_WINDOW 0) (mkTss 0 0 0x70000) None None false None.

Definition w_region : MemoryRegion := mkRegion 0x100000 0x200000 Usable "Boot RAM".

Lemma w_bootable : bootable w_cpuid 32 [w_region] w_boot.
Proof.
  assert (Hn : ∀ n, (memmap_effect n ∅ [w_region]).2 = 0).
  { intros n. unfold memmap_effect, memmap_step. cbn [foldl region_is_usable w_region mr_type type_is_usable fst snd].
    by rewrite intersection_empty_l_L. }
  split.
  - cbn [bs_window w_boot]. by apply zlen_repeat.
  - exact w_static.
  - lia.
  - vm_compute. reflexivity.
  - constructor; [|constructor]. unfold entry_ok. cbn. lia.
  - done.
  - apply Hn.
  - split; [exact (vo_tables _ (proj1 w_mapped_ok))|apply small_low|]. intros f Hf. destruct (not_elem_of_empty (C := gset Z) f Hf).
Qed.

Lemma list_no_drive (l : list Z) : ∃ d, AtaDriver_init AtaDriver_new l = Ret ((Err DriverDeviceNotFound, d), l).
Proof. eexists. vm_compute. reflexivity. Qed.

Lemma boot_reaches_prompt_witness :
  ∃ b2 : BootState (list Z) SmallTables,
    arcadia_kernel_main (G := Z) w_cpuid 32 0 w_boot = Ret (Terminal_new, b2) ∧ bs_enabled b2 = true ∧
    c_vfs (bs_console b2) = Some unmounted.
Proof.
  destruct (boot_reaches_prompt (G := Z) w_cpuid 32 0 [w_region] w_boot w_bootable)
    as (b1 & _ & _ & (p & p' & r & d & Hinit & Hata) & Hmain & Hno).
  destruct (list_no_drive p) as (d' & Hp). rewrite Hp in Hinit. injection Hinit as <- _ _.
  destruct (Hmain _ _ (Hno Hata)) as (b2 & H2 & Hb & Hv & _). exists b2. split; [exact H2|].
  split; [exact (bo_enabled _ _ _ _ Hb)|exact Hv].
Defined.

Lemma interrupts_wired_witness :
  int_gate 3 0x80 = Some (mkGate SyscallEntry None 3) ∧ is_Some (IDT !! (PIC_1_OFFSET + 1)) ∧
  ∃ tss segs df, gdt_init (G := Z) (mkTss 0 0 0x70000) = Ret (tss, segs) ∧
    IDT !! DOUBLE_FAULT_VECTOR = Some df ∧ entry_stack tss 0 0x123 df = 0x65000.
Proof.
  destruct (interrupts_wired (G := Z) (mkTss 0 0 0x70000) 0x123 0x8000) as (Hint & Hline & _ & _ & _ & tss & segs & df & nmi & Hg & Hdf & _ & _ & _ & Hstack & _);
    [by vm_compute|]. split; [by apply Hint|]. split; [by apply Hline|].
  exists tss, segs, df. split; [exact Hg|]. split; [exact Hdf|]. apply Hstack.
Defined.
