(* ===== verification/BootDisk.v ===== *)
(** * The boot mounts the disk

    The phases before the disk leave the drive alone; the driver finds it; the first sector
    decides what is mounted. *)

From stdpp Require Import base numbers list gmap strings.
From S2P Require Import Prelude ByteStr Regions FrameAllocator FrameSpec FrameInit PhysMem FrameTheorems Block Ports Ata Pci Text Vga CpuInfo SysInfo Boot Time Scancodes Terminal Paging Vmm VmmSpec VmmTheorems VmmInstance Process Gdt ProcessInstance AtaSpec AtaTheorems Bpb Fat32 Vfs VfsTheorems Shell Commands Console Interrupts Answers AtaInit KernelMain BootTheorems.

#[local] Open Scope Z_scope.
#[local] Open Scope rust_scope.

(** Programming the interrupt controllers does not reach the drive. *)
Class PicsAlone (P : Type) `{AtaHardware P} `{Pics P} := {
  alone_pics : spares hw (pics_initialize (P := P));
}.

(** ** On the ports *)

Section PortsAside.
Context `{DriveAlone P}.

Lemma other_port port : port < PRIMARY_BASE ∨ PRIMARY_CONTROL < port → ¬ drive_port port.
Proof. unfold drive_port, PRIMARY_BASE, PRIMARY_CONTROL. lia. Qed.

Ltac aside_port := apply other_port; unfold PRIMARY_BASE, PRIMARY_CONTROL, PIT_COMMAND_PORT, PIT_CHANNEL0_PORT; lia.

Lemma spares_wait n : spares hw (wait_transmit (P := P) n).
Proof. induction n; cbn [wait_transmit]; spare. apply alone_inb. aside_port. Qed.
#[local] Hint Resolve spares_wait : spares.

Lemma spares_write b : spares hw (early_serial_write (P := P) b).
Proof. unfold early_serial_write. spare. apply alone_outb. aside_port. Qed.
#[local] Hint Resolve spares_write : spares.

Lemma spares_print s : spares hw (early_serial_print (P := P) s).
Proof. unfold early_serial_print. spare. Qed.
#[local] Hint Resolve spares_print : spares.

Lemma spares_write_hex v : spares hw (early_serial_write_hex (P := P) v).
Proof. unfold early_serial_write_hex, write_reversed. spare. Qed.

Lemma spares_write_dec v : spares hw (early_serial_write_dec (P := P) v).
Proof. unfold early_serial_write_dec, write_reversed. spare. Qed.
#[local] Hint Resolve spares_write_hex spares_write_dec : spares.

Lemma spares_progress_serial phase pct : spares hw (progress_serial (P := P) phase pct).
Proof. unfold progress_serial. spare. Qed.

Lemma spares_report_map regions : spares hw (report_map (P := P) regions).
Proof. unfold report_map, report_region. spare. Qed.

Lemma spares_early_uart : spares hw (early_uart (P := P)).
Proof. unfold early_uart. cbn [mfor fst snd]. spare; apply alone_outb; aside_port. Qed.

Lemma spares_pci_u32 b d f o : spares hw (pci_read_u32 (P := P) b d f o).
Proof. unfold pci_read_u32. spare; [apply alone_outl|apply alone_inl]; aside_port. Qed.
Lemma spares_pci_u16 b d f o : spares hw (pci_read_u16 (P := P) b d f o).
Proof. unfold pci_read_u16. spare; [apply alone_outl|apply alone_inl]; aside_port. Qed.
Lemma spares_pci_u8 b d f o : spares hw (pci_read_u8 (P := P) b d f o).
Proof. unfold pci_read_u8. spare; [apply alone_outl|apply alone_inl]; aside_port. Qed.
#[local] Hint Resolve spares_pci_u32 spares_pci_u16 spares_pci_u8 : spares.

Lemma spares_pci_new b d f : spares hw (PciDevice_new (P := P) b d f).
Proof. unfold PciDevice_new. spare. Qed.
#[local] Hint Resolve spares_pci_new : spares.

Lemma spares_push_found l probe devices :
  (∀ x, spares hw (probe x)) → spares hw (push_found (P := P) l probe devices).
Proof.
  intros Hp. revert devices. induction l as [|x l IH]; intros devices; cbn [push_found]; [apply spares_ret|].
  apply spares_bind; [apply Hp|]. intros o. apply IH.
Qed.

Lemma spares_scan : spares hw (scan_pci_bus (P := P)).
Proof.
  unfold scan_pci_bus. generalize (@nil PciDevice).
  induction (range 0 256 ≫= _) as [|[b d] l IH]; intros devices; cbn [scan_devices]; [apply spares_ret|].
  apply spares_bind; [|intros ?; apply IH]. unfold scan_device. spare; apply spares_push_found; intros ?; spare.
Qed.

Lemma spares_pit : spares (hw ∘ snd) (pit_init (P := P)).
Proof.
  intros [c p] a [c' p']. unfold pit_init. destruct (PIT_INITIALIZED c); [by intros [= _ _ ->]|].
  cbv zeta. match goal with |- match ?m p with _ => _ end = _ → _ => assert (Ho : spares hw m) end.
  { spare; apply alone_outb; aside_port. }
  specialize (Ho p). revert Ho. match goal with |- (∀ a s', ?o = _ → _) → _ => destruct o as [[[] p1]| | |]; [|done..] end.
  intros Ho [= _ _ <-]. exact (Ho _ _ eq_refl).
Qed.

Lemma spares_masks `{!Pics P} `{!PicsAlone P} :
  spares hw (_ ← pics_initialize (P := P); _ ← outb 0x21 PIC_1_MASK; outb 0xA1 PIC_2_MASK).
Proof. spare; [apply alone_pics|apply alone_outb; aside_port..]. Qed.

Lemma spares_interrupts `{!Pics P} `{!PicsAlone P} : spares (λ cpe, hw cpe.1.2) (interrupts_init (P := P)).
Proof.
  intros [[c p] e] a [[c' p'] e']. unfold interrupts_init. pose proof (spares_pit (c, p)) as Hp.
  destruct (pit_init (c, p)) as [[[] [c1 p1]]| | |]; [|done..]. specialize (Hp _ _ eq_refl). cbn in Hp.
  pose proof (spares_masks p1) as Hm. revert Hm.
  match goal with |- (∀ a s', ?o = _ → _) → _ => destruct o as [[[] p2]| | |]; [|done..] end.
  intros Hm [= _ _ <- _]. cbn. by rewrite (Hm _ _ eq_refl).
Qed.

End PortsAside.

(** ** On the state of the boot *)

Section Boot.
Context `{PhysAddrApi} `{!PhysAddrLaws _} `{VirtAddrApi} `{!VirtAddrLaws _} `{PageMapperLaws T}.
Context `{GdtLaws G} `{PortIO P} `{!AtaHardware P} `{!PortsAnswer P} `{!DriveAlone P}.
Context `{!Pics P} `{!PicsAnswer P} `{!PicsAlone P}.
Context (cpuid : Z → CpuidResult).

Definition console_drive (c : Console P T) : AtaHw := hw (machine (c_system c)).
Definition boot_drive (b : BootState P T) : AtaHw := console_drive (bs_console b).

Lemma spares_zoom {S S' X Y A} (obs : S → X) (obs' : S' → Y) (g : S → S') (f : S' → S → S) (m : M S' A) :
  (∀ s x, obs' x = obs' (g s) → obs (f x s) = obs s) → spares obs' m → spares obs (zoom g f m).
Proof.
  intros Hf Hm s a s'. unfold zoom. destruct (m (g s)) as [[a' x]| | |] eqn:Hr; [|done..].
  intros [= _ <-]. apply Hf. by eapply Hm.
Qed.

(** A part that the drive does not belong to. *)
Lemma spares_zoom_apart {S S' X A} (obs : S → X) (g : S → S') (f : S' → S → S) (m : M S' A) :
  (∀ s x, obs (f x s) = obs s) → spares obs (zoom g f m).
Proof. intros Hf. apply (spares_zoom obs (λ _, tt)); [by intros s x _|by intros s a s']. Qed.

Lemma spares_on_ports {A} (m : M P A) : spares hw m → spares boot_drive (on_ports m).
Proof. intros Hm. by apply (spares_zoom _ hw). Qed.

Lemma spares_in_console {A} (m : M (Console P T) A) : spares console_drive m → spares boot_drive (in_console m).
Proof. intros Hm. by apply (spares_zoom _ console_drive). Qed.

Lemma spares_on_window (m : M (list Z) unit) : spares boot_drive (on_window m).
Proof. by apply spares_zoom_apart. Qed.

Lemma spares_say l : spares boot_drive (say l).
Proof. apply spares_on_ports, spares_mfor. intros s. apply spares_print. Qed.

Lemma spares_progress phase pct : spares boot_drive (progress phase pct).
Proof.
  apply (spares_zoom _ (hw ∘ fst)); [by intros b [p w]|]. intros [p w] a [p' w']. unfold boot_progress. cbn [fst snd].
  pose proof (spares_progress_serial (bytes_of phase) pct p) as Hp. revert Hp.
  destruct (progress_serial (bytes_of phase) pct p) as [[[] p1]| | |]; [|done..]. intros Hp.
  destruct (progress_vga _ _ w) as [[? ?]| | |]; [|done..]. intros [= _ <- _]. exact (Hp _ _ eq_refl).
Qed.
#[local] Hint Resolve spares_say spares_progress spares_on_window : spares.

Lemma spares_phase_output : spares boot_drive phase_output.
Proof. unfold phase_output. spare. apply spares_on_ports, spares_early_uart. Qed.

Lemma spares_pmm {A} (m : M Global A) : spares console_drive (on_pmm_global m).
Proof. by apply spares_zoom_apart. Qed.

Lemma spares_vmm_boot : spares console_drive (vmm_boot (P := P)).
Proof. unfold vmm_boot. spare. by apply spares_modify. Qed.

Lemma spares_mem_init total : spares console_drive (mem_init total).
Proof. unfold mem_init. spare; [apply spares_pmm|apply spares_vmm_boot]. Qed.

Lemma spares_mem_init_with_memmap total entries : spares console_drive (mem_init_with_memmap total entries).
Proof. unfold mem_init_with_memmap. spare; [apply spares_pmm|apply spares_vmm_boot]. Qed.

Lemma spares_phase_memory hvm : spares boot_drive (phase_memory cpuid hvm).
Proof.
  unfold phase_memory, read_memory_map, init_heap. cbv zeta. spare.
  - by apply spares_modify.
  - apply spares_on_ports, spares_write_hex.
  - apply spares_in_console, spares_mem_init.
  - apply spares_on_ports, spares_report_map.
  - apply spares_in_console, spares_mem_init_with_memmap.
Qed.

Lemma spares_phase_sysinfo : spares boot_drive (phase_sysinfo cpuid).
Proof. unfold phase_sysinfo. spare. apply spares_in_console. by apply spares_zoom_apart. Qed.

Lemma spares_phase_cpu : spares boot_drive (phase_cpu (G := G)).
Proof.
  unfold phase_cpu. spare.
  - by apply spares_modify.
  - by apply spares_zoom_apart.
  - apply (spares_zoom _ (λ cpe, hw cpe.1.2)); [by intros b [[c p] e]|]. apply spares_interrupts.
Qed.

Lemma spares_phase_pci : spares boot_drive phase_pci.
Proof. unfold phase_pci. spare. apply spares_on_ports, spares_scan. Qed.

Lemma spares_phase_shell : spares boot_drive phase_shell.
Proof. unfold phase_shell, boot_clear_screen. spare. by apply spares_zoom_apart. Qed.

(** ** The disk *)

Definition boot_ata (b : BootState P T) : option AtaDriver := ata (c_system (bs_console b)).

(** The driver has found the drive, which is ready and has its sectors as they were in [b]. *)
Definition disk_found (b b1 : BootState P T) : Prop :=
  ∃ d, boot_ata b1 = Some d ∧ ata_status d = Ready ∧ identified (primary_master d) ∧
    ready (boot_drive b1) ∧ hw_sectors (boot_drive b1) = hw_sectors (boot_drive b).

Lemma storage_finds (b b' : BootState P T) r :
  (hw_reset_latency ≤ 8)%nat → phase_storage b = Ret (r, b') → disk_found b b'.
Proof.
  unfold phase_storage. intros Hlat (u & b1 & Hr1 & (o & b2 & Hr2 & Hr3)%bind_inv)%bind_inv.
  pose proof (spares_progress _ _ _ _ _ Hr1) as Hk1. pose proof (spares_say _ _ _ _ Hr3) as Hk3.
  assert (Hata : boot_ata b' = boot_ata b2).
  { refine (spares_zoom_apart boot_ata _ _ _ _ b2 r b' Hr3). done. }
  destruct (AtaDriver_init_finds AtaDriver_new (boot_ports b1) Hlat) as (d & p & Hi & Hst & Hid & _ & Hrd & Hs).
  assert (Hb2 : b2 = set_console (set_system (mkAtaSystem (Some d) p) (bs_console b1)) b1).
  { revert Hr2. unfold in_console, on_system. erewrite zoom_Ret; [by intros [= _ <-]|]. apply zoom_Ret.
    unfold init_ata_driver, on_machine. unfold boot_ports in Hi. erewrite bind_Ret; [|by rewrite Hi].
    cbn beta match. by rewrite bind_modify. }
  exists d. rewrite Hata, Hk3, <- Hk1, Hb2. by split_and!.
Qed.

Lemma devices_find hvm (b b1 : BootState P T) :
  (hw_reset_latency ≤ 8)%nat → boot_devices (G := G) cpuid hvm b = Ret (tt, b1) → disk_found b b1.
Proof.
  unfold boot_devices. intros Hlat (? & s1 & H1' & (? & s2 & H2' & (? & s3 & H3' & (? & s4 & H4' & (? & s5 & H5' & H6')%bind_inv)%bind_inv)%bind_inv)%bind_inv)%bind_inv.
  destruct (storage_finds _ _ _ Hlat H6') as (d & Ha & Hst & Hid & Hrd & Hs). exists d. split_and!; [done..|]. rewrite Hs.
  by rewrite (spares_phase_pci _ _ _ H5'), (spares_phase_cpu _ _ _ H4'), (spares_phase_sysinfo _ _ _ H3'),
    (spares_phase_memory _ _ _ _ H2'), (spares_phase_output _ _ _ H1').
Qed.

(** What the first sector of a disk makes of it. *)
Definition volume_of (bs : list Z) : result Fat32Fs string :=
  match Bpb_from_bytes bs with
  | Some fsb => Ok (mkFat32Fs fsb 0)
  | None => Err "Not a FAT32 filesystem"%string
  end.

(** The file system the kernel starts with: none, when [init_vfs] cannot divide. *)
Definition first_vfs (bs : list Z) : option VfsManager :=
  match volume_of bs with
  | Ok fs =>
      if sectors_per_cluster (bpb fs) =? 0 then None
      else Some (mkVfs (bytes_of "/") (Some fs) (root_cluster (bpb fs)) [] 3 (bytes_of "/"))
  | Err _ => Some unmounted
  end.

(** Mounting reads the first sector, and nothing else. *)
Lemma init_vfs_reads (s : AtaSystem P) bs :
  ata_working s → hw_sectors (hw (machine s)) !! 0 = Some bs → sector_ok bs →
  ∃ s', mount 0 s = Ret (volume_of bs, s') ∧
    ata s' = ata s ∧ ready (hw (machine s')) ∧ hw_sectors (hw (machine s')) = hw_sectors (hw (machine s)) ∧
    init_vfs s = match first_vfs bs with Some v => Ret (v, s') | None => Panic end.
Proof.
  intros Hw Hs Hok. destruct (ata_reads s 0 bs Hw Hs ltac:(lia) Hok) as (s' & Hread & Ha & Hr & Hh).
  assert (Hmount : mount 0 s = Ret (volume_of bs, s')).
  { unfold mount, map_err. rewrite bind_assoc, (bind_Ret _ _ _ _ _ Hread), bind_mret, bind_mret.
    unfold volume_of. by destruct (Bpb_from_bytes bs). }
  exists s'. split_and!; [done..|]. unfold init_vfs, first_vfs. rewrite (bind_Ret _ _ _ _ _ Hmount).
  unfold volume_of. destruct (Bpb_from_bytes bs) as [fsb|]; [|done]. cbn [bpb]. unfold total_clusters, div_rust.
  by destruct (sectors_per_cluster fsb =? 0).
Qed.

(** Finishing the boot leaves the driver as it is. *)
Lemma spares_ata_shell : spares boot_ata phase_shell.
Proof. unfold phase_shell, boot_clear_screen, progress, say, on_ports. spare; by apply spares_zoom_apart. Qed.

(** The rest of the boot leaves the drive and its driver as the mount left them. *)
Lemma main_system hvm rsi (b b1 b2 : BootState P T) m d t :
  boot_devices (G := G) cpuid hvm b = Ret (tt, b1) → init_vfs (c_system (bs_console b1)) = Ret (m, d) →
  arcadia_kernel_main (G := G) cpuid hvm rsi b = Ret (t, b2) →
  hw (machine (c_system (bs_console b2))) = hw (machine d) ∧ boot_ata b2 = ata d.
Proof.
  intros Hdev Hvfs. unfold arcadia_kernel_main. rewrite (bind_Ret _ _ _ _ _ Hdev).
  intros (? & b' & Hr & Hshell)%bind_inv. pose proof (spares_phase_shell _ _ _ Hshell) as Hk.
  rewrite (spares_ata_shell _ _ _ Hshell). unfold boot_drive, console_drive in Hk. rewrite Hk. revert Hr. unfold phase_vfs.
  erewrite bind_Ret; [|apply zoom_Ret, zoom_Ret; exact Hvfs]. by intros [= _ <-].
Qed.

(** C8. The boot of a machine with a drive that is done with a reset within the eight status
    reads that the driver allows it. Whatever the other devices answer, the phases before
    the disk leave the drive alone, and the driver finds it by IDENTIFY as the primary
    master; the first sector alone decides how the boot goes on. It reaches the prompt with
    the FAT32 volume mounted at its root directory, or without a file system when the
    sector is not one of FAT32; for a FAT32 sector with no sectors per cluster it panics,
    once the sector is read. In each case no sector has changed, and at the prompt the
    drive is ready for the commands. *)
Theorem boot_mounts_volume hvm rsi regions (b : BootState P T) bs :
  (hw_reset_latency ≤ 8)%nat →
  bootable cpuid hvm regions b → hw_sectors (boot_drive b) !! 0 = Some bs → sector_ok bs →
  let main := arcadia_kernel_main (G := G) cpuid hvm rsi b in
  ∃ b1 s, boot_devices (G := G) cpuid hvm b = Ret (tt, b1) ∧ disk_found b b1 ∧
    mount 0 (c_system (bs_console b1)) = Ret (volume_of bs, s) ∧
    hw_sectors (hw (machine s)) = hw_sectors (boot_drive b) ∧
    match first_vfs bs with
    | None => main = Panic
    | Some vfs =>
        ∃ b2, main = Ret (Terminal_new, b2) ∧ booted (detect_total_memory cpuid) regions b b2 ∧
          c_vfs (bs_console b2) = Some vfs ∧ disk_found b b2
    end.
Proof.
  intros Hlat Hb Hbs Hok main. destruct (devices_steps (G := G) cpuid hvm regions b Hb) as (b1 & _ & _ & _ & _ & _ & _ & _ & Hrun & _).
  pose proof (devices_find _ _ _ Hlat Hrun) as Hfound. destruct (Hfound) as (d & Ha & Hst & Hid & Hrd & Hs).
  destruct (init_vfs_reads (c_system (bs_console b1)) bs) as (s & Hmount & Ha' & Hrd' & Hs' & Hvfs).
  { split; [by exists d|exact Hrd]. }
  { unfold boot_drive, console_drive in Hs, Hbs. by rewrite Hs. }
  { exact Hok. }
  exists b1, s. split_and!; [done..|by rewrite Hs', <- Hs|]. destruct (first_vfs bs) as [v|].
  - destruct (main_finishes (G := G) cpuid hvm rsi regions b b1 _ s Hb Hrun Hvfs) as (b2 & Hm & Hbo & Hv & _).
    destruct (main_system hvm rsi _ _ _ _ _ _ Hrun Hvfs Hm) as [Hd2 Ha2].
    exists b2. split_and!; [done..|]. exists d. unfold boot_drive, console_drive in *.
    rewrite Ha2, Hd2, Ha'. split_and!; [done..|by rewrite Hs'].
  - unfold main, arcadia_kernel_main. rewrite (bind_Ret _ _ _ _ _ Hrun). apply bind_Panic. unfold phase_vfs.
    apply bind_Panic. unfold in_console, on_system, zoom. by rewrite Hvfs.
Qed.

End Boot.

(** ** A machine with a drive *)

#[local] Existing Instance phys52.
#[local] Existing Instance phys52_laws.

#[export] Instance drive_answers : PortsAnswer AtaHw.
Proof.
  split; intros; cbn [inb outb inw outw inl outl drive_ports]; repeat case_match; try by repeat eexists.
  destruct (hw_data_in p) as [w h]. by repeat eexists.
Qed.

#[export] Instance drive_alone : DriveAlone AtaHw.
Proof.
  split; intros port; unfold drive_port, PRIMARY_BASE, PRIMARY_CONTROL.
  - intros Hp s a s'. cbn [inb drive_ports]. unfold PRIMARY_BASE, PRIMARY_CONTROL. repeat case_match; try lia. by intros [= _ <-].
  - intros v Hp s a s'. cbn [outb drive_ports]. unfold PRIMARY_BASE, PRIMARY_CONTROL. repeat case_match; try lia.
    unfold hw_set, store_reg. repeat case_match; try lia; by intros [= _ <-].
  - intros Hp s a s'. cbn [inw drive_ports]. unfold PRIMARY_BASE. case_match; [lia|]. by intros [= _ <-].
  - intros Hp s a s'. by intros [= _ <-].
  - intros v Hp s a s'. by intros [= _ <-].
Qed.

#[export] Instance drive_pics : Pics AtaHw := {
  notify_end_of_interrupt _ h := Ret (tt, h);
  pics_initialize h := Ret (tt, h);
}.

#[export] Instance drive_pics_answer : PicsAnswer AtaHw.
Proof. split. intros h. by exists h. Qed.

#[export] Instance drive_pics_alone : PicsAlone AtaHw.
Proof. split. by intros s a s' [= _ <-]. Qed.

(** A boot sector: one sector per cluster, one sector per table, the root at cluster 2. *)
Definition w_fat_sector : list Z :=
  <[13%nat := 1]> (<[36%nat := 1]> (<[44%nat := 2]> (zrepeat 82 0))) ++ bytes_of "FAT32   " ++ zrepeat 422 0.

Definition w_disk_boot : BootState AtaHw SmallTables :=
  mkBoot
    (mkConsole (mkKernel table_new 0 0 0 false 0 w_mem w_global 0x100000 0 []) None
      (mkAtaSystem None (mkHw 0 0 0 0 Idle 0 {[ 0 := w_fat_sector ]}))
      Clock_new (mkSys None None None) (mkVmmGlobal None false) (vs_pt w_mapped) Vga.w_writer)
    (zrepeat VGA_WINDOW 0) (mkTss 0 0 0x70000) None None false None.

Lemma w_disk_bootable : bootable w_cpuid 32 [w_region] w_disk_boot.
Proof. destruct w_bootable as [H1 H2 H3 H4 H5 H6 H7 H8]. split; [exact H1|exact H2|exact H3|exact H4|exact H5|exact H6|exact H7|exact H8]. Qed.

Lemma boot_mounts_volume_witness :
  ∃ b2 fs, arcadia_kernel_main (G := Z) w_cpuid 32 0 w_disk_boot = Ret (Terminal_new, b2) ∧
    c_vfs (bs_console b2) = Some (mkVfs (bytes_of "/") (Some fs) 2 [] 3 (bytes_of "/")) ∧
    is_Some (boot_ata b2) ∧ hw_sectors (boot_drive b2) = {[ 0 := w_fat_sector ]}.
Proof.
  assert (Hok : sector_ok w_fat_sector).
  { split; [reflexivity|]. unfold bytes. apply (bool_decide_unpack _). vm_compute. reflexivity. }
  assert (Hlat : (hw_reset_latency (P := AtaHw) ≤ 8)%nat) by (cbn; lia).
  destruct (boot_mounts_volume (G := Z) w_cpuid 32 0 [w_region] w_disk_boot w_fat_sector Hlat w_disk_bootable
    (lookup_singleton_eq 0 w_fat_sector) Hok) as (b1 & s & _ & _ & _ & _ & Hmain).
  assert (Hvfs : ∃ fs, first_vfs w_fat_sector = Some (mkVfs (bytes_of "/") (Some fs) 2 [] 3 (bytes_of "/"))).
  { eexists. vm_compute. reflexivity. }
  destruct Hvfs as [fs Hvfs]. rewrite Hvfs in Hmain.
  destruct Hmain as (b2 & Hr & _ & Hv & d & Ha & _ & _ & _ & Hs). exists b2, fs.
  split; [exact Hr|]. split; [exact Hv|]. split; [by exists d|]. exact Hs.
Defined.
