(* ===== verification/BootStub.v ===== *)
(** * From the PVH entry to the kernel (kernel/src/arch/boot64.asm)

    The boot stub, instruction by instruction, on a processor with control registers,
    segments and paging. A fault is [Panic]: there is no interrupt table yet. *)

From stdpp Require Import base numbers list gmap strings.
From S2P Require Import Prelude Regions Machine.

#[local] Open Scope Z_scope.
#[local] Open Scope rust_scope.

(** ** The processor *)

Inductive seg := CS | DS | ES | FS | GS | SS.
Inductive creg := CR0 | CR3 | CR4.

#[export] Instance seg_eq_dec : EqDecision seg.
Proof. solve_decision. Defined.

(** The registers of the system: the cached descriptors of the segments, the table they
    are loaded from, IF and DF. *)
Record Control := mkControl {
  cr0 : Z;
  cr3 : Z;
  cr4 : Z;
  efer : Z;
  gdtr_limit : Z;
  gdtr_base : Z;
  descriptors : seg → Z;
  if_flag : bool;
  df_flag : bool;
}.

Record Stub := mkStub { s_cpu : Cpu; s_ctl : Control }.

Definition get_cr (c : creg) (k : Control) : Z := match c with CR0 => cr0 k | CR3 => cr3 k | CR4 => cr4 k end.

Definition put_cr (c : creg) (v : Z) (k : Control) : Control :=
  match c with
  | CR0 => mkControl v (cr3 k) (cr4 k) (efer k) (gdtr_limit k) (gdtr_base k) (descriptors k) (if_flag k) (df_flag k)
  | CR3 => mkControl (cr0 k) v (cr4 k) (efer k) (gdtr_limit k) (gdtr_base k) (descriptors k) (if_flag k) (df_flag k)
  | CR4 => mkControl (cr0 k) (cr3 k) v (efer k) (gdtr_limit k) (gdtr_base k) (descriptors k) (if_flag k) (df_flag k)
  end.
Definition put_efer (v : Z) (k : Control) : Control :=
  mkControl (cr0 k) (cr3 k) (cr4 k) v (gdtr_limit k) (gdtr_base k) (descriptors k) (if_flag k) (df_flag k).
Definition put_gdtr (limit base : Z) (k : Control) : Control :=
  mkControl (cr0 k) (cr3 k) (cr4 k) (efer k) limit base (descriptors k) (if_flag k) (df_flag k).
Definition put_desc (s : seg) (d : Z) (k : Control) : Control :=
  mkControl (cr0 k) (cr3 k) (cr4 k) (efer k) (gdtr_limit k) (gdtr_base k)
    (λ s', if decide (s = s') then d else descriptors k s') (if_flag k) (df_flag k).
Definition put_if (b : bool) (k : Control) : Control :=
  mkControl (cr0 k) (cr3 k) (cr4 k) (efer k) (gdtr_limit k) (gdtr_base k) (descriptors k) b (df_flag k).

Definition on_cpu (f : Cpu → Cpu) (s : Stub) : Stub := mkStub (f (s_cpu s)) (s_ctl s).
Definition on_ctl (f : Control → Control) (s : Stub) : Stub := mkStub (s_cpu s) (f (s_ctl s)).
Definition reg_of (r : reg) (s : Stub) : Z := regs (s_cpu s) r.
Definition mem_of (s : Stub) : Memory := memory (s_cpu s).

(** A register of [w] bits: a 32-bit result clears the upper half, a 16-bit one keeps it. *)
Definition get_reg (w : Z) (r : reg) (s : Stub) : Z := wrap w (reg_of r s).
Definition put_reg (w : Z) (r : reg) (v : Z) (s : Stub) : Stub :=
  on_cpu (set_reg r (if w =? 16 then reg_of r s - wrap 16 (reg_of r s) + wrap 16 v else wrap w v)) s.

(** CR0.PG, EFER.LME with CR0.PG, and a code segment with its L bit. *)
Definition paging (k : Control) : bool := Z.testbit (cr0 k) 31.
Definition in_long (k : Control) : bool := paging k && Z.testbit (efer k) 8.
Definition in_64 (k : Control) : bool := in_long k && Z.testbit (descriptors k CS) 53.
Definition width (k : Control) : Z := if in_64 k then 64 else 32.

(** ** Addresses *)

Definition physical (k : Control) (need : Z) (m : Memory) (a : Z) : option Z :=
  if paging k then walk need m (cr3 k) a else Some a.

(** The base of a segment, out of its descriptor; 64-bit code has none. *)
Definition seg_base (d : Z) : Z := Z.land (Z.shiftr d 16) 0xFFFFFF + Z.shiftl (Z.land (Z.shiftr d 56) 0xFF) 24.
Definition linear (k : Control) (s : seg) (off : Z) : Z :=
  if in_64 k then off else wrap 32 (seg_base (descriptors k s) + off).

Fixpoint read_bytes (k : Control) (m : Memory) (a : Z) (n : nat) : outcome (list Z) :=
  match n with
  | O => Ret []
  | S n =>
      match physical k FOR_READ m a with
      | None => Panic
      | Some p => l ← read_bytes k m (a + 1) n; Ret (m p :: l)
      end
  end.

Fixpoint write_bytes (k : Control) (m : Memory) (a : Z) (l : list Z) : outcome Memory :=
  match l with
  | [] => Ret m
  | v :: l =>
      match physical k FOR_WRITE m a with
      | None => Panic
      | Some p => write_bytes k (store m p [v]) (a + 1) l
      end
  end.

Definition vread (a : Z) (n : nat) : M Stub (list Z) := λ s,
  match read_bytes (s_ctl s) (mem_of s) a n with
  | Ret l => Ret (l, s) | Panic => Panic | UB => UB | OutOfFuel => OutOfFuel
  end.
Definition vwrite (a : Z) (l : list Z) : M Stub unit := λ s,
  match write_bytes (s_ctl s) (mem_of s) a l with
  | Ret m => Ret (tt, on_cpu (set_mem m) s) | Panic => Panic | UB => UB | OutOfFuel => OutOfFuel
  end.

(** ** Instructions *)

Inductive binstr :=
  | Cli
  | MovReg (w : Z) (r r' : reg)
  | MovImm (w : Z) (r : reg) (v : Z)
  | MovSeg (s : seg) (r : reg)
  | MovFromCr (r : reg) (c : creg)
  | MovToCr (c : creg) (r : reg)
  | OrImm (w : Z) (r : reg) (v : Z)
  | AndImm (w : Z) (r : reg) (v : Z)
  | ShrImm (w : Z) (r : reg) (n : Z)
  | SubReg (w : Z) (r r' : reg)
  | XorReg (w : Z) (r r' : reg)
  | StoreImm (a v : Z)
  | Lgdt (a : Z)
  | Rdmsr
  | Wrmsr
  | RepMovs (n : nat)
  | RepStos (n : nat)
  | JmpFar (sel : Z)
  | Call (return_addr : Z).

Definition IA32_EFER : Z := 0xC0000080.

(** The descriptor that a selector names, in the table of the GDTR. *)
Definition descriptor (sel : Z) : M Stub Z :=
  k ← gets s_ctl;
  if gdtr_limit k <? sel + 7 then (liftO Panic) else
  l ← vread (gdtr_base k + sel) 8;
  mret (le_val l).

(** Present and of a code or data segment; a code segment; a writable data segment. *)
Definition desc_present (d : Z) : bool := Z.testbit d 47 && Z.testbit d 44.
Definition desc_code (d : Z) : bool := desc_present d && Z.testbit d 43.
Definition desc_data (d : Z) : bool := desc_present d && negb (Z.testbit d 43) && Z.testbit d 41.

(** [n] bytes further, or back with DF. *)
Definition advance (r : reg) (n : nat) (s : Stub) : Stub :=
  let w := width (s_ctl s) in
  put_reg w r (if df_flag (s_ctl s) then reg_of r s - Z.of_nat n else reg_of r s + Z.of_nat n) s.

Definition movs (n : nat) : M Stub unit :=
  s ← get;
  l ← vread (linear (s_ctl s) DS (get_reg (width (s_ctl s)) RSI s)) n;
  _ ← vwrite (linear (s_ctl s) ES (get_reg (width (s_ctl s)) RDI s)) l;
  _ ← modify (advance RSI n);
  modify (advance RDI n).

Definition stos (n : nat) : M Stub unit :=
  s ← get;
  _ ← vwrite (linear (s_ctl s) ES (get_reg (width (s_ctl s)) RDI s)) (le_bytes n (reg_of RAX s));
  modify (advance RDI n).

(** [rep]: RCX times, counting down. *)
Fixpoint repeat_n (n : nat) (body : M Stub unit) : M Stub unit :=
  match n with
  | O => mret tt
  | S n =>
      _ ← body;
      _ ← modify (λ s, put_reg (width (s_ctl s)) RCX (reg_of RCX s - 1) s);
      repeat_n n body
  end.
Definition rep (body : M Stub unit) : M Stub unit :=
  n ← gets (λ s, Z.to_nat (get_reg (width (s_ctl s)) RCX s));
  repeat_n n body.

(** [mov cr0]: paging needs protection, and in long mode PAE. *)
Definition cr_allowed (c : creg) (v : Z) (k : Control) : bool :=
  match c with
  | CR0 => negb (Z.testbit v 31) || (Z.testbit v 0 && (negb (Z.testbit (efer k) 8) || Z.testbit (cr4 k) 5))
  | _ => true
  end.

Definition exec_boot (i : binstr) : M Stub unit :=
  match i with
  | Cli => modify (on_ctl (put_if false))
  | MovReg w r r' => modify (λ s, put_reg w r (get_reg w r' s) s)
  | MovImm w r v => modify (put_reg w r v)
  | MovSeg sg r =>
      sel ← gets (get_reg 16 r);
      d ← descriptor sel;
      if desc_data d then modify (on_ctl (put_desc sg d)) else (liftO Panic)
  | MovFromCr r c => modify (λ s, put_reg 32 r (get_cr c (s_ctl s)) s)
  | MovToCr c r =>
      s ← get;
      if cr_allowed c (get_reg 32 r s) (s_ctl s)
      then put (on_ctl (put_cr c (get_reg 32 r s)) s) else (liftO Panic)
  | OrImm w r v => modify (λ s, put_reg w r (Z.lor (get_reg w r s) v) s)
  | AndImm w r v => modify (λ s, put_reg w r (Z.land (get_reg w r s) v) s)
  | ShrImm w r n => modify (λ s, put_reg w r (Z.shiftr (get_reg w r s) n) s)
  | SubReg w r r' => modify (λ s, put_reg w r (get_reg w r s - get_reg w r' s) s)
  | XorReg w r r' => modify (λ s, put_reg w r (Z.lxor (get_reg w r s) (get_reg w r' s)) s)
  | StoreImm a v =>
      k ← gets s_ctl;
      vwrite (linear k DS a) (le_bytes 4 v)
  | Lgdt a =>
      k ← gets s_ctl;
      limit ← vread (linear k DS a) 2;
      base ← vread (linear k DS (a + 2)) 4;
      modify (on_ctl (put_gdtr (le_val limit) (le_val base)))
  | Rdmsr =>
      s ← get;
      if get_reg 32 RCX s =? IA32_EFER
      then put (put_reg 32 RDX (Z.shiftr (efer (s_ctl s)) 32) (put_reg 32 RAX (efer (s_ctl s)) s))
      else (liftO Panic)
  | Wrmsr =>
      s ← get;
      if get_reg 32 RCX s =? IA32_EFER
      then put (on_ctl (put_efer (Z.lor (Z.shiftl (get_reg 32 RDX s) 32) (get_reg 32 RAX s))) s)
      else (liftO Panic)
  | RepMovs n => rep (movs n)
  | RepStos n => rep (stos n)
  | JmpFar sel =>
      d ← descriptor sel;
      if desc_code d && negb (Z.testbit d 53 && Z.testbit d 54)
      then modify (on_ctl (put_desc CS d)) else (liftO Panic)
  | Call ret =>
      sp ← gets (λ s, reg_of RSP s -₆₄ 8);
      _ ← vwrite sp (le_bytes 8 ret);
      modify (put_reg 64 RSP sp)
  end.

(** ** The stub *)

(** Where the linker put the stub's data, the zeroed section, and the instruction after
    the call. *)
Record Image := mkImage {
  i_gdt64 : Z;
  i_gdt64_ptr : Z;
  i_bss_start : Z;
  i_bss_end : Z;
  i_halt : Z;
}.

(** [gdt64] and [gdt64_ptr] *)
Definition gdt64 : list Z :=
  le_bytes 8 0 ++
  le_bytes 2 0xFFFF ++ le_bytes 2 0 ++ [0; 0x9A; 0xAF; 0] ++
  le_bytes 2 0xFFFF ++ le_bytes 2 0 ++ [0; 0x92; 0xCF; 0].
Definition gdt64_ptr (img : Image) : list Z := le_bytes 2 (zlen gdt64 - 1) ++ le_bytes 8 (i_gdt64 img).

Definition save_info : list binstr :=
  [Cli; MovReg 32 RSI RBX; MovImm 32 RDI 0x500; MovImm 32 RCX 64; RepMovs 4].

Definition load_gdt (img : Image) : list binstr :=
  [Lgdt (i_gdt64_ptr img); MovImm 16 RAX 0x10; MovSeg DS RAX; MovSeg ES RAX; MovSeg FS RAX; MovSeg GS RAX;
   MovSeg SS RAX; MovFromCr RAX CR4; OrImm 32 RAX (Z.shiftl 1 5); MovToCr CR4 RAX].

Definition build_tables : list binstr :=
  [MovImm 32 RDI 0x1000; MovImm 32 RCX (4096 * 3 / 4); XorReg 32 RAX RAX; RepStos 4;
   StoreImm 0x1000 0x2003; StoreImm 0x2000 0x3003; StoreImm 0x3000 0x83; StoreImm 0x3008 0x200083;
   StoreImm 0x3010 0x400083].

Definition enter_long : list binstr :=
  [MovImm 32 RAX 0x1000; MovToCr CR3 RAX; MovImm 32 RCX 0xC0000080; Rdmsr; OrImm 32 RAX (Z.shiftl 1 8); Wrmsr;
   MovFromCr RAX CR0; OrImm 32 RAX (Z.lor (Z.shiftl 1 31) (Z.shiftl 1 0)); MovToCr CR0 RAX; JmpFar 0x08].

Definition clear_bss (img : Image) : list binstr :=
  [MovImm 64 RSP 0x80000; MovImm 64 RBX 0x500; MovImm 64 RDI (i_bss_start img); MovImm 64 RCX (i_bss_end img);
   SubReg 64 RCX RDI; MovReg 64 R8 RCX; ShrImm 64 RCX 3; XorReg 64 RAX RAX; RepStos 8;
   AndImm 64 R8 7; MovReg 64 RCX R8; RepStos 1].

Definition call_main (img : Image) : list binstr :=
  [MovReg 64 RDI RBX; XorReg 64 RSI RSI; Call (i_halt img)].

(** [_pvh_start], up to the first instruction of [arcadia_kernel_main]. *)
Definition pvh_start (img : Image) : list binstr :=
  save_info ++ load_gdt img ++ build_tables ++ enter_long ++ clear_bss img ++ call_main img.

Definition run_boot (l : list binstr) : M Stub unit := mfor l exec_boot.

(** ** What the stub leaves in memory *)

(** [t] on the addresses from [lo] below [hi]. *)
Definition overlay (lo hi : Z) (t m : Memory) : Memory := λ x, if (lo <=? x) && (x <? hi) then t x else m x.

(** The tables of the stub: 0x2003 at 0x1000, 0x3003 at 0x2000, and three pages of 2 MiB. *)
Definition boot_tables : Memory :=
  store (store (store (store (store (λ _, 0) 0x1000 (le_bytes 4 0x2003)) 0x2000 (le_bytes 4 0x3003))
    0x3000 (le_bytes 4 0x83)) 0x3008 (le_bytes 4 0x200083)) 0x3010 (le_bytes 4 0x400083).

(** The saved start info, the tables, the zeroed section and the return address, over the
    memory that the loader left. *)
Definition stub_memory (img : Image) (ebx : Z) (m : Memory) : Memory :=
  store
    (overlay (i_bss_start img) (i_bss_end img) (λ _, 0)
      (overlay 0x1000 0x4000 boot_tables
        (overlay 0x500 0x600 (λ x, m (ebx + (x - 0x500))) m)))
    0x7FFF8 (le_bytes 8 (i_halt img)).
