(* ===== verification/StubTheorems.v ===== *)
(** * The boot stub enters the kernel

    The stub on an abstract view of the processor: what the registers and the bytes of
    memory are after each instruction, the loops of [rep], and the whole run. *)

From stdpp Require Import base numbers list gmap strings.
From S2P Require Import Prelude Regions Machine BootStub.

#[local] Open Scope Z_scope.
#[local] Open Scope rust_scope.

(** ** Memory *)

Lemma store_ext m m' a l : (∀ x, m x = m' x) → ∀ x, store m a l x = store m' a l x.
Proof. intros Hm x. unfold store. by destruct (_ && _). Qed.

Lemma overlay_in lo hi t m x : lo ≤ x < hi → overlay lo hi t m x = t x.
Proof. intros Hx. unfold overlay. destruct (Z.leb_spec lo x), (Z.ltb_spec x hi); cbn; (lia || done). Qed.

Lemma overlay_out lo hi t m x : x < lo ∨ hi ≤ x → overlay lo hi t m x = m x.
Proof. intros Hx. unfold overlay. destruct (Z.leb_spec lo x), (Z.ltb_spec x hi); cbn; (lia || done). Qed.

Lemma overlay_ext lo hi t t' m m' :
  (∀ x, lo ≤ x < hi → t x = t' x) → (∀ x, x < lo ∨ hi ≤ x → m x = m' x) →
  ∀ x, overlay lo hi t m x = overlay lo hi t' m' x.
Proof.
  intros Ht Hm x. unfold overlay. destruct (Z.leb_spec lo x), (Z.ltb_spec x hi); cbn; auto with lia.
Qed.

(** A store inside the region changes the overlay. *)
Lemma overlay_store lo hi t m a l :
  lo ≤ a → a + zlen l ≤ hi → ∀ x, store (overlay lo hi t m) a l x = overlay lo hi (store t a l) m x.
Proof.
  intros Hlo Hhi x. unfold store, overlay.
  destruct (Z.leb_spec a x), (Z.ltb_spec x (a + zlen l)), (Z.leb_spec lo x), (Z.ltb_spec x hi); cbn; (lia || done).
Qed.

(** Regions next to each other. *)
Lemma overlay_join lo mid hi t m :
  lo ≤ mid ≤ hi → ∀ x, overlay mid hi t (overlay lo mid t m) x = overlay lo hi t m x.
Proof.
  intros Hm x. unfold overlay.
  destruct (Z.leb_spec mid x), (Z.ltb_spec x hi), (Z.leb_spec lo x), (Z.ltb_spec x mid); cbn; (lia || done).
Qed.

Lemma overlay_empty lo t m x : overlay lo lo t m x = m x.
Proof. apply overlay_out. lia. Qed.

Lemma store_cons m a v l x : store (store m a [v]) (a + 1) l x = store m a (v :: l) x.
Proof.
  pose proof (zlen_nonneg l). destruct (decide (a + 1 ≤ x < a + 1 + zlen l)) as [Hx|Hx].
  - rewrite !store_at by (rewrite ?zlen_cons; lia).
    by replace (Z.to_nat (x - a)) with (S (Z.to_nat (x - (a + 1)))) by lia.
  - rewrite (store_other _ (a + 1)) by lia. destruct (decide (x = a)) as [->|Hne].
    + rewrite !store_at by (rewrite ?zlen_cons; rewrite ?zlen_nil; lia). by replace (a - a) with 0 by lia.
    + by rewrite !store_other by (rewrite ?zlen_cons; rewrite ?zlen_nil; lia).
Qed.

(** ** Reads and writes through the tables *)

(** On [lo] to [hi], the memories of [I] translate addresses to themselves, and stay so. *)
Record identity (k : Control) (I : Memory → Prop) (lo hi : Z) : Prop := {
  id_read : ∀ m a, I m → lo ≤ a < hi → physical k FOR_READ m a = Some a;
  id_write : ∀ m a, I m → lo ≤ a < hi → physical k FOR_WRITE m a = Some a;
  id_store : ∀ m a v, I m → lo ≤ a < hi → I (store m a [v]);
  id_ext : ∀ m m', I m → (∀ x, m x = m' x) → I m';
}.

Lemma identity_unpaged k lo hi : paging k = false → identity k (λ _, True) lo hi.
Proof. intros Hk. by split; intros; unfold physical; rewrite ?Hk. Qed.

Lemma identity_sub k I lo hi lo' hi' : identity k I lo hi → lo ≤ lo' → hi' ≤ hi → identity k I lo' hi'.
Proof. intros [Hr Hw Hs He] ??. split; intros; [apply Hr|apply Hw|apply Hs|by eapply He]; (done || lia). Qed.

Section Bytes.
Context (k : Control) (I : Memory → Prop) (lo hi : Z) (Hid : identity k I lo hi).

Lemma read_bytes_ok n m a :
  I m → lo ≤ a → a + Z.of_nat n ≤ hi → read_bytes k m a n = Ret (load m a (Z.of_nat n)).
Proof.
  intros Hm. revert a. induction n as [|n IH]; intros a Ha Hn.
  { unfold load. by rewrite range_nil by lia. }
  cbn [read_bytes]. rewrite (id_read _ _ _ _ Hid) by (done || lia). rewrite IH by lia.
  unfold load at 2. rewrite range_cons by lia. cbn [mbind outcome_bind fmap list_fmap]. do 2 f_equal.
  unfold load. by replace (a + 1 + Z.of_nat n) with (a + Z.of_nat (S n)) by lia.
Qed.

Lemma write_bytes_ok l m a :
  I m → lo ≤ a → a + zlen l ≤ hi →
  ∃ m', write_bytes k m a l = Ret m' ∧ I m' ∧ ∀ x, m' x = store m a l x.
Proof.
  revert m a. induction l as [|v l IH]; intros m a Hm Ha Hl.
  { exists m. split; [done|]. split; [done|]. intros x. unfold store. change (zlen []) with 0.
    destruct (Z.leb_spec a x), (Z.ltb_spec x (a + 0)); cbn; (lia || done). }
  rewrite zlen_cons in Hl. pose proof (zlen_nonneg l). cbn [write_bytes].
  rewrite (id_write _ _ _ _ Hid) by (done || lia).
  destruct (IH (store m a [v]) (a + 1)) as (m' & Hr & Hi & Hx); [|lia|lia|].
  - apply (id_store _ _ _ _ Hid); [done|lia].
  - exists m'. split_and!; [done..|]. intros x. by rewrite Hx, store_cons.
Qed.

End Bytes.

(** ** The abstract view *)

Record Abs := mkAbs { a_regs : reg → Z; a_mem : Memory; a_ctl : Control }.

Definition upd (r : reg) (v : Z) (R : reg → Z) : reg → Z := λ r', if decide (r = r') then v else R r'.

Lemma upd_same r v R : upd r v R r = v.
Proof. unfold upd. by rewrite decide_True. Qed.

Lemma upd_other r r' v R : r ≠ r' → upd r v R r' = R r'.
Proof. intros Hr. unfold upd. by rewrite decide_False. Qed.

Record at_state (a : Abs) (s : Stub) : Prop := {
  at_regs : ∀ r, reg_of r s = a_regs a r;
  at_mem : ∀ x, mem_of s x = a_mem a x;
  at_ctl : s_ctl s = a_ctl a;
}.

(** From every state seen as [a], [m] leads to one seen as [b]. *)
Definition goes (m : M Stub unit) (a b : Abs) : Prop :=
  ∀ s, at_state a s → ∃ s', m s = Ret (tt, s') ∧ at_state b s'.

Lemma goes_nil a : goes (run_boot []) a a.
Proof. intros s Hs. by exists s. Qed.

Lemma goes_cons i l a b c : goes (exec_boot i) a b → goes (run_boot l) b c → goes (run_boot (i :: l)) a c.
Proof.
  intros Hi Hl s Hs. destruct (Hi s Hs) as (s1 & H1 & Hs1). destruct (Hl s1 Hs1) as (s2 & H2 & Hs2).
  exists s2. split; [|done]. unfold run_boot. cbn [mfor]. by rewrite (bind_Ret _ _ _ _ _ H1).
Qed.

Lemma goes_app l l' a b c : goes (run_boot l) a b → goes (run_boot l') b c → goes (run_boot (l ++ l')) a c.
Proof.
  intros Hl Hl' s Hs. destruct (Hl s Hs) as (s1 & H1 & Hs1). destruct (Hl' s1 Hs1) as (s2 & H2 & Hs2).
  exists s2. split; [|done]. unfold run_boot in *. rewrite mfor_app. by rewrite (bind_Ret _ _ _ _ _ H1).
Qed.

Lemma goes_mem m R k a mm mm' : (∀ x, mm x = mm' x) → goes m a (mkAbs R mm k) → goes m a (mkAbs R mm' k).
Proof.
  intros Hx Hm s Hs. destruct (Hm s Hs) as (s' & Hr & [H1 H2 H3]). exists s'. split; [done|].
  split; [done| |done]. intros x. cbn. rewrite <- Hx. apply H2.
Qed.

Lemma put_reg_at w r v R m k s :
  w ≠ 16 → at_state (mkAbs R m k) s → at_state (mkAbs (upd r (wrap w v) R) m k) (put_reg w r v s).
Proof.
  intros Hw [H1 H2 H3]. unfold put_reg. destruct (Z.eqb_spec w 16); [done|]. split; [|exact H2|exact H3].
  intros r'. cbn [a_regs] in *. unfold reg_of, on_cpu, set_reg, upd. cbn [s_cpu regs]. destruct (decide _); [done|].
  apply H1.
Qed.

Lemma on_ctl_at f R m k s :
  at_state (mkAbs R m k) s → at_state (mkAbs R m (f k)) (on_ctl f s).
Proof. intros [H1 H2 H3]. split; [exact H1|exact H2|]. cbn in *. by rewrite H3. Qed.

(** The instructions on registers: [f] is the value written. *)
Lemma goes_modify (f : Stub → Z) w r v R m k :
  w ≠ 16 → (∀ s, at_state (mkAbs R m k) s → f s = v) →
  goes (modify (λ s, put_reg w r (f s) s)) (mkAbs R m k) (mkAbs (upd r (wrap w v) R) m k).
Proof. intros Hw Hf s Hs. eexists. split; [reflexivity|]. rewrite (Hf s Hs). by apply put_reg_at. Qed.

Section Instructions.
Context (R : reg → Z) (m : Memory) (k : Control).

Abbreviation from := (mkAbs R m k).
Abbreviation sets r v := (mkAbs (upd r v R) m k).

Lemma get_reg_at w r s : at_state from s → get_reg w r s = wrap w (R r).
Proof. intros [H1 _ _]. unfold get_reg. by rewrite H1. Qed.

Lemma goes_MovReg w r r' : w ≠ 16 → goes (exec_boot (MovReg w r r')) from (sets r (wrap w (wrap w (R r')))).
Proof. intros Hw. apply goes_modify; [done|]. intros s Hs. by apply get_reg_at. Qed.

Lemma goes_MovImm w r v : w ≠ 16 → goes (exec_boot (MovImm w r v)) from (sets r (wrap w v)).
Proof. intros Hw. apply (goes_modify (λ _, v)); done. Qed.

(** A register of 16 bits keeps the rest of the full one. *)
Lemma goes_MovImm16 r v : goes (exec_boot (MovImm 16 r v)) from (sets r (R r - wrap 16 (R r) + wrap 16 v)).
Proof.
  intros s [H1 H2 H3]. eexists. split; [reflexivity|]. unfold put_reg. cbn [Z.eqb Pos.eqb]. rewrite H1.
  split; [|exact H2|exact H3]. intros r'. cbn [a_regs] in *. unfold reg_of, on_cpu, set_reg, upd. cbn [s_cpu regs].
  destruct (decide _); [done|]. apply H1.
Qed.

Lemma goes_MovFromCr r c : goes (exec_boot (MovFromCr r c)) from (sets r (wrap 32 (get_cr c k))).
Proof. apply goes_modify; [done|]. intros s [_ _ H3]. by rewrite H3. Qed.

Lemma goes_OrImm w r v : w ≠ 16 → goes (exec_boot (OrImm w r v)) from (sets r (wrap w (Z.lor (wrap w (R r)) v))).
Proof. intros Hw. apply goes_modify; [done|]. intros s Hs. by rewrite (get_reg_at w r s Hs). Qed.

Lemma goes_AndImm w r v : w ≠ 16 → goes (exec_boot (AndImm w r v)) from (sets r (wrap w (Z.land (wrap w (R r)) v))).
Proof. intros Hw. apply goes_modify; [done|]. intros s Hs. by rewrite (get_reg_at w r s Hs). Qed.

Lemma goes_ShrImm w r n : w ≠ 16 → goes (exec_boot (ShrImm w r n)) from (sets r (wrap w (Z.shiftr (wrap w (R r)) n))).
Proof. intros Hw. apply goes_modify; [done|]. intros s Hs. by rewrite (get_reg_at w r s Hs). Qed.

Lemma goes_SubReg w r r' :
  w ≠ 16 → goes (exec_boot (SubReg w r r')) from (sets r (wrap w (wrap w (R r) - wrap w (R r')))).
Proof. intros Hw. apply goes_modify; [done|]. intros s Hs. by rewrite !(get_reg_at w _ s Hs). Qed.

Lemma goes_XorSame w r : w ≠ 16 → goes (exec_boot (XorReg w r r)) from (sets r 0).
Proof.
  intros Hw. replace 0 with (wrap w (Z.lxor (wrap w (R r)) (wrap w (R r)))) by (rewrite Z.lxor_nilpotent; apply Zmod_0_l).
  apply goes_modify; [done|]. intros s Hs. by rewrite (get_reg_at w r s Hs).
Qed.

Lemma goes_Cli : goes (exec_boot Cli) from (mkAbs R m (put_if false k)).
Proof. intros s Hs. eexists. split; [reflexivity|]. by apply on_ctl_at. Qed.

Lemma goes_MovToCr c r :
  cr_allowed c (wrap 32 (R r)) k = true →
  goes (exec_boot (MovToCr c r)) from (mkAbs R m (put_cr c (wrap 32 (R r)) k)).
Proof.
  intros Hc s Hs. cbn [exec_boot]. rewrite bind_get, (get_reg_at 32 r s Hs), (at_ctl _ _ Hs).
  cbn [a_ctl]. rewrite Hc. eexists. split; [reflexivity|]. by apply on_ctl_at.
Qed.

Lemma goes_Rdmsr :
  wrap 32 (R RCX) = IA32_EFER →
  goes (exec_boot Rdmsr) from
    (mkAbs (upd RDX (wrap 32 (Z.shiftr (efer k) 32)) (upd RAX (wrap 32 (efer k)) R)) m k).
Proof.
  intros Hc s Hs. cbn [exec_boot]. rewrite bind_get, (get_reg_at 32 _ s Hs), Hc, (at_ctl _ _ Hs).
  cbn [a_ctl]. change (IA32_EFER =? IA32_EFER) with true. cbv iota. eexists. split; [reflexivity|].
  apply put_reg_at; [done|]. by apply put_reg_at.
Qed.

Lemma goes_Wrmsr :
  wrap 32 (R RCX) = IA32_EFER →
  goes (exec_boot Wrmsr) from
    (mkAbs R m (put_efer (Z.lor (Z.shiftl (wrap 32 (R RDX)) 32) (wrap 32 (R RAX))) k)).
Proof.
  intros Hc s Hs. cbn [exec_boot]. rewrite bind_get, !(get_reg_at 32 _ s Hs), Hc.
  change (IA32_EFER =? IA32_EFER) with true. cbv iota. eexists. split; [reflexivity|]. by apply on_ctl_at.
Qed.

End Instructions.

Lemma goes_ext m a R R' M M' k :
  (∀ r, R r = R' r) → (∀ x, M x = M' x) → goes m a (mkAbs R M k) → goes m a (mkAbs R' M' k).
Proof.
  intros HR HM Hm s Hs. destruct (Hm s Hs) as (s' & Hr & [H1 H2 H3]). exists s'. split; [done|]. split.
  - intros r. cbn. rewrite <- HR. apply H1.
  - intros x. cbn. rewrite <- HM. apply H2.
  - done.
Qed.

(** ** The instructions on memory *)

Lemma load_sub m a n l i j :
  load m a n = l → 0 ≤ i → 0 ≤ j → i + j ≤ n →
  load m (a + i) j = take (Z.to_nat j) (drop (Z.to_nat i) l).
Proof.
  intros <- Hi Hj Hn. unfold load. rewrite <- fmap_drop, <- fmap_take. f_equal.
  rewrite (range_split a (a + i) (a + n)) by lia. rewrite drop_app_length' by (rewrite length_range; lia).
  rewrite (range_split (a + i) (a + i + j) (a + n)) by lia. by rewrite take_app_length' by (rewrite length_range; lia).
Qed.

Definition flat (k : Control) (s : seg) : Prop := in_64 k = true ∨ seg_base (descriptors k s) = 0.

Lemma linear_flat k s a : flat k s → 0 ≤ a < 2 ^ 32 → linear k s a = a.
Proof.
  unfold flat, linear. intros Hk Ha. destruct (in_64 k); [done|]. destruct Hk as [|Hk]; [done|]. rewrite Hk.
  apply wrap_small. lia.
Qed.

Lemma wrap_width k z : 0 ≤ z < 2 ^ 32 → wrap (width k) z = z.
Proof. intros Hz. apply wrap_small. unfold width. destruct (in_64 k); lia. Qed.

Lemma width_not16 k : width k ≠ 16.
Proof. unfold width. by destruct (in_64 k). Qed.

Section Accesses.
Context (k : Control) (I : Memory → Prop) (lo hi : Z) (Hid : identity k I lo hi).

Lemma vread_ok R m s a n :
  at_state (mkAbs R m k) s → I m → lo ≤ a → a + Z.of_nat n ≤ hi →
  vread a n s = Ret (load m a (Z.of_nat n), s).
Proof.
  intros [_ H2 H3] Hm Ha Hn. cbn in H2, H3. unfold vread. rewrite H3.
  rewrite (read_bytes_ok k I lo hi Hid); [|eapply (id_ext _ _ _ _ Hid); [exact Hm|]; intros; by rewrite H2|done..].
  do 2 f_equal. apply load_ext. intros x _. apply H2.
Qed.

Lemma vwrite_ok R m s a l :
  at_state (mkAbs R m k) s → I m → lo ≤ a → a + zlen l ≤ hi →
  ∃ s', vwrite a l s = Ret (tt, s') ∧ at_state (mkAbs R (store m a l) k) s'.
Proof.
  intros [H1 H2 H3] Hm Ha Hl. cbn in H1, H2, H3. unfold vwrite. rewrite H3.
  destruct (write_bytes_ok k I lo hi Hid l (mem_of s) a) as (m' & Hr & _ & Hx); [|done..|].
  - eapply (id_ext _ _ _ _ Hid); [exact Hm|]. intros; by rewrite H2.
  - rewrite Hr. eexists. split; [reflexivity|]. split; [exact H1| |exact H3].
    intros x. cbn. rewrite Hx. by apply store_ext.
Qed.

Lemma store_keeps m a l : I m → lo ≤ a → a + zlen l ≤ hi → I (store m a l).
Proof.
  intros Hm Ha Hl. destruct (write_bytes_ok k I lo hi Hid l m a) as (m' & _ & Hi & Hx); [done..|].
  by eapply (id_ext _ _ _ _ Hid).
Qed.

Lemma goes_StoreImm R m a v :
  flat k DS → I m → lo ≤ a → a + 4 ≤ hi → 0 ≤ a < 2 ^ 32 →
  goes (exec_boot (StoreImm a v)) (mkAbs R m k) (mkAbs R (store m a (le_bytes 4 v)) k).
Proof.
  intros Hf Hm Hlo Hhi Ha s Hs. cbn [exec_boot]. rewrite bind_gets, (at_ctl _ _ Hs). cbn [a_ctl].
  rewrite linear_flat by done. by apply (vwrite_ok R m s).
Qed.

Lemma descriptor_ok R m s sel :
  at_state (mkAbs R m k) s → I m → lo ≤ gdtr_base k → gdtr_base k + 24 ≤ hi →
  gdtr_limit k = 23 → load m (gdtr_base k) 24 = gdt64 → 0 ≤ sel ≤ 16 →
  descriptor sel s = Ret (le_val (take 8 (drop (Z.to_nat sel) gdt64)), s).
Proof.
  intros Hs Hm Hlo Hhi Hl Hg Hsel. unfold descriptor. rewrite bind_gets, (at_ctl _ _ Hs). cbn [a_ctl]. rewrite Hl.
  destruct (Z.ltb_spec 23 (sel + 7)); [lia|].
  rewrite (bind_Ret _ _ _ _ _ (vread_ok R m s (gdtr_base k + sel) 8 Hs Hm ltac:(lia) ltac:(lia))).
  by rewrite (load_sub _ _ _ _ _ (Z.of_nat 8) Hg) by lia.
Qed.

(** The flat data segment of the table, and the 64-bit code segment. *)
Definition DATA : Z := 0x00CF92000000FFFF.
Definition CODE64 : Z := 0x00AF9A000000FFFF.

Lemma goes_MovSeg R m sg r :
  I m → lo ≤ gdtr_base k → gdtr_base k + 24 ≤ hi → gdtr_limit k = 23 → load m (gdtr_base k) 24 = gdt64 →
  wrap 16 (R r) = 16 →
  goes (exec_boot (MovSeg sg r)) (mkAbs R m k) (mkAbs R m (put_desc sg DATA k)).
Proof.
  intros Hm Hlo Hhi Hl Hg Hr s Hs. cbn [exec_boot]. rewrite bind_gets, (get_reg_at R m k 16 r s Hs), Hr.
  rewrite (bind_Ret _ _ _ _ _ (descriptor_ok R m s 16 Hs Hm Hlo Hhi Hl Hg ltac:(lia))).
  eexists. split; [reflexivity|]. exact (on_ctl_at (put_desc sg DATA) R m k s Hs).
Qed.

Lemma goes_JmpFar R m :
  I m → lo ≤ gdtr_base k → gdtr_base k + 24 ≤ hi → gdtr_limit k = 23 → load m (gdtr_base k) 24 = gdt64 →
  goes (exec_boot (JmpFar 0x08)) (mkAbs R m k) (mkAbs R m (put_desc CS CODE64 k)).
Proof.
  intros Hm Hlo Hhi Hl Hg s Hs. cbn [exec_boot].
  rewrite (bind_Ret _ _ _ _ _ (descriptor_ok R m s 8 Hs Hm Hlo Hhi Hl Hg ltac:(lia))).
  eexists. split; [reflexivity|]. exact (on_ctl_at (put_desc CS CODE64) R m k s Hs).
Qed.

Lemma goes_Lgdt R m a g :
  flat k DS → I m → lo ≤ a → a + 6 ≤ hi → 0 ≤ a → a + 2 < 2 ^ 32 → 0 ≤ g < 2 ^ 32 →
  load m a 10 = le_bytes 2 23 ++ le_bytes 8 g →
  goes (exec_boot (Lgdt a)) (mkAbs R m k) (mkAbs R m (put_gdtr 23 g k)).
Proof.
  intros Hf Hm Hlo Hhi Ha Ha2 Hg Hld s Hs. cbn [exec_boot]. rewrite bind_gets, (at_ctl _ _ Hs). cbn [a_ctl].
  rewrite !linear_flat by (done || lia).
  rewrite (bind_Ret _ _ _ _ _ (vread_ok R m s a 2 Hs Hm ltac:(lia) ltac:(lia))).
  rewrite (bind_Ret _ _ _ _ _ (vread_ok R m s (a + 2) 4 Hs Hm ltac:(lia) ltac:(lia))).
  rewrite (load_sub _ _ _ _ 2 (Z.of_nat 4) Hld) by lia.
  pose proof (load_sub _ _ _ _ 0 (Z.of_nat 2) Hld ltac:(lia) ltac:(lia) ltac:(lia)) as H2. rewrite Z.add_0_r in H2. rewrite H2.
  assert (Hv : le_val (take 4 (le_bytes 8 g)) = g).
  { change (take 4 (le_bytes 8 g)) with (le_bytes 4 g). apply le_val_bytes. lia. }
  eexists. split; [reflexivity|]. change (le_val (take (Z.to_nat (Z.of_nat 2)) _)) with 23.
  change (take (Z.to_nat (Z.of_nat 4)) _) with (take 4 (le_bytes 8 g)). rewrite Hv. by apply on_ctl_at.
Qed.

Lemma goes_Call R m ret :
  I m → 8 ≤ R RSP < 2 ^ 32 → lo ≤ R RSP - 8 → R RSP ≤ hi →
  goes (exec_boot (Call ret)) (mkAbs R m k) (mkAbs (upd RSP (R RSP - 8) R) (store m (R RSP - 8) (le_bytes 8 ret)) k).
Proof.
  intros Hm Hsp Hlo Hhi s Hs. cbn [exec_boot]. rewrite bind_gets, (at_regs _ _ Hs). cbn [a_regs]. nowrap.
  destruct (vwrite_ok R m s (R RSP - 8) (le_bytes 8 ret)) as (s' & Hr & Hs'); [done..|rewrite zlen_le_bytes; lia|].
  rewrite (bind_Ret _ _ _ _ _ Hr). eexists. split; [reflexivity|].
  rewrite <- (wrap_small 64 (R RSP - 8)) at 1 by lia. by apply put_reg_at.
Qed.

End Accesses.

(** ** The loops *)

Lemma le_bytes_0 n : le_bytes n 0 = replicate n 0.
Proof. induction n as [|n IH]; [done|]. cbn [le_bytes replicate]. by rewrite Zmod_0_l, Zdiv_0_l, IH. Qed.

Lemma store_zeros lo hi m n :
  lo ≤ hi → ∀ x, store (overlay lo hi (λ _, 0) m) hi (replicate n 0) x = overlay lo (hi + Z.of_nat n) (λ _, 0) m x.
Proof.
  intros Hle x. assert (Hn : zlen (replicate n 0) = Z.of_nat n) by (unfold zlen; by rewrite length_replicate).
  destruct (decide (hi ≤ x < hi + Z.of_nat n)).
  - rewrite store_at, overlay_in by lia. apply lookup_total_replicate_2. lia.
  - rewrite store_other by lia. unfold overlay.
    destruct (Z.leb_spec lo x), (Z.ltb_spec x hi), (Z.ltb_spec x (hi + Z.of_nat n)); cbn; (lia || done).
Qed.

(** Bytes from [src - (e - d)] copied to [d] so far, up to [e]. *)
Definition copied (d e src : Z) (m : Memory) : Memory := overlay d e (λ x, m (src + (x - d))) m.

Lemma store_copied d e src m n :
  d ≤ e → (d ≤ src ∨ src + (e - d) + Z.of_nat n ≤ d) →
  ∀ x, store (copied d e src m) e (load (copied d e src m) (src + (e - d)) (Z.of_nat n)) x =
    copied d (e + Z.of_nat n) src m x.
Proof.
  intros Hde Hsrc x.
  rewrite (load_ext _ m) by (intros y Hy; unfold copied; apply overlay_out; lia).
  assert (Hl : zlen (load m (src + (e - d)) (Z.of_nat n)) = Z.of_nat n)
    by (unfold zlen, load; rewrite length_fmap, length_range; lia).
  destruct (decide (e ≤ x < e + Z.of_nat n)).
  - rewrite store_at by lia. unfold copied. rewrite overlay_in by lia. unfold load, range.
    apply list_lookup_total_correct. rewrite list_lookup_fmap, lookup_seqZ_lt by lia. cbn [fmap option_fmap option_map].
    do 2 f_equal. lia.
  - rewrite store_other by lia. unfold copied, overlay.
    destruct (Z.leb_spec d x), (Z.ltb_spec x e), (Z.ltb_spec x (e + Z.of_nat n)); cbn; (lia || done).
Qed.

Section Loops.
Context (k : Control) (I : Memory → Prop) (lo hi : Z) (Hid : identity k I lo hi).
Context (Hdf : df_flag k = false) (Hhi : hi < 2 ^ 32).

Lemma advance_at R m s r n :
  at_state (mkAbs R m k) s → 0 ≤ R r → R r + Z.of_nat n < 2 ^ 32 →
  at_state (mkAbs (upd r (R r + Z.of_nat n) R) m k) (advance r n s).
Proof.
  intros Hs H0 Hr. unfold advance. rewrite (at_ctl _ _ Hs), (at_regs _ _ Hs). cbn [a_ctl a_regs]. rewrite Hdf.
  rewrite <- (wrap_width k (R r + Z.of_nat n)) at 1 by lia. apply put_reg_at; [apply width_not16|done].
Qed.

Lemma count_at R m s :
  at_state (mkAbs R m k) s → 0 < R RCX < 2 ^ 32 →
  at_state (mkAbs (upd RCX (R RCX - 1) R) m k) (put_reg (width (s_ctl s)) RCX (reg_of RCX s - 1) s).
Proof.
  intros Hs Hr. rewrite (at_ctl _ _ Hs), (at_regs _ _ Hs). cbn [a_ctl a_regs].
  rewrite <- (wrap_width k (R RCX - 1)) at 1 by lia. apply put_reg_at; [apply width_not16|done].
Qed.

Lemma stos_goes R m n d :
  flat k ES → I (overlay d (R RDI) (λ _, 0) m) → R RAX = 0 → 0 ≤ d ≤ R RDI → lo ≤ R RDI → R RDI + Z.of_nat n ≤ hi →
  goes (stos n) (mkAbs R (overlay d (R RDI) (λ _, 0) m) k)
    (mkAbs (upd RDI (R RDI + Z.of_nat n) R) (overlay d (R RDI + Z.of_nat n) (λ _, 0) m) k).
Proof.
  intros Hf Hm Ha Hd Hlo Hn s Hs. unfold stos. rewrite bind_get, (at_regs _ _ Hs). cbn [a_regs].
  rewrite (get_reg_at _ _ _ _ _ _ Hs), (at_ctl _ _ Hs). cbn [a_ctl]. rewrite wrap_width, linear_flat by (done || lia).
  rewrite Ha, le_bytes_0.
  destruct (vwrite_ok k I lo hi Hid R _ s (R RDI) (replicate n 0) Hs Hm Hlo) as (s1 & Hr & Hs1);
    [unfold zlen; rewrite length_replicate; lia|].
  rewrite (bind_Ret _ _ _ _ _ Hr). eexists. split; [reflexivity|]. apply advance_at; [|lia|lia].
  destruct Hs1 as [H1 H2 H3]. split; [exact H1| |exact H3]. intros x. rewrite H2. cbn. apply store_zeros. lia.
Qed.

Lemma movs_goes R m n d src :
  (∀ m, I m) → flat k DS → flat k ES → 0 ≤ d ≤ R RDI → R RSI = src + (R RDI - d) →
  (d ≤ src ∨ R RSI + Z.of_nat n ≤ d) → lo ≤ R RDI → lo ≤ R RSI → 0 ≤ R RSI →
  R RDI + Z.of_nat n ≤ hi → R RSI + Z.of_nat n ≤ hi →
  goes (movs n) (mkAbs R (copied d (R RDI) src m) k)
    (mkAbs (upd RDI (R RDI + Z.of_nat n) (upd RSI (R RSI + Z.of_nat n) R)) (copied d (R RDI + Z.of_nat n) src m) k).
Proof.
  intros HI Hfd Hfe Hd Hsi Hov Hb1 Hb2 Hb3 Hb4 Hb5 s Hs. unfold movs. rewrite bind_get.
  rewrite !(get_reg_at _ _ _ _ _ _ Hs), (at_ctl _ _ Hs). cbn [a_ctl]. rewrite !wrap_width, !linear_flat by (done || lia).
  rewrite (bind_Ret _ _ _ _ _ (vread_ok k I lo hi Hid R _ s (R RSI) n Hs (HI _) ltac:(lia) ltac:(lia))).
  destruct (vwrite_ok k I lo hi Hid R _ s (R RDI) (load (copied d (R RDI) src m) (R RSI) (Z.of_nat n)) Hs (HI _))
    as (s1 & Hr & Hs1); [lia|unfold zlen, load; rewrite length_fmap, length_range; lia|].
  rewrite (bind_Ret _ _ _ _ _ Hr), bind_modify. eexists. split; [reflexivity|].
  assert (Hs2 : at_state (mkAbs R (copied d (R RDI + Z.of_nat n) src m) k) s1).
  { destruct Hs1 as [H1 H2 H3]. split; [exact H1| |exact H3]. intros x. rewrite H2. cbn. rewrite Hsi.
    apply store_copied; lia. }
  pose proof (advance_at _ _ _ RSI n Hs2 ltac:(lia) ltac:(lia)) as Hs3.
  pose proof (advance_at _ _ _ RDI n Hs3) as Hs4. rewrite (upd_other RSI RDI) in Hs4 by done. apply Hs4; lia.
Qed.

Lemma repeat_stos c R m n d :
  (∀ e, d ≤ e ≤ hi → I (overlay d e (λ _, 0) m)) → flat k ES → R RAX = 0 → 0 ≤ d ≤ R RDI → lo ≤ d →
  R RCX = Z.of_nat c → Z.of_nat c < 2 ^ 32 → R RDI + Z.of_nat n * Z.of_nat c ≤ hi →
  let e := R RDI + Z.of_nat n * Z.of_nat c in
  goes (repeat_n c (stos n)) (mkAbs R (overlay d (R RDI) (λ _, 0) m) k)
    (mkAbs (upd RCX 0 (upd RDI e R)) (overlay d e (λ _, 0) m) k).
Proof.
  intros HI Hf. revert R. induction c as [|c IH]; intros R Ha Hd Hlo Hc Hlt Hend e.
  { intros s Hs. exists s. split; [done|]. unfold e. rewrite Z.mul_0_r, Z.add_0_r. destruct Hs as [H1 H2 H3].
    split; [|exact H2|exact H3]. intros r. rewrite H1. cbn [a_regs]. unfold upd.
    destruct (decide (RCX = r)) as [<-|]; [done|]. by destruct (decide (RDI = r)) as [<-|]. }
  intros s Hs. cbn [repeat_n].
  destruct (stos_goes R m n d Hf ltac:(apply HI; lia) Ha Hd ltac:(lia) ltac:(lia) s Hs) as (s1 & Hr1 & Hs1).
  rewrite (bind_Ret _ _ _ _ _ Hr1), bind_modify. set (R1 := upd RDI (R RDI + Z.of_nat n) R) in *.
  assert (Hc1 : R1 RCX = Z.of_nat (S c)) by (unfold R1; by rewrite upd_other).
  pose proof (count_at _ _ _ Hs1 ltac:(rewrite Hc1; lia)) as Hs2. rewrite Hc1 in Hs2.
  set (R2 := upd RCX (Z.of_nat (S c) - 1) R1) in *.
  assert (Hdi : R2 RDI = R RDI + Z.of_nat n) by (unfold R2, R1; by rewrite upd_other, upd_same).
  rewrite <- Hdi in Hs2 at 1.
  destruct (IH R2) with (s := put_reg (width (s_ctl s1)) RCX (reg_of RCX s1 - 1) s1) as (s3 & Hr3 & Hs3);
    [unfold R2, R1; by rewrite !upd_other|lia|lia|unfold R2; rewrite upd_same; lia|lia|rewrite Hdi; lia|exact Hs2|].
  exists s3. split; [exact Hr3|]. assert (He : R2 RDI + Z.of_nat n * Z.of_nat c = e) by (unfold e; rewrite Hdi; lia).
  rewrite He in Hs3. destruct Hs3 as [H1 H2 H3]. split; [|exact H2|exact H3]. intros r. rewrite H1. cbn [a_regs].
  unfold R2, R1, upd. by destruct (decide (RCX = r)), (decide (RDI = r)).
Qed.

Lemma goes_RepStos c R m n :
  (∀ e, R RDI ≤ e ≤ hi → I (overlay (R RDI) e (λ _, 0) m)) → flat k ES → R RAX = 0 → 0 ≤ R RDI → lo ≤ R RDI →
  R RCX = c → 0 ≤ c < 2 ^ 32 → R RDI + Z.of_nat n * c ≤ hi →
  let e := R RDI + Z.of_nat n * c in
  goes (exec_boot (RepStos n)) (mkAbs R m k) (mkAbs (upd RCX 0 (upd RDI e R)) (overlay (R RDI) e (λ _, 0) m) k).
Proof.
  intros HI Hf Ha H0 Hlo Hc Hr Hend e s Hs. cbn [exec_boot]. unfold rep. rewrite bind_gets, (get_reg_at _ _ _ _ _ _ Hs), Hc.
  rewrite wrap_small by (rewrite (at_ctl _ _ Hs); unfold width; destruct (in_64 _); lia).
  pose proof (repeat_stos (Z.to_nat c) R m n (R RDI) HI Hf Ha ltac:(lia) ltac:(lia) ltac:(lia) ltac:(lia)) as Hl.
  rewrite Z2Nat.id in Hl by lia. apply (Hl Hend). destruct Hs as [H1 H2 H3]. split; [exact H1| |exact H3].
  intros x. rewrite H2. cbn. by rewrite overlay_empty.
Qed.

Lemma repeat_movs c R m n d src :
  (∀ m, I m) → flat k DS → flat k ES → 0 ≤ d ≤ R RDI → lo ≤ d → R RSI = src + (R RDI - d) →
  lo ≤ src → 0 ≤ src → R RCX = Z.of_nat c → Z.of_nat c < 2 ^ 32 →
  R RDI + Z.of_nat n * Z.of_nat c ≤ hi → R RSI + Z.of_nat n * Z.of_nat c ≤ hi →
  (d ≤ src ∨ R RSI + Z.of_nat n * Z.of_nat c ≤ d) →
  let e := R RDI + Z.of_nat n * Z.of_nat c in
  goes (repeat_n c (movs n)) (mkAbs R (copied d (R RDI) src m) k)
    (mkAbs (upd RCX 0 (upd RDI e (upd RSI (R RSI + Z.of_nat n * Z.of_nat c) R))) (copied d e src m) k).
Proof.
  intros HI Hfd Hfe. revert R. induction c as [|c IH]; intros R Hd Hlo Hsi Hls Hs0 Hc Hlt Hend Hends Hov e.
  { intros s Hs. exists s. split; [done|]. unfold e. rewrite !Z.mul_0_r, !Z.add_0_r. destruct Hs as [H1 H2 H3].
    split; [|exact H2|exact H3]. intros r. rewrite H1. cbn [a_regs]. unfold upd.
    destruct (decide (RCX = r)) as [<-|]; [done|]. destruct (decide (RDI = r)) as [<-|]; [done|].
    by destruct (decide (RSI = r)) as [<-|]. }
  intros s Hs. cbn [repeat_n].
  destruct (movs_goes R m n d src HI Hfd Hfe Hd Hsi ltac:(lia) ltac:(lia) ltac:(lia) ltac:(lia) ltac:(lia) ltac:(lia) s Hs)
    as (s1 & Hr1 & Hs1).
  rewrite (bind_Ret _ _ _ _ _ Hr1), bind_modify.
  set (R1 := upd RDI (R RDI + Z.of_nat n) (upd RSI (R RSI + Z.of_nat n) R)) in *.
  assert (Hc1 : R1 RCX = Z.of_nat (S c)) by (unfold R1; by rewrite !upd_other).
  pose proof (count_at _ _ _ Hs1 ltac:(rewrite Hc1; lia)) as Hs2. rewrite Hc1 in Hs2.
  set (R2 := upd RCX (Z.of_nat (S c) - 1) R1) in *.
  assert (Hdi : R2 RDI = R RDI + Z.of_nat n) by (unfold R2, R1; by rewrite upd_other, upd_same).
  assert (Hsi2 : R2 RSI = R RSI + Z.of_nat n) by (unfold R2, R1; by rewrite 2!upd_other, upd_same).
  rewrite <- Hdi in Hs2 at 1.
  destruct (IH R2) with (s := put_reg (width (s_ctl s1)) RCX (reg_of RCX s1 - 1) s1) as (s3 & Hr3 & Hs3);
    [lia|lia|lia|lia|lia|unfold R2; rewrite upd_same; lia|lia|lia|lia|lia|exact Hs2|].
  exists s3. split; [exact Hr3|]. assert (He : R2 RDI + Z.of_nat n * Z.of_nat c = e) by (unfold e; lia).
  assert (Hf : R2 RSI + Z.of_nat n * Z.of_nat c = R RSI + Z.of_nat n * Z.of_nat (S c)) by lia.
  rewrite He, Hf in Hs3. destruct Hs3 as [H1 H2 H3]. split; [|exact H2|exact H3]. intros r. rewrite H1. cbn [a_regs].
  unfold R2, R1, upd. by destruct (decide (RCX = r)), (decide (RDI = r)), (decide (RSI = r)).
Qed.

Lemma goes_RepMovs c R m n :
  (∀ m, I m) → flat k DS → flat k ES → 0 ≤ R RDI → lo ≤ R RDI → 0 ≤ R RSI → lo ≤ R RSI →
  R RCX = c → 0 ≤ c < 2 ^ 32 → R RDI + Z.of_nat n * c ≤ hi → R RSI + Z.of_nat n * c ≤ hi →
  (R RDI ≤ R RSI ∨ R RSI + Z.of_nat n * c ≤ R RDI) →
  let e := R RDI + Z.of_nat n * c in
  goes (exec_boot (RepMovs n)) (mkAbs R m k)
    (mkAbs (upd RCX 0 (upd RDI e (upd RSI (R RSI + Z.of_nat n * c) R))) (copied (R RDI) e (R RSI) m) k).
Proof.
  intros HI Hfd Hfe Hd0 Hd Hs0 Hsl Hc Hr He1 He2 Hov e s Hs. cbn [exec_boot]. unfold rep.
  rewrite bind_gets, (get_reg_at _ _ _ _ _ _ Hs), Hc.
  rewrite wrap_small by (rewrite (at_ctl _ _ Hs); unfold width; destruct (in_64 _); lia).
  pose proof (repeat_movs (Z.to_nat c) R m n (R RDI) (R RSI) HI Hfd Hfe ltac:(lia) ltac:(lia) ltac:(lia)
    ltac:(lia) ltac:(lia) ltac:(lia) ltac:(lia)) as Hl.
  rewrite Z2Nat.id in Hl by lia. apply (Hl He1 He2 Hov). destruct Hs as [H1 H2 H3]. split; [exact H1| |exact H3].
  intros x. rewrite H2. cbn. unfold copied. by rewrite overlay_empty.
Qed.

End Loops.

(** ** Translation through the stub's tables *)

Definition tables_hold (m : Memory) : Prop := ∀ x, 0x1000 ≤ x < 0x4000 → m x = boot_tables x.

(** The words of the tables. *)
Lemma boot_tables_words m a :
  tables_hold m → 0x1000 ≤ a → a + 8 ≤ 0x4000 → rd64 m a = rd64 boot_tables a.
Proof. intros Hm Ha Hb. apply rd64_ext. intros x Hx. apply Hm. lia. Qed.

Lemma walk_tables need m a :
  need ∈ [FOR_READ; FOR_WRITE] → tables_hold m → 0 ≤ a < 0x600000 → walk need m 0x1000 a = Some a.
Proof.
  intros Hneed Hm Ha. unfold walk. change (12 + 9 * 3) with 39. change (12 + 9 * 2) with 30.
  change (12 + 9 * 1) with 21. rewrite (Z.div_small a (2 ^ 39)), (Z.div_small a (2 ^ 30)) by lia.
  change (Z.land 0x1000 0x000FFFFFFFFFF000 + 8 * (0 mod 512)) with 0x1000.
  rewrite (boot_tables_words m 0x1000) by (done || lia). change (rd64 boot_tables 0x1000) with 0x2003.
  change (Z.land 0x2003 0x000FFFFFFFFFF000 + 8 * (0 mod 512)) with 0x2000.
  rewrite (boot_tables_words m 0x2000) by (done || lia). change (rd64 boot_tables 0x2000) with 0x3003.
  change (Z.land 0x3003 0x000FFFFFFFFFF000) with 0x3000.
  assert (Hd : a = a / 2 ^ 21 * 2 ^ 21 + a mod 2 ^ 21) by dlia.
  assert (Hj : a / 2 ^ 21 = 0 ∨ a / 2 ^ 21 = 1 ∨ a / 2 ^ 21 = 2) by dlia.
  rewrite (Z.mod_small (a / 2 ^ 21)) by dlia. rewrite boot_tables_words by (done || dlia).
  transitivity (Some (a / 2 ^ 21 * 2 ^ 21 + a mod 2 ^ 21)); [|by f_equal].
  generalize (a mod 2 ^ 21) as off. intros off. rewrite !elem_of_cons in Hneed.
  destruct Hneed as [->|[->|Hn]]; [| |by apply elem_of_nil in Hn];
    destruct Hj as [->|[->| ->]]; reflexivity.
Qed.

Lemma identity_paged k : paging k = true → cr3 k = 0x1000 → identity k tables_hold 0x4000 0x600000.
Proof.
  intros Hp Hc. split.
  - intros m a Hm Ha. unfold physical. rewrite Hp, Hc. apply walk_tables; [by left|done|lia].
  - intros m a Hm Ha. unfold physical. rewrite Hp, Hc. apply walk_tables; [by right; left|done|lia].
  - intros m a v Hm Ha x Hx. rewrite store_other; [by apply Hm|]. lia.
  - intros m m' Hm He x Hx. rewrite <- He. by apply Hm.
Qed.


(** ** The parts of the stub *)

(** What the boot protocol and the linker promise of the state at [_pvh_start]: no paging,
    flat data segments, string instructions going up, the start info out of the way of its
    copy; the image linked above 1 MiB and below what the stub maps, with its table loaded. *)
Record pvh_entry (img : Image) (s : Stub) : Prop := {
  pe_paging : paging (s_ctl s) = false;
  pe_ds : seg_base (descriptors (s_ctl s) DS) = 0;
  pe_es : seg_base (descriptors (s_ctl s) ES) = 0;
  pe_df : df_flag (s_ctl s) = false;
  pe_info : 0 ≤ reg_of RBX s ∧ reg_of RBX s + 256 < 2 ^ 32 - 1;
  pe_apart : 0x500 ≤ reg_of RBX s ∨ reg_of RBX s + 256 ≤ 0x500;
  pe_gdt : 0x100000 ≤ i_gdt64 img ∧ i_gdt64 img + 24 = i_gdt64_ptr img ∧ i_gdt64_ptr img + 10 ≤ i_bss_start img;
  pe_bss : i_bss_start img ≤ i_bss_end img ≤ 0x600000;
  pe_table : load (mem_of s) (i_gdt64 img) 24 = gdt64;
  pe_pointer : load (mem_of s) (i_gdt64_ptr img) 10 = gdt64_ptr img;
}.

Ltac get := repeat (rewrite upd_same || rewrite upd_other by discriminate).

(** [l] leads to a view in [Q]. *)
Definition reaches (l : list binstr) (a : Abs) (Q : Abs → Prop) : Prop := ∃ b, goes (run_boot l) a b ∧ Q b.

Lemma reaches_nil a (Q : Abs → Prop) : Q a → reaches [] a Q.
Proof. intros Ha. exists a. split; [apply goes_nil|done]. Qed.

Lemma reaches_cons i l a b Q : goes (exec_boot i) a b → reaches l b Q → reaches (i :: l) a Q.
Proof. intros Hi (c & Hl & Hc). exists c. split; [by eapply goes_cons|done]. Qed.

Lemma reaches_app l l' a (P Q : Abs → Prop) :
  reaches l a P → (∀ b, P b → reaches l' b Q) → reaches (l ++ l') a Q.
Proof.
  intros (b & Hl & Hb) Hl'. destruct (Hl' b Hb) as (c & Hc & HQ). exists c. split; [by eapply goes_app|done].
Qed.

(** One instruction, with the lemma for it. *)
Tactic Notation "next" uconstr(l) := eapply reaches_cons; [eapply l|].

(** The identity of a machine without paging. *)
Definition anywhere (k : Control) (Hp : paging k = false) := identity_unpaged k 0 (2 ^ 32 - 1) Hp.

Section Parts.
Context (img : Image) (R : reg → Z) (m : Memory) (k : Control).

Lemma reaches_save_info :
  paging k = false → flat k DS → flat k ES → df_flag k = false →
  0 ≤ R RBX → R RBX + 256 < 2 ^ 32 - 1 → (0x500 ≤ R RBX ∨ R RBX + 256 ≤ 0x500) →
  reaches save_info (mkAbs R m k) (λ b, a_mem b = copied 0x500 0x600 (R RBX) m ∧ a_ctl b = put_if false k).
Proof.
  intros Hp Hds Hes Hdf Hb0 Hb1 Hov. unfold save_info.
  next goes_Cli. next goes_MovReg; [done|]. next goes_MovImm; [done|]. next goes_MovImm; [done|].
  assert (Hsi : wrap 32 (wrap 32 (R RBX)) = R RBX) by (by rewrite !wrap_small by (rewrite ?wrap_small; lia)).
  set (R1 := upd RCX _ _).
  assert (H1 : R1 RCX = 64 ∧ R1 RDI = 0x500 ∧ R1 RSI = R RBX) by (unfold R1; get; by rewrite Hsi).
  destruct H1 as (Hc & Hd & Hs). clearbody R1.
  pose proof (goes_RepMovs (put_if false k) (λ _, True) 0 (2 ^ 32 - 1)
    (anywhere (put_if false k) Hp) Hdf ltac:(lia) 64 R1 m 4 ltac:(done) Hds Hes) as Hg.
  cbv zeta in Hg. rewrite Hd, Hs in Hg. eapply reaches_cons; [apply Hg; (lia || done)|].
  by apply reaches_nil.
Qed.

(** The processor after the segments are loaded, with PAE. *)
Definition ctl_segments (k : Control) : Control :=
  let k := foldl (λ k s, put_desc s DATA k) (put_gdtr 23 (i_gdt64 img) k) [DS; ES; FS; GS; SS] in
  put_cr CR4 (wrap 32 (wrap 32 (Z.lor (wrap 32 (wrap 32 (cr4 k))) (Z.shiftl 1 5)))) k.

Lemma reaches_load_gdt :
  paging k = false → flat k DS →
  0 ≤ i_gdt64 img → i_gdt64 img + 24 < 2 ^ 32 - 1 → 0 ≤ i_gdt64_ptr img → i_gdt64_ptr img + 10 < 2 ^ 32 - 1 →
  load m (i_gdt64 img) 24 = gdt64 → load m (i_gdt64_ptr img) 10 = gdt64_ptr img →
  reaches (load_gdt img) (mkAbs R m k) (λ b, a_mem b = m ∧ a_ctl b = ctl_segments k).
Proof.
  intros Hp Hds Hg0 Hg1 Hp0 Hp1 Hg Hgp. unfold load_gdt.
  next (goes_Lgdt k (λ _, True) 0 (2 ^ 32 - 1) (anywhere k Hp) R m _ (i_gdt64 img)); [done|done|lia..|exact Hgp|].
  next goes_MovImm16. set (R1 := upd RAX _ R).
  assert (Hax : wrap 16 (R1 RAX) = 16) by (unfold R1; get; unfold wrap; dlia).
  set (k1 := put_gdtr 23 (i_gdt64 img) k).
  assert (Hseg : ∀ k2, paging k2 = false → gdtr_base k2 = i_gdt64 img → gdtr_limit k2 = 23 → ∀ sg,
    goes (exec_boot (MovSeg sg RAX)) (mkAbs R1 m k2) (mkAbs R1 m (put_desc sg DATA k2))).
  { intros k2 Hp2 Hb2 Hl2 sg. apply (goes_MovSeg k2 (λ _, True) 0 (2 ^ 32 - 1) (anywhere k2 Hp2)); rewrite ?Hb2; (done || lia). }
  do 5 (eapply reaches_cons; [apply Hseg; done|]).
  next goes_MovFromCr. next goes_OrImm; [done|]. next goes_MovToCr; [done|].
  apply reaches_nil. split; [done|]. cbn [a_ctl]. by get.
Qed.

(** The memory and the processor with the tables in place and paging on. *)
Definition ctl_long (k : Control) : Control :=
  let e := wrap 32 (efer k) in
  let k := put_efer (Z.lor (Z.shiftl (wrap 32 (wrap 32 (Z.shiftr (efer k) 32))) 32)
    (wrap 32 (wrap 32 (Z.lor (wrap 32 e) (Z.shiftl 1 8))))) (put_cr CR3 0x1000 k) in
  let k := put_cr CR0 (wrap 32 (wrap 32 (Z.lor (wrap 32 (wrap 32 (cr0 k))) (Z.lor (Z.shiftl 1 31) (Z.shiftl 1 0))))) k in
  put_desc CS CODE64 k.

Lemma reaches_build_tables :
  paging k = false → flat k DS → flat k ES → df_flag k = false →
  reaches build_tables (mkAbs R m k) (λ b, (∀ x, a_mem b x = overlay 0x1000 0x4000 boot_tables m x) ∧ a_ctl b = k).
Proof.
  intros Hp Hds Hes Hdf. unfold build_tables.
  next goes_MovImm; [done|]. next goes_MovImm; [done|]. next goes_XorSame; [done|]. set (R1 := upd RAX _ _).
  assert (H1 : R1 RCX = 3072 ∧ R1 RDI = 0x1000 ∧ R1 RAX = 0) by (unfold R1; by get). destruct H1 as (Hc & Hd & Ha).
  clearbody R1.
  pose proof (goes_RepStos k (λ _, True) 0 (2 ^ 32 - 1) (anywhere k Hp) Hdf ltac:(lia) 3072 R1 m 4 ltac:(done) Hes Ha) as Hg.
  cbv zeta in Hg. rewrite Hd in Hg. eapply reaches_cons; [apply Hg; (lia || done)|].
  set (R2 := upd RCX _ _). clearbody R2.
  assert (Hst : ∀ m' a v, 0 ≤ a < 2 ^ 31 → goes (exec_boot (StoreImm a v)) (mkAbs R2 m' k)
    (mkAbs R2 (store m' a (le_bytes 4 v)) k)).
  { intros m' a v Hav. apply (goes_StoreImm k (λ _, True) 0 (2 ^ 32 - 1) (anywhere k Hp)); (done || lia). }
  do 5 (eapply reaches_cons; [apply Hst; lia|]). apply reaches_nil. split; [|done]. intros x. cbn [a_mem].
  assert (He : ∀ t t' a v, (∀ x, t' x = overlay 0x1000 0x4000 t m x) → 0x1000 ≤ a ≤ 0x3FFC → ∀ x,
    store t' a (le_bytes 4 v) x = overlay 0x1000 0x4000 (store t a (le_bytes 4 v)) m x).
  { intros t t' a v Ht Hav y. rewrite <- (overlay_store 0x1000 0x4000) by (rewrite ?zlen_le_bytes; lia).
    by apply store_ext. }
  unfold boot_tables. repeat (apply He; [|lia]). intros y.
  by replace (0x1000 + Z.of_nat 4 * 3072) with 0x4000 by lia.
Qed.

Lemma testbit_wrap32 z i : 0 ≤ i < 32 → Z.testbit (wrap 32 z) i = Z.testbit z i.
Proof. intros Hi. apply Z.mod_pow2_bits_low. lia. Qed.

(** A register of 32 bits with a bit set. *)
Lemma testbit_or z v i : 0 ≤ i < 32 → Z.testbit v i = true → Z.testbit (wrap 32 (wrap 32 (Z.lor (wrap 32 z) v))) i = true.
Proof. intros Hi Hv. by rewrite !testbit_wrap32, Z.lor_spec, Hv, orb_true_r by done. Qed.

(** Long mode is on, in 64-bit code, over the tables of the stub. *)
Lemma ctl_long_on : paging (ctl_long k) = true ∧ in_64 (ctl_long k) = true ∧ cr3 (ctl_long k) = 0x1000.
Proof.
  assert (Hp : paging (ctl_long k) = true) by (unfold paging, ctl_long; cbn [cr0 put_desc put_cr]; by apply testbit_or).
  assert (He : Z.testbit (efer (ctl_long k)) 8 = true).
  { unfold ctl_long. cbn [efer put_desc put_cr put_efer]. rewrite Z.lor_spec. apply orb_true_iff. right. by apply testbit_or. }
  split_and!; [done| |done]. unfold in_64, in_long. by rewrite Hp, He.
Qed.

Lemma reaches_enter_long :
  paging k = false → Z.testbit (cr4 k) 5 = true → gdtr_limit k = 23 → load m (gdtr_base k) 24 = gdt64 →
  tables_hold m → 0x4000 ≤ gdtr_base k → gdtr_base k + 24 ≤ 0x600000 →
  reaches enter_long (mkAbs R m k) (λ b, a_mem b = m ∧ a_ctl b = ctl_long k).
Proof.
  intros Hp H4 Hl Hg Hm Hlo Hhi. unfold enter_long.
  next goes_MovImm; [done|]. next goes_MovToCr; [done|]. rewrite upd_same.
  next goes_MovImm; [done|]. next goes_Rdmsr; [by get|]. next goes_OrImm; [done|]. next goes_Wrmsr; [by get|].
  next goes_MovFromCr. next goes_OrImm; [done|]. get. change (wrap 32 (wrap 32 0x1000)) with 0x1000.
  next goes_MovToCr.
  { get. unfold cr_allowed. cbn [cr4 efer put_cr put_efer get_cr cr0]. rewrite H4, orb_true_r, andb_true_r. apply orb_true_iff. right.
    by apply testbit_or. }
  match goal with |- reaches _ (mkAbs ?R' ?m' ?k') _ => set (k1 := k'); set (R1 := R') end.
  assert (Hk1 : put_desc CS CODE64 k1 = ctl_long k) by (unfold k1, ctl_long; get; done).
  assert (Hid : identity k1 tables_hold 0x4000 0x600000).
  { apply identity_paged; [|reflexivity]. destruct ctl_long_on as [H1 _]. rewrite <- Hk1 in H1. exact H1. }
  eapply reaches_cons; [apply (goes_JmpFar k1 tables_hold 0x4000 0x600000 Hid); done|].
  apply reaches_nil. split; [done|exact Hk1].
Qed.

Lemma tables_hold_overlay lo hi t : tables_hold m → 0x4000 ≤ lo → tables_hold (overlay lo hi t m).
Proof. intros Hm Hlo x Hx. rewrite overlay_out by lia. by apply Hm. Qed.

Lemma reaches_clear_bss :
  paging k = true → in_64 k = true → cr3 k = 0x1000 → df_flag k = false → tables_hold m →
  0x4000 ≤ i_bss_start img → i_bss_start img ≤ i_bss_end img ≤ 0x600000 →
  reaches (clear_bss img) (mkAbs R m k) (λ b,
    (∀ x, a_mem b x = overlay (i_bss_start img) (i_bss_end img) (λ _, 0) m x) ∧ a_ctl b = k ∧
    a_regs b RSP = 0x80000 ∧ a_regs b RBX = 0x500).
Proof.
  intros Hp H64 H3 Hdf Hm Hs He. unfold clear_bss. set (n := i_bss_end img - i_bss_start img).
  assert (Hf : flat k ES) by by left.
  pose proof (identity_paged k Hp H3) as Hid.
  next goes_MovImm; [done|]. next goes_MovImm; [done|]. next goes_MovImm; [done|]. next goes_MovImm; [done|].
  next goes_SubReg; [done|]. get. rewrite !(wrap_small 64 (i_bss_start img)), !(wrap_small 64 (i_bss_end img)) by lia. fold n.
  next goes_MovReg; [done|]. next goes_ShrImm; [done|]. next goes_XorSame; [done|]. get.
  rewrite !(wrap_small 64 n) by lia. rewrite Z.shiftr_div_pow2 by done. rewrite (wrap_small 64 (n / 2 ^ 3)) by dlia.
  set (R1 := upd RAX 0 _).
  assert (H1 : R1 RCX = n / 8 ∧ R1 RDI = i_bss_start img ∧ R1 RAX = 0 ∧ R1 R8 = n ∧ R1 RSP = 0x80000 ∧ R1 RBX = 0x500)
    by (unfold R1; by get).
  destruct H1 as (Hc & Hd & Ha & H8 & Hsp & Hbx). clearbody R1.
  pose proof (goes_RepStos k tables_hold 0x4000 0x600000 Hid Hdf ltac:(lia) (n / 8) R1 m 8) as Hg.
  cbv zeta in Hg. rewrite Hd in Hg. change (Z.of_nat 8) with 8 in Hg.
  eapply reaches_cons; [apply Hg; try (done || dlia); intros e _; by apply tables_hold_overlay|]. clear Hg.
  set (mid := i_bss_start img + 8 * (n / 8)).
  next goes_AndImm; [done|]. next goes_MovReg; [done|]. get. rewrite H8, (wrap_small 64 n) by lia.
  change 7 with (Z.ones 3). rewrite Z.land_ones by done. rewrite !(wrap_small 64 (n mod 2 ^ 3)) by dlia.
  set (R2 := upd RCX (n mod 2 ^ 3) _).
  assert (H2 : R2 RCX = n mod 8 ∧ R2 RDI = mid ∧ R2 RAX = 0 ∧ R2 RSP = 0x80000 ∧ R2 RBX = 0x500)
    by (unfold R2; get; by rewrite Ha, Hsp, Hbx).
  destruct H2 as (Hc2 & Hd2 & Ha2 & Hsp2 & Hbx2). clearbody R2.
  pose proof (goes_RepStos k tables_hold 0x4000 0x600000 Hid Hdf ltac:(lia) (n mod 8) R2
    (overlay (i_bss_start img) mid (λ _, 0) m) 1) as Hg.
  cbv zeta in Hg. rewrite Hd2 in Hg. change (Z.of_nat 1) with 1 in Hg.
  assert (Hmid : mid + 1 * (n mod 8) = i_bss_end img) by (unfold mid, n; dlia).
  assert (Hlo : i_bss_start img ≤ mid) by (unfold mid; dlia).
  rewrite Hmid in Hg. eapply reaches_cons.
  { apply Hg; try (done || dlia). intros e _ x Hx. rewrite !overlay_out by lia. by apply Hm. }
  apply reaches_nil. cbn [a_mem a_ctl a_regs]. get. split_and!; [|done..].
  intros x. apply overlay_join. split; [done|]. rewrite <- Hmid. dlia.
Qed.

Lemma reaches_call_main :
  paging k = true → cr3 k = 0x1000 → tables_hold m → R RSP = 0x80000 → R RBX = 0x500 →
  reaches (call_main img) (mkAbs R m k) (λ b,
    a_mem b = store m 0x7FFF8 (le_bytes 8 (i_halt img)) ∧ a_ctl b = k ∧
    a_regs b RSP = 0x7FFF8 ∧ a_regs b RDI = 0x500 ∧ a_regs b RSI = 0).
Proof.
  intros Hp H3 Hm Hsp Hbx. unfold call_main. pose proof (identity_paged k Hp H3) as Hid.
  next goes_MovReg; [done|]. next goes_XorSame; [done|]. rewrite Hbx. change (wrap 64 (wrap 64 0x500)) with 0x500.
  set (R1 := upd RSI 0 _). assert (H1 : R1 RSP = 0x80000 ∧ R1 RDI = 0x500 ∧ R1 RSI = 0) by (unfold R1; by get).
  destruct H1 as (Hs & Hd & Hi). clearbody R1.
  pose proof (goes_Call k tables_hold 0x4000 0x600000 Hid R1 m (i_halt img) Hm) as Hg. rewrite Hs in Hg.
  eapply reaches_cons; [apply Hg; lia|]. apply reaches_nil. cbn [a_mem a_ctl a_regs]. by get.
Qed.

End Parts.

(** ** The whole run *)

Lemma reaches_start l R m m' k Q :
  (∀ x, m x = m' x) → reaches l (mkAbs R m k) Q → reaches l (mkAbs R m' k) Q.
Proof.
  intros Hm (b & Hg & Hb). exists b. split; [|done]. intros s [H1 H2 H3]. apply Hg. split; [done| |done].
  intros x. rewrite H2. cbn. by rewrite Hm.
Qed.

(** The memory before the call. *)
Definition tables_memory (ebx : Z) (m : Memory) : Memory := overlay 0x1000 0x4000 boot_tables (copied 0x500 0x600 ebx m).

Lemma tables_memory_hold ebx m : tables_hold (tables_memory ebx m).
Proof. intros x Hx. by apply overlay_in. Qed.

Lemma tables_memory_high ebx m a n : 0x4000 ≤ a → load (tables_memory ebx m) a n = load m a n.
Proof. intros Ha. apply load_ext. intros x Hx. unfold tables_memory, copied. by rewrite !overlay_out by lia. Qed.

Lemma stub_reaches img s :
  pvh_entry img s →
  reaches (pvh_start img) (mkAbs (λ r, reg_of r s) (mem_of s) (s_ctl s)) (λ b,
    (∀ x, a_mem b x = stub_memory img (reg_of RBX s) (mem_of s) x) ∧
    a_ctl b = ctl_long (ctl_segments img (put_if false (s_ctl s))) ∧
    a_regs b RSP = 0x7FFF8 ∧ a_regs b RDI = 0x500 ∧ a_regs b RSI = 0).
Proof.
  intros [Hp Hds Hes Hdf (Hi0 & Hi1) Hov (Hg0 & Hg1 & Hg2) (Hb0 & Hb1) Ht Htp]. unfold pvh_start.
  set (ebx := reg_of RBX s). set (k0 := put_if false (s_ctl s)). set (m1 := copied 0x500 0x600 ebx (mem_of s)).
  assert (Hhigh : ∀ a n, 0x600 ≤ a → load m1 a n = load (mem_of s) a n).
  { intros a n Ha. apply load_ext. intros x Hx. by apply overlay_out; lia. }
  eapply reaches_app; [apply reaches_save_info; (done || by right)|]. intros [R1 m1' k1] [H1 H2]. cbn in H1, H2. subst m1' k1.
  fold ebx m1 k0.
  eapply reaches_app.
  { apply reaches_load_gdt; rewrite ?Hhigh; (done || lia || by right). }
  intros [R2 m2 k2] [H1 H2]. cbn in H1, H2. subst m2 k2. set (k2 := ctl_segments img k0).
  eapply reaches_app; [apply reaches_build_tables; (done || by right)|].
  intros [R3 m3 k3] [H1 H2]. cbn in H1, H2. subst k3. set (m3' := tables_memory ebx (mem_of s)).
  apply (reaches_start _ _ m3'); [intros x; by rewrite H1|]. clear m3 H1.
  eapply reaches_app.
  { apply reaches_enter_long; [done|by apply testbit_or|done| |apply tables_memory_hold| |].
    - unfold m3'. by rewrite tables_memory_high by (cbn; lia).
    - cbn. lia.
    - cbn. lia. }
  intros [R4 m4 k4] [H1 H2]. cbn in H1, H2. subst m4 k4. set (k4 := ctl_long k2).
  destruct (ctl_long_on k2) as (Hon & H64 & Hcr3).
  eapply reaches_app.
  { apply reaches_clear_bss; (done || lia || apply tables_memory_hold). }
  intros [R5 m5 k5] (H1 & H2 & Hsp & Hbx). cbn in H1, H2, Hsp, Hbx. subst k5.
  apply (reaches_start _ _ (overlay (i_bss_start img) (i_bss_end img) (λ _, 0) m3')); [intros x; by rewrite H1|].
  destruct (reaches_call_main img R5 (overlay (i_bss_start img) (i_bss_end img) (λ _, 0) m3') k4 Hon Hcr3)
    as (b & Hg & Hm & Hk & H3 & H4 & H5); [|done..|].
  { apply tables_hold_overlay; [apply tables_memory_hold|lia]. }
  exists b. split; [exact Hg|]. split_and!; [|done..]. intros x. by rewrite Hm.
Qed.
