(* ===== verification/PowerOn.v ===== *)
(** * From the PVH entry to the prompt

    The tables that the boot stub builds, as the kernel reads them; the memory map, which
    the kernel parses from the stub's copy of the start info; and both, with the boot of
    the kernel, from [_pvh_start] on. *)

From stdpp Require Import base numbers list gmap strings.
From S2P Require Import Prelude ByteStr Regions FrameAllocator FrameSpec FrameInit PhysMem FrameTheorems Block Ports Ata Pci Text Vga CpuInfo SysInfo Boot Time Scancodes Terminal Paging Vmm VmmSpec VmmTheorems VmmInstance Machine Process Gdt ProcessInstance AtaSpec AtaTheorems Vfs VfsTheorems Shell Commands Console Interrupts Answers KernelMain BootTheorems BootStub StubTheorems.

#[local] Open Scope Z_scope.
#[local] Open Scope rust_scope.

(** ** The mapper over tables in memory *)

Section Tables.
Context `{PageMapper T} (pt : T).

(** The tables reached from the root: below an entry of the second, third and fourth level. *)
Definition tables_2 (e : PageTableEntry) : list Z :=
  if contains (pte_flags e) PRESENT && negb (contains (pte_flags e) HUGE_PAGE) then [pte_addr e] else [].
Definition tables_3 (e : PageTableEntry) : list Z :=
  if contains (pte_flags e) PRESENT && negb (contains (pte_flags e) HUGE_PAGE)
  then pte_addr e :: (read_table pt (pte_addr e) ≫= tables_2) else [].
Definition tables_4 (e : PageTableEntry) : list Z :=
  if contains (pte_flags e) PRESENT then pte_addr e :: (read_table pt (pte_addr e) ≫= tables_3) else [].
Definition reached : list Z := level_4_table pt :: (read_table pt (level_4_table pt) ≫= tables_4).

(** A hierarchy of tables, none of them shared, whose leaves are aligned and apart. *)
Record tables_valid : Prop := {
  tv_tree : NoDup reached;
  tv_aligned : ∀ l, l ∈ leaves pt →
    lf_virt l mod lf_size l = 0 ∧ lf_size l ∈ [2 ^ 12; 2 ^ 21; 2 ^ 30] ∧ canonical (lf_virt l);
  tv_disjoint : ∀ l l' ls v, leaves pt ≡ₚ l :: l' :: ls → covers l v → ¬ covers l' v;
  tv_bound : pages (leaves pt) ≤ 2 ^ 36;
}.

End Tables.

(** [OffsetPageTable::new] over the table at [cr3], with offset 0: the mapper reads the
    tables in memory, and is sound on a valid hierarchy (asked for here only when it has
    no small page). *)
Class MemoryMapper (T : Type) `{PageMapperLaws T} `{TableApi} := {
  of_memory : Memory → Z → T;
  of_root : ∀ m root, level_4_table (of_memory m root) = root;
  of_read : ∀ m root a, read_table (of_memory m root) a = entry_at m a <$> range 0 512;
  of_frames : ∀ m root f, f ∈ table_frames (of_memory m root) → f ∈ reached (of_memory m root);
  of_valid : ∀ m root, tables_valid (of_memory m root) →
    Forall (λ l, lf_size l ≠ 4096) (leaves (of_memory m root)) → mapper_ok (of_memory m root);
}.

(** ** The stub's tables *)

Section BootTables.
Context `{MM : MemoryMapper T} `{!TableLaws _}.

Lemma bind_nil {A B} (f : A → list B) l : (∀ x, x ∈ l → f x = []) → l ≫= f = [].
Proof.
  induction l as [|x l IH]; intros Hf; [done|]. change ((x :: l) ≫= f) with (f x ++ (l ≫= f)).
  rewrite Hf by (by left). apply IH. intros y Hy. apply Hf. by right.
Qed.

Lemma enumerate_entries (f : Z → PageTableEntry) : enumerate (f <$> range 0 512) = (λ i, (i, f i)) <$> range 0 512.
Proof.
  unfold enumerate. replace (zlen (f <$> range 0 512)) with 512 by (unfold zlen; rewrite length_fmap, length_range; lia).
  generalize (range 0 512). induction l as [|i l IH]; [done|]. cbn [fmap list_fmap zip zip_with]. by f_equal.
Qed.

Context (m : Memory) (Hm : tables_hold m).

Lemma entry_boot table i :
  table ∈ [0x1000; 0x2000; 0x3000] → 0 ≤ i < 512 → entry_at m table i = pte_of (rd64 boot_tables (table + 8 * i)).
Proof.
  intros Ht Hi. unfold entry_at. rewrite boot_tables_words; [done|done|..]; rewrite !elem_of_cons in Ht;
    destruct Ht as [->|[->|[->|Ht]]]; (lia || by apply elem_of_nil in Ht).
Qed.

Lemma boot_entries_zero :
  Forall (λ i, rd64 boot_tables (0x1000 + 8 * i) = 0) (range 1 512) ∧
  Forall (λ i, rd64 boot_tables (0x2000 + 8 * i) = 0) (range 1 512) ∧
  Forall (λ i, rd64 boot_tables (0x3000 + 8 * i) = 0) (range 3 512).
Proof. split_and!; apply (bool_decide_unpack _); vm_compute; reflexivity. Qed.

Lemma not_present e : e = 0 → contains (pte_flags (pte_of e)) PRESENT = false.
Proof. intros ->. rewrite pte_contains by (by left). reflexivity. Qed.

(** The present entries of a table, out of the 512. *)
Lemma boot_table_bind {B} table (n : Z) (f : Z * PageTableEntry → list B) :
  (∀ i e, contains (pte_flags e) PRESENT = false → f (i, e) = []) →
  (table, n) ∈ [(0x1000, 1); (0x2000, 1); (0x3000, 3)] →
  ((λ i, (i, entry_at m table i)) <$> range 0 512) ≫= f =
    range 0 n ≫= (λ i, f (i, pte_of (rd64 boot_tables (table + 8 * i)))).
Proof.
  intros Hf Ht. destruct boot_entries_zero as (Z1 & Z2 & Z3). rewrite Forall_forall in Z1, Z2, Z3.
  assert (Hn : 0 ≤ n ≤ 512 ∧ table ∈ [0x1000; 0x2000; 0x3000] ∧
    ∀ i, n ≤ i < 512 → rd64 boot_tables (table + 8 * i) = 0).
  { rewrite !elem_of_cons in Ht. destruct Ht as [[= -> ->]|[[= -> ->]|[[= -> ->]|Ht]]]; [..|by apply elem_of_nil in Ht];
      (split; [lia|split; [by repeat (left || right)|]]); intros i Hi; [apply Z1|apply Z2|apply Z3]; by apply elem_of_range. }
  destruct Hn as (Hn & Htab & Hz). rewrite (range_split 0 n 512) by lia. rewrite fmap_app, bind_app.
  rewrite (bind_nil _ ((λ i, (i, entry_at m table i)) <$> range n 512)).
  - rewrite app_nil_r, list_fmap_bind. unfold compose.
    assert (Hr : ∀ i, i ∈ range 0 n → 0 ≤ i < 512) by (intros i Hi%elem_of_range; lia). revert Hr.
    generalize (range 0 n). induction l as [|i l IH]; intros Hr; [done|].
    change ((i :: l) ≫= ?g) with (g i ++ (l ≫= g)). cbn beta. rewrite (entry_boot _ _ Htab) by (apply Hr; by left).
    f_equal. apply IH. intros j Hj. apply Hr. by right.
  - intros [i e] (j & [= -> ->] & Hj%elem_of_range)%list_elem_of_fmap. apply Hf.
    rewrite entry_boot by (done || lia). apply not_present, Hz. lia.
Qed.

Definition boot_pt : T := of_memory m 0x1000.

(** The leaf of entry [j] of the third table. *)
Definition boot_leaf (j : Z) : Leaf := mkLeaf (j * 2 ^ 21) (j * 2 ^ 21) (2 ^ 21) (pte_flags (pte_of (0x83 + j * 2 ^ 21))).

Lemma has_flag e f : f ∈ [PRESENT; WRITABLE; USER_ACCESSIBLE; HUGE_PAGE] → contains e f = true → contains (pte_flags (pte_of e)) f = true.
Proof. intros Hf He. by rewrite pte_contains. Qed.

Lemma lacks_huge e : contains e HUGE_PAGE = false → contains (pte_flags (pte_of e)) HUGE_PAGE = false.
Proof. intros He. rewrite pte_contains; [done|]. by do 3 right; left. Qed.

(** The words of the present entries. *)
Lemma boot_words :
  rd64 boot_tables (0x1000 + 8 * 0) = 0x2003 ∧ rd64 boot_tables (0x2000 + 8 * 0) = 0x3003 ∧
  ∀ j, j ∈ range 0 3 → rd64 boot_tables (0x3000 + 8 * j) = 0x83 + j * 2 ^ 21.
Proof.
  split_and!; [by vm_compute..|]. apply Forall_forall. apply (bool_decide_unpack _). vm_compute. reflexivity.
Qed.

Lemma addr_of e a : Z.land e 0x000FFFFFFFFFF000 = a → pte_addr (pte_of e) = a.
Proof. intros <-. apply pte_addr_ok. Qed.

Lemma leaves_absent i e : contains (pte_flags e) PRESENT = false → ∀ b,
  leaves_4 boot_pt (i, e) = [] ∧ leaves_3 boot_pt b (i, e) = [] ∧ leaves_2 boot_pt b (i, e) = [].
Proof. intros He b. unfold leaves_4, leaves_3, leaves_2. by rewrite He. Qed.

Lemma boot_leaves : leaves boot_pt = boot_leaf <$> [0; 1; 2].
Proof.
  destruct boot_words as (W1 & W2 & W3).
  assert (Hp : ∀ e, contains e PRESENT = true → contains (pte_flags (pte_of e)) PRESENT = true)
    by (intros e; apply has_flag; by left).
  unfold leaves, boot_pt. rewrite of_root, of_read, enumerate_entries.
  rewrite (boot_table_bind 0x1000 1) by ((intros i e He; by apply (leaves_absent i e He 0)) || by left).
  change (range 0 1) with [0]. cbn [mbind list_bind]. rewrite app_nil_r, W1. unfold leaves_4.
  rewrite Hp, of_read, (addr_of 0x2003 0x2000), enumerate_entries by reflexivity.
  rewrite (boot_table_bind 0x2000 1) by ((intros i e He; by apply (leaves_absent i e He)) || by right; left).
  change (range 0 1) with [0]. cbn [mbind list_bind]. rewrite app_nil_r, W2. unfold leaves_3.
  rewrite Hp, lacks_huge, of_read, (addr_of 0x3003 0x3000), enumerate_entries by reflexivity.
  rewrite (boot_table_bind 0x3000 3) by ((intros i e He; by apply (leaves_absent i e He)) || by right; right; left).
  change (range 0 3) with [0; 1; 2] in *.
  assert (Hl : ∀ j, j ∈ [0; 1; 2] → leaves_2 (of_memory m 0x1000) (0 * 2 ^ 39 + 0 * 2 ^ 30)
    (j, pte_of (rd64 boot_tables (0x3000 + 8 * j))) = [boot_leaf j]).
  { intros j Hj. rewrite W3 by done. unfold leaves_2, boot_leaf, leaf_at.
    rewrite !elem_of_cons in Hj. destruct Hj as [->|[->|[->|Hj]]]; [..|by apply elem_of_nil in Hj];
      (rewrite Hp, has_flag by (reflexivity || by do 3 right; left); f_equal; f_equal; by apply addr_of). }
  cbn [mbind list_bind fmap list_fmap]. rewrite !Hl by (by repeat (left || right)). done.
Qed.

Lemma boot_table_bind' {B} table (n : Z) (f : PageTableEntry → list B) :
  (∀ e, contains (pte_flags e) PRESENT = false → f e = []) →
  (table, n) ∈ [(0x1000, 1); (0x2000, 1); (0x3000, 3)] →
  (entry_at m table <$> range 0 512) ≫= f = range 0 n ≫= (λ i, f (pte_of (rd64 boot_tables (table + 8 * i)))).
Proof.
  intros Hf Ht. etrans; [|apply (boot_table_bind table n (λ ie, f ie.2)); [intros i e He; by apply Hf|done]].
  by rewrite !list_fmap_bind.
Qed.

Lemma boot_reached : reached boot_pt = [0x1000; 0x2000; 0x3000].
Proof.
  destruct boot_words as (W1 & W2 & W3).
  assert (Hp : ∀ e, contains e PRESENT = true → contains (pte_flags (pte_of e)) PRESENT = true)
    by (intros e; apply has_flag; by left).
  unfold reached, boot_pt. rewrite of_root, of_read.
  rewrite (boot_table_bind' 0x1000 1) by ((intros e He; unfold tables_4; by rewrite He) || by left).
  change (range 0 1) with [0]. cbn [mbind list_bind]. rewrite app_nil_r, W1. unfold tables_4.
  rewrite Hp, of_read, (addr_of 0x2003 0x2000) by reflexivity.
  rewrite (boot_table_bind' 0x2000 1) by ((intros e He; unfold tables_3; by rewrite He) || by right; left).
  change (range 0 1) with [0]. cbn [mbind list_bind]. rewrite app_nil_r, W2. unfold tables_3.
  rewrite Hp, lacks_huge, of_read, (addr_of 0x3003 0x3000) by reflexivity. cbn [andb negb].
  rewrite (boot_table_bind' 0x3000 3) by ((intros e He; unfold tables_2; by rewrite He) || by right; right; left).
  rewrite bind_nil; [done|]. intros j Hj. rewrite W3 by done. unfold tables_2.
  rewrite (has_flag _ HUGE_PAGE), andb_false_r; [done|by do 3 right; left|].
  apply elem_of_range in Hj. assert (j = 0 ∨ j = 1 ∨ j = 2) as [->|[->| ->]] by lia; reflexivity.
Qed.

Lemma boot_low : low_half boot_pt.
Proof.
  intros i e Hin He. unfold boot_pt in Hin. rewrite of_root, of_read, enumerate_entries in Hin.
  apply list_elem_of_fmap in Hin as (j & [= -> ->] & Hj%elem_of_range).
  destruct (decide (j < 256)); [done|]. exfalso. rewrite entry_boot in He by (lia || by left).
  destruct boot_entries_zero as (Z1 & _). rewrite Forall_forall in Z1.
  rewrite not_present in He; [done|]. apply Z1, elem_of_range. lia.
Qed.

Lemma boot_leaf_covers j v : covers (boot_leaf j) v ↔ j * 2 ^ 21 ≤ v < (j + 1) * 2 ^ 21.
Proof. unfold covers, boot_leaf. cbn [lf_virt lf_size]. lia. Qed.

Lemma boot_leaf_in l : l ∈ leaves boot_pt → ∃ j, 0 ≤ j < 3 ∧ l = boot_leaf j.
Proof.
  rewrite boot_leaves. intros (j & -> & Hj)%list_elem_of_fmap. exists j. split; [|done].
  rewrite !elem_of_cons in Hj. destruct Hj as [->|[->|[->|Hj]]]; (lia || by apply elem_of_nil in Hj).
Qed.

Lemma boot_valid : tables_valid boot_pt.
Proof.
  split.
  - rewrite boot_reached. apply (bool_decide_unpack _). reflexivity.
  - intros l (j & Hj & ->)%boot_leaf_in. unfold boot_leaf. cbn [lf_virt lf_size]. split_and!.
    + by apply Z.mod_mul.
    + by right; left.
    + left. lia.
  - intros l l' ls v Hp Hc Hc'. rewrite boot_leaves in Hp. symmetry in Hp.
    apply Permutation_map_inv in Hp as (js & Heq & Hjs).
    destruct js as [|i [|j js]]; [done|done|]. injection Heq as -> -> _.
    apply boot_leaf_covers in Hc, Hc'. assert (i = j) as -> by lia.
    assert (Hn : NoDup [0; 1; 2]) by (apply (bool_decide_unpack _); reflexivity).
    rewrite Hjs in Hn. apply NoDup_cons in Hn as [Hn _]. apply Hn. by left.
  - rewrite boot_leaves. vm_compute. discriminate.
Qed.

Lemma boot_mapper_ok : mapper_ok boot_pt.
Proof.
  apply of_valid; [apply boot_valid|]. apply Forall_forall. intros l (j & _ & ->)%boot_leaf_in. done.
Qed.

Lemma boot_tables_ready total : 0x4000 ≤ total → tables_ready total boot_pt.
Proof.
  intros Ht. split; [apply boot_mapper_ok|apply boot_low|]. intros f Hf.
  assert (f ∈ reached boot_pt) as Hr by by apply of_frames. rewrite boot_reached in Hr.
  unfold standard_frames. rewrite elem_of_filter, elem_of_union, (elem_of_block 0). unfold tracked_frames, FRAME_SIZE in *.
  assert (0x4000 / 4096 ≤ total / 4096) by (by apply Z.div_le_mono). change (0x4000 / 4096) with 4 in *.
  assert (4 < MAX_TRACKED_FRAMES) by done.
  rewrite !elem_of_cons in Hr. destruct Hr as [->|[->|[->|Hr]]]; [..|by apply elem_of_nil in Hr];
    split; [|by left| |by left| |by left]; apply Z.min_glb_lt; dlia.
Qed.

(** The first 6 MiB are mapped to themselves, and nothing else is. *)
Lemma boot_translation v :
  translate_addr boot_pt v = if (0 <=? v) && (v <? 0x600000) then Some v else None.
Proof.
  unfold translate_addr. destruct (Z.leb_spec 0 v), (Z.ltb_spec v 0x600000); cbn [andb].
  - rewrite (translate_ok _ _ (boot_leaf (v / 2 ^ 21)) boot_mapper_ok).
    + cbn. f_equal. lia.
    + rewrite boot_leaves. apply list_elem_of_fmap. exists (v / 2 ^ 21). split; [done|].
      assert (v / 2 ^ 21 = 0 ∨ v / 2 ^ 21 = 1 ∨ v / 2 ^ 21 = 2) as [->|[->| ->]] by dlia; by repeat (left || right).
    + apply boot_leaf_covers. dlia.
  - rewrite translate_none; [done|apply boot_mapper_ok|]. intros l (j & ? & ->)%boot_leaf_in. rewrite boot_leaf_covers. lia.
  - rewrite translate_none; [done|apply boot_mapper_ok|]. intros l (j & ? & ->)%boot_leaf_in. rewrite boot_leaf_covers. lia.
  - rewrite translate_none; [done|apply boot_mapper_ok|]. intros l (j & ? & ->)%boot_leaf_in. rewrite boot_leaf_covers. lia.
Qed.

End BootTables.

(** ** The start info, and its copy *)

Lemma read_le_shift m m' n a a' :
  (∀ i, 0 ≤ i < Z.of_nat n → m (a + i) = m' (a' + i)) → read_le m n a = read_le m' n a'.
Proof.
  intros Hm. unfold read_le. rewrite <- (Z.add_0_r a), <- (Z.add_0_r a'), <- !fmap_add_seqZ, <- !list_fmap_compose.
  f_equal. apply list_fmap_ext. intros i x Hx. apply list_elem_of_lookup_2, elem_of_seqZ in Hx.
  apply Hm. lia.
Qed.

Lemma read_info_shift m m' a a' :
  (∀ i, 0 ≤ i < 40 → m (a + i) = m' (a' + i)) → read_HvmStartInfo m a = read_HvmStartInfo m' a'.
Proof.
  intros Hm. unfold read_HvmStartInfo.
  f_equal; apply read_le_shift; intros i Hi; rewrite <- ?Z.add_assoc; apply Hm; lia.
Qed.

Lemma parse_entries_ext `{PhysAddrApi} m m' p n l :
  (∀ x, p ≤ x < p + 24 * n → m x = m' x) → (∀ i, i ∈ l → 0 ≤ i < n) →
  parse_hvm_entries m p l = parse_hvm_entries m' p l.
Proof.
  intros Hm. induction l as [|i l IH]; intros Hl; [done|]. cbn [parse_hvm_entries].
  assert (Hi : 0 ≤ i < n) by (apply Hl; by left).
  assert (He : read_HvmMemmapEntry m p i = read_HvmMemmapEntry m' p i).
  { unfold read_HvmMemmapEntry. f_equal; apply read_le_shift; intros j Hj; apply Hm; lia. }
  rewrite He, IH; [done|]. intros j Hj. apply Hl. by right.
Qed.

(** The stub writes none of the [n] bytes at [a]. *)
Definition untouched (img : Image) (a n : Z) : Prop := ∀ x, a ≤ x < a + n →
  (x < 0x500 ∨ 0x600 ≤ x) ∧ (x < 0x1000 ∨ 0x4000 ≤ x) ∧ (x < 0x7FFF8 ∨ 0x80000 ≤ x) ∧
  (x < i_bss_start img ∨ i_bss_end img ≤ x).

Lemma stub_memory_untouched img ebx m a n x :
  untouched img a n → a ≤ x < a + n → stub_memory img ebx m x = m x.
Proof.
  intros Hu Hx. destruct (Hu x Hx) as (H1 & H2 & H3 & H4). unfold stub_memory.
  rewrite store_other by (rewrite zlen_le_bytes; lia). by rewrite !overlay_out.
Qed.

Lemma stub_memory_copy img ebx m i :
  0x100000 ≤ i_bss_start img → 0 ≤ i < 256 → stub_memory img ebx m (0x500 + i) = m (ebx + i).
Proof.
  intros Hb Hi. unfold stub_memory. rewrite store_other by lia. rewrite 2!overlay_out, overlay_in by lia.
  f_equal. lia.
Qed.

(** What the start info at [p] says of the memory map: its address and its length. *)
Definition info_map (m : Memory) (p : Z) : Z * Z :=
  let h := read_HvmStartInfo m p in (hvm_memmap_paddr h, 24 * hvm_memmap_entries h).

(** The kernel parses the copy as it would have parsed the original, when the stub did not
    write over the table of entries: only the header is read from the copy. *)
Theorem start_info_kept `{PhysAddrApi} img ebx m m' :
  0 < ebx → 0x100000 ≤ i_bss_start img → untouched img (info_map m ebx).1 (info_map m ebx).2 →
  (∀ x, m' x = stub_memory img ebx m x) →
  parse_hvm_start_info m' 0x500 = parse_hvm_start_info m ebx.
Proof.
  intros Hebx Hb Hu Hm. unfold parse_hvm_start_info. change (0x500 =? 0) with false.
  destruct (Z.eqb_spec ebx 0); [lia|].
  rewrite (read_info_shift m' m 0x500 ebx) by (intros i Hi; rewrite Hm; apply stub_memory_copy; lia).
  destruct (_ || _); [done|]. eapply (parse_entries_ext _ _ _ (hvm_memmap_entries (read_HvmStartInfo m ebx))).
  - intros x Hx. rewrite Hm. eapply stub_memory_untouched; [exact Hu|exact Hx].
  - intros i Hi%elem_of_range. lia.
Qed.

(** A table of entries at 0x1000 is lost: the kernel reads the stub's page tables. *)
Theorem start_info_lost img ebx m m' :
  0x100000 ≤ i_bss_start img → (∀ x, m' x = stub_memory img ebx m x) →
  read_HvmMemmapEntry m' 0x1000 0 = mkEntry 0x2003 0 0 0.
Proof.
  intros Hb Hm.
  assert (Hx : ∀ x, 0x1000 ≤ x < 0x4000 → m' x = boot_tables x).
  { intros x Hx. rewrite Hm. unfold stub_memory. rewrite store_other by lia. by rewrite overlay_out, overlay_in by lia. }
  transitivity (read_HvmMemmapEntry boot_tables 0x1000 0); [|vm_compute; reflexivity].
  unfold read_HvmMemmapEntry. f_equal; apply read_le_shift; intros j Hj; apply Hx; lia.
Qed.

(** ** From the entry point on *)

Lemma stub_tables_hold img s m' :
  pvh_entry img s → (∀ x, m' x = stub_memory img (reg_of RBX s) (mem_of s) x) → tables_hold m'.
Proof.
  intros Hs Hm x Hx. pose proof (pe_gdt _ _ Hs) as (? & ? & ?). rewrite Hm. unfold stub_memory.
  rewrite store_other by lia. by rewrite overlay_out, overlay_in by lia.
Qed.

Lemma stub_runs img s :
  pvh_entry img s →
  ∃ s', run_boot (pvh_start img) s = Ret (tt, s') ∧
    (∀ x, mem_of s' x = stub_memory img (reg_of RBX s) (mem_of s) x) ∧
    s_ctl s' = ctl_long (ctl_segments img (put_if false (s_ctl s))) ∧
    reg_of RSP s' = 0x7FFF8 ∧ reg_of RDI s' = 0x500 ∧ reg_of RSI s' = 0.
Proof.
  intros Hs. destruct (stub_reaches img s Hs) as (b & Hg & Hm & Hc & Hsp & Hdi & Hsi).
  destruct (Hg s) as (s' & Hr & [H1 H2 H3]); [by split|]. exists s'. split; [done|]. rewrite !H1, H3.
  split_and!; [|done..]. intros x. by rewrite H2, Hm.
Qed.

(** C11. The stub, run from the entry point of the boot protocol, does not fault and calls
    the kernel in 64-bit mode with paging over the tables at 0x1000, interrupts off, the
    arguments 0x500 and 0 and a stack below 0x80000; of the memory it changed exactly the
    copy of the start info, the three tables, the zeroed section and the return address. *)
Theorem stub_enters_kernel img s :
  pvh_entry img s →
  ∃ s', run_boot (pvh_start img) s = Ret (tt, s') ∧
    (∀ x, mem_of s' x = stub_memory img (reg_of RBX s) (mem_of s) x) ∧
    paging (s_ctl s') = true ∧ in_64 (s_ctl s') = true ∧ if_flag (s_ctl s') = false ∧ cr3 (s_ctl s') = 0x1000 ∧
    (∀ need a, need ∈ [FOR_READ; FOR_WRITE] → 0 ≤ a < 0x600000 → physical (s_ctl s') need (mem_of s') a = Some a) ∧
    reg_of RDI s' = 0x500 ∧ reg_of RSI s' = 0 ∧ reg_of RSP s' = 0x7FFF8.
Proof.
  intros Hs. destruct (stub_runs img s Hs) as (s' & Hr & Hm & Hc & Hsp & Hdi & Hsi). exists s'. split; [done|].
  split; [done|]. rewrite Hc. destruct (ctl_long_on (ctl_segments img (put_if false (s_ctl s)))) as (Hp & H64 & H3).
  split_and!; [done..| |done|done|done]. intros need a Hn Ha. unfold physical. rewrite Hp, H3.
  apply walk_tables; [done| |done]. by eapply stub_tables_hold.
Qed.

Section PowerOn.
Context `{PhysAddrApi} `{!PhysAddrLaws _} `{VirtAddrApi} `{!VirtAddrLaws _}.
Context `{MM : MemoryMapper T} `{!TableLaws _}.
Context `{GdtLaws G} `{PortsAnswer P} `{!Pics P} `{!PicsAnswer P}.
Context (cpuid : Z → CpuidResult).

(** The kernel is loaded: [b] is its state on a processor that the stub left as [s]. *)
Record kernel_entered (s : Stub) (b : BootState P T) : Prop := {
  ke_memory : k_mem (c_kernel (bs_console b)) = mem_of s;
  ke_tables : c_tables (bs_console b) = of_memory (mem_of s) (cr3 (s_ctl s));
  ke_window : zlen (bs_window b) = VGA_WINDOW;
  ke_bitmap : bitmap_static (g_BITMAP (k_pmm (c_kernel (bs_console b))));
}.

(** What the loader gives: the start info at the address in EBX, whose map of sane entries
    [regions] is where the stub does not write. *)
Record loader_info (img : Image) (s : Stub) (regions : list MemoryRegion) : Prop := {
  li_info : 0 < reg_of RBX s;
  li_map : parse_hvm_start_info (mem_of s) (reg_of RBX s) = Ret regions;
  li_untouched : untouched img (info_map (mem_of s) (reg_of RBX s)).1 (info_map (mem_of s) (reg_of RBX s)).2;
  li_regions : Forall entry_ok regions;
  li_count : zlen regions < 2 ^ 32;
  li_clean : (memmap_effect (tracked_frames (detect_total_memory cpuid)) ∅ regions).2 = 0;
}.

Lemma entered_bootable img s s' regions b :
  pvh_entry img s → loader_info img s regions → 0x4000 ≤ detect_total_memory cpuid →
  (∀ x, mem_of s' x = stub_memory img (reg_of RBX s) (mem_of s) x) → cr3 (s_ctl s') = 0x1000 →
  kernel_entered s' b → bootable cpuid 0x500 regions b.
Proof.
  intros Hs [Hi Hmap Hu Hall Hlen Hd] Ht Hm Hc [Hk Htab Hw Hb]. rewrite Hc in Htab.
  pose proof (pe_gdt _ _ Hs) as (? & ? & ?).
  split; [done|done|lia| |done|done|done|].
  - rewrite Hk, <- Hmap. apply (start_info_kept img); [done|lia|done|done].
  - rewrite Htab. apply boot_tables_ready; [by eapply stub_tables_hold|done].
Qed.

(** C7. From the entry point to the prompt. The processor runs the boot stub, the kernel
    starts with the arguments it leaves, and the boot reaches its last phase: with the
    frame allocator set up from the loader's memory map although the stub moved the start
    info, with every table frame reserved, and with the first 6 MiB mapped to themselves and
    nothing else, before and after. When mounting the disk completes, so does the boot. *)
Theorem power_on_reaches_prompt img s regions :
  pvh_entry img s → loader_info img s regions → 0x4000 ≤ detect_total_memory cpuid →
  ∃ s', run_boot (pvh_start img) s = Ret (tt, s') ∧
    ∀ b, kernel_entered s' b →
    ∃ b1, boot_devices (G := G) cpuid (reg_of RDI s') b = Ret (tt, b1) ∧
      booted (detect_total_memory cpuid) regions b b1 ∧
      ata_found (ata (c_system (bs_console b))) (ata (c_system (bs_console b1))) ∧
      (∀ v, translate_addr (c_tables (bs_console b1)) v = if (0 <=? v) && (v <? 0x600000) then Some v else None) ∧
      ∀ m d, init_vfs (c_system (bs_console b1)) = Ret (m, d) →
        ∃ b2, arcadia_kernel_main (G := G) cpuid (reg_of RDI s') (reg_of RSI s') b = Ret (Terminal_new, b2) ∧
          booted (detect_total_memory cpuid) regions b b2 ∧
          c_vfs (bs_console b2) = Some m ∧ shows (c_vga (bs_console b2)) ([], []).
Proof.
  intros Hs Hl Ht. destruct (stub_runs img s Hs) as (s' & Hr & Hm & Hc & Hsp & Hdi & Hsi). exists s'. split; [done|].
  intros b Hb. destruct (ctl_long_on (ctl_segments img (put_if false (s_ctl s)))) as (_ & _ & Hroot). rewrite <- Hc in Hroot.
  pose proof (entered_bootable img s s' regions b Hs Hl Ht Hm Hroot Hb) as Hok. rewrite Hdi.
  destruct (devices_steps cpuid 0x500 regions b Hok) as (b1 & g & v & y & c & t & r & a & Hrun & Hv & Hmem & Hy & Hcpu & Ha).
  exists b1. split; [done|]. assert (Hbo : booted (detect_total_memory cpuid) regions b b1)
    by (eapply booted_views; [exact Hv|done..]).
  split; [done|]. split; [pose proof (f_equal v_ata Hv) as Hva; cbn in Hva; by rewrite Hva|]. split.
  - rewrite (bo_tables _ _ _ _ Hbo), (ke_tables _ _ Hb), Hroot. apply boot_translation. by eapply stub_tables_hold.
  - intros m d Hvfs. by apply (main_finishes cpuid 0x500 (reg_of RSI s') regions b b1 m d).
Qed.

End PowerOn.

(** ** A machine *)

#[local] Existing Instance phys52.
#[local] Existing Instance phys52_laws.

(** A mapper that reads the tables and finds no frame for new ones. *)
Record ReadTables := mkTables { rt_memory : Memory; rt_root : Z }.

Definition rt_read (t : ReadTables) (a : Z) : list PageTableEntry := entry_at (rt_memory t) a <$> range 0 512.

(** The leaves that the tables hold. *)
Definition rt_leaves (t : ReadTables) : list Leaf :=
  @leaves ReadTables {|
    level_4_table := rt_root;
    read_table := rt_read;
    map_to A alloc page frame flags s := Ret (Err FrameAllocationFailed, s);
    unmap page t := Ret (Err PageNotMapped, t);
    translate_page t v := None;
  |} t.

#[export] Instance reader : PageMapper ReadTables := {
  level_4_table := rt_root;
  read_table := rt_read;
  map_to A alloc page frame flags s := Ret (Err FrameAllocationFailed, s);
  unmap page t := Ret (Err (if bool_decide (Exists (λ l, covers l page) (rt_leaves t))
    then UnmapParentEntryHugePage else PageNotMapped), t);
  translate_page t v :=
    match filter (λ l, covers l v) (rt_leaves t) with
    | l :: _ => Some (lf_phys l + (v - lf_virt l), lf_flags l)
    | [] => None
    end;
}.

Lemma rt_leaves_eq t : rt_leaves t = leaves t.
Proof. cbv [rt_leaves leaves leaves_4 leaves_3 leaves_2 read_table level_4_table reader]. reflexivity. Qed.

#[local] Obligation Tactic := idtac.

#[export] Program Instance reader_laws : PageMapperLaws ReadTables := {
  mapper_ok t := tables_valid t ∧ Forall (λ l, lf_size l ≠ 4096) (leaves t);
  table_frames t := list_to_set (reached t);
}.
Next Obligation. intros t a. cbn. unfold rt_read, zlen. by rewrite length_fmap, length_range. Qed.
Next Obligation. intros t l [Hv _]. apply (tv_aligned _ Hv). Qed.
Next Obligation. intros t l l' ls v [Hv _]. apply (tv_disjoint _ Hv). Qed.
Next Obligation. intros t [Hv _]. apply (tv_bound _ Hv). Qed.
Next Obligation. intros A alloc I page frame flags t a _ Hok HI _ _ _ _ _. by exists (Err FrameAllocationFailed), t, a. Qed.
Next Obligation.
  intros page t Hok Hc Hp. cbn [unmap reader]. eexists _, t. split; [reflexivity|]. do 2 (split; [done|]).
  rewrite rt_leaves_eq. case_bool_decide as He.
  - split; [done|]. apply Exists_exists in He as (l & Hl & Hcv). exists l. split_and!; [done..|].
    destruct Hok as [_ Hs]. rewrite Forall_forall in Hs. by apply Hs.
  - split; [done|]. intros l Hl Hcv. apply He, Exists_exists. by exists l.
Qed.
Next Obligation.
  intros t v l [Hv _] Hl Hc. cbn [translate_page reader]. rewrite rt_leaves_eq.
  assert (Hf : l ∈ filter (λ l, covers l v) (leaves t)) by (by apply list_elem_of_filter).
  destruct (filter (λ l, covers l v) (leaves t)) as [|l' ls] eqn:Heq; [by apply elem_of_nil in Hf|].
  assert (l' = l) as ->; [|done]. apply elem_of_cons in Hf as [->|Hin]; [done|]. exfalso.
  apply list_elem_of_split in Hin as (l1 & l2 & ->).
  assert (Hp : leaves t ≡ₚ l' :: l :: (l1 ++ l2 ++ filter (λ l, ¬ covers l v) (leaves t))).
  { rewrite <- (filter_app_complement (λ l, covers l v) (leaves t)) at 1. rewrite Heq.
    cbn [app]. f_equiv. rewrite <- !app_assoc. cbn [app]. by rewrite <- Permutation_middle. }
  assert (Hl' : l' ∈ filter (λ l, covers l v) (leaves t)) by (rewrite Heq; by left).
  apply list_elem_of_filter in Hl' as [Hc' _]. exact (tv_disjoint _ Hv _ _ _ v Hp Hc' Hc).
Qed.
Next Obligation.
  intros t v Hok Hn. cbn [translate_page reader]. rewrite rt_leaves_eq.
  destruct (filter _ _) as [|l ls] eqn:Heq; [done|]. exfalso.
  assert (Hl : l ∈ filter (λ l, covers l v) (leaves t)) by (rewrite Heq; by left).
  apply list_elem_of_filter in Hl as [Hc Hl]. by apply (Hn l).
Qed.

#[export] Instance reader_memory : MemoryMapper ReadTables.
Proof.
  refine {| of_memory := mkTables |}; [done|done| |done]. intros m root f Hf. by apply elem_of_list_to_set in Hf.
Defined.

(** An image of one page with five zeroed bytes, the start info of [w_mem] at 32, and the
    processor as the loader leaves it. *)
Definition w_image : Image := mkImage 0x100000 0x100018 0x101000 0x101005 0x100200.

Definition w_loaded : Memory := store (store w_mem 0x100000 gdt64) 0x100018 (gdt64_ptr w_image).

Definition w_stub : Stub :=
  mkStub (mkCpu (λ r, if decide (r = RBX) then 32 else 0) w_loaded) (mkControl 1 0 0 0 0 0 (λ _, DATA) true false).

Lemma w_pvh_entry : pvh_entry w_image w_stub.
Proof.
  split; try reflexivity.
  - change (reg_of RBX w_stub) with 32. lia.
  - right. change (reg_of RBX w_stub) with 32. lia.
  - cbn. lia.
  - cbn. lia.
Qed.

Lemma w_loader_info : loader_info w_cpuid w_image w_stub [w_region].
Proof.
  split.
  - reflexivity.
  - vm_compute. reflexivity.
  - assert (info_map (mem_of w_stub) (reg_of RBX w_stub) = (128, 24)) as -> by (vm_compute; reflexivity).
    intros x Hx. cbn in *. lia.
  - exact (ba_regions _ _ _ _ w_bootable).
  - done.
  - exact (ba_clean _ _ _ _ w_bootable).
Qed.

(** The kernel over the memory and the tables that the stub left. *)
Definition w_entered (s : Stub) : BootState (list Z) ReadTables :=
  mkBoot
    (mkConsole (mkKernel table_new 0 0 0 false 0 (mem_of s) w_global (cr3 (s_ctl s)) 0 []) None (mkAtaSystem None [])
      Clock_new (mkSys None None None) (mkVmmGlobal None false) (mkTables (mem_of s) (cr3 (s_ctl s))) Vga.w_writer)
    (zrepeat VGA_WINDOW 0) (mkTss 0 0 0x70000) None None false None.

Lemma w_entered_ok s : kernel_entered s (w_entered s).
Proof. split; [done|done|cbn [bs_window w_entered]; by apply zlen_repeat|exact w_static]. Qed.

Lemma stub_enters_kernel_witness :
  ∃ s', run_boot (pvh_start w_image) w_stub = Ret (tt, s') ∧ reg_of RDI s' = 0x500 ∧ in_64 (s_ctl s') = true ∧
    mem_of s' (0x500 + 24) = 128.
Proof.
  destruct (stub_enters_kernel w_image w_stub w_pvh_entry) as (s' & Hr & Hm & _ & H64 & _ & _ & _ & Hdi & _).
  exists s'. split; [exact Hr|]. split; [exact Hdi|]. split; [exact H64|]. rewrite Hm. vm_compute. reflexivity.
Defined.

Lemma power_on_reaches_prompt_witness :
  ∃ s' b2, run_boot (pvh_start w_image) w_stub = Ret (tt, s') ∧
    arcadia_kernel_main (G := Z) w_cpuid (reg_of RDI s') (reg_of RSI s') (w_entered s') = Ret (Terminal_new, b2) ∧
    bs_enabled b2 = true.
Proof.
  destruct (power_on_reaches_prompt (T := ReadTables) (TableLaws0 := walker_laws) (G := Z) (P := list Z) w_cpuid w_image w_stub [w_region] w_pvh_entry
    w_loader_info ltac:(vm_compute; discriminate)) as (s' & Hr & Hboot).
  destruct (Hboot (w_entered s') (w_entered_ok s')) as (b1 & _ & _ & (p & p' & r & d & Hinit & Hata) & _ & Hmain).
  destruct (list_no_drive p) as (d' & Hp). rewrite Hp in Hinit. injection Hinit as <- _ _.
  destruct (Hmain _ _ (init_vfs_no_disk _ Hata)) as (b2 & H2 & Hb & _).
  exists s', b2. split; [exact Hr|]. split; [exact H2|exact (bo_enabled _ _ _ _ Hb)].
Defined.
