(* ===== verification/BootLoader.v ===== *)
(** * The UEFI boot loader (boot/src/lib.rs)

    [efi_main]: it reads the kernel's file, copies it to 1 MiB, and jumps there. The
    services of the firmware, which the crate [uefi] gives, are the class [Uefi]. *)

From stdpp Require Import base numbers list gmap strings.
From S2P Require Import Prelude ByteStr Text.

#[local] Open Scope Z_scope.
#[local] Open Scope rust_scope.

(** The state [U] is the firmware's. Handles and files are numbers, paths the characters
    of a [CString16], errors [tt]. *)
Class Uefi (U : Type) := {
  stdout_clear : M U (result unit unit);
  stdout_write : list Z → M U (result unit unit);
  get_handle_for_protocol : M U (result Z unit);
  open_protocol_exclusive : Z → M U (result Z unit);
  open_volume : Z → M U (result Z unit);
  file_open : Z → list Z → M U (result Z unit);
  (** [get_info] into a buffer of that many bytes; the answer is the size of the file. *)
  file_size : Z → Z → M U (result Z unit);
  (** [read] into a buffer; the answer is the buffer afterwards. *)
  file_read : Z → list Z → M U (result (list Z) unit);
  allocate_pages : Z → Z → M U (result Z unit);
  (** The entries of the final memory map: start and number of pages. *)
  exit_boot_services : M U (list (Z * Z));
}.

Definition KERNEL_PATH : list Z := bytes_of "\EFI\Arcadia\kernel.elf".

(** The path that [load_kernel] opens. *)
Definition opened_path : list Z := bytes_of " \ E F I \ A r c a d i a \ k e r n e l . e l f".

Definition kernel_start : Z := 0x100000.

(** How the loader ends: with a status for the firmware, or in the kernel, at an address,
    with two arguments. *)
Inductive LoaderEnd :=
  | LOAD_ERROR
  | Entered (entry rdi rsi : Z).

(** The memory and the firmware. *)
Record Loader (U : Type) := mkLoader { ld_mem : Z → Z; ld_uefi : U }.
Arguments mkLoader {U} _ _.
Arguments ld_mem {U} _.
Arguments ld_uefi {U} _.

(** [copy_nonoverlapping(data, dest, data.len())] *)
Definition copy_to (dest : Z) (data : list Z) (mem : Z → Z) (a : Z) : Z :=
  if (dest <=? a) && (a <? dest + zlen data) then data !!! Z.to_nat (a - dest) else mem a.

(** The largest end of an entry. *)
Definition memory_end (entries : list (Z * Z)) : Z :=
  foldl (λ total_memory e,
    let end_ := e.1 +₆₄ e.2 *₆₄ 0x1000 in
    if total_memory <? end_ then end_ else total_memory) 0 entries.

Section Loader.
Context `{Uefi U}.

(** [r.unwrap()] *)
Definition unwrap {A E} (m : M U (result A E)) : M U A :=
  r ← m;
  match r with Ok a => mret a | Err _ => liftO Panic end.

(** [r.ok()?], in a function that returns an option. *)
Definition ok_then {A B E} (m : M U (result A E)) (k : A → M U (option B)) : M U (option B) :=
  r ← m;
  match r with Ok a => k a | Err _ => mret None end.

Definition load_kernel : M U (option (list Z)) :=
  ok_then get_handle_for_protocol (λ handle,
  ok_then (open_protocol_exclusive handle) (λ fs,
  ok_then (open_volume fs) (λ root_dir,
  ok_then (file_open root_dir opened_path) (λ file,
  ok_then (file_size file 512) (λ size,
  ok_then (file_read file (zrepeat size 0)) (λ kernel_data, mret (Some kernel_data))))))).

Definition writeln (s : list Z) : M U unit := unwrap (stdout_write (s ++ [10])).

Definition on_uefi {A} (m : M U A) : M (Loader U) A := λ l,
  match m (ld_uefi l) with
  | Ret (a, u) => Ret (a, mkLoader (ld_mem l) u)
  | Panic => Panic
  | UB => UB
  | OutOfFuel => OutOfFuel
  end.

(** From the answer of [load_kernel] on. *)
Definition boot_kernel (kernel : option (list Z)) : M (Loader U) LoaderEnd :=
  match kernel with
  | None =>
      _ ← on_uefi (writeln (bytes_of "ERROR: Failed to load kernel"));
      mret LOAD_ERROR
  | Some kernel_data =>
      _ ← on_uefi (writeln (bytes_of "Kernel loaded: " ++ dec (zlen kernel_data) ++ bytes_of " bytes"));
      let kernel_size_pages := (zlen kernel_data +₆₄ 0xFFF) / 0x1000 in
      _ ← on_uefi (allocate_pages kernel_start kernel_size_pages);
      _ ← modify (λ l, mkLoader (copy_to kernel_start kernel_data (ld_mem l)) (ld_uefi l));
      _ ← on_uefi (writeln (bytes_of "Kernel at 0x" ++ hex kernel_start));
      _ ← on_uefi (writeln (bytes_of "Exiting boot services..."));
      memory_map ← on_uefi exit_boot_services;
      mret (Entered kernel_start 0 (memory_end memory_map))
  end.

Definition efi_main : M (Loader U) LoaderEnd :=
  _ ← on_uefi (unwrap stdout_clear);
  _ ← on_uefi (writeln (bytes_of "Arcadia Bootloader"));
  _ ← on_uefi (writeln (bytes_of "Loading kernel..."));
  kernel ← on_uefi load_kernel;
  boot_kernel kernel.

End Loader.

(** ** A firmware that works *)

(** The files of the boot volume by path, and the files opened so far. These are the services of
    a firmware that keeps its own code and data, and the buffer of the file, away from the
    memory at 1 MiB, which the loader overwrites whether or not it was given the pages:
    otherwise neither the services after the copy nor the copy itself need do their work. *)
Class UefiLaws (U : Type) `{Uefi U} := {
  volume : U → gmap (list Z) (list Z);
  opened : U → Z → option (list Z);
  clear_ok : ∀ u, ∃ u', stdout_clear u = Ret (Ok tt, u') ∧ volume u' = volume u;
  write_ok : ∀ u s, ∃ u', stdout_write s u = Ret (Ok tt, u') ∧ volume u' = volume u;
  handle_ok : ∀ u, ∃ h u', get_handle_for_protocol u = Ret (Ok h, u') ∧ volume u' = volume u;
  protocol_ok : ∀ u h, ∃ r u', open_protocol_exclusive h u = Ret (Ok r, u') ∧ volume u' = volume u;
  volume_ok : ∀ u h, ∃ r u', open_volume h u = Ret (Ok r, u') ∧ volume u' = volume u;
  open_found : ∀ u d path bs, volume u !! path = Some bs →
    ∃ f u', file_open d path u = Ret (Ok f, u') ∧ opened u' f = Some bs;
  open_missing : ∀ u d path, volume u !! path = None → ∃ u', file_open d path u = Ret (Err tt, u');
  size_ok : ∀ u f n bs, opened u f = Some bs →
    ∃ u', file_size f n u = Ret (Ok (zlen bs), u') ∧ opened u' f = Some bs;
  read_ok : ∀ u f buf bs, opened u f = Some bs → zlen buf = zlen bs →
    ∃ u', file_read f buf u = Ret (Ok bs, u');
  pages_answer : ∀ u a n, ∃ r u', allocate_pages a n u = Ret (r, u');
  exit_answer : ∀ u, ∃ l u', exit_boot_services u = Ret (l, u');
}.

Section Outcomes.
Context `{UefiLaws U}.

Lemma unwrap_ok {A E} (m : M U (result A E)) u a u' : m u = Ret (Ok a, u') → unwrap m u = Ret (a, u').
Proof. intros Hm. unfold unwrap. by rewrite (bind_Ret _ _ _ _ _ Hm). Qed.

Lemma writeln_ok s u : ∃ u', writeln s u = Ret (tt, u') ∧ volume u' = volume u.
Proof. destruct (write_ok u (s ++ [10])) as (u' & Hr & Hv). exists u'. split; [by apply unwrap_ok|done]. Qed.

Lemma on_uefi_Ret {A} (m : M U A) l a u : m (ld_uefi l) = Ret (a, u) → on_uefi m l = Ret (a, mkLoader (ld_mem l) u).
Proof. intros Hm. unfold on_uefi. by rewrite Hm. Qed.

Lemma ok_then_Ok {A B E} (m : M U (result A E)) (k : A → M U (option B)) u a u' :
  m u = Ret (Ok a, u') → ok_then m k u = k a u'.
Proof. intros Hm. unfold ok_then. by rewrite (bind_Ret _ _ _ _ _ Hm). Qed.

Lemma load_kernel_ok u :
  ∃ u', load_kernel u = Ret (volume u !! opened_path, u').
Proof.
  unfold load_kernel. destruct (handle_ok u) as (h & u1 & H1 & V1). rewrite (ok_then_Ok _ _ _ _ _ H1).
  destruct (protocol_ok u1 h) as (p & u2 & H2 & V2). rewrite (ok_then_Ok _ _ _ _ _ H2).
  destruct (volume_ok u2 p) as (r & u3 & H3 & V3). rewrite (ok_then_Ok _ _ _ _ _ H3).
  rewrite <- V1, <- V2, <- V3. destruct (volume u3 !! opened_path) as [bs|] eqn:Hf.
  - destruct (open_found u3 r opened_path bs Hf) as (f & u4 & H4 & O4). rewrite (ok_then_Ok _ _ _ _ _ H4).
    destruct (size_ok u4 f 512 bs O4) as (u5 & H5 & O5). rewrite (ok_then_Ok _ _ _ _ _ H5).
    destruct (read_ok u5 f (zrepeat (zlen bs) 0) bs O5) as (u6 & H6); [by apply zlen_repeat, zlen_nonneg|].
    rewrite (ok_then_Ok _ _ _ _ _ H6). by exists u6.
  - destruct (open_missing u3 r opened_path Hf) as (u4 & H4). exists u4.
    unfold ok_then. by rewrite (bind_Ret _ _ _ _ _ H4).
Qed.

Lemma copy_inside dest data mem i : 0 ≤ i < zlen data → copy_to dest data mem (dest + i) = data !!! Z.to_nat i.
Proof.
  intros Hi. unfold copy_to. destruct (Z.leb_spec dest (dest + i)), (Z.ltb_spec (dest + i) (dest + zlen data)); try lia.
  cbn. do 2 f_equal. lia.
Qed.

Lemma copy_outside dest data mem a : ¬ dest ≤ a < dest + zlen data → copy_to dest data mem a = mem a.
Proof. intros Ha. unfold copy_to. by destruct (Z.leb_spec dest a), (Z.ltb_spec a (dest + zlen data)); try lia. Qed.

(** Run a message. *)
Ltac say :=
  match goal with |- context [(on_uefi (writeln ?s) ≫= _) ?l] =>
    let u := fresh "u" in let Hr := fresh "Hr" in let Hv := fresh "Hv" in
    destruct (writeln_ok s (ld_uefi l)) as (u & Hr & Hv);
    rewrite (bind_Ret _ _ _ _ _ (on_uefi_Ret _ _ _ _ Hr)); cbn [ld_mem ld_uefi] in Hv |- *
  end.

(** C40. The boot loader, on a firmware that works. Without a file at the path that it opens
    it returns [LOAD_ERROR] and has written no memory; a file at [KERNEL_PATH] alone does not
    help, for the path it opens is another one. With a file there, it enters the kernel at
    1 MiB, where the file's bytes are from the first on (whatever the firmware answered to
    the request for these pages), with 0 in place of the start info. *)
Theorem efi_main_outcomes l :
  (volume (ld_uefi l) !! opened_path = None →
     ∃ l', efi_main l = Ret (LOAD_ERROR, l') ∧ ld_mem l' = ld_mem l) ∧
  (∀ bs, volume (ld_uefi l) = {[KERNEL_PATH := bs]} → volume (ld_uefi l) !! opened_path = None) ∧
  (∀ bs, volume (ld_uefi l) !! opened_path = Some bs →
     ∃ l' entries, efi_main l = Ret (Entered 0x100000 0 (memory_end entries), l') ∧
       (∀ i, 0 ≤ i < zlen bs → ld_mem l' (0x100000 + i) = bs !!! Z.to_nat i) ∧
       (∀ a, ¬ 0x100000 ≤ a < 0x100000 + zlen bs → ld_mem l' a = ld_mem l a)).
Proof.
  assert (Hload : ∃ u, efi_main l = boot_kernel (volume (ld_uefi l) !! opened_path) (mkLoader (ld_mem l) u)).
  { unfold efi_main. destruct (clear_ok (ld_uefi l)) as (u & Hu & Hv).
    rewrite (bind_Ret _ _ _ _ _ (on_uefi_Ret _ _ _ _ (unwrap_ok _ _ _ _ Hu))). do 2 say.
    destruct (load_kernel_ok u1) as (u' & Hu'). exists u'.
    rewrite (bind_Ret _ _ _ _ _ (on_uefi_Ret _ (mkLoader _ _) _ _ Hu')). cbn [ld_mem]. congruence. }
  destruct Hload as (u & Hmain). split_and!.
  - intros Hnone. rewrite Hmain, Hnone. unfold boot_kernel. say. by eexists.
  - intros bs ->. by apply lookup_singleton_ne.
  - intros bs Hbs. rewrite Hmain, Hbs. unfold boot_kernel. say.
    match goal with |- context [(on_uefi (allocate_pages ?a ?n) ≫= _) ?s] =>
      destruct (pages_answer (ld_uefi s) a n) as (r & u2 & Hp);
      rewrite (bind_Ret _ _ _ _ _ (on_uefi_Ret _ _ _ _ Hp)) end.
    rewrite bind_modify. cbn [ld_mem ld_uefi]. do 2 say.
    match goal with |- context [(on_uefi exit_boot_services ≫= _) ?s] =>
      destruct (exit_answer (ld_uefi s)) as (entries & u5 & He);
      rewrite (bind_Ret _ _ _ _ _ (on_uefi_Ret _ _ _ _ He)) end.
    eexists _, entries. split; [reflexivity|]. cbn [ld_mem]. split.
    + intros i Hi. by apply copy_inside.
    + intros a Ha. by apply copy_outside.
Qed.

(** The total that the loader computes, when no address overflows: the largest end. *)
Lemma memory_end_max entries :
  (∀ e, e ∈ entries → 0 ≤ e.1 ∧ 0 ≤ e.2 ∧ e.1 + e.2 * 0x1000 < 2 ^ 64) →
  (∀ e, e ∈ entries → e.1 + e.2 * 0x1000 ≤ memory_end entries) ∧
  (memory_end entries = 0 ∨ ∃ e, e ∈ entries ∧ memory_end entries = e.1 + e.2 * 0x1000).
Proof.
  induction entries as [|e l IH] using rev_ind; intros Hall.
  { split; [by intros e He%elem_of_nil|by left]. }
  destruct IH as [Hle Hat]; [intros x Hx; apply Hall, elem_of_app; by left|].
  destruct (Hall e) as (H1 & H2 & H3); [apply elem_of_app; right; by apply list_elem_of_singleton|].
  unfold memory_end in *. rewrite foldl_app. cbn [foldl]. set (t := foldl _ 0 l) in *.
  rewrite (wrap64_small (e.2 * 0x1000)), wrap64_small by lia.
  destruct (Z.ltb_spec t (e.1 + e.2 * 0x1000)); (split;
    [intros x [Hx| ->%list_elem_of_singleton]%elem_of_app; [specialize (Hle x Hx)|]; lia|]).
  - right. exists e. split; [apply elem_of_app; right; by apply list_elem_of_singleton|done].
  - destruct Hat as [->|(x & Hx & ->)]; [by left|right]. exists x. split; [apply elem_of_app; by left|done].
Qed.

End Outcomes.

(** ** A firmware with a volume in memory *)

Record Firmware := mkFirmware { fw_files : gmap (list Z) (list Z); fw_open : list (list Z) }.

#[export] Instance firmware : Uefi Firmware := {
  stdout_clear u := Ret (Ok tt, u);
  stdout_write _ u := Ret (Ok tt, u);
  get_handle_for_protocol u := Ret (Ok 0, u);
  open_protocol_exclusive h u := Ret (Ok h, u);
  open_volume h u := Ret (Ok h, u);
  file_open _ path u :=
    match fw_files u !! path with
    | Some bs => Ret (Ok (zlen (fw_open u)), mkFirmware (fw_files u) (fw_open u ++ [bs]))
    | None => Ret (Err tt, u)
    end;
  file_size f _ u :=
    match fw_open u !! Z.to_nat f with Some bs => Ret (Ok (zlen bs), u) | None => Ret (Err tt, u) end;
  file_read f buf u :=
    match fw_open u !! Z.to_nat f with
    | Some bs => Ret (Ok (take (length buf) bs ++ drop (length bs) buf), u)
    | None => Ret (Err tt, u)
    end;
  allocate_pages _ _ u := Ret (Err tt, u);
  exit_boot_services u := Ret ([(0, 0x100); (0x100000, 0x700)], u);
}.

#[export] Program Instance firmware_laws : UefiLaws Firmware := {
  volume := fw_files;
  opened u f := fw_open u !! Z.to_nat f;
}.
Next Obligation. intros u. by eexists. Qed.
Next Obligation. intros u s. by eexists. Qed.
Next Obligation. intros u. by eexists _, _. Qed.
Next Obligation. intros u h. by eexists _, _. Qed.
Next Obligation. intros u h. by eexists _, _. Qed.
Next Obligation.
  intros u d path bs Hbs. cbn. rewrite Hbs. eexists _, _. split; [reflexivity|]. cbn.
  unfold zlen. rewrite Nat2Z.id. by apply list_lookup_middle.
Qed.
Next Obligation. intros u d path Hp. cbn. rewrite Hp. by eexists. Qed.
Next Obligation. intros u f n bs Hf. cbn in *. rewrite Hf. by eexists. Qed.
Next Obligation.
  intros u f buf bs Hf Hl. cbn in *. rewrite Hf. exists u. unfold zlen in Hl.
  rewrite take_ge, drop_ge by lia. by rewrite app_nil_r.
Qed.
Next Obligation. intros u a n. by eexists _, _. Qed.
Next Obligation. intros u. by eexists _, _. Qed.

Lemma efi_main_outcomes_witness :
  (∃ l', efi_main (mkLoader (λ _, 0) (mkFirmware {[KERNEL_PATH := bytes_of "kernel"]} [])) = Ret (LOAD_ERROR, l')) ∧
  ∃ l' m, efi_main (mkLoader (λ _, 0) (mkFirmware {[opened_path := [0x7F; 69]]} [])) = Ret (Entered 0x100000 0 m, l') ∧
    ld_mem l' 0x100000 = 0x7F.
Proof.
  split.
  - destruct (efi_main_outcomes (mkLoader (λ _, 0) (mkFirmware {[KERNEL_PATH := bytes_of "kernel"]} []))) as (Hno & Hpath & _).
    destruct (Hno (Hpath _ eq_refl)) as (l' & Hr & _). exists l'. exact Hr.
  - destruct (efi_main_outcomes (mkLoader (λ _, 0) (mkFirmware {[opened_path := [0x7F; 69]]} []))) as (_ & _ & Hok).
    destruct (Hok [0x7F; 69]) as (l' & entries & Hr & Hin & _); [apply lookup_singleton_eq|].
    exists l', (memory_end entries). split; [exact Hr|]. exact (Hin 0 ltac:(by vm_compute)).
Defined.
