(* ===== verification/Userland.v ===== *)
(** * The package manager, the editor and the shared library (flux, editor, libs/shared)

    Skeletons that no kernel code uses yet: their data, and operations that mostly answer
    that they are not implemented. *)

From stdpp Require Import base numbers list strings.
From S2P Require Import Prelude.

#[local] Open Scope Z_scope.

(** ** libs/shared *)

Inductive ArcadiaError :=
  | ArcNotFound
  | PermissionDenied
  | InvalidPath
  | ArcIoError
  | OutOfMemory
  | ArcDeviceNotFound
  | UnsupportedOperation
  | ArcBufferTooSmall
  | AlreadyExists
  | InvalidArgument
  | NotInitialized
  | ArcTimeout
  | Unknown.

#[export] Instance ArcadiaError_eq_dec : EqDecision ArcadiaError.
Proof. solve_decision. Defined.

Definition ArcadiaError_display (e : ArcadiaError) : string :=
  match e with
  | ArcNotFound => "Not found"
  | PermissionDenied => "Permission denied"
  | InvalidPath => "Invalid path"
  | ArcIoError => "I/O error"
  | OutOfMemory => "Out of memory"
  | ArcDeviceNotFound => "Device not found"
  | UnsupportedOperation => "Unsupported operation"
  | ArcBufferTooSmall => "Buffer too small"
  | AlreadyExists => "Already exists"
  | InvalidArgument => "Invalid argument"
  | NotInitialized => "Not initialized"
  | ArcTimeout => "Timeout"
  | Unknown => "Unknown error"
  end.

Inductive LogLevel := LogInfo | LogWarn | LogError | LogDebug | LogTrace.

Inductive LogModule :=
  | LogKernel | LogMemory | LogDrivers | LogFilesystem | LogTerminal | LogFlux | LogBuildSystem | LogUnknown.

Definition KERNEL_VERSION : string := "0.1.0".
Definition SHARED_KERNEL_NAME : string := "Arcadia".
Definition ARCHITECTURE : string := "x86_64".
Definition MAX_HEAP_SIZE : Z := 1024 * 1024.
Definition SHARED_PAGE_SIZE : Z := 4096.

(** ** flux *)

Record Package := mkPackage { package_name : list Z; package_version : list Z; package_description : list Z }.

Record FluxManager := mkFlux { installed_packages : list Package }.

Definition FluxManager_new : FluxManager := mkFlux [].
Definition flux_install (package : list Z) : M FluxManager (result unit string) := mret (Err "Not implemented").
Definition flux_remove (package : list Z) : M FluxManager (result unit string) := mret (Err "Not implemented").
Definition flux_update : M FluxManager (result unit string) := mret (Err "Not implemented").
Definition flux_list (m : FluxManager) : unit := tt.

(** ** editor *)

Record ArcEditor := mkEditor {
  file_path : option (list Z);
  ed_content : list (list Z);
  cursor_x : Z;
  cursor_y : Z;
  dirty : bool;
}.

Definition ArcEditor_new : ArcEditor := mkEditor None [] 0 0 false.

Definition editor_open (path : list Z) : M ArcEditor (result unit string) :=
  _ ← modify (λ e, mkEditor (Some path) (ed_content e) (cursor_x e) (cursor_y e) (dirty e));
  mret (Ok tt).

Definition editor_save (e : ArcEditor) : result unit string := Err "Not implemented".

(** ** Properties *)

(** An error can be told from its text. *)
Theorem ArcadiaError_display_inj e e' : ArcadiaError_display e = ArcadiaError_display e' → e = e'.
Proof. by destruct e, e'. Qed.

(** Opening a file only notes its path: the text that was open stays, with its cursor, and
    saving fails. *)
Theorem editor_open_keeps_text path e :
  ∃ e', editor_open path e = Ret (Ok tt, e') ∧ file_path e' = Some path ∧ ed_content e' = ed_content e ∧
    cursor_x e' = cursor_x e ∧ cursor_y e' = cursor_y e ∧ editor_save e' = Err "Not implemented"%string.
Proof. by eexists. Qed.
